(* ===== verification/_CoqProject ===== *)
-Q . S2P
Prelude.v
Domain.v
Database.v
Metrics.v
World.v
StoreBase.v
StoreUsers.v
StoreAssignments.v
StoreTraffic.v
StoreAdmin.v
GoStd.v
Encoding.v
Json.v
Config.v
RateLimit.v
Xray.v
StatNames.v
Worker.v
ServiceUsers.v
ServiceAdmin.v
ServiceBilling.v
Sublink.v
Httpapi.v
Router.v
System.v
Shutdown.v
Tables.v
Metering.v
Collection.v
Convergence.v
Fleet.v
Health.v
Reads.v
Runs.v
Nodes.v
Lifecycle.v
Billing.v
Removal.v
Races.v
Enforcement.v
Access.v
Startup.v
Links.v
Typing.v
Gateway.v
Authority.v
Refusals.v
Demo.v
Witnesses.v
