(* ===== verification/Prelude.v ===== *)
(** * xray-api: a model of the control plane and what it guarantees

    xray-api manages a fleet of Xray nodes from one PostgreSQL database: an
    administrator (or a billing provider) changes users, inbounds and nodes
    over HTTP; one actor per node probes it, reads its traffic counters and
    pushes the accounts the database wants; sweepers expire users; subscribers
    fetch their connection links by a secret token.

    ** Parts and files

    The files are listed from the bottom up; each names the Go files it
    translates at its top.

    - [Prelude]: results, the state-and-error monad with its notation, the
      [preserves] calculus and its tactic [go_inv].
    - [Domain]: the structs, enumerations and errors of internal/domain.
    - [Database]: one finite map per table of internal/store/migrations, and
      [db_ok], the conjunction of the PRIMARY KEY, UNIQUE and REFERENCES
      constraints.
    - [Metrics]: the Prometheus collectors of internal/metrics; an update gives
      one value per label of its collector, by its type.
    - [World]: the parameters of the model ([Platform]: clock, random source,
      other database sessions, statement faults, nodes, X.509, hashes), the
      state of the process ([World]: tables, actors, network, metrics), and the
      primitives [exec], [exec_tx], [time_Now] that consult the platform.
    - [StoreBase], [StoreUsers], [StoreAssignments], [StoreTraffic],
      [StoreAdmin]: internal/store, one definition per SQL statement ([sql_...])
      and one per method.
    - [GoStd], [Encoding], [Json]: the functions of Go's standard library that
      the source calls, and decoders for what the encoders produce.
    - [Config], [RateLimit]: internal/config and httpapi/ratelimit.go.
    - [Xray], [StatNames]: internal/xray, with [XrayLaws], the contract of the
      HandlerService, from which the specifications [AddUser_spec] and
      [RemoveUser_spec] of the client are proved; the worker's theorems use
      those only.
    - [Worker]: internal/worker.  A node actor is a cell of [w_heap]; the
      manager's map [w_actors] points at it; one turn of its select loop is
      [run_turn].
    - [ServiceUsers], [ServiceAdmin], [ServiceBilling]: internal/service.
    - [Sublink]: internal/sublink.
    - [Httpapi], [Router]: internal/httpapi, a definition per handler, the
      middlewares and the route table.
    - [System]: the process as a step relation.  A step is a request through
      [Router], the first probe of an actor, a turn of an actor's loop, a tick
      of a sweeper, or Start or Stop of the manager.
    - [Shutdown]: what Manager.Stop waits for, as a step relation from the
      cancelled context to the closed connections ([drains]).
    - [Startup]: cmd/xray-api/main.go and store.Open; a whole run of the
      process, from [Start] through any steps of the system to the end of
      [drains], is the relation [runServe], and [main] runs any command.

    Theorems, by file:

    - [System], [Typing] and [Nodes]: invariants of every reachable state: at
      most one live actor per node, well-formed inbounds, assignments and nodes.
      That the tables satisfy the schema's constraints is PostgreSQL's doing; it
      is a lemma here ([reachable_ok]), for the theorems that need it.
      [Startup] carries the invariants to a run of the process, from the command
      line to the exit code.  [Tables] has the frame lemmas that the invariants
      of the tables share: which steps write which table ([sql_keeps],
      [Stable], [Background]).
    - [Authority]: what happens to the tables without a request that carries a
      valid key or a signed event; how long a key made by gen-key is accepted.
    - [Refusals]: an administrative request that is refused leaves no trace in
      the tables, though most operations are several statements.
    - [Shutdown]: the shutdown terminates under any scheduler that does not
      starve the exits, and leaves nothing behind.
    - [Metering] and [Collection]: a batch of traffic is applied exactly or not
      at all, nobody stays active over the quota, and no byte a node reported
      is lost or counted twice, also when the database refuses it.
    - [Convergence]: a reconcile pass brings a node to the database's desired
      state, credentials included, and does the bookkeeping of the
      assignments; what it cannot repair (stale credentials).
    - [Fleet]: passes of different nodes do not disturb each other, so a round
      over all actors converges the whole fleet, and a further one is idle.
    - [Races]: what the absence of locks and transactions between the
      goroutines and the requests can undo.
    - [Enforcement]: suspending a user, or exceeding the quota, is carried to
      every node the user is on.
    - [Health]: the health check refines a small machine ([on_probe]); what follows
      for sequences of probes.
    - [Runs], [Lifecycle], [Removal], [Billing]: what each operation on users
      and each billing event does to the tables, on success and on error.
    - [Nodes]: what deleting and updating a node do to its rows and its actor.
    - [Reads]: the user search and the usage report, exactly.
    - [Access]: API keys, subscription tokens and the validation of inbounds.
    - [Links] and [Gateway]: links parse back, credentials agree with the
      node's accounts, administrative routes need a key, webhooks need a
      signature, subscriptions are served in either format, pages of users are
      exact.
    - [Demo] instantiates every parameter and class with concrete functions,
      and [Witnesses] applies the theorems to a scenario on it, so that no
      assumption is vacuous.

    ** Assumptions, each a class or a named hypothesis

    - [Rely], [RelyTyped]: between two statements other sessions write
      anything that respects the schema (and the row invariant).
    - [Alone]: no other session writes.  [Quiet]: moreover no statement fails
      for an outside reason.  [CleanFaults]: a statement reported as failed was
      not executed.
    - [XrayLaws]: adding and removing accounts on a node behave as documented.
      [accepts] and [pass_ready]: the node answers pushes, and the actor is
      connected to it.
    - [DriverLaws]: connecting and migrating leave a database that satisfies
      the schema.
    - [RefusesDuplicates]: a node refuses to add an email it holds.
    - [Stable]: other sessions keep the invariant of the tables in question.
    - [disturbed_at]: another session writes before one given statement only.
    - [RateLaws]: a token bucket left alone for two minutes is full again.

    ** Choices of the model

    - Errors are values of [error]; [Err] is a returned Go error.  A Go method
      that logs and returns is wrapped in [ignore].
    - Machine integers are [Z]; the wrap-around of [int64] is [int64], the range
      checks of bigint and integer columns are [in_int8] and [in_int4].
    - Instants are microseconds, and AddDate adds whole days (the servers run in
      UTC), its seconds wrapping at 64 bits; an instant outside the range of
      timestamptz is refused with 22008 ([in_timestamptz]).  ILIKE and ToLower
      fold ASCII only, where PostgreSQL follows the locale.
    - A table is keyed by the canonical text of a UUID.  A text from a request
      is read by PostgreSQL ([uuid_in], a parameter of [PgTypes]): it stands for
      a key in whatever spelling ([uuid_key], [pg_key], [by_id]), and a
      malformed one makes the statement fail with 22P02, which mapErr does not
      know.  Ids that come from a row, or from uuid.NewString, are used as they
      are.  Where a text of a URL is compared with a TEXT column (subscription
      tokens, the filters of the user list), [text_in] says which ones
      PostgreSQL takes at all; that it refuses a zero byte in other texts too
      (a JSON body can hold one) is not modelled.
    - [clock], [uuid_at] and [rand_at] are arbitrary functions of the position
      [w_k], so two readings are unrelated unless a theorem says otherwise.
      [allow] reads the clock three times, once for the pruning cutoff even
      when it does not prune.
    - A statement sees what [interfere] made of the tables; a transaction sees
      its own view and commits or rolls back as a whole.  Interleaving of the
      process's own goroutines is at the granularity of a step; their effect
      on the database inside a step is part of [interfere], on the actors it
      is not modelled (by [turn_isolated] a turn only ever fills the trigger
      slot of another actor).
    - A gRPC timeout is a failed RPC.  StartNode gives the actor its own copy of
      the node; metrics are integers (the collector adds 64-bit counts).
    - JSON, YAML, RFC 3339 and duration decoders are parameters; the body of a
      response is the Go value given to the encoder.
    - All recursion is structural or bounded by the length of its input; no
      fuel is needed, except that [trim_front] counts down the string's length.

    ** Not modelled

    Path matching, RealIP and panic recovery of chi; the text of /metrics (a
    parameter), the observations of the latency histogram, which are floating
    point, and the panic of a counter that is given a negative number; logging;
    signals and the HTTP listener with its timeouts (events of a run); what
    goose and the SQL driver do; version and embedded assets (parameters). *)

From stdpp Require Import base gmap strings list fin_maps sorting.
From Stdlib Require Import ZArith Lia.

(** ** Results and the state-and-error monad *)

(** The outcome of a Go function that returns [(T, error)]. *)
Inductive res (E A : Type) : Type :=
| Ok (a : A)
| Err (e : E).
Arguments Ok {E A} a.
Arguments Err {E A} e.

#[export] Instance res_eq_dec {E A} `{EqDecision E, EqDecision A} : EqDecision (res E A).
Proof. solve_decision. Defined.

Definition res_map {E A B} (f : A → B) (r : res E A) : res E B :=
  match r with Ok a => Ok (f a) | Err e => Err e end.

Definition is_ok {E A} (r : res E A) : bool :=
  match r with Ok _ => true | Err _ => false end.

(** A computation over a mutable state [S] that may stop with an error [E].
    The state survives an error: nothing is rolled back implicitly. *)
Definition M (S E A : Type) : Type := S → S * res E A.

Section Monad.
Context {S E : Type}.

Definition ret {A} (a : A) : M S E A := λ s, (s, Ok a).

Definition throw {A} (e : E) : M S E A := λ s, (s, Err e).

Definition bind {A B} (m : M S E A) (f : A → M S E B) : M S E B :=
  λ s, match m s with
       | (s', Ok a) => f a s'
       | (s', Err e) => (s', Err e)
       end.

(** Run [m] and hand its outcome, error included, to the caller. *)
Definition attempt {A} (m : M S E A) : M S E (res E A) :=
  λ s, let '(s', r) := m s in (s', Ok r).

(** Run [m] for its effect and drop its outcome ([_ = f()] in the code, or
    a function whose early [return]s only log). *)
Definition ignore {A} (m : M S E A) : M S E unit :=
  λ s, ((m s).1, Ok tt).

(** Rewrite the error of [m]. *)
Definition map_err {A} (f : E → E) (m : M S E A) : M S E A :=
  λ s, match m s with
       | (s', Ok a) => (s', Ok a)
       | (s', Err e) => (s', Err (f e))
       end.

Definition lift_res {A} (r : res E A) : M S E A := λ s, (s, r).

Definition gets {A} (f : S → A) : M S E A := λ s, (s, Ok (f s)).

Definition modify (f : S → S) : M S E unit := λ s, (f s, Ok tt).

(** [for _, x := range l { body }], stopping at the first error. *)
Fixpoint for_each {A} (l : list A) (body : A → M S E unit) : M S E unit :=
  match l with
  | [] => ret tt
  | x :: l' => bind (body x) (λ _, for_each l' body)
  end.
End Monad.

Declare Scope go_scope.
Delimit Scope go_scope with go.
Notation "x <- m ;; k" := (bind m (λ x, k))
  (at level 100, m at next level, right associativity) : go_scope.
Notation "m ;;; k" := (bind m (λ _, k))
  (at level 100, right associativity) : go_scope.
Open Scope go_scope.

(** ** Lists *)

Lemma Forall_filter_keep {A} (P Q : A → Prop) `{∀ x, Decision (Q x)} l :
  Forall P l → Forall P (filter Q l).
Proof.
  rewrite !Forall_forall. intros HP x [_ Hx]%list_elem_of_filter. auto.
Qed.

Lemma forallb_Forall {A} (f : A → bool) l : forallb f l = true → Forall (λ x, f x = true) l.
Proof.
  induction l as [|x l IH]; cbn; [constructor|]. intros [Hx Hl]%andb_true_iff. by constructor; auto.
Qed.

(** ** Preservation of a state predicate, whatever the outcome *)

Section Preserves.
Context {S E : Type} (I : S → Prop).

(** [m] re-establishes [I] on every path, error paths included. *)
Definition preserves {A} (m : M S E A) : Prop := ∀ s, I s → I (m s).1.

Lemma preserves_ret {A} (a : A) : preserves (ret a).
Proof. by intros s. Qed.

Lemma preserves_throw {A} (e : E) : preserves (throw (A := A) e).
Proof. by intros s. Qed.

Lemma preserves_lift_res {A} (r : res E A) : preserves (lift_res r).
Proof. by intros s. Qed.

Lemma preserves_gets {A} (f : S → A) : preserves (gets f).
Proof. by intros s. Qed.

Lemma preserves_modify f : (∀ s, I s → I (f s)) → preserves (modify f).
Proof. intros H s. apply H. Qed.

Lemma preserves_bind {A B} (m : M S E A) (f : A → M S E B) :
  preserves m → (∀ a, preserves (f a)) → preserves (bind m f).
Proof.
  intros Hm Hf s Hs. unfold bind. specialize (Hm s Hs).
  destruct (m s) as [s' [a|e]]; [by apply Hf | done].
Qed.

Lemma preserves_attempt {A} (m : M S E A) : preserves m → preserves (attempt m).
Proof.
  intros Hm s Hs. unfold attempt. specialize (Hm s Hs). by destruct (m s).
Qed.

Lemma preserves_ignore {A} (m : M S E A) : preserves m → preserves (ignore m).
Proof. intros Hm s Hs. by apply Hm. Qed.

Lemma preserves_map_err {A} g (m : M S E A) : preserves m → preserves (map_err g m).
Proof.
  intros Hm s Hs. unfold map_err. specialize (Hm s Hs).
  by destruct (m s) as [s' [a|e]].
Qed.

Lemma preserves_for_each {A} (l : list A) body :
  (∀ x, preserves (body x)) → preserves (for_each l body).
Proof.
  intros Hb. induction l as [|x l IH]; cbn [for_each].
  - apply preserves_ret.
  - apply preserves_bind; auto.
Qed.

(** The continuation may use what is known of the value read. *)
Lemma preserves_bind_val {A B} (Q : A → Prop) (m : M S E A) (f : A → M S E B) :
  (∀ s, I s → I (m s).1 ∧ ∀ a, (m s).2 = Ok a → Q a) →
  (∀ a, Q a → preserves (f a)) → preserves (bind m f).
Proof.
  intros Hm Hf s Hs. unfold bind. destruct (Hm s Hs) as [Hs' HQ].
  destruct (m s) as [s' [a|e]]; [|done]. apply Hf; [by apply HQ|done].
Qed.

Lemma preserves_for_each_in {A} (Q : A → Prop) (l : list A) body :
  Forall Q l → (∀ x, Q x → preserves (body x)) → preserves (for_each l body).
Proof.
  intros Hl Hb. induction Hl as [|x l Hx _ IH]; cbn [for_each].
  - apply preserves_ret.
  - apply preserves_bind; auto.
Qed.
End Preserves.

(** ** Running a sequence *)

Lemma bind_Ok {S E A B} (m : M S E A) (f : A → M S E B) s s' a :
  m s = (s', Ok a) → bind m f s = f a s'.
Proof. unfold bind. by intros ->. Qed.

Lemma bind_Err {S E A B} (m : M S E A) (f : A → M S E B) s s' e :
  m s = (s', Err e) → bind m f s = (s', Err e).
Proof. unfold bind. by intros ->. Qed.

Lemma bind_inv {S E A B} (m : M S E A) (f : A → M S E B) s s' b :
  bind m f s = (s', Ok b) → ∃ s1 a, m s = (s1, Ok a) ∧ f a s1 = (s', Ok b).
Proof. unfold bind. destruct (m s) as [s1 [a|e]]; [by eauto|done]. Qed.

Lemma map_err_Ok {S E A} g (m : M S E A) s s' a :
  map_err g m s = (s', Ok a) → m s = (s', Ok a).
Proof. unfold map_err. destruct (m s) as [s1 [b|e]]; [by intros [= <- <-]|done]. Qed.

Lemma for_each_fmap {S E A B} (f : A → B) (l : list A) (body : B → M S E unit) :
  for_each (f <$> l) body = for_each l (λ x, body (f x)).
Proof.
  induction l as [|x l IH]; [done|].
  change (bind (body (f x)) (λ _, for_each (f <$> l) body) =
          bind (body (f x)) (λ _, for_each l (λ x, body (f x)))). by rewrite IH.
Qed.

(** ** Computations that cannot fail *)

Definition never_fails {S E A} (m : M S E A) : Prop := ∀ s, ∃ s' a, m s = (s', Ok a).

Lemma for_each_never_fails {S E A} (l : list A) (body : A → M S E unit) :
  (∀ x, never_fails (body x)) → never_fails (for_each l body).
Proof.
  intros Hb. induction l as [|x l IH]; intros s; cbn [for_each]; [by exists s, tt|].
  unfold bind. destruct (Hb x s) as (s' & [] & ->). apply IH.
Qed.

Create HintDb go_inv.
#[export] Hint Resolve preserves_ret preserves_throw preserves_lift_res
  preserves_gets preserves_attempt preserves_ignore preserves_map_err
  preserves_for_each : go_inv.

(** Walk down the monadic structure of a computation, splitting its tests. *)
Ltac go_inv_step :=
  match goal with
  | |- ∀ _, _ => intro
  | |- preserves _ (bind _ _) => apply preserves_bind
  | |- preserves _ (attempt _) => apply preserves_attempt
  | |- preserves _ (ignore _) => apply preserves_ignore
  | |- preserves _ (map_err _ _) => apply preserves_map_err
  | |- preserves _ (for_each _ _) => apply preserves_for_each
  | |- preserves _ (match ?x with _ => _ end) => destruct x
  | |- preserves _ (let _ := _ in _) => cbv zeta
  end.
Ltac go_inv := repeat first [ solve [eauto with go_inv] | go_inv_step ].
