(* ===== verification/Domain.v ===== *)
(** * The core types (src/internal/domain)

    One record per Go struct, with a field prefix in the letter the code names
    its variables by ([u.Email] is [u_Email]); string-typed Go enumerations stay
    strings, because the code stores and compares them as strings and does not
    reject other values everywhere.  Pointers to scalars are options, instants
    are microseconds since the Unix epoch (the resolution of a PostgreSQL
    [TIMESTAMPTZ]), and 64-bit counters are [Z] with the wrap-around of Go's
    [int64] written out. *)

From stdpp Require Import base gmap strings list.
From Stdlib Require Import ZArith Lia.
From S2P Require Import Prelude.
Local Open Scope Z_scope.

(** ** Machine integers and instants *)

(** Two's-complement wrap-around of Go's signed 64-bit arithmetic. *)
Definition int64 (z : Z) : Z := (z + 2 ^ 63) mod 2 ^ 64 - 2 ^ 63.

Definition int64_range (z : Z) : Prop := - 2 ^ 63 ≤ z < 2 ^ 63.

Lemma int64_id z : int64_range z → int64 z = z.
Proof. unfold int64, int64_range. intros H. rewrite Z.mod_small; lia. Qed.

Lemma int64_in_range z : int64_range (int64 z).
Proof.
  unfold int64, int64_range.
  pose proof (Z.mod_pos_bound (z + 2 ^ 63) (2 ^ 64)). lia.
Qed.

Definition Time : Type := Z.

Definition day : Z := 86400000000.

(** The seconds of a [time.Time] are a 64-bit integer counted from the year 1. *)
Definition unixToInternal : Z := 62135596800.

(** [t.AddDate(0, 0, d)] on a UTC instant: whole days, in 64-bit seconds. *)
Definition AddDate (t : Time) (d : Z) : Time :=
  (int64 (t / 1000000 + unixToInternal + d * 86400) - unixToInternal) * 1000000 + t mod 1000000.

Lemma AddDate_days t d :
  int64_range (t / 1000000 + unixToInternal + d * 86400) → AddDate t d = t + d * day.
Proof.
  intros H. unfold AddDate. rewrite int64_id by done. unfold day.
  pose proof (Z.div_mod t 1000000 ltac:(lia)). lia.
Qed.

(** [t.Unix()]. *)
Definition Unix (t : Time) : Z := t / 1000000.

(** [t.After(u)]. *)
Definition After (t u : Time) : bool := bool_decide (u < t).

(** ** Errors (errors.go, and the error values of database/sql and pgx) *)

Inductive error : Type :=
| ErrNotFound
| ErrConflict
| ErrValidation
| ErrNoRows                                  (* sql.ErrNoRows *)
| PgError (code constraint : string)         (* *pgconn.PgError *)
| ValidationError (msg : string)             (* *domain.ValidationError *)
| WrapError (msg : string) (inner : error)   (* fmt.Errorf("... %w", inner) *)
| ErrorString (msg : string).                (* any other error *)

#[export] Instance error_eq_dec : EqDecision error.
Proof. solve_decision. Defined.

(** The rendered message, [err.Error()]. *)
Definition Error (e : error) : string :=
  match e with
  | ErrNotFound => "not found"
  | ErrConflict => "conflict"
  | ErrValidation => "validation error"
  | ErrNoRows => "sql: no rows in result set"
  | PgError code constraint => "ERROR: " +:+ constraint +:+ " (SQLSTATE " +:+ code +:+ ")"
  | ValidationError msg => msg
  | WrapError msg _ => msg
  | ErrorString msg => msg
  end.

(** [errors.Unwrap]. *)
Definition Unwrap (e : error) : option error :=
  match e with
  | ValidationError _ => Some ErrValidation
  | WrapError _ inner => Some inner
  | _ => None
  end.

(** [errors.Is]: the error itself or one down its [Unwrap] chain. *)
Fixpoint errors_Is (e target : error) : bool :=
  bool_decide (e = target) ||
  match e with
  | ValidationError _ => bool_decide (ErrValidation = target)
  | WrapError _ inner => errors_Is inner target
  | _ => false
  end.

(** [errors.As(err, &pgErr)]. *)
Fixpoint as_PgError (e : error) : option (string * string) :=
  match e with
  | PgError code constraint => Some (code, constraint)
  | WrapError _ inner => as_PgError inner
  | _ => None
  end.

Definition Validationf (msg : string) : error := ValidationError msg.

(** ** Inbounds (inbound.go) *)

Abbreviation Protocol := string (only parsing).
Definition ProtocolVLESS : Protocol := "vless".
Definition ProtocolVMess : Protocol := "vmess".
Definition ProtocolTrojan : Protocol := "trojan".
Definition ProtocolShadowsocks : Protocol := "shadowsocks".

(** Membership of a string in a literal list of Go [case] labels. *)
Definition one_of (s : string) (l : list string) : bool := existsb (String.eqb s) l.

Definition Protocol_Valid (p : Protocol) : bool :=
  one_of p [ProtocolVLESS; ProtocolVMess; ProtocolTrojan; ProtocolShadowsocks].

Definition ShadowsocksMethods : gmap string bool :=
  {[ "aes-128-gcm" := true; "aes-256-gcm" := true;
     "chacha20-ietf-poly1305" := true; "xchacha20-ietf-poly1305" := true;
     "none" := true ]}.

Abbreviation Network := string (only parsing).
Definition NetworkTCP : Network := "tcp".
Definition NetworkWS : Network := "ws".
Definition NetworkGRPC : Network := "grpc".
Definition NetworkHTTPUpgrade : Network := "httpupgrade".
Definition NetworkXHTTP : Network := "xhttp".

Definition Network_Valid (n : Network) : bool :=
  one_of n [NetworkTCP; NetworkWS; NetworkGRPC; NetworkHTTPUpgrade; NetworkXHTTP].

Abbreviation Security := string (only parsing).
Definition SecurityNone : Security := "none".
Definition SecurityTLS : Security := "tls".
Definition SecurityReality : Security := "reality".

Definition Security_Valid (s : Security) : bool :=
  one_of s [SecurityNone; SecurityTLS; SecurityReality].

Record Inbound : Type := mkInbound {
  ib_ID : string;
  ib_NodeID : string;
  ib_Tag : string;
  ib_Protocol : Protocol;
  ib_ListenPort : Z;
  ib_PublicHost : string;
  ib_PublicPort : Z;
  ib_Network : Network;
  ib_Security : Security;
  ib_WSPath : string;
  ib_HostHeader : string;
  ib_GRPCServiceName : string;
  ib_SNI : string;
  ib_Fingerprint : string;
  ib_RealityPublicKey : string;
  ib_RealityShortID : string;
  ib_Flow : string;
  ib_Method : string;
  ib_XHTTPMode : string;
  ib_Remark : string;
  ib_CreatedAt : Time;
  ib_UpdatedAt : Time
}.

(** ** Nodes (node.go) *)

Abbreviation NodeStatus := string (only parsing).
Definition NodeStatusUnknown : NodeStatus := "unknown".
Definition NodeStatusOnline : NodeStatus := "online".
Definition NodeStatusOffline : NodeStatus := "offline".
Definition NodeStatusDisabled : NodeStatus := "disabled".

Record Node : Type := mkNode {
  n_ID : string;
  n_Name : string;
  n_APIAddress : string;
  n_APIPort : Z;
  n_APITLS : bool;
  n_APITLSServerName : string;
  n_APITLSInsecure : bool;
  n_APICACert : string;
  n_APIClientCert : string;
  n_APIClientKey : string;
  n_APIHasClientKey : bool;
  n_Status : NodeStatus;
  n_LastSeenAt : option Time;
  n_LastError : string;
  n_CreatedAt : Time;
  n_UpdatedAt : Time
}.

(** ** Plans (plan.go) *)

Record Plan : Type := mkPlan {
  p_ID : string;
  p_Name : string;
  p_DataLimitBytes : option Z;
  p_DurationDays : option Z;
  p_CreatedAt : Time;
  p_UpdatedAt : Time
}.

(** ** Users (user.go) *)

Abbreviation UserStatus := string (only parsing).
Definition UserStatusActive : UserStatus := "active".
Definition UserStatusSuspended : UserStatus := "suspended".
Definition UserStatusExpired : UserStatus := "expired".
Definition UserStatusDisabled : UserStatus := "disabled".

Record User : Type := mkUser {
  u_ID : string;
  u_Email : string;
  u_UUID : string;
  u_TrojanPassword : string;
  u_PlanID : option string;
  u_Status : UserStatus;
  u_DataLimitBytes : option Z;
  u_UsedUploadBytes : Z;
  u_UsedDownloadBytes : Z;
  u_ExpiresAt : option Time;
  u_SubToken : string;
  u_Note : string;
  u_ExternalID : option string;
  u_CreatedAt : Time;
  u_UpdatedAt : Time
}.

Definition UsedTotalBytes (u : User) : Z :=
  int64 (u_UsedUploadBytes u + u_UsedDownloadBytes u).

Definition OverQuota (u : User) : bool :=
  match u_DataLimitBytes u with
  | Some limit => bool_decide (limit ≤ UsedTotalBytes u)
  | None => false
  end.

Abbreviation SyncStatus := string (only parsing).
Definition SyncPending : SyncStatus := "pending".
Definition SyncApplied : SyncStatus := "applied".
Definition SyncFailed : SyncStatus := "failed".
Definition SyncRemoving : SyncStatus := "removing".

Record UserInbound : Type := mkUserInbound {
  ui_UserID : string;
  ui_InboundID : string;
  ui_SyncStatus : SyncStatus;
  ui_LastSyncedAt : option Time;
  ui_LastError : string
}.

Record TrafficSnapshot : Type := mkTrafficSnapshot {
  ts_ID : Z;
  ts_UserID : string;
  ts_NodeID : string;
  ts_UplinkBytes : Z;
  ts_DownlinkBytes : Z;
  ts_CollectedAt : Time
}.

(** ** API keys (apikey.go) *)

Record APIKey : Type := mkAPIKey {
  k_ID : string;
  k_Name : string;
  k_KeyHash : string;
  k_CreatedAt : Time;
  k_LastUsedAt : option Time;
  k_RevokedAt : option Time
}.

(** ** Field updates ([u.Status = s] and the like) *)

Definition u_set_Status (s : UserStatus) (u : User) : User :=
  mkUser (u_ID u) (u_Email u) (u_UUID u) (u_TrojanPassword u) (u_PlanID u) s
    (u_DataLimitBytes u) (u_UsedUploadBytes u) (u_UsedDownloadBytes u) (u_ExpiresAt u)
    (u_SubToken u) (u_Note u) (u_ExternalID u) (u_CreatedAt u) (u_UpdatedAt u).

Definition u_set_PlanID (p : option string) (u : User) : User :=
  mkUser (u_ID u) (u_Email u) (u_UUID u) (u_TrojanPassword u) p (u_Status u)
    (u_DataLimitBytes u) (u_UsedUploadBytes u) (u_UsedDownloadBytes u) (u_ExpiresAt u)
    (u_SubToken u) (u_Note u) (u_ExternalID u) (u_CreatedAt u) (u_UpdatedAt u).

Definition u_set_DataLimitBytes (l : option Z) (u : User) : User :=
  mkUser (u_ID u) (u_Email u) (u_UUID u) (u_TrojanPassword u) (u_PlanID u) (u_Status u)
    l (u_UsedUploadBytes u) (u_UsedDownloadBytes u) (u_ExpiresAt u)
    (u_SubToken u) (u_Note u) (u_ExternalID u) (u_CreatedAt u) (u_UpdatedAt u).

Definition u_set_Used (up down : Z) (u : User) : User :=
  mkUser (u_ID u) (u_Email u) (u_UUID u) (u_TrojanPassword u) (u_PlanID u) (u_Status u)
    (u_DataLimitBytes u) up down (u_ExpiresAt u)
    (u_SubToken u) (u_Note u) (u_ExternalID u) (u_CreatedAt u) (u_UpdatedAt u).

Definition u_set_ExpiresAt (e : option Time) (u : User) : User :=
  mkUser (u_ID u) (u_Email u) (u_UUID u) (u_TrojanPassword u) (u_PlanID u) (u_Status u)
    (u_DataLimitBytes u) (u_UsedUploadBytes u) (u_UsedDownloadBytes u) e
    (u_SubToken u) (u_Note u) (u_ExternalID u) (u_CreatedAt u) (u_UpdatedAt u).

Definition u_set_SubToken (t : string) (u : User) : User :=
  mkUser (u_ID u) (u_Email u) (u_UUID u) (u_TrojanPassword u) (u_PlanID u) (u_Status u)
    (u_DataLimitBytes u) (u_UsedUploadBytes u) (u_UsedDownloadBytes u) (u_ExpiresAt u)
    t (u_Note u) (u_ExternalID u) (u_CreatedAt u) (u_UpdatedAt u).

Definition u_set_Note (n : string) (u : User) : User :=
  mkUser (u_ID u) (u_Email u) (u_UUID u) (u_TrojanPassword u) (u_PlanID u) (u_Status u)
    (u_DataLimitBytes u) (u_UsedUploadBytes u) (u_UsedDownloadBytes u) (u_ExpiresAt u)
    (u_SubToken u) n (u_ExternalID u) (u_CreatedAt u) (u_UpdatedAt u).

Definition u_set_UpdatedAt (t : Time) (u : User) : User :=
  mkUser (u_ID u) (u_Email u) (u_UUID u) (u_TrojanPassword u) (u_PlanID u) (u_Status u)
    (u_DataLimitBytes u) (u_UsedUploadBytes u) (u_UsedDownloadBytes u) (u_ExpiresAt u)
    (u_SubToken u) (u_Note u) (u_ExternalID u) (u_CreatedAt u) t.

Definition n_set_Status (s : NodeStatus) (n : Node) : Node :=
  mkNode (n_ID n) (n_Name n) (n_APIAddress n) (n_APIPort n) (n_APITLS n)
    (n_APITLSServerName n) (n_APITLSInsecure n) (n_APICACert n) (n_APIClientCert n)
    (n_APIClientKey n) (n_APIHasClientKey n) s (n_LastSeenAt n) (n_LastError n)
    (n_CreatedAt n) (n_UpdatedAt n).

#[export] Instance User_eq_dec : EqDecision User.
Proof. solve_decision. Defined.
#[export] Instance Node_eq_dec : EqDecision Node.
Proof. solve_decision. Defined.
#[export] Instance Inbound_eq_dec : EqDecision Inbound.
Proof. solve_decision. Defined.
#[export] Instance Plan_eq_dec : EqDecision Plan.
Proof. solve_decision. Defined.
#[export] Instance UserInbound_eq_dec : EqDecision UserInbound.
Proof. solve_decision. Defined.
#[export] Instance APIKey_eq_dec : EqDecision APIKey.
Proof. solve_decision. Defined.
#[export] Instance TrafficSnapshot_eq_dec : EqDecision TrafficSnapshot.
Proof. solve_decision. Defined.
