(* ===== verification/Database.v ===== *)
(** * The relational schema (src/internal/store/migrations) and its invariant

    One finite map per table, keyed by the primary key, with rows of the
    domain records.  The column constraints the migrations declare (primary
    keys, UNIQUE, REFERENCES with their ON DELETE action) become [db_ok], the
    invariant every statement of the store keeps. How PostgreSQL reads the
    texts of a request for UUID and TEXT columns is a parameter ([PgTypes]).
    The generic lemmas on unique columns and references are shared by the
    statements of the Store files. *)

From stdpp Require Import base gmap strings list fin_maps.
From Stdlib Require Import ZArith Lia.
From S2P Require Import Prelude Domain.
Local Open Scope Z_scope.

Record WebhookEvent : Type := mkWebhookEvent {
  we_ID : string;
  we_Action : string;
  we_ReceivedAt : Time
}.

Record DB : Type := mkDB {
  t_nodes : gmap string Node;
  t_inbounds : gmap string Inbound;
  t_plans : gmap string Plan;
  t_users : gmap string User;
  t_user_inbounds : gmap (string * string) UserInbound;
  t_traffic_snapshots : list TrafficSnapshot;
  t_snapshot_seq : Z;                       (* GENERATED ALWAYS AS IDENTITY *)
  t_api_keys : gmap string APIKey;
  t_webhook_events : gmap string WebhookEvent
}.

#[export] Instance WebhookEvent_eq_dec : EqDecision WebhookEvent.
Proof. solve_decision. Defined.
#[export] Instance DB_eq_dec : EqDecision DB.
Proof. solve_decision. Defined.

Definition empty_db : DB := mkDB ∅ ∅ ∅ ∅ ∅ [] 1 ∅ ∅.

Definition set_nodes (x : gmap string Node) (db : DB) : DB :=
  mkDB x (t_inbounds db) (t_plans db) (t_users db) (t_user_inbounds db)
    (t_traffic_snapshots db) (t_snapshot_seq db) (t_api_keys db) (t_webhook_events db).
Definition set_inbounds (x : gmap string Inbound) (db : DB) : DB :=
  mkDB (t_nodes db) x (t_plans db) (t_users db) (t_user_inbounds db)
    (t_traffic_snapshots db) (t_snapshot_seq db) (t_api_keys db) (t_webhook_events db).
Definition set_plans (x : gmap string Plan) (db : DB) : DB :=
  mkDB (t_nodes db) (t_inbounds db) x (t_users db) (t_user_inbounds db)
    (t_traffic_snapshots db) (t_snapshot_seq db) (t_api_keys db) (t_webhook_events db).
Definition set_users (x : gmap string User) (db : DB) : DB :=
  mkDB (t_nodes db) (t_inbounds db) (t_plans db) x (t_user_inbounds db)
    (t_traffic_snapshots db) (t_snapshot_seq db) (t_api_keys db) (t_webhook_events db).
Definition set_user_inbounds (x : gmap (string * string) UserInbound) (db : DB) : DB :=
  mkDB (t_nodes db) (t_inbounds db) (t_plans db) (t_users db) x
    (t_traffic_snapshots db) (t_snapshot_seq db) (t_api_keys db) (t_webhook_events db).
Definition set_traffic_snapshots (x : list TrafficSnapshot) (seq : Z) (db : DB) : DB :=
  mkDB (t_nodes db) (t_inbounds db) (t_plans db) (t_users db) (t_user_inbounds db)
    x seq (t_api_keys db) (t_webhook_events db).
Definition set_api_keys (x : gmap string APIKey) (db : DB) : DB :=
  mkDB (t_nodes db) (t_inbounds db) (t_plans db) (t_users db) (t_user_inbounds db)
    (t_traffic_snapshots db) (t_snapshot_seq db) x (t_webhook_events db).
Definition set_webhook_events (x : gmap string WebhookEvent) (db : DB) : DB :=
  mkDB (t_nodes db) (t_inbounds db) (t_plans db) (t_users db) (t_user_inbounds db)
    (t_traffic_snapshots db) (t_snapshot_seq db) (t_api_keys db) x.

(** A statement: it sees the transaction's [now()] and the tables, and either
    fails with a driver error and no effect, or returns the new tables and its
    result (rows, or the number of rows affected). *)
Definition Sql (A : Type) : Type := Time → DB → res error (DB * A).

(** BIGINT and INTEGER columns: PostgreSQL raises instead of wrapping. *)
Definition in_int8 (z : Z) : bool := bool_decide (- 2 ^ 63 ≤ z ∧ z < 2 ^ 63).
Definition in_int4 (z : Z) : bool := bool_decide (- 2 ^ 31 ≤ z ∧ z < 2 ^ 31).
Definition out_of_range : error := PgError "22003" "".

(** TIMESTAMPTZ columns reach from 4713 BC to 294276 AD. *)
Definition in_timestamptz (t : Time) : bool :=
  bool_decide (-210866803200000000 ≤ t ∧ t < 9224318016000000000).
Definition timestamp_out_of_range : error := PgError "22008" "".

(** ** UUID and TEXT parameters *)

(** PostgreSQL reads the texts it is given: [uuid_in s] is the canonical text of
    the UUID [s] stands for, or [None] when [s] is malformed; [text_in s] says
    whether [s] can be the value of a TEXT at all (no zero byte, and valid in
    the encoding of the database). *)
Class PgTypes : Type := { uuid_in : string → option string; text_in : string → bool }.

Definition malformed_uuid : error := PgError "22P02" "".

(** The key of the table a text stands for.  (Keys are canonical texts, which
    stand for themselves.) *)
Definition uuid_key `{PgTypes} {A} (m : gmap string A) (id : string) : res error string :=
  if bool_decide (is_Some (m !! id)) then Ok id
  else match uuid_in id with Some i => Ok i | None => Err malformed_uuid end.

(** A parameter compared with the key of table [t], or with a reference to it. *)
Definition by_id `{PgTypes} {A B} (t : DB → gmap string A) (id : string) (q : string → Sql B) : Sql B :=
  λ now db, match uuid_key (t db) id with Ok i => q i now db | Err e => Err e end.

(** Parameters of type TEXT. *)
Definition invalid_text : error := PgError "22021" "".

Definition by_text `{PgTypes} {B} (l : list string) (q : Sql B) : Sql B :=
  λ now db, if forallb text_in l then q now db else Err invalid_text.

(** The row a text stands for. *)
Definition row_at `{PgTypes} {A} (m : gmap string A) (id : string) : res error A :=
  match uuid_key m id with
  | Ok i => match m !! i with Some a => Ok a | None => Err ErrNotFound end
  | Err e => Err e
  end.

Lemma uuid_key_stored `{PgTypes} {A} (m : gmap string A) id : is_Some (m !! id) → uuid_key m id = Ok id.
Proof. intros H1. unfold uuid_key. by rewrite bool_decide_eq_true_2. Qed.

Lemma by_id_stored `{PgTypes} {A B} (t : DB → gmap string A) id (q : string → Sql B) now db :
  is_Some (t db !! id) → by_id t id q now db = q id now db.
Proof. intros H1. unfold by_id. by rewrite uuid_key_stored. Qed.

Lemma row_at_stored `{PgTypes} {A} (m : gmap string A) id a : m !! id = Some a → row_at m id = Ok a.
Proof. intros Ha. unfold row_at. by rewrite uuid_key_stored, Ha. Qed.

(** The key a text stands for, as a total function: a malformed text, which
    the statements refuse and no row has for its key, is left as it is. *)
Definition pg_key `{PgTypes} {A} (m : gmap string A) (id : string) : string :=
  match uuid_key m id with Ok i => i | Err _ => id end.

Lemma pg_key_stored `{PgTypes} {A} (m : gmap string A) id : is_Some (m !! id) → pg_key m id = id.
Proof. intros H1. unfold pg_key. by rewrite uuid_key_stored. Qed.

Lemma uuid_key_Ok `{PgTypes} {A} (m : gmap string A) id i : uuid_key m id = Ok i → pg_key m id = i.
Proof. unfold pg_key. by intros ->. Qed.

Lemma uuid_key_Err `{PgTypes} {A} (m : gmap string A) id e :
  uuid_key m id = Err e → e = malformed_uuid ∧ uuid_in id = None ∧ m !! pg_key m id = None.
Proof.
  intros He. unfold pg_key. rewrite He. revert He. unfold uuid_key.
  case_bool_decide as Hs; [done|]. destruct (uuid_in id) eqn:Hin; [done|]. intros [= <-].
  split_and!; [done..|]. by apply eq_None_not_Some.
Qed.

Lemma row_at_Ok `{PgTypes} {A} (m : gmap string A) id a :
  row_at m id = Ok a → uuid_key m id = Ok (pg_key m id) ∧ m !! pg_key m id = Some a.
Proof.
  unfold row_at, pg_key. destruct (uuid_key m id) as [i|]; [|done].
  destruct (m !! i) as [b|] eqn:E; [|done]. by intros [= ->].
Qed.

(** A row is there, or the text names none, or it is malformed. *)
Lemma row_at_cases `{PgTypes} {A} (m : gmap string A) id :
  row_at m id = match m !! pg_key m id with
                | Some a => Ok a
                | None => Err (if uuid_in id is Some _ then ErrNotFound else malformed_uuid)
                end.
Proof.
  unfold row_at, pg_key. unfold uuid_key. case_bool_decide as Hs.
  - by destruct Hs as [a ->].
  - destruct (uuid_in id) as [i|]; [done|]. apply eq_None_not_Some in Hs. by rewrite Hs.
Qed.

(** The keys of a list of texts ([uuid[]] parameters), and of a text that may
    be NULL. *)
Fixpoint uuid_keys `{PgTypes} {A} (m : gmap string A) (ids : list string) : res error (list string) :=
  match ids with
  | [] => Ok []
  | id :: rest =>
      match uuid_key m id, uuid_keys m rest with
      | Ok i, Ok rest => Ok (i :: rest)
      | Err e, _ => Err e
      | _, Err e => Err e
      end
  end.

Definition uuid_ref `{PgTypes} {A} (m : gmap string A) (id : option string) : res error (option string) :=
  match id with
  | None => Ok None
  | Some s => match uuid_key m s with Ok i => Ok (Some i) | Err e => Err e end
  end.

Definition by_ids `{PgTypes} {A B} (t : DB → gmap string A) (ids : list string)
    (q : list string → Sql B) : Sql B :=
  λ now db, match uuid_keys (t db) ids with Ok keys => q keys now db | Err e => Err e end.

(** Which key a text stands for depends on the keys of the table only. *)
Lemma uuid_key_dom `{PgTypes} {A} (m m' : gmap string A) id :
  (is_Some (m !! id) ↔ is_Some (m' !! id)) → uuid_key m' id = uuid_key m id.
Proof. intros H1. unfold uuid_key. by erewrite bool_decide_ext by (symmetry; exact H1). Qed.

Lemma uuid_key_fmap `{PgTypes} {A} (f : A → A) (m : gmap string A) id :
  uuid_key (f <$> m) id = uuid_key m id.
Proof. apply uuid_key_dom. by rewrite lookup_fmap, fmap_is_Some. Qed.

Lemma uuid_key_insert `{PgTypes} {A} (m : gmap string A) i a id :
  is_Some (m !! i) → uuid_key (<[i := a]> m) id = uuid_key m id.
Proof.
  intros Hi. apply uuid_key_dom. rewrite lookup_insert_is_Some'. split; [by right|].
  by intros [->|?].
Qed.

(** Every text of a list of stored ids stands for itself. *)
Lemma uuid_keys_stored `{PgTypes} {A} (m : gmap string A) ids :
  Forall (λ i, is_Some (m !! i)) ids → uuid_keys m ids = Ok ids.
Proof.
  induction 1 as [|id ids Hid _ IH]; [done|]. cbn [uuid_keys].
  by rewrite uuid_key_stored, IH.
Qed.

Lemma uuid_keys_Ok `{PgTypes} {A} (m : gmap string A) ids keys :
  uuid_keys m ids = Ok keys → keys = pg_key m <$> ids ∧ Forall (λ id, uuid_key m id = Ok (pg_key m id)) ids.
Proof.
  revert keys. induction ids as [|id ids IH]; cbn [uuid_keys]; intros keys; [by intros [= <-]|].
  destruct (uuid_key m id) as [i|] eqn:Hi; [|done]. destruct (uuid_keys m ids) as [ks|]; [|done].
  intros [= <-]. destruct (IH ks eq_refl) as [-> Hall]. cbn. rewrite (uuid_key_Ok _ _ _ Hi).
  split; [done|]. constructor; [by rewrite (uuid_key_Ok _ _ _ Hi)|done].
Qed.

Lemma uuid_ref_Ok `{PgTypes} {A} (m : gmap string A) o o' :
  uuid_ref m o = Ok o' → o' = pg_key m <$> o.
Proof.
  destruct o as [id|]; cbn; [|by intros [= <-]].
  destruct (uuid_key m id) eqn:Hi; [|done]. intros [= <-]. by rewrite (uuid_key_Ok _ _ _ Hi).
Qed.

Lemma uuid_ref_Err `{PgTypes} {A} (m : gmap string A) o e : uuid_ref m o = Err e → e = malformed_uuid.
Proof.
  destruct o as [id|]; [|done]. cbn. destruct (uuid_key m id) eqn:Hi; [done|]. intros [= <-].
  by apply uuid_key_Err in Hi as [-> _].
Qed.

Lemma uuid_ref_stored `{PgTypes} {A} (m : gmap string A) o :
  (∀ id, o = Some id → is_Some (m !! id)) → uuid_ref m o = Ok o.
Proof. destruct o as [id|]; [|done]. intros Ho. cbn. by rewrite uuid_key_stored by auto. Qed.

Lemma row_at_update `{PgTypes} {A} (m : gmap string A) id i a :
  uuid_key m id = Ok i → is_Some (m !! i) → row_at (<[i := a]> m) id = Ok a.
Proof.
  intros Hk Hi. unfold row_at. by rewrite uuid_key_insert, Hk, lookup_insert_eq.
Qed.

(** ** Columns with a UNIQUE constraint *)

Section Unique.
Context {I K A : Type} `{Countable I} `{EqDecision K}.
Implicit Types (m : gmap I A) (col : A → option K).

(** NULLs do not collide. *)
Definition unique_on col m : Prop :=
  ∀ i j a b x, m !! i = Some a → m !! j = Some b →
    col a = Some x → col b = Some x → i = j.

(** Does a row other than [i] carry the value [v] in column [col]? *)
Definition clash col (i : I) (v : option K) m : bool :=
  match v with
  | None => false
  | Some x =>
      existsb (λ '(j, a), negb (bool_decide (j = i)) && bool_decide (col a = Some x))
        (map_to_list m)
  end.

Lemma clash_false col i x m :
  clash col i (Some x) m = false →
  ∀ j a, m !! j = Some a → col a = Some x → j = i.
Proof.
  cbn. intros Hc j a Hj Ha. destruct (decide (j = i)) as [|Hne]; [done|exfalso].
  apply elem_of_map_to_list in Hj.
  assert (existsb (λ '(j, a), negb (bool_decide (j = i)) && bool_decide (col a = Some x))
    (map_to_list m) = true) as He.
  { apply existsb_exists. exists (j, a). split; [by apply list_elem_of_In|].
    cbn. rewrite (bool_decide_false (j = i)), bool_decide_true by done. done. }
  congruence.
Qed.

Lemma clash_true col i x m :
  clash col i (Some x) m = true →
  ∃ j a, m !! j = Some a ∧ j ≠ i ∧ col a = Some x.
Proof.
  cbn. intros He. apply existsb_exists in He as ([j a] & Hin & Hb).
  apply list_elem_of_In, elem_of_map_to_list in Hin.
  apply andb_prop in Hb as [Hb1 Hb2].
  apply negb_true_iff, bool_decide_eq_false in Hb1.
  apply bool_decide_eq_true in Hb2. eauto.
Qed.

Lemma unique_on_empty col : unique_on col ∅.
Proof. intros i j a b x Hi. by rewrite lookup_empty in Hi. Qed.

Lemma unique_on_insert col i a m :
  unique_on col m → clash col i (col a) m = false → unique_on col (<[i:=a]> m).
Proof.
  intros Hu Hc j1 j2 b1 b2 x.
  rewrite !lookup_insert_Some.
  intros [[-> ->]|[Hn1 H1]] [[-> ->]|[Hn2 H2]] Hb1 Hb2; try done.
  - rewrite Hb1 in Hc. symmetry. eapply clash_false; eauto.
  - rewrite Hb2 in Hc. eapply clash_false; eauto.
  - eapply Hu; eauto.
Qed.

Lemma unique_on_insert_same col i a b m :
  m !! i = Some b → col a = col b → unique_on col m → unique_on col (<[i:=a]> m).
Proof.
  intros Hi Hab Hu j1 j2 b1 b2 x. rewrite !lookup_insert_Some.
  intros [[-> ->]|[Hn1 H1]] [[-> ->]|[Hn2 H2]] Hb1 Hb2; try done;
    rewrite ?Hab in *; eapply Hu; eauto.
Qed.

Lemma unique_on_fmap col (f : A → A) m :
  (∀ a, col (f a) = col a) → unique_on col m → unique_on col (f <$> m).
Proof.
  intros Hf Hu i j a b x. rewrite !lookup_fmap_Some.
  intros (a' & <- & Ha) (b' & <- & Hb). rewrite !Hf. eapply Hu; eauto.
Qed.

Lemma unique_on_submap col m m' : m' ⊆ m → unique_on col m → unique_on col m'.
Proof.
  intros Hs Hu i j a b x Ha Hb. eapply Hu; eapply lookup_weaken; eauto.
Qed.

Lemma unique_on_delete col i m : unique_on col m → unique_on col (delete i m).
Proof. apply unique_on_submap, delete_subseteq. Qed.
End Unique.

(** ** Foreign keys and key columns *)

Section References.
Context {I K A B : Type} `{Countable I} `{Countable K}.
Implicit Types (m : gmap I A) (t : gmap K B) (col : A → option K).

(** Every non-NULL value of [col] is a key of [t]. *)
Definition references col m t : Prop :=
  ∀ i a x, m !! i = Some a → col a = Some x → is_Some (t !! x).

Lemma references_empty col t : references col ∅ t.
Proof. intros i a x Hi. by rewrite lookup_empty in Hi. Qed.

Lemma references_insert col i a m t :
  references col m t →
  (∀ x, col a = Some x → is_Some (t !! x)) →
  references col (<[i:=a]> m) t.
Proof.
  intros Hr Ha j b x. rewrite lookup_insert_Some.
  intros [[-> ->]|[_ Hj]]; [apply Ha | eapply Hr; eauto].
Qed.

Lemma references_fmap col (f : A → A) m t :
  (∀ a, col (f a) = col a) → references col m t → references col (f <$> m) t.
Proof.
  intros Hf Hr j b x. rewrite lookup_fmap_Some. intros (a & <- & Ha).
  rewrite Hf. eapply Hr; eauto.
Qed.

Lemma references_submap col m m' t :
  m' ⊆ m → references col m t → references col m' t.
Proof. intros Hs Hr i a x Hi. eapply Hr, lookup_weaken; eauto. Qed.

(** The referenced table may change as long as no referenced key goes. *)
Lemma references_keys col m t t' :
  (∀ x, is_Some (t !! x) → is_Some (t' !! x)) →
  references col m t → references col m t'.
Proof. intros Ht Hr i a x Hi Ha. apply Ht. eapply Hr; eauto. Qed.
End References.

Section Keys.
Context {I A : Type} `{Countable I}.
Implicit Types (m : gmap I A).

(** Each row is filed under its own primary key. *)
Definition keyed (key : A → I) m : Prop := map_Forall (λ i a, key a = i) m.

Lemma keyed_empty key : keyed key ∅.
Proof. apply map_Forall_empty. Qed.

Lemma keyed_insert key i a m : key a = i → keyed key m → keyed key (<[i:=a]> m).
Proof. intros Hk Hm. by apply map_Forall_insert_2. Qed.

Lemma keyed_fmap key (f : A → A) m :
  (∀ a, key (f a) = key a) → keyed key m → keyed key (f <$> m).
Proof.
  intros Hf Hm i b. rewrite lookup_fmap_Some. intros (a & <- & Ha).
  rewrite Hf. by apply Hm.
Qed.

Lemma keyed_submap key m m' : m' ⊆ m → keyed key m → keyed key m'.
Proof. intros Hs Hm i a Hi. apply Hm. eapply lookup_weaken; eauto. Qed.

Lemma is_Some_fmap_lookup (f : A → A) m i :
  is_Some ((f <$> m) !! i) ↔ is_Some (m !! i).
Proof. rewrite lookup_fmap. apply fmap_is_Some. Qed.
End Keys.

(** ** The schema's invariant *)

Definition inbound_slot (ib : Inbound) : option (string * string) :=
  Some (ib_NodeID ib, ib_Tag ib).

Record users_ok (users : gmap string User) : Prop := {
  users_keyed : keyed u_ID users;
  users_email : unique_on (λ u, Some (u_Email u)) users;
  users_uuid : unique_on (λ u, Some (u_UUID u)) users;
  users_trojan : unique_on (λ u, Some (u_TrojanPassword u)) users;
  users_sub_token : unique_on (λ u, Some (u_SubToken u)) users;
  users_external : unique_on u_ExternalID users
}.

Definition ui_key (ui : UserInbound) : string * string := (ui_UserID ui, ui_InboundID ui).

Record db_ok (db : DB) : Prop := {
  ok_users : users_ok (t_users db);
  ok_users_plan : references u_PlanID (t_users db) (t_plans db);
  ok_nodes_keyed : keyed n_ID (t_nodes db);
  ok_nodes_name : unique_on (λ n, Some (n_Name n)) (t_nodes db);
  ok_inbounds_keyed : keyed ib_ID (t_inbounds db);
  ok_inbounds_slot : unique_on inbound_slot (t_inbounds db);
  ok_inbounds_node : references (λ ib, Some (ib_NodeID ib)) (t_inbounds db) (t_nodes db);
  ok_plans_keyed : keyed p_ID (t_plans db);
  ok_plans_name : unique_on (λ p, Some (p_Name p)) (t_plans db);
  ok_ui_keyed : keyed ui_key (t_user_inbounds db);
  ok_ui_user : references (λ ui, Some (ui_UserID ui)) (t_user_inbounds db) (t_users db);
  ok_ui_inbound : references (λ ui, Some (ui_InboundID ui)) (t_user_inbounds db) (t_inbounds db);
  ok_snap_user : Forall (λ s, is_Some (t_users db !! ts_UserID s)) (t_traffic_snapshots db);
  ok_snap_node : Forall (λ s, is_Some (t_nodes db !! ts_NodeID s)) (t_traffic_snapshots db);
  ok_keys_keyed : keyed k_ID (t_api_keys db);
  ok_keys_hash : unique_on (λ k, Some (k_KeyHash k)) (t_api_keys db)
}.

(** A statement keeps the invariant on the success path (it has no effect on
    the error path). *)
Definition sql_ok {A} (q : Sql A) : Prop :=
  ∀ now db db' a, db_ok db → q now db = Ok (db', a) → db_ok db'.

(** A read-only statement. *)
Definition select {A} (f : DB → A) : Sql A := λ _ db, Ok (db, f db).

Lemma select_ok {A} (f : DB → A) : sql_ok (select f).
Proof. intros now db db' a Hok. unfold select. by intros [= <- _]. Qed.

(** Statements that change nothing. *)
Definition reads {A} (q : Sql A) : Prop := ∀ now db db' a, q now db = Ok (db', a) → db' = db.

Lemma select_reads {A} (f : DB → A) : reads (select f).
Proof. by intros now db db' a [= <- _]. Qed.
Lemma by_id_reads `{PgTypes} {A B} (t : DB → gmap string A) id (q : string → Sql B) :
  (∀ i, reads (q i)) → reads (by_id t id q).
Proof. intros Hq now db db' b. unfold by_id. destruct (uuid_key _ _); [apply Hq|done]. Qed.
Lemma by_ids_reads `{PgTypes} {A B} (t : DB → gmap string A) ids (q : list string → Sql B) :
  (∀ keys, reads (q keys)) → reads (by_ids t ids q).
Proof. intros Hq now db db' b. unfold by_ids. destruct (uuid_keys _ _); [apply Hq|done]. Qed.

Lemma by_text_reads `{PgTypes} {B} l (q : Sql B) : reads q → reads (by_text l q).
Proof. intros Hq now db db' b. unfold by_text. destruct (forallb _ _); [apply Hq|done]. Qed.
Lemma by_text_ok `{PgTypes} {B} l (q : Sql B) : sql_ok q → sql_ok (by_text l q).
Proof. intros Hq now db db' b Hdb. unfold by_text. destruct (forallb _ _); [by apply Hq|done]. Qed.
Lemma by_id_ok `{PgTypes} {A B} (t : DB → gmap string A) id (q : string → Sql B) :
  (∀ i, sql_ok (q i)) → sql_ok (by_id t id q).
Proof. intros Hq now db db' b. unfold by_id. destruct (uuid_key _ _); [apply Hq|done]. Qed.

Lemma by_ids_ok `{PgTypes} {A B} (t : DB → gmap string A) ids (q : list string → Sql B) :
  (∀ keys, sql_ok (q keys)) → sql_ok (by_ids t ids q).
Proof. intros Hq now db db' b. unfold by_ids. destruct (uuid_keys _ _); [apply Hq|done]. Qed.

Lemma empty_db_ok : db_ok empty_db.
Proof.
  constructor; cbn; try apply Forall_nil_2;
    auto using unique_on_empty, references_empty, keyed_empty.
  constructor; auto using unique_on_empty, keyed_empty.
Qed.

Create HintDb reads.
#[export] Hint Resolve select_reads by_text_reads by_id_reads by_ids_reads : reads.

Create HintDb db_inv.
#[export] Hint Resolve by_text_ok by_id_ok by_ids_ok select_ok empty_db_ok unique_on_insert unique_on_delete
  references_insert keyed_insert : db_inv.
