(* ===== verification/Metrics.v ===== *)
(** * Prometheus instrumentation (src/internal/metrics/metrics.go)

    The collectors the program declares, with their label names.  A collector's
    type tells its kind and how many label values an update must give, so that
    the model has no update on which [WithLabelValues] would panic. *)

From stdpp Require Import base strings list vector.
From Stdlib Require Import ZArith.
Local Open Scope Z_scope.

Inductive kind : Type := Counter | Gauge | Histogram.

Record Collector (k : kind) : Type := mkCollector {
  c_Name : string;
  c_Help : string;
  c_labels : list string
}.
Arguments mkCollector {k}.
Arguments c_Name {k}.
Arguments c_Help {k}.
Arguments c_labels {k}.

(** The values for the labels of a collector, in their order. *)
Definition label_values {k} (c : Collector k) : Type := vec string (length (c_labels c)).

Definition HTTPRequests : Collector Counter :=
  mkCollector "xrayapi_http_requests_total"
    "HTTP requests by route group and status class." ["group"; "status"].

(** Declared; its observations are durations in seconds, which the model does
    not take. *)
Definition HTTPDuration : Collector Histogram :=
  mkCollector "xrayapi_http_request_duration_seconds"
    "HTTP request latency by route group." ["group"].

Definition NodeUp : Collector Gauge :=
  mkCollector "xrayapi_node_up"
    "1 when the node's gRPC API is reachable, 0 otherwise." ["node"].

Definition ReconcileErrors : Collector Counter :=
  mkCollector "xrayapi_reconcile_errors_total"
    "Failed reconcile operations (add/remove pushes) by node." ["node"].

Definition TrafficCollected : Collector Counter :=
  mkCollector "xrayapi_traffic_collected_bytes_total"
    "Per-user traffic bytes ingested from nodes, by direction." ["node"; "direction"].

Definition UsersSuspended : Collector Counter :=
  mkCollector "xrayapi_users_suspended_total"
    "Users auto-suspended for crossing their data limit." [].

Definition UsersExpired : Collector Counter :=
  mkCollector "xrayapi_users_expired_total" "Users expired by the sweeper." [].

Definition WebhookEvents : Collector Counter :=
  mkCollector "xrayapi_webhook_events_total"
    "Billing webhook deliveries by action and outcome." ["action"; "outcome"].
