(* ===== verification/World.v ===== *)
(** * The platform the program runs on, and the state it acts on

    [Platform] gathers what is outside the repository: the clock, the random
    and UUID sources, the other PostgreSQL sessions and the ways a statement
    can fail, the Xray nodes behind their gRPC endpoints, and the X.509 and
    hash primitives.  All of it is a parameter; what a theorem relies on is a
    class of its own ([Quiet], [Rely], and the laws of the later files).

    [World] is the program's state: the tables, the node actors the worker
    manager owns, the state of the network, and the Prometheus counters.  Each
    call that consults the platform consumes one position of the [w_k] counter,
    so that two readings of the clock (or two statements) are independent. *)

From stdpp Require Import base gmap strings list fin_maps vector.
From Stdlib Require Import ZArith Lia.
From S2P Require Import Prelude Domain Database Metrics.
Local Open Scope Z_scope.

(** ** Messages exchanged with a node (the xray-core protobuf types in use) *)

Inductive CipherType : Type :=
| CipherType_UNKNOWN
| CipherType_AES_128_GCM
| CipherType_AES_256_GCM
| CipherType_CHACHA20_POLY1305
| CipherType_XCHACHA20_POLY1305
| CipherType_NONE.

Inductive ProtoAccount : Type :=
| vless_Account (Id Flow : string)
| vmess_Account (Id : string)
| trojan_Account (Password : string)
| shadowsocks_Account (Password : string) (Cipher : CipherType).

Record ProtoUser : Type := mkProtoUser {
  pu_Level : Z;
  pu_Email : string;
  pu_Account : ProtoAccount
}.

Inductive Operation : Type :=
| AddUserOperation (user : ProtoUser)
| RemoveUserOperation (email : string).

Record Stat : Type := mkStat { st_Name : string; st_Value : Z }.

(** Transport security of a connection: [None] is an insecure channel. *)
Record TLSConfig : Type := mkTLSConfig {
  tc_ServerName : string;
  tc_InsecureSkipVerify : bool;
  tc_RootCAs : option string;                  (* the pinned CA, PEM *)
  tc_Certificates : option (string * string)   (* client certificate and key, PEM *)
}.

Record Conn : Type := mkConn {
  conn_target : string;
  conn_creds : option TLSConfig
}.

#[export] Instance CipherType_eq_dec : EqDecision CipherType.
Proof. solve_decision. Defined.
#[export] Instance ProtoAccount_eq_dec : EqDecision ProtoAccount.
Proof. solve_decision. Defined.
#[export] Instance ProtoUser_eq_dec : EqDecision ProtoUser.
Proof. solve_decision. Defined.

#[export] Instance TLSConfig_eq_dec : EqDecision TLSConfig.
Proof. solve_decision. Defined.
#[export] Instance Conn_eq_dec : EqDecision Conn.
Proof. solve_decision. Defined.

(** ** The platform *)

(** What can go wrong with a statement besides its own SQL error: the driver
    reports [msg]; [applied] tells whether the server had executed it. *)
Inductive fault : Type :=
| NoFault
| Fault (applied : bool) (msg : string).

Class Platform : Type := {
  (** how PostgreSQL reads a UUID *)
  pg_types :: PgTypes;
  (** the [k]-th consultation of the clock, of [uuid.NewString] and of
      [rand.Read] (asked for [n] bytes) *)
  clock : nat → Time;
  uuid_at : nat → string;
  rand_at : nat → nat → string;
  (** what the other sessions commit before our [k]-th statement *)
  interfere : nat → DB → DB;
  fault_at : nat → fault;
  (** the network of Xray nodes; an RPC returns the new network state, and an
      error message or the response *)
  net : Type;
  rpc_AlterInbound : net → Conn → string → Operation → net * option string;
  rpc_GetSysStats : net → Conn → net * (string + Z);
  rpc_QueryStats : net → Conn → string → bool → net * (string + list Stat);
  (** [grpc.NewClient], [AppendCertsFromPEM] and [tls.X509KeyPair] *)
  grpc_NewClient : Conn → option string;
  AppendCertsFromPEM : string → bool;
  X509KeyPair : string → string → option string;
  (** PostgreSQL's [to_char(date_trunc('day', t), 'YYYY-MM-DD')] *)
  pg_day : Time → string;
  (** raw digests: [sha256.Sum256(m)], HMAC-SHA256 of [m] under [key] *)
  sha256_Sum256 : string → string;
  hmac_sha256 : string → string → string
}.

(** ** The program's state *)

(** xray.UserTraffic (src/internal/xray/client.go). *)
Record UserTraffic : Type := mkUserTraffic {
  t_Email : string;
  t_Uplink : Z;
  t_Downlink : Z
}.

(** worker.nodeActor (src/internal/worker/nodeactor.go). [a_reconcileCh] tells
    whether the one-slot channel holds a trigger, [a_stopped] whether [stopCh]
    is closed. *)
Record nodeActor : Type := mkNodeActor {
  a_node : Node;
  a_reconcileCh : bool;
  a_stopped : bool;
  a_client : option Conn;
  a_failCount : Z;
  a_online : bool;
  a_lastUptime : Z;
  a_pendingDeltas : gmap string UserTraffic
}.

#[export] Instance UserTraffic_eq_dec : EqDecision UserTraffic.
Proof. solve_decision. Defined.
#[export] Instance nodeActor_eq_dec : EqDecision nodeActor.
Proof. solve_decision. Defined.

Section World.
Context {P : Platform}.

(** [w_heap] holds the actor objects, [w_actors] is [Manager.actors], from
    node id to a reference into the heap. *)
Record World : Type := mkWorld {
  w_db : DB;
  w_k : nat;
  w_net : net;
  w_actors : gmap string nat;
  w_heap : gmap nat nodeActor;
  w_metrics : gmap (string * list string) Z
}.

Definition w_set_db (x : DB) (w : World) : World :=
  mkWorld x (w_k w) (w_net w) (w_actors w) (w_heap w) (w_metrics w).
Definition w_tick (w : World) : World :=
  mkWorld (w_db w) (S (w_k w)) (w_net w) (w_actors w) (w_heap w) (w_metrics w).
Definition w_set_net (x : net) (w : World) : World :=
  mkWorld (w_db w) (w_k w) x (w_actors w) (w_heap w) (w_metrics w).
Definition w_set_actors (x : gmap string nat) (w : World) : World :=
  mkWorld (w_db w) (w_k w) (w_net w) x (w_heap w) (w_metrics w).
Definition w_set_heap (x : gmap nat nodeActor) (w : World) : World :=
  mkWorld (w_db w) (w_k w) (w_net w) (w_actors w) x (w_metrics w).
Definition w_set_metrics (x : gmap (string * list string) Z) (w : World) : World :=
  mkWorld (w_db w) (w_k w) (w_net w) (w_actors w) (w_heap w) x.

(** A Go function with access to all of it, returning [(A, error)]. *)
Definition IO (A : Type) : Type := M World error A.

(** *** Consulting the platform *)

Definition time_Now : IO Time := λ w, (w_tick w, Ok (clock (w_k w))).
Definition uuid_NewString : IO string := λ w, (w_tick w, Ok (uuid_at (w_k w))).
Definition rand_Read (n : nat) : IO string := λ w, (w_tick w, Ok (rand_at (w_k w) n)).

(** An autocommit statement on the connection pool. *)
Definition exec {A} (q : Sql A) : IO A := λ w,
  let db := interfere (w_k w) (w_db w) in
  let w' := w_tick (w_set_db db w) in
  match fault_at (w_k w), q (clock (w_k w)) db with
  | NoFault, Ok (db', a) => (w_set_db db' w', Ok a)
  | NoFault, Err e => (w', Err e)
  | Fault true msg, Ok (db', _) => (w_set_db db' w', Err (ErrorString msg))
  | Fault _ msg, _ => (w', Err (ErrorString msg))
  end.

(** A statement inside a transaction started at [now]: it sees the
    transaction's own view. *)
Definition exec_tx {A} (now : Time) (q : Sql A) : IO A := λ w,
  match fault_at (w_k w), q now (w_db w) with
  | NoFault, Ok (db', a) => (w_set_db db' (w_tick w), Ok a)
  | NoFault, Err e => (w_tick w, Err e)
  | Fault _ msg, _ => (w_tick w, Err (ErrorString msg))
  end.

(** *** Prometheus counters and gauges (src/internal/metrics/metrics.go) *)

Definition series {k} (c : Collector k) (ls : label_values c) : string * list string :=
  (c_Name c, vec_to_list ls).
Definition metric_add (c : Collector Counter) (ls : label_values c) (n : Z) : IO unit :=
  modify (λ w, w_set_metrics
    (partial_alter (λ v, Some (default 0 v + n)) (series c ls) (w_metrics w)) w).
Definition metric_set (c : Collector Gauge) (ls : label_values c) (n : Z) : IO unit :=
  modify (λ w, w_set_metrics (<[series c ls := n]> (w_metrics w)) w).

(** *** Predicates that do not depend on the tables or the platform's counter *)

Class DbFree (I : World → Prop) : Prop :=
  db_free : ∀ w db k, I w → I (mkWorld db k (w_net w) (w_actors w) (w_heap w) (w_metrics w)).

Section DbFree.
Context (I : World → Prop) `{!DbFree I}.

Lemma set_db_free w db : I w → I (w_set_db db w).
Proof. apply db_free. Qed.
Lemma tick_free w : I w → I (w_tick w).
Proof. apply db_free. Qed.
Lemma exec_free {A} (q : Sql A) : preserves I (exec q).
Proof. intros w Hw. unfold exec. repeat case_match; simplify_eq; by apply (db_free w). Qed.
Lemma exec_tx_free {A} now (q : Sql A) : preserves I (exec_tx now q).
Proof. intros w Hw. unfold exec_tx. repeat case_match; simplify_eq; by apply (db_free w). Qed.
Lemma time_Now_free : preserves I time_Now.
Proof. intros w Hw. by apply tick_free. Qed.
Lemma uuid_NewString_free : preserves I uuid_NewString.
Proof. intros w Hw. by apply tick_free. Qed.
Lemma rand_Read_free n : preserves I (rand_Read n).
Proof. intros w Hw. by apply tick_free. Qed.
End DbFree.

(** *** The assumptions of the theorems on a single activity *)

(** No other session writes, and no statement fails for an outside reason. *)
Class Quiet : Prop := {
  quiet_interfere : ∀ k db, interfere k db = db;
  quiet_fault : ∀ k, fault_at k = NoFault
}.

(** No other session writes; statements may still fail. *)
Class Alone : Prop := alone : ∀ k db, interfere k db = db.

#[export] Instance Quiet_Alone `{!Quiet} : Alone := quiet_interfere.

(** Other sessions also respect the schema. *)
Class Rely : Prop := rely_ok : ∀ k db, db_ok db → db_ok (interfere k db).

(** What the database's constraints guarantee of the program's state. *)
Definition w_ok (w : World) : Prop := db_ok (w_db w).

(** *** Their consequences for the primitives *)

Lemma exec_quiet `{!Quiet} {A} (q : Sql A) w :
  exec q w =
  match q (clock (w_k w)) (w_db w) with
  | Ok (db', a) => (w_set_db db' (w_tick w), Ok a)
  | Err e => (w_tick w, Err e)
  end.
Proof.
  unfold exec. rewrite quiet_interfere, quiet_fault. by destruct w.
Qed.

Lemma exec_reads `{!Alone} {A} (q : Sql A) w : reads q → w_db (exec q w).1 = w_db w.
Proof.
  intros Hq. unfold exec. rewrite alone.
  destruct (q _ _) as [[db' a]|e] eqn:E, (fault_at (w_k w)) as [|[] msg]; try done;
    by apply Hq in E.
Qed.

Lemma exec_tx_quiet `{!Quiet} {A} now (q : Sql A) w :
  exec_tx now q w =
  match q now (w_db w) with
  | Ok (db', a) => (w_set_db db' (w_tick w), Ok a)
  | Err e => (w_tick w, Err e)
  end.
Proof. unfold exec_tx. by rewrite quiet_fault. Qed.

Lemma exec_tx_Ok {A} now (q : Sql A) w w' a :
  exec_tx now q w = (w', Ok a) →
  q now (w_db w) = Ok (w_db w', a) ∧ w' = w_set_db (w_db w') (w_tick w).
Proof.
  unfold exec_tx. repeat case_match; intros; simplify_eq. cbn. by split.
Qed.

Lemma preserves_exec `{!Rely} {A} (q : Sql A) : sql_ok q → preserves w_ok (exec q).
Proof.
  intros Hq w Hw. unfold exec, w_ok in *.
  pose proof (rely_ok (w_k w) _ Hw) as Hi.
  repeat case_match; cbn; simplify_eq; eauto.
Qed.

Lemma preserves_exec_tx {A} now (q : Sql A) : sql_ok q → preserves w_ok (exec_tx now q).
Proof.
  intros Hq w Hw. unfold exec_tx, w_ok in *.
  repeat case_match; cbn; simplify_eq; eauto.
Qed.

Lemma preserves_time_Now : preserves w_ok time_Now.
Proof. by intros w. Qed.
Lemma preserves_uuid_NewString : preserves w_ok uuid_NewString.
Proof. by intros w. Qed.
Lemma preserves_rand_Read n : preserves w_ok (rand_Read n).
Proof. by intros w. Qed.
Lemma preserves_metric_add c ls n : preserves w_ok (metric_add c ls n).
Proof. by intros w. Qed.
Lemma preserves_metric_set c ls n : preserves w_ok (metric_set c ls n).
Proof. by intros w. Qed.
End World.

Arguments Quiet P : clear implicits.
Arguments Alone P : clear implicits.
Arguments Rely P : clear implicits.

#[export] Hint Resolve preserves_exec preserves_exec_tx preserves_time_Now
  preserves_uuid_NewString preserves_rand_Read preserves_metric_add
  preserves_metric_set exec_free exec_tx_free time_Now_free uuid_NewString_free
  rand_Read_free : go_inv.
#[export] Hint Extern 0 (DbFree _) => typeclasses eauto : go_inv.
