(* ===== verification/StoreBase.v ===== *)
(** * Error mapping and transactions of the store
    (src/internal/store/store.go, tx.go and requireRow of nodes.go) *)

From stdpp Require Import base gmap strings list fin_maps sorting.
From Stdlib Require Import ZArith Lia.
From S2P Require Import Prelude Domain Database World.
Local Open Scope Z_scope.

Definition unique_violation (constraint : string) : error := PgError "23505" constraint.
Definition foreign_key_violation (constraint : string) : error := PgError "23503" constraint.

(** store.mapErr: driver errors to domain errors. *)
Definition mapErr (err : error) : error :=
  if errors_Is err ErrNoRows then ErrNotFound
  else match as_PgError err with
       | Some (code, constraint) =>
           if String.eqb code "23505" then WrapError ("conflict: " +:+ constraint) ErrConflict
           else if String.eqb code "23503"
                then WrapError ("validation error: " +:+ constraint) ErrValidation
                else err
       | None => err
       end.

(** The first failing check of a list, in the order the server tests them. *)
Fixpoint first_violation (checks : list (bool * error)) : option error :=
  match checks with
  | [] => None
  | (true, e) :: _ => Some e
  | (false, _) :: rest => first_violation rest
  end.

Lemma first_violation_None checks :
  first_violation checks = None → Forall (λ c, c.1 = false) checks.
Proof.
  induction checks as [|[[] e] rest IH]; cbn; [constructor|done|].
  intros H. constructor; auto.
Qed.

(** [ORDER BY created_at] over the rows of a table. *)
Definition earlier {A} (created : A → Time) (a b : A) : Prop := created a ≤ created b.

#[export] Instance earlier_dec {A} (created : A → Time) : RelDecision (earlier created).
Proof. intros a b. unfold earlier. apply _. Defined.

Definition by_created {A} (created : A → Time) (l : list A) : list A :=
  merge_sort (earlier created) l.

Section StoreBase.
Context {P : Platform}.

(** A single-row [SELECT] scanned with [row.Scan]: no row is [sql.ErrNoRows]. *)
Definition query_row {A} (q : Sql (option A)) : IO A :=
  map_err mapErr
    (r <- exec q ;;
     match r with Some a => ret a | None => throw ErrNoRows end).

(** requireRow: an UPDATE or DELETE that must touch a row. *)
Definition requireRow (m : IO Z) : IO unit :=
  n <- map_err mapErr m ;;
  if bool_decide (n = 0) then throw ErrNotFound else ret tt.

(** Store.WithTx: commit when [fn] succeeds, roll back otherwise.  [fn] gets
    the transaction, of which the model keeps the start time [now()] reads. *)
Definition WithTx {A} (fn : Time → IO A) : IO A := λ w,
  let now := clock (w_k w) in
  let db0 := interfere (w_k w) (w_db w) in
  let w1 := w_tick (w_set_db db0 w) in
  match fault_at (w_k w) with
  | Fault _ msg => (w1, Err (WrapError ("begin tx: " +:+ msg) (ErrorString msg)))
  | NoFault =>
      match fn now w1 with
      | (w2, Err e) => (w_set_db db0 w2, Err (mapErr e))
      | (w2, Ok a) =>
          match fault_at (w_k w2) with
          | NoFault => (w_tick w2, Ok a)
          | Fault applied msg =>
              (w_tick (if applied then w2 else w_set_db db0 w2),
               Err (WrapError ("commit tx: " +:+ msg) (ErrorString msg)))
          end
      end
  end.

(** ** Laws *)

Lemma preserves_query_row `{!Rely P} {A} (q : Sql (option A)) :
  sql_ok q → preserves w_ok (query_row q).
Proof. intros Hq. unfold query_row. go_inv. Qed.

Lemma preserves_requireRow (m : IO Z) : preserves w_ok m → preserves w_ok (requireRow m).
Proof. intros Hm. unfold requireRow. go_inv. Qed.

Lemma preserves_WithTx `{!Rely P} {A} (fn : Time → IO A) :
  (∀ now, preserves w_ok (fn now)) → preserves w_ok (WithTx fn).
Proof.
  intros Hfn w Hw. unfold WithTx. cbv zeta.
  pose proof (rely_ok (w_k w) _ Hw) as Hi.
  destruct (fault_at (w_k w)); [|done].
  pose proof (Hfn (clock (w_k w)) (w_tick (w_set_db (interfere (w_k w) (w_db w)) w)) Hi) as H1.
  destruct (fn _ _) as [w2 [a|e]]; [|done].
  destruct (fault_at (w_k w2)) as [|[] msg]; done.
Qed.

Lemma WithTx_free (I : World → Prop) `{!DbFree I} {A} (fn : Time → IO A) :
  (∀ now, preserves I (fn now)) → preserves I (WithTx fn).
Proof.
  intros Hfn w Hw. unfold WithTx. cbv zeta.
  set (w1 := w_tick (w_set_db _ w)).
  assert (I w1) as H1 by by apply tick_free, set_db_free.
  destruct (fault_at (w_k w)); [|done].
  pose proof (Hfn (clock (w_k w)) w1 H1) as H2.
  destruct (fn _ _) as [w2 [a|e]]; cbn in H2 |- *; [|by apply set_db_free].
  destruct (fault_at (w_k w2)) as [|[] msg]; apply tick_free; auto; by apply set_db_free.
Qed.

Lemma query_row_quiet `{!Quiet P} {A} (f : DB → option A) w :
  query_row (select f) w =
  (w_tick w, match f (w_db w) with Some a => Ok a | None => Err ErrNotFound end).
Proof.
  unfold query_row, map_err, bind. rewrite exec_quiet. cbn.
  destruct w. cbn. by destruct (f _).
Qed.

(** A row asked for by its id. *)
Lemma query_row_at_quiet `{!Quiet P} {A B} (t : DB → gmap string B) (g : string → DB → option A) id w :
  query_row (by_id t id (λ i, select (g i))) w =
  (w_tick w, match uuid_key (t (w_db w)) id with
             | Ok i => match g i (w_db w) with Some a => Ok a | None => Err ErrNotFound end
             | Err e => Err e
             end).
Proof.
  unfold query_row, map_err, bind. rewrite exec_quiet. unfold by_id, select.
  destruct w, (uuid_key _ _) as [i|e] eqn:He; cbn in *; [by destruct (g _ _)|].
  revert He. unfold uuid_key. repeat case_match; intros; by simplify_eq.
Qed.

(** A transaction of a quiet session either takes effect as a whole or not
    at all. *)
Lemma WithTx_quiet `{!Quiet P} {A} (fn : Time → IO A) w :
  WithTx fn w =
  match fn (clock (w_k w)) (w_tick w) with
  | (w2, Err e) => (w_set_db (w_db w) w2, Err (mapErr e))
  | (w2, Ok a) => (w_tick w2, Ok a)
  end.
Proof.
  unfold WithTx. rewrite quiet_interfere, quiet_fault.
  replace (w_set_db (w_db w) w) with w by (by destruct w).
  destruct (fn _ _) as [w2 [a|e]]; [|done]. by rewrite quiet_fault.
Qed.

(** The view a transaction opened in [w] starts from. *)
Definition tx_start (w : World) : World :=
  w_tick (w_set_db (interfere (w_k w) (w_db w)) w).

Lemma WithTx_Ok {A} (fn : Time → IO A) w w' a :
  WithTx fn w = (w', Ok a) →
  ∃ w2, fn (clock (w_k w)) (tx_start w) = (w2, Ok a) ∧ w' = w_tick w2.
Proof.
  unfold WithTx, tx_start. cbv zeta. intros Hrun.
  repeat case_match; simplify_eq. eauto.
Qed.

(** Faults that strike never leave a statement half-acknowledged: the server
    had not executed what it reports as failed. *)
Class CleanFaults : Prop := clean_faults : ∀ k msg, fault_at k ≠ Fault true msg.

Lemma WithTx_Err `{!CleanFaults} {A} (fn : Time → IO A) w w' e :
  WithTx fn w = (w', Err e) → w_db w' = interfere (w_k w) (w_db w).
Proof.
  unfold WithTx. cbv zeta. intros Hrun.
  repeat case_match; simplify_eq; cbn; try done.
  by edestruct clean_faults.
Qed.

Lemma requireRow_quiet `{!Quiet P} (q : Sql Z) w :
  requireRow (exec q) w =
  match q (clock (w_k w)) (w_db w) with
  | Ok (db', n) => (w_set_db db' (w_tick w),
                    if bool_decide (n = 0) then Err ErrNotFound else Ok tt)
  | Err e => (w_tick w, Err (mapErr e))
  end.
Proof.
  unfold requireRow, map_err, bind. rewrite exec_quiet.
  destruct (q _ _) as [[db' n]|e]; [|done]. by case_bool_decide.
Qed.
End StoreBase.

Arguments CleanFaults P : clear implicits.

#[export] Hint Resolve preserves_query_row preserves_requireRow preserves_WithTx : go_inv.
#[export] Hint Extern 1 (preserves _ (WithTx _)) =>
  first [apply preserves_WithTx | apply WithTx_free]; go_inv : go_inv.
