(* ===== verification/StoreUsers.v ===== *)
(** * The users table (src/internal/store/users.go) *)

From Stdlib Require Import Ascii.
From stdpp Require Import base gmap strings list fin_maps sorting.
From Stdlib Require Import ZArith Lia.
From S2P Require Import Prelude Domain Database World StoreBase.
Local Open Scope Z_scope.

(** ** Statements *)

(** The constraint a row of [users] would break, its own id aside. *)
Definition user_violation (u : User) (db : DB) : option error :=
  first_violation
    [ (clash (λ v, Some (u_Email v)) (u_ID u) (Some (u_Email u)) (t_users db),
       unique_violation "users_email_key");
      (clash (λ v, Some (u_UUID v)) (u_ID u) (Some (u_UUID u)) (t_users db),
       unique_violation "users_uuid_key");
      (clash (λ v, Some (u_TrojanPassword v)) (u_ID u) (Some (u_TrojanPassword u)) (t_users db),
       unique_violation "users_trojan_password_key");
      (clash (λ v, Some (u_SubToken v)) (u_ID u) (Some (u_SubToken u)) (t_users db),
       unique_violation "users_sub_token_key");
      (clash u_ExternalID (u_ID u) (u_ExternalID u) (t_users db),
       unique_violation "users_external_id_key");
      (match u_PlanID u with
       | Some p => negb (bool_decide (is_Some (t_plans db !! p)))
       | None => false
       end, foreign_key_violation "users_plan_id_fkey") ].

(** The parameters of a write to a row of [users] that PostgreSQL may refuse:
    the plan's id (here as the key it stands for) and the expiry. *)
Definition user_params `{PgTypes} (u : User) (db : DB) : res error User :=
  match uuid_ref (t_plans db) (u_PlanID u) with
  | Err e => Err e
  | Ok plan =>
      if from_option in_timestamptz true (u_ExpiresAt u) then Ok (u_set_PlanID plan u)
      else Err timestamp_out_of_range
  end.

Definition with_params `{PgTypes} {B} (u : User) (q : User → Sql B) : Sql B :=
  λ now db, match user_params u db with Ok u' => q u' now db | Err e => Err e end.

(** INSERT INTO users (...): the columns not listed take their defaults. *)
Definition sql_insert_user (u : User) : Sql unit := λ now db,
  if bool_decide (is_Some (t_users db !! u_ID u)) then Err (unique_violation "users_pkey")
  else
    let row := mkUser (u_ID u) (u_Email u) (u_UUID u) (u_TrojanPassword u) (u_PlanID u)
                 (u_Status u) (u_DataLimitBytes u) 0 0 (u_ExpiresAt u) (u_SubToken u)
                 (u_Note u) (u_ExternalID u) now now in
    match user_violation row db with
    | Some e => Err e
    | None => Ok (set_users (<[u_ID u := row]> (t_users db)) db, tt)
    end.

(** UPDATE users SET plan_id, status, data_limit_bytes, expires_at, note,
    sub_token, external_id, updated_at WHERE id. *)
Definition sql_update_user (u : User) : Sql Z := λ now db,
  match t_users db !! u_ID u with
  | None => Ok (db, 0)
  | Some r =>
      let row := mkUser (u_ID r) (u_Email r) (u_UUID r) (u_TrojanPassword r) (u_PlanID u)
                   (u_Status u) (u_DataLimitBytes u) (u_UsedUploadBytes r)
                   (u_UsedDownloadBytes r) (u_ExpiresAt u) (u_SubToken u) (u_Note u)
                   (u_ExternalID u) (u_CreatedAt r) now in
      match user_violation row db with
      | Some e => Err e
      | None => Ok (set_users (<[u_ID u := row]> (t_users db)) db, 1)
      end
  end.

(** UPDATE users SET ... WHERE id, touching no constrained column. *)
Definition sql_set_user (id : string) (f : Time → User → User) : Sql Z := λ now db,
  match t_users db !! id with
  | None => Ok (db, 0)
  | Some r => Ok (set_users (<[id := f now r]> (t_users db)) db, 1)
  end.

(** DELETE FROM users WHERE id; assignments and snapshots cascade. *)
Definition sql_delete_user (id : string) : Sql Z := λ _ db,
  match t_users db !! id with
  | None => Ok (db, 0)
  | Some _ =>
      Ok (set_traffic_snapshots
            (filter (λ s, ts_UserID s ≠ id) (t_traffic_snapshots db)) (t_snapshot_seq db)
            (set_user_inbounds
               (filter (λ '(k, _), k.1 ≠ id) (t_user_inbounds db))
               (set_users (delete id (t_users db)) db)), 1)
  end.

(** UPDATE users SET ... WHERE pred RETURNING id, over the whole table. *)
Definition update_where (pred : User → bool) (f : User → User) (db : DB) : DB * list string :=
  (set_users ((λ u, if pred u then f u else u) <$> t_users db) db,
   (map_to_list (t_users db)).*2 ≫= λ u, if pred u then [u_ID u] else []).

(** status='active' AND expires_at IS NOT NULL AND expires_at <= $1 *)
Definition due (now : Time) (u : User) : bool :=
  String.eqb (u_Status u) UserStatusActive &&
  match u_ExpiresAt u with Some e => bool_decide (e ≤ now) | None => false end.

(** The first user (ids are unordered, at most one matches a unique column). *)
Definition find_user (p : User → bool) (db : DB) : option User :=
  head (filter (λ u, p u = true) (map_to_list (t_users db)).*2).

(** ILIKE: [%] matches any run, [_] any character, a backslash escapes; case
    is folded (ASCII). *)
Definition fold_case (c : Ascii.ascii) : Ascii.ascii :=
  let n := Ascii.nat_of_ascii c in
  if (Nat.leb 65 n && Nat.leb n 90)%nat then Ascii.ascii_of_nat (n + 32) else c.

Fixpoint ilike (pat s : string) : bool :=
  match pat with
  | EmptyString => String.eqb s EmptyString
  | String p pat' =>
      if Ascii.eqb p "%"%char then
        (fix any (s : string) : bool :=
           ilike pat' s || match s with EmptyString => false | String _ s' => any s' end) s
      else if Ascii.eqb p "_"%char then
        match s with EmptyString => false | String _ s' => ilike pat' s' end
      else if Ascii.eqb p "\"%char then
        match pat', s with
        | String q pat'', String c s' => Ascii.eqb (fold_case q) (fold_case c) && ilike pat'' s'
        | _, _ => false
        end
      else
        match s with
        | EmptyString => false
        | String c s' => Ascii.eqb (fold_case p) (fold_case c) && ilike pat' s'
        end
  end.

Record UserFilter : Type := mkUserFilter {
  f_Status : string;
  f_PlanID : string;
  f_Query : string;
  f_Limit : Z;
  f_Offset : Z
}.

(** The WHERE clause ListUsers assembles; [plan] is the key the plan filter
    stands for. *)
Definition filter_matches (plan : option string) (f : UserFilter) (u : User) : bool :=
  (String.eqb (f_Status f) "" || String.eqb (u_Status u) (f_Status f)) &&
  match plan with None => true | Some p => bool_decide (u_PlanID u = Some p) end &&
  (String.eqb (f_Query f) "" ||
   ilike ("%" +:+ f_Query f +:+ "%") (u_Email u) ||
   ilike ("%" +:+ f_Query f +:+ "%") (u_Note u)).

Definition matching_users (plan : option string) (f : UserFilter) (db : DB) : list User :=
  filter (λ u, filter_matches plan f u = true) (map_to_list (t_users db)).*2.

(** The plan filter, an argument of both statements when it is given. *)
Definition plan_param (f : UserFilter) : option string :=
  if String.eqb (f_PlanID f) "" then None else Some (f_PlanID f).

(** The text arguments of both. *)
Definition text_params (f : UserFilter) : list string :=
  (if String.eqb (f_Status f) "" then [] else [f_Status f]) ++
  (if String.eqb (f_Query f) "" then [] else ["%" +:+ f_Query f +:+ "%"]).

Definition by_filter `{PgTypes} {B} (f : UserFilter) (q : option string → Sql B) : Sql B :=
  by_text (text_params f) (λ now db,
    match uuid_ref (t_plans db) (plan_param f) with
    | Ok plan => q plan now db
    | Err e => Err e
    end).

(** ORDER BY created_at DESC LIMIT l OFFSET o. *)
Definition sql_list_users (f : UserFilter) (limit offset : Z) (plan : option string)
    : Sql (list User) := λ _ db,
  if bool_decide (offset < 0) then Err (PgError "2201X" "")
  else Ok (db, take (Z.to_nat limit) (drop (Z.to_nat offset)
                 (by_created (λ u, - u_CreatedAt u) (matching_users plan f db)))).

(** ** Store methods *)

Section StoreUsers.
Context {P : Platform}.

Definition CreateUserTx (tx : Time) (u : User) : IO unit :=
  map_err mapErr (exec_tx tx (with_params u sql_insert_user)).

Definition GetUser (id : string) : IO User :=
  query_row (by_id t_users id (λ i, select (λ db, t_users db !! i))).

Definition GetUserBySubToken (token : string) : IO User :=
  query_row (by_text [token] (select (find_user (λ u, String.eqb (u_SubToken u) token)))).

Definition GetUserByExternalID (externalID : string) : IO User :=
  query_row (select (find_user (λ u, bool_decide (u_ExternalID u = Some externalID)))).

Definition GetUserByEmail (email : string) : IO User :=
  query_row (select (find_user (λ u, String.eqb (u_Email u) email))).

Definition ListUsers (f : UserFilter) : IO (list User * Z) :=
  total <- map_err mapErr (exec (by_filter f (λ plan,
             select (λ db, Z.of_nat (length (matching_users plan f db)))))) ;;
  let limit := if bool_decide (f_Limit f ≤ 0) then 50 else f_Limit f in
  rows <- map_err mapErr (exec (by_filter f (sql_list_users f limit (f_Offset f)))) ;;
  ret (rows, total).

Definition UpdateUser (u : User) : IO unit := requireRow (exec (with_params u sql_update_user)).

Definition SetUserStatus (id : string) (status : UserStatus) : IO unit :=
  requireRow (exec (by_id t_users id (λ i,
    sql_set_user i (λ now u, u_set_UpdatedAt now (u_set_Status status u))))).

Definition ResetTraffic (id : string) : IO unit :=
  requireRow (exec (by_id t_users id (λ i,
    sql_set_user i (λ now u, u_set_UpdatedAt now (u_set_Used 0 0 u))))).

Definition DeleteUser (id : string) : IO unit := requireRow (exec (by_id t_users id sql_delete_user)).

(** Maps emails to user ids, ignoring unknown ones. *)
Definition UserIDsByEmail (emails : list string) : IO (gmap string string) :=
  match emails with
  | [] => ret ∅
  | _ => map_err mapErr (exec (select (λ db,
           list_to_map ((λ u, (u_Email u, u_ID u)) <$>
             filter (λ u, u_Email u ∈ emails) (map_to_list (t_users db)).*2))))
  end.

(** Flips active users past their expiry and returns their ids. *)
Definition ExpireDueUsers (now : Time) : IO (list string) :=
  map_err mapErr (exec (λ dbnow db,
    Ok (update_where (due now)
          (λ u, u_set_UpdatedAt dbnow (u_set_Status UserStatusExpired u)) db))).
End StoreUsers.

(** ** The statements keep the schema's invariant *)

(** Replacing the users table by one with at least the same keys. *)
Lemma db_ok_set_users db users :
  db_ok db → users_ok users → references u_PlanID users (t_plans db) →
  (∀ i, is_Some (t_users db !! i) → is_Some (users !! i)) →
  db_ok (set_users users db).
Proof.
  intros [] Hu Hp Hk. constructor; cbn; auto.
  - by eapply references_keys.
  - eapply Forall_impl; [exact ok_snap_user|]. cbn. auto.
Qed.

Lemma user_violation_None u db :
  users_ok (t_users db) → references u_PlanID (t_users db) (t_plans db) →
  user_violation u db = None →
  users_ok (<[u_ID u := u]> (t_users db)) ∧
  references u_PlanID (<[u_ID u := u]> (t_users db)) (t_plans db).
Proof.
  intros [] Hp Hv. apply first_violation_None in Hv.
  repeat match goal with
         | H : Forall _ (_ :: _) |- _ => apply Forall_cons in H as [? H]
         end.
  cbn [fst] in *. split.
  - constructor; first [by apply keyed_insert | by apply unique_on_insert].
  - apply references_insert; [done|]. intros x Hx.
    repeat match goal with H : _ = false |- _ => rewrite Hx in H end.
    match goal with H : negb _ = false |- _ => apply negb_false_iff, bool_decide_eq_true in H end.
    done.
Qed.

Lemma users_ok_insert_same users i u u' :
  users_ok users → users !! i = Some u →
  u_ID u' = u_ID u → u_Email u' = u_Email u → u_UUID u' = u_UUID u →
  u_TrojanPassword u' = u_TrojanPassword u → u_SubToken u' = u_SubToken u →
  u_ExternalID u' = u_ExternalID u →
  users_ok (<[i := u']> users).
Proof.
  intros [] Hi ??????. constructor.
  - apply keyed_insert; [|done]. by rewrite <- (users_keyed _ _ Hi).
  - eapply unique_on_insert_same; eauto. by f_equal.
  - eapply unique_on_insert_same; eauto. by f_equal.
  - eapply unique_on_insert_same; eauto. by f_equal.
  - eapply unique_on_insert_same; eauto. by f_equal.
  - eapply unique_on_insert_same; eauto.
Qed.

(** An update of the rows that leaves every constrained column alone. *)
Definition benign (f : User → User) : Prop :=
  ∀ u, u_ID (f u) = u_ID u ∧ u_Email (f u) = u_Email u ∧ u_UUID (f u) = u_UUID u ∧
       u_TrojanPassword (f u) = u_TrojanPassword u ∧ u_SubToken (f u) = u_SubToken u ∧
       u_ExternalID (f u) = u_ExternalID u ∧ u_PlanID (f u) = u_PlanID u.

Lemma benign_if f (p : User → bool) : benign f → benign (λ u, if p u then f u else u).
Proof. intros Hf u. destruct (p u); [apply Hf|by repeat split]. Qed.

Lemma db_ok_fmap_users db f : benign f → db_ok db → db_ok (set_users (f <$> t_users db) db).
Proof.
  intros Hf Hdb. destruct (Hdb) as [[] Hp].
  apply db_ok_set_users; [done| | |].
  - constructor; (apply keyed_fmap || apply unique_on_fmap); try done; intros u;
      destruct (Hf u) as (?&?&?&?&?&?&?); congruence.
  - apply references_fmap; [|done]. intros u. by destruct (Hf u) as (?&?&?&?&?&?&?).
  - intros i Hi. by apply is_Some_fmap_lookup.
Qed.

Lemma is_Some_insert_weaken {A} (m : gmap string A) i j x :
  is_Some (m !! i) → is_Some (<[j := x]> m !! i).
Proof. intros Hi. apply lookup_insert_is_Some'. auto. Qed.

Lemma sql_insert_user_ok u : sql_ok (sql_insert_user u).
Proof.
  intros now db db' [] Hok. unfold sql_insert_user. case_bool_decide; [done|].
  cbv zeta. case_match eqn:Hv; [done|]. intros [= <-].
  apply user_violation_None in Hv as [??]; [|apply Hok..].
  apply db_ok_set_users; eauto using is_Some_insert_weaken.
Qed.

Lemma sql_update_user_ok u : sql_ok (sql_update_user u).
Proof.
  intros now db db' n Hok. unfold sql_update_user.
  destruct (t_users db !! u_ID u) as [r|] eqn:Hr; [|by intros [= <- _]].
  cbv zeta. case_match eqn:Hv; [done|]. intros [= <- _].
  assert (u_ID r = u_ID u) as Hid by apply (users_keyed _ (ok_users _ Hok) _ _ Hr).
  apply user_violation_None in Hv; [|apply Hok..]. cbn in Hv. rewrite Hid in Hv.
  rewrite Hid. destruct Hv. apply db_ok_set_users; eauto using is_Some_insert_weaken.
Qed.

Lemma sql_set_user_ok id f : (∀ now, benign (f now)) → sql_ok (sql_set_user id f).
Proof.
  intros Hf now db db' n Hok. unfold sql_set_user.
  destruct (t_users db !! id) as [r|] eqn:Hr; [|by intros [= <- _]].
  intros [= <- _]. destruct (Hf now r) as (?&?&?&?&?&?&Hp).
  apply db_ok_set_users; eauto using is_Some_insert_weaken.
  - eapply users_ok_insert_same; eauto. apply Hok.
  - apply references_insert; [apply Hok|]. rewrite Hp. intros x.
    by apply (ok_users_plan _ Hok _ _ _ Hr).
Qed.

Lemma keyed_filter_user (id : string) (m : gmap (string * string) UserInbound) k ui :
  keyed ui_key m → filter (λ '(k, _), k.1 ≠ id) m !! k = Some ui → ui_UserID ui ≠ id.
Proof.
  intros Hk Hf. apply map_lookup_filter_Some in Hf as [Hl Hne].
  apply Hk in Hl. subst k. done.
Qed.

Lemma sql_delete_user_ok id : sql_ok (sql_delete_user id).
Proof.
  intros now db db' n Hok. unfold sql_delete_user.
  destruct (t_users db !! id) as [r|] eqn:Hr; [|by intros [= <- _]].
  intros [= <- _]. destruct Hok as [[] ?]. constructor; cbn; auto.
  - constructor; first [ by apply unique_on_delete
                       | by eapply keyed_submap; [apply delete_subseteq|] ].
  - eapply references_submap; [apply delete_subseteq|done].
  - eapply keyed_submap; [apply map_filter_subseteq|done].
  - intros k ui x Hk [= <-]. pose proof (keyed_filter_user _ _ _ _ ok_ui_keyed Hk) as Hne.
    rewrite lookup_delete_ne by done.
    apply map_lookup_filter_Some in Hk as [Hk _]. by eapply ok_ui_user.
  - eapply references_submap; [apply map_filter_subseteq|done].
  - rewrite Forall_forall in ok_snap_user.
    apply Forall_forall. intros s [Hne Hs]%list_elem_of_filter.
    rewrite lookup_delete_ne by done. by apply ok_snap_user.
  - by apply Forall_filter_keep.
Qed.

Lemma update_where_ok pred f db : benign f → db_ok db → db_ok (update_where pred f db).1.
Proof. intros Hf Hdb. cbn. by apply db_ok_fmap_users; [apply benign_if|]. Qed.

Lemma sql_list_users_ok f l o plan : sql_ok (sql_list_users f l o plan).
Proof.
  intros now db db' a Hok. unfold sql_list_users. case_bool_decide; [done|].
  by intros [= <- _].
Qed.

Lemma with_params_ok `{PgTypes} {B} u (q : User → Sql B) :
  (∀ u, sql_ok (q u)) → sql_ok (with_params u q).
Proof. intros Hq now db db' b. unfold with_params. destruct (user_params _ _); [apply Hq|done]. Qed.

Lemma by_filter_ok `{PgTypes} {B} f (q : option string → Sql B) :
  (∀ plan, sql_ok (q plan)) → sql_ok (by_filter f q).
Proof. intros Hq. apply by_text_ok. intros now db db' b. destruct (uuid_ref _ _); [apply Hq|done]. Qed.

#[export] Hint Resolve by_filter_ok with_params_ok sql_insert_user_ok sql_update_user_ok sql_set_user_ok
  sql_delete_user_ok sql_list_users_ok : db_inv.

Section StoreUsersInv.
Context {P : Platform} `{!Rely P}.

Lemma CreateUserTx_inv tx u : preserves w_ok (CreateUserTx tx u).
Proof. unfold CreateUserTx. go_inv. eauto with go_inv db_inv. Qed.
Lemma GetUser_inv id : preserves w_ok (GetUser id).
Proof. apply preserves_query_row. eauto with db_inv. Qed.
Lemma GetUserBySubToken_inv t : preserves w_ok (GetUserBySubToken t).
Proof. apply preserves_query_row. eauto with db_inv. Qed.
Lemma GetUserByExternalID_inv e : preserves w_ok (GetUserByExternalID e).
Proof. apply preserves_query_row. eauto with db_inv. Qed.
Lemma GetUserByEmail_inv e : preserves w_ok (GetUserByEmail e).
Proof. apply preserves_query_row. eauto with db_inv. Qed.
Lemma ListUsers_inv f : preserves w_ok (ListUsers f).
Proof. unfold ListUsers. go_inv; eauto with go_inv db_inv. Qed.
Lemma UpdateUser_inv u : preserves w_ok (UpdateUser u).
Proof. unfold UpdateUser. eauto with go_inv db_inv. Qed.
Lemma SetUserStatus_inv id s : preserves w_ok (SetUserStatus id s).
Proof. apply preserves_requireRow, preserves_exec, by_id_ok. intros i. by apply sql_set_user_ok. Qed.
Lemma ResetTraffic_inv id : preserves w_ok (ResetTraffic id).
Proof. apply preserves_requireRow, preserves_exec, by_id_ok. intros i. by apply sql_set_user_ok. Qed.
Lemma DeleteUser_inv id : preserves w_ok (DeleteUser id).
Proof. unfold DeleteUser. eauto with go_inv db_inv. Qed.
Lemma UserIDsByEmail_inv l : preserves w_ok (UserIDsByEmail l).
Proof. unfold UserIDsByEmail. go_inv. eauto with go_inv db_inv. Qed.
Lemma ExpireDueUsers_inv now : preserves w_ok (ExpireDueUsers now).
Proof.
  unfold ExpireDueUsers. go_inv. apply preserves_exec.
  intros t db db' ids Hok [= <- _]. by apply db_ok_fmap_users; [apply benign_if|].
Qed.
End StoreUsersInv.

#[export] Hint Resolve CreateUserTx_inv GetUser_inv GetUserBySubToken_inv
  GetUserByExternalID_inv GetUserByEmail_inv ListUsers_inv UpdateUser_inv
  SetUserStatus_inv ResetTraffic_inv DeleteUser_inv UserIDsByEmail_inv
  ExpireDueUsers_inv : go_inv.
