(* ===== verification/StoreAssignments.v ===== *)
(** * The user_inbounds table (src/internal/store/assignments.go) *)

From stdpp Require Import base gmap strings list fin_maps.
From Stdlib Require Import ZArith Lia.
From S2P Require Import Prelude Domain Database World StoreBase.
Local Open Scope Z_scope.

(** A user→inbound→node tuple the reconciler pushes. *)
Record DesiredAssignment : Type := mkDesiredAssignment {
  d_UserID : string;
  d_InboundID : string;
  d_NodeID : string;
  d_InboundTag : string;
  d_Protocol : Protocol;
  d_Flow : string;
  d_Method : string;
  d_Email : string;
  d_UUID : string;
  d_TrojanPass : string;
  d_SyncStatus : SyncStatus
}.
#[export] Instance DesiredAssignment_eq_dec : EqDecision DesiredAssignment.
Proof. solve_decision. Defined.

(** ** Statements *)

Definition ui_set_SyncStatus (s : SyncStatus) (ui : UserInbound) : UserInbound :=
  mkUserInbound (ui_UserID ui) (ui_InboundID ui) s (ui_LastSyncedAt ui) (ui_LastError ui).

(** INSERT INTO user_inbounds (user_id, inbound_id, sync_status) VALUES
    ($1, $2, 'pending') ON CONFLICT DO NOTHING *)
Definition sql_add_assignment (userID inboundID : string) : Sql unit := λ _ db,
  if bool_decide (is_Some (t_user_inbounds db !! (userID, inboundID))) then Ok (db, tt)
  else if negb (bool_decide (is_Some (t_users db !! userID)))
       then Err (foreign_key_violation "user_inbounds_user_id_fkey")
  else if negb (bool_decide (is_Some (t_inbounds db !! inboundID)))
       then Err (foreign_key_violation "user_inbounds_inbound_id_fkey")
  else Ok (set_user_inbounds
             (<[(userID, inboundID) := mkUserInbound userID inboundID SyncPending None ""]>
                (t_user_inbounds db)) db, tt).

(** UPDATE user_inbounds SET sync_status='removing' WHERE ... *)
Definition sql_tombstone (p : UserInbound → bool) : Sql unit := λ _ db,
  Ok (set_user_inbounds
        ((λ ui, if p ui then ui_set_SyncStatus SyncRemoving ui else ui) <$> t_user_inbounds db) db,
      tt).

(** UPDATE user_inbounds SET sync_status, last_error, last_synced_at =
    COALESCE($5, last_synced_at) WHERE user_id AND inbound_id *)
Definition sql_mark_synced (userID inboundID : string) (status : SyncStatus)
    (errMsg : string) (seenAt : option Time) : Sql unit := λ _ db,
  Ok (set_user_inbounds
        (alter (λ ui, mkUserInbound (ui_UserID ui) (ui_InboundID ui) status
                        (match seenAt with Some t => Some t | None => ui_LastSyncedAt ui end) errMsg)
               (userID, inboundID) (t_user_inbounds db)) db, tt).

Definition sql_delete_assignment (userID inboundID : string) : Sql unit := λ _ db,
  Ok (set_user_inbounds (delete (userID, inboundID) (t_user_inbounds db)) db, tt).

Definition desired_row (ui : UserInbound) (i : Inbound) (u : User) : DesiredAssignment :=
  mkDesiredAssignment (ui_UserID ui) (ui_InboundID ui) (ib_NodeID i) (ib_Tag i) (ib_Protocol i)
    (ib_Flow i) (ib_Method i) (u_Email u) (u_UUID u) (u_TrojanPassword u) (ui_SyncStatus ui).

(** FROM user_inbounds ui JOIN inbounds i ON ... JOIN users u ON ... WHERE p *)
Definition join_row (p : UserInbound → Inbound → User → bool) (db : DB) (ui : UserInbound)
    : list DesiredAssignment :=
  match t_inbounds db !! ui_InboundID ui, t_users db !! ui_UserID ui with
  | Some i, Some u => if p ui i u then [desired_row ui i u] else []
  | _, _ => []
  end.
Definition join_assignments (p : UserInbound → Inbound → User → bool) (db : DB)
    : list DesiredAssignment :=
  (map_to_list (t_user_inbounds db)).*2 ≫= join_row p db.

(** i.node_id = $1 AND u.status = 'active' AND ui.sync_status <> 'removing' *)
Definition is_desired (nodeID : string) (ui : UserInbound) (i : Inbound) (u : User) : bool :=
  String.eqb (ib_NodeID i) nodeID && String.eqb (u_Status u) UserStatusActive
  && negb (String.eqb (ui_SyncStatus ui) SyncRemoving).

(** i.node_id = $1 AND (ui.sync_status = 'removing' OR u.status <> 'active') *)
Definition is_removal (nodeID : string) (ui : UserInbound) (i : Inbound) (u : User) : bool :=
  String.eqb (ib_NodeID i) nodeID
  && (String.eqb (ui_SyncStatus ui) SyncRemoving
      || negb (String.eqb (u_Status u) UserStatusActive)).

(** ** Store methods *)

Section StoreAssignments.
Context {P : Platform}.

(** (The ids of AddAssignmentTx, MarkAssignmentSynced, DeleteAssignment and the
    two per-node queries come from rows, never from a request.) *)
Definition AddAssignmentTx (tx : Time) (userID inboundID : string) : IO unit :=
  map_err mapErr (exec_tx tx (sql_add_assignment userID inboundID)).

Definition ListAssignmentsByUser (userID : string) : IO (list UserInbound) :=
  map_err mapErr (exec (by_id t_users userID (λ i, select (λ db,
    filter (λ ui, ui_UserID ui = i) (map_to_list (t_user_inbounds db)).*2)))).

Definition MarkAssignmentSynced (userID inboundID : string) (status : SyncStatus)
    (errMsg : string) : IO unit :=
  seenAt <- (if String.eqb status SyncApplied
             then now <- time_Now ;; ret (Some now)
             else ret None) ;;
  map_err mapErr (exec (sql_mark_synced userID inboundID status errMsg seenAt)).

Definition MarkAssignmentsRemovingForUser (userID : string) : IO unit :=
  map_err mapErr (exec (by_id t_users userID (λ i,
    sql_tombstone (λ ui, String.eqb (ui_UserID ui) i)))).

Definition DeleteAssignment (userID inboundID : string) : IO unit :=
  map_err mapErr (exec (sql_delete_assignment userID inboundID)).

(** [inboundIDs] is the slice argument: [None] is the nil slice, which the
    driver sends as NULL, so that [inbound_id <> ALL(NULL)] selects no row. *)
Definition SetAssignmentsForUserTx (tx : Time) (userID : string)
    (inboundIDs : option (list string)) : IO unit :=
  map_err mapErr (exec_tx tx (by_id t_users userID (λ i,
    match inboundIDs with
    | Some ids => by_ids t_inbounds ids (λ ids, sql_tombstone (λ ui,
                    String.eqb (ui_UserID ui) i && negb (bool_decide (ui_InboundID ui ∈ ids))))
    | None => sql_tombstone (λ _, false)
    end))) ;;;
  for_each (default [] inboundIDs) (λ ibID,
    map_err mapErr (exec_tx tx
      (by_id t_users userID (λ i, by_id t_inbounds ibID (sql_add_assignment i))))).

Definition queryDesired (q : Sql (list DesiredAssignment)) : IO (list DesiredAssignment) :=
  map_err mapErr (exec q).

Definition DesiredForNode (nodeID : string) : IO (list DesiredAssignment) :=
  queryDesired (select (join_assignments (is_desired nodeID))).

Definition RemovalsForNode (nodeID : string) : IO (list DesiredAssignment) :=
  queryDesired (select (join_assignments (is_removal nodeID))).

Definition AssignmentTargetsForUser (userID : string) : IO (list DesiredAssignment) :=
  queryDesired (by_id t_users userID (λ i,
    select (join_assignments (λ ui _ _, String.eqb (ui_UserID ui) i)))).
End StoreAssignments.

(** ** The statements keep the schema's invariant *)

Lemma db_ok_set_user_inbounds db uis :
  db_ok db → keyed ui_key uis →
  references (λ ui, Some (ui_UserID ui)) uis (t_users db) →
  references (λ ui, Some (ui_InboundID ui)) uis (t_inbounds db) →
  db_ok (set_user_inbounds uis db).
Proof. intros [] ???. by constructor. Qed.

Lemma sql_add_assignment_ok userID inboundID : sql_ok (sql_add_assignment userID inboundID).
Proof.
  intros now db db' [] Hok. unfold sql_add_assignment.
  case_bool_decide; [by intros [= <-]|].
  destruct (bool_decide (is_Some (t_users db !! userID))) eqn:Hu; [|done].
  destruct (bool_decide (is_Some (t_inbounds db !! inboundID))) eqn:Hi; [|done].
  apply bool_decide_eq_true in Hu, Hi. cbn. intros [= <-].
  apply db_ok_set_user_inbounds; [done| | |].
  - apply keyed_insert; [done|apply Hok].
  - apply references_insert; [apply Hok|]. cbn. by intros x [= <-].
  - apply references_insert; [apply Hok|]. cbn. by intros x [= <-].
Qed.

Lemma sql_tombstone_ok p : sql_ok (sql_tombstone p).
Proof.
  intros now db db' [] Hok [= <-].
  apply db_ok_set_user_inbounds; [done| | |];
    [apply keyed_fmap | apply references_fmap | apply references_fmap]; try apply Hok;
    intros ui; by destruct (p ui).
Qed.

Lemma lookup_alter_inv {A} (f : A → A) (m : gmap (string * string) A) k j b :
  alter f k m !! j = Some b → ∃ a, m !! j = Some a ∧ (b = a ∨ b = f a).
Proof.
  rewrite lookup_alter. case_decide; subst; [|by eauto].
  intros (a & -> & Ha)%fmap_Some. eauto.
Qed.

Lemma sql_mark_synced_ok userID inboundID s e t :
  sql_ok (sql_mark_synced userID inboundID s e t).
Proof.
  intros now db db' [] Hok [= <-].
  apply db_ok_set_user_inbounds; [done| | |].
  - intros k b Hb. apply lookup_alter_inv in Hb as (a & Ha & [->| ->]);
      by apply (ok_ui_keyed _ Hok) in Ha.
  - intros k b x Hb Hx. apply lookup_alter_inv in Hb as (a & Ha & [->| ->]);
      by eapply (ok_ui_user _ Hok).
  - intros k b x Hb Hx. apply lookup_alter_inv in Hb as (a & Ha & [->| ->]);
      by eapply (ok_ui_inbound _ Hok).
Qed.

Lemma sql_delete_assignment_ok userID inboundID :
  sql_ok (sql_delete_assignment userID inboundID).
Proof.
  intros now db db' [] Hok [= <-].
  apply db_ok_set_user_inbounds; [done| | |].
  - eapply keyed_submap; [apply delete_subseteq|apply Hok].
  - eapply references_submap; [apply delete_subseteq|apply Hok].
  - eapply references_submap; [apply delete_subseteq|apply Hok].
Qed.

#[export] Hint Resolve sql_add_assignment_ok sql_tombstone_ok sql_mark_synced_ok
  sql_delete_assignment_ok : db_inv.

Section StoreAssignmentsInv.
Context {P : Platform} `{!Rely P}.

Lemma AddAssignmentTx_inv tx u i : preserves w_ok (AddAssignmentTx tx u i).
Proof. unfold AddAssignmentTx. go_inv; eauto with go_inv db_inv. Qed.
Lemma ListAssignmentsByUser_inv u : preserves w_ok (ListAssignmentsByUser u).
Proof. unfold ListAssignmentsByUser. go_inv; eauto with go_inv db_inv. Qed.
Lemma MarkAssignmentSynced_inv u i s e : preserves w_ok (MarkAssignmentSynced u i s e).
Proof. unfold MarkAssignmentSynced. go_inv; eauto with go_inv db_inv. Qed.
Lemma MarkAssignmentsRemovingForUser_inv u :
  preserves w_ok (MarkAssignmentsRemovingForUser u).
Proof. unfold MarkAssignmentsRemovingForUser. go_inv; eauto with go_inv db_inv. Qed.
Lemma DeleteAssignment_inv u i : preserves w_ok (DeleteAssignment u i).
Proof. unfold DeleteAssignment. go_inv; eauto with go_inv db_inv. Qed.
Lemma SetAssignmentsForUserTx_inv tx u l : preserves w_ok (SetAssignmentsForUserTx tx u l).
Proof.
  unfold SetAssignmentsForUserTx. go_inv.
  - apply preserves_exec_tx, by_id_ok. intros i. destruct l; eauto with db_inv.
  - apply preserves_exec_tx, by_id_ok. intros i. eauto with db_inv.
Qed.
Lemma queryDesired_inv q : sql_ok q → preserves w_ok (queryDesired q).
Proof. unfold queryDesired. intros. go_inv; eauto with go_inv db_inv. Qed.
End StoreAssignmentsInv.

#[export] Hint Resolve AddAssignmentTx_inv ListAssignmentsByUser_inv MarkAssignmentSynced_inv
  MarkAssignmentsRemovingForUser_inv DeleteAssignment_inv SetAssignmentsForUserTx_inv
  queryDesired_inv : go_inv.
#[export] Hint Extern 1 (sql_ok _) => solve [eauto with db_inv] : go_inv.
#[export] Hint Unfold DesiredForNode RemovalsForNode AssignmentTargetsForUser : go_inv.
