(* ===== verification/StoreTraffic.v ===== *)
(** * Traffic accounting and quota enforcement (src/internal/store/traffic.go) *)

From stdpp Require Import base gmap strings list fin_maps sorting.
From Stdlib Require Import ZArith Lia.
From S2P Require Import Prelude Domain Database World StoreBase StoreUsers.
Local Open Scope Z_scope.

Record TrafficDelta : Type := mkTrafficDelta {
  td_UserID : string;
  td_Uplink : Z;
  td_Downlink : Z
}.

Record UsageBucket : Type := mkUsageBucket {
  b_Key : string;
  b_Uplink : Z;
  b_Downlink : Z
}.

(** ** Statements *)

(** INSERT INTO traffic_snapshots *)
Definition sql_insert_snapshot (userID nodeID : string) (up down : Z) (at_ : Time) : Sql unit :=
  λ _ db,
  if negb (bool_decide (is_Some (t_users db !! userID)))
  then Err (foreign_key_violation "traffic_snapshots_user_id_fkey")
  else if negb (bool_decide (is_Some (t_nodes db !! nodeID)))
  then Err (foreign_key_violation "traffic_snapshots_node_id_fkey")
  else Ok (set_traffic_snapshots
             (t_traffic_snapshots db
                ++ [mkTrafficSnapshot (t_snapshot_seq db) userID nodeID up down at_])
             (t_snapshot_seq db + 1) db, tt).

(** UPDATE users SET used_upload_bytes = used_upload_bytes + $2, ...: BIGINT
    addition raises on overflow. *)
Definition sql_add_usage (id : string) (up down : Z) : Sql unit := λ now db,
  match t_users db !! id with
  | None => Ok (db, tt)
  | Some u =>
      let up' := u_UsedUploadBytes u + up in
      let down' := u_UsedDownloadBytes u + down in
      if in_int8 up' && in_int8 down'
      then Ok (set_users (<[id := u_set_UpdatedAt now (u_set_Used up' down' u)]> (t_users db)) db, tt)
      else Err out_of_range
  end.

(** status = 'active' AND data_limit_bytes IS NOT NULL
    AND used_upload_bytes + used_download_bytes >= data_limit_bytes *)
Definition quota_crossed (u : User) : bool :=
  String.eqb (u_Status u) UserStatusActive &&
  match u_DataLimitBytes u with
  | Some limit => bool_decide (limit ≤ u_UsedUploadBytes u + u_UsedDownloadBytes u)
  | None => false
  end.

(** The sum of the WHERE clause overflows BIGINT on this row. *)
Definition quota_overflows (u : User) : bool :=
  String.eqb (u_Status u) UserStatusActive &&
  match u_DataLimitBytes u with
  | Some _ => negb (in_int8 (u_UsedUploadBytes u + u_UsedDownloadBytes u))
  | None => false
  end.

(** UPDATE users SET status = 'suspended' WHERE ... RETURNING id *)
Definition sql_suspend_over_quota : Sql (list string) := λ now db,
  if existsb quota_overflows (map_to_list (t_users db)).*2 then Err out_of_range
  else Ok (update_where quota_crossed
             (λ u, u_set_UpdatedAt now (u_set_Status UserStatusSuspended u)) db).

(** SELECT k, sum(uplink_bytes), sum(downlink_bytes) ... GROUP BY k *)
Definition group_sums (key : TrafficSnapshot → string) (l : list TrafficSnapshot)
    : gmap string (Z * Z) :=
  foldr (λ s m,
    let '(up, down) := default (0, 0) (m !! key s) in
    <[key s := (up + ts_UplinkBytes s, down + ts_DownlinkBytes s)]> m) ∅ l.

Definition usage_rows (userID : string) (from to : Time) (db : DB) : list TrafficSnapshot :=
  filter (λ s, ts_UserID s = userID ∧ from ≤ ts_CollectedAt s ∧ ts_CollectedAt s < to)
    (t_traffic_snapshots db).

Definition key_le (a b : string * (Z * Z)) : Prop := String.leb a.1 b.1 = true.
#[export] Instance key_le_dec : RelDecision key_le.
Proof. intros a b. unfold key_le. apply _. Defined.

(** ** Store methods *)

Section StoreTraffic.
Context {P : Platform}.

(** The loop body over the deltas. *)
Definition apply_delta (tx : Time) (nodeID : string) (at_ : Time) (d : TrafficDelta) : IO unit :=
  if bool_decide (td_Uplink d = 0) && bool_decide (td_Downlink d = 0) then ret tt
  else
    exec_tx tx (sql_insert_snapshot (td_UserID d) nodeID (td_Uplink d) (td_Downlink d) at_) ;;;
    exec_tx tx (sql_add_usage (td_UserID d) (td_Uplink d) (td_Downlink d)).

Definition ApplyTrafficDeltas (nodeID : string) (deltas : list TrafficDelta) (at_ : Time)
    : IO (list string) :=
  WithTx (λ tx,
    for_each deltas (apply_delta tx nodeID at_) ;;;
    exec_tx tx sql_suspend_over_quota).

Definition bucket (kv : string * (Z * Z)) : UsageBucket :=
  mkUsageBucket kv.1 kv.2.1 kv.2.2.

Definition UserUsage (userID : string) (from to : Time) (groupBy : string)
    : IO (list UsageBucket) :=
  let key := if String.eqb groupBy "node" then ts_NodeID else (λ s, pg_day (ts_CollectedAt s)) in
  rows <- map_err mapErr (exec (by_id t_users userID (λ i, select (λ db,
    merge_sort key_le (map_to_list (group_sums key (usage_rows i from to db))))))) ;;
  if forallb (λ kv, in_int8 kv.2.1 && in_int8 kv.2.2) rows
  then ret (bucket <$> rows)
  else throw (ErrorString "sql: Scan error: value out of range").

(** DELETE FROM traffic_snapshots WHERE collected_at < $1 *)
Definition sql_prune (before : Time) : Sql Z := λ _ db,
  if in_timestamptz before then
    let kept := filter (λ s, ¬ ts_CollectedAt s < before) (t_traffic_snapshots db) in
    Ok (set_traffic_snapshots kept (t_snapshot_seq db) db,
        Z.of_nat (length (t_traffic_snapshots db)) - Z.of_nat (length kept))
  else Err timestamp_out_of_range.

Definition PruneSnapshots (before : Time) : IO Z := map_err mapErr (exec (sql_prune before)).
End StoreTraffic.

(** ** The statements keep the schema's invariant *)

Lemma db_ok_set_snapshots db l seq :
  db_ok db →
  Forall (λ s, is_Some (t_users db !! ts_UserID s) ∧ is_Some (t_nodes db !! ts_NodeID s)) l →
  db_ok (set_traffic_snapshots l seq db).
Proof. intros [] [??]%Forall_and. by constructor. Qed.

Lemma db_ok_snapshots db :
  db_ok db →
  Forall (λ s, is_Some (t_users db !! ts_UserID s) ∧ is_Some (t_nodes db !! ts_NodeID s))
    (t_traffic_snapshots db).
Proof. intros []. by apply Forall_and. Qed.

Lemma sql_insert_snapshot_ok u n up down t : sql_ok (sql_insert_snapshot u n up down t).
Proof.
  intros now db db' [] Hok. unfold sql_insert_snapshot.
  destruct (bool_decide (is_Some (t_users db !! u))) eqn:Hu; [|done].
  destruct (bool_decide (is_Some (t_nodes db !! n))) eqn:Hn; [|done].
  apply bool_decide_eq_true in Hu, Hn. cbn. intros [= <-].
  apply db_ok_set_snapshots; [done|]. apply Forall_app; split; [by apply db_ok_snapshots|].
  by constructor.
Qed.

Lemma sql_add_usage_ok id up down : sql_ok (sql_add_usage id up down).
Proof.
  intros now db db' [] Hok H.
  apply (sql_set_user_ok id (λ now u,
    u_set_UpdatedAt now (u_set_Used (u_UsedUploadBytes u + up) (u_UsedDownloadBytes u + down) u))
    (λ now u, ltac:(by repeat split)) now db db' (match t_users db !! id with Some _ => 1 | None => 0 end) Hok).
  revert H. unfold sql_add_usage, sql_set_user.
  destruct (t_users db !! id); [|by intros [= <-]].
  cbv zeta. case_match; [|done]. by intros [= <-].
Qed.

Lemma sql_suspend_over_quota_ok : sql_ok sql_suspend_over_quota.
Proof.
  intros now db db' ids Hok. unfold sql_suspend_over_quota. case_match; [done|].
  intros [= <- _]. by apply db_ok_fmap_users; [apply benign_if|].
Qed.

#[export] Hint Resolve sql_insert_snapshot_ok sql_add_usage_ok sql_suspend_over_quota_ok : db_inv.

Section StoreTrafficInv.
Context {P : Platform} `{!Rely P}.

Lemma ApplyTrafficDeltas_inv n ds t : preserves w_ok (ApplyTrafficDeltas n ds t).
Proof.
  unfold ApplyTrafficDeltas, apply_delta. apply preserves_WithTx. go_inv;
    eauto with go_inv db_inv.
Qed.
Lemma UserUsage_inv u f t g : preserves w_ok (UserUsage u f t g).
Proof. unfold UserUsage. go_inv; eauto with go_inv db_inv. Qed.
Lemma PruneSnapshots_inv t : preserves w_ok (PruneSnapshots t).
Proof.
  unfold PruneSnapshots. go_inv. apply preserves_exec. intros now db db' n Hok.
  unfold sql_prune. case_match; [|done]. intros [= <- _].
  apply db_ok_set_snapshots; [done|]. by apply Forall_filter_keep, db_ok_snapshots.
Qed.
End StoreTrafficInv.

#[export] Hint Resolve ApplyTrafficDeltas_inv UserUsage_inv PruneSnapshots_inv : go_inv.
