(* ===== verification/StoreAdmin.v ===== *)
(** * The nodes, inbounds, plans, api_keys and webhook_events tables
    (src/internal/store/nodes.go, inbounds.go, plans.go, apikeys.go, webhooks.go) *)

From stdpp Require Import base gmap strings list fin_maps sorting.
From Stdlib Require Import ZArith Lia.
From S2P Require Import Prelude Domain Database World StoreBase StoreUsers.
Local Open Scope Z_scope.

(** ** Nodes *)

(** scanNode: the has-key flag is recomputed from the stored key. *)
Definition scanNode (n : Node) : Node :=
  mkNode (n_ID n) (n_Name n) (n_APIAddress n) (n_APIPort n) (n_APITLS n)
    (n_APITLSServerName n) (n_APITLSInsecure n) (n_APICACert n) (n_APIClientCert n)
    (n_APIClientKey n) (negb (String.eqb (n_APIClientKey n) "")) (n_Status n)
    (n_LastSeenAt n) (n_LastError n) (n_CreatedAt n) (n_UpdatedAt n).

Definition node_violation (n : Node) (db : DB) : option error :=
  first_violation
    [ (negb (in_int4 (n_APIPort n)), out_of_range);
      (clash (λ m, Some (n_Name m)) (n_ID n) (Some (n_Name n)) (t_nodes db),
       unique_violation "nodes_name_key") ].

Definition sql_insert_node (n : Node) : Sql unit := λ now db,
  if bool_decide (is_Some (t_nodes db !! n_ID n)) then Err (unique_violation "nodes_pkey")
  else
    let row := mkNode (n_ID n) (n_Name n) (n_APIAddress n) (n_APIPort n) (n_APITLS n)
                 (n_APITLSServerName n) (n_APITLSInsecure n) (n_APICACert n)
                 (n_APIClientCert n) (n_APIClientKey n)
                 (negb (String.eqb (n_APIClientKey n) "")) (n_Status n) None "" now now in
    match node_violation row db with
    | Some e => Err e
    | None => Ok (set_nodes (<[n_ID n := row]> (t_nodes db)) db, tt)
    end.

Definition sql_update_node (n : Node) : Sql Z := λ now db,
  match t_nodes db !! n_ID n with
  | None => Ok (db, 0)
  | Some r =>
      let row := mkNode (n_ID r) (n_Name n) (n_APIAddress n) (n_APIPort n) (n_APITLS n)
                   (n_APITLSServerName n) (n_APITLSInsecure n) (n_APICACert n)
                   (n_APIClientCert n) (n_APIClientKey n)
                   (negb (String.eqb (n_APIClientKey n) "")) (n_Status n) (n_LastSeenAt r)
                   (n_LastError r) (n_CreatedAt r) now in
      match node_violation row db with
      | Some e => Err e
      | None => Ok (set_nodes (<[n_ID n := row]> (t_nodes db)) db, 1)
      end
  end.

(** UPDATE nodes SET status, last_error, last_seen_at = COALESCE($4, last_seen_at) *)
Definition sql_set_node_health (id : string) (status : NodeStatus) (lastErr : string)
    (seenAt : option Time) : Sql Z := λ now db,
  match t_nodes db !! id with
  | None => Ok (db, 0)
  | Some r =>
      let row := mkNode (n_ID r) (n_Name r) (n_APIAddress r) (n_APIPort r) (n_APITLS r)
                   (n_APITLSServerName r) (n_APITLSInsecure r) (n_APICACert r)
                   (n_APIClientCert r) (n_APIClientKey r) (n_APIHasClientKey r) status
                   (match seenAt with Some t => Some t | None => n_LastSeenAt r end)
                   lastErr (n_CreatedAt r) now in
      Ok (set_nodes (<[id := row]> (t_nodes db)) db, 1)
  end.

(** The keys of the inbounds a node or an inbound deletion removes. *)
Definition drop_inbounds (p : Inbound → bool) (db : DB) : DB :=
  set_user_inbounds
    (filter (λ '(k, _), from_option p false (t_inbounds db !! k.2) = false)
       (t_user_inbounds db))
    (set_inbounds (filter (λ '(_, i), p i = false) (t_inbounds db)) db).

(** DELETE FROM nodes: inbounds, their assignments and the snapshots cascade. *)
Definition sql_delete_node (id : string) : Sql Z := λ _ db,
  match t_nodes db !! id with
  | None => Ok (db, 0)
  | Some _ =>
      let db1 := drop_inbounds (λ i, String.eqb (ib_NodeID i) id) db in
      Ok (set_nodes (delete id (t_nodes db1))
            (set_traffic_snapshots
               (filter (λ s, ts_NodeID s ≠ id) (t_traffic_snapshots db1))
               (t_snapshot_seq db1) db1), 1)
  end.

(** ** Inbounds *)

Definition inbound_violation (ib : Inbound) (db : DB) : option error :=
  first_violation
    [ (negb (in_int4 (ib_ListenPort ib)), out_of_range);
      (negb (in_int4 (ib_PublicPort ib)), out_of_range);
      (clash inbound_slot (ib_ID ib) (inbound_slot ib) (t_inbounds db),
       unique_violation "inbounds_node_id_tag_key");
      (negb (bool_decide (is_Some (t_nodes db !! ib_NodeID ib))),
       foreign_key_violation "inbounds_node_id_fkey") ].

Definition inbound_at (ib : Inbound) (id nodeID : string) (created updated : Time) : Inbound :=
  mkInbound id nodeID (ib_Tag ib) (ib_Protocol ib) (ib_ListenPort ib) (ib_PublicHost ib)
    (ib_PublicPort ib) (ib_Network ib) (ib_Security ib) (ib_WSPath ib) (ib_HostHeader ib)
    (ib_GRPCServiceName ib) (ib_SNI ib) (ib_Fingerprint ib) (ib_RealityPublicKey ib)
    (ib_RealityShortID ib) (ib_Flow ib) (ib_Method ib) (ib_XHTTPMode ib) (ib_Remark ib)
    created updated.

Definition ib_set_NodeID (nodeID : string) (ib : Inbound) : Inbound :=
  inbound_at ib (ib_ID ib) nodeID (ib_CreatedAt ib) (ib_UpdatedAt ib).

Definition sql_insert_inbound (ib : Inbound) : Sql unit := λ now db,
  if bool_decide (is_Some (t_inbounds db !! ib_ID ib)) then Err (unique_violation "inbounds_pkey")
  else
    let row := inbound_at ib (ib_ID ib) (ib_NodeID ib) now now in
    match inbound_violation row db with
    | Some e => Err e
    | None => Ok (set_inbounds (<[ib_ID ib := row]> (t_inbounds db)) db, tt)
    end.

Definition sql_update_inbound (ib : Inbound) : Sql Z := λ now db,
  match t_inbounds db !! ib_ID ib with
  | None => Ok (db, 0)
  | Some r =>
      let row := inbound_at ib (ib_ID r) (ib_NodeID r) (ib_CreatedAt r) now in
      match inbound_violation row db with
      | Some e => Err e
      | None => Ok (set_inbounds (<[ib_ID ib := row]> (t_inbounds db)) db, 1)
      end
  end.

Definition sql_delete_inbound (id : string) : Sql Z := λ _ db,
  match t_inbounds db !! id with
  | None => Ok (db, 0)
  | Some _ => Ok (drop_inbounds (λ i, String.eqb (ib_ID i) id) db, 1)
  end.

(** SELECT ... FROM inbounds i JOIN user_inbounds ui WHERE ui.user_id = $1
    ORDER BY i.created_at *)
Definition inbounds_of_user (userID : string) (db : DB) : list Inbound :=
  by_created ib_CreatedAt
    (map_to_list (t_user_inbounds db) ≫= λ '(_, ui),
       if String.eqb (ui_UserID ui) userID
       then match t_inbounds db !! ui_InboundID ui with Some i => [i] | None => [] end
       else []).

(** ** Plans *)

Definition plan_violation (p : Plan) (db : DB) : option error :=
  first_violation
    [ (match p_DurationDays p with Some d => negb (in_int4 d) | None => false end, out_of_range);
      (clash (λ q, Some (p_Name q)) (p_ID p) (Some (p_Name p)) (t_plans db),
       unique_violation "plans_name_key") ].

Definition sql_insert_plan (p : Plan) : Sql unit := λ now db,
  if bool_decide (is_Some (t_plans db !! p_ID p)) then Err (unique_violation "plans_pkey")
  else
    let row := mkPlan (p_ID p) (p_Name p) (p_DataLimitBytes p) (p_DurationDays p) now now in
    match plan_violation row db with
    | Some e => Err e
    | None => Ok (set_plans (<[p_ID p := row]> (t_plans db)) db, tt)
    end.

Definition sql_update_plan (p : Plan) : Sql Z := λ now db,
  match t_plans db !! p_ID p with
  | None => Ok (db, 0)
  | Some r =>
      let row := mkPlan (p_ID r) (p_Name p) (p_DataLimitBytes p) (p_DurationDays p)
                   (p_CreatedAt r) now in
      match plan_violation row db with
      | Some e => Err e
      | None => Ok (set_plans (<[p_ID p := row]> (t_plans db)) db, 1)
      end
  end.

(** DELETE FROM plans: users.plan_id is set to NULL. *)
Definition sql_delete_plan (id : string) : Sql Z := λ _ db,
  match t_plans db !! id with
  | None => Ok (db, 0)
  | Some _ =>
      Ok (set_plans (delete id (t_plans db))
            (set_users
               ((λ u, if bool_decide (u_PlanID u = Some id) then u_set_PlanID None u else u)
                  <$> t_users db) db), 1)
  end.

(** ** API keys *)

Definition sql_insert_api_key (k : APIKey) : Sql unit := λ now db,
  if bool_decide (is_Some (t_api_keys db !! k_ID k)) then Err (unique_violation "api_keys_pkey")
  else if clash (λ j, Some (k_KeyHash j)) (k_ID k) (Some (k_KeyHash k)) (t_api_keys db)
  then Err (unique_violation "api_keys_key_hash_key")
  else Ok (set_api_keys
             (<[k_ID k := mkAPIKey (k_ID k) (k_Name k) (k_KeyHash k) now None None]>
                (t_api_keys db)) db, tt).

(** WHERE key_hash = $1 AND revoked_at IS NULL *)
Definition live_key (hash : string) (k : APIKey) : bool :=
  String.eqb (k_KeyHash k) hash && bool_decide (k_RevokedAt k = None).

(** UPDATE api_keys SET last_used_at = now() WHERE ... RETURNING *)
Definition sql_touch_api_key (hash : string) : Sql (option APIKey) := λ now db,
  let touch k := mkAPIKey (k_ID k) (k_Name k) (k_KeyHash k) (k_CreatedAt k) (Some now) (k_RevokedAt k) in
  Ok (set_api_keys ((λ k, if live_key hash k then touch k else k) <$> t_api_keys db) db,
      touch <$> head (filter (λ k, live_key hash k = true) (map_to_list (t_api_keys db)).*2)).

Definition sql_revoke_api_key (id : string) : Sql Z := λ now db,
  match t_api_keys db !! id with
  | Some (mkAPIKey i n h c l None) =>
      Ok (set_api_keys (<[id := mkAPIKey i n h c l (Some now)]> (t_api_keys db)) db, 1)
  | _ => Ok (db, 0)
  end.

(** ** Store methods *)

Section StoreAdmin.
Context {P : Platform}.

Definition CreateNode (n : Node) : IO unit := map_err mapErr (exec (sql_insert_node n)).
Definition GetNode (id : string) : IO Node :=
  query_row (by_id t_nodes id (λ i, select (λ db, scanNode <$> t_nodes db !! i))).
Definition ListNodes : IO (list Node) :=
  map_err mapErr (exec (select (λ db,
    scanNode <$> by_created n_CreatedAt (map_to_list (t_nodes db)).*2))).
Definition UpdateNode (n : Node) : IO unit := requireRow (exec (sql_update_node n)).
Definition SetNodeHealth (id : string) (status : NodeStatus) (lastErr : string)
    (seenAt : option Time) : IO unit :=
  requireRow (exec (sql_set_node_health id status lastErr seenAt)).
Definition DeleteNode (id : string) : IO unit :=
  requireRow (exec (by_id t_nodes id sql_delete_node)).

Definition CreateInbound (ib : Inbound) : IO unit :=
  map_err mapErr (exec (by_id t_nodes (ib_NodeID ib) (λ i,
    sql_insert_inbound (ib_set_NodeID i ib)))).
Definition GetInbound (id : string) : IO Inbound :=
  query_row (by_id t_inbounds id (λ i, select (λ db, t_inbounds db !! i))).
Definition queryInbounds (q : Sql (list Inbound)) : IO (list Inbound) :=
  map_err mapErr (exec q).
Definition ListInboundsByNode (nodeID : string) : IO (list Inbound) :=
  queryInbounds (by_id t_nodes nodeID (λ id, select (λ db,
    by_created ib_CreatedAt
      (filter (λ i, ib_NodeID i = id) (map_to_list (t_inbounds db)).*2)))).
Definition ListInboundsByIDs (ids : list string) : IO (list Inbound) :=
  match ids with
  | [] => ret []
  | _ => queryInbounds (by_ids t_inbounds ids (λ ids, select (λ db,
           filter (λ i, ib_ID i ∈ ids) (map_to_list (t_inbounds db)).*2)))
  end.
Definition ListInboundsForUser (userID : string) : IO (list Inbound) :=
  queryInbounds (select (inbounds_of_user userID)).
Definition UpdateInbound (ib : Inbound) : IO unit := requireRow (exec (sql_update_inbound ib)).
Definition DeleteInbound (id : string) : IO unit :=
  requireRow (exec (by_id t_inbounds id sql_delete_inbound)).

Definition CreatePlan (p : Plan) : IO unit := map_err mapErr (exec (sql_insert_plan p)).
Definition GetPlan (id : string) : IO Plan :=
  query_row (by_id t_plans id (λ i, select (λ db, t_plans db !! i))).
Definition ListPlans : IO (list Plan) :=
  map_err mapErr (exec (select (λ db, by_created p_CreatedAt (map_to_list (t_plans db)).*2))).
Definition UpdatePlan (p : Plan) : IO unit := requireRow (exec (sql_update_plan p)).
Definition DeletePlan (id : string) : IO unit :=
  requireRow (exec (by_id t_plans id sql_delete_plan)).

Definition CreateAPIKey (k : APIKey) : IO unit := map_err mapErr (exec (sql_insert_api_key k)).
Definition FindAPIKeyByHash (hash : string) : IO APIKey :=
  map_err mapErr
    (r <- exec (sql_touch_api_key hash) ;;
     match r with Some k => ret k | None => throw ErrNoRows end).
Definition ListAPIKeys : IO (list APIKey) :=
  map_err mapErr (exec (select (λ db,
    by_created k_CreatedAt (map_to_list (t_api_keys db)).*2))).
Definition RevokeAPIKey (id : string) : IO unit :=
  requireRow (exec (by_id t_api_keys id sql_revoke_api_key)).
Definition CountAPIKeys : IO Z :=
  map_err mapErr (exec (select (λ db, Z.of_nat (length
    (filter (λ k, k_RevokedAt k = None) (map_to_list (t_api_keys db)).*2))))).

(** Inserts the provider's event id; true when it was not there. *)
Definition RecordWebhookEvent (eventID action : string) : IO bool :=
  n <- map_err mapErr (exec (λ now db,
         match t_webhook_events db !! eventID with
         | Some _ => Ok (db, 0)
         | None => Ok (set_webhook_events
                         (<[eventID := mkWebhookEvent eventID action now]>
                            (t_webhook_events db)) db, 1)
         end)) ;;
  ret (bool_decide (n = 1)).
End StoreAdmin.

(** ** The statements keep the schema's invariant *)

Lemma db_ok_set_nodes db nodes :
  db_ok db → keyed n_ID nodes → unique_on (λ n, Some (n_Name n)) nodes →
  (∀ i, is_Some (t_nodes db !! i) → is_Some (nodes !! i)) →
  db_ok (set_nodes nodes db).
Proof.
  intros [] Hk Hu Hs. constructor; cbn; auto.
  - by eapply references_keys.
  - eapply Forall_impl; [exact ok_snap_node|]. cbn. auto.
Qed.

Lemma node_violation_None n db :
  keyed n_ID (t_nodes db) → unique_on (λ n, Some (n_Name n)) (t_nodes db) →
  node_violation n db = None →
  keyed n_ID (<[n_ID n := n]> (t_nodes db)) ∧
  unique_on (λ n, Some (n_Name n)) (<[n_ID n := n]> (t_nodes db)).
Proof.
  intros Hk Hu Hv%first_violation_None.
  apply Forall_cons in Hv as [_ Hv]. apply Forall_cons in Hv as [Hc _]. cbn in Hc.
  split; [by apply keyed_insert | by apply unique_on_insert].
Qed.

Lemma sql_insert_node_ok n : sql_ok (sql_insert_node n).
Proof.
  intros now db db' [] Hok. unfold sql_insert_node. case_bool_decide; [done|].
  cbv zeta. case_match eqn:Hv; [done|]. intros [= <-].
  apply node_violation_None in Hv as [??]; [|apply Hok..].
  apply db_ok_set_nodes; eauto using is_Some_insert_weaken.
Qed.

Lemma sql_update_node_ok n : sql_ok (sql_update_node n).
Proof.
  intros now db db' z Hok. unfold sql_update_node.
  destruct (t_nodes db !! n_ID n) as [r|] eqn:Hr; [|by intros [= <- _]].
  cbv zeta. case_match eqn:Hv; [done|]. intros [= <- _].
  assert (n_ID r = n_ID n) as Hid by apply (ok_nodes_keyed _ Hok _ _ Hr).
  apply node_violation_None in Hv as [Hv1 Hv2]; [|apply Hok..].
  cbn in Hv1, Hv2. rewrite Hid in *.
  apply db_ok_set_nodes; eauto using is_Some_insert_weaken.
Qed.

Lemma sql_set_node_health_ok id s e t : sql_ok (sql_set_node_health id s e t).
Proof.
  intros now db db' z Hok. unfold sql_set_node_health.
  destruct (t_nodes db !! id) as [r|] eqn:Hr; [|by intros [= <- _]].
  intros [= <- _]. apply db_ok_set_nodes; eauto using is_Some_insert_weaken.
  - apply keyed_insert; [by apply (ok_nodes_keyed _ Hok) in Hr | apply Hok].
  - eapply unique_on_insert_same; [done|done|apply Hok].
Qed.

(** Dropping inbounds with their assignments. *)
Lemma drop_inbounds_ok p db : db_ok db → db_ok (drop_inbounds p db).
Proof.
  intros []. constructor; cbn; auto.
  - by eapply keyed_submap; [apply map_filter_subseteq|].
  - by eapply unique_on_submap; [apply map_filter_subseteq|].
  - by eapply references_submap; [apply map_filter_subseteq|].
  - by eapply keyed_submap; [apply map_filter_subseteq|].
  - by eapply references_submap; [apply map_filter_subseteq|].
  - intros k ui x [Hk Hp]%map_lookup_filter_Some [= <-].
    pose proof (ok_ui_keyed _ _ Hk) as Hkey. cbn in Hkey. subst k.
    destruct (ok_ui_inbound _ _ _ Hk eq_refl) as [i Hi]. exists i.
    apply map_lookup_filter_Some. split; [done|]. cbn in Hp. by rewrite Hi in Hp.
Qed.

Lemma drop_inbounds_node p db k i :
  t_inbounds (drop_inbounds p db) !! k = Some i → t_inbounds db !! k = Some i ∧ p i = false.
Proof. cbn. by rewrite map_lookup_filter_Some. Qed.

Lemma sql_delete_node_ok id : sql_ok (sql_delete_node id).
Proof.
  intros now db db' n Hok. unfold sql_delete_node.
  destruct (t_nodes db !! id) as [r|] eqn:Hr; [|by intros [= <- _]].
  cbv zeta. intros [= <- _].
  pose proof (drop_inbounds_ok (λ i, String.eqb (ib_NodeID i) id) _ Hok) as Hd.
  destruct Hd. constructor; cbn -[drop_inbounds]; auto.
  - by eapply keyed_submap; [apply delete_subseteq|].
  - by apply unique_on_delete.
  - intros k i x Hi [= <-]. apply drop_inbounds_node in Hi as [Hi Hne].
    apply String.eqb_neq in Hne. rewrite lookup_delete_ne by done.
    by eapply (Database.ok_inbounds_node _ Hok).
  - by apply Forall_filter_keep.
  - rewrite Forall_forall in ok_snap_node. apply Forall_forall.
    intros s [Hne Hs]%list_elem_of_filter. rewrite lookup_delete_ne by done.
    by apply ok_snap_node.
Qed.

Lemma sql_delete_inbound_ok id : sql_ok (sql_delete_inbound id).
Proof.
  intros now db db' n Hok. unfold sql_delete_inbound. case_match; [|by intros [= <- _]].
  intros [= <- _]. by apply drop_inbounds_ok.
Qed.

Lemma db_ok_set_inbounds db ibs :
  db_ok db → keyed ib_ID ibs → unique_on inbound_slot ibs →
  references (λ ib, Some (ib_NodeID ib)) ibs (t_nodes db) →
  (∀ i, is_Some (t_inbounds db !! i) → is_Some (ibs !! i)) →
  db_ok (set_inbounds ibs db).
Proof.
  intros [] ????. constructor; cbn; auto. by eapply references_keys.
Qed.

Lemma inbound_violation_None ib db :
  db_ok db → inbound_violation ib db = None →
  keyed ib_ID (<[ib_ID ib := ib]> (t_inbounds db)) ∧
  unique_on inbound_slot (<[ib_ID ib := ib]> (t_inbounds db)) ∧
  references (λ ib, Some (ib_NodeID ib)) (<[ib_ID ib := ib]> (t_inbounds db)) (t_nodes db).
Proof.
  intros Hok Hv%first_violation_None.
  repeat match goal with
         | H : Forall _ (_ :: _) |- _ => apply Forall_cons in H as [? H]
         end.
  cbn [fst] in *. split_and!.
  - apply keyed_insert; [done|apply Hok].
  - by apply unique_on_insert; [apply Hok|].
  - apply references_insert; [apply Hok|]. intros x [= <-].
    match goal with H : negb (bool_decide (is_Some _)) = false |- _ =>
      by apply negb_false_iff, bool_decide_eq_true in H end.
Qed.

Lemma sql_insert_inbound_ok ib : sql_ok (sql_insert_inbound ib).
Proof.
  intros now db db' [] Hok. unfold sql_insert_inbound. case_bool_decide; [done|].
  cbv zeta. case_match eqn:Hv; [done|]. intros [= <-].
  apply inbound_violation_None in Hv as (?&?&?); [|done].
  apply db_ok_set_inbounds; eauto using is_Some_insert_weaken.
Qed.

Lemma sql_update_inbound_ok ib : sql_ok (sql_update_inbound ib).
Proof.
  intros now db db' z Hok. unfold sql_update_inbound.
  destruct (t_inbounds db !! ib_ID ib) as [r|] eqn:Hr; [|by intros [= <- _]].
  cbv zeta. case_match eqn:Hv; [done|]. intros [= <- _].
  assert (ib_ID r = ib_ID ib) as Hid by apply (ok_inbounds_keyed _ Hok _ _ Hr).
  apply inbound_violation_None in Hv as (Hv1&Hv2&Hv3); [|done].
  cbn in Hv1, Hv2, Hv3. rewrite Hid in *.
  apply db_ok_set_inbounds; eauto using is_Some_insert_weaken.
Qed.

Lemma db_ok_set_plans db plans :
  db_ok db → keyed p_ID plans → unique_on (λ p, Some (p_Name p)) plans →
  (∀ i, is_Some (t_plans db !! i) → is_Some (plans !! i)) →
  db_ok (set_plans plans db).
Proof. intros [] ???. constructor; cbn; auto. by eapply references_keys. Qed.

Lemma plan_violation_None p db :
  db_ok db → plan_violation p db = None →
  keyed p_ID (<[p_ID p := p]> (t_plans db)) ∧
  unique_on (λ p, Some (p_Name p)) (<[p_ID p := p]> (t_plans db)).
Proof.
  intros Hok Hv%first_violation_None.
  apply Forall_cons in Hv as [_ Hv]. apply Forall_cons in Hv as [Hc _]. cbn in Hc.
  split; [by apply keyed_insert; [|apply Hok] | by apply unique_on_insert; [apply Hok|]].
Qed.

Lemma sql_insert_plan_ok p : sql_ok (sql_insert_plan p).
Proof.
  intros now db db' [] Hok. unfold sql_insert_plan. case_bool_decide; [done|].
  cbv zeta. case_match eqn:Hv; [done|]. intros [= <-].
  apply plan_violation_None in Hv as [??]; [|done].
  apply db_ok_set_plans; eauto using is_Some_insert_weaken.
Qed.

Lemma sql_update_plan_ok p : sql_ok (sql_update_plan p).
Proof.
  intros now db db' z Hok. unfold sql_update_plan.
  destruct (t_plans db !! p_ID p) as [r|] eqn:Hr; [|by intros [= <- _]].
  cbv zeta. case_match eqn:Hv; [done|]. intros [= <- _].
  assert (p_ID r = p_ID p) as Hid by apply (ok_plans_keyed _ Hok _ _ Hr).
  apply plan_violation_None in Hv as [Hv1 Hv2]; [|done].
  cbn in Hv1, Hv2. rewrite Hid in *.
  apply db_ok_set_plans; eauto using is_Some_insert_weaken.
Qed.

Lemma users_ok_fmap (f : User → User) users :
  (∀ u, u_ID (f u) = u_ID u ∧ u_Email (f u) = u_Email u ∧ u_UUID (f u) = u_UUID u ∧
        u_TrojanPassword (f u) = u_TrojanPassword u ∧ u_SubToken (f u) = u_SubToken u ∧
        u_ExternalID (f u) = u_ExternalID u) →
  users_ok users → users_ok (f <$> users).
Proof.
  intros Hf []. constructor; (apply keyed_fmap || apply unique_on_fmap); try done; intros u;
    destruct (Hf u) as (?&?&?&?&?&?); congruence.
Qed.

Lemma sql_delete_plan_ok id : sql_ok (sql_delete_plan id).
Proof.
  intros now db db' n Hok. unfold sql_delete_plan.
  destruct (t_plans db !! id) as [r|] eqn:Hr; [|by intros [= <- _]].
  intros [= <- _]. destruct Hok. constructor; cbn; auto.
  - apply users_ok_fmap; [|done]. intros u. by case_bool_decide.
  - intros i u x (v & <- & Hv)%lookup_fmap_Some. case_bool_decide as Hp; [done|].
    intros Hx. rewrite lookup_delete_ne by congruence. by eapply ok_users_plan.
  - by eapply keyed_submap; [apply delete_subseteq|].
  - by apply unique_on_delete.
  - eapply references_keys; [|exact ok_ui_user]. intros x. apply is_Some_fmap_lookup.
  - eapply Forall_impl; [exact ok_snap_user|]. cbn. intros s. apply is_Some_fmap_lookup.
Qed.

Lemma db_ok_set_api_keys db keys :
  db_ok db → keyed k_ID keys → unique_on (λ k, Some (k_KeyHash k)) keys →
  db_ok (set_api_keys keys db).
Proof. intros [] ??. by constructor. Qed.

Lemma sql_insert_api_key_ok k : sql_ok (sql_insert_api_key k).
Proof.
  intros now db db' [] Hok. unfold sql_insert_api_key. case_bool_decide; [done|].
  case_match eqn:Hc; [done|]. intros [= <-].
  apply db_ok_set_api_keys; [done| |].
  - apply keyed_insert; [done|apply Hok].
  - by apply unique_on_insert; [apply Hok|].
Qed.

Lemma sql_touch_api_key_ok h : sql_ok (sql_touch_api_key h).
Proof.
  intros now db db' r Hok [= <- _]. apply db_ok_set_api_keys; [done| |].
  - apply keyed_fmap; [|apply Hok]. intros k. by case_match.
  - apply unique_on_fmap; [|apply Hok]. intros k. by case_match.
Qed.

Lemma sql_revoke_api_key_ok id : sql_ok (sql_revoke_api_key id).
Proof.
  intros now db db' r Hok. unfold sql_revoke_api_key.
  destruct (t_api_keys db !! id) as [[i n h c l [t|]]|] eqn:Hk; [by intros [= <- _]| |by intros [= <- _]].
  intros [= <- _]. apply db_ok_set_api_keys; [done| |].
  - apply keyed_insert; [|apply Hok]. by apply (ok_keys_keyed _ Hok) in Hk.
  - eapply unique_on_insert_same; [done| |apply Hok]. done.
Qed.

#[export] Hint Resolve sql_insert_node_ok sql_update_node_ok sql_set_node_health_ok
  sql_delete_node_ok sql_delete_inbound_ok sql_insert_inbound_ok sql_update_inbound_ok
  sql_insert_plan_ok sql_update_plan_ok sql_delete_plan_ok sql_insert_api_key_ok
  sql_touch_api_key_ok sql_revoke_api_key_ok : db_inv.

Ltac store_inv := go_inv; eauto with go_inv db_inv.

Section StoreAdminInv.
Context {P : Platform} `{!Rely P}.

Lemma CreateNode_inv n : preserves w_ok (CreateNode n).
Proof. unfold CreateNode. store_inv. Qed.
Lemma GetNode_inv i : preserves w_ok (GetNode i).
Proof. apply preserves_query_row. eauto with db_inv. Qed.
Lemma ListNodes_inv : preserves w_ok ListNodes.
Proof. unfold ListNodes. store_inv. Qed.
Lemma UpdateNode_inv n : preserves w_ok (UpdateNode n).
Proof. unfold UpdateNode. store_inv. Qed.
Lemma SetNodeHealth_inv i s e t : preserves w_ok (SetNodeHealth i s e t).
Proof. unfold SetNodeHealth. store_inv. Qed.
Lemma DeleteNode_inv i : preserves w_ok (DeleteNode i).
Proof. unfold DeleteNode. store_inv. Qed.
Lemma CreateInbound_inv i : preserves w_ok (CreateInbound i).
Proof. unfold CreateInbound. store_inv. Qed.
Lemma GetInbound_inv i : preserves w_ok (GetInbound i).
Proof. apply preserves_query_row. eauto with db_inv. Qed.
Lemma ListInboundsByNode_inv i : preserves w_ok (ListInboundsByNode i).
Proof. unfold ListInboundsByNode. store_inv. Qed.
Lemma ListInboundsByIDs_inv l : preserves w_ok (ListInboundsByIDs l).
Proof. unfold ListInboundsByIDs. store_inv. Qed.
Lemma ListInboundsForUser_inv u : preserves w_ok (ListInboundsForUser u).
Proof. unfold ListInboundsForUser. store_inv. Qed.
Lemma UpdateInbound_inv i : preserves w_ok (UpdateInbound i).
Proof. unfold UpdateInbound. store_inv. Qed.
Lemma DeleteInbound_inv i : preserves w_ok (DeleteInbound i).
Proof. unfold DeleteInbound. store_inv. Qed.
Lemma CreatePlan_inv p : preserves w_ok (CreatePlan p).
Proof. unfold CreatePlan. store_inv. Qed.
Lemma GetPlan_inv i : preserves w_ok (GetPlan i).
Proof. apply preserves_query_row. eauto with db_inv. Qed.
Lemma ListPlans_inv : preserves w_ok ListPlans.
Proof. unfold ListPlans. store_inv. Qed.
Lemma UpdatePlan_inv p : preserves w_ok (UpdatePlan p).
Proof. unfold UpdatePlan. store_inv. Qed.
Lemma DeletePlan_inv i : preserves w_ok (DeletePlan i).
Proof. unfold DeletePlan. store_inv. Qed.
Lemma CreateAPIKey_inv k : preserves w_ok (CreateAPIKey k).
Proof. unfold CreateAPIKey. store_inv. Qed.
Lemma FindAPIKeyByHash_inv h : preserves w_ok (FindAPIKeyByHash h).
Proof. unfold FindAPIKeyByHash. store_inv. Qed.
Lemma ListAPIKeys_inv : preserves w_ok ListAPIKeys.
Proof. unfold ListAPIKeys. store_inv. Qed.
Lemma RevokeAPIKey_inv i : preserves w_ok (RevokeAPIKey i).
Proof. unfold RevokeAPIKey. store_inv. Qed.
Lemma CountAPIKeys_inv : preserves w_ok CountAPIKeys.
Proof. unfold CountAPIKeys. store_inv. Qed.
Lemma RecordWebhookEvent_inv e a : preserves w_ok (RecordWebhookEvent e a).
Proof.
  unfold RecordWebhookEvent. go_inv. apply preserves_exec.
  intros now db db' n Hok. case_match; intros [= <- _]; [done|].
  destruct Hok. by constructor.
Qed.
End StoreAdminInv.

#[export] Hint Resolve CreateNode_inv GetNode_inv ListNodes_inv UpdateNode_inv
  SetNodeHealth_inv DeleteNode_inv CreateInbound_inv GetInbound_inv ListInboundsByNode_inv
  ListInboundsByIDs_inv ListInboundsForUser_inv UpdateInbound_inv DeleteInbound_inv
  CreatePlan_inv GetPlan_inv ListPlans_inv UpdatePlan_inv DeletePlan_inv CreateAPIKey_inv
  FindAPIKeyByHash_inv ListAPIKeys_inv RevokeAPIKey_inv CountAPIKeys_inv
  RecordWebhookEvent_inv : go_inv.
