(* ===== verification/GoStd.v ===== *)
(** * The functions of Go's standard library the program relies on

    Strings are byte strings, as in Go.  [strings], [strconv], [encoding/hex],
    [encoding/base64], [net.JoinHostPort] and the escaping rules of [net/url]
    are written out for the calls the source makes. *)

From Stdlib Require Import Ascii.
From stdpp Require Import base strings list pretty.
From Stdlib Require Import ZArith Lia.
From S2P Require Import Prelude.
Local Open Scope Z_scope.

Definition bytes (s : string) : list ascii := String.list_ascii_of_string s.
Definition of_bytes (l : list ascii) : string := String.string_of_list_ascii l.

Lemma of_bytes_bytes s : of_bytes (bytes s) = s.
Proof. apply String.string_of_list_ascii_of_string. Qed.
Lemma bytes_of_bytes l : bytes (of_bytes l) = l.
Proof. apply String.list_ascii_of_string_of_list_ascii. Qed.
Lemma bytes_app s t : bytes (s +:+ t) = bytes s ++ bytes t.
Proof. induction s as [|c s IH]; [done|]. change (c :: bytes (s +:+ t) = c :: bytes s ++ bytes t). by rewrite IH. Qed.
Lemma bytes_inj s t : bytes s = bytes t → s = t.
Proof. intros H. by rewrite <- (of_bytes_bytes s), H, of_bytes_bytes. Qed.

Definition byte_val (c : ascii) : Z := Z.of_N (N_of_ascii c).
Definition byte_of (z : Z) : ascii := ascii_of_N (Z.to_N z).

Lemma byte_val_range c : 0 ≤ byte_val c < 256.
Proof. unfold byte_val. pose proof (N_ascii_bounded c). lia. Qed.
Lemma byte_of_val c : byte_of (byte_val c) = c.
Proof. unfold byte_of, byte_val. rewrite N2Z.id. apply ascii_N_embedding. Qed.
Lemma byte_val_of z : 0 ≤ z < 256 → byte_val (byte_of z) = z.
Proof. intros H. unfold byte_of, byte_val. rewrite N_ascii_embedding; lia. Qed.

(** ** Package strings *)

Fixpoint prefix_of (p l : list ascii) : option (list ascii) :=
  match p, l with
  | [], _ => Some l
  | a :: p', b :: l' => if Ascii.eqb a b then prefix_of p' l' else None
  | _, [] => None
  end.

(** [strings.CutPrefix], and [strings.HasPrefix]. *)
Definition CutPrefix (s p : string) : option string :=
  of_bytes <$> prefix_of (bytes p) (bytes s).
Definition HasPrefix (s p : string) : bool := bool_decide (is_Some (CutPrefix s p)).

(** [strings.LastIndex] as the split it is used for: the bytes before and after
    the last occurrence of [sep]. *)
Fixpoint cut_last (sep l : list ascii) : option (list ascii * list ascii) :=
  match l with
  | [] => match sep with [] => Some ([], []) | _ => None end
  | c :: l' =>
      match cut_last sep l' with
      | Some (before, after) => Some (c :: before, after)
      | None => (λ after, ([], after)) <$> prefix_of sep l
      end
  end.

(** [strings.Contains]. *)
Fixpoint contains (sub l : list ascii) : bool :=
  match prefix_of sub l with
  | Some _ => true
  | None => match l with [] => false | _ :: l' => contains sub l' end
  end.
Definition Contains (s sub : string) : bool := contains (bytes sub) (bytes s).

(** [strings.ToLower] on the ASCII letters; no other letter folds into the
    ASCII substrings the program looks for. *)
Definition lower (c : ascii) : ascii :=
  let n := byte_val c in if bool_decide (65 ≤ n ∧ n ≤ 90) then byte_of (n + 32) else c.
Definition ToLower (s : string) : string := of_bytes (lower <$> bytes s).

(** The UTF-8 encodings of the code points [unicode.IsSpace] accepts. *)
Definition space_runes : list (list ascii) :=
  map (map byte_of)
  [ [9]; [10]; [11]; [12]; [13]; [32]; [194; 133]; [194; 160]; [225; 154; 128];
    [226; 128; 128]; [226; 128; 129]; [226; 128; 130]; [226; 128; 131]; [226; 128; 132];
    [226; 128; 133]; [226; 128; 134]; [226; 128; 135]; [226; 128; 136]; [226; 128; 137];
    [226; 128; 138]; [226; 128; 168]; [226; 128; 169]; [226; 128; 175]; [226; 129; 159];
    [227; 128; 128] ].

Fixpoint first_prefix (ps : list (list ascii)) (l : list ascii) : option (list ascii) :=
  match ps with
  | [] => None
  | p :: ps' => match prefix_of p l with Some r => Some r | None => first_prefix ps' l end
  end.

Fixpoint trim_front (fuel : nat) (ps : list (list ascii)) (l : list ascii) : list ascii :=
  match fuel with
  | O => l
  | S fuel' =>
      match first_prefix ps l with Some r => trim_front fuel' ps r | None => l end
  end.

(** [strings.TrimSpace]: the fuel is the length, every round drops a byte. *)
Definition TrimSpace (s : string) : string :=
  let l := trim_front (String.length s) space_runes (bytes s) in
  of_bytes (rev (trim_front (length l) (map (rev (A := ascii)) space_runes) (rev l))).

(** [strings.TrimRight(s, "/")]. *)
Definition TrimRightSlash (s : string) : string :=
  of_bytes (rev (trim_front (String.length s) [bytes "/"] (rev (bytes s)))).

(** [strings.Join(l, sep)]. *)
Fixpoint Join (l : list string) (sep : string) : string :=
  match l with
  | [] => ""
  | [x] => x
  | x :: l' => x +:+ sep +:+ Join l' sep
  end.

(** ** Package strconv *)

(** [strconv.Itoa] and the [%d] verb. *)
Definition Itoa (z : Z) : string := pretty z.

Inductive num_error : Type := ErrSyntax | ErrRange.

(** [strconv.ParseUint], base 10 and 64 bits: it stops at the first character
    that is no digit, or that takes the value past 64 bits. *)
Fixpoint ParseUint (n : Z) (l : list ascii) : res num_error Z :=
  match l with
  | [] => Ok n
  | c :: l' =>
      let d := byte_val c - 48 in
      if bool_decide (d < 0) || bool_decide (9 < d) then Err ErrSyntax
      else if bool_decide (2 ^ 64 ≤ 10 * n + d) then Err ErrRange
      else ParseUint (10 * n + d) l'
  end.

Definition max_int : Z := 2 ^ 63 - 1.
Definition min_int : Z := - 2 ^ 63.

(** [strconv.Atoi]: the value and whether the error is nil.  A syntax error
    gives 0; a number out of range gives the nearest [int]. *)
Definition Atoi (s : string) : Z * bool :=
  let '(neg, l) := match bytes s with
                   | "-"%char :: l => (true, l)
                   | "+"%char :: l => (false, l)
                   | l => (false, l)
                   end in
  let far := (if neg : bool then min_int else max_int, false) in
  match l with
  | [] => (0, false)
  | _ => match ParseUint 0 l with
         | Err ErrSyntax => (0, false)
         | Err ErrRange => far
         | Ok n =>
             let z := if neg : bool then - n else n in
             if bool_decide (max_int < z) || bool_decide (z < min_int) then far else (z, true)
         end
  end.

Definition Atoi_ok (s : string) : option Z := let '(z, ok) := Atoi s in if ok : bool then Some z else None.

(** [strconv.ParseBool]. *)
Definition ParseBool (s : string) : option bool :=
  if existsb (String.eqb s) ["1"; "t"; "T"; "true"; "TRUE"; "True"] then Some true
  else if existsb (String.eqb s) ["0"; "f"; "F"; "false"; "FALSE"; "False"] then Some false
  else None.

(** ** Packages encoding/hex and encoding/base64 *)

Definition hex_digit (z : Z) : ascii :=
  byte_of (if bool_decide (z < 10) then 48 + z else 87 + z).

(** [hex.EncodeToString]. *)
Definition hex_Encode (s : string) : string :=
  of_bytes (bytes s ≫= λ c, [hex_digit (byte_val c / 16); hex_digit (byte_val c mod 16)]).

(** The 64-character alphabets differ in the last two characters. *)
Definition b64_char (c62 c63 : ascii) (z : Z) : ascii :=
  if bool_decide (z < 26) then byte_of (65 + z)
  else if bool_decide (z < 52) then byte_of (71 + z)
  else if bool_decide (z < 62) then byte_of (z - 4)
  else if bool_decide (z = 62) then c62 else c63.

Fixpoint b64_encode (c62 c63 : ascii) (pad : list ascii) (l : list ascii) : list ascii :=
  let enc := b64_char c62 c63 in
  match l with
  | [] => []
  | [a] =>
      let x := byte_val a in
      [enc (x / 4); enc (x mod 4 * 16)] ++ pad ++ pad
  | [a; b] =>
      let x := byte_val a in let y := byte_val b in
      [enc (x / 4); enc (x mod 4 * 16 + y / 16); enc (y mod 16 * 4)] ++ pad
  | a :: b :: c :: rest =>
      let x := byte_val a in let y := byte_val b in let z := byte_val c in
      enc (x / 4) :: enc (x mod 4 * 16 + y / 16) :: enc (y mod 16 * 4 + z / 64)
        :: enc (z mod 64) :: b64_encode c62 c63 pad rest
  end.

(** [base64.StdEncoding.EncodeToString] and [base64.RawURLEncoding]. *)
Definition b64_Std (s : string) : string :=
  of_bytes (b64_encode "+"%char "/"%char ["="%char] (bytes s)).
Definition b64_RawURL (s : string) : string :=
  of_bytes (b64_encode "-"%char "_"%char [] (bytes s)).

(** ** Package net *)

(** [net.JoinHostPort]: an IPv6 literal (or zone) is bracketed. *)
Definition JoinHostPort (host port : string) : string :=
  if Contains host ":" then "[" +:+ host +:+ "]:" +:+ port else host +:+ ":" +:+ port.

(** ** Package net/url: escaping *)

Definition is_alnum (c : ascii) : bool :=
  let n := byte_val c in
  bool_decide (48 ≤ n ∧ n ≤ 57) || bool_decide (65 ≤ n ∧ n ≤ 90) || bool_decide (97 ≤ n ∧ n ≤ 122).

(** url.shouldEscape, per mode: the unreserved characters never are; among the
    reserved ones each component keeps its own. *)
Inductive url_mode : Type :=
| encodePathSegment
| encodeHost
| encodeUserPassword
| encodeQueryComponent
| encodeFragment.

(** Sub-delims, brackets and the like, kept by [encodeHost]. *)
Definition host_chars : string := "!$&'()*+,;=:[]<>" +:+ of_bytes [byte_of 34].

Definition char_in (c : ascii) (s : string) : bool := existsb (Ascii.eqb c) (bytes s).

Definition shouldEscape (mode : url_mode) (c : ascii) : bool :=
  if is_alnum c then false
  else if match mode with encodeHost => char_in c host_chars | _ => false end then false
  else if char_in c "-_.~" then false
  else if char_in c "$&+,/:;=?@" then
    match mode with
    | encodePathSegment => char_in c "/;,?"
    | encodeHost => true
    | encodeUserPassword => char_in c "@/?:"
    | encodeQueryComponent => true
    | encodeFragment => false
    end
  else match mode with
       | encodeFragment => negb (char_in c "!()*")
       | _ => true
       end.

Definition upper_hex (z : Z) : ascii := byte_of (if bool_decide (z < 10) then 48 + z else 55 + z).

(** url.escape: a space becomes [+] in query components. *)
Definition url_escape (mode : url_mode) (s : string) : string :=
  of_bytes (bytes s ≫= λ c,
    if shouldEscape mode c then
      if Ascii.eqb c " "%char then
        match mode with
        | encodeQueryComponent => ["+"%char]
        | _ => ["%"%char; "2"%char; "0"%char]
        end
      else ["%"%char; upper_hex (byte_val c / 16); upper_hex (byte_val c mod 16)]
    else [c]).

Definition PathEscape : string → string := url_escape encodePathSegment.
Definition QueryEscape : string → string := url_escape encodeQueryComponent.
