(* ===== verification/Encoding.v ===== *)
(** * Encodings of links and payloads, and what reads them back

    The encoders of Go's [net/url] (query values, URLs) and [encoding/json]
    (string maps) for the calls of src/internal/sublink, over the escaping
    rules of GoStd; and the decoders a client applies to the result, with the
    round trips: padded base64, query strings, line-separated bundles. *)

From Stdlib Require Import Ascii.
From stdpp Require Import base strings list gmap fin_maps sorting pretty.
From Stdlib Require Import ZArith Lia.
From S2P Require Import Prelude GoStd.
Local Open Scope Z_scope.

(** ** Splitting at a separator *)

Fixpoint split_on (c : ascii) (l : list ascii) : list (list ascii) :=
  match l with
  | [] => [[]]
  | a :: l' =>
      if Ascii.eqb a c then [] :: split_on c l'
      else match split_on c l' with
           | part :: parts => (a :: part) :: parts
           | [] => [[a]]
           end
  end.

Lemma split_on_free c l : c ∉ l → split_on c l = [l].
Proof.
  induction l as [|a l IH]; [done|]. intros [Ha Hl]%not_elem_of_cons. cbn.
  destruct (Ascii.eqb_spec a c) as [->|_]; [done|]. by rewrite IH.
Qed.

Lemma split_on_app c l r : c ∉ l → split_on c (l ++ c :: r) = l :: split_on c r.
Proof.
  induction l as [|a l IH]; cbn.
  - by rewrite Ascii.eqb_refl.
  - intros [Ha Hl]%not_elem_of_cons. destruct (Ascii.eqb_spec a c) as [->|_]; [done|].
    by rewrite IH.
Qed.

Lemma split_join c (parts : list string) :
  parts ≠ [] → Forall (λ p, c ∉ bytes p) parts →
  split_on c (bytes (Join parts (of_bytes [c]))) = bytes <$> parts.
Proof.
  induction parts as [|p parts IH]; [done|]. intros _ [Hp Hps]%Forall_cons.
  destruct parts as [|q parts]; [by apply split_on_free|].
  change (Join (p :: q :: parts) (of_bytes [c]))
    with (p +:+ of_bytes [c] +:+ Join (q :: parts) (of_bytes [c])).
  rewrite !bytes_app, bytes_of_bytes. change ([c] ++ ?l) with (c :: l).
  rewrite split_on_app by done. by rewrite IH.
Qed.

(** ** base64: the decoder *)

Definition b64_val (c62 c63 : ascii) (c : ascii) : option Z :=
  let n := byte_val c in
  if Ascii.eqb c c62 then Some 62
  else if Ascii.eqb c c63 then Some 63
  else if bool_decide (65 ≤ n ∧ n ≤ 90) then Some (n - 65)
  else if bool_decide (97 ≤ n ∧ n ≤ 122) then Some (n - 71)
  else if bool_decide (48 ≤ n ∧ n ≤ 57) then Some (n + 4)
  else None.

(** Four digits at a time; the last group may be padded. *)
Fixpoint b64_decode (c62 c63 : ascii) (l : list ascii) : option (list ascii) :=
  let val := b64_val c62 c63 in
  match l with
  | [] => Some []
  | a :: b :: c :: d :: rest =>
      x ← val a; y ← val b;
      let first := byte_of (x * 4 + y / 16) in
      if Ascii.eqb d "="%char then
        match rest with
        | [] =>
            if Ascii.eqb c "="%char then Some [first]
            else z ← val c; Some [first; byte_of (y mod 16 * 16 + z / 4)]
        | _ => None
        end
      else
        z ← val c; t ← val d; more ← b64_decode c62 c63 rest;
        Some (first :: byte_of (y mod 16 * 16 + z / 4) :: byte_of (z mod 4 * 64 + t) :: more)
  | _ => None
  end.

(** [base64.StdEncoding.DecodeString]. *)
Definition b64_Std_decode (s : string) : option string :=
  of_bytes <$> b64_decode "+"%char "/"%char (bytes s).

(** [base64.RawURLEncoding.DecodeString]: the padding is implied by the length. *)
Definition b64_RawURL_decode (s : string) : option string :=
  let l := bytes s in
  let pad := match (length l mod 4)%nat with 2%nat => ["="; "="]%char | 3%nat => ["="%char] | _ => [] end in
  of_bytes <$> b64_decode "-"%char "_"%char (l ++ pad).

(** The bits that the digits regroup. *)
Lemma regroup_first x y : 0 ≤ x < 256 → 0 ≤ y < 256 → x / 4 * 4 + (x mod 4 * 16 + y / 16) / 16 = x.
Proof. intros. Z.to_euclidean_division_equations. lia. Qed.
Lemma regroup_second x y z : 0 ≤ x < 256 → 0 ≤ y < 256 → 0 ≤ z < 256 →
  (x mod 4 * 16 + y / 16) mod 16 * 16 + (y mod 16 * 4 + z / 64) / 4 = y.
Proof. intros. Z.to_euclidean_division_equations. lia. Qed.
Lemma regroup_third y z : 0 ≤ y < 256 → 0 ≤ z < 256 →
  (y mod 16 * 4 + z / 64) mod 4 * 64 + z mod 64 = z.
Proof. intros. Z.to_euclidean_division_equations. lia. Qed.
Lemma digits_range x y : 0 ≤ x < 256 → 0 ≤ y < 256 →
  0 ≤ x / 4 < 64 ∧ 0 ≤ x mod 4 * 16 + y / 16 < 64 ∧ 0 ≤ x mod 16 * 4 + y / 64 < 64 ∧ 0 ≤ x mod 64 < 64.
Proof. intros. Z.to_euclidean_division_equations. lia. Qed.

Lemma list_ind3 {A} (Q : list A → Prop) :
  Q [] → (∀ a, Q [a]) → (∀ a b, Q [a; b]) → (∀ a b c l, Q l → Q (a :: b :: c :: l)) → ∀ l, Q l.
Proof.
  intros H0 H1 H2 H3. assert (∀ l, Q l ∧ (∀ a, Q (a :: l)) ∧ ∀ a b, Q (a :: b :: l)) as H.
  { induction l as [|c l (IH1 & IH2 & IH3)]; eauto. }
  intros l. apply H.
Qed.

(** Two alphabets whose digits are told apart, and from the padding. *)
Section Alphabet.
Context (c62 c63 : ascii) (Hpad : b64_val c62 c63 "="%char = None).
Context (Hvals : forallb (λ n, bool_decide
  (b64_val c62 c63 (b64_char c62 c63 (Z.of_nat n)) = Some (Z.of_nat n))) (seq 0 64) = true).

(** The digits are checked one by one. *)
Lemma b64_char_val z : 0 ≤ z < 64 → b64_val c62 c63 (b64_char c62 c63 z) = Some z.
Proof.
  intros H. rewrite forallb_forall in Hvals. specialize (Hvals (Z.to_nat z)). rewrite Z2Nat.id in Hvals by lia.
  eapply bool_decide_eq_true_1, Hvals, in_seq. lia.
Qed.

Lemma b64_char_not_pad z : 0 ≤ z < 64 → Ascii.eqb (b64_char c62 c63 z) "="%char = false.
Proof.
  intros H. destruct (Ascii.eqb_spec (b64_char c62 c63 z) "="%char) as [E|]; [|done].
  pose proof (b64_char_val z H) as Hv. rewrite E in Hv. congruence.
Qed.

Lemma b64_decode_encode l :
  b64_decode c62 c63 (b64_encode c62 c63 ["="%char] l) = Some l.
Proof.
  induction l as [|a|a b|a b c l IH] using list_ind3; [done| | |].
  - pose proof (digits_range _ 0 (byte_val_range a) ltac:(lia)) as (H1 & H2 & _).
    change (0 / 16) with 0 in H2. rewrite Z.add_0_r in H2.
    cbn -[b64_val b64_char Z.mul Z.div Z.modulo].
    rewrite !b64_char_val by done. cbn -[Z.mul Z.div Z.modulo].
    pose proof (regroup_first (byte_val a) 0 (byte_val_range a) ltac:(lia)) as H.
    change (0 / 16) with 0 in H. rewrite Z.add_0_r in H. by rewrite H, byte_of_val.
  - pose proof (digits_range _ _ (byte_val_range a) (byte_val_range b)) as (H1 & H2 & _).
    pose proof (digits_range _ 0 (byte_val_range b) ltac:(lia)) as (_ & _ & H3 & _).
    change (0 / 64) with 0 in H3. rewrite Z.add_0_r in H3.
    cbn -[b64_val b64_char Z.mul Z.div Z.modulo].
    rewrite !b64_char_val by done. cbn -[b64_val b64_char Z.mul Z.div Z.modulo].
    rewrite b64_char_not_pad by done. cbn -[Z.mul Z.div Z.modulo].
    rewrite regroup_first by apply byte_val_range.
    pose proof (regroup_second (byte_val a) (byte_val b) 0 (byte_val_range a) (byte_val_range b)
      ltac:(lia)) as H.
    change (0 / 64) with 0 in H. rewrite Z.add_0_r in H. by rewrite H, !byte_of_val.
  - pose proof (digits_range _ _ (byte_val_range a) (byte_val_range b)) as (H1 & H2 & _).
    pose proof (digits_range _ _ (byte_val_range b) (byte_val_range c)) as (_ & _ & H3 & _).
    pose proof (digits_range _ 0 (byte_val_range c) ltac:(lia)) as (_ & _ & _ & H4).
    cbn -[b64_val b64_char Z.mul Z.div Z.modulo].
    rewrite !b64_char_val by done. cbn -[b64_val b64_char Z.mul Z.div Z.modulo].
    rewrite b64_char_not_pad, IH by done. cbn -[Z.mul Z.div Z.modulo].
    by rewrite regroup_first, regroup_second, regroup_third, !byte_of_val by apply byte_val_range.
Qed.

(** The unpadded text and the padding its length implies. *)
Lemma b64_padded l :
  let raw := b64_encode c62 c63 [] l in
  b64_encode c62 c63 ["="%char] l = raw ++
    match (length raw mod 4)%nat with 2%nat => ["="; "="]%char | 3%nat => ["="%char] | _ => [] end.
Proof.
  cbv zeta. induction l as [|a|a b|a b c l IH] using list_ind3; [done..|].
  change (b64_encode c62 c63 ?p (a :: b :: c :: l)) with
    (b64_encode c62 c63 [] [a; b; c] ++ b64_encode c62 c63 p l).
  rewrite length_app. change (length (b64_encode c62 c63 [] [a; b; c])) with 4%nat.
  replace ((4 + length (b64_encode c62 c63 [] l)) mod 4)%nat with (length (b64_encode c62 c63 [] l) mod 4)%nat
    by (replace (4 + length (b64_encode c62 c63 [] l))%nat with (length (b64_encode c62 c63 [] l) + 1 * 4)%nat
          by lia; by rewrite Nat.Div0.mod_add).
  by rewrite IH, (assoc_L (++)).
Qed.
End Alphabet.

Lemma b64_RawURL_roundtrip s : b64_RawURL_decode (b64_RawURL s) = Some s.
Proof.
  unfold b64_RawURL_decode, b64_RawURL. cbv zeta. rewrite bytes_of_bytes, <- b64_padded.
  rewrite b64_decode_encode by by vm_compute. cbn. by rewrite of_bytes_bytes.
Qed.

Lemma b64_Std_roundtrip s : b64_Std_decode (b64_Std s) = Some s.
Proof.
  unfold b64_Std_decode, b64_Std. rewrite bytes_of_bytes, b64_decode_encode by by vm_compute. cbn.
  by rewrite of_bytes_bytes.
Qed.

(** ** Query strings *)

(** A [url.Values] whose keys were all given with [Set]. *)
Abbreviation Values := (gmap string string).

Definition le_key {A} (x y : string * A) : Prop := String.leb x.1 y.1 = true.
#[export] Instance le_key_dec {A} : RelDecision (@le_key A).
Proof. intros x y. unfold le_key. apply _. Defined.

(** The entries of a map in the order of their keys, as Values.Encode and
    json.Marshal emit them. *)
Definition sorted_entries {A} (m : gmap string A) : list (string * A) :=
  merge_sort le_key (map_to_list m).

Definition encode_pair (kv : string * string) : string :=
  QueryEscape kv.1 +:+ "=" +:+ QueryEscape kv.2.

(** Values.Encode. *)
Definition Encode (v : Values) : string := Join (encode_pair <$> sorted_entries v) "&".

Definition unhex (c : ascii) : option Z :=
  let n := byte_val c in
  if bool_decide (48 ≤ n ∧ n ≤ 57) then Some (n - 48)
  else if bool_decide (65 ≤ n ∧ n ≤ 70) then Some (n - 55)
  else if bool_decide (97 ≤ n ∧ n ≤ 102) then Some (n - 87)
  else None.

(** url.QueryUnescape. *)
Fixpoint unescape (l : list ascii) : option (list ascii) :=
  match l with
  | [] => Some []
  | c :: l1 =>
      if Ascii.eqb c "%"%char then
        match l1 with
        | h :: g :: l2 => x ← unhex h; y ← unhex g; (λ r, byte_of (x * 16 + y) :: r) <$> unescape l2
        | _ => None
        end
      else (λ r, (if Ascii.eqb c "+"%char then " "%char else c) :: r) <$> unescape l1
  end.

(** strings.Cut at the first [=]. *)
Fixpoint cut_eq (l : list ascii) : list ascii * list ascii :=
  match l with
  | [] => ([], [])
  | c :: l' => if Ascii.eqb c "="%char then ([], l') else let '(k, v) := cut_eq l' in (c :: k, v)
  end.

Definition parse_pair (l : list ascii) : option (string * string) :=
  let '(k, v) := cut_eq l in
  k' ← unescape k; v' ← unescape v; Some (of_bytes k', of_bytes v').

(** url.ParseQuery, for queries without repeated keys. *)
Definition ParseQuery (s : string) : option Values :=
  if String.eqb s "" then Some ∅
  else list_to_map <$> mapM parse_pair (split_on "&"%char (bytes s)).

(** One byte of an escaped component. *)
Definition escape_byte (mode : url_mode) (c : ascii) : list ascii :=
  if shouldEscape mode c then
    if Ascii.eqb c " "%char then
      match mode with encodeQueryComponent => ["+"%char] | _ => ["%"%char; "2"%char; "0"%char] end
    else ["%"%char; upper_hex (byte_val c / 16); upper_hex (byte_val c mod 16)]
  else [c].

(** A property of bytes, by going through all of them. *)
Lemma all_bytes (p : ascii → bool) :
  forallb (λ n, p (ascii_of_nat n)) (seq 0 256) = true → ∀ c, p c = true.
Proof.
  intros H c. rewrite forallb_forall in H. rewrite <- (ascii_nat_embedding c). apply H, in_seq.
  pose proof (nat_ascii_bounded c). lia.
Qed.

Lemma bytes_escape mode s : bytes (url_escape mode s) = bytes s ≫= escape_byte mode.
Proof. unfold url_escape. by rewrite bytes_of_bytes. Qed.

(** What unescaping makes of one escaped byte. *)
Lemma unescape_byte c r : unescape (escape_byte encodeQueryComponent c ++ r) = cons c <$> unescape r.
Proof.
  pose (p := λ c, match escape_byte encodeQueryComponent c with
    | [d] => negb (Ascii.eqb d "%"%char) && Ascii.eqb (if Ascii.eqb d "+"%char then " "%char else d) c
    | [d; h; g] => Ascii.eqb d "%"%char &&
        match unhex h, unhex g with Some x, Some y => Ascii.eqb (byte_of (x * 16 + y)) c | _, _ => false end
    | _ => false
    end).
  assert (p c = true) as Hp by (apply all_bytes; by vm_compute). revert Hp. unfold p.
  destruct (escape_byte _ c) as [|d [|h [|g [|]]]]; try done; cbn [app unescape].
  - intros [H1%negb_true_iff H2%Ascii.eqb_eq]%andb_true_iff. by rewrite H1, H2.
  - intros [H1 H2]%andb_true_iff. rewrite H1.
    destruct (unhex h), (unhex g); try done. apply Ascii.eqb_eq in H2. cbn. by rewrite H2.
Qed.

Lemma unescape_escape s : unescape (bytes (QueryEscape s)) = Some (bytes s).
Proof.
  unfold QueryEscape. rewrite bytes_escape. induction (bytes s) as [|c l IH]; [done|].
  change (unescape (escape_byte encodeQueryComponent c ++ (l ≫= escape_byte encodeQueryComponent))
    = Some (c :: l)).
  rewrite unescape_byte, IH. done.
Qed.

(** Bytes that an escaped component never holds. *)
Lemma escape_free mode c :
  forallb (λ n, negb (existsb (Ascii.eqb c) (escape_byte mode (ascii_of_nat n)))) (seq 0 256) = true →
  ∀ s, c ∉ bytes (url_escape mode s).
Proof.
  intros H s. rewrite bytes_escape. intros (d & Hd & _)%list_elem_of_bind.
  pose proof (all_bytes (λ d, negb (existsb (Ascii.eqb c) (escape_byte mode d))) H d) as Hf.
  apply negb_true_iff in Hf. cut (existsb (Ascii.eqb c) (escape_byte mode d) = true); [congruence|].
  apply existsb_exists. exists c. split; [by apply list_elem_of_In|apply Ascii.eqb_refl].
Qed.

Lemma cut_eq_app k v : "="%char ∉ k → cut_eq (k ++ "="%char :: v) = (k, v).
Proof.
  induction k as [|c k IH]; [done|]. intros [Hc Hk]%not_elem_of_cons. cbn.
  destruct (Ascii.eqb_spec c "="%char) as [->|_]; [done|]. by rewrite IH.
Qed.

Lemma parse_encode_pair kv : parse_pair (bytes (encode_pair kv)) = Some kv.
Proof.
  destruct kv as [k v]. unfold parse_pair, encode_pair. cbn [fst snd]. rewrite !bytes_app.
  change (bytes "=" ++ ?l) with ("="%char :: l).
  rewrite cut_eq_app by (apply escape_free; by vm_compute).
  rewrite !unescape_escape. cbn. by rewrite !of_bytes_bytes.
Qed.

Lemma encode_pair_free c kv :
  c ≠ "="%char →
  forallb (λ n, negb (existsb (Ascii.eqb c) (escape_byte encodeQueryComponent (ascii_of_nat n))))
    (seq 0 256) = true →
  c ∉ bytes (encode_pair kv).
Proof.
  intros Hc H. unfold encode_pair. rewrite !bytes_app, !elem_of_app. change (bytes "=") with ["="%char].
  rewrite list_elem_of_singleton. unfold QueryEscape.
  pose proof (escape_free _ _ H kv.1). pose proof (escape_free _ _ H kv.2). tauto.
Qed.

Lemma Join_nil l sep : Join l sep = "" → sep ≠ "" → l = [] ∨ l = [""].
Proof.
  destruct l as [|x [|y l]]; [by left| |]; cbn.
  - intros ->. by right.
  - destruct x, sep; try done.
Qed.

(** Reading an encoded query back yields the same parameters. *)
Lemma ParseQuery_Encode v : ParseQuery (Encode v) = Some v.
Proof.
  unfold ParseQuery, Encode.
  assert (sorted_entries v ≡ₚ map_to_list v) as Hperm by apply merge_sort_Permutation.
  destruct (sorted_entries v) as [|kv l] eqn:Hl.
  - symmetry in Hperm. apply Permutation_nil_r, map_to_list_empty_iff in Hperm. by subst.
  - rewrite (proj2 (String.eqb_neq _ _)); cycle 1.
    { intros [E|E]%Join_nil; [done| |done]. injection E as E _. destruct kv as [k w].
      unfold encode_pair in E. cbn [fst] in E. by destruct (QueryEscape k). }
    change "&" with (of_bytes ["&"%char]). rewrite split_join; [|done|]; cycle 1.
    { apply Forall_fmap, Forall_true. intros p. by apply encode_pair_free; [discriminate|vm_compute]. }
    rewrite <- list_fmap_compose.
    assert (∀ l, mapM parse_pair ((bytes ∘ encode_pair) <$> l) = Some l) as ->.
    { clear. induction l as [|kv l IH]; [done|]. cbn -[parse_pair]. by rewrite parse_encode_pair, IH. }
    cbn [fmap option_fmap option_map]. f_equal. symmetry. by apply list_to_map_flip.
Qed.

(** ** URLs *)

(** The fields of [url.URL] the links use; [User] is a user name alone. *)
Record URL : Type := mkURL {
  url_Scheme : string;
  url_User : option string;
  url_Host : string;
  url_RawQuery : string;
  url_Fragment : string
}.

(** URL.String, for a URL with neither path nor opaque part. *)
Definition URL_String (u : URL) : string :=
  (if String.eqb (url_Scheme u) "" then "" else url_Scheme u +:+ ":") +:+
  (if negb (String.eqb (url_Host u) "") || bool_decide (is_Some (url_User u)) then "//" else "") +:+
  match url_User u with Some name => url_escape encodeUserPassword name +:+ "@" | None => "" end +:+
  url_escape encodeHost (url_Host u) +:+
  (if String.eqb (url_RawQuery u) "" then "" else "?" +:+ url_RawQuery u) +:+
  (if String.eqb (url_Fragment u) "" then "" else "#" +:+ url_escape encodeFragment (url_Fragment u)).

(** ** JSON objects of strings *)

(** An ASCII byte inside a JSON string, as json.Marshal escapes it (with the
    characters special to HTML). *)
Definition json_byte (c : ascii) : list ascii :=
  let n := byte_val c in
  if bool_decide (n = 34) || bool_decide (n = 92) then ["\"%char; c]
  else if bool_decide (n = 8) then bytes "\b"
  else if bool_decide (n = 9) then bytes "\t"
  else if bool_decide (n = 10) then bytes "\n"
  else if bool_decide (n = 12) then bytes "\f"
  else if bool_decide (n = 13) then bytes "\r"
  else if bool_decide (n < 32) || bool_decide (n = 38) || bool_decide (n = 60) || bool_decide (n = 62)
       then bytes "\u00" ++ [hex_digit (n / 16); hex_digit (n mod 16)]
  else [c].

(** The well-formed UTF-8 sequences of more than one byte. *)
Definition between (a b : Z) (c : ascii) : bool := bool_decide (a ≤ byte_val c ∧ byte_val c ≤ b).
Definition utf8_2 (a b : ascii) : bool := between 194 223 a && between 128 191 b.
Definition utf8_3 (a b c : ascii) : bool :=
  between 128 191 c &&
  (between 224 224 a && between 160 191 b || between 225 236 a && between 128 191 b ||
   between 237 237 a && between 128 159 b || between 238 239 a && between 128 191 b).
Definition utf8_4 (a b c d : ascii) : bool :=
  between 128 191 c && between 128 191 d &&
  (between 240 240 a && between 144 191 b || between 241 243 a && between 128 191 b ||
   between 244 244 a && between 128 143 b).

(** The bytes of U+2028 and U+2029, which json.Marshal escapes. *)
Definition line_separator (a b c : ascii) : option (list ascii) :=
  if bool_decide (byte_val a = 226 ∧ byte_val b = 128) then
    if bool_decide (byte_val c = 168) then Some (bytes "\u2028")
    else if bool_decide (byte_val c = 169) then Some (bytes "\u2029") else None
  else None.

(** The body of a JSON string; a byte that starts no UTF-8 sequence is
    replaced. *)
Fixpoint json_body (l : list ascii) : list ascii :=
  match l with
  | [] => []
  | a :: l1 =>
      let bad := bytes "\ufffd" ++ json_body l1 in
      if bool_decide (byte_val a < 128) then json_byte a ++ json_body l1
      else match l1 with
      | [] => bad
      | b :: l2 =>
          if utf8_2 a b then a :: b :: json_body l2
          else match l2 with
          | [] => bad
          | c :: l3 =>
              if utf8_3 a b c then
                default [a; b; c] (line_separator a b c) ++ json_body l3
              else match l3 with
              | [] => bad
              | d :: l4 => if utf8_4 a b c d then a :: b :: c :: d :: json_body l4 else bad
              end
          end
      end
  end.

Definition dquote : list ascii := [byte_of 34].
Definition json_string (s : string) : list ascii := dquote ++ json_body (bytes s) ++ dquote.

Definition json_member (kv : string * string) : string :=
  of_bytes (json_string kv.1 ++ bytes ":" ++ json_string kv.2).

(** json.Marshal of a map[string]string: the keys in order. *)
Definition json_Marshal (m : gmap string string) : string :=
  "{" +:+ Join (json_member <$> sorted_entries m) "," +:+ "}".
