(* ===== verification/Json.v ===== *)
(** * Reading JSON objects of strings back

    The decoder a client applies to the text json.Marshal makes of a
    [map[string]string] (the payload of a vmess link, src/internal/sublink), and
    the round trip for strings in well-formed UTF-8.  (Other bytes are replaced
    by the encoder.) *)

From Stdlib Require Import Ascii.
From stdpp Require Import base strings list gmap fin_maps sorting.
From Stdlib Require Import ZArith Lia.
From S2P Require Import Prelude GoStd Encoding.
Local Open Scope Z_scope.

(** ** Strings *)

(** A code point of at most sixteen bits. *)
Definition utf8_encode (z : Z) : list ascii :=
  if bool_decide (z < 128) then [byte_of z]
  else if bool_decide (z < 2048) then [byte_of (192 + z / 64); byte_of (128 + z mod 64)]
  else [byte_of (224 + z / 4096); byte_of (128 + z / 64 mod 64); byte_of (128 + z mod 64)].

Definition hex4 (a b c d : ascii) : option Z :=
  w ← unhex a; x ← unhex b; y ← unhex c; z ← unhex d; Some (((w * 16 + x) * 16 + y) * 16 + z).

(** The characters after a backslash that stand for one byte. *)
Definition unescape_char (c : ascii) : option ascii :=
  let n := byte_val c in
  if bool_decide (n = 34) || bool_decide (n = 92) || bool_decide (n = 47) then Some c
  else if bool_decide (n = 98) then Some (byte_of 8)
  else if bool_decide (n = 116) then Some (byte_of 9)
  else if bool_decide (n = 110) then Some (byte_of 10)
  else if bool_decide (n = 102) then Some (byte_of 12)
  else if bool_decide (n = 114) then Some (byte_of 13)
  else None.

Definition prepend (s : list ascii) (r : option (list ascii * list ascii)) : option (list ascii * list ascii) :=
  '(t, rest) ← r; Some (s ++ t, rest).

(** Up to the closing quote: the characters, and what follows it. *)
Fixpoint json_chars (l : list ascii) : option (list ascii * list ascii) :=
  match l with
  | [] => None
  | c :: l1 =>
      if bool_decide (byte_val c = 34) then Some ([], l1)
      else if bool_decide (byte_val c = 92) then
        match l1 with
        | [] => None
        | e :: l2 =>
            if bool_decide (byte_val e = 117) then
              match l2 with
              | x1 :: x2 :: x3 :: x4 :: l3 =>
                  match hex4 x1 x2 x3 x4 with
                  | Some z => prepend (utf8_encode z) (json_chars l3)
                  | None => None
                  end
              | _ => None
              end
            else match unescape_char e with Some x => prepend [x] (json_chars l2) | None => None end
        end
      else prepend [c] (json_chars l1)
  end.

(** Well-formed UTF-8. *)
Fixpoint utf8 (l : list ascii) : bool :=
  match l with
  | [] => true
  | a :: l1 =>
      if bool_decide (byte_val a < 128) then utf8 l1
      else match l1 with
      | [] => false
      | b :: l2 =>
          if utf8_2 a b then utf8 l2
          else match l2 with
          | [] => false
          | c :: l3 =>
              if utf8_3 a b c then utf8 l3
              else match l3 with
              | [] => false
              | d :: l4 => utf8_4 a b c d && utf8 l4
              end
          end
      end
  end.

(** A byte above ASCII is no delimiter. *)
Lemma json_chars_high c l : 128 ≤ byte_val c → json_chars (c :: l) = prepend [c] (json_chars l).
Proof. intros H. cbn [json_chars]. rewrite !bool_decide_eq_false_2 by lia. done. Qed.

Lemma json_chars_byte c l : byte_val c < 128 → json_chars (json_byte c ++ l) = prepend [c] (json_chars l).
Proof.
  intros Hc.
  pose (p := λ c, negb (bool_decide (byte_val c < 128)) || match json_byte c with
    | [d] => negb (bool_decide (byte_val d = 34)) && negb (bool_decide (byte_val d = 92)) && Ascii.eqb d c
    | [b; e] => bool_decide (byte_val b = 92) && negb (bool_decide (byte_val e = 117)) &&
        match unescape_char e with Some x => Ascii.eqb x c | None => false end
    | [b; u; x1; x2; x3; x4] => bool_decide (byte_val b = 92) && bool_decide (byte_val u = 117) &&
        match hex4 x1 x2 x3 x4 with Some z => bool_decide (utf8_encode z = [c]) | None => false end
    | _ => false
    end).
  assert (p c = true) as Hp by (apply all_bytes; by vm_compute). revert Hp. unfold p.
  rewrite (bool_decide_eq_true_2 _ Hc). cbn [negb orb].
  destruct (json_byte c) as [|b [|e [|x1 [|x2 [|x3 [|x4 [|]]]]]]]; try done;
    cbn [app json_chars]; rewrite ?andb_true_iff, ?negb_true_iff.
  - intros [[-> ->] ->%Ascii.eqb_eq]. done.
  - intros [[H1 ->] H2]. rewrite H1. destruct (bool_decide (byte_val b = 34)) eqn:E.
    { apply bool_decide_eq_true in E, H1. congruence. }
    destruct (unescape_char e); [|done]. by apply Ascii.eqb_eq in H2 as ->.
  - intros [[H1 ->] H2]. rewrite H1. destruct (bool_decide (byte_val b = 34)) eqn:E.
    { apply bool_decide_eq_true in E, H1. congruence. }
    destruct (hex4 _ _ _ _); [|done]. by apply bool_decide_eq_true in H2 as ->.
Qed.

Lemma between_high lo hi c : 128 ≤ lo → between lo hi c = true → 128 ≤ byte_val c.
Proof. unfold between. intros ? ?%bool_decide_eq_true. lia. Qed.

Lemma utf8_2_high a b : utf8_2 a b = true → 128 ≤ byte_val a ∧ 128 ≤ byte_val b.
Proof.
  intros [Ha Hb]%andb_true_iff. split; eapply between_high; [|exact Ha| |exact Hb]; lia.
Qed.

Ltac high :=
  repeat match goal with
  | H : _ && _ = true |- _ => apply andb_true_iff in H as [? ?]
  | H : _ || _ = true |- _ => apply orb_true_iff in H as [?|?]
  | H : between _ _ _ = true |- _ => apply between_high in H; [|lia]
  end; split_and?; assumption.

Lemma utf8_3_high a b c : utf8_3 a b c = true → 128 ≤ byte_val a ∧ 128 ≤ byte_val b ∧ 128 ≤ byte_val c.
Proof. unfold utf8_3. intros H. high. Qed.
Lemma utf8_4_high a b c d : utf8_4 a b c d = true →
  128 ≤ byte_val a ∧ 128 ≤ byte_val b ∧ 128 ≤ byte_val c ∧ 128 ≤ byte_val d.
Proof. unfold utf8_4. intros H. high. Qed.

Lemma prepend_app s t r : prepend s (prepend t r) = prepend (s ++ t) r.
Proof. destruct r as [[u rest]|]; [|done]. cbn. by rewrite (assoc_L (++)). Qed.

Lemma byte_of_eq c z : byte_val c = z → byte_of z = c.
Proof. intros <-. apply byte_of_val. Qed.

(** The two separators JavaScript takes for line ends come escaped. *)
Lemma line_separator_chars a b c s l :
  line_separator a b c = Some s → json_chars (s ++ l) = prepend [a; b; c] (json_chars l).
Proof.
  unfold line_separator. case_bool_decide as Hab; [|done]. destruct Hab as [Ha Hb].
  case_bool_decide as Hc; [|case_bool_decide as Hc'; [|done]]; intros [= <-].
  - rewrite <- (byte_of_eq _ _ Ha), <- (byte_of_eq _ _ Hb), <- (byte_of_eq _ _ Hc). reflexivity.
  - rewrite <- (byte_of_eq _ _ Ha), <- (byte_of_eq _ _ Hb), <- (byte_of_eq _ _ Hc'). reflexivity.
Qed.

Lemma json_chars_body l rest :
  utf8 l = true → json_chars (json_body l ++ dquote ++ rest) = Some (l, rest).
Proof.
  remember (length l) as n eqn:Hn. revert l Hn.
  induction (lt_wf n) as [n _ IH]. intros [|a l1] Hn Hu; [done|].
  assert (∀ s k, (length k < n)%nat → utf8 k = true →
    prepend s (json_chars (json_body k ++ dquote ++ rest)) = Some (s ++ k, rest)) as Hgo.
  { intros s k Hk Huk. by rewrite (IH _ Hk _ eq_refl Huk). }
  cbn [length] in Hn. cbn [utf8 json_body] in *. case_bool_decide as Ha.
  { rewrite <- (assoc_L (++)), json_chars_byte by done. apply (Hgo [a]); [lia|done]. }
  destruct l1 as [|b l2]; [done|]. cbn [length] in Hn. destruct (utf8_2 a b) eqn:E2.
  { destruct (utf8_2_high _ _ E2). cbn [app]. rewrite !json_chars_high, prepend_app by done.
    apply (Hgo [a; b]); [lia|done]. }
  destruct l2 as [|c l3]; [done|]. cbn [length] in Hn. destruct (utf8_3 a b c) eqn:E3.
  { destruct (utf8_3_high _ _ _ E3) as (?&?&?). rewrite <- (assoc_L (++)).
    destruct (line_separator a b c) as [s|] eqn:Es; cbn [default id].
    - rewrite (line_separator_chars _ _ _ _ _ Es). apply (Hgo [a; b; c]); [lia|done].
    - cbn [app]. rewrite !json_chars_high, !prepend_app by done. apply (Hgo [a; b; c]); [lia|done]. }
  destruct l3 as [|d l4]; [done|]. cbn [length] in Hn. apply andb_true_iff in Hu as [E4 Hu].
  rewrite E4. destruct (utf8_4_high _ _ _ _ E4) as (?&?&?&?). cbn [app].
  rewrite !json_chars_high, !prepend_app by done. apply (Hgo [a; b; c; d]); [lia|done].
Qed.

(** ** Objects *)

Definition json_quoted (l : list ascii) : option (list ascii * list ascii) :=
  match l with
  | c :: l' => if bool_decide (byte_val c = 34) then json_chars l' else None
  | [] => None
  end.

Lemma json_quoted_string s rest :
  utf8 (bytes s) = true → json_quoted (json_string s ++ rest) = Some (bytes s, rest).
Proof.
  intros H. unfold json_string. change dquote with [byte_of 34] at 1. cbn [app json_quoted].
  rewrite bool_decide_eq_true_2 by done. rewrite <- (assoc_L (++)). by apply json_chars_body.
Qed.

(** The members up to the closing brace, at most [n] of them. *)
Fixpoint json_members (n : nat) (l : list ascii) : option (list (string * string)) :=
  match n with
  | O => None
  | S n =>
      '(k, r) ← json_quoted l;
      r ← prefix_of [":"%char] r;
      '(v, r) ← json_quoted r;
      let kv := (of_bytes k, of_bytes v) in
      match r with
      | [c] => if Ascii.eqb c "}"%char then Some [kv] else None
      | c :: r' => if Ascii.eqb c ","%char then cons kv <$> json_members n r' else None
      | [] => None
      end
  end.

Definition json_Unmarshal (s : string) : option (gmap string string) :=
  match bytes s with
  | c :: l =>
      if negb (Ascii.eqb c "{"%char) then None
      else if bool_decide (l = ["}"%char]) then Some ∅
      else list_to_map <$> json_members (length l) l
  | [] => None
  end.

Definition utf8_member (kv : string * string) : Prop := utf8 (bytes kv.1) = true ∧ utf8 (bytes kv.2) = true.

Lemma json_members_join kvs : ∀ n,
  Forall utf8_member kvs → kvs ≠ [] → (length kvs ≤ n)%nat →
  json_members n (bytes (Join (json_member <$> kvs) ",") ++ ["}"%char]) = Some kvs.
Proof.
  induction kvs as [|[k v] kvs IH]; [done|]. intros n [[Hk Hv] Hall]%Forall_cons _ Hn.
  destruct n as [|n]; cbn [length] in Hn; [lia|]. cbn [fst snd] in Hk, Hv.
  assert (∀ tail, bytes (json_member (k, v)) ++ tail =
    json_string k ++ ":"%char :: json_string v ++ tail) as Hmember.
  { intros tail. unfold json_member. cbn [fst snd]. rewrite bytes_of_bytes.
    by rewrite <- (assoc_L (++)), <- (assoc_L (++)). }
  rewrite fmap_cons. destruct kvs as [|kv kvs].
  - change (Join [json_member (k, v)] ",") with (json_member (k, v)).
    rewrite Hmember. cbn [json_members]. rewrite json_quoted_string by done. cbn [mbind option_bind].
    change (prefix_of [":"%char] (":"%char :: ?l)) with (Some l). cbn [mbind option_bind].
    rewrite json_quoted_string by done. cbn. by rewrite !of_bytes_bytes.
  - change (Join (json_member (k, v) :: (json_member <$> (kv :: kvs))) ",") with
      (json_member (k, v) +:+ "," +:+ Join (json_member <$> (kv :: kvs)) ",").
    rewrite !bytes_app, <- !(assoc_L (++)), Hmember. cbn [json_members].
    rewrite json_quoted_string by done. cbn [mbind option_bind].
    change (prefix_of [":"%char] (":"%char :: ?l)) with (Some l). cbn [mbind option_bind].
    rewrite json_quoted_string by done. cbn [mbind option_bind].
    change (bytes "," ++ ?l) with (","%char :: l). rewrite !of_bytes_bytes.
    set (l := bytes _ ++ ["}"%char]). assert (l ≠ []) as Hl by (unfold l; by destruct (bytes _)).
    specialize (IH n Hall ltac:(done) ltac:(cbn [length] in *; lia)). fold l in IH.
    destruct l as [|x l]; [done|]. cbn -[json_members]. by rewrite IH.
Qed.

Lemma length_Join_members kvs : (length kvs ≤ length (bytes (Join (json_member <$> kvs) ",")))%nat.
Proof.
  assert (∀ kv, (1 ≤ length (bytes (json_member kv)))%nat) as H1.
  { intros kv. unfold json_member, json_string, dquote. rewrite bytes_of_bytes, !length_app. cbn [length]. lia. }
  induction kvs as [|kv [|kv' kvs] IH]; [done|apply (H1 kv)|]. rewrite fmap_cons.
  change (Join (json_member kv :: (json_member <$> (kv' :: kvs))) ",") with
    (json_member kv +:+ "," +:+ Join (json_member <$> (kv' :: kvs)) ",").
  rewrite !bytes_app, !length_app. specialize (H1 kv). cbn [length] in *. lia.
Qed.

(** The text of a map of well-formed strings reads back as that map. *)
Lemma json_roundtrip (m : gmap string string) :
  map_Forall (λ k v, utf8_member (k, v)) m → json_Unmarshal (json_Marshal m) = Some m.
Proof.
  intros Hm. assert (sorted_entries m ≡ₚ map_to_list m) as Hperm by apply merge_sort_Permutation.
  unfold json_Unmarshal, json_Marshal.
  rewrite !bytes_app. change (bytes "{" ++ ?l) with ("{"%char :: l).
  assert (Forall utf8_member (sorted_entries m)) as Hall.
  { apply Forall_forall. intros [k v] Hkv. rewrite Hperm in Hkv. apply elem_of_map_to_list in Hkv. exact (Hm _ _ Hkv). }
  destruct (sorted_entries m) as [|kv l] eqn:Hl.
  - symmetry in Hperm. apply Permutation_nil_r, map_to_list_empty_iff in Hperm. by rewrite Hperm.
  - set (txt := bytes (Join (json_member <$> (kv :: l)) ",")).
    assert (json_members (length (txt ++ bytes "}")) (txt ++ bytes "}") = Some (kv :: l)) as E.
    { apply json_members_join; [done|done|]. rewrite length_app.
      pose proof (length_Join_members (kv :: l)). fold txt in H. lia. }
    rewrite Ascii.eqb_refl. cbn [negb]. rewrite bool_decide_eq_false_2, E.
    + cbn [fmap option_fmap option_map]. f_equal. symmetry. by apply list_to_map_flip.
    + intros Et. pose proof (length_Join_members (kv :: l)) as Hlen. fold txt in Hlen.
      apply (f_equal length) in Et. rewrite length_app in Et. cbn in Et, Hlen. lia.
Qed.
