(* ===== verification/RateLimit.v ===== *)
(** * The per-client limiter (src/internal/httpapi/ratelimit.go)

    The token bucket of golang.org/x/time/rate is a parameter with one law: a
    bucket left alone for [refill] answers as a new one does.  Each call of
    [allow] is given the readings of the clock it makes: [seen] for
    [lastSeen], [cut] for the pruning cutoff and [now] inside the bucket. *)

From stdpp Require Import base strings list gmap fin_maps fin_map_dom.
From Stdlib Require Import ZArith Lia.
From S2P Require Import Prelude Domain.
Local Open Scope Z_scope.

Section RateLimit.
(** [NewLimiter n] is [rate.NewLimiter(n/60, n)]. *)
Context {Limiter : Type} (NewLimiter : Z → Limiter) (Allow : Limiter → Time → Limiter * bool).

Record ipBucket : Type := mkIpBucket { lim : Limiter; lastSeen : Time }.

Record ipLimiter : Type := mkIpLimiter {
  buckets : gmap string ipBucket;
  burst : Z
}.

Definition ipBucketTTL : Z := 600000000.
Definition max_buckets : Z := 10000.

Definition newIPLimiter (perMinute : Z) : option ipLimiter :=
  if bool_decide (perMinute ≤ 0) then None else Some (mkIpLimiter ∅ perMinute).

Definition pruneLocked (cut : Time) (m : gmap string ipBucket) : gmap string ipBucket :=
  let cutoff := cut - ipBucketTTL in
  filter (λ '(_, b), ¬ lastSeen b < cutoff) m.

(** A bucket that was pruned while being served is updated all the same, but
    no longer in the map. *)
Definition allow (l : ipLimiter) (ip : string) (seen cut now : Time) : ipLimiter * bool :=
  let b0 := match buckets l !! ip with Some b => lim b | None => NewLimiter (burst l) end in
  let m := <[ip := mkIpBucket b0 seen]> (buckets l) in
  let m := if bool_decide (max_buckets < Z.of_nat (size m)) then pruneLocked cut m else m in
  let '(b1, ok) := Allow b0 now in
  (mkIpLimiter (alter (λ b, mkIpBucket b1 (lastSeen b)) ip m) (burst l), ok).

(** ** Memory *)

(** Memory: after any call the limiter holds at most [max_buckets]
    buckets, or only buckets of clients seen within the idle period. *)
Theorem limiter_memory l ip seen cut now :
  let m := buckets (allow l ip seen cut now).1 in
  Z.of_nat (size m) ≤ max_buckets ∨ map_Forall (λ _ b, cut - ipBucketTTL ≤ lastSeen b) m.
Proof.
  unfold allow. cbv zeta.
  set (m := <[ip := _]> (buckets l)). destruct (Allow _ now) as [b1 ok]. cbn [fst buckets].
  case_bool_decide as Hs; [right|left].
  - intros i b Hb. apply lookup_alter_Some in Hb as [(<- & b' & Hb & ->)|[_ Hb]];
      apply map_lookup_filter_Some in Hb as [_ Hb]; cbn; lia.
  - rewrite <- (size_dom (D := gset string)), dom_alter_L, size_dom. lia.
Qed.

(** ** Pruning is invisible *)

(** One request: the client and the readings of the clock it causes. *)
Record call : Type := mkCall { c_ip : string; c_seen : Time; c_cut : Time; c_now : Time }.

Fixpoint run_limiter (l : ipLimiter) (calls : list call) : list bool :=
  match calls with
  | [] => []
  | c :: calls' =>
      let '(l', ok) := allow l (c_ip c) (c_seen c) (c_cut c) (c_now c) in ok :: run_limiter l' calls'
  end.

(** The reference: one bucket per client for ever. *)
Fixpoint run_reference (n : Z) (r : gmap string Limiter) (calls : list call) : list bool :=
  match calls with
  | [] => []
  | c :: calls' =>
      let '(b, ok) := Allow (default (NewLimiter n) (r !! c_ip c)) (c_now c) in
      ok :: run_reference n (<[c_ip c := b]> r) calls'
  end.

(** The lock is held for at most [prompt], and the clock does not go back. *)
Definition prompt : Z := 60000000.

Fixpoint timeline (t : Time) (calls : list call) : Prop :=
  match calls with
  | [] => True
  | c :: calls' =>
      t ≤ c_seen c ∧ c_seen c ≤ c_cut c ∧ c_cut c ≤ c_now c ∧ c_now c ≤ c_seen c + prompt ∧
      timeline (c_now c) calls'
  end.

(** A bucket of [n] tokens that was last asked at [t]. *)
Inductive used (n : Z) : Limiter → Time → Prop :=
| used_first t : used n (Allow (NewLimiter n) t).1 t
| used_again b t t' : used n b t → t ≤ t' → used n (Allow b t').1 t'.

(** At [n] tokens a minute a bucket of [n] is full after one minute without
    requests; [refill] leaves another one for the limiter's rounding. *)
Definition refill : Z := 120000000.

Class RateLaws : Prop :=
  idle_refills n b t t' :
    0 < n → used n b t → t + refill ≤ t' → Allow b t' = Allow (NewLimiter n) t'.

Context `{!RateLaws}.

(** The state of the limiter against the reference's, at time [t]. *)
Definition sim_at (n : Z) (t : Time) (b : option ipBucket) (r : option Limiter) : Prop :=
  match b, r with
  | Some b, Some r => r = lim b ∧ ∃ u, used n r u ∧ u ≤ t ∧ u ≤ lastSeen b + prompt
  | Some _, None => False
  | None, Some r => ∃ u, used n r u ∧ u + refill ≤ t
  | None, None => True
  end.

Definition sim (n : Z) (t : Time) (m : gmap string ipBucket) (r : gmap string Limiter) : Prop :=
  ∀ ip, sim_at n t (m !! ip) (r !! ip).

Lemma sim_later n t t' b r : sim_at n t b r → t ≤ t' → sim_at n t' b r.
Proof. destruct b, r; cbn; naive_solver lia. Qed.

Lemma sim_pruned n cut t b r :
  sim_at n t (Some b) r → lastSeen b < cut - ipBucketTTL → cut ≤ t → sim_at n t None r.
Proof.
  destruct r as [r|]; [|done]. cbn. intros (-> & u & Hu & Hut & Hseen) Hb Hc.
  exists u. split; [done|]. unfold ipBucketTTL, prompt, refill in *. lia.
Qed.

(** The bucket that answers answers as the reference's. *)
Lemma sim_answer n t b r now : 0 < n → sim_at n t b r → t ≤ now →
  Allow (match b with Some b => lim b | None => NewLimiter n end) now =
    Allow (default (NewLimiter n) r) now ∧
  used n (Allow (default (NewLimiter n) r) now).1 now.
Proof.
  intros Hn Hs Ht. destruct b as [b|], r as [r|]; cbn in *; try done.
  - destruct Hs as (-> & u & Hu & Hut & _). split; [done|]. eapply used_again; [done|lia].
  - destruct Hs as (u & Hu & Hut). split; [symmetry; eapply idle_refills; [done..|lia]|].
    eapply used_again; [done|unfold refill in *; lia].
  - split; [done|constructor].
Qed.

Lemma allow_sim l r t c :
  0 < burst l → sim (burst l) t (buckets l) r →
  t ≤ c_seen c → c_seen c ≤ c_cut c → c_cut c ≤ c_now c → c_now c ≤ c_seen c + prompt →
  let '(l', ok) := allow l (c_ip c) (c_seen c) (c_cut c) (c_now c) in
  let '(b, ok') := Allow (default (NewLimiter (burst l)) (r !! c_ip c)) (c_now c) in
  ok = ok' ∧ burst l' = burst l ∧ sim (burst l) (c_now c) (buckets l') (<[c_ip c := b]> r).
Proof.
  intros Hn Hsim H1 H2 H3 H4. unfold allow. cbv zeta.
  destruct (sim_answer _ _ _ _ (c_now c) Hn (Hsim (c_ip c)) ltac:(lia)) as [-> Hused].
  destruct (Allow (default _ _) _) as [b ok]. cbn [fst buckets burst] in *.
  split; [done|]. split; [done|]. intros i.
  set (b0 := match buckets l !! c_ip c with Some b => lim b | None => NewLimiter (burst l) end).
  set (m := <[c_ip c := mkIpBucket b0 (c_seen c)]> (buckets l)).
  set (m' := if bool_decide (max_buckets < Z.of_nat (size m)) then pruneLocked (c_cut c) m else m).
  destruct (decide (i = c_ip c)) as [->|Hi].
  - rewrite lookup_insert_eq, lookup_alter_eq.
    assert (m' !! c_ip c = Some (mkIpBucket b0 (c_seen c))) as ->.
    { unfold m'. case_bool_decide; [|apply lookup_insert_eq].
      apply map_lookup_filter_Some. split; [apply lookup_insert_eq|]. cbn. unfold ipBucketTTL, prompt in *. lia. }
    cbn. split; [done|]. exists (c_now c). split; [done|]. lia.
  - rewrite lookup_insert_ne, lookup_alter_ne by done.
    pose proof (sim_later _ _ (c_now c) _ _ (Hsim i) ltac:(lia)) as Hs.
    unfold m'. case_bool_decide; [|unfold m; by rewrite lookup_insert_ne].
    unfold pruneLocked. rewrite map_lookup_filter. unfold m. rewrite lookup_insert_ne by done.
    destruct (buckets l !! i) as [bi|]; [|done]. cbn. case_guard as Hg; [done|]. cbn.
    apply (sim_pruned _ (c_cut c) _ bi); [done| |done]. cbn in Hg. lia.
Qed.

(** C20 (pruning): as long as the clock does not go back and a request does not
    hold the lock for a minute, no client can tell that idle buckets are
    pruned: every request is admitted or rejected as by a limiter that keeps
    one token bucket per client for ever. *)
Theorem prune_unobservable n l calls t :
  newIPLimiter n = Some l → timeline t calls → run_limiter l calls = run_reference n ∅ calls.
Proof.
  unfold newIPLimiter. case_bool_decide as Hn; [done|]. intros [= <-].
  assert (sim n t (buckets (mkIpLimiter ∅ n)) ∅) as Hsim by (intros ip; cbn; by rewrite !lookup_empty).
  revert Hsim. change n with (burst (mkIpLimiter ∅ n)) at 1 4.
  assert (0 < burst (mkIpLimiter ∅ n)) as Hb by (cbn; lia). clear Hn. revert Hb.
  generalize (mkIpLimiter ∅ n), (∅ : gmap string Limiter). revert t.
  induction calls as [|c calls IH]; intros t l r Hb Hsim; [done|]. cbn [timeline run_limiter run_reference].
  intros (H1 & H2 & H3 & H4 & Htl). pose proof (allow_sim l r t c Hb Hsim H1 H2 H3 H4) as Hstep.
  destruct (allow _ _ _ _ _) as [l' ok], (Allow _ _) as [b ok']. destruct Hstep as (-> & Hb' & Hsim').
  f_equal. rewrite <- Hb' in *. by apply (IH (c_now c)).
Qed.
End RateLimit.
