(* ===== verification/Xray.v ===== *)
(** * The boundary to Xray-core (src/internal/xray)

    Accounts, error classification, the statistics parser and the client
    methods, over the RPCs of the platform.  [XrayLaws] states what
    HandlerService is documented to do with a node's accounts; the client
    lemmas at the end are proved against it and are all the worker uses. *)

From Stdlib Require Import Ascii.
From stdpp Require Import base gmap strings list fin_maps.
From Stdlib Require Import ZArith Lia.
From S2P Require Import Prelude Domain Database World GoStd.
Local Open Scope Z_scope.

(** ** accounts.go, client.go: data *)

Record Account : Type := mkAccount {
  acc_Protocol : string;
  acc_Email : string;
  acc_UUID : string;
  acc_Password : string;
  acc_Flow : string;
  acc_Method : string
}.

Record DialOptions : Type := mkDialOptions {
  do_Address : string;
  do_Port : Z;
  do_TLS : bool;
  do_TLSServerName : string;
  do_TLSInsecure : bool;
  do_CACertPEM : string;
  do_ClientCertPEM : string;
  do_ClientKeyPEM : string
}.

(** The [%q] verb on the strings that reach it (printable ASCII). *)
Definition quote (s : string) : string :=
  of_bytes [byte_of 34] +:+ s +:+ of_bytes [byte_of 34].

(** ** accounts.go *)

Definition shadowsocksCipher (method : string) : res error CipherType :=
  if one_of method ["aes-128-gcm"; "aead_aes_128_gcm"] then Ok CipherType_AES_128_GCM
  else if one_of method ["aes-256-gcm"; "aead_aes_256_gcm"] then Ok CipherType_AES_256_GCM
  else if one_of method ["chacha20-ietf-poly1305"; "chacha20-poly1305"; "aead_chacha20_poly1305"]
       then Ok CipherType_CHACHA20_POLY1305
  else if one_of method ["xchacha20-ietf-poly1305"; "xchacha20-poly1305"; "aead_xchacha20_poly1305"]
       then Ok CipherType_XCHACHA20_POLY1305
  else if one_of method ["none"; "plain"] then Ok CipherType_NONE
  else Err (ErrorString ("unsupported shadowsocks method " +:+ quote method)).

Definition buildUser (acc : Account) : res error ProtoUser :=
  let user a := mkProtoUser 0 (acc_Email acc) a in
  if String.eqb (acc_Protocol acc) "vless" then Ok (user (vless_Account (acc_UUID acc) (acc_Flow acc)))
  else if String.eqb (acc_Protocol acc) "vmess" then Ok (user (vmess_Account (acc_UUID acc)))
  else if String.eqb (acc_Protocol acc) "trojan" then Ok (user (trojan_Account (acc_Password acc)))
  else if String.eqb (acc_Protocol acc) "shadowsocks" then
    match shadowsocksCipher (acc_Method acc) with
    | Ok cipher => Ok (user (shadowsocks_Account (acc_Password acc) cipher))
    | Err e => Err e
    end
  else Err (ErrorString ("unsupported protocol " +:+ quote (acc_Protocol acc))).

(** ** users.go *)

Inductive alterOp : Type := opAdd | opRemove.

Definition already_exists (msg : string) : bool := Contains (ToLower msg) "already exists".
Definition not_there (msg : string) : bool :=
  Contains (ToLower msg) "not found" || Contains (ToLower msg) "not exist".

Definition mapAlterErr (err : option error) (op : alterOp) : option error :=
  match err with
  | None => None
  | Some e =>
      let idempotent :=
        match op with
        | opAdd => already_exists (Error e)
        | opRemove => not_there (Error e)
        end in
      if idempotent then None else Some (WrapError ("alter inbound: " +:+ Error e) e)
  end.

(** ** stats.go *)

(** Splits "user>>>{email}>>>traffic>>>{dir}". *)
Definition parseUserStatName (name : string) : option (string * string) :=
  rest ← prefix_of (bytes "user>>>") (bytes name);
  '(e, d) ← cut_last (bytes ">>>traffic>>>") rest;
  let email := of_bytes e in
  let dir := of_bytes d in
  if String.eqb email "" || negb (one_of dir ["uplink"; "downlink"]) then None
  else Some (email, dir).

(** One counter added into the per-email map. *)
Definition add_stat (byEmail : gmap string UserTraffic) (st : Stat) : gmap string UserTraffic :=
  match parseUserStatName (st_Name st) with
  | None => byEmail
  | Some (email, dir) =>
      let ut := default (mkUserTraffic email 0 0) (byEmail !! email) in
      <[email := if String.eqb dir "uplink"
                 then mkUserTraffic (t_Email ut) (int64 (t_Uplink ut + st_Value st)) (t_Downlink ut)
                 else mkUserTraffic (t_Email ut) (t_Uplink ut) (int64 (t_Downlink ut + st_Value st))]>
        byEmail
  end.

Definition user_traffic (stats : list Stat) : list UserTraffic :=
  (map_to_list (foldl add_stat ∅ stats)).*2.

(** ** client.go *)

Section Xray.
Context {P : Platform}.

Definition buildTLSConfig (opts : DialOptions) : res error TLSConfig :=
  let cert := do_ClientCertPEM opts in
  let key := do_ClientKeyPEM opts in
  let ca := do_CACertPEM opts in
  if negb (String.eqb ca "") && negb (AppendCertsFromPEM ca)
  then Err (ErrorString "ca_cert: no valid certificate found in PEM")
  else
    let tc certs := mkTLSConfig (do_TLSServerName opts) (do_TLSInsecure opts)
                      (if String.eqb ca "" then None else Some ca) certs in
    if negb (String.eqb cert "") || negb (String.eqb key "") then
      if String.eqb cert "" || String.eqb key ""
      then Err (ErrorString "client cert and key must be provided together")
      else match X509KeyPair cert key with
           | Some msg => Err (WrapError ("client cert/key: " +:+ msg) (ErrorString msg))
           | None => Ok (tc (Some (cert, key)))
           end
    else Ok (tc None).

Definition ValidateTLSMaterial (caPEM clientCertPEM clientKeyPEM : string) : option error :=
  match buildTLSConfig (mkDialOptions "" 0 true "" false caPEM clientCertPEM clientKeyPEM) with
  | Ok _ => None
  | Err e => Some e
  end.

Definition Dial (opts : DialOptions) : res error Conn :=
  let target := do_Address opts +:+ ":" +:+ Itoa (do_Port opts) in
  let connect creds :=
    let conn := mkConn target creds in
    match grpc_NewClient conn with
    | Some msg => Err (WrapError ("dial " +:+ target +:+ ": " +:+ msg) (ErrorString msg))
    | None => Ok conn
    end in
  if do_TLS opts
  then match buildTLSConfig opts with Ok tc => connect (Some tc) | Err e => Err e end
  else connect None.

Definition AlterInbound (c : Conn) (tag : string) (op : Operation) : IO unit := λ w,
  let '(n, r) := rpc_AlterInbound (w_net w) c tag op in
  (w_set_net n w, match r with None => Ok tt | Some msg => Err (ErrorString msg) end).

(** The last lines of AddUser and RemoveUser. *)
Definition mapped (op : alterOp) (m : IO unit) : IO unit :=
  r <- attempt m ;;
  match mapAlterErr (match r with Ok _ => None | Err e => Some e end) op with
  | None => ret tt
  | Some e => throw e
  end.

Definition AddUser (c : Conn) (inboundTag : string) (acc : Account) : IO unit :=
  user <- lift_res (buildUser acc) ;;
  mapped opAdd (AlterInbound c inboundTag (AddUserOperation user)).

Definition RemoveUser (c : Conn) (inboundTag email : string) : IO unit :=
  mapped opRemove (AlterInbound c inboundTag (RemoveUserOperation email)).

Definition Ping (c : Conn) : IO Z := λ w,
  let '(n, r) := rpc_GetSysStats (w_net w) c in
  (w_set_net n w,
   match r with
   | inl msg => Err (WrapError ("get sys stats: " +:+ msg) (ErrorString msg))
   | inr uptime => Ok uptime
   end).

Definition QueryUserTraffic (c : Conn) (reset : bool) : IO (list UserTraffic) := λ w,
  let '(n, r) := rpc_QueryStats (w_net w) c "user>>>" reset in
  (w_set_net n w,
   match r with
   | inl msg => Err (WrapError ("query stats: " +:+ msg) (ErrorString msg))
   | inr stats => Ok (user_traffic stats)
   end).

(** *** What HandlerService does with the accounts of a node *)

Class XrayLaws : Type := {
  (** the account an endpoint holds for an inbound tag and email *)
  account_at : net → string → string → string → option ProtoUser;
  add_ok n c tag u n' :
    rpc_AlterInbound n c tag (AddUserOperation u) = (n', None) →
    ∀ t g e, account_at n' t g e =
      if decide ((t, g, e) = (conn_target c, tag, pu_Email u)) then Some u
      else account_at n t g e;
  add_err n c tag u n' msg :
    rpc_AlterInbound n c tag (AddUserOperation u) = (n', Some msg) →
    (∀ t g e, account_at n' t g e = account_at n t g e) ∧
    (already_exists msg = true → is_Some (account_at n (conn_target c) tag (pu_Email u)));
  remove_ok n c tag em n' :
    rpc_AlterInbound n c tag (RemoveUserOperation em) = (n', None) →
    ∀ t g e, account_at n' t g e =
      if decide ((t, g, e) = (conn_target c, tag, em)) then None
      else account_at n t g e;
  remove_err n c tag em n' msg :
    rpc_AlterInbound n c tag (RemoveUserOperation em) = (n', Some msg) →
    (∀ t g e, account_at n' t g e = account_at n t g e) ∧
    (not_there msg = true → account_at n (conn_target c) tag em = None)
}.

(** *** The client's contract, over those laws *)

Context `{L : XrayLaws}.

Definition on_node (w : World) (c : Conn) (tag email : string) : option ProtoUser :=
  account_at (w_net w) (conn_target c) tag email.

(** The client touches nothing but the network. *)
Definition same_but_net (w w' : World) : Prop := w' = w_set_net (w_net w') w.

(** What a push of [acc] that succeeds leaves in its slot: the account itself,
    or whatever the endpoint already held there. *)
Definition pushed (acc : Account) (before after : option ProtoUser) : Prop :=
  ∃ u, buildUser acc = Ok u ∧ (after = Some u ∨ (is_Some before ∧ after = before)).

Lemma pushed_is_Some acc o o' : pushed acc o o' → is_Some o'.
Proof. intros (u & _ & [->|[Ho ->]]); by eauto. Qed.

Lemma AddUser_spec c tag acc w w' r :
  AddUser c tag acc w = (w', r) →
  same_but_net w w' ∧
  (r = Ok tt → pushed acc (on_node w c tag (acc_Email acc)) (on_node w' c tag (acc_Email acc))) ∧
  (∀ g e, (g, e) ≠ (tag, acc_Email acc) → on_node w' c g e = on_node w c g e).
Proof.
  unfold AddUser, bind, lift_res. destruct (buildUser acc) as [u|e] eqn:Hb.
  2: { cbn. intros [= <- <-]. split_and!; [by destruct w|done|done]. }
  assert (pu_Email u = acc_Email acc) as Hem.
  { revert Hb. unfold buildUser. repeat case_match; by intros [= <-]. }
  unfold mapped, bind, attempt, AlterInbound, on_node.
  destruct (rpc_AlterInbound (w_net w) c tag (AddUserOperation u)) as [n [msg|]] eqn:Hr; cbn -[already_exists not_there].
  - apply add_err in Hr as [Hsame Hex].
    destruct (already_exists msg) eqn:Ha; intros [= <- <-]; cbn; split_and!; try done.
    intros _. exists u. split; [done|]. right. rewrite Hsame, <- Hem. auto.
  - intros [= <- <-]; cbn. pose proof (add_ok _ _ _ _ _ Hr) as Ha. split_and!; try done.
    + intros _. exists u. split; [done|]. left. rewrite Ha, <- Hem. by rewrite decide_True.
    + intros g e Hne. rewrite Ha, decide_False; [done|]. rewrite Hem. congruence.
Qed.

(** Endpoints refuse an email they already hold ("User ... already exists."). *)
Class RefusesDuplicates : Prop := refuses_duplicates n c tag u :
  is_Some (account_at n (conn_target c) tag (pu_Email u)) →
  is_Some (rpc_AlterInbound n c tag (AddUserOperation u)).2.

(** Then a push never replaces an account. *)
Lemma AddUser_keeps `{!RefusesDuplicates} c tag acc w w' r g e old :
  AddUser c tag acc w = (w', r) → on_node w c g e = Some old → on_node w' c g e = Some old.
Proof.
  intros Hadd Hold. destruct (decide ((g, e) = (tag, acc_Email acc))) as [[= -> ->]|Hne].
  2: { apply AddUser_spec in Hadd as (_ & _ & Ho). by rewrite Ho. }
  revert Hadd. unfold AddUser, bind, lift_res. destruct (buildUser acc) as [u|er] eqn:Hb; [|by intros [= <- _]].
  assert (pu_Email u = acc_Email acc) as Hem.
  { revert Hb. unfold buildUser. repeat case_match; by intros [= <-]. }
  unfold mapped, bind, attempt, AlterInbound. pose proof (refuses_duplicates (w_net w) c tag u) as Hd.
  destruct (rpc_AlterInbound (w_net w) c tag (AddUserOperation u)) as [n [msg|]] eqn:Hr; cbn -[already_exists not_there].
  - apply add_err in Hr as [Hsame _]. unfold on_node in *.
    destruct (already_exists msg); intros [= <- _]; cbn; by rewrite Hsame.
  - intros _. unfold on_node in Hold. rewrite Hem, Hold in Hd. by destruct Hd.
Qed.

(** The endpoint answers, and rejects a push only because it is redundant. *)
Definition accepts (c : Conn) : Prop :=
  ∀ n tag op,
    match (rpc_AlterInbound n c tag op).2, op with
    | None, _ => True
    | Some msg, AddUserOperation _ => already_exists msg = true
    | Some msg, RemoveUserOperation _ => not_there msg = true
    end.

Lemma AddUser_total c tag acc u w :
  accepts c → buildUser acc = Ok u → ∃ w', AddUser c tag acc w = (w', Ok tt).
Proof.
  intros Hacc Hb. unfold AddUser, bind, lift_res. rewrite Hb.
  unfold mapped, bind, attempt, AlterInbound.
  specialize (Hacc (w_net w) tag (AddUserOperation u)).
  destruct (rpc_AlterInbound _ _ _ _) as [n [msg|]]; cbn -[already_exists not_there] in *.
  - rewrite Hacc. by eexists.
  - by eexists.
Qed.

Lemma RemoveUser_total c tag email w :
  accepts c → ∃ w', RemoveUser c tag email w = (w', Ok tt).
Proof.
  intros Hacc. unfold RemoveUser, mapped, bind, attempt, AlterInbound.
  specialize (Hacc (w_net w) tag (RemoveUserOperation email)).
  destruct (rpc_AlterInbound _ _ _ _) as [n [msg|]]; cbn -[already_exists not_there] in *.
  - rewrite Hacc. by eexists.
  - by eexists.
Qed.

Lemma RemoveUser_spec c tag email w w' r :
  RemoveUser c tag email w = (w', r) →
  same_but_net w w' ∧
  (r = Ok tt → on_node w' c tag email = None) ∧
  (∀ g e, (g, e) ≠ (tag, email) → on_node w' c g e = on_node w c g e).
Proof.
  unfold RemoveUser, mapped, bind, attempt, AlterInbound, on_node.
  destruct (rpc_AlterInbound (w_net w) c tag (RemoveUserOperation email)) as [n [msg|]] eqn:Hr; cbn -[already_exists not_there].
  - apply remove_err in Hr as [Hsame Hex].
    destruct (not_there msg) eqn:Ha; intros [= <- <-]; cbn; split_and!; try done.
    intros _. rewrite Hsame. auto.
  - intros [= <- <-]; cbn. pose proof (remove_ok _ _ _ _ _ Hr) as Ha. split_and!; try done.
    + intros _. by rewrite Ha, decide_True.
    + intros g e Hne. rewrite Ha, decide_False; [done|]. congruence.
Qed.
End Xray.

Arguments XrayLaws P : clear implicits.
