(* ===== verification/StatNames.v ===== *)
(** * Names of the traffic counters (src/internal/xray/stats.go)

    [parseUserStatName] recognises exactly the names Xray gives its per-user
    counters, whatever characters the email contains. *)

From Stdlib Require Import Ascii.
From stdpp Require Import base strings list.
From Stdlib Require Import ZArith Lia.
From S2P Require Import Prelude Domain GoStd Xray.

Lemma prefix_of_spec p l r : prefix_of p l = Some r ↔ l = p ++ r.
Proof.
  revert l. induction p as [|a p IH]; intros l; cbn.
  - split; [by intros [= ->]|by intros ->].
  - destruct l as [|b l]; [done|]. destruct (Ascii.eqb_spec a b) as [->|Hne].
    + rewrite IH. split; [by intros ->|by intros [= ->]].
    + split; [done|]. by intros [= Heq _].
Qed.

Lemma cut_last_sound sep l b a : cut_last sep l = Some (b, a) → l = b ++ sep ++ a.
Proof.
  revert b. induction l as [|c l IH]; intros b; cbn [cut_last].
  - destruct sep; [by intros [= <- <-]|done].
  - destruct (cut_last sep l) as [[b' a']|].
    + intros [= <- <-]. cbn. by rewrite (IH b') by done.
    + destruct (prefix_of sep (c :: l)) as [r|] eqn:Hp; [|done]. cbn. intros [= <- <-].
      by apply prefix_of_spec in Hp.
Qed.

(** The split is at [sep] when nothing after it contains another one. *)
Lemma cut_last_complete sep l a c tl :
  sep ++ a = c :: tl → cut_last sep tl = None → cut_last sep (l ++ sep ++ a) = Some (l, a).
Proof.
  intros Heq Hno. induction l as [|x l IH].
  - change ([] ++ sep ++ a) with (sep ++ a). rewrite Heq. cbn [cut_last]. rewrite Hno, <- Heq.
    by rewrite (proj2 (prefix_of_spec _ _ _) eq_refl).
  - cbn [app cut_last]. by rewrite IH.
Qed.

Definition dirs : list string := ["uplink"; "downlink"].

Lemma marker_last e d :
  d ∈ dirs →
  cut_last (bytes ">>>traffic>>>") (bytes e ++ bytes ">>>traffic>>>" ++ bytes d) =
  Some (bytes e, bytes d).
Proof.
  intros Hd. eapply cut_last_complete; [done|].
  unfold dirs in Hd. rewrite !elem_of_cons in Hd.
  destruct Hd as [->|[->|Hd]]; [done|done|by apply not_elem_of_nil in Hd].
Qed.

Lemma one_of_elem s l : one_of s l = true ↔ s ∈ l.
Proof.
  unfold one_of. rewrite existsb_exists. setoid_rewrite list_elem_of_In.
  split; [intros (x & Hx & Heq%String.eqb_eq); by subst|].
  intros Hs. exists s. by rewrite String.eqb_refl.
Qed.

(** Counter names: a counter name is attributed to email [e] and
    direction [d] exactly when it is [user>>>e>>>traffic>>>d] with a non-empty
    [e] and [d] one of uplink and downlink; an email that itself contains the
    separator is read back in full. *)
Theorem parse_stat_name name e d :
  parseUserStatName name = Some (e, d) ↔
  e ≠ ""%string ∧ d ∈ dirs ∧
  name = ("user>>>" +:+ e +:+ ">>>traffic>>>" +:+ d)%string.
Proof.
  unfold parseUserStatName. split.
  - intros (r & Hp & H)%bind_Some. apply bind_Some in H as ([b a] & Hc & H). cbv zeta in H.
    case_match eqn:Hcond; [done|]. injection H as <- <-.
    apply orb_false_iff in Hcond as [He Hd]. apply String.eqb_neq in He.
    apply negb_false_iff, one_of_elem in Hd. split_and!; [done|done|].
    apply prefix_of_spec in Hp. apply cut_last_sound in Hc. apply bytes_inj.
    by rewrite !bytes_app, !bytes_of_bytes, Hp, Hc.
  - intros (He & Hd & ->). rewrite !bytes_app.
    rewrite (proj2 (prefix_of_spec _ _ _) eq_refl). cbn [mbind option_bind].
    rewrite marker_last by done. cbn [mbind option_bind]. cbv zeta.
    rewrite !of_bytes_bytes, (proj2 (String.eqb_neq _ _) He).
    by rewrite (proj2 (one_of_elem d ["uplink"; "downlink"]%string) Hd).
Qed.
