(* ===== verification/Worker.v ===== *)
(** * The background control loops (src/internal/worker)

    Node actors (nodeactor.go, reconciler.go, collector.go), the manager that
    owns them (manager.go) and the two sweepers (expiry.go).  An actor is a
    heap object: the manager's map and its own goroutine share it by reference.
    A method of the source that logs and returns early throws here, and the
    caller, which only sees a [void] method, applies [ignore]. *)

From stdpp Require Import base gmap strings list fin_maps sets vector.
From Stdlib Require Import ZArith Lia.
From S2P Require Import Prelude Domain Database Metrics World StoreBase StoreUsers StoreAssignments StoreTraffic StoreAdmin.
From S2P Require Import GoStd Xray.
Local Open Scope Z_scope.

Record Config : Type := mkConfig {
  wc_HealthInterval : Z;
  wc_StatsInterval : Z;
  wc_ReconcileInterval : Z;
  wc_SnapshotRetentionDays : Z
}.

Definition healthFailThreshold : Z := 3.

Definition newNodeActor (n : Node) : nodeActor :=
  mkNodeActor n false false None 0 false 0 ∅.

(** ** Field updates of an actor *)

Definition a_set_Status (s : NodeStatus) (x : nodeActor) : nodeActor :=
  mkNodeActor (n_set_Status s (a_node x)) (a_reconcileCh x) (a_stopped x) (a_client x)
    (a_failCount x) (a_online x) (a_lastUptime x) (a_pendingDeltas x).
Definition a_set_reconcileCh (b : bool) (x : nodeActor) : nodeActor :=
  mkNodeActor (a_node x) b (a_stopped x) (a_client x)
    (a_failCount x) (a_online x) (a_lastUptime x) (a_pendingDeltas x).
Definition a_set_stopped (b : bool) (x : nodeActor) : nodeActor :=
  mkNodeActor (a_node x) (a_reconcileCh x) b (a_client x)
    (a_failCount x) (a_online x) (a_lastUptime x) (a_pendingDeltas x).
Definition a_set_client (c : option Conn) (x : nodeActor) : nodeActor :=
  mkNodeActor (a_node x) (a_reconcileCh x) (a_stopped x) c
    (a_failCount x) (a_online x) (a_lastUptime x) (a_pendingDeltas x).
Definition a_set_failCount (z : Z) (x : nodeActor) : nodeActor :=
  mkNodeActor (a_node x) (a_reconcileCh x) (a_stopped x) (a_client x)
    z (a_online x) (a_lastUptime x) (a_pendingDeltas x).
Definition a_set_online (b : bool) (x : nodeActor) : nodeActor :=
  mkNodeActor (a_node x) (a_reconcileCh x) (a_stopped x) (a_client x)
    (a_failCount x) b (a_lastUptime x) (a_pendingDeltas x).
Definition a_set_lastUptime (z : Z) (x : nodeActor) : nodeActor :=
  mkNodeActor (a_node x) (a_reconcileCh x) (a_stopped x) (a_client x)
    (a_failCount x) (a_online x) z (a_pendingDeltas x).
Definition a_set_pendingDeltas (m : gmap string UserTraffic) (x : nodeActor) : nodeActor :=
  mkNodeActor (a_node x) (a_reconcileCh x) (a_stopped x) (a_client x)
    (a_failCount x) (a_online x) (a_lastUptime x) m.

(** ** Pure parts *)

Definition accountFor (d : DesiredAssignment) : Account :=
  mkAccount (d_Protocol d) (d_Email d) (d_UUID d) (d_TrojanPass d) (d_Flow d) (d_Method d).

(** The merge loop of collect. *)
Definition merge_one (pending : gmap string UserTraffic) (t : UserTraffic)
    : gmap string UserTraffic :=
  match pending !! t_Email t with
  | Some p => <[t_Email t := mkUserTraffic (t_Email p) (int64 (t_Uplink p + t_Uplink t))
                               (int64 (t_Downlink p + t_Downlink t))]> pending
  | None => <[t_Email t := t]> pending
  end.
Definition merge_traffic (pending : gmap string UserTraffic) (traffic : list UserTraffic)
    : gmap string UserTraffic := foldl merge_one pending traffic.

(** The delta loop of collect: pending entries with a known email. *)
Definition deltas_of (pending : gmap string UserTraffic) (idByEmail : gmap string string)
    : list TrafficDelta :=
  map_to_list pending ≫= λ '(email, t),
    match idByEmail !! email with
    | Some id => [mkTrafficDelta id (t_Uplink t) (t_Downlink t)]
    | None => []
    end.

Section Worker.
Context {P : Platform}.

Definition DefaultDial (n : Node) : res error Conn :=
  Dial (mkDialOptions (n_APIAddress n) (n_APIPort n) (n_APITLS n) (n_APITLSServerName n)
          (n_APITLSInsecure n) (n_APICACert n) (n_APIClientCert n) (n_APIClientKey n)).

(** Dereferencing an actor, and assigning to its fields. *)
Definition actor (a : nat) : IO nodeActor := λ w,
  (w, match w_heap w !! a with
      | Some x => Ok x
      | None => Err (ErrorString "nil pointer dereference")
      end).
Definition set_actor (a : nat) (f : nodeActor → nodeActor) : IO unit :=
  modify (λ w, w_set_heap (alter f a (w_heap w)) w).

(** ** nodeactor.go *)

(** A send on the one-slot channel; when the slot is taken, nothing. *)
Definition triggerReconcile (a : nat) : IO unit := set_actor a (a_set_reconcileCh true).
Definition stop (a : nat) : IO unit := set_actor a (a_set_stopped true).
Definition close (a : nat) : IO unit := set_actor a (a_set_client None).
Definition dropClient (a : nat) : IO unit := set_actor a (a_set_client None).

Definition ensureClient (a : nat) : IO Conn :=
  x <- actor a ;;
  match a_client x with
  | Some c => ret c
  | None =>
      c <- lift_res (DefaultDial (a_node x)) ;;
      set_actor a (a_set_client (Some c)) ;;;
      ret c
  end.

Definition setHealth (a : nat) (status : NodeStatus) (errMsg : string) (seen : option Time)
    : IO unit :=
  set_actor a (a_set_Status status) ;;;
  x <- actor a ;;
  ignore (SetNodeHealth (n_ID (a_node x)) status errMsg seen).

(** ** manager.go: triggers *)

(** A manager without actors; the store, the dial function and the
    configuration it keeps are those of the section and of its callers. *)
Definition NewManager : IO unit := modify (w_set_actors ∅).

Definition Reconcile (nodeID : string) : IO unit :=
  r <- gets (λ w, w_actors w !! nodeID) ;;
  match r with Some a => triggerReconcile a | None => ret tt end.

Fixpoint trigger_targets (seen : gset string) (targets : list DesiredAssignment) : IO unit :=
  match targets with
  | [] => ret tt
  | t :: rest =>
      if decide (d_NodeID t ∈ seen) then trigger_targets seen rest
      else Reconcile (d_NodeID t) ;;; trigger_targets ({[d_NodeID t]} ∪ seen) rest
  end.

Definition ReconcileForUser (userID : string) : IO unit :=
  ignore (targets <- AssignmentTargetsForUser userID ;; trigger_targets ∅ targets).

(** ** reconciler.go *)

(** The failure path of a push: count it, drop the connection, give up. *)
Definition push_failed (a : nat) (name : string) (e : error) (mark : IO unit) : IO unit :=
  metric_add ReconcileErrors [#name] 1 ;;;
  mark ;;;
  dropClient a ;;;
  throw e.

Definition remove_one (a : nat) (name : string) (c : Conn) (d : DesiredAssignment) : IO unit :=
  r <- attempt (RemoveUser c (d_InboundTag d) (d_Email d)) ;;
  match r with
  | Err e => push_failed a name e (ret tt)
  | Ok _ =>
      if String.eqb (d_SyncStatus d) SyncRemoving
      then ignore (DeleteAssignment (d_UserID d) (d_InboundID d))
      else ret tt
  end.

Definition add_one (a : nat) (name : string) (c : Conn) (d : DesiredAssignment) : IO unit :=
  r <- attempt (AddUser c (d_InboundTag d) (accountFor d)) ;;
  match r with
  | Err e =>
      push_failed a name e
        (ignore (MarkAssignmentSynced (d_UserID d) (d_InboundID d) SyncFailed (Error e)))
  | Ok _ =>
      if negb (String.eqb (d_SyncStatus d) SyncApplied)
      then ignore (MarkAssignmentSynced (d_UserID d) (d_InboundID d) SyncApplied "")
      else ret tt
  end.

Definition reconcile_body (a : nat) : IO unit :=
  c <- ensureClient a ;;
  x <- actor a ;;
  let node := a_node x in
  removals <- RemovalsForNode (n_ID node) ;;
  for_each removals (remove_one a (n_Name node) c) ;;;
  desired <- DesiredForNode (n_ID node) ;;
  for_each desired (add_one a (n_Name node) c).

Definition reconcile (a : nat) : IO unit := ignore (reconcile_body a).

(** ** nodeactor.go: health *)

Definition checkHealth (a : nat) : IO unit :=
  r <- attempt (c <- ensureClient a ;; Ping c) ;;
  match r with
  | Err e =>
      set_actor a (λ x, a_set_failCount (int64 (a_failCount x + 1)) x) ;;;
      dropClient a ;;;
      x <- actor a ;;
      if bool_decide (healthFailThreshold ≤ a_failCount x) && a_online x then
        set_actor a (a_set_online false) ;;;
        setHealth a NodeStatusOffline (Error e) None ;;;
        metric_set NodeUp [#n_Name (a_node x)] 0
      else if bool_decide (a_failCount x < healthFailThreshold) then
        setHealth a (n_Status (a_node x)) (Error e) None
      else ret tt
  | Ok uptime =>
      set_actor a (a_set_failCount 0) ;;;
      now <- time_Now ;;
      x <- actor a ;;
      let wasOffline := negb (a_online x) in
      let restarted := bool_decide (0 < a_lastUptime x) && bool_decide (uptime < a_lastUptime x) in
      set_actor a (a_set_lastUptime uptime) ;;;
      set_actor a (a_set_online true) ;;;
      setHealth a NodeStatusOnline "" (Some now) ;;;
      metric_set NodeUp [#n_Name (a_node x)] 1 ;;;
      if wasOffline || restarted then reconcile a else ret tt
  end.

(** ** collector.go *)

Definition record_collected (name : string) (d : TrafficDelta) : IO unit :=
  metric_add TrafficCollected [#name; "uplink"] (td_Uplink d) ;;;
  metric_add TrafficCollected [#name; "downlink"] (td_Downlink d).

Definition suspended_one (userID : string) : IO unit :=
  metric_add UsersSuspended [#] 1 ;;;
  ReconcileForUser userID.

(** From the merged buffer to the database. *)
Definition flush (a : nat) : IO unit :=
  x <- actor a ;;
  if bool_decide (a_pendingDeltas x = ∅) then ret tt
  else
    idByEmail <- UserIDsByEmail (map_to_list (a_pendingDeltas x)).*1 ;;
    let deltas := deltas_of (a_pendingDeltas x) idByEmail in
    now <- time_Now ;;
    overQuota <- ApplyTrafficDeltas (n_ID (a_node x)) deltas now ;;
    for_each deltas (record_collected (n_Name (a_node x))) ;;;
    set_actor a (a_set_pendingDeltas ∅) ;;;
    for_each overQuota suspended_one.

Definition collect_body (a : nat) : IO unit :=
  c <- ensureClient a ;;
  r <- attempt (QueryUserTraffic c true) ;;
  match r with
  | Err e => dropClient a ;;; throw e
  | Ok traffic =>
      set_actor a (λ x, a_set_pendingDeltas (merge_traffic (a_pendingDeltas x) traffic) x) ;;;
      flush a
  end.

Definition collect (a : nat) : IO unit := ignore (collect_body a).

(** ** expiry.go *)

Definition expired_one (userID : string) : IO unit :=
  metric_add UsersExpired [#] 1 ;;;
  ReconcileForUser userID.

(** One tick of the expiry sweeper. *)
Definition expiry_sweep : IO unit :=
  ignore (now <- time_Now ;;
          ids <- ExpireDueUsers now ;;
          for_each ids expired_one).

(** One pruning pass; the pruner does not run at all without a retention. *)
Definition prune (cfg : Config) : IO unit :=
  if bool_decide (wc_SnapshotRetentionDays cfg ≤ 0) then ret tt
  else
    ignore (now <- time_Now ;;
            PruneSnapshots (AddDate now (- wc_SnapshotRetentionDays cfg))).

(** ** manager.go: lifecycle *)

Definition StopNode (nodeID : string) : IO unit :=
  r <- gets (λ w, w_actors w !! nodeID) ;;
  match r with
  | Some a => stop a ;;; modify (λ w, w_set_actors (delete nodeID (w_actors w)) w)
  | None => ret tt
  end.

(** Returns the reference whose goroutine is spawned. *)
Definition StartNode (n : Node) : IO nat :=
  StopNode (n_ID n) ;;;
  a <- gets (λ w, fresh (dom (w_heap w) : gset nat)) ;;
  modify (λ w, w_set_heap (<[a := newNodeActor n]> (w_heap w)) w) ;;;
  modify (λ w, w_set_actors (<[n_ID n := a]> (w_actors w)) w) ;;;
  ret a.

Definition Start : IO unit :=
  nodes <- ListNodes ;;
  for_each nodes (λ n,
    if negb (String.eqb (n_Status n) NodeStatusDisabled)
    then StartNode n ;;; ret tt else ret tt).

Definition Stop : IO unit :=
  refs <- gets (λ w, (map_to_list (w_actors w)).*2) ;;
  for_each refs close.

(** ** The actor's loop *)

(** The cases of the select statement, and when each is ready. *)
Inductive select_case : Type :=
| CtxDone
| StopCh
| HealthTick
| StatsTick
| ReconcileTick
| ReconcileCh.

Definition ready (x : nodeActor) (s : select_case) : bool :=
  match s with
  | StopCh => a_stopped x
  | ReconcileCh => a_reconcileCh x
  | _ => true
  end.

(** One turn of the loop; [false] when the goroutine returns. *)
Definition run_turn (a : nat) (s : select_case) : IO bool :=
  match s with
  | CtxDone | StopCh => close a ;;; ret false
  | HealthTick => checkHealth a ;;; ret true
  | StatsTick => collect a ;;; ret true
  | ReconcileTick => reconcile a ;;; ret true
  | ReconcileCh => set_actor a (a_set_reconcileCh false) ;;; reconcile a ;;; ret true
  end.
End Worker.

(** ** Every loop body keeps the schema's invariant *)

Section WorkerInv.
Context {P : Platform} `{!Rely P}.

Lemma actor_inv a : preserves w_ok (actor a).
Proof. intros w Hw. unfold actor. by destruct (w_heap w !! a). Qed.
Lemma modify_inv (f : World → World) :
  (∀ w, w_db (f w) = w_db w) → preserves w_ok (modify (E := error) f).
Proof. intros Hf. apply preserves_modify. intros w. unfold w_ok. by rewrite Hf. Qed.
Lemma set_actor_inv a f : preserves w_ok (set_actor a f).
Proof. by apply modify_inv. Qed.
Hint Resolve actor_inv set_actor_inv : go_inv.

Lemma AlterInbound_inv c tag op : preserves w_ok (AlterInbound c tag op).
Proof. intros w Hw. unfold AlterInbound. by destruct (rpc_AlterInbound _ _ _ _). Qed.
Hint Resolve AlterInbound_inv : go_inv.
Lemma AddUser_inv c tag acc : preserves w_ok (AddUser c tag acc).
Proof. unfold AddUser, mapped. go_inv. Qed.
Lemma RemoveUser_inv c tag e : preserves w_ok (RemoveUser c tag e).
Proof. unfold RemoveUser, mapped. go_inv. Qed.
Lemma Ping_inv c : preserves w_ok (Ping c).
Proof. intros w Hw. unfold Ping. by destruct (rpc_GetSysStats _ _). Qed.
Lemma QueryUserTraffic_inv c b : preserves w_ok (QueryUserTraffic c b).
Proof. intros w Hw. unfold QueryUserTraffic. by destruct (rpc_QueryStats _ _ _ _). Qed.
Hint Resolve AddUser_inv RemoveUser_inv Ping_inv QueryUserTraffic_inv : go_inv.

Lemma triggerReconcile_inv a : preserves w_ok (triggerReconcile a).
Proof. apply set_actor_inv. Qed.
Lemma dropClient_inv a : preserves w_ok (dropClient a).
Proof. apply set_actor_inv. Qed.
Lemma close_inv a : preserves w_ok (close a).
Proof. apply set_actor_inv. Qed.
Lemma ensureClient_inv a : preserves w_ok (ensureClient a).
Proof. unfold ensureClient. go_inv. Qed.
Lemma setHealth_inv a s e t : preserves w_ok (setHealth a s e t).
Proof. unfold setHealth. go_inv. Qed.
Hint Resolve triggerReconcile_inv dropClient_inv close_inv ensureClient_inv setHealth_inv : go_inv.

Lemma Reconcile_inv id : preserves w_ok (Reconcile id).
Proof. unfold Reconcile. go_inv. Qed.
Hint Resolve Reconcile_inv : go_inv.
Lemma trigger_targets_inv l : ∀ seen, preserves w_ok (trigger_targets seen l).
Proof. induction l; intros seen; cbn; go_inv. Qed.
Hint Resolve trigger_targets_inv : go_inv.
Lemma ReconcileForUser_inv u : preserves w_ok (ReconcileForUser u).
Proof. unfold ReconcileForUser. go_inv. Qed.
Hint Resolve ReconcileForUser_inv : go_inv.

Lemma reconcile_inv a : preserves w_ok (reconcile a).
Proof. unfold reconcile, reconcile_body, remove_one, add_one, push_failed. go_inv. Qed.
Hint Resolve reconcile_inv : go_inv.
Lemma checkHealth_inv a : preserves w_ok (checkHealth a).
Proof. unfold checkHealth. go_inv. Qed.
Lemma collect_inv a : preserves w_ok (collect a).
Proof.
  unfold collect, collect_body, flush, record_collected, suspended_one. go_inv.
Qed.
Lemma expiry_sweep_inv : preserves w_ok expiry_sweep.
Proof. unfold expiry_sweep, expired_one. go_inv. Qed.
Lemma prune_inv cfg : preserves w_ok (prune cfg).
Proof. unfold prune. go_inv. Qed.
Lemma StopNode_inv id : preserves w_ok (StopNode id).
Proof. unfold StopNode, stop. go_inv. Qed.
Hint Resolve StopNode_inv : go_inv.
Lemma StartNode_inv n : preserves w_ok (StartNode n).
Proof. unfold StartNode. go_inv. Qed.
Hint Resolve StartNode_inv : go_inv.
Lemma Start_inv : preserves w_ok Start.
Proof. unfold Start. go_inv. Qed.
Lemma Stop_inv : preserves w_ok Stop.
Proof. unfold Stop. go_inv. Qed.
Hint Resolve checkHealth_inv collect_inv : go_inv.
Lemma run_turn_inv a s : preserves w_ok (run_turn a s).
Proof. unfold run_turn. go_inv. Qed.
End WorkerInv.

#[export] Hint Resolve Ping_inv Reconcile_inv ReconcileForUser_inv expiry_sweep_inv
  prune_inv StopNode_inv StartNode_inv Start_inv Stop_inv run_turn_inv : go_inv.
