(* ===== verification/ServiceUsers.v ===== *)
(** * Tokens and the user service (src/internal/service/secret.go, users.go) *)

From stdpp Require Import base gmap strings list fin_maps sets.
From Stdlib Require Import ZArith Lia.
From S2P Require Import Prelude Domain Database World StoreBase StoreUsers StoreAssignments StoreTraffic StoreAdmin.
From S2P Require Import GoStd Xray Worker.
Local Open Scope Z_scope.

Definition subtleEqual (a b : string) : bool := String.eqb a b.

(** dedup: the first occurrence of each id, in order. *)
Fixpoint dedup_from (seen : gset string) (ids : list string) : list string :=
  match ids with
  | [] => []
  | id :: rest =>
      if decide (id ∈ seen) then dedup_from seen rest
      else id :: dedup_from ({[id]} ∪ seen) rest
  end.
Definition dedup (ids : list string) : list string := dedup_from ∅ ids.

(** distinctNodes: the same loop over the targets' node ids. *)
Definition distinctNodes (targets : list DesiredAssignment) : list string :=
  dedup_from ∅ (d_NodeID <$> targets).

Section Secret.
Context {P : Platform}.

(** The source panics when the random source fails; [rand_Read] does not. *)
Definition randToken (n : nat) : IO string :=
  b <- rand_Read n ;; ret (b64_RawURL b).

Definition HashKey (plaintext : string) : string := hex_Encode (sha256_Sum256 plaintext).
End Secret.

Module UserService.

(** [InboundIDs] is a slice of which only the elements matter here. *)
Record CreateInput : Type := mkCreateInput {
  ci_Email : string;
  ci_PlanID : option string;
  ci_InboundIDs : list string;
  ci_DataLimitBytes : option Z;
  ci_ExpiresAt : option Time;
  ci_Note : string;
  ci_ExternalID : option string
}.

Record UpdateInput : Type := mkUpdateInput {
  up_PlanID : option string;
  up_DataLimitBytes : option Z;
  up_ExpiresAt : option Time;
  up_ClearExpiry : bool;
  up_Note : option string;
  up_Status : option UserStatus
}.

Record RenewInput : Type := mkRenewInput {
  rn_Days : Z;
  rn_ResetTraffic : bool;
  rn_PlanID : option string
}.

Record Subscription : Type := mkSubscription {
  sub_User : User;
  sub_Inbounds : list Inbound
}.

(** The patch of Update, up to the reactivation test. *)
Definition apply_patch (inp : UpdateInput) (u : User) : User :=
  let u := match up_PlanID inp with Some p => u_set_PlanID (Some p) u | None => u end in
  let u := match up_DataLimitBytes inp with Some l => u_set_DataLimitBytes (Some l) u | None => u end in
  let u := if up_ClearExpiry inp then u_set_ExpiresAt None u
           else match up_ExpiresAt inp with Some e => u_set_ExpiresAt (Some e) u | None => u end in
  let u := match up_Note inp with Some n => u_set_Note n u | None => u end in
  match up_Status inp with Some s => u_set_Status s u | None => u end.

Section UserService.
Context {P : Platform}.

(** [e == nil || e.After(time.Now())], consulting the clock only when needed. *)
Definition unexpired (e : option Time) : IO bool :=
  match e with
  | None => ret true
  | Some t => now <- time_Now ;; ret (After t now)
  end.

(** The plan's limits, for what the caller left unset. *)
Definition plan_defaults (inp : CreateInput) : IO (option Z * option Time) :=
  match ci_PlanID inp with
  | None => ret (ci_DataLimitBytes inp, ci_ExpiresAt inp)
  | Some pid =>
      plan <- GetPlan pid ;;
      let limit := match ci_DataLimitBytes inp with Some l => Some l | None => p_DataLimitBytes plan end in
      match ci_ExpiresAt inp, p_DurationDays plan with
      | None, Some days => now <- time_Now ;; ret (limit, Some (AddDate now days))
      | e, _ => ret (limit, e)
      end
  end.

Definition Create (inp : CreateInput) : IO User :=
  if String.eqb (TrimSpace (ci_Email inp)) "" then throw (Validationf "email is required")
  else if bool_decide (ci_InboundIDs inp = []) then
    throw (Validationf "at least one inbound_id is required")
  else
    lims <- plan_defaults inp ;;
    inbounds <- ListInboundsByIDs (ci_InboundIDs inp) ;;
    if negb (bool_decide (length inbounds = length (dedup (ci_InboundIDs inp)))) then
      throw (Validationf "one or more inbound_ids do not exist")
    else
      id <- uuid_NewString ;;
      uuid <- uuid_NewString ;;
      trojan <- randToken 18 ;;
      subToken <- randToken 24 ;;
      let u := mkUser id (ci_Email inp) uuid trojan (ci_PlanID inp) UserStatusActive
                 lims.1 0 0 lims.2 subToken (ci_Note inp) (ci_ExternalID inp) 0 0 in
      WithTx (λ tx,
        CreateUserTx tx u ;;;
        for_each inbounds (λ ib, AddAssignmentTx tx (u_ID u) (ib_ID ib))) ;;;
      ReconcileForUser (u_ID u) ;;;
      GetUser (u_ID u).

Definition Get (id : string) : IO User := GetUser id.

Definition List (f : UserFilter) : IO (list User * Z) := ListUsers f.

Definition Update (id : string) (inp : UpdateInput) : IO User :=
  u0 <- GetUser id ;;
  let u := apply_patch inp u0 in
  reactivate <- (if String.eqb (u_Status u) UserStatusExpired
                 then match u_ExpiresAt u with
                      | Some e => now <- time_Now ;; ret (After e now)
                      | None => ret false
                      end
                 else ret false) ;;
  let u := if (reactivate : bool) then u_set_Status UserStatusActive u else u in
  UpdateUser u ;;;
  ReconcileForUser (u_ID u) ;;;
  GetUser id.

(** The closure of reconcileNodes over its [seen] map. *)
Definition reconcileNodes (oldTargets : list DesiredAssignment) (newInbounds : list Inbound)
    : IO unit :=
  for_each (dedup_from ∅ ((d_NodeID <$> oldTargets) ++ (ib_NodeID <$> newInbounds))) Reconcile.

(** [inboundIDs]: [None] is the nil slice. *)
Definition SetInbounds (id : string) (inboundIDs : option (list string)) : IO User :=
  GetUser id ;;;
  inbounds <- ListInboundsByIDs (default [] inboundIDs) ;;
  if negb (bool_decide (length inbounds = length (dedup (default [] inboundIDs)))) then
    throw (Validationf "one or more inbound_ids do not exist")
  else
    r <- attempt (AssignmentTargetsForUser id) ;;
    let oldTargets := match r with Ok l => l | Err _ => [] end in
    WithTx (λ tx, SetAssignmentsForUserTx tx id inboundIDs) ;;;
    reconcileNodes oldTargets inbounds ;;;
    GetUser id.

Definition setStatusAndReconcile (id : string) (status : UserStatus) : IO User :=
  SetUserStatus id status ;;;
  ReconcileForUser id ;;;
  GetUser id.

Definition Suspend (id : string) : IO User := setStatusAndReconcile id UserStatusDisabled.

Definition Resume (id : string) : IO User :=
  u <- GetUser id ;;
  if OverQuota u then
    throw (Validationf "user is over data limit; reset traffic or raise the limit first")
  else
    live <- unexpired (u_ExpiresAt u) ;;
    if negb live then throw (Validationf "user is expired; extend expiry first")
    else setStatusAndReconcile id UserStatusActive.

Definition ResetTraffic (id : string) : IO User :=
  u <- GetUser id ;;
  StoreUsers.ResetTraffic id ;;;
  reactivate <- (if String.eqb (u_Status u) UserStatusSuspended
                 then unexpired (u_ExpiresAt u) else ret false) ;;
  (if (reactivate : bool) then SetUserStatus id UserStatusActive else ret tt) ;;;
  ReconcileForUser id ;;;
  GetUser id.

(** The three edits Renew makes to its copy of the user before the write. *)
Definition renew_plan (inp : RenewInput) (u : User) : IO User :=
  match rn_PlanID inp with
  | None => ret u
  | Some pid =>
      plan <- GetPlan pid ;;
      ret (u_set_DataLimitBytes (p_DataLimitBytes plan) (u_set_PlanID (Some pid) u))
  end.

Definition renew_expiry (inp : RenewInput) (u : User) : IO User :=
  if bool_decide (0 < rn_Days inp) then
    now <- time_Now ;;
    let base := match u_ExpiresAt u with
                | Some e => if After e now then e else now
                | None => now
                end in
    ret (u_set_ExpiresAt (Some (AddDate base (rn_Days inp))) u)
  else ret u.

Definition renew_status (u : User) : IO User :=
  if negb (String.eqb (u_Status u) UserStatusDisabled) && negb (OverQuota u) then
    live <- unexpired (u_ExpiresAt u) ;;
    ret (if (live : bool) then u_set_Status UserStatusActive u else u)
  else ret u.

Definition Renew (id : string) (inp : RenewInput) : IO User :=
  if bool_decide (rn_Days inp ≤ 0) && negb (rn_ResetTraffic inp)
     && bool_decide (rn_PlanID inp = None) then
    throw (Validationf "renew requires days > 0, reset_traffic, or plan_id")
  else
    u0 <- GetUser id ;;
    u1 <- renew_plan inp u0 ;;
    u2 <- renew_expiry inp u1 ;;
    u3 <- (if rn_ResetTraffic inp
           then StoreUsers.ResetTraffic id ;;; ret (u_set_Used 0 0 u2)
           else ret u2) ;;
    u4 <- renew_status u3 ;;
    UpdateUser u4 ;;;
    ReconcileForUser (u_ID u4) ;;;
    GetUser id.

Definition RotateSubToken (id : string) : IO User :=
  u <- GetUser id ;;
  t <- randToken 24 ;;
  UpdateUser (u_set_SubToken t u) ;;;
  GetUser id.

Definition Delete (id : string) : IO unit :=
  targets <- AssignmentTargetsForUser id ;;
  MarkAssignmentsRemovingForUser id ;;;
  for_each (distinctNodes targets) Reconcile ;;;
  DeleteUser id.

Definition Usage (id : string) (from to : Time) (groupBy : string) : IO (list UsageBucket) :=
  GetUser id ;;;
  UserUsage id from to groupBy.

(** NewUserService trims the base URL once; SubURL appends to it. *)
Definition SubURL (publicBaseURL : string) (u : User) : string :=
  TrimRightSlash publicBaseURL +:+ "/sub/" +:+ u_SubToken u.

Definition SubscriptionByToken (token : string) : IO Subscription :=
  u <- GetUserBySubToken token ;;
  inbounds <- ListInboundsForUser (u_ID u) ;;
  ret (mkSubscription u inbounds).
End UserService.
End UserService.

(** ** Every operation keeps the schema's invariant *)

Section UserServiceInv.
Context {P : Platform} `{!Rely P}.
Import UserService.

Lemma randToken_inv n : preserves w_ok (randToken n).
Proof. unfold randToken. go_inv. Qed.
Lemma unexpired_inv e : preserves w_ok (unexpired e).
Proof. unfold unexpired. go_inv. Qed.
Hint Resolve randToken_inv unexpired_inv : go_inv.

Lemma UserService_Create_inv inp : preserves w_ok (Create inp).
Proof. unfold Create, plan_defaults. go_inv. Qed.
Lemma UserService_Update_inv id inp : preserves w_ok (Update id inp).
Proof. unfold Update. go_inv. Qed.
Lemma SetInbounds_inv id l : preserves w_ok (SetInbounds id l).
Proof. unfold SetInbounds, reconcileNodes. go_inv. Qed.
Lemma Suspend_inv id : preserves w_ok (Suspend id).
Proof. unfold Suspend, setStatusAndReconcile. go_inv. Qed.
Lemma Resume_inv id : preserves w_ok (Resume id).
Proof. unfold Resume, setStatusAndReconcile. go_inv. Qed.
Lemma UserService_ResetTraffic_inv id : preserves w_ok (UserService.ResetTraffic id).
Proof. unfold UserService.ResetTraffic. go_inv. Qed.
Lemma Renew_inv id inp : preserves w_ok (Renew id inp).
Proof. unfold Renew, renew_plan, renew_expiry, renew_status. go_inv. Qed.
Lemma RotateSubToken_inv id : preserves w_ok (RotateSubToken id).
Proof. unfold RotateSubToken. go_inv. Qed.
Lemma UserService_Delete_inv id : preserves w_ok (Delete id).
Proof. unfold Delete. go_inv. Qed.
Lemma Usage_inv id f t g : preserves w_ok (Usage id f t g).
Proof. unfold Usage. go_inv. Qed.
Lemma SubscriptionByToken_inv t : preserves w_ok (SubscriptionByToken t).
Proof. unfold SubscriptionByToken. go_inv. Qed.
End UserServiceInv.

#[export] Hint Resolve randToken_inv UserService_Create_inv UserService_Update_inv
  SetInbounds_inv Suspend_inv Resume_inv UserService_ResetTraffic_inv Renew_inv
  RotateSubToken_inv UserService_Delete_inv Usage_inv SubscriptionByToken_inv : go_inv.
