(* ===== verification/ServiceAdmin.v ===== *)
(** * Nodes, inbounds, plans and API keys
    (src/internal/service/nodes.go, plans.go, apikeys.go) *)

From stdpp Require Import base gmap strings list fin_maps sets.
From Stdlib Require Import ZArith Lia.
From S2P Require Import Prelude Domain Database World StoreBase StoreUsers StoreAdmin GoStd Xray.
From S2P Require Import Worker ServiceUsers.
Local Open Scope Z_scope.

Module NodeService.

(** PEM fields: [None] leaves the stored value, [Some ""] clears it. *)
Record NodeInput : Type := mkNodeInput {
  ni_Name : string;
  ni_APIAddress : string;
  ni_APIPort : Z;
  ni_APITLS : bool;
  ni_APITLSServerName : string;
  ni_APITLSInsecure : bool;
  ni_APICACert : option string;
  ni_APIClientCert : option string;
  ni_APIClientKey : option string
}.

Record InboundInput : Type := mkInboundInput {
  ii_Tag : string;
  ii_Protocol : Protocol;
  ii_ListenPort : Z;
  ii_PublicHost : string;
  ii_PublicPort : Z;
  ii_Network : Network;
  ii_Security : Security;
  ii_WSPath : string;
  ii_HostHeader : string;
  ii_GRPCServiceName : string;
  ii_SNI : string;
  ii_Fingerprint : string;
  ii_RealityPublicKey : string;
  ii_RealityShortID : string;
  ii_Flow : string;
  ii_Method : string;
  ii_XHTTPMode : string;
  ii_Remark : string
}.

Definition validate (inp : InboundInput) : option error :=
  if String.eqb (ii_Tag inp) "" then Some (Validationf "tag is required")
  else if negb (Protocol_Valid (ii_Protocol inp)) then
    Some (Validationf "protocol must be vless|vmess|trojan")
  else if String.eqb (ii_PublicHost inp) "" then Some (Validationf "public_host is required")
  else if bool_decide (ii_PublicPort inp ≤ 0) || bool_decide (65535 < ii_PublicPort inp) then
    Some (Validationf "public_port must be 1-65535")
  else if negb (String.eqb (ii_Network inp) "") && negb (Network_Valid (ii_Network inp)) then
    Some (Validationf "invalid network")
  else if negb (String.eqb (ii_Security inp) "") && negb (Security_Valid (ii_Security inp)) then
    Some (Validationf "invalid security")
  else if String.eqb (ii_Protocol inp) ProtocolShadowsocks && String.eqb (ii_Method inp) "" then
    Some (Validationf "method is required for shadowsocks")
  else if String.eqb (ii_Protocol inp) ProtocolShadowsocks
          && negb (default false (ShadowsocksMethods !! ii_Method inp)) then
    Some (Validationf "unsupported shadowsocks method")
  else if negb (String.eqb (ii_XHTTPMode inp) "")
          && negb (one_of (ii_XHTTPMode inp) ["auto"; "packet-up"; "stream-up"; "stream-one"]) then
    Some (Validationf "invalid xhttp_mode")
  else None.

Definition inboundFromInput (inp : InboundInput) (id nodeID : string) : Inbound :=
  mkInbound id nodeID (ii_Tag inp) (ii_Protocol inp) (ii_ListenPort inp) (ii_PublicHost inp)
    (ii_PublicPort inp)
    (if String.eqb (ii_Network inp) "" then NetworkTCP else ii_Network inp)
    (if String.eqb (ii_Security inp) "" then SecurityNone else ii_Security inp)
    (ii_WSPath inp) (ii_HostHeader inp) (ii_GRPCServiceName inp) (ii_SNI inp)
    (ii_Fingerprint inp) (ii_RealityPublicKey inp) (ii_RealityShortID inp) (ii_Flow inp)
    (ii_Method inp) (ii_XHTTPMode inp) (ii_Remark inp) 0 0.

Definition n_set_tls (ca cert key : string) (hasKey : bool) (n : Node) : Node :=
  mkNode (n_ID n) (n_Name n) (n_APIAddress n) (n_APIPort n) (n_APITLS n)
    (n_APITLSServerName n) (n_APITLSInsecure n) ca cert key hasKey (n_Status n)
    (n_LastSeenAt n) (n_LastError n) (n_CreatedAt n) (n_UpdatedAt n).
Definition n_set_health (s : NodeStatus) (e : string) (seen : option Time) (n : Node) : Node :=
  mkNode (n_ID n) (n_Name n) (n_APIAddress n) (n_APIPort n) (n_APITLS n)
    (n_APITLSServerName n) (n_APITLSInsecure n) (n_APICACert n) (n_APIClientCert n)
    (n_APIClientKey n) (n_APIHasClientKey n) s seen e (n_CreatedAt n) (n_UpdatedAt n).

(** The assignments of Update before the TLS material. *)
Definition apply_settings (inp : NodeInput) (n : Node) : Node :=
  mkNode (n_ID n)
    (if String.eqb (ni_Name inp) "" then n_Name n else ni_Name inp)
    (if String.eqb (ni_APIAddress inp) "" then n_APIAddress n else ni_APIAddress inp)
    (if bool_decide (ni_APIPort inp = 0) then n_APIPort n else ni_APIPort inp)
    (ni_APITLS inp) (ni_APITLSServerName inp) (ni_APITLSInsecure inp) (n_APICACert n)
    (n_APIClientCert n) (n_APIClientKey n) (n_APIHasClientKey n) (n_Status n)
    (n_LastSeenAt n) (n_LastError n) (n_CreatedAt n) (n_UpdatedAt n).

Section NodeService.
Context {P : Platform}.

Definition applyTLSMaterial (inp : NodeInput) (n : Node) : res error Node :=
  let ca := default (n_APICACert n) (ni_APICACert inp) in
  let cert := default (n_APIClientCert n) (ni_APIClientCert inp) in
  let key := default (n_APIClientKey n) (ni_APIClientKey inp) in
  match ValidateTLSMaterial ca cert key with
  | Some e => Err (Validationf (Error e))
  | None => Ok (n_set_tls ca cert key (negb (String.eqb key "")) n)
  end.

Definition probe (n : Node) : IO (NodeStatus * string) :=
  match DefaultDial n with
  | Err e => ret (NodeStatusOffline, Error e)
  | Ok c =>
      r <- attempt (Ping c) ;;
      match r with
      | Err e => ret (NodeStatusOffline, Error e)
      | Ok _ => ret (NodeStatusOnline, "")
      end
  end.

Definition Create (inp : NodeInput) : IO Node :=
  if String.eqb (TrimSpace (ni_Name inp)) "" then throw (Validationf "name is required")
  else if String.eqb (ni_APIAddress inp) "" then throw (Validationf "api_address is required")
  else if bool_decide (ni_APIPort inp ≤ 0) || bool_decide (65535 < ni_APIPort inp) then
    throw (Validationf "api_port must be 1-65535")
  else
    id <- uuid_NewString ;;
    n <- lift_res (applyTLSMaterial inp
           (mkNode id (ni_Name inp) (ni_APIAddress inp) (ni_APIPort inp) (ni_APITLS inp)
              (ni_APITLSServerName inp) (ni_APITLSInsecure inp) "" "" "" false
              NodeStatusUnknown None "" 0 0)) ;;
    CreateNode n ;;;
    p <- probe n ;;
    seen <- (if String.eqb p.1 NodeStatusOnline
             then now <- time_Now ;; ret (Some now)
             else ret (n_LastSeenAt n)) ;;
    let n := n_set_health p.1 p.2 seen n in
    ignore (SetNodeHealth (n_ID n) (n_Status n) (n_LastError n) (n_LastSeenAt n)) ;;;
    StartNode n ;;;
    GetNode (n_ID n).

Definition Get (id : string) : IO Node := GetNode id.

Definition List : IO (list Node) := ListNodes.

Definition Update (id : string) (inp : NodeInput) : IO Node :=
  n0 <- GetNode id ;;
  n <- lift_res (applyTLSMaterial inp (apply_settings inp n0)) ;;
  UpdateNode n ;;;
  StartNode n ;;;
  GetNode id.

Definition Delete (id : string) : IO unit :=
  StopNode id ;;;
  DeleteNode id.

Definition Reconcile (id : string) : IO unit :=
  GetNode id ;;;
  Worker.Reconcile id.

Definition check_inbound (inp : InboundInput) : IO unit :=
  match validate inp with Some e => throw e | None => ret tt end.

Definition CreateInbound (nodeID : string) (inp : InboundInput) : IO Inbound :=
  GetNode nodeID ;;;
  check_inbound inp ;;;
  id <- uuid_NewString ;;
  let ib := inboundFromInput inp id nodeID in
  StoreAdmin.CreateInbound ib ;;;
  StoreAdmin.GetInbound (ib_ID ib).

Definition GetInbound (id : string) : IO Inbound := StoreAdmin.GetInbound id.

Definition ListInbounds (nodeID : string) : IO (list Inbound) := ListInboundsByNode nodeID.

Definition UpdateInbound (id : string) (inp : InboundInput) : IO Inbound :=
  existing <- StoreAdmin.GetInbound id ;;
  check_inbound inp ;;;
  let ib := inboundFromInput inp (ib_ID existing) (ib_NodeID existing) in
  StoreAdmin.UpdateInbound ib ;;;
  Worker.Reconcile (ib_NodeID existing) ;;;
  StoreAdmin.GetInbound id.

Definition DeleteInbound (id : string) : IO unit := StoreAdmin.DeleteInbound id.
End NodeService.
End NodeService.

Module PlanService.

Record PlanInput : Type := mkPlanInput {
  pi_Name : string;
  pi_DataLimitBytes : option Z;
  pi_DurationDays : option Z
}.

Definition negative (z : option Z) : bool :=
  match z with Some v => bool_decide (v < 0) | None => false end.

Section PlanService.
Context {P : Platform}.

Definition Create (inp : PlanInput) : IO Plan :=
  if String.eqb (TrimSpace (pi_Name inp)) "" then throw (Validationf "name is required")
  else if negative (pi_DataLimitBytes inp) then
    throw (Validationf "data_limit_bytes must be >= 0")
  else if negative (pi_DurationDays inp) then throw (Validationf "duration_days must be >= 0")
  else
    id <- uuid_NewString ;;
    CreatePlan (mkPlan id (pi_Name inp) (pi_DataLimitBytes inp) (pi_DurationDays inp) 0 0) ;;;
    GetPlan id.

Definition Get (id : string) : IO Plan := GetPlan id.

Definition List : IO (list Plan) := ListPlans.

Definition Update (id : string) (inp : PlanInput) : IO Plan :=
  p <- GetPlan id ;;
  UpdatePlan (mkPlan (p_ID p)
                (if String.eqb (pi_Name inp) "" then p_Name p else pi_Name inp)
                (pi_DataLimitBytes inp) (pi_DurationDays inp)
                (p_CreatedAt p) (p_UpdatedAt p)) ;;;
  GetPlan id.

Definition Delete (id : string) : IO unit := DeletePlan id.
End PlanService.
End PlanService.

Module APIKeyService.

Record CreatedKey : Type := mkCreatedKey {
  ck_Key : APIKey;
  ck_Plaintext : string
}.
#[global] Instance CreatedKey_eq_dec : EqDecision CreatedKey.
Proof. solve_decision. Defined.

Section APIKeyService.
Context {P : Platform}.

Definition Create (name : string) : IO CreatedKey :=
  if String.eqb (TrimSpace name) "" then throw (Validationf "name is required")
  else
    t <- randToken 24 ;;
    let plaintext := "xapi_" +:+ t in
    id <- uuid_NewString ;;
    let k := mkAPIKey id name (HashKey plaintext) 0 None None in
    CreateAPIKey k ;;;
    ret (mkCreatedKey k plaintext).

Definition List : IO (list APIKey) := ListAPIKeys.

Definition Revoke (id : string) : IO unit := RevokeAPIKey id.

Definition Verify (plaintext bootstrap : string) : IO bool :=
  if String.eqb plaintext "" then ret false
  else if negb (String.eqb bootstrap "") && subtleEqual plaintext bootstrap then ret true
  else
    r <- attempt (FindAPIKeyByHash (HashKey plaintext)) ;;
    ret (is_ok r).
End APIKeyService.
End APIKeyService.

(** ** Every operation keeps the schema's invariant *)

Section AdminServiceInv.
Context {P : Platform} `{!Rely P}.

Lemma probe_inv n : preserves w_ok (NodeService.probe n).
Proof. unfold NodeService.probe. go_inv. Qed.
Lemma check_inbound_inv inp : preserves w_ok (NodeService.check_inbound inp).
Proof. unfold NodeService.check_inbound. go_inv. Qed.
Hint Resolve probe_inv check_inbound_inv : go_inv.

Lemma NodeService_Create_inv inp : preserves w_ok (NodeService.Create inp).
Proof. unfold NodeService.Create. go_inv. Qed.
Lemma NodeService_Update_inv id inp : preserves w_ok (NodeService.Update id inp).
Proof. unfold NodeService.Update. go_inv. Qed.
Lemma NodeService_Delete_inv id : preserves w_ok (NodeService.Delete id).
Proof. unfold NodeService.Delete. go_inv. Qed.
Lemma NodeService_Reconcile_inv id : preserves w_ok (NodeService.Reconcile id).
Proof. unfold NodeService.Reconcile. go_inv. Qed.
Lemma NodeService_CreateInbound_inv id inp : preserves w_ok (NodeService.CreateInbound id inp).
Proof. unfold NodeService.CreateInbound. go_inv. Qed.
Lemma NodeService_UpdateInbound_inv id inp : preserves w_ok (NodeService.UpdateInbound id inp).
Proof. unfold NodeService.UpdateInbound. go_inv. Qed.
Lemma PlanService_Create_inv inp : preserves w_ok (PlanService.Create inp).
Proof. unfold PlanService.Create. go_inv. Qed.
Lemma PlanService_Update_inv id inp : preserves w_ok (PlanService.Update id inp).
Proof. unfold PlanService.Update. go_inv. Qed.
Lemma APIKeyService_Create_inv name : preserves w_ok (APIKeyService.Create name).
Proof. unfold APIKeyService.Create. go_inv. Qed.
Lemma Verify_inv p b : preserves w_ok (APIKeyService.Verify p b).
Proof. unfold APIKeyService.Verify. go_inv. Qed.
End AdminServiceInv.

#[export] Hint Resolve NodeService_Create_inv NodeService_Update_inv NodeService_Delete_inv
  NodeService_Reconcile_inv NodeService_CreateInbound_inv NodeService_UpdateInbound_inv
  PlanService_Create_inv PlanService_Update_inv APIKeyService_Create_inv Verify_inv : go_inv.
