(* ===== verification/ServiceBilling.v ===== *)
(** * Billing webhooks (src/internal/service/billing.go) *)

From stdpp Require Import base gmap strings list fin_maps sets.
From Stdlib Require Import ZArith Lia.
From S2P Require Import Prelude Domain Database World StoreBase StoreUsers StoreAdmin GoStd Xray.
From S2P Require Import Worker ServiceUsers.
Local Open Scope Z_scope.

Module BillingService.

Record ProvisionPayload : Type := mkProvisionPayload {
  pp_Email : string;
  pp_PlanID : option string;
  pp_InboundIDs : list string;
  pp_DataLimitBytes : option Z;
  pp_ExpiresAt : option Time;
  pp_Note : string
}.

Record RenewPayload : Type := mkRenewPayload {
  rp_Days : Z;
  rp_ResetTraffic : bool;
  rp_PlanID : option string
}.

Record BillingEvent : Type := mkBillingEvent {
  ev_EventID : string;
  ev_Action : string;
  ev_ExternalID : string;
  ev_Email : string;
  ev_Provision : option ProvisionPayload;
  ev_Renew : option RenewPayload
}.

Record BillingResult : Type := mkBillingResult {
  br_Duplicate : bool;
  br_Action : string;
  br_User : option User
}.
#[global] Instance BillingResult_eq_dec : EqDecision BillingResult.
Proof. solve_decision. Defined.

Section BillingService.
Context {P : Platform}.

(** hmac.Equal is equality, in constant time. *)
Definition VerifySignature (secret body signature : string) : bool :=
  if String.eqb secret "" || String.eqb signature "" then false
  else String.eqb (hex_Encode (hmac_sha256 secret body)) signature.

Definition resolveUser (ev : BillingEvent) : IO User :=
  let wrap what key e := WrapError (what +:+ quote key +:+ ": " +:+ Error e) e in
  if negb (String.eqb (ev_ExternalID ev) "") then
    map_err (wrap "user with external_id " (ev_ExternalID ev))
      (GetUserByExternalID (ev_ExternalID ev))
  else if negb (String.eqb (ev_Email ev) "") then
    map_err (wrap "user with email " (ev_Email ev)) (GetUserByEmail (ev_Email ev))
  else throw (Validationf "external_id or email is required").

Definition withUser (ev : BillingEvent) (fn : string → IO User) : IO User :=
  u <- resolveUser ev ;; fn (u_ID u).

Definition cancel (ev : BillingEvent) : IO unit :=
  u <- resolveUser ev ;; UserService.Suspend (u_ID u) ;;; ret tt.

Definition renew (ev : BillingEvent) : IO User :=
  match ev_Renew ev with
  | None => throw (Validationf "renew payload is required")
  | Some r =>
      u <- resolveUser ev ;;
      UserService.Renew (u_ID u)
        (UserService.mkRenewInput (rp_Days r) (rp_ResetTraffic r) (rp_PlanID r))
  end.

Definition provision (ev : BillingEvent) : IO User :=
  match ev_Provision ev with
  | None => throw (Validationf "provision payload is required")
  | Some p =>
      if String.eqb (ev_ExternalID ev) "" then
        throw (Validationf "external_id is required for provision")
      else
        r <- attempt (GetUserByExternalID (ev_ExternalID ev)) ;;
        match r with
        | Ok u => ret u
        | Err e =>
            if negb (errors_Is e ErrNotFound) then throw e
            else UserService.Create
                   (UserService.mkCreateInput (pp_Email p) (pp_PlanID p) (pp_InboundIDs p)
                      (pp_DataLimitBytes p) (pp_ExpiresAt p) (pp_Note p)
                      (Some (ev_ExternalID ev)))
        end
  end.

(** The switch of Process that runs a fresh event. *)
Definition execute (ev : BillingEvent) : IO (option User) :=
  if String.eqb (ev_Action ev) "provision" then u <- provision ev ;; ret (Some u)
  else if String.eqb (ev_Action ev) "renew" then u <- renew ev ;; ret (Some u)
  else if String.eqb (ev_Action ev) "suspend" then
    u <- withUser ev UserService.Suspend ;; ret (Some u)
  else if String.eqb (ev_Action ev) "resume" then
    u <- withUser ev UserService.Resume ;; ret (Some u)
  else cancel ev ;;; ret None.

Definition actions : list string := ["provision"; "renew"; "suspend"; "resume"; "cancel"].

(** Process after the JSON has been decoded. *)
Definition process_event (ev : BillingEvent) : IO BillingResult :=
  if String.eqb (ev_EventID ev) "" then throw (Validationf "event_id is required")
  else if negb (one_of (ev_Action ev) actions) then
    throw (Validationf "action must be provision|renew|suspend|resume|cancel")
  else
    fresh <- RecordWebhookEvent (ev_EventID ev) (ev_Action ev) ;;
    if negb fresh then ret (mkBillingResult true (ev_Action ev) None)
    else
      user <- execute ev ;;
      ret (mkBillingResult false (ev_Action ev) user).

(** [json.Unmarshal] into a BillingEvent: an error message, or the event. *)
Definition Process (json_Unmarshal : string → string + BillingEvent) (raw : string)
    : IO BillingResult :=
  match json_Unmarshal raw with
  | inl msg => throw (Validationf ("invalid JSON: " +:+ msg))
  | inr ev => process_event ev
  end.
End BillingService.
End BillingService.

(** ** Every event keeps the schema's invariant *)

Section BillingServiceInv.
Context {P : Platform} `{!Rely P}.
Import BillingService.

Lemma resolveUser_inv ev : preserves w_ok (resolveUser ev).
Proof. unfold resolveUser. go_inv. Qed.
Hint Resolve resolveUser_inv : go_inv.
Lemma execute_inv ev : preserves w_ok (execute ev).
Proof. unfold execute, provision, renew, withUser, cancel. go_inv. Qed.
Hint Resolve execute_inv : go_inv.
Lemma process_event_inv ev : preserves w_ok (process_event ev).
Proof. unfold process_event. go_inv. Qed.
Hint Resolve process_event_inv : go_inv.
Lemma Process_inv f raw : preserves w_ok (Process f raw).
Proof. unfold Process. go_inv. Qed.
End BillingServiceInv.

#[export] Hint Resolve Process_inv : go_inv.
