(* ===== verification/Sublink.v ===== *)
(** * Subscription links and payloads (src/internal/sublink)

    Share links of the four protocols (links.go), the base64 bundle (v2ray.go),
    the Clash configuration (clash.go) and the usage header (userinfo.go).
    The YAML encoder, a third-party package, is a parameter. *)

From stdpp Require Import base strings list gmap fin_maps.
From Stdlib Require Import ZArith Lia.
From S2P Require Import Prelude Domain GoStd Encoding Xray ServiceUsers.
Local Open Scope Z_scope.

Definition remark (u : User) (ib : Inbound) : string :=
  let label := if String.eqb (ib_Remark ib) "" then ib_Tag ib else ib_Remark ib in
  u_Email u +:+ "@" +:+ label.

Definition hostPort (ib : Inbound) : string :=
  JoinHostPort (ib_PublicHost ib) (Itoa (ib_PublicPort ib)).

(** [q.Set(key, v)] unless [v] is empty. *)
Definition set_if (key v : string) (q : Values) : Values :=
  if String.eqb v "" then q else <[key := v]> q.

(** The first switch of streamParams. *)
Definition network_params (ib : Inbound) (q : Values) : Values :=
  let n := ib_Network ib in
  if String.eqb n NetworkWS || String.eqb n NetworkHTTPUpgrade then
    set_if "host" (ib_HostHeader ib) (set_if "path" (ib_WSPath ib) q)
  else if String.eqb n NetworkGRPC then set_if "serviceName" (ib_GRPCServiceName ib) q
  else if String.eqb n NetworkXHTTP then
    set_if "mode" (ib_XHTTPMode ib)
      (set_if "host" (ib_HostHeader ib) (set_if "path" (ib_WSPath ib) q))
  else q.

(** The second one. *)
Definition security_params (ib : Inbound) (q : Values) : Values :=
  let s := ib_Security ib in
  if String.eqb s SecurityTLS then set_if "fp" (ib_Fingerprint ib) (set_if "sni" (ib_SNI ib) q)
  else if String.eqb s SecurityReality then
    set_if "sid" (ib_RealityShortID ib) (set_if "pbk" (ib_RealityPublicKey ib)
      (set_if "fp" (ib_Fingerprint ib) (set_if "sni" (ib_SNI ib) q)))
  else q.

Definition streamParams (ib : Inbound) : Values :=
  security_params ib (network_params ib
    (<["security" := ib_Security ib]> (<["type" := ib_Network ib]> ∅))).

Definition encodeSorted (v : Values) : string := Encode v.

Definition vless_params (ib : Inbound) : Values :=
  set_if "flow" (ib_Flow ib) (<["encryption" := "none"]> (streamParams ib)).

Definition vlessLink (u : User) (ib : Inbound) : string :=
  URL_String (mkURL "vless" (Some (u_UUID u)) (hostPort ib) (encodeSorted (vless_params ib))
                (remark u ib)).

Definition trojanLink (u : User) (ib : Inbound) : string :=
  URL_String (mkURL "trojan" (Some (u_TrojanPassword u)) (hostPort ib)
                (encodeSorted (streamParams ib)) (remark u ib)).

Definition defaultMethod (ib : Inbound) : string :=
  if String.eqb (ib_Method ib) "" then "aes-256-gcm" else ib_Method ib.

Definition shadowsocksLink (u : User) (ib : Inbound) : string :=
  let userinfo := b64_RawURL (defaultMethod ib +:+ ":" +:+ u_TrojanPassword u) in
  "ss://" +:+ userinfo +:+ "@" +:+ hostPort ib +:+ "#" +:+ PathEscape (remark u ib).

Definition tlsField (s : Security) : string := if String.eqb s SecurityNone then "" else s.

(** The map that vmessLink marshals. *)
Definition vmess_fields (u : User) (ib : Inbound) : gmap string string :=
  let n := ib_Network ib in
  let m : gmap string string := list_to_map
    [ ("v", "2"); ("ps", remark u ib); ("add", ib_PublicHost ib); ("port", Itoa (ib_PublicPort ib));
      ("id", u_UUID u); ("aid", "0"); ("scy", "auto"); ("net", n); ("type", "none");
      ("tls", tlsField (ib_Security ib)) ] in
  let m :=
    if String.eqb n NetworkWS || String.eqb n NetworkHTTPUpgrade then
      <["host" := ib_HostHeader ib]> (<["path" := ib_WSPath ib]> m)
    else if String.eqb n NetworkGRPC then <["path" := ib_GRPCServiceName ib]> m
    else m in
  if negb (String.eqb (ib_Security ib) SecurityNone) && negb (String.eqb (ib_SNI ib) "")
  then <["sni" := ib_SNI ib]> m else m.

Definition vmessLink (u : User) (ib : Inbound) : string :=
  "vmess://" +:+ b64_Std (json_Marshal (vmess_fields u ib)).

Definition Link (u : User) (ib : Inbound) : res error string :=
  let p := ib_Protocol ib in
  if String.eqb p ProtocolVLESS then Ok (vlessLink u ib)
  else if String.eqb p ProtocolTrojan then Ok (trojanLink u ib)
  else if String.eqb p ProtocolVMess then Ok (vmessLink u ib)
  else if String.eqb p ProtocolShadowsocks then Ok (shadowsocksLink u ib)
  else Err (ErrorString ("unsupported protocol " +:+ quote p)).

(** The loop of V2Ray. *)
Fixpoint links (u : User) (inbounds : list Inbound) : res error (list string) :=
  match inbounds with
  | [] => Ok []
  | ib :: rest =>
      match Link u ib with
      | Err e => Err e
      | Ok l => res_map (cons l) (links u rest)
      end
  end.

Definition newline : string := of_bytes [byte_of 10].

Definition V2Ray (u : User) (inbounds : list Inbound) : res error string :=
  res_map (λ ls, b64_Std (Join ls newline)) (links u inbounds).

(** ** Clash *)

(** The values a [map[string]any] of the configuration holds. *)
Inductive any : Type :=
| AnyString (s : string)
| AnyStrings (l : list string)
| AnyMap (m : gmap string string).

Record clashProxy : Type := mkClashProxy {
  cp_Name : string;
  cp_Type : string;
  cp_Server : string;
  cp_Port : Z;
  cp_UUID : string;
  cp_Password : string;
  cp_AlterID : option Z;
  cp_Cipher : string;
  cp_Flow : string;
  cp_UDP : bool;
  cp_TLS : bool;
  cp_Servername : string;
  cp_SNI : string;
  cp_Network : string;
  cp_ClientFP : string;
  cp_RealityOpts : gmap string string;
  cp_WSOpts : gmap string any;
  cp_GRPCOpts : gmap string string;
  cp_XHTTPOpts : gmap string any
}.

Record clashConfig : Type := mkClashConfig {
  cc_Proxies : list clashProxy;
  cc_ProxyGroups : list (gmap string any);
  cc_Rules : list string
}.

(** The first switch: type and credentials, before transport. *)
Definition clash_base (u : User) (ib : Inbound) : clashProxy :=
  let p := ib_Protocol ib in
  let base type uuid password alter cipher flow network :=
    mkClashProxy (remark u ib) type (ib_PublicHost ib) (ib_PublicPort ib) uuid password alter cipher
      flow true false "" "" network "" ∅ ∅ ∅ ∅ in
  if String.eqb p ProtocolVLESS then base "vless" (u_UUID u) "" None "" (ib_Flow ib) (ib_Network ib)
  else if String.eqb p ProtocolVMess then base "vmess" (u_UUID u) "" (Some 0) "auto" "" (ib_Network ib)
  else if String.eqb p ProtocolTrojan then
    base "trojan" "" (u_TrojanPassword u) None "" "" (ib_Network ib)
  else if String.eqb p ProtocolShadowsocks then
    base "ss" "" (u_TrojanPassword u) None (defaultMethod ib) "" ""
  else base "" "" "" None "" "" (ib_Network ib).

Definition clash_set_security (ib : Inbound) (p : clashProxy) : clashProxy :=
  let set tls servername sni fp reality :=
    mkClashProxy (cp_Name p) (cp_Type p) (cp_Server p) (cp_Port p) (cp_UUID p) (cp_Password p)
      (cp_AlterID p) (cp_Cipher p) (cp_Flow p) (cp_UDP p) tls servername sni (cp_Network p) fp reality
      (cp_WSOpts p) (cp_GRPCOpts p) (cp_XHTTPOpts p) in
  if String.eqb (ib_Security ib) SecurityTLS then
    set true (ib_SNI ib) (ib_SNI ib) (ib_Fingerprint ib) (cp_RealityOpts p)
  else if String.eqb (ib_Security ib) SecurityReality then
    set true (ib_SNI ib) (cp_SNI p) (ib_Fingerprint ib)
      (set_if "short-id" (ib_RealityShortID ib) (set_if "public-key" (ib_RealityPublicKey ib) ∅))
  else p.

Definition set_any (key : string) (v : string) (x : any) (m : gmap string any) : gmap string any :=
  if String.eqb v "" then m else <[key := x]> m.

(** A nil map and an empty one are omitted alike, so both are [∅]. *)
Definition clash_set_network (ib : Inbound) (p : clashProxy) : clashProxy :=
  let set ws grpc xhttp :=
    mkClashProxy (cp_Name p) (cp_Type p) (cp_Server p) (cp_Port p) (cp_UUID p) (cp_Password p)
      (cp_AlterID p) (cp_Cipher p) (cp_Flow p) (cp_UDP p) (cp_TLS p) (cp_Servername p) (cp_SNI p)
      (cp_Network p) (cp_ClientFP p) (cp_RealityOpts p) ws grpc xhttp in
  let n := ib_Network ib in
  if String.eqb n NetworkWS || String.eqb n NetworkHTTPUpgrade then
    set (set_any "headers" (ib_HostHeader ib) (AnyMap {["Host" := ib_HostHeader ib]})
           (set_any "path" (ib_WSPath ib) (AnyString (ib_WSPath ib)) ∅))
        (cp_GRPCOpts p) (cp_XHTTPOpts p)
  else if String.eqb n NetworkGRPC then
    set (cp_WSOpts p) (set_if "grpc-service-name" (ib_GRPCServiceName ib) ∅) (cp_XHTTPOpts p)
  else if String.eqb n NetworkXHTTP then
    set (cp_WSOpts p) (cp_GRPCOpts p)
      (set_any "mode" (ib_XHTTPMode ib) (AnyString (ib_XHTTPMode ib))
        (set_any "host" (ib_HostHeader ib) (AnyString (ib_HostHeader ib))
          (set_any "path" (ib_WSPath ib) (AnyString (ib_WSPath ib)) ∅)))
  else p.

Definition clashProxyFor (u : User) (ib : Inbound) : clashProxy :=
  let p := clash_base u ib in
  if String.eqb (ib_Protocol ib) ProtocolShadowsocks then p
  else clash_set_network ib (clash_set_security ib p).

(** The configuration Clash marshals. *)
Definition clash_config (u : User) (inbounds : list Inbound) : clashConfig :=
  let proxies := clashProxyFor u <$> inbounds in
  let names := cp_Name <$> proxies in
  mkClashConfig proxies
    [ list_to_map [("name", AnyString "PROXY"); ("type", AnyString "select");
        ("proxies", AnyStrings (match names with [] => ["DIRECT"] | _ => names end))] ]
    ["MATCH,PROXY"].

Section Clash.
Context (yaml_Marshal : clashConfig → res error string).

Definition Clash (u : User) (inbounds : list Inbound) : res error string :=
  yaml_Marshal (clash_config u inbounds).
End Clash.

(** ** Usage header *)

Definition total_bytes (u : User) : Z := default 0 (u_DataLimitBytes u).
Definition expire_unix (u : User) : Z := from_option Unix 0 (u_ExpiresAt u).

Definition UserInfoHeader (u : User) : string :=
  "upload=" +:+ Itoa (u_UsedUploadBytes u) +:+ "; download=" +:+ Itoa (u_UsedDownloadBytes u) +:+
  "; total=" +:+ Itoa (total_bytes u) +:+ "; expire=" +:+ Itoa (expire_unix u).

(** ** Rendering a subscription (service/users.go) *)

Import UserService.

Definition RenderV2Ray (sub : Subscription) : res error string := V2Ray (sub_User sub) (sub_Inbounds sub).
Definition RenderClash (yaml_Marshal : clashConfig → res error string) (sub : Subscription)
    : res error string := Clash yaml_Marshal (sub_User sub) (sub_Inbounds sub).
Definition Subscription_UserInfoHeader (sub : Subscription) : string := UserInfoHeader (sub_User sub).
