(* ===== verification/Httpapi.v ===== *)
(** * The HTTP surface (src/internal/httpapi)

    One definition per handler; routes and middleware are in Router.  A
    request is what the handlers look at: chi's URL parameter, the query, the
    headers and the body; a response is its status, its headers and the value
    handed to the JSON encoder (or the text written).  Decoders of
    [encoding/json], [time.Parse] and YAML are parameters ([Codecs]). *)

From stdpp Require Import base gmap strings list fin_maps vector.
From Stdlib Require Import ZArith Lia.
From S2P Require Import Prelude Domain Database Metrics World StoreBase StoreUsers StoreTraffic StoreAdmin.
From S2P Require Import GoStd Encoding Config RateLimit Xray Worker ServiceUsers ServiceAdmin.
From S2P Require Import ServiceBilling Sublink.
Local Open Scope Z_scope.

Module Httpapi.

(** ** Requests and responses *)

(** [rq_Body] is the whole body, or the error of reading it; [rq_Path] is
    [r.URL.Path]. *)
Record Request : Type := mkRequest {
  rq_URLParam : string → string;
  rq_Query : string → string;
  rq_Header : string → string;
  rq_Path : string;
  rq_RemoteAddr : string;
  rq_Body : res string string
}.

Definition UserAgent (r : Request) : string := rq_Header r "User-Agent".

Record userResponse : Type := mkUserResponse { ur_User : User; ur_SubURL : string }.

(** The values handlers write. *)
Inductive payload : Type :=
| NoBody
| Text (s : string)
| ErrorBody (code message : string)
| Status (s : string)
| JUser (u : userResponse)
| JUsers (users : list userResponse) (total page per_page : Z)
| JUsage (from to : Time) (group_by : string) (buckets : list UsageBucket)
| JNode (n : Node)
| JNodes (l : list Node)
| JInbound (ib : Inbound)
| JInbounds (l : list Inbound)
| JPlan (p : Plan)
| JPlans (l : list Plan)
| JAPIKeys (l : list APIKey)
| JCreatedKey (id name key : string)
| JStats (version commit : string) (total online offline unknown disabled : Z)
| JSubInfo (email : string) (status : UserStatus) (upload download total expire : Z)
| JBilling (action : string) (duplicate : bool) (user : option userResponse).

Record Response : Type := mkResponse {
  rs_Status : Z;
  rs_Header : gmap string string;
  rs_Body : payload
}.

(** ** respond.go *)

Definition writeJSON (status : Z) (v : payload) : Response :=
  mkResponse status {["Content-Type" := "application/json"]} v.

Definition error_status (err : error) : Z * string :=
  if errors_Is err ErrNotFound then (404, "not_found")
  else if errors_Is err ErrConflict then (409, "conflict")
  else if errors_Is err ErrValidation then (400, "validation_error")
  else (500, "internal_error").

Definition writeError (err : error) : Response :=
  let '(status, code) := error_status err in writeJSON status (ErrorBody code (Error err)).

Definition badRequest (msg : string) : Response := writeJSON 400 (ErrorBody "validation_error" msg).

Definition noContent : Response := mkResponse 204 ∅ NoBody.

(** ** Request payloads *)

Record createUserRequest : Type := mkCreateUserRequest {
  cu_Email : string;
  cu_PlanID : option string;
  cu_InboundIDs : list string;
  cu_DataLimitBytes : option Z;
  cu_ExpiresAt : option Time;
  cu_Note : string
}.

Record updateUserRequest : Type := mkUpdateUserRequest {
  uu_PlanID : option string;
  uu_DataLimitBytes : option Z;
  uu_ExpiresAt : option Time;
  uu_ClearExpiry : bool;
  uu_Note : option string;
  uu_Status : option string
}.

(** The slice is [None] when it is nil. *)
Record setInboundsRequest : Type := mkSetInboundsRequest { si_InboundIDs : option (list string) }.

Record renewUserRequest : Type := mkRenewUserRequest {
  ru_Days : Z;
  ru_ResetTraffic : bool;
  ru_PlanID : option string
}.

Record planRequest : Type := mkPlanRequest {
  pq_Name : string;
  pq_DataLimitBytes : option Z;
  pq_DurationDays : option Z
}.

Record nodeRequest : Type := mkNodeRequest {
  nq_Name : string;
  nq_APIAddress : string;
  nq_APIPort : Z;
  nq_APITLS : bool;
  nq_APITLSServerName : string;
  nq_APITLSInsecure : bool;
  nq_APICACert : option string;
  nq_APIClientCert : option string;
  nq_APIClientKey : option string
}.

Record inboundRequest : Type := mkInboundRequest {
  iq_Tag : string;
  iq_Protocol : Protocol;
  iq_ListenPort : Z;
  iq_PublicHost : string;
  iq_PublicPort : Z;
  iq_Network : Network;
  iq_Security : Security;
  iq_WSPath : string;
  iq_HostHeader : string;
  iq_GRPCServiceName : string;
  iq_SNI : string;
  iq_Fingerprint : string;
  iq_RealityPublicKey : string;
  iq_RealityShortID : string;
  iq_Flow : string;
  iq_Method : string;
  iq_XHTTPMode : string;
  iq_Remark : string
}.

Record createAPIKeyRequest : Type := mkCreateAPIKeyRequest { ck_Name : string }.

Definition planRequest_toInput (q : planRequest) : PlanService.PlanInput :=
  PlanService.mkPlanInput (pq_Name q) (pq_DataLimitBytes q) (pq_DurationDays q).

Definition nodeRequest_toInput (q : nodeRequest) : NodeService.NodeInput :=
  NodeService.mkNodeInput (nq_Name q) (nq_APIAddress q) (nq_APIPort q) (nq_APITLS q)
    (nq_APITLSServerName q) (nq_APITLSInsecure q) (nq_APICACert q) (nq_APIClientCert q)
    (nq_APIClientKey q).

Definition inboundRequest_toInput (q : inboundRequest) : NodeService.InboundInput := {|
  NodeService.ii_Tag := iq_Tag q;
  NodeService.ii_Protocol := iq_Protocol q;
  NodeService.ii_ListenPort := iq_ListenPort q;
  NodeService.ii_PublicHost := iq_PublicHost q;
  NodeService.ii_PublicPort := iq_PublicPort q;
  NodeService.ii_Network := iq_Network q;
  NodeService.ii_Security := iq_Security q;
  NodeService.ii_WSPath := iq_WSPath q;
  NodeService.ii_HostHeader := iq_HostHeader q;
  NodeService.ii_GRPCServiceName := iq_GRPCServiceName q;
  NodeService.ii_SNI := iq_SNI q;
  NodeService.ii_Fingerprint := iq_Fingerprint q;
  NodeService.ii_RealityPublicKey := iq_RealityPublicKey q;
  NodeService.ii_RealityShortID := iq_RealityShortID q;
  NodeService.ii_Flow := iq_Flow q;
  NodeService.ii_Method := iq_Method q;
  NodeService.ii_XHTTPMode := iq_XHTTPMode q;
  NodeService.ii_Remark := iq_Remark q
|}.

(** The decoders, each giving an error message or the value. *)
Record Codecs : Type := mkCodecs {
  dec_createUser : string → res string createUserRequest;
  dec_updateUser : string → res string updateUserRequest;
  dec_setInbounds : string → res string setInboundsRequest;
  dec_renewUser : string → res string renewUserRequest;
  dec_plan : string → res string planRequest;
  dec_node : string → res string nodeRequest;
  dec_inbound : string → res string inboundRequest;
  dec_apiKey : string → res string createAPIKeyRequest;
  dec_event : string → string + BillingService.BillingEvent;
  parse_RFC3339 : string → option Time;
  yaml_Marshal : clashConfig → res error string
}.

(** The server: what NewServer takes from the configuration, and what is built
    into the binary (the specification and the variables of package version).
    The limiter is state, and passed separately. *)
Record Server : Type := mkServer {
  sv_bootstrapKey : string;
  sv_billingSecret : string;
  sv_metricsEnabled : bool;
  sv_publicBaseURL : string;
  sv_updateIntervalHours : Z;
  sv_profileTitle : string;
  sv_openAPISpec : string;
  sv_version : string;
  sv_commit : string
}.

Definition NewServer (openAPISpec version commit : string) (c : Config.Config) : Server :=
  mkServer (Config.Auth_BootstrapAPIKey c) (Config.Webhooks_BillingSecret c)
    (Config.Metrics_Enabled c) (Config.PublicBaseURL c)
    (Config.Subscription_ProfileUpdateIntervalHours c) (Config.Subscription_ProfileTitle c)
    openAPISpec version commit.

(** ** middleware.go: the presented key *)

Definition extractKey (r : Request) : string :=
  let h := rq_Header r "Authorization" in
  match (if String.eqb h "" then None else CutPrefix h "Bearer ") with
  | Some after => TrimSpace after
  | None => TrimSpace (rq_Header r "X-API-Key")
  end.

(** ** subscription.go: pure parts *)

Definition sniffFormat (ua : string) : string :=
  let ua := ToLower ua in
  if Contains ua "clash" || Contains ua "mihomo" || Contains ua "meta" then "clash" else "v2ray".

Definition setSubHeaders (sv : Server) (userinfo : string) (u : User) : gmap string string :=
  let title := if String.eqb (sv_profileTitle sv) "" then u_Email u else sv_profileTitle sv in
  let h : gmap string string := {["Subscription-Userinfo" := userinfo]} in
  let h := if bool_decide (0 < sv_updateIntervalHours sv)
           then <["Profile-Update-Interval" := Itoa (sv_updateIntervalHours sv)]> h else h in
  <["Content-Disposition" := "inline; filename=" +:+ of_bytes dquote +:+ u_Email u +:+ of_bytes dquote]>
    (<["Profile-Title" := "base64:" +:+ b64_Std title]> h).

(** A header is set over those already there. *)
Definition with_headers (h : gmap string string) (rs : Response) : Response :=
  mkResponse (rs_Status rs) (rs_Header rs ∪ h) (rs_Body rs).

(** ** users.go: paging *)

(** [page] and [per_page], defaulted; the offset is computed in 64 bits. *)
Definition paging (r : Request) : Z * Z * Z :=
  let page := (Atoi (rq_Query r "page")).1 in
  let page := if bool_decide (page < 1) then 1 else page in
  let perPage := (Atoi (rq_Query r "per_page")).1 in
  let perPage := if bool_decide (perPage < 1) || bool_decide (200 < perPage) then 50 else perPage in
  (page, perPage, int64 ((page - 1) * perPage)).

Section Handlers.
Context {P : Platform} (J : Codecs) (sv : Server).

(** Run a service call; render its value, or its error through writeError. *)
Definition respond {A} (m : IO A) (ok : A → Response) : IO Response :=
  r <- attempt m ;;
  match r with Ok a => ret (ok a) | Err e => ret (writeError e) end.

(** decodeJSON, and badRequest on failure. *)
Definition with_body {A} (dec : string → res string A) (r : Request) (k : A → IO Response)
    : IO Response :=
  match rq_Body r with
  | Err msg => ret (badRequest msg)
  | Ok raw => match dec raw with Err msg => ret (badRequest msg) | Ok a => k a end
  end.

Definition id (r : Request) : string := rq_URLParam r "id".

(** *** users.go *)

Definition render_user (u : User) : userResponse :=
  mkUserResponse u (UserService.SubURL (sv_publicBaseURL sv) u).

Definition handleCreateUser (r : Request) : IO Response :=
  with_body (dec_createUser J) r (λ q,
    respond (UserService.Create (UserService.mkCreateInput (cu_Email q) (cu_PlanID q)
               (cu_InboundIDs q) (cu_DataLimitBytes q) (cu_ExpiresAt q) (cu_Note q) None))
      (λ u, writeJSON 201 (JUser (render_user u)))).

Definition handleListUsers (r : Request) : IO Response :=
  let '(page, perPage, offset) := paging r in
  respond (UserService.List (mkUserFilter (rq_Query r "status") (rq_Query r "plan_id")
             (rq_Query r "q") perPage offset))
    (λ '(users, total), writeJSON 200 (JUsers (render_user <$> users) total page perPage)).

Definition handleGetUser (r : Request) : IO Response :=
  respond (UserService.Get (id r)) (λ u, writeJSON 200 (JUser (render_user u))).

Definition handleUpdateUser (r : Request) : IO Response :=
  with_body (dec_updateUser J) r (λ q,
    respond (UserService.Update (id r) (UserService.mkUpdateInput (uu_PlanID q)
               (uu_DataLimitBytes q) (uu_ExpiresAt q) (uu_ClearExpiry q) (uu_Note q) (uu_Status q)))
      (λ u, writeJSON 200 (JUser (render_user u)))).

Definition handleDeleteUser (r : Request) : IO Response :=
  respond (UserService.Delete (id r)) (λ _, noContent).

Definition handleSetUserInbounds (r : Request) : IO Response :=
  with_body (dec_setInbounds J) r (λ q,
    respond (UserService.SetInbounds (id r) (si_InboundIDs q))
      (λ u, writeJSON 200 (JUser (render_user u)))).

Definition userAction (fn : string → IO User) (r : Request) : IO Response :=
  respond (fn (id r)) (λ u, writeJSON 200 (JUser (render_user u))).

Definition handleSuspendUser : Request → IO Response := userAction UserService.Suspend.
Definition handleResumeUser : Request → IO Response := userAction UserService.Resume.
Definition handleResetTraffic : Request → IO Response := userAction UserService.ResetTraffic.
Definition handleRotateSubToken : Request → IO Response := userAction UserService.RotateSubToken.

Definition handleRenewUser (r : Request) : IO Response :=
  with_body (dec_renewUser J) r (λ q,
    respond (UserService.Renew (id r)
               (UserService.mkRenewInput (ru_Days q) (ru_ResetTraffic q) (ru_PlanID q)))
      (λ u, writeJSON 200 (JUser (render_user u)))).

(** A bound of the usage window: absent, or RFC 3339. *)
Definition usage_bound (v : string) (dflt : Time) : option Time :=
  if String.eqb v "" then Some dflt else parse_RFC3339 J v.

Definition handleUserUsage (r : Request) : IO Response :=
  now <- time_Now ;;
  match usage_bound (rq_Query r "from") (AddDate now (-30)) with
  | None => ret (badRequest "invalid from (want RFC3339)")
  | Some from =>
      match usage_bound (rq_Query r "to") now with
      | None => ret (badRequest "invalid to (want RFC3339)")
      | Some to =>
          let groupBy := if String.eqb (rq_Query r "group_by") "node" then "node" else "day" in
          respond (UserService.Usage (id r) from to groupBy)
            (λ b, writeJSON 200 (JUsage from to groupBy b))
      end
  end.

(** *** plans.go *)

Definition handleListPlans (r : Request) : IO Response :=
  respond PlanService.List (λ l, writeJSON 200 (JPlans l)).
Definition handleCreatePlan (r : Request) : IO Response :=
  with_body (dec_plan J) r (λ q,
    respond (PlanService.Create (planRequest_toInput q)) (λ p, writeJSON 201 (JPlan p))).
Definition handleGetPlan (r : Request) : IO Response :=
  respond (PlanService.Get (id r)) (λ p, writeJSON 200 (JPlan p)).
Definition handleUpdatePlan (r : Request) : IO Response :=
  with_body (dec_plan J) r (λ q,
    respond (PlanService.Update (id r) (planRequest_toInput q)) (λ p, writeJSON 200 (JPlan p))).
Definition handleDeletePlan (r : Request) : IO Response :=
  respond (PlanService.Delete (id r)) (λ _, noContent).

(** *** nodes.go *)

Definition handleListNodes (r : Request) : IO Response :=
  respond NodeService.List (λ l, writeJSON 200 (JNodes l)).
Definition handleCreateNode (r : Request) : IO Response :=
  with_body (dec_node J) r (λ q,
    respond (NodeService.Create (nodeRequest_toInput q)) (λ n, writeJSON 201 (JNode n))).
Definition handleGetNode (r : Request) : IO Response :=
  respond (NodeService.Get (id r)) (λ n, writeJSON 200 (JNode n)).
Definition handleUpdateNode (r : Request) : IO Response :=
  with_body (dec_node J) r (λ q,
    respond (NodeService.Update (id r) (nodeRequest_toInput q)) (λ n, writeJSON 200 (JNode n))).
Definition handleDeleteNode (r : Request) : IO Response :=
  respond (NodeService.Delete (id r)) (λ _, noContent).
Definition handleReconcileNode (r : Request) : IO Response :=
  respond (NodeService.Reconcile (id r)) (λ _, writeJSON 202 (Status "reconcile_triggered")).

Definition handleListInbounds (r : Request) : IO Response :=
  respond (NodeService.ListInbounds (id r)) (λ l, writeJSON 200 (JInbounds l)).
Definition handleCreateInbound (r : Request) : IO Response :=
  with_body (dec_inbound J) r (λ q,
    respond (NodeService.CreateInbound (id r) (inboundRequest_toInput q))
      (λ ib, writeJSON 201 (JInbound ib))).
Definition handleGetInbound (r : Request) : IO Response :=
  respond (NodeService.GetInbound (id r)) (λ ib, writeJSON 200 (JInbound ib)).
Definition handleUpdateInbound (r : Request) : IO Response :=
  with_body (dec_inbound J) r (λ q,
    respond (NodeService.UpdateInbound (id r) (inboundRequest_toInput q))
      (λ ib, writeJSON 200 (JInbound ib))).
Definition handleDeleteInbound (r : Request) : IO Response :=
  respond (NodeService.DeleteInbound (id r)) (λ _, noContent).

(** *** apikeys.go *)

Definition handleListAPIKeys (r : Request) : IO Response :=
  respond APIKeyService.List (λ l, writeJSON 200 (JAPIKeys l)).
Definition handleCreateAPIKey (r : Request) : IO Response :=
  with_body (dec_apiKey J) r (λ q,
    respond (APIKeyService.Create (ck_Name q)) (λ c,
      writeJSON 201 (JCreatedKey (k_ID (APIKeyService.ck_Key c)) (k_Name (APIKeyService.ck_Key c))
                       (APIKeyService.ck_Plaintext c)))).
Definition handleRevokeAPIKey (r : Request) : IO Response :=
  respond (APIKeyService.Revoke (id r)) (λ _, noContent).

(** *** system.go, and handleHealthz of router.go *)

Definition handleHealthz (r : Request) : IO Response := ret (writeJSON 200 (Status "ok")).

Definition handleOpenAPI (r : Request) : IO Response :=
  ret (mkResponse 200 {["Content-Type" := "application/yaml"]} (Text (sv_openAPISpec sv))).

Definition count_status (s : NodeStatus) (l : list Node) : Z :=
  Z.of_nat (length (filter (λ n, n_Status n = s) l)).

Definition handleSystemStats (r : Request) : IO Response :=
  respond NodeService.List (λ l,
    writeJSON 200 (JStats (sv_version sv) (sv_commit sv) (Z.of_nat (length l)) (count_status NodeStatusOnline l)
      (count_status NodeStatusOffline l) (count_status NodeStatusUnknown l)
      (count_status NodeStatusDisabled l))).

(** *** subscription.go *)

Definition handleSubscription (r : Request) : IO Response :=
  respond (UserService.SubscriptionByToken (rq_URLParam r "token")) (λ sub,
    let h := setSubHeaders sv (Subscription_UserInfoHeader sub) (UserService.sub_User sub) in
    let f := rq_Query r "format" in
    let format := if String.eqb f "" then sniffFormat (UserAgent r) else f in
    if String.eqb format "clash" then
      match RenderClash (yaml_Marshal J) sub with
      | Err e => with_headers h (writeError e)
      | Ok body => mkResponse 200 (<["Content-Type" := "text/yaml; charset=utf-8"]> h) (Text body)
      end
    else
      match RenderV2Ray sub with
      | Err e => with_headers h (writeError e)
      | Ok body => mkResponse 200 (<["Content-Type" := "text/plain; charset=utf-8"]> h) (Text body)
      end).

Definition handleSubscriptionInfo (r : Request) : IO Response :=
  respond (UserService.SubscriptionByToken (rq_URLParam r "token")) (λ sub,
    let u := UserService.sub_User sub in
    writeJSON 200 (JSubInfo (u_Email u) (u_Status u) (u_UsedUploadBytes u) (u_UsedDownloadBytes u)
                     (total_bytes u) (expire_unix u))).

(** *** webhooks.go *)

Definition maxWebhookBody : Z := 2 ^ 20.

(** http.NotFound. *)
Definition NotFound : Response :=
  mkResponse 404 (<["X-Content-Type-Options" := "nosniff"]>
    {["Content-Type" := "text/plain; charset=utf-8"]}) (Text ("404 page not found" +:+ newline)).

Definition webhook_metric (action outcome : string) : IO unit :=
  metric_add WebhookEvents [#action; outcome] 1.

Definition handleBillingWebhook (r : Request) : IO Response :=
  if String.eqb (sv_billingSecret sv) "" then ret NotFound
  else match rq_Body r with
  | Err _ => ret (badRequest "unreadable or oversized body")
  | Ok body =>
      if bool_decide (maxWebhookBody < Z.of_nat (String.length body))
      then ret (badRequest "unreadable or oversized body")
      else if negb (BillingService.VerifySignature (sv_billingSecret sv) body
                      (rq_Header r "X-Webhook-Signature"))
      then webhook_metric "unknown" "bad_signature" ;;;
           ret (writeJSON 401 (ErrorBody "invalid_signature" "signature verification failed"))
      else
        res <- attempt (BillingService.Process (dec_event J) body) ;;
        match res with
        | Err e => webhook_metric "unknown" "error" ;;; ret (writeError e)
        | Ok b =>
            let outcome := if BillingService.br_Duplicate b then "duplicate" else "processed" in
            webhook_metric (BillingService.br_Action b) outcome ;;;
            ret (writeJSON 200 (JBilling (BillingService.br_Action b) (BillingService.br_Duplicate b)
                                  (render_user <$> BillingService.br_User b)))
        end
  end.
End Handlers.
End Httpapi.
