(* ===== verification/Router.v ===== *)
(** * Routing and middleware
    (src/internal/httpapi/router.go, middleware.go, ratelimit.go)

    chi, a third-party router, selects the route; each route is a constructor,
    with the middleware of its group around its handler. *)

From stdpp Require Import base gmap strings list fin_maps vector.
From Stdlib Require Import Ascii ZArith Lia.
From S2P Require Import Prelude Domain Database Metrics World GoStd Encoding Config RateLimit.
From S2P Require Import ServiceAdmin Httpapi.
Import Httpapi.
Local Open Scope Z_scope.

(** The routes, in the order Router declares them. *)
Inductive route : Type :=
| RGetHealthz | RGetMetrics
| RGetSub | RGetSubInfo | RPostBillingWebhook
| RGetOpenAPI | RGetSystemStats
| RGetNodes | RPostNodes | RGetNode | RPatchNode | RDeleteNode | RPostNodeReconcile
| RGetNodeInbounds | RPostNodeInbounds
| RGetInbound | RPatchInbound | RDeleteInbound
| RGetPlans | RPostPlans | RGetPlan | RPatchPlan | RDeletePlan
| RGetUsers | RPostUsers | RGetUser | RPatchUser | RDeleteUser | RPutUserInbounds
| RPostSuspend | RPostResume | RPostRenew | RPostResetTraffic | RPostRotateSubToken | RGetUsage
| RGetAPIKeys | RPostAPIKeys | RDeleteAPIKey.

#[export] Instance route_eq_dec : EqDecision route.
Proof. solve_decision. Defined.

(** The group a route is registered in. *)
Inductive group : Type := Public | Limited | Admin.

Definition group_of (rt : route) : group :=
  match rt with
  | RGetHealthz | RGetMetrics => Public
  | RGetSub | RGetSubInfo | RPostBillingWebhook => Limited
  | _ => Admin
  end.

(** The host part of net.SplitHostPort, when it succeeds. *)
Definition SplitHost (hostport : string) : option string :=
  let l := bytes hostport in
  let has c l := existsb (Ascii.eqb c) l in
  match cut_last [":"%char] l with
  | None => None
  | Some (before, port) =>
      match l with
      | "["%char :: l' =>
          match cut_last ["]"%char] before with
          | Some ("["%char :: host, []) =>
              if has "]"%char host || has "["%char host || has "["%char port || has "]"%char port
              then None else Some (of_bytes host)
          | _ => None
          end
      | _ => if has ":"%char before || has "["%char l || has "]"%char l then None
             else Some (of_bytes before)
      end
  end.

Section Router.
Context {P : Platform} (J : Codecs) (sv : Server).
Context (prometheus_text : gmap (string * list string) Z → string).
Context {Limiter : Type} (NewLimiter : Z → Limiter) (Allow : Limiter → Time → Limiter * bool).

(** metrics.Handler, or no route. *)
Definition handleMetrics (r : Request) : IO Response :=
  if sv_metricsEnabled sv then
    text <- gets (λ w, prometheus_text (w_metrics w)) ;; ret (mkResponse 200 ∅ (Text text))
  else ret NotFound.

Definition handler (rt : route) : Request → IO Response :=
  match rt with
  | RGetHealthz => handleHealthz
  | RGetMetrics => handleMetrics
  | RGetSub => handleSubscription J sv
  | RGetSubInfo => handleSubscriptionInfo
  | RPostBillingWebhook => handleBillingWebhook J sv
  | RGetOpenAPI => handleOpenAPI sv
  | RGetSystemStats => handleSystemStats sv
  | RGetNodes => handleListNodes
  | RPostNodes => handleCreateNode J
  | RGetNode => handleGetNode
  | RPatchNode => handleUpdateNode J
  | RDeleteNode => handleDeleteNode
  | RPostNodeReconcile => handleReconcileNode
  | RGetNodeInbounds => handleListInbounds
  | RPostNodeInbounds => handleCreateInbound J
  | RGetInbound => handleGetInbound
  | RPatchInbound => handleUpdateInbound J
  | RDeleteInbound => handleDeleteInbound
  | RGetPlans => handleListPlans
  | RPostPlans => handleCreatePlan J
  | RGetPlan => handleGetPlan
  | RPatchPlan => handleUpdatePlan J
  | RDeletePlan => handleDeletePlan
  | RGetUsers => handleListUsers sv
  | RPostUsers => handleCreateUser J sv
  | RGetUser => handleGetUser sv
  | RPatchUser => handleUpdateUser J sv
  | RDeleteUser => handleDeleteUser
  | RPutUserInbounds => handleSetUserInbounds J sv
  | RPostSuspend => handleSuspendUser sv
  | RPostResume => handleResumeUser sv
  | RPostRenew => handleRenewUser J sv
  | RPostResetTraffic => handleResetTraffic sv
  | RPostRotateSubToken => handleRotateSubToken sv
  | RGetUsage => handleUserUsage J
  | RGetAPIKeys => handleListAPIKeys
  | RPostAPIKeys => handleCreateAPIKey J
  | RDeleteAPIKey => handleRevokeAPIKey
  end.

Definition unauthorized : Response :=
  writeJSON 401 (ErrorBody "unauthorized" "missing or invalid API key").

Definition authMiddleware (next : Request → IO Response) (r : Request) : IO Response :=
  ok <- APIKeyService.Verify (extractKey r) (sv_bootstrapKey sv) ;;
  if ok : bool then next r else ret unauthorized.

Definition too_many_requests : Response :=
  with_headers {["Retry-After" := "60"]}
    (writeJSON 429 (ErrorBody "rate_limited" "too many requests")).

(** The limiter is the server's; it is [None] when disabled. *)
Definition rateLimitMiddleware (l : option (@ipLimiter Limiter)) (next : Request → IO Response)
    (r : Request) : IO (option (@ipLimiter Limiter) * Response) :=
  match l with
  | None => rs <- next r ;; ret (None, rs)
  | Some l =>
      let ip := default (rq_RemoteAddr r) (SplitHost (rq_RemoteAddr r)) in
      seen <- time_Now ;; cut <- time_Now ;; now <- time_Now ;;
      let '(l', ok) := allow NewLimiter Allow l ip seen cut now in
      if ok : bool then rs <- next r ;; ret (Some l', rs) else ret (Some l', too_many_requests)
  end.

(** requestLogger, after the handler: the request counter. *)
Definition requestLogger (r : Request) (rs : Response) : IO unit :=
  let path := rq_Path r in
  let grp := if HasPrefix path "/api/" then "api"
             else if HasPrefix path "/sub/" then "sub"
             else if HasPrefix path "/webhooks/" then "webhook" else "other" in
  metric_add HTTPRequests [#grp; Itoa (rs_Status rs / 100) +:+ "xx"] 1.

(** A request to a route, through the middleware chain. *)
Definition Router (l : option (@ipLimiter Limiter)) (rt : route) (r : Request)
    : IO (option (@ipLimiter Limiter) * Response) :=
  out <- match group_of rt with
         | Public => rs <- handler rt r ;; ret (l, rs)
         | Limited => rateLimitMiddleware l (handler rt) r
         | Admin => rs <- authMiddleware (handler rt) r ;; ret (l, rs)
         end ;;
  requestLogger r out.2 ;;; ret out.
End Router.
