(* ===== verification/System.v ===== *)
(** * The running system

    Requests, node actors and sweepers as a step relation.  A step is one
    HTTP request, one turn of an actor's loop, or one tick of a sweeper; what
    the others do to the database between the statements of a step is the
    platform's [interfere].  The invariant: the schema's constraints hold, and
    each node has at most one actor that has not been told to stop, which is
    the one the manager's map holds. *)

From stdpp Require Import base gmap strings list fin_maps sets relations.
From Stdlib Require Import ZArith Lia.
From S2P Require Import Prelude Domain Database World StoreBase StoreUsers StoreAssignments StoreTraffic StoreAdmin.
From S2P Require Import GoStd RateLimit Xray Worker ServiceUsers ServiceAdmin ServiceBilling Httpapi Router.
Import Httpapi.
Local Open Scope Z_scope.

(** Unfolding every operation down to its statements. *)
Create HintDb ops.
Create HintDb handlers.
#[export] Hint Unfold query_row requireRow CreateUserTx GetUser GetUserBySubToken GetUserByExternalID
  GetUserByEmail ListUsers UpdateUser SetUserStatus StoreUsers.ResetTraffic DeleteUser
  UserIDsByEmail ExpireDueUsers AddAssignmentTx MarkAssignmentSynced
  MarkAssignmentsRemovingForUser DeleteAssignment SetAssignmentsForUserTx queryDesired
  DesiredForNode RemovalsForNode AssignmentTargetsForUser apply_delta ApplyTrafficDeltas
  UserUsage PruneSnapshots CreateNode GetNode ListNodes UpdateNode SetNodeHealth DeleteNode
  StoreAdmin.CreateInbound StoreAdmin.GetInbound queryInbounds ListInboundsByNode ListInboundsByIDs
  ListInboundsForUser StoreAdmin.UpdateInbound StoreAdmin.DeleteInbound CreatePlan GetPlan
  ListPlans UpdatePlan DeletePlan CreateAPIKey FindAPIKeyByHash ListAPIKeys RevokeAPIKey
  RecordWebhookEvent triggerReconcile close dropClient ensureClient setHealth
  Worker.Reconcile mapped AddUser RemoveUser randToken : ops.
#[export] Hint Unfold UserService.Create UserService.plan_defaults UserService.Get UserService.List
  UserService.Update UserService.SetInbounds UserService.reconcileNodes UserService.Suspend
  UserService.Resume UserService.setStatusAndReconcile UserService.unexpired
  UserService.ResetTraffic UserService.Renew UserService.renew_plan UserService.renew_expiry
  UserService.renew_status UserService.RotateSubToken UserService.Delete UserService.Usage
  UserService.SubscriptionByToken : ops.
#[export] Hint Unfold NodeService.Create NodeService.probe NodeService.Get NodeService.List
  NodeService.Update NodeService.Delete NodeService.Reconcile NodeService.check_inbound
  NodeService.CreateInbound NodeService.GetInbound NodeService.ListInbounds
  NodeService.UpdateInbound NodeService.DeleteInbound PlanService.Create PlanService.Get
  PlanService.List PlanService.Update PlanService.Delete APIKeyService.Create
  APIKeyService.List APIKeyService.Revoke APIKeyService.Verify : ops.
#[export] Hint Unfold BillingService.process_event BillingService.execute BillingService.provision
  BillingService.renew BillingService.cancel BillingService.withUser
  BillingService.resolveUser BillingService.Process : ops.
#[export] Hint Unfold respond with_body webhook_metric handleHealthz handleMetrics handleSubscription
  handleSubscriptionInfo handleBillingWebhook handleOpenAPI handleSystemStats handleListNodes
  handleCreateNode handleGetNode handleUpdateNode handleDeleteNode handleReconcileNode
  handleListInbounds handleCreateInbound handleGetInbound handleUpdateInbound
  handleDeleteInbound handleListPlans handleCreatePlan handleGetPlan handleUpdatePlan
  handleDeletePlan handleListUsers handleCreateUser handleGetUser handleUpdateUser
  handleDeleteUser handleSetUserInbounds handleSuspendUser handleResumeUser handleRenewUser
  handleResetTraffic handleRotateSubToken userAction handleUserUsage handleListAPIKeys
  handleCreateAPIKey handleRevokeAPIKey : handlers.

Section System.
Context {P : Platform} (J : Codecs) (sv : Server).
Context (prometheus_text : gmap (string * list string) Z → string).
Context {Limiter : Type} (NewLimiter : Z → Limiter) (Allow : Limiter → Time → Limiter * bool).

(** The goroutines: [s_probed] have made their start-up probe, [s_exited] have
    returned from their loop.  [s_limiter] is the server's rate limiter. *)
Record Sys : Type := mkSys {
  s_world : World;
  s_limiter : option (@ipLimiter Limiter);
  s_probed : gset nat;
  s_exited : gset nat
}.

Inductive step (cfg : Config) : Sys → Sys → Prop :=
| step_request rt r w l pr ex :
    let out := Router J sv prometheus_text NewLimiter Allow l rt r w in
    step cfg (mkSys w l pr ex)
      (mkSys out.1 (match out.2 with Ok (l', _) => l' | Err _ => l end) pr ex)
| step_probe a w l pr ex :
    is_Some (w_heap w !! a) → a ∉ pr → a ∉ ex →
    step cfg (mkSys w l pr ex) (mkSys (checkHealth a w).1 l ({[a]} ∪ pr) ex)
| step_turn a x s w w' go l pr ex :
    w_heap w !! a = Some x → a ∈ pr → a ∉ ex → ready x s = true →
    run_turn a s w = (w', Ok go) →
    step cfg (mkSys w l pr ex)
      (mkSys w' l pr (if go then ex else {[a]} ∪ ex))
| step_expiry w l pr ex :
    step cfg (mkSys w l pr ex) (mkSys (expiry_sweep w).1 l pr ex)
| step_prune w l pr ex :
    step cfg (mkSys w l pr ex) (mkSys (prune cfg w).1 l pr ex)
| step_start w l pr ex :
    step cfg (mkSys w l pr ex) (mkSys (Start w).1 l pr ex)
| step_stop w l pr ex :
    step cfg (mkSys w l pr ex) (mkSys (Stop w).1 l pr ex).

(** ** The manager's registry *)

Record actors_ok (w : World) : Prop := {
  reg_live : ∀ id a, w_actors w !! id = Some a →
    ∃ x, w_heap w !! a = Some x ∧ n_ID (a_node x) = id ∧ a_stopped x = false;
  live_reg : ∀ a x, w_heap w !! a = Some x → a_stopped x = false →
    w_actors w !! n_ID (a_node x) = Some a
}.

Definition sys_ok (s : Sys) : Prop := w_ok (s_world s) ∧ actors_ok (s_world s).

(** *** What the loops may touch

    A loop of an actor [own] reads and writes the tables, the network, the
    counters and its own fields, and fills the trigger slot of any actor; it
    never changes an actor's node id or its stop flag. *)

(** Everything but [stop] keeps the actor's node id and its stop flag. *)
Definition keeps_identity (f : nodeActor → nodeActor) : Prop :=
  ∀ x, n_ID (a_node (f x)) = n_ID (a_node x) ∧ a_stopped (f x) = a_stopped x.

Class ActorFrame (own : nat → Prop) (I : World → Prop) : Prop := {
  af_rest : ∀ w db k n m, I w → I (mkWorld db k n (w_actors w) (w_heap w) m);
  af_own : ∀ w a f, own a → keeps_identity f → I w → I (w_set_heap (alter f a (w_heap w)) w);
  af_trigger : ∀ w a, I w → I (w_set_heap (alter (a_set_reconcileCh true) a (w_heap w)) w)
}.

Section Frame.
Context (own : nat → Prop) (I : World → Prop) {HI : ActorFrame own I}.

#[local] Instance frame_free : DbFree I.
Proof. intros w db k. apply af_rest. Qed.

Lemma metric_add_frame n l z : preserves I (metric_add n l z).
Proof. intros w. apply af_rest. Qed.
Lemma metric_set_frame n l z : preserves I (metric_set n l z).
Proof. intros w. apply af_rest. Qed.
Lemma AlterInbound_frame c tag op : preserves I (AlterInbound c tag op).
Proof. intros w. unfold AlterInbound. destruct (rpc_AlterInbound _ _ _ _). apply af_rest. Qed.
Lemma Ping_frame c : preserves I (Ping c).
Proof. intros w. unfold Ping. destruct (rpc_GetSysStats _ _). apply af_rest. Qed.
Lemma QueryUserTraffic_frame c b : preserves I (QueryUserTraffic c b).
Proof. intros w. unfold QueryUserTraffic. destruct (rpc_QueryStats _ _ _ _). apply af_rest. Qed.
Lemma actor_frame a : preserves I (actor a).
Proof. intros w Hw. unfold actor. by destruct (w_heap w !! a). Qed.
Lemma set_actor_frame a f : own a → keeps_identity f → preserves I (set_actor a f).
Proof. intros Ha Hf w. by apply af_own. Qed.
Lemma trigger_frame a : preserves I (set_actor a (a_set_reconcileCh true)).
Proof. intros w. apply af_trigger. Qed.
Hint Resolve metric_add_frame metric_set_frame AlterInbound_frame Ping_frame
  QueryUserTraffic_frame actor_frame trigger_frame : go_inv.
Hint Extern 2 (preserves I (set_actor _ _)) =>
  apply set_actor_frame; [assumption|by intros []] : go_inv.

Ltac frame := autounfold with ops; go_inv.

Lemma trigger_targets_frame l : ∀ seen, preserves I (trigger_targets seen l).
Proof. induction l; intros seen; cbn; frame. Qed.
Hint Resolve trigger_targets_frame : go_inv.
Lemma ReconcileForUser_frame u : preserves I (ReconcileForUser u).
Proof. unfold ReconcileForUser. frame. Qed.
Hint Resolve ReconcileForUser_frame : go_inv.
Lemma expiry_sweep_frame : preserves I expiry_sweep.
Proof. unfold expiry_sweep, expired_one. frame. Qed.
Lemma prune_frame cfg : preserves I (prune cfg).
Proof. unfold prune. frame. Qed.

Context (a : nat) (Ha : own a).

Lemma reconcile_frame : preserves I (reconcile a).
Proof. unfold reconcile, reconcile_body, remove_one, add_one, push_failed. frame. Qed.
Hint Resolve reconcile_frame : go_inv.
Lemma checkHealth_frame : preserves I (checkHealth a).
Proof. unfold checkHealth. frame. Qed.
Lemma collect_frame : preserves I (collect a).
Proof. unfold collect, collect_body, flush, record_collected, suspended_one. frame. Qed.
Hint Resolve checkHealth_frame collect_frame : go_inv.
Lemma run_turn_frame s : preserves I (run_turn a s).
Proof. unfold run_turn. frame. Qed.
End Frame.

(** *** What requests may touch

    A request (and Start and Stop) moreover stops and starts actors. *)

Class RegistryFrame (I : World → Prop) : Prop := {
  rf_loops : ActorFrame (λ _, False) I;
  rf_stop : ∀ id, preserves I (StopNode id);
  rf_start : ∀ n, preserves I (StartNode n);
  rf_close : ∀ a, preserves I (close a)
}.

Section RegistryFrame.
Context (I : World → Prop) `{!RegistryFrame I}.

#[local] Instance registry_frame : ActorFrame (λ _, False) I := rf_loops.
#[local] Instance registry_free : DbFree I := frame_free (λ _, False) I.
Hint Resolve rf_stop rf_start : go_inv.
Hint Extern 1 (preserves I (metric_add _ _ _)) => apply (metric_add_frame (λ _, False) I) : go_inv.
Hint Extern 1 (preserves I (Ping _)) => apply (Ping_frame (λ _, False) I) : go_inv.
Hint Extern 1 (preserves I (set_actor _ (a_set_reconcileCh true))) =>
  apply (trigger_frame (λ _, False) I) : go_inv.
Hint Extern 1 (preserves I (ReconcileForUser _)) =>
  apply (ReconcileForUser_frame (λ _, False) I) : go_inv.

Ltac registry := autounfold with ops; go_inv.

Lemma Start_frame : preserves I Start.
Proof. unfold Start. registry. Qed.
Lemma Stop_frame : preserves I Stop.
Proof. unfold Stop. go_inv. apply rf_close. Qed.
Lemma handler_frame rt r : preserves I (handler J sv prometheus_text rt r).
Proof. destruct rt; cbn [handler]; autounfold with handlers; registry. Qed.
Hint Resolve handler_frame : go_inv.
Lemma Router_frame l rt r :
  preserves I (Router J sv prometheus_text NewLimiter Allow l rt r).
Proof. unfold Router, authMiddleware, rateLimitMiddleware, requestLogger. registry. Qed.
End RegistryFrame.

(** *** Their effect on the registry *)

Lemma actors_ok_alter f w a :
  keeps_identity f → actors_ok w → actors_ok (w_set_heap (alter f a (w_heap w)) w).
Proof.
  intros Hf [Hreg Hlive]. constructor; cbn.
  - intros id b Hb. destruct (Hreg id b Hb) as (x & Hx & Hid & Hs).
    rewrite lookup_alter. case_decide; subst; [|by eauto].
    rewrite Hx. exists (f x). destruct (Hf x) as [-> ->]. auto.
  - intros b y. rewrite lookup_alter. case_decide; subst; [|by apply Hlive].
    intros (x & Hx & Hy)%fmap_Some. subst y. destruct (Hf x) as [-> ->]. by apply Hlive.
Qed.

#[local] Instance actors_ok_frame : ActorFrame (λ _, True) actors_ok.
Proof.
  split.
  - intros w db k n m []. by constructor.
  - intros w a f _. apply actors_ok_alter.
  - intros w a. by apply actors_ok_alter.
Qed.
(** *** Starting and stopping *)

Lemma StopNode_reg id : preserves actors_ok (StopNode id).
Proof.
  intros w [Hreg Hlive]. unfold StopNode, gets, bind.
  destruct (w_actors w !! id) as [a|] eqn:Ha; [|done].
  destruct (Hreg id a Ha) as (x & Hx & Hid & Hs). constructor; cbn.
  - intros j b [Hne Hb]%lookup_delete_Some. destruct (Hreg j b Hb) as (y & Hy & <- & Hys).
    exists y. rewrite lookup_alter. case_decide; [subst b|done]. congruence.
  - intros b y. rewrite lookup_alter. case_decide; subst.
    + rewrite Hx. cbn. by intros [= <-].
    + intros Hb Hys. rewrite lookup_delete_ne; [by apply Hlive|].
      intros Heq. specialize (Hlive b y Hb Hys). congruence.
Qed.

Lemma StopNode_unreg id w :
  w_actors (StopNode id w).1 !! id = None.
Proof.
  unfold StopNode, gets, bind. destruct (w_actors w !! id) as [a|] eqn:Ha; [|done].
  cbn. apply lookup_delete_eq.
Qed.

Lemma StartNode_reg n : preserves actors_ok (StartNode n).
Proof.
  intros w Hw. pose proof (StopNode_reg (n_ID n) w Hw) as [Hreg Hlive].
  pose proof (StopNode_unreg (n_ID n) w) as Hno. unfold StartNode, bind.
  destruct (StopNode (n_ID n) w) as [w' [[]|e]] eqn:Hstop; [|done]. cbn in *.
  set (a := fresh _). assert (w_heap w' !! a = None) as Hfresh.
  { apply not_elem_of_dom. apply is_fresh. }
  constructor; cbn.
  - intros id b. rewrite lookup_insert_Some. intros [[<- <-]|[Hne Hb]].
    + exists (newNodeActor n). by rewrite lookup_insert_eq.
    + destruct (Hreg id b Hb) as (y & Hy & Hrest). exists y. split; [|done].
      rewrite lookup_insert_ne; [done|]. congruence.
  - intros b y. rewrite lookup_insert_Some. intros [[<- <-]|[Hne Hb]] Hs; cbn.
    + apply lookup_insert_eq.
    + specialize (Hlive b y Hb Hs). rewrite lookup_insert_ne; [done|]. congruence.
Qed.

#[global] Instance actors_ok_registry : RegistryFrame actors_ok.
Proof.
  split.
  - split; [apply (af_rest (own := λ _, True))|by intros|apply (af_trigger (own := λ _, True))].
  - apply StopNode_reg.
  - apply StartNode_reg.
  - intros a. by apply (set_actor_frame (λ _, True) actors_ok).
Qed.

(** *** Requests *)

(** Every handler keeps the schema's invariant: the services it calls do. *)
Lemma handler_inv `{!Rely P} rt r : preserves w_ok (handler J sv prometheus_text rt r).
Proof.
  destruct rt; cbn [handler]; autounfold with handlers;
    unfold NodeService.Get, NodeService.List, NodeService.GetInbound, NodeService.ListInbounds,
      NodeService.DeleteInbound, PlanService.Get, PlanService.List, PlanService.Delete,
      APIKeyService.List, APIKeyService.Revoke, UserService.Get, UserService.List; go_inv.
Qed.
Hint Resolve handler_inv : go_inv.
Lemma Router_inv `{!Rely P} l rt r :
  preserves w_ok (Router J sv prometheus_text NewLimiter Allow l rt r).
Proof.
  unfold Router, authMiddleware, rateLimitMiddleware, requestLogger. go_inv.
Qed.

(** ** The system's invariant *)

Lemma step_ok `{!Rely P} cfg s s' : step cfg s s' → sys_ok s → sys_ok s'.
Proof.
  intros Hstep [Hw Hr]. destruct Hstep; cbn in *; split; cbn;
    try match goal with
        | H : run_turn ?a ?c ?w = (?w', _) |- _ =>
            pose proof (run_turn_inv a c w Hw); pose proof (run_turn_frame (λ _, True) actors_ok a Logic.I c w Hr);
            rewrite H in *; done
        end;
    first [ by apply Router_inv | by apply (Router_frame actors_ok) | by apply checkHealth_inv
          | by apply (checkHealth_frame (λ _, True) actors_ok) | by apply expiry_sweep_inv
          | by apply (expiry_sweep_frame (λ _, True) actors_ok) | by apply prune_inv
          | by apply (prune_frame (λ _, True) actors_ok) | by apply Start_inv
          | by apply (Start_frame actors_ok) | by apply Stop_inv | by apply (Stop_frame actors_ok) ].
Qed.

(** The state in which the process starts: a database that satisfies its
    constraints, and no actor. *)
Definition boot (s : Sys) : Prop :=
  w_ok (s_world s) ∧ w_actors (s_world s) = ∅ ∧ w_heap (s_world s) = ∅.

Lemma boot_ok s : boot s → sys_ok s.
Proof.
  intros (Hw & Ha & Hh). split; [done|]. constructor; rewrite ?Ha, ?Hh.
  - intros id a. by rewrite lookup_empty.
  - intros a x. by rewrite lookup_empty.
Qed.

Lemma reachable_ok `{!Rely P} cfg s s' : rtc (step cfg) s s' → sys_ok s → sys_ok s'.
Proof. induction 1; eauto using step_ok. Qed.

(** C6: along every execution, two actors of the same node of which neither
    has been stopped are the same one, and the manager's map points at it: no
    two loops push to a node on the manager's behalf. *)
Theorem single_actor_per_node `{!Rely P} cfg s s' a b x y :
  boot s → rtc (step cfg) s s' →
  w_heap (s_world s') !! a = Some x → w_heap (s_world s') !! b = Some y →
  n_ID (a_node x) = n_ID (a_node y) → a_stopped x = false → a_stopped y = false →
  a = b ∧ w_actors (s_world s') !! n_ID (a_node x) = Some a.
Proof.
  intros Hb%boot_ok Hs Ha Hb' Hid Hx Hy.
  destruct (reachable_ok _ _ _ Hs Hb) as [_ [_ Hlive]].
  pose proof (Hlive _ _ Ha Hx). pose proof (Hlive _ _ Hb' Hy). split; congruence.
Qed.
End System.
