(* ===== verification/Shutdown.v ===== *)
(** * Shutting down (src/internal/worker/manager.go, nodeactor.go, expiry.go)

    Stop cancels the context, waits for every goroutine and closes the
    connections.  Once the context is cancelled, [ctx.Done()] is ready in every
    select, but Go picks among the ready cases at random, so a loop may still
    serve ticks.  Each goroutine leaves after its own number of exit steps and
    no step adds work: under any scheduler that does not starve [ctx.Done()],
    Stop returns, with every goroutine gone and every connection closed. *)

From stdpp Require Import base gmap strings list fin_maps sets relations.
From Stdlib Require Import ZArith Lia.
From S2P Require Import Prelude Domain Database World StoreBase StoreUsers StoreAssignments StoreTraffic StoreAdmin.
From S2P Require Import GoStd RateLimit Xray Worker ServiceUsers ServiceAdmin Httpapi Router System.
Import Httpapi.
Local Open Scope Z_scope.

(** ** Actors do not touch each other *)

Section Isolation.
Context {P : Platform}.

(** What another goroutine may do to an actor: fill its trigger slot. *)
Definition poked (x x' : nodeActor) : Prop := x' = x ∨ x' = a_set_reconcileCh true x.

(** From [w] to [w'], only [own] did anything to its actors. *)
Definition isolated (own : nat → Prop) (w w' : World) : Prop :=
  w_actors w' = w_actors w ∧
  ∀ b, (is_Some (w_heap w' !! b) ↔ is_Some (w_heap w !! b)) ∧
       (¬ own b → option_Forall2 poked (w_heap w !! b) (w_heap w' !! b)).

Lemma poked_trans x y z : poked x y → poked y z → poked x z.
Proof. intros [->| ->] [->| ->]; [by left|by right..]. Qed.

Lemma isolated_refl own w : isolated own w w.
Proof.
  split; [done|]. intros b. split; [done|]. intros _.
  destruct (w_heap w !! b); constructor. by left.
Qed.

Lemma isolated_alter own (w w' : World) a f :
  own a ∨ f = a_set_reconcileCh true →
  isolated own w w' → isolated own w (w_set_heap (alter f a (w_heap w')) w').
Proof.
  intros Hf [Ha Hb]. split; [done|]. intros b. cbn. destruct (Hb b) as [Hdom Hpoke].
  rewrite lookup_alter. case_decide as Hab; [subst a|done]. split.
  - by rewrite fmap_is_Some.
  - intros Hb'. destruct Hf as [?| ->]; [done|]. specialize (Hpoke Hb').
    destruct Hpoke as [x y Hxy|]; constructor. eapply poked_trans; [done|by right].
Qed.

#[export] Instance isolated_frame own w : ActorFrame own (isolated own w).
Proof.
  split.
  - by intros w' db k n m Hw.
  - intros w' a f Ha _. apply isolated_alter. by left.
  - intros w' a. apply isolated_alter. by right.
Qed.

(** Isolation: a turn of one actor's loop, whichever case its select
    picks, leaves the manager's map and every other actor as they are, except
    that it may fill the trigger slot of another actor. *)
Theorem turn_isolated a s w :
  w_actors (run_turn a s w).1 = w_actors w ∧
  ∀ b, b ≠ a → option_Forall2 poked (w_heap w !! b) (w_heap (run_turn a s w).1 !! b).
Proof.
  pose proof (run_turn_frame (λ b, b = a) (isolated (λ b, b = a) w) a eq_refl s w
    (isolated_refl _ w)) as [Hm Hb].
  split; [done|]. intros b Hne. by apply Hb.
Qed.
End Isolation.

(** ** Stop *)

Section Shutdown.
Context {P : Platform} {Limiter : Type}.
Implicit Types (s : @Sys P Limiter).

(** The process after [m.cancel()]: the sweepers' goroutines that still run, and
    whether [Stop] has returned from its wait. *)
Record Draining : Type := mkDraining {
  dr_sys : @Sys P Limiter;
  dr_expiry : bool;
  dr_pruner : bool;
  dr_returned : bool
}.

(** A goroutine on its way out: an actor's start-up probe, an actor that takes
    one of its two return cases, a sweeper that takes its own; and [Stop], once
    [wg.Wait()] lets it through. *)
Inductive exit_step : Draining → Draining → Prop :=
| exit_probe a w l pr ex e p :
    is_Some (w_heap w !! a) → a ∉ pr → a ∉ ex →
    exit_step (mkDraining (mkSys w l pr ex) e p false)
      (mkDraining (mkSys (checkHealth a w).1 l ({[a]} ∪ pr) ex) e p false)
| exit_turn a x c w w' l pr ex e p :
    w_heap w !! a = Some x → a ∈ pr → a ∉ ex → ready x c = true → run_turn a c w = (w', Ok false) →
    exit_step (mkDraining (mkSys w l pr ex) e p false)
      (mkDraining (mkSys w' l pr ({[a]} ∪ ex)) e p false)
| exit_expiry s p : exit_step (mkDraining s true p false) (mkDraining s false p false)
| exit_pruner s e : exit_step (mkDraining s e true false) (mkDraining s e false false)
| exit_return w l pr ex :
    (∀ a, is_Some (w_heap w !! a) → a ∈ ex) →
    exit_step (mkDraining (mkSys w l pr ex) false false false)
      (mkDraining (mkSys (Stop w).1 l pr ex) false false true).

(** A goroutine whose select picks a tick or a trigger although the context is
    cancelled. *)
Inductive tick_step (cfg : Config) : Draining → Draining → Prop :=
| tick_turn a x c w w' l pr ex e p :
    w_heap w !! a = Some x → a ∈ pr → a ∉ ex → ready x c = true → run_turn a c w = (w', Ok true) →
    tick_step cfg (mkDraining (mkSys w l pr ex) e p false) (mkDraining (mkSys w' l pr ex) e p false)
| tick_expiry w l pr ex p :
    tick_step cfg (mkDraining (mkSys w l pr ex) true p false)
      (mkDraining (mkSys (expiry_sweep w).1 l pr ex) true p false)
| tick_prune w l pr ex e :
    tick_step cfg (mkDraining (mkSys w l pr ex) e true false)
      (mkDraining (mkSys (prune cfg w).1 l pr ex) e true false).

(** [drains cfg t n d d']: [t] ticks and [n] exit steps lead from [d] to [d']. *)
Inductive drains (cfg : Config) : nat → nat → Draining → Draining → Prop :=
| drains_done d : drains cfg 0 0 d d
| drains_tick t n d d1 d2 : tick_step cfg d d1 → drains cfg t n d1 d2 → drains cfg (S t) n d d2
| drains_exit t n d d1 d2 : exit_step d d1 → drains cfg t n d1 d2 → drains cfg t (S n) d d2.

(** The exit steps that are left: two for an actor that has not probed yet, one
    for the others, one for each sweeper, one for Stop itself. *)
Definition work (d : Draining) : nat :=
  let s := dr_sys d in
  let live : gset nat := dom (w_heap (s_world s)) ∖ s_exited s in
  size live + size (live ∖ s_probed s) + (if dr_expiry d then 1 else 0)
  + (if dr_pruner d then 1 else 0) + (if dr_returned d then 0 else 1).

(** What holds while the process drains: an actor that has left has closed its
    connection. *)
Definition closed (ex : gset nat) (w : World) : Prop :=
  ∀ a, a ∈ ex → ∃ x, w_heap w !! a = Some x ∧ a_client x = None.

Record drain_ok (d : Draining) : Prop := {
  do_closed : closed (s_exited (dr_sys d)) (s_world (dr_sys d));
  do_returned : dr_returned d = true →
    dr_expiry d = false ∧ dr_pruner d = false ∧
    ∀ a, is_Some (w_heap (s_world (dr_sys d)) !! a) → a ∈ s_exited (dr_sys d)
}.

(** *** Connections stay closed *)

Lemma closed_alter ex w a f :
  a ∉ ex ∨ (∀ x, a_client x = None → a_client (f x) = None) →
  closed ex w → closed ex (w_set_heap (alter f a (w_heap w)) w).
Proof.
  intros Hf Hc b Hb. destruct (Hc b Hb) as (x & Hx & Hn). cbn. rewrite lookup_alter.
  case_decide as Hab; [subst a|by exists x]. rewrite Hx. cbn. exists (f x). split; [done|].
  destruct Hf as [?|Hf]; [done|by apply Hf].
Qed.

#[export] Instance closed_frame ex : ActorFrame (λ a, a ∉ ex) (closed ex).
Proof.
  split.
  - by intros w db k n m Hc.
  - intros w a f Ha _. apply closed_alter. by left.
  - intros w a. apply closed_alter. right. by intros [].
Qed.

Lemma close_closed ex a w : closed ex w → closed ex (close a w).1.
Proof. apply closed_alter. by right. Qed.

Lemma StopNode_closed ex id : preserves (closed ex) (StopNode id).
Proof.
  unfold StopNode. go_inv.
  - intros w. apply closed_alter. right. by intros [].
  - by intros w.
Qed.

#[export] Instance closed_registry ex : RegistryFrame (closed ex).
Proof.
  split.
  - split; [apply (af_rest (own := λ a, a ∉ ex))|by intros|apply (af_trigger (own := λ a, a ∉ ex))].
  - apply StopNode_closed.
  - intros n. unfold StartNode. apply preserves_bind; [apply StopNode_closed|intros _].
    intros w Hc a Ha. cbn. destruct (Hc a Ha) as (x & Hx & Hn). exists x. split; [|done].
    rewrite lookup_insert_ne; [done|]. intros <-.
    apply (is_fresh (dom (w_heap w) : gset nat)), elem_of_dom. by exists x.
  - intros a w. apply close_closed.
Qed.

(** *** No step adds work *)

Lemma isolated_dom own w w' : isolated own w w' → dom (w_heap w') =@{gset nat} dom (w_heap w).
Proof. intros [_ Hb]. apply set_eq. intros a. rewrite !elem_of_dom. apply Hb. Qed.

Lemma checkHealth_dom a w : dom (w_heap (checkHealth a w).1) =@{gset nat} dom (w_heap w).
Proof.
  apply (isolated_dom (λ _, True)), (checkHealth_frame (λ _, True)); [apply _|done|apply isolated_refl].
Qed.
Lemma run_turn_dom a c w w' r : run_turn a c w = (w', r) → dom (w_heap w') =@{gset nat} dom (w_heap w).
Proof.
  intros E. pose proof (run_turn_frame (λ _, True) (isolated (λ _, True) w) a Logic.I c w
    (isolated_refl _ w)) as H. rewrite E in H. by apply isolated_dom in H.
Qed.
Lemma expiry_sweep_dom w : dom (w_heap (expiry_sweep w).1) =@{gset nat} dom (w_heap w).
Proof.
  apply (isolated_dom (λ _, True)), (expiry_sweep_frame (λ _, True)); [apply _|apply isolated_refl].
Qed.
Lemma prune_dom cfg w : dom (w_heap (prune cfg w).1) =@{gset nat} dom (w_heap w).
Proof.
  apply (isolated_dom (λ _, True)), (prune_frame (λ _, True)); [apply _|apply isolated_refl].
Qed.
Lemma Stop_dom w : dom (w_heap (Stop w).1) =@{gset nat} dom (w_heap w).
Proof.
  assert (preserves (isolated (λ _, True) w) Stop) as Hs.
  { unfold Stop. go_inv. apply (set_actor_frame (λ _, True)); [apply _|done|by intros []]. }
  by apply (isolated_dom (λ _, True)), Hs, isolated_refl.
Qed.

Lemma size_minus_one (X : gset nat) a : a ∈ X → size X = S (size (X ∖ {[a]})).
Proof.
  intros Ha. rewrite size_difference by set_solver. rewrite size_singleton.
  assert (size X ≠ 0%nat) by (intros ?%size_empty_inv; set_solver). lia.
Qed.

Ltac work := unfold work; cbn [dr_sys dr_expiry dr_pruner dr_returned s_world s_exited s_probed].

Lemma tick_work cfg d d' : tick_step cfg d d' → work d' = work d.
Proof.
  destruct 1 as [a x c w w' l pr ex e p Hx Hp He Hc Hrun|w l pr ex p|w l pr ex e]; work.
  - by rewrite (run_turn_dom _ _ _ _ _ Hrun).
  - by rewrite expiry_sweep_dom.
  - by rewrite prune_dom.
Qed.

Lemma exit_work d d' : exit_step d d' → work d = S (work d').
Proof.
  destruct 1 as [a w l pr ex e p Ha Hp He|a x c w w' l pr ex e p Hx Hp He Hc Hrun|s p|s e|w l pr ex Hall];
    work; try lia.
  - rewrite checkHealth_dom. set (live := dom (w_heap w) ∖ ex).
    rewrite (size_minus_one (live ∖ pr) a) by (apply elem_of_dom in Ha; set_solver).
    replace (live ∖ pr ∖ {[a]}) with (live ∖ ({[a]} ∪ pr)) by set_solver. lia.
  - rewrite (run_turn_dom _ _ _ _ _ Hrun). set (live := dom (w_heap w) ∖ ex).
    assert (a ∈ dom (w_heap w)) as Ha by (apply elem_of_dom; by exists x).
    rewrite (size_minus_one live a) by set_solver.
    replace (dom (w_heap w) ∖ ({[a]} ∪ ex)) with (live ∖ {[a]}) by set_solver.
    replace (live ∖ {[a]} ∖ pr) with (live ∖ pr) by set_solver. lia.
  - rewrite Stop_dom. lia.
Qed.

Lemma drains_work cfg t n d d' : drains cfg t n d d' → (n + work d' = work d)%nat.
Proof.
  induction 1 as [|t n d d1 d2 Hs _ IH|t n d d1 d2 Hs _ IH]; [done| |].
  - by rewrite <- (tick_work _ _ _ Hs).
  - rewrite (exit_work _ _ Hs). lia.
Qed.

(** *** No goroutine is stuck *)

Lemma exit_possible d : dr_returned d = false → ∃ d', exit_step d d'.
Proof.
  destruct d as [[w l pr ex] e p r]. cbn. intros ->.
  destruct e; [eexists; apply exit_expiry|]. destruct p; [eexists; apply exit_pruner|].
  destruct (set_choose_or_empty (dom (w_heap w) ∖ ex)) as [[a Ha]|Hnone].
  2: { eexists. apply exit_return. intros a Ha%elem_of_dom.
       destruct (decide (a ∈ ex)); [done|]. exfalso. apply (not_elem_of_empty (C := gset nat) a).
       rewrite <- Hnone. by apply elem_of_difference. }
  apply elem_of_difference in Ha as [[x Hx]%elem_of_dom He].
  destruct (decide (a ∈ pr)) as [Hp|Hp]; eexists.
  - by apply (exit_turn a x CtxDone w (close a w).1 l pr ex).
  - by apply exit_probe; [exists x|..].
Qed.

(** *** What Stop leaves *)

Lemma returns_closed a x c w w' ex :
  w_heap w !! a = Some x → run_turn a c w = (w', Ok false) → closed ex w → closed ({[a]} ∪ ex) w'.
Proof.
  intros Hx Hrun Hc.
  assert (w' = (close a w).1) as ->.
  { destruct c; unfold run_turn in Hrun; apply bind_inv in Hrun as (w1 & [] & E & Hrun); try done.
    1,2: injection E as <-; by injection Hrun. }
  intros b [->%elem_of_singleton|Hb]%elem_of_union.
  - exists (a_set_client None x). cbn. by rewrite lookup_alter_eq, Hx.
  - by apply (close_closed ex a w Hc).
Qed.

Lemma run_turn_closed a c w w' r ex :
  a ∉ ex → run_turn a c w = (w', r) → closed ex w → closed ex w'.
Proof.
  intros Ha E Hc. pose proof (run_turn_frame (λ b, b ∉ ex) (closed ex) a Ha c w Hc) as H. by rewrite E in H.
Qed.

Lemma drain_ok_exit d d' : exit_step d d' → drain_ok d → drain_ok d'.
Proof.
  destruct 1 as [a w l pr ex e p Ha Hp He|a x c w w' l pr ex e p Hx Hp He Hc Hrun|s p|s e|w l pr ex Hall];
    intros [Hcl Hret]; cbn [dr_sys dr_expiry dr_pruner dr_returned s_world s_exited s_probed] in *;
    split; cbn [dr_sys dr_expiry dr_pruner dr_returned s_world s_exited s_probed]; try done.
  - by apply (checkHealth_frame (λ b, b ∉ ex)); [apply _|..].
  - by eapply returns_closed.
  - by apply (Stop_frame (closed ex)).
  - intros _. split_and!; [done..|]. intros a Ha. apply Hall, elem_of_dom.
    rewrite <- Stop_dom. by apply elem_of_dom.
Qed.
Lemma drain_ok_tick cfg d d' : tick_step cfg d d' → drain_ok d → drain_ok d'.
Proof.
  destruct 1 as [a x c w w' l pr ex e p Hx Hp He Hc Hrun|w l pr ex p|w l pr ex e];
    intros [Hcl Hret]; cbn [dr_sys dr_expiry dr_pruner dr_returned s_world s_exited s_probed] in *;
    split; cbn [dr_sys dr_expiry dr_pruner dr_returned s_world s_exited s_probed]; try done.
  - by eapply run_turn_closed.
  - by apply (expiry_sweep_frame (λ b, b ∉ ex)); [apply _|].
  - by apply (prune_frame (λ b, b ∉ ex)); [apply _|].
Qed.
Lemma drain_ok_drains cfg t n d d' : drains cfg t n d d' → drain_ok d → drain_ok d'.
Proof. induction 1; eauto using drain_ok_exit, drain_ok_tick. Qed.
End Shutdown.

(** ** From the running system *)

Section Termination.
Context {P : Platform} (J : Codecs) (sv : Server).
Context (prometheus_text : gmap (string * list string) Z → string).
Context {Limiter : Type} (NewLimiter : Z → Limiter) (Allow : Limiter → Time → Limiter * bool).

Abbreviation step := (step J sv prometheus_text NewLimiter Allow).

(** While the system runs, too, an actor that has left has closed its
    connection. *)
Lemma step_closed cfg s s' :
  step cfg s s' → closed (s_exited s) (s_world s) → closed (s_exited s') (s_world s').
Proof.
  intros Hstep Hc. destruct Hstep as [rt r w l pr ex|a w l pr ex Ha Hp He|a x c w w' go l pr ex Hx Hp He Hc' Hrun
    |w l pr ex|w l pr ex|w l pr ex|w l pr ex]; cbn [s_exited s_world] in *.
  - by apply (Router_frame J sv prometheus_text NewLimiter Allow (closed ex)).
  - by apply (checkHealth_frame (λ b, b ∉ ex)); [apply _|..].
  - destruct go; [by eapply run_turn_closed|by eapply returns_closed].
  - by apply (expiry_sweep_frame (λ b, b ∉ ex)); [apply _|].
  - by apply (prune_frame (λ b, b ∉ ex)); [apply _|].
  - by apply (Start_frame (closed ex)).
  - by apply (Stop_frame (closed ex)).
Qed.

Lemma reachable_closed cfg s s' :
  rtc (step cfg) s s' → closed (s_exited s) (s_world s) → closed (s_exited s') (s_world s').
Proof. induction 1; eauto using step_closed. Qed.

(** Every step of the shutdown is one the system could have made. *)
Lemma exit_is_step cfg (d d' : @Draining P Limiter) :
  exit_step d d' → rtc (step cfg) (dr_sys d) (dr_sys d').
Proof.
  destruct 1; cbn [dr_sys]; try done.
  - by apply rtc_once, step_probe.
  - eapply rtc_once, (step_turn _ _ _ _ _ cfg a x c w w' false); eauto.
  - apply rtc_once, step_stop.
Qed.
Lemma tick_is_step cfg (d d' : @Draining P Limiter) :
  tick_step cfg d d' → rtc (step cfg) (dr_sys d) (dr_sys d').
Proof.
  destruct 1; cbn [dr_sys].
  - eapply rtc_once, (step_turn _ _ _ _ _ cfg a x c w w' true); eauto.
  - apply rtc_once, step_expiry.
  - apply rtc_once, step_prune.
Qed.
Lemma drains_steps cfg t n (d d' : @Draining P Limiter) :
  drains cfg t n d d' → rtc (step cfg) (dr_sys d) (dr_sys d').
Proof.
  induction 1; [done|etrans; [by eapply tick_is_step|done]|etrans; [by apply exit_is_step|done]].
Qed.

(** The exits alone, from any point on. *)
Lemma drains_out cfg (d : @Draining P Limiter) :
  ∃ t n d', drains cfg t n d d' ∧ t = 0%nat ∧ dr_returned d' = true.
Proof.
  remember (work d) as k eqn:Hk. revert d Hk. induction (lt_wf k) as [k _ IH]. intros d ->.
  destruct (dr_returned d) eqn:Hr; [by exists 0%nat, 0%nat, d; split; [apply drains_done|]|].
  destruct (exit_possible d Hr) as [d1 H1]. pose proof (exit_work _ _ H1).
  destruct (IH (work d1) ltac:(lia) d1 eq_refl) as (t & n & d' & H2 & -> & Hret).
  exists 0%nat, (S n), d'. split; [by eapply drains_exit|done].
Qed.

(** C11 (shutdown terminates): from the moment the context of a running system
    is cancelled, each exit of a goroutine brings the end closer by exactly one
    and no tick moves it away, so at most [work] exits can happen; until Stop
    has returned, some goroutine, or Stop itself, can always take its exit; and
    when it has returned, every actor's goroutine has left and every connection
    is closed. *)
Theorem shutdown_terminates cfg s0 s e p t n (d : @Draining P Limiter) :
  s_exited s0 = ∅ → rtc (step cfg) s0 s → drains cfg t n (mkDraining s e p false) d →
  (n + work d = work (mkDraining s e p false))%nat ∧
  (dr_returned d = false → ∃ d1 m d2, exit_step d d1 ∧ drains cfg 0 m d1 d2 ∧ dr_returned d2 = true) ∧
  (dr_returned d = true → n = work (mkDraining s e p false) ∧
     ∀ a x, w_heap (s_world (dr_sys d)) !! a = Some x → a ∈ s_exited (dr_sys d) ∧ a_client x = None).
Proof.
  intros H0 Hsteps Hd. pose proof (drains_work _ _ _ _ _ Hd) as Hw.
  assert (drain_ok (mkDraining s e p false)) as Hok.
  { split; [|done]. apply (reachable_closed _ _ _ Hsteps). intros a. by rewrite H0. }
  destruct (drain_ok_drains _ _ _ _ _ Hd Hok) as [Hcl Hret].
  split_and!; [done| |].
  - intros Hr. destruct (exit_possible d Hr) as [d1 H1].
    destruct (drains_out cfg d1) as (? & m & d2 & H2 & -> & H3). by exists d1, m, d2.
  - intros Hr. destruct (Hret Hr) as (He & Hp & Hall). split.
    + assert (dom (w_heap (s_world (dr_sys d))) ∖ s_exited (dr_sys d) = ∅) as Hlive.
      { apply set_eq. intros a. rewrite elem_of_difference, elem_of_dom. set_solver. }
      revert Hw. unfold work at 1. rewrite Hlive, He, Hp, Hr. assert (∅ ∖ s_probed (dr_sys d) = ∅) as -> by set_solver.
      rewrite size_empty. lia.
    + intros a x Hx. split; [apply Hall; by exists x|].
      destruct (Hcl a) as (y & Hy & Hn); [apply Hall; by exists x|]. congruence.
Qed.
End Termination.
