(* ===== verification/Tables.v ===== *)
(** * Predicates on the tables

    Several invariants speak of the tables only: what the stored rows are made
    of, or how far they have moved since a given moment.  This file gives them
    one calculus: [on_tables I] holds of a world when [I] holds of its tables;
    it is kept by a computation as soon as [I] is kept by its statements and by
    the other sessions.  [Background] gathers the statements the program issues
    on its own account, outside any request; the loops of internal/worker
    consist of those. *)

From stdpp Require Import base gmap strings list fin_maps sets.
From Stdlib Require Import ZArith Lia.
From S2P Require Import Prelude Domain Database World StoreBase StoreUsers StoreAssignments StoreTraffic StoreAdmin.
From S2P Require Import GoStd Xray Worker ServiceUsers ServiceAdmin System.
Local Open Scope Z_scope.

(** A statement keeps [I] on its success path; it has no effect on the other. *)
Definition sql_keeps (I : DB → Prop) {A} (q : Sql A) : Prop :=
  ∀ now db db' a, I db → q now db = Ok (db', a) → I db'.

(** What other sessions do between two statements keeps [I]. *)
Class Stable {P : Platform} (I : DB → Prop) : Prop := stable : ∀ k db, I db → I (interfere k db).

#[export] Instance Alone_Stable {P : Platform} `{!Alone P} I : Stable I.
Proof. intros k db. by rewrite (alone k db). Qed.

(** A row of user_inbounds. *)
Definition has_row (ui : UserInbound) (db : DB) : Prop := ∃ k, t_user_inbounds db !! k = Some ui.

(** The statements of the actors and the sweepers.  An assignment is marked
    when a state of [I] has it as wanted, and dropped when one has it as a
    tombstone. *)
Class Background (I : DB → Prop) : Prop := {
  bg_mark : ∀ db ui s e t, I db → has_row ui db → ui_SyncStatus ui ≠ SyncRemoving →
    s = SyncApplied ∨ s = SyncFailed →
    sql_keeps I (sql_mark_synced (ui_UserID ui) (ui_InboundID ui) s e t);
  bg_unassign : ∀ db ui, I db → has_row ui db → ui_SyncStatus ui = SyncRemoving →
    sql_keeps I (sql_delete_assignment (ui_UserID ui) (ui_InboundID ui));
  bg_health : ∀ id s e t, sql_keeps I (sql_set_node_health id s e t);
  bg_snapshot : ∀ u n up down t, sql_keeps I (sql_insert_snapshot u n up down t);
  bg_usage : ∀ u up down, sql_keeps I (sql_add_usage u up down);
  bg_suspend : sql_keeps I sql_suspend_over_quota;
  bg_expire : ∀ now, sql_keeps I (λ dbnow db, Ok (update_where (due now)
    (λ u, u_set_UpdatedAt dbnow (u_set_Status UserStatusExpired u)) db));
  bg_prune : ∀ before, sql_keeps I (sql_prune before)
}.

Create HintDb tables.
#[export] Hint Resolve bg_health bg_snapshot bg_usage
  bg_suspend bg_expire bg_prune : tables.

(** A select over [I]'s tables never changes them. *)
Lemma select_keeps I {A} (f : DB → A) : sql_keeps I (select f).
Proof. by intros now db db' a Hdb [= <- _]. Qed.

(** Reading the parameters changes nothing. *)
Lemma by_id_keeps `{PgTypes} I {A B} (t : DB → gmap string A) id (q : string → Sql B) :
  (∀ i, sql_keeps I (q i)) → sql_keeps I (by_id t id q).
Proof. intros Hq now db db' b Hdb. unfold by_id. destruct (uuid_key _ _); [by apply Hq|done]. Qed.
Lemma by_ids_keeps `{PgTypes} I {A B} (t : DB → gmap string A) ids (q : list string → Sql B) :
  (∀ keys, sql_keeps I (q keys)) → sql_keeps I (by_ids t ids q).
Proof. intros Hq now db db' b Hdb. unfold by_ids. destruct (uuid_keys _ _); [by apply Hq|done]. Qed.
Lemma with_params_keeps `{PgTypes} I {B} u (q : User → Sql B) :
  (∀ u, sql_keeps I (q u)) → sql_keeps I (with_params u q).
Proof. intros Hq now db db' b Hdb. unfold with_params. destruct (user_params _ _); [by apply Hq|done]. Qed.
Lemma by_text_keeps `{PgTypes} I {B} l (q : Sql B) : sql_keeps I q → sql_keeps I (by_text l q).
Proof. intros Hq now db db' b Hdb. unfold by_text. destruct (forallb _ _); [by apply Hq|done]. Qed.
Lemma by_filter_keeps `{PgTypes} I {B} f (q : option string → Sql B) :
  (∀ plan, sql_keeps I (q plan)) → sql_keeps I (by_filter f q).
Proof.
  intros Hq. apply by_text_keeps. intros now db db' b Hdb. destruct (uuid_ref _ _); [by apply Hq|done].
Qed.
Lemma if_keeps I {A B} (x : option A) (f : A → Sql B) (g : Sql B) :
  (∀ a, sql_keeps I (f a)) → sql_keeps I g →
  sql_keeps I (match x with Some a => f a | None => g end).
Proof. by destruct x. Qed.

#[export] Hint Resolve select_keeps by_id_keeps by_ids_keeps with_params_keeps by_text_keeps by_filter_keeps
  if_keeps : tables.
#[export] Hint Extern 0 (Background _) => typeclasses eauto : tables.

Section Tables.
Context {P : Platform} (I : DB → Prop).

Definition on_tables (w : World) : Prop := I (w_db w).

(** What does not touch the tables at all. *)
Lemma same_db_keeps {A} (m : IO A) : (∀ w, w_db (m w).1 = w_db w) → preserves on_tables m.
Proof. intros Hm w. unfold on_tables. by rewrite Hm. Qed.
Lemma modify_keeps (f : World → World) :
  (∀ w, w_db (f w) = w_db w) → preserves on_tables (modify (E := error) f).
Proof. intros Hf. by apply same_db_keeps. Qed.
Lemma AlterInbound_keeps c tag op : preserves on_tables (AlterInbound c tag op).
Proof. apply same_db_keeps. intros w. unfold AlterInbound. by destruct (rpc_AlterInbound _ _ _ _). Qed.
Lemma Ping_keeps c : preserves on_tables (Ping c).
Proof. apply same_db_keeps. intros w. unfold Ping. by destruct (rpc_GetSysStats _ _). Qed.
Lemma QueryUserTraffic_keeps c b : preserves on_tables (QueryUserTraffic c b).
Proof. apply same_db_keeps. intros w. unfold QueryUserTraffic. by destruct (rpc_QueryStats _ _ _ _). Qed.
Lemma actor_keeps a : preserves on_tables (actor a).
Proof. apply same_db_keeps. intros w. unfold actor. by destruct (w_heap w !! a). Qed.
Lemma metric_add_keeps n l z : preserves on_tables (metric_add n l z).
Proof. by apply modify_keeps. Qed.
Lemma metric_set_keeps n l z : preserves on_tables (metric_set n l z).
Proof. by apply modify_keeps. Qed.
Lemma set_actor_keeps a f : preserves on_tables (set_actor a f).
Proof. by apply modify_keeps. Qed.
Lemma stop_keeps a : preserves on_tables (stop a).
Proof. by apply modify_keeps. Qed.
Lemma time_Now_keeps : preserves on_tables time_Now.
Proof. by apply same_db_keeps. Qed.
Lemma uuid_NewString_keeps : preserves on_tables uuid_NewString.
Proof. by apply same_db_keeps. Qed.
Lemma rand_Read_keeps n : preserves on_tables (rand_Read n).
Proof. by apply same_db_keeps. Qed.
Lemma throw_keeps {A B} (e : error) (k : A → IO B) : preserves on_tables (bind (throw e) k).
Proof. by intros w. Qed.

(** Statements and transactions. *)
Context `{!Stable I}.

Lemma exec_keeps {A} (q : Sql A) : sql_keeps I q → preserves on_tables (exec q).
Proof.
  intros Hq w Hw. pose proof (stable (I := I) (w_k w) _ Hw) as Hi. unfold exec, on_tables.
  destruct (q _ _) as [[db' a]|e] eqn:E, (fault_at (w_k w)) as [|[] msg]; try done; by eapply Hq.
Qed.
Lemma exec_tx_keeps {A} now (q : Sql A) : sql_keeps I q → preserves on_tables (exec_tx now q).
Proof.
  intros Hq w Hw. unfold exec_tx, on_tables.
  destruct (q _ _) as [[db' a]|e] eqn:E, (fault_at (w_k w)); try done. by eapply Hq.
Qed.
Lemma WithTx_keeps {A} (fn : Time → IO A) :
  (∀ now, preserves on_tables (fn now)) → preserves on_tables (WithTx fn).
Proof.
  intros Hfn w Hw. unfold WithTx. cbv zeta.
  pose proof (stable (I := I) (w_k w) _ Hw) as Hi.
  destruct (fault_at (w_k w)); [|done].
  pose proof (Hfn (clock (w_k w)) (w_tick (w_set_db (interfere (w_k w) (w_db w)) w)) Hi) as H1.
  destruct (fn _ _) as [w2 [a|e]]; [|done].
  destruct (fault_at (w_k w2)) as [|[] msg]; done.
Qed.
End Tables.

#[export] Hint Resolve AlterInbound_keeps Ping_keeps QueryUserTraffic_keeps actor_keeps
  metric_add_keeps metric_set_keeps set_actor_keeps stop_keeps time_Now_keeps
  uuid_NewString_keeps rand_Read_keeps throw_keeps : go_inv.
#[export] Hint Extern 1 (preserves (on_tables _) (exec _)) =>
  apply exec_keeps; [exact _|solve [auto with tables nocore]] : go_inv.
#[export] Hint Extern 1 (preserves (on_tables _) (exec_tx _ _)) =>
  apply exec_tx_keeps; solve [auto with tables nocore] : go_inv.
#[export] Hint Extern 1 (preserves (on_tables _) (modify _)) => by apply modify_keeps : go_inv.
#[export] Hint Extern 2 (preserves (on_tables _) (WithTx _)) =>
  apply WithTx_keeps; [exact _|go_inv] : go_inv.

#[export] Hint Extern 0 (Stable _) => typeclasses eauto : go_inv.
#[export] Hint Extern 0 (Background _) => typeclasses eauto : go_inv.

(** Down to the statements. *)
Ltac tables := autounfold with ops; go_inv.

(** ** The loops of internal/worker *)

Section BackgroundLoops.
Context {P : Platform} (I : DB → Prop) `{!Stable I} `{!Background I}.

Lemma trigger_targets_keeps l : ∀ seen, preserves (on_tables I) (trigger_targets seen l).
Proof. induction l; intros seen; cbn; tables. Qed.
Hint Resolve trigger_targets_keeps : go_inv.
Lemma ReconcileForUser_keeps u : preserves (on_tables I) (ReconcileForUser u).
Proof. unfold ReconcileForUser. tables. Qed.
Hint Resolve ReconcileForUser_keeps : go_inv.

(** A row the reconciler reads stems from an assignment of a state of [I]. *)
Definition row_of (Q : UserInbound → Prop) (d : DesiredAssignment) : Prop :=
  ∃ db ui, I db ∧ has_row ui db ∧ Q ui ∧
    d_UserID d = ui_UserID ui ∧ d_InboundID d = ui_InboundID ui ∧ d_SyncStatus d = ui_SyncStatus ui.

Lemma join_rows (Q : UserInbound → Prop) p db :
  I db → (∀ ui i u, p ui i u = true → Q ui) → Forall (row_of Q) (join_assignments p db).
Proof.
  intros Hdb HQ. apply Forall_forall. intros d Hd. unfold join_assignments in Hd.
  apply list_elem_of_bind in Hd as (ui & Hd & Hui).
  apply list_elem_of_fmap in Hui as ([k ui'] & -> & Hk%elem_of_map_to_list). cbn [snd] in Hd.
  unfold join_row in Hd. destruct (t_inbounds db !! _) as [i|]; [|by apply not_elem_of_nil in Hd].
  destruct (t_users db !! _) as [u|]; [|by apply not_elem_of_nil in Hd].
  destruct (p ui' i u) eqn:Hp; [|by apply not_elem_of_nil in Hd].
  apply list_elem_of_singleton in Hd as ->. exists db, ui'. split_and!; try done; [by exists k|eauto].
Qed.

Lemma queryDesired_rows (Q : UserInbound → Prop) p w :
  (∀ ui i u, p ui i u = true → Q ui) → on_tables I w →
  on_tables I (queryDesired (select (join_assignments p)) w).1 ∧
  ∀ l, (queryDesired (select (join_assignments p)) w).2 = Ok l → Forall (row_of Q) l.
Proof.
  intros HQ Hw. pose proof (stable (I := I) (w_k w) _ Hw) as Hi.
  unfold queryDesired, map_err, exec, select, on_tables.
  destruct (fault_at (w_k w)) as [|[] msg]; cbn; split; try done. intros l [= <-]. by apply join_rows.
Qed.

Lemma remove_one_keeps a name c d :
  row_of (λ _, True) d → preserves (on_tables I) (remove_one a name c d).
Proof.
  intros (db & ui & Hdb & Hui & _ & Hu & Hi & Hs). unfold remove_one, push_failed.
  rewrite Hu, Hi, Hs. destruct (String.eqb_spec (ui_SyncStatus ui) SyncRemoving) as [Hr|Hr];
    pose proof (bg_unassign db ui Hdb Hui); tables.
Qed.
Lemma add_one_keeps a name c d :
  row_of (λ ui, ui_SyncStatus ui ≠ SyncRemoving) d → preserves (on_tables I) (add_one a name c d).
Proof.
  intros (db & ui & Hdb & Hui & Hn & Hu & Hi & Hs). unfold add_one, push_failed. rewrite Hu, Hi, Hs.
  pose proof (λ e t, bg_mark db ui SyncApplied e t Hdb Hui Hn (or_introl eq_refl)).
  pose proof (λ e t, bg_mark db ui SyncFailed e t Hdb Hui Hn (or_intror eq_refl)). tables.
Qed.
Lemma reconcile_keeps a : preserves (on_tables I) (reconcile a).
Proof.
  apply preserves_ignore. unfold reconcile_body. apply preserves_bind; [tables|intros c].
  apply preserves_bind; [tables|intros x].
  eapply preserves_bind_val; [intros w; by apply (queryDesired_rows (λ _, True))|].
  intros removals Hrem. apply preserves_bind.
  { eapply preserves_for_each_in; [exact Hrem|]. apply remove_one_keeps. }
  intros _. eapply preserves_bind_val.
  - intros w. apply (queryDesired_rows (λ ui, ui_SyncStatus ui ≠ SyncRemoving)).
    unfold is_desired. intros ui i u [_ Hn%negb_true_iff]%andb_true_iff. by apply String.eqb_neq.
  - intros desired Hdes. eapply preserves_for_each_in; [exact Hdes|]. apply add_one_keeps.
Qed.
Hint Resolve reconcile_keeps : go_inv.
Lemma checkHealth_keeps a : preserves (on_tables I) (checkHealth a).
Proof. unfold checkHealth. tables. Qed.
Lemma collect_keeps a : preserves (on_tables I) (collect a).
Proof. unfold collect, collect_body, flush, record_collected, suspended_one. tables. Qed.
Hint Resolve checkHealth_keeps collect_keeps : go_inv.
Lemma run_turn_keeps a s : preserves (on_tables I) (run_turn a s).
Proof. unfold run_turn. tables. Qed.
Lemma expiry_sweep_keeps : preserves (on_tables I) expiry_sweep.
Proof. unfold expiry_sweep, expired_one. tables. Qed.
Lemma prune_keeps cfg : preserves (on_tables I) (prune cfg).
Proof. unfold prune. tables. Qed.
Lemma StopNode_keeps id : preserves (on_tables I) (StopNode id).
Proof. unfold StopNode. tables. Qed.
Hint Resolve StopNode_keeps : go_inv.
Lemma StartNode_keeps n : preserves (on_tables I) (StartNode n).
Proof. unfold StartNode. tables. Qed.
Hint Resolve StartNode_keeps : go_inv.
Lemma Start_keeps : preserves (on_tables I) Start.
Proof. unfold Start. tables. Qed.
Lemma Stop_keeps : preserves (on_tables I) Stop.
Proof. unfold Stop. tables. Qed.
End BackgroundLoops.

#[export] Hint Resolve trigger_targets_keeps ReconcileForUser_keeps reconcile_keeps
  checkHealth_keeps collect_keeps run_turn_keeps expiry_sweep_keeps prune_keeps
  StopNode_keeps StartNode_keeps Start_keeps Stop_keeps : go_inv.
