(* ===== verification/Metering.v ===== *)
(** * Metering and quota enforcement

    What ApplyTrafficDeltas (src/internal/store/traffic.go) does to the users
    and snapshots, and what that gives the collection pass of an actor
    (src/internal/worker/collector.go): every byte read from a node ends up in
    the user's counters or stays buffered, and nobody stays active at or over
    the data limit. *)

From stdpp Require Import base gmap strings list fin_maps sets.
From Stdlib Require Import ZArith Lia.
From S2P Require Import Prelude Domain Database World StoreBase StoreUsers StoreAssignments StoreTraffic StoreAdmin.
From S2P Require Import GoStd Xray Worker.
Local Open Scope Z_scope.

(** ** One delta, and a list of them *)

(** The bytes, of the direction [get] selects, a list of deltas carries for a
    user. *)
Definition delta_sum (get : TrafficDelta → Z) (id : string) (ds : list TrafficDelta) : Z :=
  foldr (λ d n, if String.eqb (td_UserID d) id then get d + n else n) 0 ds.
Abbreviation up_sum := (delta_sum td_Uplink).
Abbreviation down_sum := (delta_sum td_Downlink).

Lemma delta_sum_app get id ds1 ds2 :
  delta_sum get id (ds1 ++ ds2) = delta_sum get id ds1 + delta_sum get id ds2.
Proof.
  unfold delta_sum. induction ds1 as [|d ds1 IH]; cbn; [done|].
  destruct (String.eqb _ _); lia.
Qed.

(** [u'] is [u] with [up] and [down] more bytes used (and a new timestamp). *)
Definition metered (up down : Z) (u u' : User) : Prop :=
  ∃ t, u' = u_set_UpdatedAt t (u_set_Used (u_UsedUploadBytes u + up) (u_UsedDownloadBytes u + down) u).

Lemma metered_0 u : metered 0 0 u u.
Proof. exists (u_UpdatedAt u). rewrite !Z.add_0_r. by destruct u. Qed.

Lemma metered_trans up1 down1 up2 down2 u1 u2 u3 :
  metered up1 down1 u1 u2 → metered up2 down2 u2 u3 →
  metered (up1 + up2) (down1 + down2) u1 u3.
Proof. intros [t ->] [t' ->]. exists t'. cbn. by rewrite !Z.add_assoc. Qed.

Section Metering.
Context {P : Platform}.

Lemma sql_insert_snapshot_users u n up down t now db db' :
  sql_insert_snapshot u n up down t now db = Ok (db', tt) → t_users db' = t_users db.
Proof. unfold sql_insert_snapshot. repeat case_match; intros; by simplify_eq. Qed.

Lemma sql_add_usage_users id up down now db db' j :
  sql_add_usage id up down now db = Ok (db', tt) →
  option_Forall2 (metered (if String.eqb id j then up else 0) (if String.eqb id j then down else 0))
    (t_users db !! j) (t_users db' !! j).
Proof.
  unfold sql_add_usage. destruct (t_users db !! id) as [u|] eqn:Hu; cbv zeta.
  - case_match; [|done]. intros [= <-]. cbn.
    destruct (String.eqb_spec id j) as [->|Hne].
    + rewrite Hu, lookup_insert_eq. constructor. by eexists.
    + rewrite lookup_insert_ne by done. destruct (t_users db !! j); constructor. apply metered_0.
  - intros [= <-]. destruct (String.eqb_spec id j) as [->|Hne].
    + rewrite Hu. constructor.
    + destruct (t_users db !! j); constructor. apply metered_0.
Qed.

Lemma apply_delta_users tx node at_ d w w' j :
  apply_delta tx node at_ d w = (w', Ok tt) →
  option_Forall2 (metered (up_sum j [d]) (down_sum j [d]))
    (t_users (w_db w) !! j) (t_users (w_db w') !! j).
Proof.
  unfold apply_delta. cbn. rewrite !Z.add_0_r.
  case_match eqn:Hz.
  - intros [= <-]. apply andb_true_iff in Hz as [->%bool_decide_eq_true ->%bool_decide_eq_true].
    destruct (String.eqb _ _), (t_users (w_db w) !! j); constructor; apply metered_0.
  - unfold bind. destruct (exec_tx tx (sql_insert_snapshot _ _ _ _ _) w) as [w1 [[]|e]] eqn:H1; [|done].
    intros H2. apply exec_tx_Ok in H1 as [H1 _]. apply exec_tx_Ok in H2 as [H2 _].
    rewrite <- (sql_insert_snapshot_users _ _ _ _ _ _ _ _ H1).
    by eapply sql_add_usage_users.
Qed.

Lemma apply_deltas_users tx node at_ ds : ∀ w w' j,
  for_each ds (apply_delta tx node at_) w = (w', Ok tt) →
  option_Forall2 (metered (up_sum j ds) (down_sum j ds))
    (t_users (w_db w) !! j) (t_users (w_db w') !! j).
Proof.
  induction ds as [|d ds IH]; intros w w' j; cbn [for_each].
  - intros [= <-]. destruct (t_users (w_db w) !! j); constructor. apply metered_0.
  - unfold bind. destruct (apply_delta tx node at_ d w) as [w1 [[]|e]] eqn:H1; [|done].
    intros H2. apply (apply_delta_users _ _ _ _ _ _ j) in H1. apply (IH _ _ j) in H2.
    destruct H1 as [u u1 Hu1|]; inversion H2 as [? u2 Hu2 Hx Hy|]; subst; constructor.
    change (d :: ds) with ([d] ++ ds). rewrite !delta_sum_app. by eapply metered_trans.
Qed.

Lemma apply_deltas_keyed tx node at_ ds w w' :
  db_ok (w_db w) → for_each ds (apply_delta tx node at_) w = (w', Ok tt) →
  keyed u_ID (t_users (w_db w')).
Proof.
  intros Hok Hd. assert (preserves w_ok (for_each ds (apply_delta tx node at_))) as Hp.
  { unfold apply_delta. go_inv; apply preserves_exec_tx; eauto with db_inv. }
  specialize (Hp w Hok). rewrite Hd in Hp. apply Hp.
Qed.

(** ** The suspension statement *)

Lemma update_where_ids pred f db id :
  keyed u_ID (t_users db) →
  id ∈ (update_where pred f db).2 ↔ ∃ u, t_users db !! id = Some u ∧ pred u = true.
Proof.
  intros Hk. cbn. rewrite list_elem_of_bind. split.
  - intros (u & Hid & (kv & -> & Hkv)%list_elem_of_fmap).
    destruct kv as [k u]. apply elem_of_map_to_list in Hkv. cbn in *.
    destruct (pred u) eqn:Hp; [|by apply not_elem_of_nil in Hid].
    apply list_elem_of_singleton in Hid as ->. apply Hk in Hkv as Hku. cbn in Hku. subst k. eauto.
  - intros (u & Hu & Hp). exists u. rewrite Hp. split.
    + apply list_elem_of_singleton. symmetry. by apply Hk.
    + apply list_elem_of_fmap. exists (id, u). split; [done|]. by apply elem_of_map_to_list.
Qed.

Definition suspend_row (now : Time) (u : User) : User :=
  u_set_UpdatedAt now (u_set_Status UserStatusSuspended u).

Lemma sql_suspend_users now db db' ids id :
  sql_suspend_over_quota now db = Ok (db', ids) →
  t_users db' !! id = (λ u, if quota_crossed u then suspend_row now u else u) <$> t_users db !! id.
Proof.
  unfold sql_suspend_over_quota. case_match; [done|]. intros [= <- _]. cbn. by rewrite lookup_fmap.
Qed.

Lemma sql_suspend_ids now db db' ids id :
  keyed u_ID (t_users db) →
  sql_suspend_over_quota now db = Ok (db', ids) →
  id ∈ ids ↔ ∃ u, t_users db !! id = Some u ∧ quota_crossed u = true.
Proof.
  intros Hk. unfold sql_suspend_over_quota. case_match; [done|]. intros [= _ <-].
  by apply (update_where_ids quota_crossed (suspend_row now)).
Qed.

Lemma sql_suspend_no_overflow now db db' ids id u :
  sql_suspend_over_quota now db = Ok (db', ids) →
  t_users db !! id = Some u → quota_overflows u = false.
Proof.
  unfold sql_suspend_over_quota. case_match eqn:Hex; [done|]. intros _ Hu.
  apply not_true_is_false. intros Ho.
  assert (existsb quota_overflows (map_to_list (t_users db)).*2 = true); [|congruence].
  apply existsb_exists. exists u. split; [|done]. apply list_elem_of_In, list_elem_of_fmap.
  exists (id, u). split; [done|]. by apply elem_of_map_to_list.
Qed.

(** Where the column does not overflow, Go's test and the statement's agree. *)
Lemma quota_crossed_OverQuota u :
  quota_overflows u = false → u_Status u = UserStatusActive → quota_crossed u = OverQuota u.
Proof.
  unfold quota_overflows, quota_crossed, OverQuota, UsedTotalBytes. intros Ho Hs.
  rewrite Hs, String.eqb_refl in *. cbn [andb] in *. destruct (u_DataLimitBytes u); [|done].
  apply negb_false_iff, bool_decide_eq_true in Ho. by rewrite int64_id.
Qed.

(** ** ApplyTrafficDeltas *)

Lemma ApplyTrafficDeltas_Ok node ds at_ w w' ids :
  ApplyTrafficDeltas node ds at_ w = (w', Ok ids) →
  ∃ w1, for_each ds (apply_delta (clock (w_k w)) node at_) (tx_start w) = (w1, Ok tt) ∧
        sql_suspend_over_quota (clock (w_k w)) (w_db w1) = Ok (w_db w', ids).
Proof.
  intros (w2 & H & ->)%WithTx_Ok. unfold bind in H.
  destruct (for_each _ _ _) as [w1 [[]|e]] eqn:H1; [|done].
  exists w1. split; [done|]. by apply exec_tx_Ok in H as [H _].
Qed.

(** C1 (quota): when a batch of deltas has been applied, no user that is still
    active is at or over the data limit. *)
Theorem quota_enforced node ds at_ w w' ids id u :
  ApplyTrafficDeltas node ds at_ w = (w', Ok ids) →
  t_users (w_db w') !! id = Some u → u_Status u = UserStatusActive →
  OverQuota u = false.
Proof.
  intros (w1 & _ & Hs)%ApplyTrafficDeltas_Ok Hu Hact.
  rewrite (sql_suspend_users _ _ _ _ _ Hs) in Hu. apply fmap_Some in Hu as (u1 & Hu1 & ->).
  pose proof (sql_suspend_no_overflow _ _ _ _ _ _ Hs Hu1) as Ho.
  destruct (quota_crossed u1) eqn:Hc; [done|].
  by rewrite <- quota_crossed_OverQuota.
Qed.

(** The users a batch pushes over their limit. *)
Definition crosses (ds : list TrafficDelta) (u : User) : bool :=
  String.eqb (u_Status u) UserStatusActive &&
  match u_DataLimitBytes u with
  | Some limit =>
      bool_decide (limit ≤ u_UsedUploadBytes u + up_sum (u_ID u) ds
                           + (u_UsedDownloadBytes u + down_sum (u_ID u) ds))
  | None => false
  end.

(** C21 (metering): an applied batch adds to every user's counters exactly the
    bytes it carries for that user, suspends exactly the active users whose
    new total reaches their limit, changes no other status, and reports
    exactly the suspended ones. *)
Theorem batch_exact node ds at_ w w' ids id u :
  db_ok (w_db (tx_start w)) →
  ApplyTrafficDeltas node ds at_ w = (w', Ok ids) →
  t_users (w_db (tx_start w)) !! id = Some u →
  ∃ u', t_users (w_db w') !! id = Some u' ∧
    u_UsedUploadBytes u' = u_UsedUploadBytes u + up_sum id ds ∧
    u_UsedDownloadBytes u' = u_UsedDownloadBytes u + down_sum id ds ∧
    u_Status u' = (if crosses ds u then UserStatusSuspended else u_Status u) ∧
    (id ∈ ids ↔ crosses ds u = true).
Proof.
  intros Hok (w1 & Hd & Hs)%ApplyTrafficDeltas_Ok Hu.
  assert (u_ID u = id) as Hid by apply (users_keyed _ (ok_users _ Hok) _ _ Hu).
  pose proof (apply_deltas_users _ _ _ _ _ _ id Hd) as Hm. rewrite Hu in Hm.
  inversion Hm as [? u1 [t Hu1] Hx Hy|]. symmetry in Hy.
  assert (crosses ds u = quota_crossed u1) as Hc by (by rewrite Hu1, <- Hid).
  exists (if crosses ds u then suspend_row (clock (w_k w)) u1 else u1). split_and!.
  - by rewrite (sql_suspend_users _ _ _ _ _ Hs), Hy, Hc.
  - by destruct (crosses ds u); rewrite Hu1.
  - by destruct (crosses ds u); rewrite Hu1.
  - by destruct (crosses ds u); rewrite Hu1.
  - rewrite (sql_suspend_ids _ _ _ _ _ (apply_deltas_keyed _ _ _ _ _ _ Hok Hd) Hs), Hc.
    split; [|by eauto]. intros (u2 & Hu2 & Hq). congruence.
Qed.

(** Atomicity: a batch that is reported as failed left nothing behind. *)
Theorem batch_atomic `{!CleanFaults P} node ds at_ w w' e :
  ApplyTrafficDeltas node ds at_ w = (w', Err e) → w_db w' = w_db (tx_start w).
Proof. apply WithTx_Err. Qed.
End Metering.
