(* ===== verification/Collection.v ===== *)
(** * Conservation of traffic through a collection pass

    [collect] (src/internal/worker/collector.go) reads and resets a node's
    counters, merges them into the actor's buffer and flushes the buffer to the
    database.  For every user, the counter plus what the buffer still owes
    grows by exactly what the node reported, whether or not the database write
    succeeds. *)

From stdpp Require Import base gmap strings list fin_maps sets.
From Stdlib Require Import ZArith Lia.
From S2P Require Import Prelude Domain Database World StoreBase StoreUsers StoreAssignments StoreTraffic StoreAdmin.
From S2P Require Import GoStd Xray Worker Metering.
Local Open Scope Z_scope.

(** ** 64-bit sums *)

Lemma int64_add_l a b : int64 (int64 a + b) = int64 (a + b).
Proof.
  unfold int64. f_equal.
  replace ((a + 2 ^ 63) mod 2 ^ 64 - 2 ^ 63 + b + 2 ^ 63) with ((a + 2 ^ 63) mod 2 ^ 64 + b) by lia.
  rewrite Z.add_mod_idemp_l by lia. f_equal. lia.
Qed.
Lemma int64_add_r a b : int64 (a + int64 b) = int64 (a + b).
Proof. by rewrite Z.add_comm, int64_add_l, Z.add_comm. Qed.

(** ** Buffers *)

(** What a buffer owes to an email, in the direction [get] selects. *)
Definition owed (get : UserTraffic → Z) (m : gmap string UserTraffic) (e : string) : Z :=
  default 0 (get <$> m !! e).

Definition pending_ok (m : gmap string UserTraffic) : Prop :=
  map_Forall (λ e t, t_Email t = e ∧ int64_range (t_Uplink t) ∧ int64_range (t_Downlink t)) m.

(** A direction of the counters: [get] reads it and [name] is how Xray calls it. *)
Inductive direction : (UserTraffic → Z) → string → Prop :=
| dir_up : direction t_Uplink "uplink"
| dir_down : direction t_Downlink "downlink".

Lemma owed_range get name m e : direction get name → pending_ok m → int64_range (owed get m e).
Proof.
  intros Hd Hm. unfold owed. destruct (m !! e) as [t|] eqn:Ht; cbn.
  - destruct (Hm _ _ Ht) as (_ & ? & ?). by destruct Hd.
  - unfold int64_range. lia.
Qed.

Lemma owed_insert get m e t e' :
  owed get (<[e := t]> m) e' = if decide (e = e') then get t else owed get m e'.
Proof.
  unfold owed. case_decide; subst; [by rewrite lookup_insert_eq|by rewrite lookup_insert_ne].
Qed.

(** *** merge_traffic *)

(** The bytes a batch of readings holds for an email. *)
Definition read_total (get : UserTraffic → Z) (e : string) (traffic : list UserTraffic) : Z :=
  foldr (λ t n, if String.eqb (t_Email t) e then get t + n else n) 0 traffic.

Definition reading_ok (t : UserTraffic) : Prop :=
  int64_range (t_Uplink t) ∧ int64_range (t_Downlink t).

Lemma merge_one_ok m t : pending_ok m → reading_ok t → pending_ok (merge_one m t).
Proof.
  intros Hm [Hu Hd]. unfold merge_one. destruct (m !! t_Email t) as [p|] eqn:Hp;
    apply map_Forall_insert_2; try done; cbn.
  destruct (Hm _ _ Hp) as (? & _ & _). split_and!; auto using int64_in_range.
Qed.

Lemma merge_one_owed get name m t e :
  direction get name → pending_ok m → reading_ok t →
  owed get (merge_one m t) e =
  if String.eqb (t_Email t) e then int64 (owed get m e + get t) else owed get m e.
Proof.
  intros Hd Hm [Hu Hdn]. unfold merge_one.
  destruct (m !! t_Email t) as [p|] eqn:Hp; rewrite owed_insert;
    destruct (String.eqb_spec (t_Email t) e) as [<-|Hne];
    rewrite ?decide_True, ?decide_False by done; try done.
  - unfold owed. rewrite Hp. by destruct Hd.
  - unfold owed. rewrite Hp. cbn. rewrite Z.add_0_l. destruct Hd; by rewrite int64_id.
Qed.

Lemma merge_traffic_owed get name e traffic : ∀ m,
  direction get name → pending_ok m → Forall reading_ok traffic →
  pending_ok (merge_traffic m traffic) ∧
  owed get (merge_traffic m traffic) e = int64 (owed get m e + read_total get e traffic).
Proof.
  unfold merge_traffic, read_total.
  induction traffic as [|t traffic IH]; intros m Hd Hm Ht; cbn.
  - split; [done|]. rewrite Z.add_0_r, int64_id; [done|]. by eapply owed_range.
  - inversion Ht; subst.
    destruct (IH (merge_one m t)) as [Hok Heq]; [done|by apply merge_one_ok|done|].
    split; [done|]. rewrite Heq, (merge_one_owed _ name) by done.
    destruct (String.eqb _ _); [|done]. rewrite int64_add_l. f_equal. lia.
Qed.

(** *** The statistics reply *)

(** The counters of a reply that belong to an email, in one direction. *)
Definition stat_total (name e : string) (stats : list Stat) : Z :=
  foldr (λ st n, if decide (parseUserStatName (st_Name st) = Some (e, name))
                 then st_Value st + n else n) 0 stats.

Lemma parse_dir s e d : parseUserStatName s = Some (e, d) → d = "uplink" ∨ d = "downlink".
Proof.
  unfold parseUserStatName. intros (r & _ & H)%bind_Some.
  apply bind_Some in H as ([b a] & _ & H). cbv zeta in H. case_match eqn:Hc; [done|].
  injection H as <- <-. apply orb_false_iff in Hc as [_ Hc%negb_false_iff].
  unfold one_of in Hc. cbn in Hc. rewrite orb_false_r in Hc.
  apply orb_true_iff in Hc as [Hc|Hc]; apply String.eqb_eq in Hc; auto.
Qed.

Lemma add_stat_owed get name m st e :
  direction get name → pending_ok m →
  pending_ok (add_stat m st) ∧
  owed get (add_stat m st) e =
  if decide (parseUserStatName (st_Name st) = Some (e, name))
  then int64 (owed get m e + st_Value st) else owed get m e.
Proof.
  intros Hd Hm. unfold add_stat.
  destruct (parseUserStatName (st_Name st)) as [[em d]|] eqn:Hp;
    [|by rewrite decide_False].
  set (ut := default (mkUserTraffic em 0 0) (m !! em)).
  assert (t_Email ut = em ∧ int64_range (t_Uplink ut) ∧ int64_range (t_Downlink ut)) as (Hem & Hu & Hdn).
  { subst ut. destruct (m !! em) as [t|] eqn:Ht; [by apply Hm|]. cbn.
    unfold int64_range. split_and!; done. }
  assert (∀ g n, direction g n → g ut = owed g m em) as Hget.
  { intros g n Hg. subst ut. unfold owed. destruct (m !! em); [done|]. by destruct Hg. }
  split.
  - apply map_Forall_insert_2; [|done].
    destruct (String.eqb d "uplink"); cbn; auto using int64_in_range.
  - rewrite owed_insert. destruct (decide (em = e)) as [<-|Hne].
    2: { rewrite decide_False; [done|congruence]. }
    apply parse_dir in Hp.
    destruct Hd, Hp as [->| ->]; cbn; rewrite ?decide_True, ?decide_False by congruence;
      by erewrite <- Hget by constructor.
Qed.

Lemma stats_owed get name e stats : ∀ m,
  direction get name → pending_ok m →
  pending_ok (foldl add_stat m stats) ∧
  owed get (foldl add_stat m stats) e = int64 (owed get m e + stat_total name e stats).
Proof.
  unfold stat_total. induction stats as [|st stats IH]; intros m Hd Hm; cbn [foldl foldr].
  - split; [done|]. rewrite Z.add_0_r, int64_id; [done|]. by eapply owed_range.
  - destruct (add_stat_owed get name m st e Hd Hm) as [Hok Hst].
    destruct (IH (add_stat m st) Hd Hok) as [Hok' Heq].
    split; [done|]. rewrite Heq, Hst. case_decide; [|done]. rewrite int64_add_l. f_equal. lia.
Qed.

(** A buffer read back as a list of readings owes the same. *)
Lemma read_total_map get e (m : gmap string UserTraffic) :
  map_Forall (λ k t, t_Email t = k) m →
  read_total get e (map_to_list m).*2 = owed get m e.
Proof.
  unfold read_total, owed. induction m as [|k t m Hk Hfold IH] using map_first_key_ind; [done|].
  intros Hm. rewrite map_to_list_insert_first_key by done. cbn.
  apply map_Forall_insert in Hm as [Ht Hm]; [|done]. rewrite (IH Hm), Ht.
  destruct (String.eqb_spec k e) as [->|Hne].
  - rewrite lookup_insert_eq, Hk. cbn. lia.
  - by rewrite lookup_insert_ne.
Qed.

Lemma user_traffic_spec get name e stats :
  direction get name →
  Forall reading_ok (user_traffic stats) ∧
  read_total get e (user_traffic stats) = int64 (stat_total name e stats).
Proof.
  intros Hd. destruct (stats_owed get name e stats ∅ Hd) as [Hok Heq]; [apply map_Forall_empty|].
  unfold user_traffic. split.
  - apply Forall_forall. intros t (kv & -> & Hkv)%list_elem_of_fmap. destruct kv as [k t].
    apply elem_of_map_to_list in Hkv. by destruct (Hok _ _ Hkv) as (_ & ?).
  - rewrite read_total_map; [done|]. intros k t Ht. by destruct (Hok _ _ Ht).
Qed.

(** ** The deltas of a flush *)

(** Which way of reading a delta corresponds to a direction. *)
Definition delta_get (get : UserTraffic → Z) (d : TrafficDelta) : Z :=
  get (mkUserTraffic "" (td_Uplink d) (td_Downlink d)).

Lemma deltas_sum get name (ids : gmap string string) id e (l : list (string * UserTraffic)) :
  direction get name → NoDup l.*1 →
  (∀ k, k ∈ l.*1 → ids !! k = Some id ↔ k = e) →
  delta_sum (delta_get get) id (l ≫= λ '(k, t),
    match ids !! k with Some i => [mkTrafficDelta i (t_Uplink t) (t_Downlink t)] | None => [] end) =
  owed get (list_to_map l) e.
Proof.
  intros Hd. induction l as [|[k t] l IH]; intros Hnd Hids; cbn [fmap list_fmap fst] in *; [done|].
  apply NoDup_cons in Hnd as [Hk Hnd].
  cbn [mbind list_bind]. rewrite delta_sum_app, IH; [|done|].
  2: { intros k' Hk'. apply Hids. by right. }
  cbn [list_to_map foldr]. unfold owed at 2. cbn.
  pose proof (Hids k) as [H1 H2]; [by left|].
  destruct (decide (k = e)) as [<-|Hne].
  - rewrite (H2 eq_refl). rewrite lookup_insert_eq. unfold owed.
    rewrite not_elem_of_list_to_map_1 by done. unfold delta_sum; cbn.
    rewrite String.eqb_refl. destruct Hd; cbn; lia.
  - rewrite lookup_insert_ne by done. fold (owed get (list_to_map l) e).
    destruct (ids !! k) as [i|] eqn:Hi; [|done]. unfold delta_sum; cbn.
    destruct (String.eqb_spec i id) as [->|]; [by destruct Hne; auto|lia].
Qed.

Lemma deltas_of_sum get name m ids id e :
  direction get name →
  (∀ k, is_Some (m !! k) → ids !! k = Some id ↔ k = e) →
  delta_sum (delta_get get) id (deltas_of m ids) = owed get m e.
Proof.
  intros Hd Hids. unfold deltas_of. rewrite (deltas_sum get name _ _ e).
  - by rewrite list_to_map_to_list.
  - done.
  - apply NoDup_fst_map_to_list.
  - intros k ((k' & t) & -> & Hkt)%list_elem_of_fmap. apply elem_of_map_to_list in Hkt.
    apply Hids. eauto.
Qed.

Lemma delta_get_up : delta_sum (delta_get t_Uplink) = up_sum.
Proof. done. Qed.
Lemma delta_get_down : delta_sum (delta_get t_Downlink) = down_sum.
Proof. done. Qed.

(** ** Resolving emails *)

Definition ids_by_email (emails : list string) (db : DB) : gmap string string :=
  list_to_map ((λ u, (u_Email u, u_ID u)) <$>
    filter (λ u, u_Email u ∈ emails) (map_to_list (t_users db)).*2).

Lemma ids_by_email_lookup emails db e id :
  db_ok db →
  ids_by_email emails db !! e = Some id ↔
  e ∈ emails ∧ ∃ u, t_users db !! id = Some u ∧ u_Email u = e.
Proof.
  intros Hok. destruct (ok_users _ Hok) as [Hkey Hem _ _ _ _].
  unfold ids_by_email. rewrite <- elem_of_list_to_map.
  - rewrite list_elem_of_fmap. split.
    + intros (u & Heq & [Hin (kv & -> & Hkv)%list_elem_of_fmap]%list_elem_of_filter).
      destruct kv as [k u]. apply elem_of_map_to_list in Hkv. cbn in *.
      injection Heq as -> ->. split; [done|]. exists u. by rewrite (Hkey _ _ Hkv).
    + intros (Hin & u & Hu & <-). exists u. rewrite (Hkey _ _ Hu). split; [done|].
      apply list_elem_of_filter. split; [done|]. apply list_elem_of_fmap.
      exists (id, u). split; [done|]. by apply elem_of_map_to_list.
  - rewrite <- list_fmap_compose. apply NoDup_fmap_2_strong.
    + intros u v [_ (ku & Heu & Hu)%list_elem_of_fmap]%list_elem_of_filter
        [_ (kv & Hev & Hv)%list_elem_of_fmap]%list_elem_of_filter Heq.
      destruct ku as [i u'], kv as [j v']. cbn in *. subst u' v'.
      apply elem_of_map_to_list in Hu, Hv.
      assert (i = j) as -> by (eapply Hem; eauto; cbn; congruence). congruence.
    + apply NoDup_filter. apply NoDup_fmap_2_strong.
      * intros [i u] [j v] Hu%elem_of_map_to_list Hv%elem_of_map_to_list Heq. cbn in *. subst v.
        f_equal. by rewrite <- (Hkey _ _ Hu), <- (Hkey _ _ Hv).
      * apply NoDup_map_to_list.
Qed.

Section Collection.
Context {P : Platform} `{!Alone P}.

Lemma exec_select_Ok {A} (f : DB → A) w w' r :
  exec (select f) w = (w', Ok r) → r = f (w_db w).
Proof. unfold exec, select. rewrite alone. by destruct (fault_at (w_k w)) as [|[]]; intros [= _ <-]. Qed.

(** What the tail of a flush must leave alone. *)
Definition settled (a : nat) (db : DB) (m : gmap string UserTraffic) (w : World) : Prop :=
  w_db w = db ∧ a_pendingDeltas <$> w_heap w !! a = Some m.

Lemma settled_trigger a db m b : preserves (settled a db m) (triggerReconcile b).
Proof.
  intros w [Hdb Hm]. split; [done|]. cbn. rewrite lookup_alter. case_decide; [subst|done].
  by destruct (w_heap w !! a).
Qed.
Lemma settled_metric a db m n l z : preserves (settled a db m) (metric_add n l z).
Proof. by intros w. Qed.
Lemma settled_Reconcile a db m id : preserves (settled a db m) (Worker.Reconcile id).
Proof. unfold Worker.Reconcile. go_inv. apply settled_trigger. Qed.
Lemma settled_targets a db m l : ∀ seen, preserves (settled a db m) (trigger_targets seen l).
Proof. induction l; intros seen; cbn; go_inv. apply settled_Reconcile. Qed.
Lemma settled_reads a db m {A} (q : Sql A) : reads q → preserves (settled a db m) (exec q).
Proof.
  intros Hq w [Hdb Hm]. split; [by rewrite exec_reads|].
  pose proof (exec_free (λ w, a_pendingDeltas <$> w_heap w !! a = Some m)
    (DbFree0 := ltac:(by intros ?)) q w Hm) as H. exact H.
Qed.
Lemma settled_tail a db m ids : preserves (settled a db m) (for_each ids suspended_one).
Proof.
  unfold suspended_one, ReconcileForUser, AssignmentTargetsForUser, queryDesired.
  go_inv; first [apply settled_metric | apply settled_targets | apply settled_reads; auto with reads].
Qed.

(** The counter a direction reads on a user. *)
Definition used (get : UserTraffic → Z) (u : User) : Z :=
  get (mkUserTraffic "" (u_UsedUploadBytes u) (u_UsedDownloadBytes u)).

(** The meter of a user on a node: the counter plus what the actor buffers. *)
Definition meter (get : UserTraffic → Z) (u : User) (x : nodeActor) : Z :=
  used get u + owed get (a_pendingDeltas x) (u_Email u).

Lemma batch_meter get name m db node at_ w w' ids id u :
  direction get name → db_ok db → w_db w = db →
  ApplyTrafficDeltas node (deltas_of m (ids_by_email (map_to_list m).*1 db)) at_ w = (w', Ok ids) →
  t_users db !! id = Some u →
  ∃ u', t_users (w_db w') !! id = Some u' ∧ u_Email u' = u_Email u ∧
    used get u' = used get u + owed get m (u_Email u).
Proof.
  intros Hd Hok Hdb (w1 & Hds & Hs)%ApplyTrafficDeltas_Ok Hu.
  assert (w_db (tx_start w) = db) as Hst by (cbn; by rewrite alone).
  pose proof (apply_deltas_users _ _ _ _ _ _ id Hds) as Hm. rewrite Hst, Hu in Hm.
  inversion Hm as [? u1 [t Hu1] Hx Hy|]. symmetry in Hy.
  assert (delta_sum (delta_get get) id (deltas_of m (ids_by_email (map_to_list m).*1 db))
          = owed get m (u_Email u)) as Hsum.
  { apply (deltas_of_sum _ name); [done|]. intros k [t' Hk].
    rewrite ids_by_email_lookup by done. split.
    - intros (_ & v & Hv & <-). congruence.
    - intros ->. split; [|by eauto]. apply list_elem_of_fmap. exists (u_Email u, t').
      split; [done|]. by apply elem_of_map_to_list. }
  eexists. split; [by rewrite (sql_suspend_users _ _ _ _ _ Hs), Hy|].
  rewrite <- Hsum, Hu1. destruct (quota_crossed _); (split; [done|]); by destruct Hd.
Qed.

Context `{!CleanFaults P}.

(** No operation of the store touches the actors. *)
#[local] Instance heap_free h : DbFree (λ w, w_heap w = h).
Proof. by intros w. Qed.

Lemma ApplyTrafficDeltas_heap node ds at_ w :
  w_heap (ApplyTrafficDeltas node ds at_ w).1 = w_heap w.
Proof.
  apply (WithTx_free (λ w', w_heap w' = w_heap w)); [|done]. unfold apply_delta. go_inv.
Qed.

Lemma record_collected_total name d : never_fails (record_collected name d).
Proof. intros w. by eexists _, _. Qed.

Lemma record_all name ds : ∀ w, ∃ w',
  for_each ds (record_collected name) w = (w', Ok tt) ∧ w_db w' = w_db w ∧ w_heap w' = w_heap w.
Proof.
  induction ds as [|d ds IH]; intros w; cbn [for_each]; [by exists w|].
  destruct (IH (record_collected name d w).1) as (w' & H & Hd & Hh). exists w'. by split.
Qed.

Lemma UserIDsByEmail_run emails w w' r :
  emails ≠ [] → UserIDsByEmail emails w = (w', r) →
  w_db w' = w_db w ∧ w_heap w' = w_heap w ∧
  ∀ ids, r = Ok ids → ids = ids_by_email emails (w_db w).
Proof.
  intros Hne. unfold UserIDsByEmail, map_err. destruct emails as [|e0 es]; [done|].
  change (λ db, list_to_map _) with (ids_by_email (e0 :: es)).
  pose proof (exec_reads (select (ids_by_email (e0 :: es))) w (select_reads _)) as Hdb.
  pose proof (exec_free (λ w', w_heap w' = w_heap w) (select (ids_by_email (e0 :: es))) w eq_refl) as Hh.
  pose proof (exec_select_Ok (ids_by_email (e0 :: es)) w) as Hr.
  destruct (exec _ w) as [w1 [ids|e]]; intros [= <- <-]; cbn in *; (split_and!; [done..|]);
    intros ? [= <-]. by eapply Hr.
Qed.

Lemma flush_meter get name a w x id u :
  direction get name → db_ok (w_db w) → w_heap w !! a = Some x →
  t_users (w_db w) !! id = Some u →
  ∃ u' x', t_users (w_db (flush a w).1) !! id = Some u' ∧
    w_heap (flush a w).1 !! a = Some x' ∧ u_Email u' = u_Email u ∧
    (a_pendingDeltas x' = a_pendingDeltas x ∨ a_pendingDeltas x' = ∅) ∧
    meter get u' x' = meter get u x.
Proof.
  intros Hd Hok Hx Hu. unfold flush, bind, actor. rewrite Hx.
  case_bool_decide as Hne; [exists u, x; split_and!; auto|].
  destruct (UserIDsByEmail _ w) as [w1 r1] eqn:H1.
  apply UserIDsByEmail_run in H1 as (Hdb1 & Hh1 & Hids).
  2: { intros Hes. by apply fmap_nil_inv, map_to_list_empty_iff in Hes. }
  destruct r1 as [ids|e]; [|cbn; exists u, x; rewrite Hdb1, Hh1; split_and!; auto].
  rewrite (Hids ids eq_refl). cbn [time_Now].
  set (ds := deltas_of _ _). set (w2 := w_tick w1).
  pose proof (ApplyTrafficDeltas_heap (n_ID (a_node x)) ds (clock (w_k w1)) w2) as Hh2.
  destruct (ApplyTrafficDeltas _ ds _ w2) as [w3 [over|e]] eqn:H3; cbn in Hh2.
  2: { apply WithTx_Err in H3. cbn in H3. rewrite alone in H3. cbn.
       exists u, x. rewrite H3, Hh2. subst w2. cbn. rewrite Hdb1, Hh1. split_and!; auto. }
  destruct (batch_meter get name _ (w_db w) _ _ _ _ _ id u Hd Hok (Hdb1 : w_db w2 = w_db w) H3 Hu)
    as (u' & Hu' & Hem & Hused).
  destruct (record_all (n_Name (a_node x)) ds w3) as (w4 & -> & Hdb4 & Hh4).
  cbn [set_actor modify].
  set (w5 := w_set_heap _ w4).
  assert (settled a (w_db w3) ∅ w5) as Hset.
  { split; [done|]. cbn. by rewrite lookup_alter_eq, Hh4, Hh2, Hh1, Hx. }
  apply (settled_tail a _ _ over) in Hset as [Hdb5 Hm].
  apply fmap_Some in Hm as (x' & Hx' & Hm).
  exists u', x'. rewrite Hdb5. split_and!; auto.
  unfold meter. rewrite Hem, <- Hm, Hused. unfold owed at 2. rewrite lookup_empty. cbn. lia.
Qed.

(** C2 (conservation): a collection pass over an open connection that read
    [stats] leaves every user's meter, in both directions, higher by exactly
    the counters of that user in the reply (added in 64-bit arithmetic to what
    was still buffered); this holds when the database write fails too, and the
    buffer stays well-formed for the next pass. *)
Theorem collect_conserves get name a w x c n stats id u :
  direction get name → db_ok (w_db w) → w_heap w !! a = Some x →
  pending_ok (a_pendingDeltas x) → a_client x = Some c →
  rpc_QueryStats (w_net w) c "user>>>" true = (n, inr stats) →
  t_users (w_db w) !! id = Some u →
  ∃ u' x', t_users (w_db (collect a w).1) !! id = Some u' ∧
    w_heap (collect a w).1 !! a = Some x' ∧ u_Email u' = u_Email u ∧
    pending_ok (a_pendingDeltas x') ∧
    meter get u' x' =
    used get u + int64 (owed get (a_pendingDeltas x) (u_Email u) + stat_total name (u_Email u) stats).
Proof.
  intros Hd Hok Hx Hp Hc Hq Hu.
  destruct (user_traffic_spec get name (u_Email u) stats Hd) as [Hread Htot].
  destruct (merge_traffic_owed get name (u_Email u) _ _ Hd Hp Hread) as [Hp' Howed].
  rewrite Htot, int64_add_r in Howed.
  unfold collect, ignore, collect_body, ensureClient, bind, actor. rewrite Hx. cbn [fst].
  rewrite Hc. unfold ret, attempt, QueryUserTraffic. rewrite Hq. cbn [set_actor modify].
  set (w1 := w_set_heap _ _).
  assert (w_heap w1 !! a =
    Some (a_set_pendingDeltas (merge_traffic (a_pendingDeltas x) (user_traffic stats)) x)) as Hx1.
  { subst w1. cbn. by rewrite lookup_alter_eq, Hx. }
  destruct (flush_meter get name a w1 _ id u Hd Hok Hx1 Hu) as (u' & x' & Hu' & Hx' & Hem & Hpd & Hm).
  exists u', x'. split_and!; auto.
  - destruct Hpd as [->| ->]; [done|apply map_Forall_empty].
  - rewrite Hm. unfold meter. cbn [a_pendingDeltas a_set_pendingDeltas]. by rewrite Howed.
Qed.
End Collection.
