(* ===== verification/Convergence.v ===== *)
(** * Reconciliation converges a node to the database's desired state

    [reconcile] (src/internal/worker/reconciler.go), over the contract the
    gRPC client offers ([AddUser_spec], [RemoveUser_spec]).  After a pass in
    which the node accepted every push: each account the database wants on the
    node is there (one that was missing with exactly the database's
    credentials), each one it wants gone is gone, all others are untouched,
    tombstoned assignments are deleted, the assignments of inactive users are
    kept, and pushed assignments are marked applied. *)

From stdpp Require Import base gmap strings list fin_maps sets.
From Stdlib Require Import ZArith Lia.
From S2P Require Import Prelude Domain Database World StoreBase StoreUsers StoreAssignments StoreTraffic StoreAdmin.
From S2P Require Import GoStd Xray Worker.
Local Open Scope Z_scope.

(** ** The desired state, as a specification *)

(** Assignment [ui] of user [u] to inbound [i] exists, on node [node]. *)
Definition assigned (db : DB) (node : string) (ui : UserInbound) (i : Inbound) (u : User) : Prop :=
  t_user_inbounds db !! ui_key ui = Some ui ∧
  t_inbounds db !! ui_InboundID ui = Some i ∧ t_users db !! ui_UserID ui = Some u ∧
  ib_NodeID i = node.

Definition keep (ui : UserInbound) (u : User) : Prop :=
  u_Status u = UserStatusActive ∧ ui_SyncStatus ui ≠ SyncRemoving.

(** The account (tag, email) must be on the node, or must not. *)
Definition wanted (db : DB) (node tag email : string) : Prop :=
  ∃ ui i u, assigned db node ui i u ∧ keep ui u ∧ ib_Tag i = tag ∧ u_Email u = email.
Definition unwanted (db : DB) (node tag email : string) : Prop :=
  ∃ ui i u, assigned db node ui i u ∧ ¬ keep ui u ∧ ib_Tag i = tag ∧ u_Email u = email.

(** A tag and an email identify the assignment on a node. *)
Lemma assigned_inj db node ui1 i1 u1 ui2 i2 u2 :
  db_ok db → assigned db node ui1 i1 u1 → assigned db node ui2 i2 u2 →
  ib_Tag i1 = ib_Tag i2 → u_Email u1 = u_Email u2 → ui1 = ui2.
Proof.
  intros Hok (Hr1 & Hi1 & Hu1 & Hn1) (Hr2 & Hi2 & Hu2 & Hn2) Htag Hem.
  assert (ui_InboundID ui1 = ui_InboundID ui2) as Hib.
  { eapply (ok_inbounds_slot _ Hok _ _ _ _ (node, ib_Tag i1) Hi1 Hi2);
      unfold inbound_slot; congruence. }
  assert (ui_UserID ui1 = ui_UserID ui2) as Hus.
  { eapply (users_email _ (ok_users _ Hok) _ _ _ _ (u_Email u1) Hu1 Hu2); cbn; congruence. }
  unfold ui_key in *. rewrite Hib, Hus in Hr1. congruence.
Qed.

(** ** What the queries return *)

(** Its place on the node. *)
Definition d_slot (d : DesiredAssignment) : string * string := (d_InboundTag d, d_Email d).

Definition d_key (d : DesiredAssignment) : string * string := (d_UserID d, d_InboundID d).

Lemma join_row_elem p db ui d :
  d ∈ join_row p db ui ↔
  ∃ i u, t_inbounds db !! ui_InboundID ui = Some i ∧ t_users db !! ui_UserID ui = Some u ∧
         p ui i u = true ∧ d = desired_row ui i u.
Proof.
  unfold join_row. split.
  - repeat case_match; intros Hd; try (by apply not_elem_of_nil in Hd).
    apply list_elem_of_singleton in Hd as ->. eauto 10.
  - intros (i & u & -> & -> & -> & ->). by apply list_elem_of_singleton.
Qed.

Lemma rows_elem db ui :
  db_ok db →
  ui ∈ (map_to_list (t_user_inbounds db)).*2 ↔ t_user_inbounds db !! ui_key ui = Some ui.
Proof.
  intros Hok. rewrite list_elem_of_fmap. split.
  - intros ([k ui'] & -> & Hk%elem_of_map_to_list). cbn.
    pose proof (ok_ui_keyed _ Hok _ _ Hk) as Hkey. cbn in Hkey. by rewrite Hkey.
  - intros Hr. exists (ui_key ui, ui). split; [done|]. by apply elem_of_map_to_list.
Qed.

Lemma join_elem p db d :
  db_ok db →
  d ∈ join_assignments p db ↔
  ∃ ui i u, assigned db (ib_NodeID i) ui i u ∧ p ui i u = true ∧ d = desired_row ui i u.
Proof.
  intros Hok. unfold join_assignments, assigned. rewrite list_elem_of_bind.
  setoid_rewrite join_row_elem. setoid_rewrite (rows_elem db); [|done].
  split; [intros (ui & (i & u & ? & ? & ? & ?) & ?)|intros (ui & i & u & (? & ? & ? & _) & ? & ?)];
    exists ui; eauto 15.
Qed.

Lemma join_NoDup p db : db_ok db → NoDup (d_key <$> join_assignments p db).
Proof.
  intros Hok. unfold join_assignments.
  assert (NoDup (ui_key <$> (map_to_list (t_user_inbounds db)).*2)) as Hnd.
  { rewrite <- list_fmap_compose.
    replace ((ui_key ∘ snd) <$> map_to_list (t_user_inbounds db))
      with (map_to_list (t_user_inbounds db)).*1; [apply NoDup_fst_map_to_list|].
    apply list_fmap_ext. intros j [k ui] Hj%list_elem_of_lookup_2%elem_of_map_to_list.
    symmetry. apply (ok_ui_keyed _ Hok _ _ Hj). }
  assert (∀ ui d, d ∈ join_row p db ui → d_key d = ui_key ui) as Hkey.
  { intros ui d (i & u & _ & _ & _ & ->)%join_row_elem. done. }
  induction ((map_to_list (t_user_inbounds db)).*2) as [|ui l IH]; cbn in *; [constructor|].
  apply NoDup_cons in Hnd as [Hk Hnd]. rewrite fmap_app. apply NoDup_app. split_and!.
  - unfold join_row. repeat case_match; cbn; auto using NoDup_nil_2, NoDup_singleton.
  - intros q (d1 & -> & H1)%list_elem_of_fmap (d2 & Heq & H2)%list_elem_of_fmap.
    apply list_elem_of_bind in H2 as (ui2 & H2 & Hl).
    apply Hk, list_elem_of_fmap. exists ui2. split; [|done].
    by rewrite <- (Hkey _ _ H1), <- (Hkey _ _ H2).
  - by apply IH.
Qed.

(** On one node the slots of the rows differ, too. *)
Lemma join_slots p db node :
  db_ok db → (∀ ui i u, p ui i u = true → ib_NodeID i = node) →
  NoDup (d_slot <$> join_assignments p db).
Proof.
  intros Hok Hp. apply NoDup_fmap_2_strong; [|by eapply NoDup_fmap_1, join_NoDup].
  intros d1 d2 (ui1 & i1 & u1 & Has1 & Hp1 & ->)%join_elem (ui2 & i2 & u2 & Has2 & Hp2 & ->)%join_elem;
    [|done..]. rewrite (Hp _ _ _ Hp1) in Has1. rewrite (Hp _ _ _ Hp2) in Has2. intros [= Ht He].
  assert (ui1 = ui2) as <- by by eapply assigned_inj.
  destruct Has1 as (_ & Hi1 & Hu1 & _), Has2 as (_ & Hi2 & Hu2 & _). congruence.
Qed.

(** ** One push *)

Section Convergence.
Context {P : Platform} `{!Quiet P} `{L : !XrayLaws P}.

(** The accounts at [c] outside the slots of [l] are the same in both states. *)
Definition others_same (c : Conn) (l : list DesiredAssignment) (w w' : World) : Prop :=
  ∀ g e, Forall (λ d, (g, e) ≠ (d_InboundTag d, d_Email d)) l → on_node w' c g e = on_node w c g e.

Definition drop_row (d : DesiredAssignment) (db : DB) : DB :=
  if String.eqb (d_SyncStatus d) SyncRemoving
  then set_user_inbounds (delete (d_key d) (t_user_inbounds db)) db else db.

Lemma remove_one_spec a name c d w w' :
  remove_one a name c d w = (w', Ok tt) →
  on_node w' c (d_InboundTag d) (d_Email d) = None ∧ others_same c [d] w w' ∧
  w_db w' = drop_row d (w_db w).
Proof.
  unfold remove_one, bind at 1, attempt.
  destruct (RemoveUser c (d_InboundTag d) (d_Email d) w) as [w1 [[]|e]] eqn:Hr; [|done].
  apply RemoveUser_spec in Hr as (Hsame & Hgone & Hoth).
  assert (w_db w1 = w_db w) as Hdb by (red in Hsame; by rewrite Hsame).
  intros Hrest. assert (w_net w' = w_net w1 ∧ w_db w' = drop_row d (w_db w)) as [Hn Hd].
  { revert Hrest. unfold drop_row. destruct (String.eqb (d_SyncStatus d) SyncRemoving).
    - unfold ignore, DeleteAssignment, map_err. rewrite exec_quiet. cbn. rewrite Hdb.
      by intros [= <-].
    - by intros [= <-]. }
  split_and!; [| |done].
  - unfold on_node. rewrite Hn. by apply Hgone.
  - intros g e [Hne _]%Forall_cons_1. unfold on_node in *. rewrite Hn. by apply Hoth.
Qed.

Lemma remove_one_total a name c d w :
  accepts c → ∃ w', remove_one a name c d w = (w', Ok tt).
Proof.
  intros Hacc. unfold remove_one, bind, attempt.
  destruct (RemoveUser_total c (d_InboundTag d) (d_Email d) w Hacc) as [w1 ->].
  destruct (String.eqb _ _); by eexists.
Qed.

Definition mark_row (t : Time) (d : DesiredAssignment) (db : DB) : DB :=
  if String.eqb (d_SyncStatus d) SyncApplied then db
  else set_user_inbounds
         (alter (λ ui, mkUserInbound (ui_UserID ui) (ui_InboundID ui) SyncApplied (Some t) "")
            (d_key d) (t_user_inbounds db)) db.

(** The slot of [d] after its push, compared to before. *)
Definition pushed_at (c : Conn) (w w' : World) (d : DesiredAssignment) : Prop :=
  pushed (accountFor d) (on_node w c (d_InboundTag d) (d_Email d))
    (on_node w' c (d_InboundTag d) (d_Email d)).

Lemma add_one_spec a name c d w w' :
  add_one a name c d w = (w', Ok tt) →
  pushed_at c w w' d ∧ others_same c [d] w w' ∧
  ∃ t, w_db w' = mark_row t d (w_db w).
Proof.
  unfold add_one, bind at 1, attempt.
  destruct (AddUser c (d_InboundTag d) (accountFor d) w) as [w1 [[]|e]] eqn:Hr; [|done].
  apply AddUser_spec in Hr as (Hsame & Hthere & Hoth).
  assert (w_db w1 = w_db w) as Hdb by (red in Hsame; by rewrite Hsame).
  intros Hrest. assert (w_net w' = w_net w1 ∧ ∃ t, w_db w' = mark_row t d (w_db w)) as [Hn Hd].
  { revert Hrest. unfold mark_row. destruct (String.eqb (d_SyncStatus d) SyncApplied); cbn [negb].
    - intros [= <-]. rewrite Hdb. split; [done|]. by exists 0.
    - unfold ignore, MarkAssignmentSynced, map_err, bind. cbn [String.eqb SyncApplied].
      cbn. rewrite exec_quiet. cbn. rewrite Hdb. intros [= <-]. split; [done|]. by eexists. }
  split_and!; [| |done].
  - unfold pushed_at, on_node in *. rewrite Hn. by apply Hthere.
  - intros g e [Hne _]%Forall_cons_1. unfold on_node in *. rewrite Hn. by apply Hoth.
Qed.

Lemma add_one_total a name c d u w :
  accepts c → buildUser (accountFor d) = Ok u → ∃ w', add_one a name c d w = (w', Ok tt).
Proof.
  intros Hacc Hb. unfold add_one, bind, attempt.
  destruct (AddUser_total c (d_InboundTag d) (accountFor d) u w Hacc Hb) as [w1 ->].
  destruct (negb _); by eexists.
Qed.

(** ** The two loops *)

Lemma others_same_trans c l1 l2 w1 w2 w3 :
  others_same c l1 w1 w2 → others_same c l2 w2 w3 → others_same c (l1 ++ l2) w1 w3.
Proof.
  intros H1 H2 g e [F1 F2]%Forall_app. by rewrite (H2 g e F2), (H1 g e F1).
Qed.

(** A slot settled by the first push stays settled if the others only settle
    their own slots the same way. *)
Lemma settled_cons (Q : option ProtoUser → Prop) c d l w1 w2 :
  Q (on_node w1 c (d_InboundTag d) (d_Email d)) → others_same c l w1 w2 →
  Forall (λ d, Q (on_node w2 c (d_InboundTag d) (d_Email d))) l →
  Forall (λ d, Q (on_node w2 c (d_InboundTag d) (d_Email d))) (d :: l).
Proof.
  intros Hd Hoth Hl. constructor; [|done].
  destruct (decide (Forall (λ d', (d_InboundTag d, d_Email d) ≠ (d_InboundTag d', d_Email d')) l))
    as [Hf|Hf].
  - by rewrite (Hoth _ _ Hf).
  - apply not_Forall_Exists in Hf; [|apply _].
    apply Exists_exists in Hf as (d' & Hin & Heq%dec_stable). injection Heq as -> ->.
    rewrite Forall_forall in Hl. by apply Hl.
Qed.

Lemma remove_all_spec a name c l : ∀ w w',
  for_each l (remove_one a name c) w = (w', Ok tt) →
  Forall (λ d, on_node w' c (d_InboundTag d) (d_Email d) = None) l ∧
  others_same c l w w' ∧ w_db w' = foldl (λ db d, drop_row d db) (w_db w) l.
Proof.
  induction l as [|d l IH]; intros w w'; cbn [for_each].
  - intros [= <-]. split_and!; [constructor| |done]. by intros g e _.
  - unfold bind. destruct (remove_one a name c d w) as [w1 [[]|e]] eqn:H1; [|done].
    intros H2. apply remove_one_spec in H1 as (Hg & Ho & Hdb). apply IH in H2 as (Hl & Hol & Hdbl).
    split_and!.
    + by eapply (settled_cons (λ o, o = None)).
    + by eapply (others_same_trans c [d] l).
    + by rewrite Hdbl, Hdb.
Qed.

Lemma remove_all_total a name c l : ∀ w,
  accepts c → ∃ w', for_each l (remove_one a name c) w = (w', Ok tt).
Proof.
  intros w Hacc. destruct (for_each_never_fails l (remove_one a name c)) with w as (w' & [] & H).
  - intros d w1. destruct (remove_one_total a name c d w1 Hacc) as [w2 H]. eauto.
  - eauto.
Qed.

Lemma add_all_spec a name c l : ∀ w w',
  NoDup (d_key <$> l) → NoDup (d_slot <$> l) → for_each l (add_one a name c) w = (w', Ok tt) →
  Forall (pushed_at c w w') l ∧
  others_same c l w w' ∧
  (∀ k, k ∉ d_key <$> l → t_user_inbounds (w_db w') !! k = t_user_inbounds (w_db w) !! k) ∧
  (∀ d ui, d ∈ l → t_user_inbounds (w_db w) !! d_key d = Some ui → d_SyncStatus d = ui_SyncStatus ui →
     ∃ ui', t_user_inbounds (w_db w') !! d_key d = Some ui' ∧ ui_SyncStatus ui' = SyncApplied).
Proof.
  induction l as [|d l IH]; intros w w' Hnd Hnds; cbn [for_each].
  - intros [= <-]. split_and!; [constructor|by intros g e _|done|].
    intros d ui Hd. by apply not_elem_of_nil in Hd.
  - cbn in Hnd, Hnds. apply NoDup_cons in Hnd as [Hk Hnd]. apply NoDup_cons in Hnds as [Hks Hnds].
    assert (∀ d', d' ∈ l → d_slot d' ≠ d_slot d) as Hslot.
    { intros d' Hd' Heq. apply Hks. rewrite <- Heq. by apply list_elem_of_fmap_2. }
    unfold bind.
    destruct (add_one a name c d w) as [w1 [[]|e]] eqn:H1; [|done].
    intros H2. apply add_one_spec in H1 as (Hg & Ho & t & Hdb).
    destruct (IH _ _ Hnd Hnds H2) as (Hl & Hol & Hrest & Hown).
    assert (∀ k, k ≠ d_key d → t_user_inbounds (w_db w1) !! k = t_user_inbounds (w_db w) !! k) as Hne.
    { intros k Hne. rewrite Hdb. unfold mark_row. case_match; [done|]. cbn.
      by rewrite lookup_alter_ne. }
    split_and!.
    + constructor.
      * unfold pushed_at. rewrite (Hol (d_InboundTag d) (d_Email d)); [done|].
        apply Forall_forall. intros d' Hd' Heq. by apply (Hslot d' Hd').
      * rewrite Forall_forall in Hl |- *. intros d' Hd'. specialize (Hl d' Hd').
        unfold pushed_at in Hl |- *. rewrite <- (Ho (d_InboundTag d') (d_Email d')); [done|].
        apply Forall_singleton. by apply Hslot.
    + by eapply (others_same_trans c [d] l).
    + cbn. intros k [Hk1 Hk2]%not_elem_of_cons. rewrite Hrest by done. by apply Hne.
    + intros d' ui [->|Hd']%elem_of_cons Hui Hst.
      * rewrite (Hrest _ Hk), Hdb. unfold mark_row.
        destruct (String.eqb_spec (d_SyncStatus d) SyncApplied) as [Heq|_].
        -- exists ui. split; [done|]. congruence.
        -- cbn. rewrite lookup_alter_eq, Hui. by eexists.
      * apply (Hown d' ui Hd'); [|done]. rewrite Hne; [done|].
        intros Heq. apply Hk. rewrite <- Heq. by apply list_elem_of_fmap_2.
Qed.

Lemma add_all_total a name c l : ∀ w,
  accepts c → Forall (λ d, is_ok (buildUser (accountFor d)) = true) l →
  ∃ w', for_each l (add_one a name c) w = (w', Ok tt).
Proof.
  induction l as [|d l IH]; intros w Hacc Hb; cbn [for_each]; [by eexists|].
  apply Forall_cons in Hb as [Hd Hb].
  destruct (buildUser (accountFor d)) as [u|] eqn:Hu; [|done].
  destruct (add_one_total a name c d u w Hacc Hu) as [w1 H1].
  unfold bind. rewrite H1. by apply IH.
Qed.

(** ** The deletions, as one update of the table *)

Lemma drop_rows l : ∀ db,
  ∃ rows, foldl (λ db d, drop_row d db) db l = set_user_inbounds rows db ∧
  ∀ k, (rows !! k = None ∧ (∃ d, d ∈ l ∧ d_SyncStatus d = SyncRemoving ∧ d_key d = k)) ∨
       (rows !! k = t_user_inbounds db !! k ∧
        ∀ d, d ∈ l → d_SyncStatus d = SyncRemoving → d_key d ≠ k).
Proof.
  induction l as [|d l IH]; intros db; cbn [foldl].
  - exists (t_user_inbounds db). split; [by destruct db|]. intros k. right. split; [done|].
    intros d Hd. by apply not_elem_of_nil in Hd.
  - destruct (IH (drop_row d db)) as (rows & Heq & Hrows). exists rows. split.
    { rewrite Heq. unfold drop_row. by destruct (String.eqb _ _). }
    intros k. destruct (Hrows k) as [(Hno & d' & Hin & Hd')|[Hsame Hnone]].
    { left. split; [done|]. exists d'. split; [by right|done]. }
    unfold drop_row in Hsame.
    destruct (String.eqb_spec (d_SyncStatus d) SyncRemoving) as [Hrm|Hrm]; cbn in Hsame.
    + destruct (decide (d_key d = k)) as [<-|Hne].
      * left. rewrite lookup_delete_eq in Hsame. split; [done|]. exists d. split; [by left|done].
      * right. rewrite lookup_delete_ne in Hsame by done. split; [done|].
        intros d' [->|Hd']%elem_of_cons; auto.
    + right. split; [done|]. intros d' [->|Hd']%elem_of_cons; auto.
Qed.

Lemma drop_rows_ok l : ∀ db, db_ok db → db_ok (foldl (λ db d, drop_row d db) db l).
Proof.
  induction l as [|d l IH]; intros db Hok; cbn [foldl]; [done|]. apply IH. unfold drop_row.
  destruct (String.eqb _ _); [|done].
  by apply (sql_delete_assignment_ok (d_UserID d) (d_InboundID d) 0 db _ tt).
Qed.

(** ** A whole pass *)

Lemma is_removal_spec node ui i u :
  is_removal node ui i u = true ↔ ib_NodeID i = node ∧ ¬ keep ui u.
Proof.
  unfold is_removal, keep. rewrite andb_true_iff, orb_true_iff, negb_true_iff, !String.eqb_eq,
    String.eqb_neq. destruct (decide (u_Status u = UserStatusActive)),
    (decide (ui_SyncStatus ui = SyncRemoving)); tauto.
Qed.
Lemma is_desired_spec node ui i u :
  is_desired node ui i u = true ↔ ib_NodeID i = node ∧ keep ui u.
Proof.
  unfold is_desired, keep. rewrite !andb_true_iff, negb_true_iff, !String.eqb_eq, String.eqb_neq.
  tauto.
Qed.

(** What a pass needs of the node it runs against. *)
Record pass_ready (a : nat) (w : World) (node : string) (c : Conn) : Prop := {
  pr_actor : ∃ x, w_heap w !! a = Some x ∧ n_ID (a_node x) = node ∧ a_client x = Some c;
  pr_accepts : accepts c;
  pr_build : Forall (λ d, is_ok (buildUser (accountFor d)) = true)
               (join_assignments (is_desired node) (w_db w))
}.

(** The removals touch no wanted assignment, so both queries see it. *)
Lemma desired_after_removals db node rows l :
  db_ok db → l = join_assignments (is_removal node) db →
  foldl (λ db d, drop_row d db) db l = set_user_inbounds rows db →
  (∀ k, (rows !! k = None ∧ (∃ d, d ∈ l ∧ d_SyncStatus d = SyncRemoving ∧ d_key d = k)) ∨
       (rows !! k = t_user_inbounds db !! k ∧
        ∀ d, d ∈ l → d_SyncStatus d = SyncRemoving → d_key d ≠ k)) →
  ∀ ui i u, keep ui u →
    assigned (set_user_inbounds rows db) node ui i u ↔ assigned db node ui i u.
Proof.
  intros Hok -> _ Hrows ui i u [Hact Hst]. unfold assigned; cbn.
  destruct (Hrows (ui_key ui)) as [(Hno & d & Hd & Hrm & Hk)|[Hsame _]]; [|by rewrite Hsame].
  rewrite Hno. split; [by intros (? & _)|]. intros (Hr & _). exfalso.
  apply join_elem in Hd as (ui' & i' & u' & (Hr' & _) & _ & ->); [|done].
  unfold d_key in Hk. cbn in *. unfold ui_key in *. rewrite Hk in Hr'. congruence.
Qed.

Lemma reconcile_run a w node c :
  db_ok (w_db w) → pass_ready a w node c →
  ∃ w1 w' rows,
    reconcile_body a w = (w', Ok tt) ∧
    db_ok (w_db w1) ∧ w_db w1 = set_user_inbounds rows (w_db w) ∧
    (∀ k, (rows !! k = None ∧ (∃ d, d ∈ join_assignments (is_removal node) (w_db w) ∧
                                   d_SyncStatus d = SyncRemoving ∧ d_key d = k)) ∨
       (rows !! k = t_user_inbounds (w_db w) !! k ∧
        ∀ d, d ∈ join_assignments (is_removal node) (w_db w) →
             d_SyncStatus d = SyncRemoving → d_key d ≠ k)) ∧
    (∀ ui i u, keep ui u → assigned (w_db w1) node ui i u ↔ assigned (w_db w) node ui i u) ∧
    Forall (λ d, on_node w1 c (d_InboundTag d) (d_Email d) = None)
      (join_assignments (is_removal node) (w_db w)) ∧
    others_same c (join_assignments (is_removal node) (w_db w)) w w1 ∧
    for_each (join_assignments (is_desired node) (w_db w1)) (add_one a
      (from_option (λ x, n_Name (a_node x)) "" (w_heap w !! a)) c) (w_tick w1) = (w', Ok tt).
Proof.
  intros Hok [(x & Hx & Hid & Hc) Hacc Hb].
  set (l := join_assignments (is_removal node) (w_db w)).
  destruct (remove_all_total a (n_Name (a_node x)) c l (w_tick w) Hacc) as [w1 H1].
  pose proof (remove_all_spec _ _ _ _ _ _ H1) as (Hgone & Hoth & Hdb). cbn in Hdb.
  destruct (drop_rows l (w_db w)) as (rows & Heq & Hrows).
  assert (db_ok (w_db w1)) as Hok1 by (rewrite Hdb; by apply drop_rows_ok).
  rewrite Heq in Hdb.
  pose proof (desired_after_removals _ _ _ _ Hok eq_refl Heq Hrows) as Hsame.
  assert (Forall (λ d, is_ok (buildUser (accountFor d)) = true)
            (join_assignments (is_desired node) (w_db w1))) as Hb1.
  { apply Forall_forall. intros d Hd. rewrite Forall_forall in Hb. apply Hb.
    apply join_elem in Hd as (ui & i & u & Has & Hp & ->); [|done].
    apply is_desired_spec in Hp as Hk. destruct Hk as [Hn Hk].
    apply join_elem; [done|]. exists ui, i, u. rewrite Hn, Hdb, Hsame in Has by done.
    rewrite Hn. auto. }
  destruct (add_all_total a (n_Name (a_node x)) c _ (w_tick w1) Hacc Hb1) as [w' H2].
  exists w1, w', rows. rewrite Hx. split_and!; try done; [|by rewrite Hdb].
  unfold reconcile_body, ensureClient, actor, bind. rewrite Hx. cbn [fst snd]. rewrite Hc.
  cbn [ret]. rewrite Hx. cbv zeta. rewrite Hid.
  unfold RemovalsForNode, DesiredForNode, queryDesired, map_err. rewrite exec_quiet.
  cbn [select]. replace (w_set_db (w_db w) (w_tick w)) with (w_tick w) by (by destruct w).
  fold l. rewrite H1, exec_quiet. cbn [select].
  replace (w_set_db (w_db w1) (w_tick w1)) with (w_tick w1) by (by destruct w1). done.
Qed.

(** What a pass leaves in the slot of a wanted assignment. *)
Definition settled (c : Conn) (w w' : World) (ui : UserInbound) (i : Inbound) (u : User) : Prop :=
  pushed_at c w w' (desired_row ui i u).

Lemma reconcile_pass a w node c :
  db_ok (w_db w) → pass_ready a w node c →
  ∃ w', reconcile_body a w = (w', Ok tt) ∧
    (∀ ui i u, assigned (w_db w) node ui i u → keep ui u → settled c w w' ui i u) ∧
    (∀ tag email, unwanted (w_db w) node tag email → on_node w' c tag email = None) ∧
    (∀ tag email, ¬ wanted (w_db w) node tag email → ¬ unwanted (w_db w) node tag email →
       on_node w' c tag email = on_node w c tag email).
Proof.
  intros Hok Hready.
  destruct (reconcile_run _ _ _ _ Hok Hready)
    as (w1 & w' & rows & Hrun & Hok1 & Hdb & _ & Hsame & Hgone & Hoth & Hadd).
  apply add_all_spec in Hadd as (Hthere & Hoth2 & _ & _);
    [|by apply join_NoDup|by eapply join_slots; [|intros ??? [? _]%is_desired_spec]].
  assert (∀ d, d ∈ join_assignments (is_desired node) (w_db w1) →
    wanted (w_db w) node (d_InboundTag d) (d_Email d)) as Hwant.
  { intros d (ui & i & u & Has & [Hn Hk]%is_desired_spec & ->)%join_elem; [|done].
    rewrite Hn, Hsame in Has by done. exists ui, i, u. auto. }
  assert (∀ d, d ∈ join_assignments (is_removal node) (w_db w) →
    unwanted (w_db w) node (d_InboundTag d) (d_Email d)) as Hunwant.
  { intros d (ui & i & u & Has & [Hn Hk]%is_removal_spec & ->)%join_elem; [|done].
    rewrite Hn in Has. exists ui, i, u. auto. }
  rewrite Forall_forall in Hthere, Hgone.
  exists w'. split_and!; [done| | |].
  - intros ui i u Has Hk. assert (ib_NodeID i = node) as Hn by apply Has.
    assert (desired_row ui i u ∈ join_assignments (is_desired node) (w_db w1)) as Hd.
    { apply join_elem; [done|]. exists ui, i, u.
      split_and!; [|by apply is_desired_spec|done]. rewrite Hn. by apply Hsame. }
    specialize (Hthere _ Hd). unfold settled, pushed_at in *.
    rewrite <- (Hoth (d_InboundTag (desired_row ui i u)) (d_Email (desired_row ui i u))); [done|].
    apply Forall_forall. intros d' Hd' [= Htag Hem].
    destruct (Hunwant d' Hd') as (ui' & i' & u' & Has' & Hk' & Htag' & Hem').
    assert (ui = ui') as <- by (apply (assigned_inj _ _ _ _ _ _ _ _ Hok Has Has'); congruence).
    assert (u = u') as <- by (destruct Has as (_&_&?&_), Has' as (_&_&?&_); congruence). done.
  - intros tag email (ui & i & u & Has & Hk & <- & <-).
    assert (ib_NodeID i = node) as Hn by apply Has.
    rewrite (Hoth2 (ib_Tag i) (u_Email u)).
    + apply (Hgone (desired_row ui i u)), join_elem; [done|]. exists ui, i, u.
      split_and!; [by rewrite Hn|by apply is_removal_spec|done].
    + apply Forall_forall. intros d Hd [= Htag Hem].
      destruct (Hwant d Hd) as (ui' & i' & u' & Has' & Hk' & Htag' & Hem').
      assert (ui = ui') as <- by (apply (assigned_inj _ _ _ _ _ _ _ _ Hok Has Has'); congruence).
      assert (u = u') as <- by (destruct Has as (_&_&?&_), Has' as (_&_&?&_); congruence). done.
  - intros tag email Hw Hu. etrans; [apply Hoth2|apply Hoth].
    + apply Forall_forall. intros d Hd [= -> ->]. by apply Hw, Hwant.
    + apply Forall_forall. intros d Hd [= -> ->]. by apply Hu, Hunwant.
Qed.

(** C3 (convergence): a reconcile pass against a node that accepts pushes
    completes, and then holds exactly this: every wanted account is on the
    node, with the credentials of the database if it was not there before; no
    unwanted one is; and accounts that no assignment of the database mentions
    are as they were. *)
Theorem reconcile_converges a w node c :
  db_ok (w_db w) → pass_ready a w node c →
  ∃ w', reconcile_body a w = (w', Ok tt) ∧
    (∀ ui i u, assigned (w_db w) node ui i u → keep ui u →
       is_Some (on_node w' c (ib_Tag i) (u_Email u)) ∧
       (on_node w c (ib_Tag i) (u_Email u) = None →
        ∃ acc, buildUser (accountFor (desired_row ui i u)) = Ok acc ∧
               on_node w' c (ib_Tag i) (u_Email u) = Some acc)) ∧
    (∀ tag email, unwanted (w_db w) node tag email → on_node w' c tag email = None) ∧
    (∀ tag email, ¬ wanted (w_db w) node tag email → ¬ unwanted (w_db w) node tag email →
       on_node w' c tag email = on_node w c tag email).
Proof.
  intros Hok Hr. destruct (reconcile_pass _ _ _ _ Hok Hr) as (w' & E & Hw & Hu & Hs).
  exists w'. split_and!; [done| |done|done]. intros ui i u Has Hk.
  specialize (Hw ui i u Has Hk). split; [by eapply pushed_is_Some|]. intros Hno.
  destruct Hw as (acc & Hb & [Ha|[Hsome _]]); [by exists acc|].
  unfold settled, pushed_at in *. cbn in Hsome. rewrite Hno in Hsome. by destruct Hsome.
Qed.

(** *** Accounts that are already there *)

Lemma push_keeps_account `{!RefusesDuplicates} a name c d g e old :
  preserves (λ w, on_node w c g e = Some old) (add_one a name c d).
Proof.
  intros w Hold. unfold add_one, bind, attempt.
  destruct (AddUser c (d_InboundTag d) (accountFor d) w) as [w1 r] eqn:Hr.
  eapply AddUser_keeps in Hr; [|done..].
  set (I := λ w, on_node w c g e = Some old).
  assert (DbFree I) as Hfree by (by intros w0 db k).
  assert (∀ b f, preserves I (set_actor b f)) by (by intros b f w0).
  assert (∀ n l z, preserves I (metric_add n l z)) by (by intros n l z w0).
  cut (preserves I (match r with
                    | Err e => push_failed a name e
                        (ignore (MarkAssignmentSynced (d_UserID d) (d_InboundID d) SyncFailed (Error e)))
                    | Ok _ => if negb (String.eqb (d_SyncStatus d) SyncApplied)
                              then ignore (MarkAssignmentSynced (d_UserID d) (d_InboundID d) SyncApplied "")
                              else ret tt
                    end)); [intros Hp; by apply Hp|].
  unfold push_failed, MarkAssignmentSynced, dropClient. go_inv.
Qed.

(** C35 (stale credentials): a node refuses to add an email it already holds, and
    the pass takes that for success: when the wanted account is on the node
    with other credentials than the database's, because a deleted user of the
    same email left it behind or the inbound's settings changed, every pass
    leaves the old ones. *)
Theorem stale_account_kept `{!RefusesDuplicates} a w node c ui i u old :
  db_ok (w_db w) → pass_ready a w node c → assigned (w_db w) node ui i u → keep ui u →
  on_node w c (ib_Tag i) (u_Email u) = Some old →
  on_node (reconcile a w).1 c (ib_Tag i) (u_Email u) = Some old.
Proof.
  intros Hok Hready Has Hk Hold.
  destruct (reconcile_run _ _ _ _ Hok Hready)
    as (w1 & w' & rows & Hrun & Hok1 & Hdb & _ & Hsame & Hgone & Hoth & Hadd).
  unfold reconcile, ignore. rewrite Hrun. cbn [fst].
  pose proof (preserves_for_each (λ w, on_node w c (ib_Tag i) (u_Email u) = Some old)
    (join_assignments (is_desired node) (w_db w1))
    (add_one a (from_option (λ x, n_Name (a_node x)) "" (w_heap w !! a)) c)
    (λ d, push_keeps_account _ _ c d _ _ _)
    (w_tick w1)) as Hp.
  rewrite Hadd in Hp. apply Hp. change (on_node w1 c (ib_Tag i) (u_Email u) = Some old).
  rewrite <- Hold. apply Hoth, Forall_forall. intros d Hd [= Htag Hem].
  apply join_elem in Hd as (ui' & i' & u' & Has' & [Hn Hk']%is_removal_spec & ->); [|done].
  rewrite Hn in Has'.
  assert (ui = ui') as <- by (by apply (assigned_inj _ _ _ _ _ _ _ _ Hok Has Has')).
  assert (u = u') as <- by (destruct Has as (_&_&?&_), Has' as (_&_&?&_); congruence). done.
Qed.

Lemma reconcile_rows a w node c ui i u :
  db_ok (w_db w) → pass_ready a w node c → assigned (w_db w) node ui i u →
  let rows := t_user_inbounds (w_db (reconcile a w).1) in
  (ui_SyncStatus ui = SyncRemoving → rows !! ui_key ui = None) ∧
  (ui_SyncStatus ui ≠ SyncRemoving → u_Status u ≠ UserStatusActive → rows !! ui_key ui = Some ui) ∧
  (keep ui u → ∃ ui', rows !! ui_key ui = Some ui' ∧ ui_SyncStatus ui' = SyncApplied).
Proof.
  intros Hok Hready Has rows'.
  destruct (reconcile_run _ _ _ _ Hok Hready)
    as (w1 & w' & rows & Hrun & Hok1 & Hdb & Hrows & Hsame & _ & _ & Hadd).
  apply add_all_spec in Hadd as (_ & _ & Hrest & Hown);
    [|by apply join_NoDup|by eapply join_slots; [|intros ??? [? _]%is_desired_spec]].
  replace rows' with (t_user_inbounds (w_db w'))
    by (subst rows'; unfold reconcile, ignore; by rewrite Hrun).
  clear rows'. set (rows' := t_user_inbounds (w_db w')).
  pose proof Has as (Hr & _ & Hu & Hn).
  assert (t_user_inbounds (w_db w1) = rows) as Hrows1 by (by rewrite Hdb).
  assert (¬ keep ui u → rows' !! ui_key ui = rows !! ui_key ui) as Hidle.
  { intros Hk. unfold rows'. rewrite Hrest; [cbn; by rewrite Hrows1|].
    intros (d & Hkd & (ui2 & i2 & u2 & Has2 & [Hn2 Hk2]%is_desired_spec & ->)%join_elem)%list_elem_of_fmap;
      [|done].
    rewrite Hn2, Hsame in Has2 by done. destruct Has2 as (Hr2 & _ & Hu2 & _).
    change (d_key _) with (ui_key ui2) in Hkd. rewrite <- Hkd in Hr2.
    assert (ui = ui2) as <- by congruence. assert (u = u2) as <- by congruence. done. }
  destruct (Hrows (ui_key ui)) as [(Hno & d & Hd & Hrm & Hkd)|[Heq Hnone]].
  - apply join_elem in Hd as (ui2 & i2 & u2 & (Hr2 & _) & _ & ->); [|done].
    change (d_key _) with (ui_key ui2) in Hkd. rewrite Hkd in Hr2.
    assert (ui = ui2) as <- by congruence. cbn in Hrm. split_and!.
    + intros _. rewrite Hidle; [done|]. by intros [].
    + done.
    + by intros [].
  - split_and!.
    + intros Hrm. exfalso. apply (Hnone (desired_row ui i u)); [|done|done].
      apply join_elem; [done|]. exists ui, i, u. split_and!; [by rewrite Hn| |done].
      apply is_removal_spec. split; [done|]. by intros [].
    + intros _ Hina. rewrite Hidle; [by rewrite Heq|]. by intros [].
    + intros Hk. apply (Hown (desired_row ui i u) ui); [|cbn; rewrite Hrows1; by etrans; [apply Heq|]|done].
      apply join_elem; [done|]. exists ui, i, u.
      split_and!; [rewrite Hn; by apply Hsame|by apply is_desired_spec|done].
Qed.

(** C23 (bookkeeping): the same pass deletes exactly the tombstoned assignments
    of the node, keeps those of users that are merely inactive, and leaves
    those it pushed marked as applied. *)
Theorem reconcile_bookkeeping a w node c ui i u :
  db_ok (w_db w) → pass_ready a w node c → assigned (w_db w) node ui i u →
  let rows := t_user_inbounds (w_db (reconcile a w).1) in
  (ui_SyncStatus ui = SyncRemoving → rows !! ui_key ui = None) ∧
  (ui_SyncStatus ui ≠ SyncRemoving → u_Status u ≠ UserStatusActive → rows !! ui_key ui = Some ui) ∧
  (keep ui u → ∃ ui', rows !! ui_key ui = Some ui' ∧ ui_SyncStatus ui' = SyncApplied).
Proof. apply reconcile_rows. Qed.
End Convergence.
