(* ===== verification/Fleet.v ===== *)
(** * The whole fleet converges
    (src/internal/worker/reconciler.go, nodeactor.go)

    Passes of different nodes do not disturb each other: a pass touches the
    accounts of its own endpoint and the assignments of its own node.  So one
    round, a pass of every actor in any order, brings all nodes to the
    database's desired state at once; and a converged node is at rest: further
    passes change neither a table nor an account. *)

From stdpp Require Import base gmap strings list fin_maps sets.
From Stdlib Require Import ZArith Lia.
From S2P Require Import Prelude Domain Database World StoreBase StoreUsers StoreAssignments StoreTraffic StoreAdmin.
From S2P Require Import GoStd Xray Worker Convergence.
Local Open Scope Z_scope.

Section Fleet.
Context {P : Platform} `{!Quiet P} `{L : !XrayLaws P}.

#[local] Instance quiet_rely : Rely P.
Proof. intros k db. by rewrite quiet_interfere. Qed.

(** ** What a pass touches *)

(** From [w] to [w'], only accounts of the endpoints [ts] and assignments to
    inbounds of the nodes [ns] changed, and no assignment appeared. *)
Record touches (ns ts : list string) (w w' : World) : Prop := {
  tc_heap : w_heap w' = w_heap w;
  tc_net c g e : conn_target c ∉ ts → on_node w' c g e = on_node w c g e;
  tc_tables : ∃ rows, w_db w' = set_user_inbounds rows (w_db w) ∧
    ∀ k, rows !! k = t_user_inbounds (w_db w) !! k ∨
         is_Some (t_user_inbounds (w_db w) !! k) ∧
         ∃ i, t_inbounds (w_db w) !! k.2 = Some i ∧ ib_NodeID i ∈ ns
}.

Lemma touches_refl ns ts w : touches ns ts w w.
Proof. constructor; [done..|]. exists (t_user_inbounds (w_db w)). split; [by destruct (w_db w)|by left]. Qed.

Lemma touches_trans n1 t1 n2 t2 w w1 w2 :
  touches n1 t1 w w1 → touches n2 t2 w1 w2 → touches (n1 ++ n2) (t1 ++ t2) w w2.
Proof.
  intros [Hh1 Hn1 (r1 & Hd1 & Hr1)] [Hh2 Hn2 (r2 & Hd2 & Hr2)]. constructor.
  - congruence.
  - intros c g e [Ht1 Ht2]%not_elem_of_app. by rewrite Hn2, Hn1.
  - rewrite Hd1 in Hd2, Hr2. exists r2. split; [done|]. intros k.
    destruct (Hr1 k) as [E1|(Hs & i & Hi & Hin)]; [|right; split; [done|]; exists i; set_solver].
    destruct (Hr2 k) as [E2|(Hs & i & Hi & Hin)]; cbn in *; [left; congruence|].
    right. rewrite E1 in Hs. split; [done|]. exists i. set_solver.
Qed.

Lemma touches_weaken n1 t1 n2 t2 w w' :
  n1 ⊆ n2 → t1 ⊆ t2 → touches n1 t1 w w' → touches n2 t2 w w'.
Proof.
  intros Hn Ht [Hh Hnet (r & Hd & Hr)]. constructor; [done|set_solver|].
  exists r. split; [done|]. intros k. destruct (Hr k) as [?|(Hs & i & Hi & Hin)]; [by left|right].
  split; [done|]. exists i. set_solver.
Qed.

Lemma touches_step ns ts w w1 w2 : touches ns ts w w1 → touches ns ts w1 w2 → touches ns ts w w2.
Proof. intros H1 H2. eapply touches_weaken; [..|by eapply touches_trans]; set_solver. Qed.

(** *** The client calls *)

Definition near (c : Conn) (w0 w : World) : Prop := touches [] [conn_target c] w0 w ∧ w_db w = w_db w0.

Lemma near_refl c w : near c w w.
Proof. split; [apply touches_refl|done]. Qed.

#[local] Hint Resolve preserves_modify : go_inv.
Lemma AlterInbound_near c w0 tag op : preserves (near c w0) (AlterInbound c tag op).
Proof.
  intros w [[Hh Hn (r & Hd & Hr)] Hdb]. unfold AlterInbound.
  destruct (rpc_AlterInbound (w_net w) c tag op) as [n m] eqn:Hrpc. split; [|done].
  constructor; [done| |by exists r]. intros c' g e Hne%not_elem_of_cons.
  rewrite <- (Hn c' g e) by set_solver. unfold on_node; cbn.
  destruct op as [u|em], m as [msg|]; cbn.
  - by apply add_err in Hrpc as [Hs _].
  - rewrite (add_ok _ _ _ _ _ Hrpc), decide_False; [done|]. intros [= E _ _]. by destruct Hne.
  - by apply remove_err in Hrpc as [Hs _].
  - rewrite (remove_ok _ _ _ _ _ Hrpc), decide_False; [done|]. intros [= E _ _]. by destruct Hne.
Qed.

Lemma AddUser_near c w0 tag acc : preserves (near c w0) (AddUser c tag acc).
Proof. pose proof AlterInbound_near. unfold AddUser, mapped. go_inv; auto. Qed.
Lemma RemoveUser_near c w0 tag em : preserves (near c w0) (RemoveUser c tag em).
Proof. pose proof AlterInbound_near. unfold RemoveUser, mapped. go_inv; auto. Qed.

(** *** One push, and a list of them *)

(** The assignment of [d] is to an inbound of one of the nodes. *)
Definition on_nodes (ns : list string) (db : DB) (d : DesiredAssignment) : Prop :=
  ∃ i, t_inbounds db !! d_InboundID d = Some i ∧ ib_NodeID i ∈ ns.

(** What follows the call: rewriting or deleting the row of [d], if it exists. *)
Lemma row_touches (ns : list string) (c : Conn) (w w1 w' : World) (d : DesiredAssignment) (rows : gmap (string * string) UserInbound) :
  near c w w1 → on_nodes ns (w_db w) d →
  w_heap w' = w_heap w1 → w_net w' = w_net w1 → w_db w' = set_user_inbounds rows (w_db w1) →
  (∀ k, rows !! k = t_user_inbounds (w_db w1) !! k ∨ k = d_key d ∧ is_Some (t_user_inbounds (w_db w1) !! k)) →
  touches ns [conn_target c] w w'.
Proof.
  intros [[Hh Hn _] Hdb] (i & Hi & Hin) Hh' Hn' Hd' Hr. rewrite Hdb in Hd', Hr. constructor.
  - congruence.
  - intros c' g e Hne. rewrite <- (Hn c' g e Hne). unfold on_node. by rewrite Hn'.
  - exists rows. split; [done|]. intros k. destruct (Hr k) as [?|[-> Hs]]; [by left|right].
    split; [done|]. by exists i.
Qed.

Lemma add_one_touches ns a name c d w w' :
  on_nodes ns (w_db w) d → add_one a name c d w = (w', Ok tt) → touches ns [conn_target c] w w'.
Proof.
  intros Hon. unfold add_one, bind at 1, attempt.
  pose proof (AddUser_near c w (d_InboundTag d) (accountFor d) w (near_refl c w)) as Hnear.
  destruct (AddUser c _ _ w) as [w1 [[]|e]]; [|done]. cbn [fst] in Hnear.
  destruct (String.eqb (d_SyncStatus d) SyncApplied); cbn [negb].
  - intros [= <-]. eapply touches_weaken; [..|apply Hnear]; set_solver.
  - unfold ignore, MarkAssignmentSynced, map_err, bind. cbn. rewrite exec_quiet. intros [= <-].
    eapply row_touches; [done..| |]; [done|]. intros k. destruct (decide (k = d_key d)) as [->|Hne].
    + rewrite lookup_alter_eq. change (d_UserID d, d_InboundID d) with (d_key d).
      destruct (t_user_inbounds (w_db w1) !! d_key d); [right|left]; [|done].
      split; [done|by eexists].
    + left. by rewrite lookup_alter_ne.
Qed.

Lemma remove_one_touches ns a name c d w w' :
  on_nodes ns (w_db w) d → remove_one a name c d w = (w', Ok tt) → touches ns [conn_target c] w w'.
Proof.
  intros Hon. unfold remove_one, bind at 1, attempt.
  pose proof (RemoveUser_near c w (d_InboundTag d) (d_Email d) w (near_refl c w)) as Hnear.
  destruct (RemoveUser c _ _ w) as [w1 [[]|e]]; [|done]. cbn [fst] in Hnear.
  destruct (String.eqb (d_SyncStatus d) SyncRemoving).
  - unfold ignore, DeleteAssignment, map_err. rewrite exec_quiet. intros [= <-].
    eapply row_touches; [done..| |]; [done|]. intros k. destruct (decide (k = d_key d)) as [->|Hne].
    + rewrite lookup_delete_eq. change (d_UserID d, d_InboundID d) with (d_key d).
      destruct (t_user_inbounds (w_db w1) !! d_key d); [right|left]; [|done].
      split; [done|by eexists].
    + left. by rewrite lookup_delete_ne.
  - intros [= <-]. eapply touches_weaken; [..|apply Hnear]; set_solver.
Qed.

Lemma on_nodes_touches ns ns' ts w w' d :
  touches ns' ts w w' → on_nodes ns (w_db w) d → on_nodes ns (w_db w') d.
Proof. intros [_ _ (r & -> & _)]. done. Qed.

Lemma for_each_touches ns ts (body : DesiredAssignment → IO unit) l : ∀ w w',
  (∀ d w w', on_nodes ns (w_db w) d → body d w = (w', Ok tt) → touches ns ts w w') →
  Forall (on_nodes ns (w_db w)) l → for_each l body w = (w', Ok tt) → touches ns ts w w'.
Proof.
  induction l as [|d l IH]; intros w w' Hb Hl; cbn [for_each].
  - intros [= <-]. apply touches_refl.
  - apply Forall_cons in Hl as [Hd Hl]. intros (w1 & [] & H1 & H2)%bind_inv.
    pose proof (Hb _ _ _ Hd H1) as Ht. eapply touches_step; [done|]. eapply IH; [done| |done].
    eapply Forall_impl; [exact Hl|]. intros d'. by apply on_nodes_touches with ns ts.
Qed.
Lemma join_on_nodes p node db :
  db_ok db → (∀ ui i u, p ui i u = true → ib_NodeID i = node) →
  Forall (on_nodes [node] db) (join_assignments p db).
Proof.
  intros Hok Hp. apply Forall_forall. intros d (ui & i & u & (_ & Hi & _) & Hpi & ->)%join_elem; [|done].
  exists i. split; [done|]. rewrite (Hp _ _ _ Hpi). set_solver.
Qed.

(** ** A pass touches its own node and endpoint *)

Lemma reconcile_touches a w node c :
  db_ok (w_db w) → pass_ready a w node c →
  ∃ w', reconcile_body a w = (w', Ok tt) ∧ touches [node] [conn_target c] w w' ∧ db_ok (w_db w').
Proof.
  intros Hok Hr. destruct (reconcile_run _ _ _ _ Hok Hr) as (w1 & w' & _ & E & _).
  exists w'. split; [done|].
  destruct Hr as [(x & Hx & Hid & Hc) _ _]. pose proof (reconcile_inv a w Hok) as Hok'.
  unfold reconcile, ignore in Hok'. rewrite E in Hok'. split; [|done]. clear w1 Hok'. revert E.
  unfold reconcile_body, ensureClient, actor, bind at 1 2. rewrite Hx. cbn [fst snd]. rewrite Hc.
  cbn [ret]. unfold bind at 1. rewrite Hx. cbv zeta. rewrite Hid.
  intros (w1 & l & H1 & (w2 & [] & H2 & (w3 & l' & H3 & H4)%bind_inv)%bind_inv)%bind_inv.
  revert H1 H3. unfold RemovalsForNode, DesiredForNode, queryDesired, map_err. rewrite !exec_quiet.
  cbn [select]. intros [= <- <-] [= <- <-].
  assert (∀ v, touches [node] [conn_target c] v (w_set_db (w_db v) (w_tick v))) as Htick.
  { intros v. destruct (touches_refl [node] [conn_target c] v). by constructor. }
  assert (touches [node] [conn_target c] w w2) as H12.
  { eapply touches_step; [apply (Htick w)|]. eapply for_each_touches; [| |exact H2].
    - intros d v v'. apply remove_one_touches.
    - apply join_on_nodes; [done|]. by intros ??? [? _]%is_removal_spec. }
  eapply touches_step; [exact H12|]. eapply touches_step; [apply (Htick w2)|].
  eapply for_each_touches; [| |exact H4].
  - intros d v v'. apply add_one_touches.
  - apply join_on_nodes; [|by intros ??? [? _]%is_desired_spec].
    apply remove_all_spec in H2 as (_ & _ & Hdb). change (db_ok (w_db w2)). rewrite Hdb. by apply drop_rows_ok.
Qed.

(** ** A node at rest *)

(** The node holds what the database wants, and the bookkeeping is done. *)
Definition converged (w : World) (node : string) (c : Conn) : Prop :=
  ∀ ui i u, assigned (w_db w) node ui i u →
    if decide (u_Status u = UserStatusActive)
    then ui_SyncStatus ui = SyncApplied ∧ is_Some (on_node w c (ib_Tag i) (u_Email u))
    else ui_SyncStatus ui ≠ SyncRemoving ∧ on_node w c (ib_Tag i) (u_Email u) = None.

(** Rows that are there after a pass were there before it, with the same key. *)
Lemma touches_assigned ns ts w w' node ui' i u :
  db_ok (w_db w) → db_ok (w_db w') → touches ns ts w w' → assigned (w_db w') node ui' i u →
  ∃ ui, assigned (w_db w) node ui i u ∧ ui_key ui = ui_key ui' ∧ (node ∉ ns → ui = ui').
Proof.
  intros Hok Hok' [_ _ (rows & Hd & Hr)] (Hrow & Hi & Hu & Hn). rewrite Hd in Hrow, Hi, Hu. cbn in *.
  assert (is_Some (t_user_inbounds (w_db w) !! ui_key ui')) as [ui Hui].
  { destruct (Hr (ui_key ui')) as [E|[Hs _]]; [|done]. rewrite <- E. by eexists. }
  pose proof (ok_ui_keyed _ Hok _ _ Hui) as Hkey. cbn in Hkey.
  assert (ui_UserID ui = ui_UserID ui' ∧ ui_InboundID ui = ui_InboundID ui') as [Hku Hki]
    by (by injection Hkey as -> ->).
  exists ui. split_and!; [split_and!|done|].
  - by rewrite Hkey.
  - by rewrite Hki.
  - by rewrite Hku.
  - done.
  - intros Hnot. destruct (Hr (ui_key ui')) as [E|(_ & i' & Hi' & Hin)]; [congruence|]. cbn in Hi'. congruence.
Qed.

Lemma untouched_assigned ns ts w w' node ui i u :
  touches ns ts w w' → node ∉ ns → assigned (w_db w) node ui i u → assigned (w_db w') node ui i u.
Proof.
  intros [_ _ (rows & Hd & Hr)] Hnot (Hrow & Hi & Hu & Hn). rewrite Hd. split_and!; [|done..].
  cbn. destruct (Hr (ui_key ui)) as [E|(_ & i' & Hi' & Hin)]; [congruence|]. cbn in Hi'. congruence.
Qed.

(** What others do does not disturb a node. *)
Lemma converged_untouched ns ts w w' node c :
  db_ok (w_db w) → db_ok (w_db w') → touches ns ts w w' → node ∉ ns → conn_target c ∉ ts →
  converged w node c → converged w' node c.
Proof.
  intros Hok Hok' Ht Hn Hc Hcv ui i u Has.
  destruct (touches_assigned _ _ _ _ _ _ _ _ Hok Hok' Ht Has) as (ui0 & Has0 & _ & E).
  rewrite <- (E Hn). specialize (Hcv _ _ _ Has0). rewrite (tc_net _ _ _ _ Ht); done.
Qed.

Lemma ready_untouched ns ts w w' a node c :
  db_ok (w_db w) → db_ok (w_db w') → touches ns ts w w' → node ∉ ns →
  pass_ready a w node c → pass_ready a w' node c.
Proof.
  intros Hok Hok' Ht Hn [Hx Hacc Hb]. constructor; [|done|].
  - by rewrite (tc_heap _ _ _ _ Ht).
  - rewrite Forall_forall in Hb |- *. intros d (ui & i & u & Has & Hp & ->)%join_elem; [|done].
    apply Hb, join_elem; [done|]. exists ui, i, u. split_and!; [|done..].
    apply is_desired_spec in Hp as [Hnode _]. rewrite Hnode in *.
    destruct (touches_assigned _ _ _ _ _ _ _ _ Hok Hok' Ht Has) as (ui0 & Has0 & _ & E). by rewrite <- (E Hn).
Qed.

(** A pass brings its node to rest. *)
Lemma reconcile_rests a w node c w' :
  db_ok (w_db w) → pass_ready a w node c → reconcile_body a w = (w', Ok tt) → converged w' node c.
Proof.
  intros Hok Hr E ui' i u Has'.
  destruct (reconcile_touches _ _ _ _ Hok Hr) as (w1 & E1 & Ht & Hok'). rewrite E in E1. injection E1 as <-.
  destruct (touches_assigned _ _ _ _ _ _ _ _ Hok Hok' Ht Has') as (ui & Has & Hkey & _).
  destruct (reconcile_rows _ _ _ _ _ _ _ Hok Hr Has) as (Hgone & Hidle & Hpush).
  unfold reconcile, ignore in Hgone, Hidle, Hpush. rewrite E in Hgone, Hidle, Hpush. cbn [fst] in *.
  destruct (reconcile_pass _ _ _ _ Hok Hr) as (w1 & E1 & Hw & Hu & _). rewrite E in E1. injection E1 as <-.
  assert (t_user_inbounds (w_db w') !! ui_key ui = Some ui') as Hrow by (rewrite Hkey; apply Has').
  case_decide as Hact.
  - destruct (decide (ui_SyncStatus ui = SyncRemoving)) as [Hrm|Hrm].
    { rewrite (Hgone Hrm) in Hrow. done. }
    destruct (Hpush (conj Hact Hrm)) as (ui1 & Hui1 & Hst). rewrite Hrow in Hui1. injection Hui1 as <-.
    split; [done|]. eapply pushed_is_Some, (Hw ui i u); [done|by split].
  - destruct (decide (ui_SyncStatus ui = SyncRemoving)) as [Hrm|Hrm].
    { rewrite (Hgone Hrm) in Hrow. done. }
    rewrite (Hidle Hrm Hact) in Hrow. injection Hrow as <-. split; [done|].
    apply Hu. exists ui, i, u. split_and!; [done| |done..]. by intros [].
Qed.

(** ** One round *)

(** An actor, its node and its connection. *)
Record visit : Type := mkVisit { vi_actor : nat; vi_node : string; vi_conn : Conn }.

Definition ready_to (w : World) (v : visit) : Prop := pass_ready (vi_actor v) w (vi_node v) (vi_conn v).
Definition target (v : visit) : string := conn_target (vi_conn v).

(** The actors' loops take their reconcile ticks, one after the other. *)
Definition round (l : list visit) : IO unit :=
  for_each l (λ v, run_turn (vi_actor v) ReconcileTick ;;; ret tt).

Lemma turn_run a w w' :
  reconcile_body a w = (w', Ok tt) → (run_turn a ReconcileTick ;;; ret tt) w = (w', Ok tt).
Proof. intros E. unfold run_turn, reconcile, ignore, bind, ret. by rewrite E. Qed.

(** What the tables of [w] ask of the node, fulfilled in [w']. *)
Definition served (w w' : World) (node : string) (c : Conn) : Prop :=
  (∀ tag email, wanted (w_db w) node tag email → is_Some (on_node w' c tag email)) ∧
  (∀ tag email, unwanted (w_db w) node tag email → on_node w' c tag email = None) ∧
  (∀ tag email, ¬ wanted (w_db w) node tag email → ¬ unwanted (w_db w) node tag email →
     on_node w' c tag email = on_node w c tag email).

Lemma pass_serves a w node c w' :
  db_ok (w_db w) → pass_ready a w node c → reconcile_body a w = (w', Ok tt) → served w w' node c.
Proof.
  intros Hok Hr E. destruct (reconcile_pass _ _ _ _ Hok Hr) as (w1 & E1 & Hw & Hu & Hs).
  rewrite E in E1. injection E1 as <-. split_and!; [|done..].
  intros tag email (ui & i & u & Has & Hk & <- & <-). eapply pushed_is_Some, Hw; eauto.
Qed.

Lemma untouched_wish ns ts w w' node (Q : UserInbound → User → Prop) tag email :
  db_ok (w_db w) → db_ok (w_db w') → touches ns ts w w' → node ∉ ns →
  (∃ ui i u, assigned (w_db w') node ui i u ∧ Q ui u ∧ ib_Tag i = tag ∧ u_Email u = email) ↔
  (∃ ui i u, assigned (w_db w) node ui i u ∧ Q ui u ∧ ib_Tag i = tag ∧ u_Email u = email).
Proof.
  intros Hok Hok' Ht Hn. split; intros (ui & i & u & Has & HQ & E).
  - destruct (touches_assigned _ _ _ _ _ _ _ _ Hok Hok' Ht Has) as (ui0 & Has0 & _ & E0).
    exists ui0, i, u. rewrite (E0 Hn). rewrite (E0 Hn) in Has0. done.
  - exists ui, i, u. split; [by eapply untouched_assigned|done].
Qed.

Lemma round_converges l : ∀ w,
  db_ok (w_db w) → Forall (ready_to w) l → NoDup (vi_node <$> l) → NoDup (target <$> l) →
  ∃ w', round l w = (w', Ok tt) ∧ db_ok (w_db w') ∧
    Forall (λ v, served w w' (vi_node v) (vi_conn v) ∧ converged w' (vi_node v) (vi_conn v)) l ∧
    touches (vi_node <$> l) (target <$> l) w w'.
Proof.
  induction l as [|[a node c] l IH]; intros w Hok Hr Hn Ht.
  { exists w. split_and!; [done..|constructor|apply touches_refl]. }
  apply Forall_cons in Hr as [Hr Hrs]. rewrite !fmap_cons in Hn, Ht.
  apply NoDup_cons in Hn as [Hn Hns]. apply NoDup_cons in Ht as [Ht Hts]. cbn in Hr, Hn.
  destruct (reconcile_touches _ _ _ _ Hok Hr) as (w1 & E1 & Ht1 & Hok1).
  assert (∀ v, v ∈ l → (vi_node v ∉ [node]) ∧ (target v ∉ [conn_target c])) as Hapart.
  { intros v Hv. rewrite !not_elem_of_cons. split; (split; [|by apply not_elem_of_nil]); intros E.
    - apply Hn. rewrite <- E. by apply list_elem_of_fmap_2.
    - apply Ht. change (target (mkVisit a node c)) with (conn_target c). rewrite <- E. by apply list_elem_of_fmap_2. }
  destruct (IH w1) as (w' & E2 & Hok' & Hall & Ht2); [done| |done|done|].
  { rewrite Forall_forall in Hrs |- *. intros v Hv. destruct (Hapart v Hv).
    by eapply ready_untouched; [| | | |apply Hrs]. }
  exists w'. split_and!; [|done| |eapply (touches_trans [node] [conn_target c]); [exact Ht1|exact Ht2]].
  { unfold round. cbn [for_each vi_actor]. rewrite (bind_Ok _ _ _ _ _ (turn_run _ _ _ E1)). exact E2. }
  constructor.
  - destruct (pass_serves _ _ _ _ _ Hok Hr E1) as (H1 & H2 & H3). split; cbn.
    + split_and!; intros tag email; rewrite (tc_net _ _ _ _ Ht2) by done; auto.
    + eapply converged_untouched; [exact Hok1|exact Hok'|exact Ht2|exact Hn|exact Ht|]. exact (reconcile_rests _ _ _ _ _ Hok Hr E1).
  - rewrite Forall_forall in Hall |- *. intros v Hv. destruct (Hapart v Hv) as [Hvn Hvt].
    destruct (Hall v Hv) as [(H1 & H2 & H3) Hcv]. split; [|done]. unfold served, wanted, unwanted in *.
    split_and!; intros tag email.
    + intros Hw. apply H1. by eapply (untouched_wish _ _ w w1 _ keep).
    + intros Hu. apply H2. by eapply (untouched_wish _ _ w w1 _ (λ ui u, ¬ keep ui u)).
    + intros Hw Hu. rewrite H3, (tc_net _ _ _ _ Ht1); [done..| |].
      * intros Hw'. apply Hw. by eapply (untouched_wish _ _ w w1 _ keep) in Hw'.
      * intros Hu'. apply Hu. by eapply (untouched_wish _ _ w w1 _ (λ ui u, ¬ keep ui u)) in Hu'.
Qed.

(** C4 (fleet): one round of passes over actors of different nodes behind
    different endpoints, in any order, brings every one of the nodes to what the
    tables asked for when the round began, and to rest; accounts the tables do
    not mention, accounts at other endpoints and assignments on other nodes are
    as they were. *)
Theorem fleet_converges l w :
  db_ok (w_db w) → Forall (ready_to w) l → NoDup (vi_node <$> l) → NoDup (target <$> l) →
  ∃ w', round l w = (w', Ok tt) ∧ db_ok (w_db w') ∧
    Forall (λ v, served w w' (vi_node v) (vi_conn v) ∧ converged w' (vi_node v) (vi_conn v)) l ∧
    touches (vi_node <$> l) (target <$> l) w w'.
Proof. apply round_converges. Qed.

(** ** At rest *)

Context `{!RefusesDuplicates}.

(** Nothing has moved. *)
Definition still (w w' : World) : Prop :=
  w_heap w' = w_heap w ∧ w_db w' = w_db w ∧ ∀ c g e, on_node w' c g e = on_node w c g e.

Lemma still_trans w w1 w2 : still w w1 → still w1 w2 → still w w2.
Proof. intros (H1 & H2 & H3) (H4 & H5 & H6). split_and!; [congruence..|]. intros c g e. by rewrite H6. Qed.

Lemma drop_rows_none l : ∀ db,
  Forall (λ d, d_SyncStatus d ≠ SyncRemoving) l → foldl (λ db d, drop_row d db) db l = db.
Proof.
  induction l as [|d l IH]; intros db; cbn [foldl]; [done|]. intros [Hd Hl]%Forall_cons.
  unfold drop_row at 2. apply String.eqb_neq in Hd. rewrite Hd. by apply IH.
Qed.

Lemma add_all_applied a name c l : ∀ w w',
  Forall (λ d, d_SyncStatus d = SyncApplied) l → for_each l (add_one a name c) w = (w', Ok tt) →
  w_db w' = w_db w.
Proof.
  induction l as [|d l IH]; intros w w'; cbn [for_each]; [by intros _ [= <-]|].
  intros [Hd Hl]%Forall_cons (w1 & [] & H1 & H2)%bind_inv. rewrite (IH _ _ Hl H2).
  apply add_one_spec in H1 as (_ & _ & t & ->). unfold mark_row. by rewrite Hd.
Qed.

Lemma add_all_same a name c l w w' :
  NoDup (d_key <$> l) → NoDup (d_slot <$> l) →
  Forall (λ d, is_Some (on_node w c (d_InboundTag d) (d_Email d))) l →
  for_each l (add_one a name c) w = (w', Ok tt) → ∀ g e, on_node w' c g e = on_node w c g e.
Proof.
  intros Hk Hs Hl E g e. destruct (on_node w c g e) as [old|] eqn:Hold.
  - pose proof (preserves_for_each (λ w, on_node w c g e = Some old) l (add_one a name c)
      (λ d, push_keeps_account _ _ _ _ _ _ _) w Hold) as Hp. by rewrite E in Hp.
  - apply add_all_spec in E as (_ & Hoth & _); [|done..]. rewrite Hoth; [done|].
    eapply Forall_impl; [exact Hl|]. intros d [u Hu] [= -> ->]. congruence.
Qed.

Lemma reconcile_at_rest a w node c :
  db_ok (w_db w) → pass_ready a w node c → converged w node c →
  ∃ w', reconcile_body a w = (w', Ok tt) ∧ still w w'.
Proof.
  intros Hok Hr Hcv. destruct (reconcile_touches _ _ _ _ Hok Hr) as (w2 & E2 & Ht & _).
  destruct (reconcile_run _ _ _ _ Hok Hr)
    as (w1 & w' & rows & E & Hok1 & Hdb & Hrows & Hsame & Hgone & Hoth & Hadd).
  rewrite E in E2. injection E2 as <-. exists w'. split; [done|]. split; [apply Ht|].
  assert (rows = t_user_inbounds (w_db w)) as ->.
  { apply map_eq. intros k. destruct (Hrows k) as [(_ & d & Hd & Hrm & _)|[-> _]]; [exfalso|done].
    apply join_elem in Hd as (ui & i & u & Has & [Hn Hk]%is_removal_spec & ->); [|done].
    rewrite Hn in Has. specialize (Hcv _ _ _ Has). cbn in Hrm. rewrite Hrm in Hcv.
    case_decide; destruct Hcv; done. }
  assert (w_db w1 = w_db w) as Hdb1 by (rewrite Hdb; by destruct (w_db w)). clear Hdb Hrows.
  assert (∀ g e, on_node w1 c g e = on_node w c g e) as Hnet1.
  { intros g e. destruct (decide (Exists (λ d, (g, e) = d_slot d) (join_assignments (is_removal node) (w_db w))))
      as [Hex|Hno].
    - apply Exists_exists in Hex as (d & Hd & [= -> ->]). rewrite Forall_forall in Hgone.
      rewrite (Hgone d Hd). apply join_elem in Hd as (ui & i & u & Has & [Hn Hk]%is_removal_spec & ->); [|done].
      rewrite Hn in Has. specialize (Hcv _ _ _ Has). case_decide as Hact; destruct Hcv as [Hst Hacc]; [|done].
      exfalso. apply Hk. split; [done|]. by rewrite Hst.
    - apply Hoth. apply not_Exists_Forall in Hno; [exact Hno|apply _]. }
  assert (∀ d, d ∈ join_assignments (is_desired node) (w_db w1) →
    d_SyncStatus d = SyncApplied ∧ is_Some (on_node w1 c (d_InboundTag d) (d_Email d))) as Hdes.
  { rewrite Hdb1. intros d (ui & i & u & Has & [Hn [Hact Hst]]%is_desired_spec & ->)%join_elem; [|done].
    rewrite Hn in Has. specialize (Hcv _ _ _ Has). rewrite decide_True in Hcv by done. by rewrite Hnet1. }
  split.
  - etrans; [|exact Hdb1]. eapply add_all_applied in Hadd; [exact Hadd|].
    apply Forall_forall. intros d Hd. by apply Hdes.
  - intros c' g e. destruct (decide (conn_target c' = conn_target c)) as [Hc|Hc].
    + unfold on_node. rewrite Hc. change (on_node w' c g e = on_node w c g e). rewrite <- Hnet1.
      eapply (add_all_same _ _ _ _ (w_tick w1)); [..|exact Hadd].
      * by apply join_NoDup.
      * by eapply join_slots; [|intros ??? [? _]%is_desired_spec].
      * apply Forall_forall. intros d Hd. by apply Hdes.
    + apply (tc_net _ _ _ _ Ht). by intros ?%list_elem_of_singleton.
Qed.

(** C24 (rest): a round over actors whose nodes are converged, none of which
    accepts an email twice, changes neither a table nor an account nor an actor. *)
Theorem fleet_at_rest l : ∀ w,
  db_ok (w_db w) → Forall (ready_to w) l → Forall (λ v, converged w (vi_node v) (vi_conn v)) l →
  ∃ w', round l w = (w', Ok tt) ∧ still w w'.
Proof.
  induction l as [|[a node c] l IH]; intros w Hok Hr Hcv; [by exists w|].
  apply Forall_cons in Hr as [Hr Hrs]. apply Forall_cons in Hcv as [Hcv Hcvs].
  destruct (reconcile_at_rest _ _ _ _ Hok Hr Hcv) as (w1 & E1 & Hst1). pose proof Hst1 as (Hh & Hd & Hnet).
  destruct (IH w1) as (w' & E2 & Hst2).
  - by rewrite Hd.
  - eapply Forall_impl; [exact Hrs|]. intros v [Hx Hacc Hb]. constructor; [by rewrite Hh|done|by rewrite Hd].
  - eapply Forall_impl; [exact Hcvs|]. intros v Hv ui i u. rewrite Hd, Hnet. apply Hv.
  - exists w'. split; [|by eapply still_trans]. unfold round. cbn [for_each vi_actor].
    rewrite (bind_Ok _ _ _ _ _ (turn_run _ _ _ E1)). exact E2.
Qed.
End Fleet.
