(* ===== verification/Health.v ===== *)
(** * The health state machine of a node actor

    [checkHealth] (src/internal/worker/nodeactor.go) refines a small pure
    machine over the outcome of each probe; what the machine does over a
    sequence of probes is then a statement about a fold. *)

From stdpp Require Import base gmap strings list fin_maps sets vector.
From Stdlib Require Import ZArith Lia.
From S2P Require Import Prelude Domain Database Metrics World StoreBase StoreUsers StoreAssignments StoreTraffic StoreAdmin.
From S2P Require Import GoStd Xray Worker.
Local Open Scope Z_scope.

(** ** The specification *)

Record Health : Type := mkHealth {
  h_fail : Z;
  h_online : bool;
  h_uptime : Z;
  h_status : NodeStatus
}.

(** What a probe does besides moving the machine. *)
Record reaction : Type := mkReaction {
  re_persist : bool;       (* the status is written to the database *)
  re_reconcile : bool      (* a full reconcile pass follows *)
}.

(** [None]: the probe failed; [Some up]: it answered with uptime [up]. *)
Definition on_probe (p : option Z) (h : Health) : Health * reaction :=
  match p with
  | None =>
      let f := int64 (h_fail h + 1) in
      if bool_decide (healthFailThreshold ≤ f) && h_online h
      then (mkHealth f false (h_uptime h) NodeStatusOffline, mkReaction true false)
      else (mkHealth f (h_online h) (h_uptime h) (h_status h),
            mkReaction (bool_decide (f < healthFailThreshold)) false)
  | Some up =>
      (mkHealth 0 true up NodeStatusOnline,
       mkReaction true
         (negb (h_online h) || (bool_decide (0 < h_uptime h) && bool_decide (up < h_uptime h))))
  end.

Definition health_of (x : nodeActor) : Health :=
  mkHealth (a_failCount x) (a_online x) (a_lastUptime x) (n_Status (a_node x)).

Section Health.
Context {P : Platform} `{!Quiet P}.

(** The probe of a pass: dial if needed, then ping. *)
Definition probe_of (a : nat) : IO Z := c <- ensureClient a ;; Ping c.

Definition answer (r : res error Z) : option Z :=
  match r with Ok up => Some up | Err _ => None end.

(** ** Refinement *)

(** State of the actor's own record and of its row in the nodes table. *)
Definition health_at (a : nat) (id : string) (h : Health) (stored : NodeStatus) (w : World) : Prop :=
  (∃ x, w_heap w !! a = Some x ∧ health_of x = h ∧ n_ID (a_node x) = id) ∧
  (∃ n, t_nodes (w_db w) !! id = Some n ∧ n_Status n = stored).

Lemma health_set_actor a id h h' stored f w :
  health_at a id h stored w →
  (∀ x, health_of x = h → health_of (f x) = h' ∧ n_ID (a_node (f x)) = n_ID (a_node x)) →
  health_at a id h' stored (w_set_heap (alter f a (w_heap w)) w).
Proof.
  intros [(x & Hx & Hh & Hid) Hn] Hf. split; [|done]. exists (f x). cbn.
  rewrite lookup_alter_eq, Hx. destruct (Hf x Hh) as [? ->]. done.
Qed.

(** Discharges the field bookkeeping of an assignment to the actor. *)
Ltac health_fields :=
  let y := fresh "y" in let Hy := fresh "Hy" in
  intros y Hy; injection Hy as ????; unfold health_of; cbn; split; congruence.

Lemma set_actor_health a id h h' stored f w :
  health_at a id h stored w →
  (∀ x, health_of x = h → health_of (f x) = h' ∧ n_ID (a_node (f x)) = n_ID (a_node x)) →
  ∃ w', set_actor a f w = (w', Ok tt) ∧ health_at a id h' stored w'.
Proof. intros Hat Hf. eexists. split; [done|]. by eapply health_set_actor. Qed.

Lemma health_same_heap a id h stored w w' :
  w_heap w' = w_heap w → t_nodes (w_db w') = t_nodes (w_db w) →
  health_at a id h stored w → health_at a id h stored w'.
Proof. intros Hh Hn [H1 H2]. unfold health_at. by rewrite Hh, Hn. Qed.

Lemma probe_health a id h stored w :
  health_at a id h stored w → health_at a id h stored (probe_of a w).1.
Proof.
  intros Hat. destruct (Hat) as [(x & Hx & Hh & Hid) _].
  unfold probe_of, ensureClient, actor, bind. rewrite Hx. cbn [fst snd].
  destruct (a_client x) as [c|].
  - cbn. unfold Ping. destruct (rpc_GetSysStats _ _) as [n [m|up]]; by eapply health_same_heap.
  - unfold lift_res. destruct (DefaultDial (a_node x)) as [c|e]; [|done].
    cbn. unfold Ping. cbn [w_net w_set_heap].
    destruct (rpc_GetSysStats _ _) as [n [m|up]];
      (eapply health_same_heap; [..|eapply (health_set_actor _ _ h h _ (a_set_client (Some c)))];
       [done|done|done|by intros]).
Qed.

Lemma setHealth_run a id h stored s e t w :
  health_at a id h stored w →
  ∃ w', setHealth a s e t w = (w', Ok tt) ∧
    health_at a id (mkHealth (h_fail h) (h_online h) (h_uptime h) s) s w'.
Proof.
  intros [(x & Hx & Hh & Hid) (n & Hn & Hs)]. unfold setHealth, set_actor, modify, bind, actor.
  cbn. rewrite lookup_alter_eq, Hx. cbn. rewrite Hid.
  unfold ignore, SetNodeHealth. rewrite requireRow_quiet. unfold sql_set_node_health. cbn.
  rewrite Hn. cbn. eexists. split; [done|]. split; cbn.
  - eexists. rewrite lookup_alter_eq, Hx. split; [done|]. cbn. subst h. by split.
  - eexists. by rewrite lookup_insert_eq.
Qed.

Lemma actor_health a id h stored w :
  health_at a id h stored w →
  ∃ x, actor a w = (w, Ok x) ∧ health_of x = h ∧ n_ID (a_node x) = id.
Proof. intros [(x & Hx & ? & ?) _]. exists x. unfold actor. by rewrite Hx. Qed.

(** One check, step by step. *)
Lemma checkHealth_step a id h stored w :
  health_at a id h stored w →
  let '(h', re) := on_probe (answer (probe_of a w).2) h in
  ∃ w1, health_at a id h' (if re_persist re then h_status h' else stored) w1 ∧
        checkHealth a w = if re_reconcile re then reconcile a w1 else (w1, Ok tt).
Proof.
  intros Hat. pose proof (probe_health _ _ _ _ _ Hat) as Hp.
  unfold checkHealth, bind at 1, attempt. fold (probe_of a).
  destruct (probe_of a w) as [w1 [up|e]]; cbn [fst snd answer on_probe] in *.
  - destruct (set_actor_health _ _ _ (mkHealth 0 (h_online h) (h_uptime h) (h_status h)) _
      (a_set_failCount 0) _ Hp) as (w2 & E2 & H2); [by intros x <-|].
    rewrite (bind_Ok _ _ _ _ _ E2). erewrite bind_Ok by done.
    destruct (actor_health _ _ _ _ (w_tick w2) H2) as (x & Ex & Hh & Hid).
    rewrite (bind_Ok _ _ _ _ _ Ex). cbv zeta.
    destruct (set_actor_health _ _ _ (mkHealth 0 (h_online h) up (h_status h)) _
      (a_set_lastUptime up) (w_tick w2) H2) as (w3 & E3 & H3);
      [health_fields|].
    rewrite (bind_Ok _ _ _ _ _ E3).
    destruct (set_actor_health _ _ _ (mkHealth 0 true up (h_status h)) _
      (a_set_online true) w3 H3) as (w4 & E4 & H4); [health_fields|].
    rewrite (bind_Ok _ _ _ _ _ E4).
    destruct (setHealth_run _ _ _ _ NodeStatusOnline "" (Some (clock (w_k w2))) _ H4)
      as (w5 & E5 & H5).
    rewrite (bind_Ok _ _ _ _ _ E5). erewrite bind_Ok by done.
    injection Hh as _ Hon Hup _. rewrite Hon, Hup.
    exists (metric_set NodeUp [#n_Name (a_node x)] 1 w5).1. split; [exact H5|].
    cbn [re_reconcile]. by destruct (_ || _).
  - set (f := int64 (h_fail h + 1)).
    destruct (set_actor_health _ _ _ (mkHealth f (h_online h) (h_uptime h) (h_status h)) _
      (λ x, a_set_failCount (int64 (a_failCount x + 1)) x) _ Hp) as (w2 & E2 & H2);
      [by intros x <-|].
    rewrite (bind_Ok _ _ _ _ _ E2).
    destruct (set_actor_health _ _ _ (mkHealth f (h_online h) (h_uptime h) (h_status h)) _
      (a_set_client None) _ H2) as (w3 & E3 & H3); [by intros y <-|].
    unfold dropClient. rewrite (bind_Ok _ _ _ _ _ E3).
    destruct (actor_health _ _ _ _ _ H3) as (x & Ex & Hh & Hid).
    rewrite (bind_Ok _ _ _ _ _ Ex). injection Hh as Hf Hon Hup Hst. rewrite Hf, Hon, Hst.
    destruct (bool_decide (healthFailThreshold ≤ f) && h_online h).
    + destruct (set_actor_health _ _ _ (mkHealth f false (h_uptime h) (h_status h)) _
        (a_set_online false) _ H3) as (w4 & E4 & H4); [health_fields|].
      rewrite (bind_Ok _ _ _ _ _ E4).
      destruct (setHealth_run _ _ _ _ NodeStatusOffline (Error e) None _ H4) as (w5 & E5 & H5).
      rewrite (bind_Ok _ _ _ _ _ E5).
      exists (metric_set NodeUp [#n_Name (a_node x)] 0 w5).1. by split.
    + destruct (bool_decide (f < healthFailThreshold)).
      * destruct (setHealth_run _ _ _ _ (h_status h) (Error e) None _ H3) as (w4 & E4 & H4).
        by eexists.
      * by eexists.
Qed.

(** C5 (refinement): one health check moves the actor exactly as the machine
    does on the outcome of its probe, persists the machine's status exactly
    when the machine says so, and ends in a reconcile pass exactly when the
    machine asks for one. *)
Theorem checkHealth_refines a id h stored w :
  health_at a id h stored w →
  let '(h', re) := on_probe (answer (probe_of a w).2) h in
  ∃ w1, health_at a id h' (if re_persist re then h_status h' else stored) w1 ∧
        checkHealth a w = if re_reconcile re then reconcile a w1 else (w1, Ok tt).
Proof. apply checkHealth_step. Qed.

(** ** Runs of failed probes *)

(** The state after [n] health checks. *)
Definition checks (a : nat) (n : nat) (w : World) : World :=
  Nat.iter n (λ w, (checkHealth a w).1) w.

Definition all_fail (a : nat) (n : nat) (w : World) : Prop :=
  ∀ k, (k < n)%nat → answer (probe_of a (checks a k w)).2 = None.

Lemma all_fail_le a n w : all_fail a (S n) w → all_fail a n w.
Proof. intros H k Hk. apply H. lia. Qed.

(** A failed check never reconciles, so it ends where the machine puts it. *)
Lemma failed_check a id h stored w :
  health_at a id h stored w → answer (probe_of a w).2 = None →
  let h' := (on_probe None h).1 in
  health_at a id h' (if re_persist (on_probe None h).2 then h_status h' else stored)
    (checkHealth a w).1.
Proof.
  intros Hat Hf. pose proof (checkHealth_step a id h stored w Hat) as H. rewrite Hf in H.
  revert H. cbn. destruct (_ && _); intros (w1 & Hw1 & ->); exact Hw1.
Qed.

(** Detection: a node that was online is reported offline by the third
    failed probe in a row and not before; it stays so while probes fail. *)
Theorem offline_on_third_failure a id up s stored w n :
  health_at a id (mkHealth 0 true up s) stored w →
  all_fail a n w → (0 < n)%nat → Z.of_nat n < 2 ^ 63 →
  health_at a id
    (mkHealth (Z.of_nat n) (bool_decide (n < 3)%nat) up
       (if decide (n < 3)%nat then s else NodeStatusOffline))
    (if decide (n < 3)%nat then s else NodeStatusOffline) (checks a n w).
Proof.
  intros Hat Hall Hn Hb. destruct n as [|n]; [lia|]. clear Hn.
  induction n as [|n IH].
  - apply (failed_check _ _ _ _ _ Hat), (Hall 0%nat). lia.
  - specialize (IH (all_fail_le _ _ _ Hall) ltac:(lia)).
    pose proof (failed_check _ _ _ _ _ IH (Hall (S n) ltac:(lia))) as H.
    cbn -[Z.of_nat] in H. rewrite int64_id in H by (unfold int64_range; lia).
    unfold healthFailThreshold in H.
    change (checks a (S (S n)) w) with ((checkHealth a (checks a (S n) w)).1).
    replace (Z.of_nat (S n) + 1) with (Z.of_nat (S (S n))) in H by lia.
    repeat case_bool_decide; repeat case_decide; cbn [andb re_persist h_status fst snd] in H;
      try lia; exact H.
Qed.

(** Silence: while an actor has not yet seen its node answer, failing
    probes never change the stored status, however many there are: a node left
    as "online" in the table keeps that status. *)
Theorem never_online_keeps_status a id f up s w n :
  health_at a id (mkHealth f false up s) s w → all_fail a n w →
  ∃ f', health_at a id (mkHealth f' false up s) s (checks a n w).
Proof.
  intros Hat. induction n as [|n IH]; intros Hall; [by exists f|].
  destruct (IH (all_fail_le _ _ _ Hall)) as [f' Hf'].
  pose proof (failed_check _ _ _ _ _ Hf' (Hall n ltac:(lia))) as H.
  cbn in H. rewrite andb_false_r in H. cbn in H. eexists. revert H.
  destruct (bool_decide _); intros H; exact H.
Qed.
End Health.
