(* ===== verification/Reads.v ===== *)
(** * What the read operations return
    (src/internal/store/users.go, ListUsers; src/internal/store/traffic.go, UserUsage)

    The user search finds the users whose email or note contains the text,
    whatever the case, as long as the text has none of LIKE's special
    characters; the usage report has one bucket per key, in order, each with
    the exact sums of its snapshots. *)

From Stdlib Require Import Ascii.
From stdpp Require Import base gmap strings list fin_maps sorting.
From Stdlib Require Import ZArith Lia.
From S2P Require Import Prelude Domain Database World StoreBase StoreUsers StoreTraffic.
Local Open Scope Z_scope.

(** ** Searching *)

(** LIKE's special characters. *)
Definition special (c : ascii) : bool :=
  Ascii.eqb c "%"%char || Ascii.eqb c "_"%char || Ascii.eqb c "\"%char.

Fixpoint plain (q : string) : bool :=
  match q with EmptyString => true | String c q' => negb (special c) && plain q' end.

(** Equal up to the case of ASCII letters. *)
Fixpoint same_letters (a b : string) : bool :=
  match a, b with
  | EmptyString, EmptyString => true
  | String x a', String y b' => Ascii.eqb (fold_case x) (fold_case y) && same_letters a' b'
  | _, _ => false
  end.

(** [q] occurs in [s], up to case. *)
Definition occurs_in (q s : string) : Prop :=
  ∃ before middle after, s = before +:+ middle +:+ after ∧ same_letters q middle = true.

Lemma ilike_percent pat s :
  ilike (String "%"%char pat) s = true ↔ ∃ before rest, s = before +:+ rest ∧ ilike pat rest = true.
Proof.
  cbn [ilike]. rewrite Ascii.eqb_refl. cbv iota. induction s as [|c s IH].
  - rewrite orb_false_r. split; [by exists "", ""|]. intros ([|] & rest & Hs & Hr); [|done].
    by destruct rest.
  - rewrite orb_true_iff, IH. split.
    + intros [H|(b & r & -> & H)]; [by exists "", (String c s)|by exists (String c b), r].
    + intros ([|c' b] & r & Hs & H); [left; change (String c s = r) in Hs; by subst r|].
      right. exists b, r. change (String c s = String c' (b +:+ r)) in Hs. by injection Hs as <- ->.
Qed.

Lemma ilike_rest s : ilike "%" s = true.
Proof.
  apply (ilike_percent ""). exists s, "". split; [|done].
  induction s as [|c s IH]; [done|]. change (String c s = String c (s +:+ "")). by rewrite <- IH.
Qed.

Lemma ilike_plain q : plain q = true → ∀ s,
  ilike (q +:+ "%") s = true ↔ ∃ middle after, s = middle +:+ after ∧ same_letters q middle = true.
Proof.
  induction q as [|c q IH]; cbn [plain].
  - intros _ s. split; [|intros _; apply ilike_rest]. intros _. by exists "", s.
  - intros [Hc Hq]%andb_true_iff s. apply negb_true_iff in Hc. unfold special in Hc.
    rewrite !orb_false_iff in Hc. destruct Hc as [[Hc1 Hc2] Hc3].
    change (String c q +:+ "%") with (String c (q +:+ "%")). cbn [ilike]. rewrite Hc1, Hc2, Hc3.
    destruct s as [|x s].
    + split; [done|]. by intros ([|] & after & Hs & Hm).
    + rewrite andb_true_iff, (IH Hq). split.
      * intros (Hx & m & a & -> & Hm). exists (String x m), a. split; [done|]. cbn. by rewrite Hx, Hm.
      * intros ([|y m] & a & Hs & Hm); [done|]. change (String x s = String y (m +:+ a)) in Hs. cbn in Hm.
        injection Hs as <- ->.
        apply andb_true_iff in Hm as [Hx Hm]. eauto.
Qed.

Lemma ilike_occurs q s : plain q = true → ilike ("%" +:+ q +:+ "%") s = true ↔ occurs_in q s.
Proof.
  intros Hq. change ("%" +:+ q +:+ "%") with (String "%" (q +:+ "%")). rewrite ilike_percent.
  setoid_rewrite (ilike_plain q Hq). unfold occurs_in. split.
  - intros (b & r & -> & m & a & -> & Hm). by exists b, m, a.
  - intros (b & m & a & -> & Hm). exists b, (m +:+ a). split; [done|]. by exists m, a.
Qed.

Lemma filter_spec key status plan q limit offset u :
  plain q = true → q ≠ "" →
  filter_matches key (mkUserFilter status plan q limit offset) u = true ↔
  (status = "" ∨ u_Status u = status) ∧ (key = None ∨ u_PlanID u = key) ∧
  (occurs_in q (u_Email u) ∨ occurs_in q (u_Note u)).
Proof.
  intros Hp Hq. unfold filter_matches. cbn [f_Status f_Query].
  rewrite (proj2 (String.eqb_neq q "")) by done. cbn [orb].
  destruct key; rewrite !andb_true_iff, !orb_true_iff, !String.eqb_eq, ?bool_decide_eq_true,
    !ilike_occurs by done; naive_solver.
Qed.

(** The rows of a table, by their key. *)
Lemma keyed_values {A} (key : A → string) (m : gmap string A) :
  (∀ i a, m !! i = Some a → key a = i) →
  NoDup (map_to_list m).*2 ∧ ∀ a, a ∈ (map_to_list m).*2 ↔ m !! key a = Some a.
Proof.
  intros Hkey. assert (∀ a, a ∈ (map_to_list m).*2 ↔ m !! key a = Some a) as Hin.
  { intros a. rewrite list_elem_of_fmap. split.
    - intros ([i a'] & -> & Hi%elem_of_map_to_list). cbn. by rewrite (Hkey _ _ Hi).
    - intros Ha. exists (key a, a). split; [done|]. by apply elem_of_map_to_list. }
  split; [|exact Hin]. apply (NoDup_fmap_1 key).
  replace (key <$> (map_to_list m).*2) with (map_to_list m).*1 by
    (rewrite <- list_fmap_compose; apply list_fmap_ext; intros n [i a] Hi; cbn; symmetry;
     apply Hkey, elem_of_map_to_list, list_elem_of_lookup; eauto).
  apply NoDup_fst_map_to_list.
Qed.

Lemma Sorted_mono {A} (R R' : A → A → Prop) l : (∀ a b, R a b → R' a b) → Sorted R l → Sorted R' l.
Proof.
  intros HR. induction 1 as [|a l _ IH Hhd]; constructor; [done|]. destruct Hhd; constructor; auto.
Qed.

(** A listing, statement by statement. *)
Lemma ListUsers_run {P : Platform} `{!Quiet P} f w :
  ListUsers f w =
  if negb (forallb text_in (text_params f)) then (w_tick w, Err invalid_text) else
  match uuid_ref (t_plans (w_db w)) (plan_param f) with
  | Err _ => (w_tick w, Err malformed_uuid)
  | Ok plan =>
      (w_tick (w_tick w),
       if bool_decide (f_Offset f < 0) then Err (PgError "2201X" "")
       else Ok (take (Z.to_nat (if bool_decide (f_Limit f ≤ 0) then 50 else f_Limit f))
                  (drop (Z.to_nat (f_Offset f))
                     (by_created (λ u, - u_CreatedAt u) (matching_users plan f (w_db w)))),
                Z.of_nat (length (matching_users plan f (w_db w)))))
  end.
Proof.
  unfold ListUsers, bind, map_err. rewrite exec_quiet. unfold by_filter, by_text at 1.
  destruct (forallb text_in _) eqn:Htx; cbn [negb]; [|done]. destruct (uuid_ref _ _) as [plan|e] eqn:Hpl; [|by apply uuid_ref_Err in Hpl as ->].
  cbn [select]. rewrite exec_quiet. unfold by_text, sql_list_users.
  cbn [w_db w_set_db w_tick]. rewrite Htx, Hpl. destruct w. by case_bool_decide.
Qed.

(** The key of the plan filter, in terms of the text of the request. *)
Lemma plan_asked `{PgTypes} {A} (m : gmap string A) status plan q limit offset key x :
  uuid_ref m (plan_param (mkUserFilter status plan q limit offset)) = Ok key →
  (key = None ∨ x = key) ↔ (plan = "" ∨ ∃ p, uuid_key m plan = Ok p ∧ x = Some p).
Proof.
  unfold plan_param. cbn [f_PlanID]. destruct (String.eqb_spec plan "") as [->|Hne]; cbn.
  - intros [= <-]. tauto.
  - destruct (uuid_key m plan) as [p|]; [|done]. intros [= <-]. naive_solver.
Qed.

(** C37 (search): a listing for a query without special characters is a window
    of the users, newest first and each once, that have the status and the plan
    asked for, when given, and whose email or note contains the query in any
    mixture of cases; the total counts all of them. *)
Theorem search_spec {P : Platform} `{!Quiet P} status plan q limit offset w w' l total :
  w_ok w → plain q = true → q ≠ "" →
  ListUsers (mkUserFilter status plan q limit offset) w = (w', Ok (l, total)) →
  ∃ found,
    NoDup found ∧ Sorted (λ u v, u_CreatedAt v ≤ u_CreatedAt u) found ∧
    (∀ u, u ∈ found ↔ t_users (w_db w) !! u_ID u = Some u ∧
       (status = "" ∨ u_Status u = status) ∧
       (plan = "" ∨ ∃ p, uuid_key (t_plans (w_db w)) plan = Ok p ∧ u_PlanID u = Some p) ∧
       (occurs_in q (u_Email u) ∨ occurs_in q (u_Note u))) ∧
    0 ≤ offset ∧
    l = take (Z.to_nat (if bool_decide (limit ≤ 0) then 50 else limit)) (drop (Z.to_nat offset) found) ∧
    total = Z.of_nat (length found).
Proof.
  intros Hok Hp Hq. set (f := mkUserFilter _ _ _ _ _). rewrite ListUsers_run.
  destruct (negb _); [done|]. destruct (uuid_ref _ _) as [key|] eqn:Hkey; [|done]. change (f_Offset f) with offset.
  change (f_Limit f) with limit. case_bool_decide as Hoff; [done|]. intros [= <- <- <-].
  exists (by_created (λ u, - u_CreatedAt u) (matching_users key f (w_db w))).
  pose proof (merge_sort_Permutation (λ a b, - u_CreatedAt a ≤ - u_CreatedAt b)
    (matching_users key f (w_db w))) as Hperm.
  change (merge_sort _ _) with (by_created (λ u, - u_CreatedAt u) (matching_users key f (w_db w))) in Hperm.
  destruct (keyed_values u_ID (t_users (w_db w))) as [Hnd Hin]; [apply (ok_users _ Hok)|].
  split_and!; [|..|lia|done|by rewrite Hperm].
  - rewrite Hperm. by apply NoDup_filter.
  - assert (Total (earlier (λ u, - u_CreatedAt u))) as Ht by (intros u v; unfold earlier; lia).
    apply (Sorted_mono _ _ _ (λ u v, proj2 (Z.opp_le_mono (u_CreatedAt v) (u_CreatedAt u)))).
    apply Sorted_merge_sort, Ht.
  - intros u. rewrite Hperm. unfold matching_users, f. rewrite list_elem_of_filter, Hin, filter_spec by done.
    assert ((key = None ∨ u_PlanID u = key) ↔
            (plan = "" ∨ ∃ p, uuid_key (t_plans (w_db w)) plan = Ok p ∧ u_PlanID u = Some p)) as ->
      by (by eapply plan_asked).
    tauto.
Qed.

(** ** Usage *)

Section Sums.
Context (key : TrafficSnapshot → string).

Definition rows_of (k : string) (l : list TrafficSnapshot) : list TrafficSnapshot :=
  filter (λ s, key s = k) l.
Definition sum_up (l : list TrafficSnapshot) : Z := foldr (λ s z, z + ts_UplinkBytes s) 0 l.
Definition sum_down (l : list TrafficSnapshot) : Z := foldr (λ s z, z + ts_DownlinkBytes s) 0 l.

(** The groups of the query, one by one. *)
Lemma group_sums_lookup l k :
  group_sums key l !! k =
  match rows_of k l with [] => None | _ => Some (sum_up (rows_of k l), sum_down (rows_of k l)) end.
Proof.
  unfold rows_of. induction l as [|s l IH]; [done|].
  change (group_sums key (s :: l)) with
    (let '(up, down) := default (0, 0) (group_sums key l !! key s) in
     <[key s := (up + ts_UplinkBytes s, down + ts_DownlinkBytes s)]> (group_sums key l)).
  rewrite filter_cons. destruct (decide (key s = k)) as [<-|Hne].
  - rewrite IH. destruct (filter _ l) as [|s' l'] eqn:E; cbn [default id];
      by rewrite lookup_insert_eq.
  - destruct (default (0, 0) _) as [up down]. rewrite lookup_insert_ne by done. exact IH.
Qed.
End Sums.

#[export] Instance key_le_total : Total key_le.
Proof. intros a b. unfold key_le. apply String.leb_total. Qed.

Section Usage.
Context {P : Platform} `{!Quiet P}.

(** The key a report is grouped by. *)
Definition usage_key (groupBy : string) (s : TrafficSnapshot) : string :=
  if String.eqb groupBy "node" then ts_NodeID s else pg_day (ts_CollectedAt s).

(** C38 (usage): a report of a window changes nothing and holds exactly one
    bucket for each day (or node) on which traffic was recorded in the window,
    in the order of the keys, with the sums of the recorded bytes in either
    direction. *)
Theorem usage_exact userID from to groupBy w w' bs :
  UserUsage userID from to groupBy w = (w', Ok bs) →
  ∃ id, uuid_key (t_users (w_db w)) userID = Ok id ∧
  let rows := usage_rows id from to (w_db w) in
  w_db w' = w_db w ∧
  Sorted (λ a b, String.leb (b_Key a) (b_Key b) = true) bs ∧ NoDup (b_Key <$> bs) ∧
  ∀ b, b ∈ bs ↔ ∃ k, rows_of (usage_key groupBy) k rows ≠ [] ∧
    b = mkUsageBucket k (sum_up (rows_of (usage_key groupBy) k rows))
          (sum_down (rows_of (usage_key groupBy) k rows)).
Proof.
  unfold UserUsage. cbv zeta. set (key := if String.eqb groupBy "node" then _ else _).
  assert (∀ s, usage_key groupBy s = key s) as Hkey by (intros s; unfold usage_key, key; by case_match).
  unfold bind, map_err. rewrite exec_quiet. unfold by_id.
  destruct (uuid_key _ userID) as [id|]; [|done]. cbn [select].
  set (m := group_sums key _). destruct (forallb _ _); [|done]. intros [= <- <-].
  exists id. split; [done|]. pose proof (merge_sort_Permutation key_le (map_to_list m)) as Hperm.
  set (l := merge_sort key_le (map_to_list m)) in *.
  split_and!.
  - done.
  - assert (Sorted key_le l) as Hs by apply Sorted_merge_sort, key_le_total.
    clear Hperm. clearbody l. induction Hs as [|x l Hs IH Hhd]; [constructor|].
    cbn. constructor; [done|]. destruct Hhd; cbn; by constructor.
  - rewrite <- list_fmap_compose. change (b_Key ∘ bucket) with (@fst string (Z * Z)).
    rewrite Hperm. apply NoDup_fst_map_to_list.
  - intros b. rewrite list_elem_of_fmap.
    assert (∀ k, rows_of (usage_key groupBy) k (usage_rows id from to (w_db w)) =
                 rows_of key k (usage_rows id from to (w_db w))) as Hrows.
    { intros k. apply list_filter_iff. intros s. by rewrite Hkey. }
    setoid_rewrite Hrows. split.
    + intros ([k [up down]] & -> & Hin). rewrite Hperm in Hin.
      apply elem_of_map_to_list in Hin. unfold m in Hin. rewrite group_sums_lookup in Hin.
      exists k. destruct (rows_of key k _); [done|]. injection Hin as <- <-. done.
    + intros (k & Hne & ->). eexists (k, (_, _)). split; [reflexivity|]. rewrite Hperm.
      apply elem_of_map_to_list. unfold m. rewrite group_sums_lookup.
      by destruct (rows_of key k _).
Qed.
End Usage.
