(* ===== verification/Runs.v ===== *)
(** * Calls of a session that is alone and undisturbed

    Equations for the calls the services make, under [Quiet]: what the store
    methods return, and that triggering reconciles changes neither the tables
    nor the network. *)

From stdpp Require Import base gmap strings list fin_maps sets.
From Stdlib Require Import ZArith Lia.
From S2P Require Import Prelude Domain Database World StoreBase StoreUsers StoreAssignments StoreTraffic StoreAdmin.
From S2P Require Import GoStd Xray Worker ServiceUsers.
Local Open Scope Z_scope.

(** ** dedup *)

Lemma dedup_from_elem seen ids x : x ∈ dedup_from seen ids ↔ x ∈ ids ∧ x ∉ seen.
Proof.
  revert seen. induction ids as [|i ids IH]; intros seen; cbn; [set_solver|].
  case_decide; rewrite ?elem_of_cons, IH; [set_solver|].
  destruct (decide (x = i)); set_solver.
Qed.

Lemma dedup_from_NoDup ids : ∀ seen, NoDup (dedup_from seen ids).
Proof.
  induction ids as [|i ids IH]; intros seen; cbn; [constructor|].
  case_decide; [done|]. constructor; [|done]. rewrite dedup_from_elem. set_solver.
Qed.

Section Runs.
Context {P : Platform}.

(** ** Triggers *)

Lemma Reconcile_never_fails id : never_fails (Worker.Reconcile id).
Proof.
  intros w. unfold Worker.Reconcile, gets, bind. destruct (w_actors w !! id); by eexists _, _.
Qed.

(** Triggers act on the actors' channels only. *)
Definition same_world (w w' : World) : Prop := w_db w' = w_db w ∧ w_net w' = w_net w.

Lemma Reconcile_same w0 id : preserves (same_world w0) (Worker.Reconcile id).
Proof. unfold Worker.Reconcile. go_inv. by apply preserves_modify. Qed.

Lemma Reconcile_all ids w :
  ∃ w', for_each ids Worker.Reconcile w = (w', Ok tt) ∧ same_world w w'.
Proof.
  destruct (for_each_never_fails ids Worker.Reconcile Reconcile_never_fails w) as (w' & [] & H).
  exists w'. split; [done|].
  pose proof (preserves_for_each (same_world w) ids Worker.Reconcile (Reconcile_same w) w) as Hp.
  rewrite H in Hp. by apply Hp.
Qed.

Lemma trigger_targets_same w0 l : ∀ seen, preserves (same_world w0) (trigger_targets seen l).
Proof. induction l; intros seen; cbn; go_inv. apply Reconcile_same. Qed.

Lemma ReconcileForUser_run `{!Alone P} userID w :
  ∃ w', ReconcileForUser userID w = (w', Ok tt) ∧ same_world w w'.
Proof.
  unfold ReconcileForUser, ignore. eexists. split; [done|].
  assert (preserves (same_world w)
    (targets <- AssignmentTargetsForUser userID ;; trigger_targets ∅ targets)) as Hp.
  { apply preserves_bind; [|intros; apply trigger_targets_same].
    unfold AssignmentTargetsForUser, queryDesired. apply preserves_map_err.
    intros w1 [Hd Hn]. split; [rewrite exec_reads; auto with reads|].
    apply (exec_free (λ w', w_net w' = w_net w) (DbFree0 := ltac:(by intros ?)) _ w1 Hn). }
  by apply Hp.
Qed.

(** ** Store methods *)

Context `{!Quiet P}.

Lemma GetUser_run id w : GetUser id w = (w_tick w, row_at (t_users (w_db w)) id).
Proof. unfold GetUser. by rewrite query_row_at_quiet. Qed.

Lemma GetPlan_run id w : GetPlan id w = (w_tick w, row_at (t_plans (w_db w)) id).
Proof. unfold GetPlan. by rewrite query_row_at_quiet. Qed.

(** Statements on a row asked for by its id. *)
Lemma by_id_run {A} (t : DB → gmap string A) id (q : string → Sql Z) w a :
  row_at (t (w_db w)) id = Ok a →
  requireRow (exec (by_id t id q)) w = requireRow (exec (q (pg_key (t (w_db w)) id))) w.
Proof.
  intros [Hk _]%row_at_Ok. rewrite !requireRow_quiet. unfold by_id. by rewrite Hk.
Qed.

Lemma by_id_missing {A} (t : DB → gmap string A) id (q : string → Sql Z) w e :
  (∀ i now db, t db !! i = None → q i now db = Ok (db, 0)) →
  row_at (t (w_db w)) id = Err e →
  requireRow (exec (by_id t id q)) w = (w_tick w, Err e).
Proof.
  intros Hq He. rewrite requireRow_quiet. unfold by_id. unfold row_at in He.
  destruct (uuid_key _ id) as [i|e'] eqn:Hk.
  - destruct (t (w_db w) !! i) eqn:Hi; [done|]. rewrite (Hq _ _ _ Hi). injection He as <-.
    cbn. by destruct w.
  - injection He as ->. by apply uuid_key_Err in Hk as [-> _].
Qed.

Lemma set_user_run id f w u :
  row_at (t_users (w_db w)) id = Ok u →
  requireRow (exec (by_id t_users id (λ i, sql_set_user i f))) w =
  (w_set_db (set_users (<[pg_key (t_users (w_db w)) id := f (clock (w_k w)) u]> (t_users (w_db w)))
     (w_db w)) (w_tick w), Ok tt).
Proof.
  intros Hu. rewrite (by_id_run _ _ _ _ _ Hu). apply row_at_Ok in Hu as [_ Hu].
  rewrite requireRow_quiet. unfold sql_set_user. by rewrite Hu.
Qed.

Lemma set_user_missing id f w e :
  row_at (t_users (w_db w)) id = Err e →
  requireRow (exec (by_id t_users id (λ i, sql_set_user i f))) w = (w_tick w, Err e).
Proof.
  apply by_id_missing. intros i now db Hi. unfold sql_set_user. by rewrite Hi.
Qed.

(** The row an UpdateUser leaves. *)
Definition updated_row (now : Time) (u r : User) : User :=
  mkUser (u_ID r) (u_Email r) (u_UUID r) (u_TrojanPassword r) (u_PlanID u)
    (u_Status u) (u_DataLimitBytes u) (u_UsedUploadBytes r)
    (u_UsedDownloadBytes r) (u_ExpiresAt u) (u_SubToken u) (u_Note u)
    (u_ExternalID u) (u_CreatedAt r) now.

(** What the server makes of the parameters of a write to users. *)
Lemma user_params_Ok u db u' :
  user_params u db = Ok u' →
  u' = u_set_PlanID (pg_key (t_plans db) <$> u_PlanID u) u ∧
  from_option in_timestamptz true (u_ExpiresAt u) = true.
Proof.
  unfold user_params. destruct (uuid_ref _ _) as [plan|] eqn:Hp; [|done].
  apply uuid_ref_Ok in Hp as ->. by destruct (from_option _ _ _); [intros [= <-]|].
Qed.

Lemma UpdateUser_Ok u w w' :
  UpdateUser u w = (w', Ok tt) →
  ∃ r, t_users (w_db w) !! u_ID u = Some r ∧
    from_option in_timestamptz true (u_ExpiresAt u) = true ∧
    let u1 := u_set_PlanID (pg_key (t_plans (w_db w)) <$> u_PlanID u) u in
    w' = w_set_db (set_users (<[u_ID u := updated_row (clock (w_k w)) u1 r]> (t_users (w_db w)))
                     (w_db w)) (w_tick w).
Proof.
  unfold UpdateUser. rewrite requireRow_quiet. unfold with_params.
  destruct (user_params u (w_db w)) as [u1|] eqn:Hu1; [|done].
  apply user_params_Ok in Hu1 as [-> Ht]. unfold sql_update_user. cbn [u_set_PlanID u_ID].
  destruct (t_users (w_db w) !! u_ID u) as [r|]; [|done].
  cbv zeta. destruct (user_violation _ _); [done|]. intros [= <-]. by exists r.
Qed.

(** The common ending: trigger the user's nodes and re-read the user. *)
Lemma reload_run id uid w :
  ∃ w', (ReconcileForUser uid ;;; GetUser id) w = (w', row_at (t_users (w_db w)) id) ∧
        same_world w w'.
Proof.
  destruct (ReconcileForUser_run uid w) as (w1 & H1 & Hd & Hn).
  rewrite (bind_Ok _ _ _ _ _ H1), GetUser_run, Hd. eexists. by split.
Qed.

(** ** Assignments *)

Lemma sql_add_assignment_Ok now uid ib db db' :
  sql_add_assignment uid ib now db = Ok (db', tt) →
  ∃ rows, db' = set_user_inbounds rows db ∧ ∀ k,
    rows !! k = if decide (k = (uid, ib))
                then Some (default (mkUserInbound uid ib SyncPending None "") (t_user_inbounds db !! k))
                else t_user_inbounds db !! k.
Proof.
  unfold sql_add_assignment. case_bool_decide as Hs.
  - intros [= <-]. exists (t_user_inbounds db). split; [by destruct db|]. intros k.
    case_decide; [subst|done]. by destruct Hs as [r ->].
  - repeat (case_match; [done|]). intros [= <-]. eexists. split; [done|]. intros k. cbn.
    case_decide as Hk; [subst k|by rewrite lookup_insert_ne].
    rewrite lookup_insert_eq. apply eq_None_not_Some in Hs. by rewrite Hs.
Qed.

(** The insertion loop of Create and SetAssignmentsForUserTx. *)
Lemma add_assignments_Ok tx uid ids : ∀ w w',
  for_each ids (λ ib, map_err mapErr (exec_tx tx (sql_add_assignment uid ib))) w = (w', Ok tt) →
  ∃ rows, w_db w' = set_user_inbounds rows (w_db w) ∧ ∀ k,
    rows !! k = if decide (k.1 = uid ∧ k.2 ∈ ids)
                then Some (default (mkUserInbound uid k.2 SyncPending None "") (t_user_inbounds (w_db w) !! k))
                else t_user_inbounds (w_db w) !! k.
Proof.
  induction ids as [|ib ids IH]; intros w w'; cbn [for_each].
  - intros [= <-]. exists (t_user_inbounds (w_db w)). split; [by destruct (w_db w)|].
    intros k. rewrite decide_False; [done|]. intros [_ Hk]. by apply not_elem_of_nil in Hk.
  - intros (w1 & [] & H1%map_err_Ok & H2)%bind_inv.
    apply exec_tx_Ok in H1 as [H1 _]. apply sql_add_assignment_Ok in H1 as (rows1 & Hd1 & Hr1).
    apply IH in H2 as (rows & Hd & Hr). exists rows. split; [by rewrite Hd, Hd1|].
    intros k. rewrite Hr, Hd1. cbn. rewrite Hr1.
    destruct k as [u i]. cbn [fst snd].
    destruct (decide (u = uid)) as [->|Hne].
    2: { rewrite !decide_False; [done|by intros []|congruence|by intros []]. }
    destruct (decide (i = ib)) as [->|Hne].
    + rewrite (decide_True (P := (uid, ib) = (uid, ib))) by done.
      rewrite (decide_True (P := uid = uid ∧ ib ∈ ib :: ids)) by (split; [done|by left]).
      by case_decide.
    + rewrite (decide_False (P := (uid, i) = (uid, ib))) by congruence.
      destruct (decide (i ∈ ids)).
      * rewrite !decide_True; [done|split; [done|by right]|done].
      * rewrite !decide_False; [done|..]; intros [_ Hi]; [|done].
        by apply elem_of_cons in Hi as [?|?].
Qed.

(** Asking for inbounds by id: all of them exist when the lengths agree. *)
Definition inbounds_by_ids (ids : list string) (db : DB) : list Inbound :=
  filter (λ i, ib_ID i ∈ ids) (map_to_list (t_inbounds db)).*2.

Lemma ListInboundsByIDs_run ids w :
  ids ≠ [] →
  ListInboundsByIDs ids w =
  (w_tick w, res_map (λ keys, inbounds_by_ids keys (w_db w)) (uuid_keys (t_inbounds (w_db w)) ids)).
Proof.
  intros Hne. unfold ListInboundsByIDs, queryInbounds, map_err. destruct ids as [|i ids]; [done|].
  rewrite exec_quiet. unfold by_ids. destruct (uuid_keys _ _) as [keys|e] eqn:Hk; [by destruct w|].
  assert (e = malformed_uuid) as ->; [|done]. revert e Hk. generalize (i :: ids) as l.
  induction l as [|j l IH]; intros e; cbn; [done|]. destruct (uuid_key _ j) eqn:Hj.
  - destruct (uuid_keys _ l) eqn:Hl; [done|]. intros [= <-]. by apply IH.
  - intros [= <-]. by apply uuid_key_Err in Hj as [-> _].
Qed.

(** The same row asked for twice makes the lengths differ, so that on success
    the texts name pairwise distinct rows. *)
Lemma dedup_keys_length {A} (m : gmap string A) ids :
  (length (dedup (pg_key m <$> ids)) ≤ length (dedup ids))%nat.
Proof.
  rewrite <- (length_fmap (pg_key m) (dedup ids)).
  apply submseteq_length, NoDup_submseteq; [apply dedup_from_NoDup|].
  intros k [Hk _]%dedup_from_elem. apply list_elem_of_fmap in Hk as (i & -> & Hi).
  apply list_elem_of_fmap. exists i. split; [done|]. apply dedup_from_elem. set_solver.
Qed.

Lemma found_all ids db :
  let keys := pg_key (t_inbounds db) <$> ids in
  db_ok db → length (inbounds_by_ids keys db) = length (dedup ids) →
  ∀ x, x ∈ keys ↔ x ∈ ib_ID <$> inbounds_by_ids keys db.
Proof.
  intros keys Hok Hlen x. pose proof (dedup_keys_length (t_inbounds db) ids) as Hle. fold keys in Hle.
  assert (NoDup (ib_ID <$> inbounds_by_ids keys db)) as Hnd.
  { apply NoDup_fmap_2_strong.
    - intros i j [_ (ki & Hi & Hmi)%list_elem_of_fmap]%list_elem_of_filter
        [_ (kj & Hj & Hmj)%list_elem_of_fmap]%list_elem_of_filter Heq.
      destruct ki as [a i'], kj as [b j']. cbn in *. subst i' j'.
      apply elem_of_map_to_list in Hmi, Hmj.
      pose proof (ok_inbounds_keyed _ Hok _ _ Hmi). pose proof (ok_inbounds_keyed _ Hok _ _ Hmj).
      cbn in *. congruence.
    - apply NoDup_filter, NoDup_fmap_2_strong; [|apply NoDup_map_to_list].
      intros [a i] [b j] Hi%elem_of_map_to_list Hj%elem_of_map_to_list Heq. cbn in *. subst j.
      f_equal. by rewrite <- (ok_inbounds_keyed _ Hok _ _ Hi), <- (ok_inbounds_keyed _ Hok _ _ Hj). }
  assert (ib_ID <$> inbounds_by_ids keys db ≡ₚ dedup keys) as Hperm.
  { apply submseteq_length_Permutation.
    - apply NoDup_submseteq; [done|]. intros y (i & -> & [Hi _]%list_elem_of_filter)%list_elem_of_fmap.
      unfold dedup. apply dedup_from_elem. set_solver.
    - rewrite length_fmap. lia. }
  rewrite Hperm. unfold dedup. rewrite dedup_from_elem. set_solver.
Qed.

Lemma found_exist ids db :
  let keys := pg_key (t_inbounds db) <$> ids in
  db_ok db → length (inbounds_by_ids keys db) = length (dedup ids) →
  Forall (λ i, is_Some (t_inbounds db !! i)) keys.
Proof.
  intros keys Hok Hlen. apply Forall_forall.
  intros x (ib & -> & Hib)%(found_all _ _ Hok Hlen)%list_elem_of_fmap.
  apply list_elem_of_filter in Hib as [_ (kv & -> & Hkv)%list_elem_of_fmap]. destruct kv as [k ib].
  apply elem_of_map_to_list in Hkv. cbn.
  pose proof (ok_inbounds_keyed _ Hok _ _ Hkv) as Hk. cbn in Hk. rewrite Hk. eauto.
Qed.
End Runs.
