(* ===== verification/Nodes.v ===== *)
(** * The life of a node (src/internal/service/nodes.go, worker/manager.go)

    What every stored node satisfies, so that dialling it cannot fail for want
    of valid TLS material; what updating and deleting a node do to the tables
    and to its actor. *)

From stdpp Require Import base gmap strings list fin_maps sets relations.
From Stdlib Require Import ZArith Lia.
From S2P Require Import Prelude Domain Database World StoreBase StoreUsers StoreAssignments StoreTraffic StoreAdmin.
From S2P Require Import GoStd RateLimit Xray Worker ServiceUsers ServiceAdmin ServiceBilling Httpapi Router.
From S2P Require Import System Tables Runs.
Import Httpapi.
Local Open Scope Z_scope.

Section Nodes.
Context {P : Platform}.

(** ** Stored nodes *)

Record node_typed (n : Node) : Prop := {
  nt_name : n_Name n ≠ "";
  nt_address : n_APIAddress n ≠ "";
  nt_tls : ValidateTLSMaterial (n_APICACert n) (n_APIClientCert n) (n_APIClientKey n) = None
}.

Definition nodes_typed (db : DB) : Prop := map_Forall (λ _ n, node_typed n) (t_nodes db).

(** Only the fields of [node_typed] matter. *)
Lemma node_typed_same n n' :
  n_Name n' = n_Name n → n_APIAddress n' = n_APIAddress n → n_APICACert n' = n_APICACert n →
  n_APIClientCert n' = n_APIClientCert n → n_APIClientKey n' = n_APIClientKey n →
  node_typed n → node_typed n'.
Proof. intros H1 H2 H3 H4 H5 []. by constructor; rewrite ?H1, ?H2, ?H3, ?H4, ?H5. Qed.

(** The channel the settings of a node describe. *)
Definition tls_of (n : Node) : TLSConfig :=
  mkTLSConfig (n_APITLSServerName n) (n_APITLSInsecure n)
    (if String.eqb (n_APICACert n) "" then None else Some (n_APICACert n))
    (if String.eqb (n_APIClientCert n) "" then None else Some (n_APIClientCert n, n_APIClientKey n)).

Definition channel_of (n : Node) : Conn :=
  mkConn (n_APIAddress n +:+ ":" +:+ Itoa (n_APIPort n))
    (if n_APITLS n then Some (tls_of n) else None).

Lemma buildTLSConfig_valid n :
  node_typed n →
  buildTLSConfig (mkDialOptions (n_APIAddress n) (n_APIPort n) (n_APITLS n) (n_APITLSServerName n)
    (n_APITLSInsecure n) (n_APICACert n) (n_APIClientCert n) (n_APIClientKey n)) = Ok (tls_of n).
Proof.
  intros [_ _ Hv]. revert Hv. unfold ValidateTLSMaterial, buildTLSConfig, tls_of.
  cbn [do_CACertPEM do_ClientCertPEM do_ClientKeyPEM do_TLSServerName do_TLSInsecure].
  destruct (_ && _); [done|]. cbv zeta.
  destruct (String.eqb (n_APIClientCert n) ""), (String.eqb (n_APIClientKey n) ""); cbn; try done.
  by destruct (X509KeyPair _ _).
Qed.

(** Dialling a stored node is asking for its channel. *)
Lemma dial_typed n :
  node_typed n →
  match grpc_NewClient (channel_of n) with
  | None => DefaultDial n = Ok (channel_of n)
  | Some msg => ∃ target, DefaultDial n = Err (WrapError ("dial " +:+ target +:+ ": " +:+ msg) (ErrorString msg))
  end.
Proof.
  intros Hn. unfold DefaultDial, Dial. cbv zeta. rewrite (buildTLSConfig_valid n Hn).
  unfold channel_of. cbn [do_TLS do_Address do_Port].
  destruct (n_APITLS n); destruct (grpc_NewClient _); by eauto.
Qed.

(** *** Statements *)

Lemma insert_node_typed n : node_typed n → sql_keeps nodes_typed (sql_insert_node n).
Proof.
  intros Hn now db db' a Hdb. unfold sql_insert_node. cbv zeta. case_bool_decide; [done|].
  case_match; [done|]. intros [= <- _]. apply map_Forall_insert_2; [|done].
  by eapply node_typed_same, Hn.
Qed.
Lemma update_node_typed n : node_typed n → sql_keeps nodes_typed (sql_update_node n).
Proof.
  intros Hn now db db' a Hdb. unfold sql_update_node. cbv zeta. case_match; [|by intros [= <- _]].
  case_match; [done|]. intros [= <- _]. apply map_Forall_insert_2; [|done].
  by eapply node_typed_same, Hn.
Qed.
Lemma set_node_health_typed id s e t : sql_keeps nodes_typed (sql_set_node_health id s e t).
Proof.
  intros now db db' a Hdb. unfold sql_set_node_health.
  destruct (t_nodes db !! id) as [n|] eqn:Hn; [|by intros [= <- _]].
  intros [= <- _]. apply map_Forall_insert_2; [|done]. by eapply node_typed_same, (Hdb _ _ Hn).
Qed.
Lemma delete_node_typed id : sql_keeps nodes_typed (sql_delete_node id).
Proof.
  intros now db db' a Hdb. unfold sql_delete_node. cbv zeta. case_match; intros [= <- _]; [|done].
  by apply map_Forall_delete.
Qed.

(** The others do not write the table. *)
Lemma nodes_elsewhere {A} (q : Sql A) :
  (∀ now db db' a, q now db = Ok (db', a) → t_nodes db' = t_nodes db) → sql_keeps nodes_typed q.
Proof. intros Hq now db db' a Hdb E. unfold nodes_typed. by rewrite (Hq _ _ _ _ E). Qed.
End Nodes.

Ltac nodes_elsewhere :=
  apply nodes_elsewhere; intros ? ? ? ?;
  unfold select, sql_insert_user, sql_update_user, sql_set_user, sql_delete_user, update_where,
    sql_list_users, sql_add_assignment, sql_tombstone, sql_mark_synced, sql_delete_assignment,
    sql_insert_snapshot, sql_add_usage, sql_suspend_over_quota, sql_prune, sql_insert_inbound,
    sql_update_inbound, sql_delete_inbound, sql_insert_plan, sql_update_plan, sql_delete_plan,
    sql_insert_api_key, sql_touch_api_key, sql_revoke_api_key;
  cbv zeta; repeat case_match; intros; simplify_eq; done.

#[export] Hint Resolve set_node_health_typed delete_node_typed : tables.
#[export] Hint Extern 9 (sql_keeps nodes_typed _) => solve [nodes_elsewhere] : tables.

#[export] Instance nodes_typed_background {P : Platform} : Background nodes_typed.
Proof. constructor; intros; first [apply set_node_health_typed | nodes_elsewhere]. Qed.

(** *** Operations *)

Section Typed.
Context {P : Platform} `{!Stable nodes_typed}.

Lemma applyTLS_typed inp n n' :
  n_Name n ≠ "" → n_APIAddress n ≠ "" → NodeService.applyTLSMaterial inp n = Ok n' → node_typed n'.
Proof.
  intros Hn Ha. unfold NodeService.applyTLSMaterial. cbv zeta.
  destruct (ValidateTLSMaterial _ _ _) eqn:Hv; [done|]. by intros [= <-].
Qed.

Lemma Node_Create_typed inp : preserves (on_tables nodes_typed) (NodeService.Create inp).
Proof.
  unfold NodeService.Create. destruct (String.eqb_spec (TrimSpace (NodeService.ni_Name inp)) "") as [|Hname];
    [tables|].
  destruct (String.eqb_spec (NodeService.ni_APIAddress inp) "") as [|Haddr]; [tables|].
  destruct (_ || _); [tables|]. apply preserves_bind; [tables|intros id].
  eapply (preserves_bind_val _ node_typed).
  - intros w Hw. split; [done|]. intros n E. cbn in E.
    eapply applyTLS_typed; [..|exact E]; cbn; [intros Hn; by rewrite Hn in Hname|done].
  - intros n Hn. pose proof (insert_node_typed n Hn). tables.
Qed.

Lemma GetNode_typed id w :
  on_tables nodes_typed w → on_tables nodes_typed (GetNode id w).1 ∧
  ∀ n, (GetNode id w).2 = Ok n → node_typed n.
Proof.
  intros Hw. pose proof (stable (I := nodes_typed) (w_k w) _ Hw) as Hi.
  unfold GetNode, query_row, map_err, bind, exec, select, on_tables.
  unfold by_id. destruct (uuid_key _ id) as [i|e]; destruct (fault_at (w_k w)) as [|[] msg]; cbn;
    try done.
  destruct (t_nodes _ !! i) as [n|] eqn:Hn; cbn; [|done]. split; [done|]. intros m [= <-].
  by eapply node_typed_same, (Hi _ _ Hn).
Qed.

Lemma Node_Update_typed id inp : preserves (on_tables nodes_typed) (NodeService.Update id inp).
Proof.
  unfold NodeService.Update. eapply (preserves_bind_val _ node_typed); [apply GetNode_typed|].
  intros n0 [Hname Haddr _]. eapply (preserves_bind_val _ node_typed).
  - intros w Hw. split; [done|]. intros n E. cbn in E.
    eapply applyTLS_typed; [..|exact E]; cbn.
    + by destruct (String.eqb_spec (NodeService.ni_Name inp) "").
    + by destruct (String.eqb_spec (NodeService.ni_APIAddress inp) "").
  - intros n Hn. pose proof (update_node_typed n Hn). tables.
Qed.
Hint Resolve Node_Create_typed Node_Update_typed : go_inv.

Context (J : Codecs) (sv : Server) (prometheus_text : gmap (string * list string) Z → string).
Context {Limiter : Type} (NewLimiter : Z → Limiter) (Allow : Limiter → Time → Limiter * bool).

Lemma handler_nodes rt r : preserves (on_tables nodes_typed) (handler J sv prometheus_text rt r).
Proof.
  destruct rt; cbn [handler]; autounfold with handlers; first [ solve [go_inv] | tables ].
Qed.
Hint Resolve handler_nodes : go_inv.

Lemma Router_nodes l rt r :
  preserves (on_tables nodes_typed) (Router J sv prometheus_text NewLimiter Allow l rt r).
Proof. unfold Router.Router, authMiddleware, rateLimitMiddleware, requestLogger. tables. Qed.

Lemma step_nodes cfg s s' :
  step J sv prometheus_text NewLimiter Allow cfg s s' →
  on_tables nodes_typed (s_world s) → on_tables nodes_typed (s_world s').
Proof.
  intros Hstep Hw. destruct Hstep; cbn in *.
  - by apply Router_nodes.
  - by apply checkHealth_keeps; [apply _..|].
  - pose proof (run_turn_keeps nodes_typed a s w Hw) as Hk.
    match goal with H : run_turn _ _ _ = _ |- _ => rewrite H in Hk end. done.
  - by apply expiry_sweep_keeps; [apply _..|].
  - by apply prune_keeps; [apply _..|].
  - by apply Start_keeps; [apply _..|].
  - by apply Stop_keeps; [apply _..|].
Qed.

Lemma reachable_nodes cfg s s' :
  rtc (step J sv prometheus_text NewLimiter Allow cfg) s s' →
  on_tables nodes_typed (s_world s) → on_tables nodes_typed (s_world s').
Proof. induction 1; eauto using step_nodes. Qed.

(** C13 (typed nodes): in every reachable state each stored node has a name, an
    address and TLS material that parses and fits together, so that dialling it
    yields the channel its stored settings describe (address, port, TLS options
    and certificates), and fails only when that very channel is refused. *)
Theorem nodes_typed_reachable cfg s s' :
  nodes_typed (w_db (s_world s)) →
  rtc (step J sv prometheus_text NewLimiter Allow cfg) s s' →
  ∀ id n, t_nodes (w_db (s_world s')) !! id = Some n →
    node_typed n ∧
    match grpc_NewClient (channel_of n) with
    | None => DefaultDial n = Ok (channel_of n)
    | Some msg => ∃ target,
        DefaultDial n = Err (WrapError ("dial " +:+ target +:+ ": " +:+ msg) (ErrorString msg))
    end.
Proof.
  intros Hs Hsteps. assert (on_tables nodes_typed (s_world s')) as Ht by (by eapply reachable_nodes).
  intros id n Hn. pose proof (Ht _ _ Hn) as Hnt. split; [done|]. by apply dial_typed.
Qed.
End Typed.

(** ** Deleting and updating *)

Section Lifecycle.
Context {P : Platform} `{!Quiet P}.

(** The tables without a node, its inbounds, their assignments and the usage
    recorded on it. *)
Record node_gone (id : string) (db db' : DB) : Prop := {
  gone_nodes : t_nodes db' = delete id (t_nodes db);
  gone_inbounds : ∀ k i, t_inbounds db' !! k = Some i ↔ t_inbounds db !! k = Some i ∧ ib_NodeID i ≠ id;
  gone_rows : ∀ k ui, t_user_inbounds db' !! k = Some ui ↔
    t_user_inbounds db !! k = Some ui ∧ ∀ i, t_inbounds db !! k.2 = Some i → ib_NodeID i ≠ id;
  gone_snapshots : t_traffic_snapshots db' = filter (λ s, ts_NodeID s ≠ id) (t_traffic_snapshots db);
  gone_rest : t_users db' = t_users db ∧ t_plans db' = t_plans db ∧
    t_api_keys db' = t_api_keys db ∧ t_webhook_events db' = t_webhook_events db
}.

Lemma sql_delete_node_gone id now db db' n :
  is_Some (t_nodes db !! id) → sql_delete_node id now db = Ok (db', n) → n = 1 ∧ node_gone id db db'.
Proof.
  intros [m Hm]. unfold sql_delete_node. rewrite Hm. cbv zeta. intros [= <- <-]. split; [done|].
  constructor; cbn; try done.
  - intros k i. rewrite map_lookup_filter_Some. by rewrite String.eqb_neq.
  - intros k ui. rewrite map_lookup_filter_Some. destruct k as [u ib]. cbn.
    destruct (t_inbounds db !! ib) as [i|]; cbn; [rewrite String.eqb_neq|]; naive_solver.
Qed.

Lemma StopNode_db id w : ∃ w', StopNode id w = (w', Ok tt) ∧ w_db w' = w_db w.
Proof.
  unfold StopNode, gets, bind. destruct (w_actors w !! id) as [a|]; by eexists.
Qed.

(** Without an entry in the manager's map, every actor of the node is stopped. *)
Lemma unregistered_stopped id w :
  actors_ok w → w_actors w !! id = None →
  ∀ a x, w_heap w !! a = Some x → n_ID (a_node x) = id → a_stopped x = true.
Proof.
  intros [_ Hlive] Hno a x Hx Hid. apply not_false_is_true. intros Hs.
  specialize (Hlive a x Hx Hs). congruence.
Qed.

Lemma StopNode_others id k w : k ≠ id → w_actors (StopNode id w).1 !! k = w_actors w !! k.
Proof.
  intros Hk. unfold StopNode, gets, bind. destruct (w_actors w !! id); [|done].
  cbn. by rewrite lookup_delete_ne.
Qed.

(** C31 (deleting a node): the actor registered under the text of the request
    is told to stop and leaves the manager's map, and no other actor does; the
    node that text stands for, when stored, disappears with its inbounds, their
    assignments and its usage records, and nothing else changes.  When there is
    no such node the tables stay, and the answer is not-found, or PostgreSQL's
    own error when the text is not a UUID.  (The map is looked up by the text
    itself: another spelling of a stored id deletes the row and leaves the
    actor running.) *)
Theorem delete_node_spec id w w' r :
  actors_ok w → NodeService.Delete id w = (w', r) →
  let key := pg_key (t_nodes (w_db w)) id in
  w_actors w' !! id = None ∧
  (∀ a x, w_heap w' !! a = Some x → n_ID (a_node x) = id → a_stopped x = true) ∧
  (∀ k, k ≠ id → w_actors w' !! k = w_actors w !! k) ∧
  match t_nodes (w_db w) !! key with
  | Some _ => r = Ok tt ∧ node_gone key (w_db w) (w_db w')
  | None => r = Err (if uuid_in id is Some _ then ErrNotFound else malformed_uuid) ∧
            w_db w' = w_db w
  end.
Proof.
  intros Hok. unfold NodeService.Delete. destruct (StopNode_db id w) as (w1 & E1 & Hd1).
  pose proof (StopNode_reg id w Hok) as Hok1. pose proof (StopNode_unreg id w) as Hno.
  pose proof (λ k, StopNode_others id k w) as Hot.
  rewrite E1 in Hok1, Hno, Hot. cbn [fst] in Hok1, Hno, Hot. rewrite (bind_Ok _ _ _ _ _ E1).
  unfold DeleteNode. pose proof (row_at_cases (t_nodes (w_db w)) id) as Hrow. cbv zeta.
  destruct (t_nodes (w_db w) !! pg_key (t_nodes (w_db w)) id) as [n|] eqn:Hn.
  - rewrite (by_id_run t_nodes id _ w1 n), requireRow_quiet by (by rewrite Hd1). rewrite Hd1.
    destruct (sql_delete_node _ (clock (w_k w1)) (w_db w)) as [[db' z]|e] eqn:E;
      [|by unfold sql_delete_node in E; rewrite Hn in E].
    destruct (sql_delete_node_gone _ _ _ _ _ ltac:(by exists n) E) as [-> Hg].
    intros [= <- <-]. split_and!; [done| |done..]. by apply (unregistered_stopped id w1).
  - rewrite (by_id_missing t_nodes id _ w1 (if uuid_in id is Some _ then ErrNotFound else malformed_uuid));
      [|intros i now db Hi; unfold sql_delete_node; by rewrite Hi|by rewrite Hd1].
    intros [= <- <-]. split_and!; [done| |done..]. by apply (unregistered_stopped id w1).
Qed.

Lemma GetNode_run id w :
  GetNode id w = (w_tick w, res_map scanNode (row_at (t_nodes (w_db w)) id)).
Proof.
  unfold GetNode. rewrite query_row_at_quiet. unfold row_at.
  destruct (uuid_key _ id) as [i|]; [|done]. by destruct (t_nodes (w_db w) !! i).
Qed.

(** The settings of a node: what a restart of its actor depends on. *)
Definition same_settings (n m : Node) : Prop :=
  n_ID n = n_ID m ∧ n_Name n = n_Name m ∧ n_APIAddress n = n_APIAddress m ∧ n_APIPort n = n_APIPort m ∧
  n_APITLS n = n_APITLS m ∧ n_APITLSServerName n = n_APITLSServerName m ∧
  n_APITLSInsecure n = n_APITLSInsecure m ∧ n_APICACert n = n_APICACert m ∧
  n_APIClientCert n = n_APIClientCert m ∧ n_APIClientKey n = n_APIClientKey m.

Lemma UpdateNode_Ok n w w' :
  db_ok (w_db w) → UpdateNode n w = (w', Ok tt) →
  ∃ row, t_nodes (w_db w') = <[n_ID n := row]> (t_nodes (w_db w)) ∧ same_settings row n ∧
    w' = w_set_db (w_db w') (w_tick w).
Proof.
  intros Hok. unfold UpdateNode. rewrite requireRow_quiet. unfold sql_update_node.
  destruct (t_nodes (w_db w) !! n_ID n) as [r|] eqn:Hr; [|done]. cbv zeta.
  destruct (node_violation _ _); [done|]. intros [= <-].
  eexists. split; [done|]. split; [|done]. pose proof (ok_nodes_keyed _ Hok _ _ Hr). by repeat split.
Qed.

Lemma StartNode_run n w :
  actors_ok w →
  ∃ w' a, StartNode n w = (w', Ok a) ∧ w_db w' = w_db w ∧ w_k w' = w_k w ∧
    w_actors w' !! n_ID n = Some a ∧ w_heap w' !! a = Some (newNodeActor n) ∧ w_heap w !! a = None.
Proof.
  intros Hok. unfold StartNode. destruct (StopNode_db (n_ID n) w) as (w1 & E1 & Hd1).
  rewrite (bind_Ok _ _ _ _ _ E1). unfold gets, modify, bind, ret. cbn.
  eexists _, _. split; [reflexivity|]. cbn. rewrite !lookup_insert_eq.
  assert (dom (w_heap w1) =@{gset nat} dom (w_heap w) ∧ w_k w1 = w_k w) as [Hdom Hk].
  { revert E1. unfold StopNode, gets, bind. destruct (w_actors w !! n_ID n) as [a|]; intros [= <-];
      [|done]. cbn. by rewrite dom_alter_L. }
  split_and!; try done. apply not_elem_of_dom. rewrite <- Hdom. apply is_fresh.
Qed.

(** C30 (updating a node): a successful update stores the settings the request
    and the old row add up to, and replaces the actor: the manager's map points
    at a new one that starts from those settings, with nothing in its buffer
    and no connection, and every other actor of the node is told to stop. *)
Theorem update_node_spec id inp w w' v :
  db_ok (w_db w) → actors_ok w → NodeService.Update id inp w = (w', Ok v) →
  let key := pg_key (t_nodes (w_db w)) id in
  ∃ n0 m row a,
    t_nodes (w_db w) !! key = Some n0 ∧
    NodeService.applyTLSMaterial inp (NodeService.apply_settings inp (scanNode n0)) = Ok m ∧
    t_nodes (w_db w') = <[key := row]> (t_nodes (w_db w)) ∧ same_settings row m ∧ v = scanNode row ∧
    w_actors w' !! key = Some a ∧ w_heap w' !! a = Some (newNodeActor m) ∧ w_heap w !! a = None ∧
    ∀ b x, w_heap w' !! b = Some x → n_ID (a_node x) = key → b ≠ a → a_stopped x = true.
Proof.
  intros Hdb Hok. unfold NodeService.Update.
  intros (w1 & n0 & H1 & (w2 & m & H2 & (w3 & [] & H3 & (w4 & a & H4 & H5)%bind_inv)%bind_inv)%bind_inv)%bind_inv.
  rewrite GetNode_run in H1. destruct (row_at (t_nodes (w_db w)) id) as [n|] eqn:Hrow0; [|done].
  apply row_at_Ok in Hrow0 as [Hk0 Hn]. cbv zeta. set (key := pg_key _ id) in *.
  injection H1 as <- <-. unfold lift_res in H2. injection H2 as <- Hm.
  assert (n_ID m = key) as Hid.
  { revert Hm. unfold NodeService.applyTLSMaterial. cbv zeta. destruct (ValidateTLSMaterial _ _ _); [done|].
    intros [= <-]. cbn. apply (ok_nodes_keyed _ Hdb _ _ Hn). }
  apply UpdateNode_Ok in H3 as (row & Hrow & Hset & Hw3); [|done]. rewrite Hid in Hrow.
  assert (actors_ok w3) as Hok3 by (rewrite Hw3; destruct Hok; by constructor).
  destruct (StartNode_run m w3 Hok3) as (w4' & a' & E4 & Hd4 & Hk4 & Ha & Hh & Hf).
  rewrite H4 in E4. injection E4 as <- <-.
  pose proof (StartNode_reg m w3 Hok3) as Hok4. rewrite H4 in Hok4.
  rewrite GetNode_run, Hd4, Hrow, (row_at_update _ _ key) in H5 by first [done | by exists n].
  injection H5 as <- <-.
  rewrite Hid in Ha. exists n, m, row, a. cbn [w_tick w_db w_actors w_heap]. rewrite Hd4.
  split_and!; try done; [by rewrite Hw3 in Hf|].
  intros b x Hb Hx Hne. apply not_false_is_true. intros Hs. destruct Hok4 as [_ Hlive].
  specialize (Hlive b x Hb Hs). rewrite Hx in Hlive. cbn in Hlive. congruence.
Qed.
End Lifecycle.
