(* ===== verification/Lifecycle.v ===== *)
(** * The subscription lifecycle (src/internal/service/users.go)

    What renewing, resuming, suspending, creating, re-assigning and deleting a
    user does to the database, for a session that runs undisturbed. *)

From stdpp Require Import base gmap strings list fin_maps sets.
From Stdlib Require Import ZArith Lia.
From S2P Require Import Prelude Domain Database World StoreBase StoreUsers StoreAssignments StoreTraffic StoreAdmin.
From S2P Require Import GoStd Xray Worker ServiceUsers Runs.
Import UserService.
Local Open Scope Z_scope.

Section Lifecycle.
Context {P : Platform} `{!Quiet P}.

(** ** Renewal *)

(** Early renewals stack on the current expiry, late ones start now. *)
Definition renewal_base (e : option Time) (now : Time) : Time :=
  match e with Some t => Z.max t now | None => now end.

(** The service entitlement of a row at an instant. *)
Definition in_service (now : Time) (u : User) : bool :=
  negb (OverQuota u) && match u_ExpiresAt u with Some e => After e now | None => true end.

(** The row Renew makes of [u], read off its steps: [switch] is the plan it
    switches to with the id it files it under, [now1] and [now2] the two
    readings of the clock. *)
Definition renewed (inp : RenewInput) (switch : option (string * Plan)) (now1 now2 : Time)
    (u : User) : User :=
  let u := match switch with
           | Some (pid, p) => u_set_DataLimitBytes (p_DataLimitBytes p) (u_set_PlanID (Some pid) u)
           | None => u
           end in
  let u := if bool_decide (0 < rn_Days inp)
           then u_set_ExpiresAt (Some (AddDate (renewal_base (u_ExpiresAt u) now1) (rn_Days inp))) u
           else u in
  let u := if rn_ResetTraffic inp then u_set_Used 0 0 u else u in
  if negb (String.eqb (u_Status u) UserStatusDisabled) && in_service now2 u
  then u_set_Status UserStatusActive u else u.

(** The plan a renewal asks for, under its key. *)
Definition switch_of (inp : RenewInput) (db : DB) : option (string * Plan) :=
  pid ← rn_PlanID inp;
  (pg_key (t_plans db) pid,.) <$> t_plans db !! pg_key (t_plans db) pid.

Lemma renew_plan_Ok inp u w w' u1 :
  renew_plan inp u w = (w', Ok u1) →
  w_db w' = w_db w ∧ ∃ raw,
    u1 = match raw with
         | Some (pid, p) => u_set_DataLimitBytes (p_DataLimitBytes p) (u_set_PlanID (Some pid) u)
         | None => u
         end ∧
    switch_of inp (w_db w) = (λ '(pid, p), (pg_key (t_plans (w_db w)) pid, p)) <$> raw.
Proof.
  unfold renew_plan, switch_of. destruct (rn_PlanID inp) as [pid|]; [|intros [= <- <-]; split; [done|by exists None]].
  intros (w1 & p & H1 & H2)%bind_inv. rewrite GetPlan_run in H1. cbn.
  injection H1 as <- [_ Hp]%row_at_Ok. injection H2 as <- <-. split; [done|].
  exists (Some (pid, p)). split; [done|]. cbn. by rewrite Hp.
Qed.

(** Writing the row back files the plan under its key. *)
Lemma renewed_plan inp switch now1 now2 u :
  u_PlanID (renewed inp switch now1 now2 u) =
  match switch with Some (pid, _) => Some pid | None => u_PlanID u end.
Proof. unfold renewed. by destruct switch as [[]|], (bool_decide _), (rn_ResetTraffic inp), (_ && _). Qed.

Lemma renewed_switch inp pid pid' p now1 now2 u :
  u_set_PlanID (Some pid') (renewed inp (Some (pid, p)) now1 now2 u) =
  renewed inp (Some (pid', p)) now1 now2 u.
Proof.
  unfold renewed, in_service, OverQuota. destruct (bool_decide _), (rn_ResetTraffic inp); cbn;
    by destruct (_ && _).
Qed.

Lemma renewed_stored inp raw now1 now2 u db :
  (∀ p, u_PlanID u = Some p → is_Some (t_plans db !! p)) →
  let v := renewed inp raw now1 now2 u in
  u_set_PlanID (pg_key (t_plans db) <$> u_PlanID v) v =
  renewed inp ((λ '(pid, p), (pg_key (t_plans db) pid, p)) <$> raw) now1 now2 u.
Proof.
  intros Hp v. subst v. rewrite renewed_plan. destruct raw as [[pid p]|]; [apply renewed_switch|].
  cbn [fmap option_fmap option_map]. set (v := renewed inp None now1 now2 u).
  assert (pg_key (t_plans db) <$> u_PlanID u = u_PlanID v) as Hkey.
  { unfold v. rewrite renewed_plan. destruct (u_PlanID u) as [q|]; [cbn; by rewrite pg_key_stored by eauto|done]. }
  change (option_map _ _) with (pg_key (t_plans db) <$> u_PlanID u). rewrite Hkey. by destruct v.
Qed.

Lemma renew_expiry_run inp u w :
  ∃ w' now, renew_expiry inp u w = (w', Ok
    (if bool_decide (0 < rn_Days inp)
     then u_set_ExpiresAt (Some (AddDate (renewal_base (u_ExpiresAt u) now) (rn_Days inp))) u
     else u)) ∧ w_db w' = w_db w ∧ ∃ k, now = clock k.
Proof.
  unfold renew_expiry. case_bool_decide; [|by exists w, (clock 0); eauto].
  exists (w_tick w), (clock (w_k w)). cbn. split; [|by eauto]. unfold renewal_base, After.
  destruct (u_ExpiresAt u) as [e|]; [|done].
  case_bool_decide; [rewrite Z.max_l by lia|rewrite Z.max_r by lia]; done.
Qed.

Lemma renew_status_run u w :
  ∃ w' now, renew_status u w = (w', Ok
    (if negb (String.eqb (u_Status u) UserStatusDisabled) && in_service now u
     then u_set_Status UserStatusActive u else u)) ∧ w_db w' = w_db w ∧ ∃ k, now = clock k.
Proof.
  unfold renew_status, in_service, unexpired.
  destruct (negb (String.eqb _ _)); cbn [andb]; [|by exists w, (clock 0); eauto].
  destruct (negb (OverQuota u)); cbn [andb]; [|by exists w, (clock 0); eauto].
  destruct (u_ExpiresAt u) as [e|]; [|by exists w, (clock 0); eauto].
  exists (w_tick w), (clock (w_k w)). cbn. by eauto.
Qed.

Lemma ResetTraffic_run id w u :
  row_at (t_users (w_db w)) id = Ok u →
  StoreUsers.ResetTraffic id w =
  (w_set_db (set_users (<[pg_key (t_users (w_db w)) id := u_set_UpdatedAt (clock (w_k w)) (u_set_Used 0 0 u)]>
     (t_users (w_db w))) (w_db w)) (w_tick w), Ok tt).
Proof. intros Hu. unfold StoreUsers.ResetTraffic. by erewrite set_user_run. Qed.

(** The optional reset of Renew: the local copy and the row agree afterwards,
    and no other table is written. *)
Lemma renew_reset_run inp id u w r :
  row_at (t_users (w_db w)) id = Ok r →
  ∃ w' t, (if rn_ResetTraffic inp then StoreUsers.ResetTraffic id ;;; ret (u_set_Used 0 0 u)
         else ret u) w = (w', Ok (if rn_ResetTraffic inp then u_set_Used 0 0 u else u)) ∧
    t_plans (w_db w') = t_plans (w_db w) ∧
    t_users (w_db w') = <[pg_key (t_users (w_db w)) id :=
      if rn_ResetTraffic inp then u_set_UpdatedAt t (u_set_Used 0 0 r) else r]> (t_users (w_db w)).
Proof.
  intros Hr. destruct (rn_ResetTraffic inp).
  - rewrite (bind_Ok _ _ _ _ _ (ResetTraffic_run _ _ _ Hr)). eexists _, (clock (w_k w)). by split_and!.
  - exists w, 0. split_and!; [done..|]. apply row_at_Ok in Hr as [_ Hr]. by rewrite insert_id.
Qed.

(** An update of columns a row may change, written back over that row. *)
Definition same_identity (u r : User) : Prop :=
  u_ID u = u_ID r ∧ u_Email u = u_Email r ∧ u_UUID u = u_UUID r ∧
  u_TrojanPassword u = u_TrojanPassword r ∧ u_UsedUploadBytes u = u_UsedUploadBytes r ∧
  u_UsedDownloadBytes u = u_UsedDownloadBytes r ∧ u_CreatedAt u = u_CreatedAt r.

Lemma updated_row_same now u r :
  same_identity u r → updated_row now u r = u_set_UpdatedAt now u.
Proof.
  intros (H1 & H2 & H3 & H4 & H5 & H6 & H7). unfold updated_row, u_set_UpdatedAt.
  by rewrite H1, H2, H3, H4, H5, H6, H7.
Qed.

Lemma renewed_identity inp switch now1 now2 u t :
  same_identity (renewed inp switch now1 now2 u)
    (if rn_ResetTraffic inp then u_set_UpdatedAt t (u_set_Used 0 0 u) else u).
Proof.
  unfold renewed. destruct switch as [[]|], (bool_decide _), (rn_ResetTraffic inp), (_ && _);
    by repeat split.
Qed.

Lemma Renew_row id inp w w' u' :
  db_ok (w_db w) → Renew id inp w = (w', Ok u') →
  ∃ u now1 now2 t, let key := pg_key (t_users (w_db w)) id in
    t_users (w_db w) !! key = Some u ∧
    u' = u_set_UpdatedAt t (renewed inp (switch_of inp (w_db w)) now1 now2 u) ∧
    from_option in_timestamptz true (u_ExpiresAt u') = true ∧
    t_users (w_db w') !! key = Some u' ∧
    (∃ k, now1 = clock k) ∧ (∃ k, now2 = clock k).
Proof.
  intros Hok. unfold Renew. destruct (_ && _); [done|].
  intros (w1 & u & H1 & (w2 & u1 & H2 & (w3 & u2 & H3 & H)%bind_inv)%bind_inv)%bind_inv.
  rewrite GetUser_run in H1. injection H1 as <- Hrow.
  pose proof (row_at_Ok _ _ _ Hrow) as [Hkey Hu]. set (key := pg_key _ id) in *.
  assert (u_ID u = key) as Hid by apply (users_keyed _ (ok_users _ Hok) _ _ Hu).
  apply renew_plan_Ok in H2 as [Hd2 (raw & Hu1 & Hsw)]. cbn in Hd2, Hsw.
  destruct (renew_expiry_run inp u1 w2) as (w3' & now1 & E3 & Hd3 & Hk1).
  rewrite E3 in H3. injection H3 as <- Hu2.
  apply bind_inv in H as (w4 & u3 & H4 & (w5 & u4 & H5 & (w6 & [] & H6 & H7)%bind_inv)%bind_inv).
  destruct (renew_reset_run inp id u2 w3' u) as (w4' & t & E4 & Hpl & Hus); [by rewrite Hd3, Hd2|].
  rewrite Hd3, Hd2 in Hpl, Hus. fold key in Hus.
  rewrite E4 in H4. injection H4 as <- Hu3.
  destruct (renew_status_run u3 w4') as (w5' & now2 & E5 & Hd5 & Hk2).
  rewrite E5 in H5. injection H5 as <- Hu4.
  assert (u4 = renewed inp raw now1 now2 u) as Hren.
  { unfold renewed. by rewrite <- Hu1, Hu2, Hu3. }
  pose proof (renewed_identity inp (switch_of inp (w_db w)) now1 now2 u t) as Hsame.
  assert (u_ID u4 = key) as Hid4.
  { destruct (renewed_identity inp raw now1 now2 u t) as [Heq _]. rewrite Hren, Heq.
    by destruct (rn_ResetTraffic inp). }
  apply UpdateUser_Ok in H6 as (r & Hr & Hexp & Hw6). cbv zeta in Hw6.
  rewrite Hid4, Hd5, Hus, lookup_insert_eq in Hr. injection Hr as <-.
  rewrite Hid4, Hd5, Hpl, Hus, Hren, renewed_stored, <- Hsw, updated_row_same, insert_insert_eq in Hw6;
    [|done|intros p Hp; by eapply (ok_users_plan _ Hok)].
  set (t6 := clock (w_k w5')) in *. set (u6 := u_set_UpdatedAt t6 _) in *.
  destruct (reload_run id (u_ID u4) w6) as (w7 & E7 & Hd7 & _).
  rewrite E7, Hw6 in H7. cbn in H7, Hd7.
  rewrite (row_at_update _ _ key) in H7 by first [done | by exists u]. injection H7 as <- <-.
  exists u, now1, now2, t6. cbv zeta. split_and!; try done.
  - rewrite Hren in Hexp. subst u6. cbn. rewrite Hsw, <- renewed_stored; [done|].
    intros p Hp. by eapply (ok_users_plan _ Hok).
  - rewrite Hd7, Hw6. cbn. by rewrite lookup_insert_eq.
Qed.

(** C25 (renewal): a renewal that reports success has stored, for that user,
    exactly this row: the plan and its limit switched when asked, the expiry
    extended from the later of the old expiry and now (and within the range of
    the column), the counters zeroed when asked, and the user reactivated when
    not disabled and then within quota and expiry.  A disabled user stays
    disabled: so does the comment of Renew want it, while
    docs/billing-webhooks.md says that a renew after a cancel restores
    service. *)
Theorem renew_spec id inp w w' u' :
  db_ok (w_db w) → Renew id inp w = (w', Ok u') →
  ∃ u now1 now2 t, let key := pg_key (t_users (w_db w)) id in
    t_users (w_db w) !! key = Some u ∧
    u' = u_set_UpdatedAt t (renewed inp (switch_of inp (w_db w)) now1 now2 u) ∧
    from_option in_timestamptz true (u_ExpiresAt u') = true ∧
    t_users (w_db w') !! key = Some u' ∧
    (∃ k, now1 = clock k) ∧ (∃ k, now2 = clock k).
Proof. apply Renew_row. Qed.

(** ** Suspending and resuming *)

Lemma setStatus_run id s w u :
  row_at (t_users (w_db w)) id = Ok u →
  let u' := u_set_UpdatedAt (clock (w_k w)) (u_set_Status s u) in
  ∃ w', setStatusAndReconcile id s w = (w', Ok u') ∧
    w_db w' = set_users (<[pg_key (t_users (w_db w)) id := u']> (t_users (w_db w))) (w_db w) ∧
    w_net w' = w_net w.
Proof.
  intros Hu u'. unfold setStatusAndReconcile, SetUserStatus.
  rewrite (bind_Ok _ _ _ _ _ (set_user_run _ _ _ _ Hu)).
  set (w1 := w_set_db _ _). destruct (reload_run id id w1) as (w' & -> & Hd & Hn).
  exists w'. apply row_at_Ok in Hu as [Hk Hu]. cbn.
  rewrite (row_at_update _ _ (pg_key (t_users (w_db w)) id)) by first [done | by exists u]. by split_and!.
Qed.

(** Suspension: suspending stores the status "disabled" for that user and
    changes nothing else in the database. *)
Theorem suspend_spec id w u :
  row_at (t_users (w_db w)) id = Ok u →
  ∃ w' t, let u' := u_set_UpdatedAt t (u_set_Status UserStatusDisabled u) in
    Suspend id w = (w', Ok u') ∧
    w_db w' = set_users (<[pg_key (t_users (w_db w)) id := u']> (t_users (w_db w))) (w_db w).
Proof.
  intros Hu. destruct (setStatus_run id UserStatusDisabled w u Hu) as (w' & H & Hd & _).
  by exists w', (clock (w_k w)).
Qed.

Lemma unexpired_run e w :
  ∃ w' now, unexpired e w = (w', Ok (match e with Some t => After t now | None => true end)) ∧
    w_db w' = w_db w ∧ (∃ k, now = clock k).
Proof.
  unfold unexpired. destruct e as [t|].
  - exists (w_tick w), (clock (w_k w)). by eauto.
  - exists w, (clock 0). by eauto.
Qed.

(** C27 (resumption): resuming succeeds exactly for a stored user that is within
    quota and not past the expiry, whom it makes active; in every other case
    (an unknown or malformed id included) it reports why and leaves the
    database as it was. *)
Theorem resume_spec id w :
  let key := pg_key (t_users (w_db w)) id in
  ∃ now, (∃ k, now = clock k) ∧
  match t_users (w_db w) !! key with
  | None => (Resume id w).2 = Err (if uuid_in id is Some _ then ErrNotFound else malformed_uuid) ∧
            w_db (Resume id w).1 = w_db w
  | Some u =>
      if in_service now u then
        ∃ t, let u' := u_set_UpdatedAt t (u_set_Status UserStatusActive u) in
          (Resume id w).2 = Ok u' ∧
          w_db (Resume id w).1 = set_users (<[key := u']> (t_users (w_db w))) (w_db w)
      else w_db (Resume id w).1 = w_db w ∧
           ∃ msg, (Resume id w).2 = Err (ValidationError msg)
  end.
Proof.
  intros key. pose proof (row_at_cases (t_users (w_db w)) id) as Hrow. fold key in Hrow.
  destruct (t_users (w_db w) !! key) as [u|].
  2: { exists (clock 0). split; [by eauto|]. unfold Resume.
       erewrite !bind_Err by (by rewrite GetUser_run, Hrow). done. }
  unfold Resume. erewrite !bind_Ok by (by rewrite GetUser_run, Hrow). unfold in_service.
  destruct (OverQuota u); cbn [negb andb].
  { exists (clock 0). split; [by eauto|]. by eauto. }
  destruct (unexpired_run (u_ExpiresAt u) (w_tick w)) as (w1 & now & E & Hd & Hk).
  exists now. split; [done|]. rewrite !(bind_Ok _ _ _ _ _ E).
  destruct (match u_ExpiresAt u with Some t => After t now | None => true end); cbn [negb].
  - destruct (setStatus_run id UserStatusActive w1 u) as (w2 & -> & Hd2 & _); [by rewrite Hd|].
    exists (clock (w_k w1)). cbn. rewrite Hd2, Hd. by split.
  - split; [done|]. by eexists.
Qed.

(** ** Creation *)

(** The plan and the inbounds a creation refers to. *)
Definition plan_of (inp : CreateInput) (db : DB) : option Plan :=
  ci_PlanID inp ≫= λ pid, t_plans db !! pg_key (t_plans db) pid.

Definition inbounds_of (inp : CreateInput) (db : DB) : list string :=
  pg_key (t_inbounds db) <$> ci_InboundIDs inp.

Record created (inp : CreateInput) (db db' : DB) (u : User) : Prop := {
  cr_fresh : t_users db !! u_ID u = None;
  cr_users : t_users db' = <[u_ID u := u]> (t_users db);
  cr_inbounds : Forall (λ i, is_Some (t_inbounds db !! i)) (inbounds_of inp db);
  cr_rows : ∀ k, t_user_inbounds db' !! k =
    if decide (k.1 = u_ID u ∧ k.2 ∈ inbounds_of inp db)
    then Some (mkUserInbound (u_ID u) k.2 SyncPending None "") else t_user_inbounds db !! k;
  cr_account : u_Email u = ci_Email inp ∧ u_Note u = ci_Note inp ∧
    u_PlanID u = pg_key (t_plans db) <$> ci_PlanID inp ∧ u_ExternalID u = ci_ExternalID inp ∧
    u_Status u = UserStatusActive ∧ u_UsedUploadBytes u = 0 ∧ u_UsedDownloadBytes u = 0;
  cr_limit : u_DataLimitBytes u =
    match ci_DataLimitBytes inp with
    | Some l => Some l
    | None => plan_of inp db ≫= p_DataLimitBytes
    end;
  cr_expiry : ∃ k, u_ExpiresAt u =
    match ci_ExpiresAt inp with
    | Some e => Some e
    | None => AddDate (clock k) <$> (plan_of inp db ≫= p_DurationDays)
    end;
  cr_range : from_option in_timestamptz true (u_ExpiresAt u) = true
}.

Lemma plan_defaults_Ok inp w w' lims :
  plan_defaults inp w = (w', Ok lims) →
  w_db w' = w_db w ∧
  lims.1 = match ci_DataLimitBytes inp with
           | Some l => Some l
           | None => plan_of inp (w_db w) ≫= p_DataLimitBytes
           end ∧
  ∃ k, lims.2 = match ci_ExpiresAt inp with
                | Some e => Some e
                | None => AddDate (clock k) <$> (plan_of inp (w_db w) ≫= p_DurationDays)
                end.
Proof.
  unfold plan_defaults, plan_of. destruct (ci_PlanID inp) as [pid|]; cbn.
  2: { intros [= <- <-]. cbn. split_and!; [done|by destruct (ci_DataLimitBytes inp)|].
       exists 0%nat. by destruct (ci_ExpiresAt inp). }
  intros (w1 & p & H1 & H2)%bind_inv. rewrite GetPlan_run in H1.
  injection H1 as <- [_ Hp]%row_at_Ok. rewrite Hp. cbn in *.
  destruct (ci_ExpiresAt inp) as [e|]; [injection H2 as <- <-; cbn; by eauto using 0%nat|].
  destruct (p_DurationDays p) as [d|]; injection H2 as <- <-; cbn; by eauto using 0%nat.
Qed.

(** The row an insertion leaves, with the plan's key for its text. *)
Definition inserted (now : Time) (plan : option string) (u : User) : User :=
  mkUser (u_ID u) (u_Email u) (u_UUID u) (u_TrojanPassword u)
    plan (u_Status u) (u_DataLimitBytes u) 0 0 (u_ExpiresAt u) (u_SubToken u)
    (u_Note u) (u_ExternalID u) now now.

Lemma CreateUserTx_Ok tx u w w' :
  CreateUserTx tx u w = (w', Ok tt) →
  t_users (w_db w) !! u_ID u = None ∧ from_option in_timestamptz true (u_ExpiresAt u) = true ∧
  w_db w' = set_users (<[u_ID u := inserted tx (pg_key (t_plans (w_db w)) <$> u_PlanID u) u]>
                         (t_users (w_db w))) (w_db w).
Proof.
  intros [H _]%map_err_Ok%exec_tx_Ok. revert H. unfold with_params.
  destruct (user_params u (w_db w)) as [u1|] eqn:Hu1; [|done].
  apply user_params_Ok in Hu1 as [-> Ht]. unfold sql_insert_user. cbn [u_set_PlanID u_ID].
  case_bool_decide as Hs; [done|]. apply eq_None_not_Some in Hs. cbv zeta.
  case_match; [done|]. by intros [= <-].
Qed.

Lemma no_rows_of_absent db uid ib :
  db_ok db → t_users db !! uid = None → t_user_inbounds db !! (uid, ib) = None.
Proof.
  intros Hok Hno. destruct (t_user_inbounds db !! (uid, ib)) as [ui|] eqn:Hui; [|done].
  pose proof (ok_ui_keyed _ Hok _ _ Hui) as Hk. cbn in Hk. injection Hk as Huid _.
  destruct (ok_ui_user _ Hok _ _ (ui_UserID ui) Hui eq_refl) as [v Hv]. congruence.
Qed.

Lemma WithTx_quiet_Err {A} (fn : Time → IO A) w w' e :
  WithTx fn w = (w', Err e) → w_db w' = w_db w.
Proof.
  rewrite WithTx_quiet. destruct (fn _ _) as [w2 [a|e']]; [done|]. by intros [= <- _].
Qed.

(** The transaction of Create. *)
Lemma create_tx_Ok u inbounds w w' :
  db_ok (w_db w) →
  WithTx (λ tx, CreateUserTx tx u ;;;
                for_each inbounds (λ ib, AddAssignmentTx tx (u_ID u) (ib_ID ib))) w = (w', Ok tt) →
  ∃ t rows, let row := inserted t (pg_key (t_plans (w_db w)) <$> u_PlanID u) u in
    t_users (w_db w) !! u_ID u = None ∧ from_option in_timestamptz true (u_ExpiresAt u) = true ∧
    w_db w' = set_user_inbounds rows (set_users (<[u_ID u := row]> (t_users (w_db w))) (w_db w)) ∧
    ∀ k, rows !! k = if decide (k.1 = u_ID u ∧ k.2 ∈ ib_ID <$> inbounds)
                     then Some (mkUserInbound (u_ID u) k.2 SyncPending None "")
                     else t_user_inbounds (w_db w) !! k.
Proof.
  intros Hok (w2 & H & ->)%WithTx_Ok. apply bind_inv in H as (w1 & [] & H1 & H2).
  apply CreateUserTx_Ok in H1 as (Hno & Hexp & Hd1).
  assert (w_db (tx_start w) = w_db w) as Hst by (cbn; by rewrite quiet_interfere).
  rewrite Hst in *.
  unfold AddAssignmentTx in H2.
  rewrite <- (for_each_fmap ib_ID inbounds (λ i, map_err mapErr
    (exec_tx (clock (w_k w)) (sql_add_assignment (u_ID u) i)))) in H2.
  apply add_assignments_Ok in H2 as (rows & Hd2 & Hr).
  exists (clock (w_k w)), rows. split_and!; [done|done|by cbn; rewrite Hd2, Hd1|].
  intros k. rewrite Hr, Hd1. cbn. case_decide as Hk; [|done].
  destruct k as [a b]. destruct Hk as [Ha _]. cbn in *. subst a.
  by rewrite (no_rows_of_absent _ _ _ Hok Hno).
Qed.

Lemma plan_defaults_db inp w : w_db (plan_defaults inp w).1 = w_db w.
Proof.
  unfold plan_defaults. destruct (ci_PlanID inp) as [pid|]; [|done]. unfold bind. rewrite GetPlan_run.
  destruct (row_at _ pid) as [p|]; [|done]. by destruct (ci_ExpiresAt inp), (p_DurationDays p).
Qed.

Lemma Create_run inp w :
  db_ok (w_db w) →
  match Create inp w with
  | (w', Ok u) => created inp (w_db w) (w_db w') u
  | (w', Err _) => w_db w' = w_db w
  end.
Proof.
  intros Hok. unfold Create. destruct (String.eqb _ _); [done|].
  case_bool_decide as Hne; [done|].
  unfold bind at 1. pose proof (plan_defaults_Ok inp w) as Hpd. pose proof (plan_defaults_db inp w) as Hdb0.
  destruct (plan_defaults inp w) as [w1 [lims|e]]; cbn in Hdb0; [|done].
  destruct (Hpd _ _ eq_refl) as (_ & Hlim & kx & Hexp). clear Hpd.
  unfold bind at 1. rewrite (ListInboundsByIDs_run _ _ Hne), Hdb0.
  destruct (uuid_keys _ _) as [keys|] eqn:Hkeys; [|done]. cbn [res_map].
  apply uuid_keys_Ok in Hkeys as [-> _]. fold (inbounds_of inp (w_db w)).
  case_bool_decide as Hlen; cbn [negb]; [|done].
  pose proof (found_all _ _ Hok Hlen) as Hall. fold (inbounds_of inp (w_db w)) in Hall.
  do 4 (erewrite bind_Ok by done). cbv zeta.
  set (u := mkUser _ _ _ _ _ _ _ _ _ _ _ _ _ _ _). set (w5 := w_tick _).
  assert (w_db w5 = w_db w) as Hdb5 by done.
  unfold bind at 1. destruct (WithTx _ w5) as [w6 [[]|e]] eqn:Htx.
  2: { by apply WithTx_quiet_Err in Htx as ->. }
  apply create_tx_Ok in Htx as (t & rows & Hno & Hrange & Hd6 & Hr); [|by rewrite Hdb5].
  rewrite Hdb5 in Hno, Hd6, Hr.
  destruct (reload_run (u_ID u) (u_ID u) w6) as (w7 & -> & Hd7 & _).
  rewrite Hd7, Hd6. cbn -[u]. erewrite row_at_stored by apply lookup_insert_eq.
  constructor; cbn -[u inbounds_of]; try done.
  - by apply found_exist.
  - intros k. rewrite Hr. apply decide_ext. by rewrite <- Hall.
  - by exists kx.
Qed.

(** C26 (creation): creating a user either reports an error and leaves the
    database as it was, or adds exactly one active user with the requested
    account data, limits from the request or else from the plan, and one
    pending assignment per requested inbound, all of which exist. *)
Theorem create_spec inp w :
  db_ok (w_db w) →
  match Create inp w with
  | (w', Ok u) => created inp (w_db w) (w_db w') u
  | (w', Err _) => w_db w' = w_db w
  end.
Proof. apply Create_run. Qed.

(** ** Re-assignment *)

(** The assignment rows after replacing the user's set by [ids]. *)
Definition reassigned (id : string) (ids : list string)
    (old : gmap (string * string) UserInbound) (k : string * string) : option UserInbound :=
  if decide (k.1 = id) then
    if decide (k.2 ∈ ids)
    then Some (default (mkUserInbound id k.2 SyncPending None "") (old !! k))
    else ui_set_SyncStatus SyncRemoving <$> old !! k
  else old !! k.

(** In a transaction that leaves users and inbounds alone, the texts given for
    a user and inbounds are as good as their keys. *)
Lemma add_by_keys tx id ids keys : ∀ w i,
  uuid_key (t_users (w_db w)) id = Ok i → uuid_keys (t_inbounds (w_db w)) ids = Ok keys →
  for_each ids (λ ib, map_err mapErr (exec_tx tx
    (by_id t_users id (λ i, by_id t_inbounds ib (sql_add_assignment i))))) w =
  for_each keys (λ ib, map_err mapErr (exec_tx tx (sql_add_assignment i ib))) w.
Proof.
  revert keys. induction ids as [|ib ids IH]; intros keys w i Hi; cbn [uuid_keys]; [by intros [= <-]|].
  destruct (uuid_key (t_inbounds (w_db w)) ib) as [k|] eqn:Hk; [|done].
  destruct (uuid_keys _ ids) as [ks|] eqn:Hks; [|done]. intros [= <-]. cbn [for_each]. unfold bind.
  assert (map_err mapErr (exec_tx tx (by_id t_users id (λ i, by_id t_inbounds ib (sql_add_assignment i)))) w
          = map_err mapErr (exec_tx tx (sql_add_assignment i k)) w) as ->.
  { unfold map_err, exec_tx, by_id. by rewrite Hi, Hk. }
  destruct (map_err _ _ w) as [w1 [[]|e]] eqn:E; [|done].
  apply map_err_Ok, exec_tx_Ok in E as [E _]. apply sql_add_assignment_Ok in E as (rows & Hd & _).
  apply IH; by rewrite Hd.
Qed.

Lemma set_assignments_Ok tx id ids w w' :
  keyed ui_key (t_user_inbounds (w_db w)) →
  SetAssignmentsForUserTx tx id (Some ids) w = (w', Ok tt) →
  ∃ rows, w_db w' = set_user_inbounds rows (w_db w) ∧
    ∀ k, rows !! k = reassigned (pg_key (t_users (w_db w)) id) (pg_key (t_inbounds (w_db w)) <$> ids)
                       (t_user_inbounds (w_db w)) k.
Proof.
  intros Hk (w1 & [] & [H1 _]%map_err_Ok%exec_tx_Ok & H2)%bind_inv. revert H1. unfold by_id at 1.
  destruct (uuid_key _ id) as [i|] eqn:Hi; [|done]. unfold by_ids.
  destruct (uuid_keys _ ids) as [keys|] eqn:Hkeys; [|done]. intros [= Hd1].
  change (default [] (Some ids)) with ids in H2.
  rewrite (add_by_keys tx _ _ keys w1 i) in H2 by (by rewrite <- Hd1).
  rewrite (uuid_key_Ok _ _ _ Hi). apply uuid_keys_Ok in Hkeys as [<- _].
  apply add_assignments_Ok in H2 as (rows & Hd2 & Hr).
  exists rows. split; [by rewrite Hd2, <- Hd1|]. intros k. rewrite Hr, <- Hd1. cbn.
  rewrite lookup_fmap. unfold reassigned. destruct (t_user_inbounds (w_db w) !! k) as [ui|] eqn:Hui; cbn.
  - apply Hk in Hui as Hkey. destruct k as [a b]. injection Hkey as <- <-. cbn.
    destruct (decide (ui_UserID ui = i)) as [->|Hne].
    + rewrite String.eqb_refl. cbn. destruct (decide (ui_InboundID ui ∈ keys)) as [Hin|Hin].
      * rewrite bool_decide_eq_true_2 by done. cbn. by rewrite decide_True.
      * rewrite bool_decide_eq_false_2 by done. cbn. by rewrite decide_False by by intros [].
    + rewrite (proj2 (String.eqb_neq _ _) Hne). cbn. by rewrite decide_False by by intros [].
  - destruct k as [a b]. cbn. destruct (decide (a = i)) as [->|Hne].
    + destruct (decide (b ∈ keys)); [by rewrite decide_True|by rewrite decide_False by by intros []].
    + by rewrite decide_False by by intros [].
Qed.

(** The listing of the inbounds asked for, an empty list included. *)
Lemma found_inbounds ids w w' ibs :
  ListInboundsByIDs ids w = (w', Ok ibs) →
  w_db w' = w_db w ∧ ibs = inbounds_by_ids (pg_key (t_inbounds (w_db w)) <$> ids) (w_db w).
Proof.
  destruct (decide (ids = [])) as [->|Hne].
  - intros [= <- <-]. split; [done|]. symmetry. apply elem_of_nil_inv.
    intros x [Hx _]%list_elem_of_filter. by apply not_elem_of_nil in Hx.
  - rewrite ListInboundsByIDs_run by done. destruct (uuid_keys _ _) as [keys|] eqn:Hk; [|done].
    apply uuid_keys_Ok in Hk as [-> _]. by intros [= <- <-].
Qed.

Lemma SetInbounds_rows id ids w w' u :
  db_ok (w_db w) → SetInbounds id (Some ids) w = (w', Ok u) →
  let key := pg_key (t_users (w_db w)) id in
  let keys := pg_key (t_inbounds (w_db w)) <$> ids in
  t_users (w_db w) !! key = Some u ∧ Forall (λ i, is_Some (t_inbounds (w_db w) !! i)) keys ∧
  ∃ rows, w_db w' = set_user_inbounds rows (w_db w) ∧
    ∀ k, rows !! k = reassigned key keys (t_user_inbounds (w_db w)) k.
Proof.
  intros Hok (w1 & u0 & H1 & (w2 & ibs & H2 & H3)%bind_inv)%bind_inv.
  rewrite GetUser_run in H1. injection H1 as <- Hrow0. change (default [] (Some ids)) with ids in H2, H3.
  apply found_inbounds in H2 as [Hd2 ->]. cbn [w_tick w_db] in Hd2, H3.
  case_bool_decide as Hlen; cbn [negb] in H3; [|done].
  apply bind_inv in H3 as (w3 & r & H3 & (w4 & [] & H4 & (w5 & [] & H5 & H6)%bind_inv)%bind_inv).
  assert (w_db w3 = w_db w) as Hd3.
  { transitivity (w_db w2); [|done]. unfold attempt in H3.
    pose proof (exec_reads (by_id t_users id (λ i, select (join_assignments (λ ui _ _, String.eqb (ui_UserID ui) i))))
      w2 ltac:(auto with reads)) as Hrd.
    revert H3. unfold AssignmentTargetsForUser, queryDesired, map_err.
    destruct (exec _ w2) as [w3' [l|e]]; intros [= <- _]; exact Hrd. }
  apply WithTx_Ok in H4 as (w4' & H4 & ->).
  assert (w_db (tx_start w3) = w_db w) as Hst by (cbn; by rewrite quiet_interfere).
  apply set_assignments_Ok in H4 as (rows & Hd4 & Hr); [|rewrite Hst; apply Hok].
  rewrite Hst in *. unfold reconcileNodes in H5.
  match type of H5 with for_each ?l _ _ = _ => destruct (Reconcile_all l (w_tick w4')) as (w5' & E5 & Hd5 & _) end.
  rewrite E5 in H5. injection H5 as <-. cbn in Hd5. rewrite GetUser_run, Hd5, Hd4 in H6. cbn in H6.
  injection H6 as <- Hu. apply row_at_Ok in Hu as [_ Hu]. cbv zeta. split; [done|]. split.
  - by apply found_exist.
  - exists rows. split; [|done]. cbn. by rewrite Hd5, Hd4.
Qed.


(** ** Expiry *)

(** C29 (expiry): after a sweep that read the clock at [now], no active user is
    past the expiry; the sweep turned exactly the due users to "expired" and
    left every other row as it was. *)
Theorem expiry_sweep_spec w id :
  let now := clock (w_k w) in
  let users' := t_users (w_db (expiry_sweep w).1) in
  match t_users (w_db w) !! id with
  | None => users' !! id = None
  | Some u =>
      if due now u then ∃ t, users' !! id = Some (u_set_UpdatedAt t (u_set_Status UserStatusExpired u))
      else users' !! id = Some u
  end.
Proof.
  intros now users'.
  assert (users' = (λ u, if due now u then u_set_UpdatedAt (clock (w_k (w_tick w)))
                      (u_set_Status UserStatusExpired u) else u) <$> t_users (w_db w)) as ->.
  { unfold users', expiry_sweep, ignore, bind at 1, time_Now. cbn [fst snd].
    unfold bind, ExpireDueUsers, map_err. rewrite exec_quiet. cbn [update_where].
    set (w1 := w_set_db _ _). set (ids := _ ≫= _).
    assert (∀ l w0, same_world w1 w0 → same_world w1 (for_each l expired_one w0).1) as Hp.
    { intros l w0 H0. apply (preserves_for_each (same_world w1)); [|done]. intros x w2 Hw2.
      unfold expired_one, bind, metric_add, modify.
      match goal with |- context [ReconcileForUser x ?w3] =>
        destruct (ReconcileForUser_run x w3) as (w4 & -> & Hd & Hn) end.
      destruct Hw2. split; cbn in *; congruence. }
    destruct (Hp ids w1) as [-> _]; [by split|]. done. }
  rewrite lookup_fmap. destruct (t_users (w_db w) !! id) as [u|]; [|done]. cbn.
  destruct (due now u); by eauto.
Qed.
End Lifecycle.
