(* ===== verification/Billing.v ===== *)
(** * What a billing provider can rely on
    (src/internal/service/billing.go, docs/billing-webhooks.md) *)

From stdpp Require Import base gmap strings list fin_maps sets.
From Stdlib Require Import ZArith Lia.
From S2P Require Import Prelude Domain Database World StoreBase StoreUsers StoreAssignments StoreTraffic StoreAdmin.
From S2P Require Import GoStd Xray Worker ServiceUsers ServiceBilling Runs Lifecycle.
Import BillingService.
Local Open Scope Z_scope.

Section Billing.
Context {P : Platform} `{!Quiet P}.

(** The events Process does not reject outright. *)
Definition well_formed (ev : BillingEvent) : Prop :=
  ev_EventID ev ≠ "" ∧ one_of (ev_Action ev) actions = true.

(** ** The ledger of events only grows through RecordWebhookEvent *)

Definition seen (eid : string) (w : World) : Prop :=
  is_Some (t_webhook_events (w_db w) !! eid).

Definition keeps_events {A} (q : Sql A) : Prop :=
  ∀ now db db' a, q now db = Ok (db', a) → t_webhook_events db' = t_webhook_events db.

Lemma exec_seen eid {A} (q : Sql A) : keeps_events q → preserves (seen eid) (exec q).
Proof.
  intros Hq w Hw. rewrite exec_quiet. destruct (q _ _) as [[db a]|e] eqn:H; [|done].
  unfold seen. cbn. by rewrite (Hq _ _ _ _ H).
Qed.
Lemma exec_tx_seen eid {A} now (q : Sql A) : keeps_events q → preserves (seen eid) (exec_tx now q).
Proof.
  intros Hq w Hw. rewrite exec_tx_quiet. destruct (q _ _) as [[db a]|e] eqn:H; [|done].
  unfold seen. cbn. by rewrite (Hq _ _ _ _ H).
Qed.
Lemma WithTx_seen eid {A} (fn : Time → IO A) :
  (∀ now, preserves (seen eid) (fn now)) → preserves (seen eid) (WithTx fn).
Proof.
  intros Hf w Hw. rewrite WithTx_quiet. pose proof (Hf (clock (w_k w)) (w_tick w) Hw) as H.
  by destruct (fn _ _) as [w2 [a|e]].
Qed.

Ltac keeps :=
  intros ????; cbv [by_id by_ids with_params select sql_insert_user sql_update_user sql_set_user sql_add_assignment];
  repeat case_match; intros; by simplify_eq.
Hint Extern 2 (preserves (seen _) (exec _)) => apply exec_seen; keeps : go_inv.
Hint Extern 2 (preserves (seen _) (exec_tx _ _)) => apply exec_tx_seen; keeps : go_inv.
Hint Extern 1 (preserves (seen _) (WithTx _)) => apply WithTx_seen; go_inv : go_inv.

Lemma ReconcileForUser_seen eid u : preserves (seen eid) (ReconcileForUser u).
Proof.
  intros w Hw. destruct (ReconcileForUser_run u w) as (w' & -> & Hd & _).
  unfold seen. cbn. by rewrite Hd.
Qed.
Lemma tick_seen eid {A} (f : World → A) :
  preserves (E := error) (seen eid) (λ w, (w_tick w, Ok (f w))).
Proof. by intros w. Qed.
Hint Resolve ReconcileForUser_seen : go_inv.
Hint Extern 1 (preserves (seen _) time_Now) => apply tick_seen : go_inv.
Hint Extern 1 (preserves (seen _) uuid_NewString) => apply tick_seen : go_inv.
Hint Extern 1 (preserves (seen _) (rand_Read _)) => apply tick_seen : go_inv.

Lemma execute_seen eid ev : preserves (seen eid) (execute ev).
Proof.
  unfold execute, provision, renew, withUser, cancel, resolveUser, UserService.Create,
    UserService.plan_defaults, UserService.Renew, UserService.renew_plan,
    UserService.renew_expiry, UserService.renew_status, UserService.Suspend,
    UserService.Resume, UserService.setStatusAndReconcile, UserService.unexpired,
    GetUserByExternalID, GetUserByEmail, GetUser, GetPlan, query_row, ListInboundsByIDs, queryInbounds,
    randToken, CreateUserTx, AddAssignmentTx, SetUserStatus, StoreUsers.ResetTraffic,
    UpdateUser, requireRow.
  go_inv.
Qed.

Lemma RecordWebhookEvent_run eid act w :
  ∃ w', RecordWebhookEvent eid act w = (w', Ok (bool_decide (t_webhook_events (w_db w) !! eid = None))) ∧
    seen eid w' ∧ (seen eid w → w_db w' = w_db w).
Proof.
  unfold RecordWebhookEvent, map_err, bind. rewrite exec_quiet.
  destruct (t_webhook_events (w_db w) !! eid) as [e|] eqn:He; eexists; cbn.
  - split; [done|]. unfold seen; cbn. rewrite He. by eauto.
  - split; [done|]. unfold seen; cbn. rewrite lookup_insert_eq, He. by split; [|intros []].
Qed.

Lemma process_seen ev w : well_formed ev → seen (ev_EventID ev) (process_event ev w).1.
Proof.
  intros [Hid Hact]. unfold process_event. rewrite (proj2 (String.eqb_neq _ _) Hid), Hact.
  cbn [negb]. destruct (RecordWebhookEvent_run (ev_EventID ev) (ev_Action ev) w) as (w1 & E & Hs & _).
  rewrite (bind_Ok _ _ _ _ _ E). destruct (negb _); [done|].
  pose proof (execute_seen (ev_EventID ev) ev w1 Hs) as H. unfold bind.
  by destruct (execute ev w1) as [w2 [u|e]].
Qed.

Lemma process_replay ev w :
  well_formed ev → seen (ev_EventID ev) w →
  ∃ w', process_event ev w = (w', Ok (mkBillingResult true (ev_Action ev) None)) ∧ w_db w' = w_db w.
Proof.
  intros [Hid Hact] Hs. unfold process_event. rewrite (proj2 (String.eqb_neq _ _) Hid), Hact.
  cbn [negb]. destruct (RecordWebhookEvent_run (ev_EventID ev) (ev_Action ev) w) as (w1 & E & _ & Hd).
  rewrite (bind_Ok _ _ _ _ _ E).
  rewrite bool_decide_eq_false_2 by (destruct Hs as [? ->]; done). cbn. by eauto.
Qed.

(** C32 (at most once): after an event has been processed, whatever came of it,
    delivering it again is acknowledged as a duplicate and changes nothing in
    the database.  In particular an event whose execution failed is not
    executed by the provider's retry. *)
Theorem event_at_most_once ev w :
  well_formed ev →
  ∃ w', process_event ev (process_event ev w).1 =
          (w', Ok (mkBillingResult true (ev_Action ev) None)) ∧
        w_db w' = w_db (process_event ev w).1.
Proof. intros Hwf. by apply process_replay; [|apply process_seen]. Qed.

(** ** Addressing the user *)

Lemma find_user_external db id u ext :
  db_ok db → t_users db !! id = Some u → u_ExternalID u = Some ext →
  find_user (λ v, bool_decide (u_ExternalID v = Some ext)) db = Some u.
Proof.
  intros Hok Hu Hext. unfold find_user.
  destruct (filter _ _) as [|v l] eqn:Hf.
  - assert (u ∈ (filter (λ v, bool_decide (u_ExternalID v = Some ext) = true)
                   (map_to_list (t_users db)).*2)) as Hin.
    { apply list_elem_of_filter. split; [by apply bool_decide_eq_true|].
      apply list_elem_of_fmap. exists (id, u). split; [done|]. by apply elem_of_map_to_list. }
    rewrite Hf in Hin. by apply not_elem_of_nil in Hin.
  - assert (v ∈ v :: l) as Hv by by left. rewrite <- Hf in Hv.
    apply list_elem_of_filter in Hv as [Hve%bool_decide_eq_true (kv & -> & Hkv)%list_elem_of_fmap].
    destruct kv as [k v]. apply elem_of_map_to_list in Hkv. cbn in *.
    assert (k = id) as -> by by eapply (users_external _ (ok_users _ Hok)).
    congruence.
Qed.

Lemma GetUserByExternalID_run id u ext w :
  db_ok (w_db w) → t_users (w_db w) !! id = Some u → u_ExternalID u = Some ext →
  GetUserByExternalID ext w = (w_tick w, Ok u).
Proof.
  intros Hok Hu Hext. unfold GetUserByExternalID. rewrite query_row_quiet.
  by erewrite find_user_external.
Qed.

(** Provision once: provisioning an external id that already has a user
    returns that user and creates nothing, even under a new event id. *)
Theorem provision_idempotent ev p id u w :
  db_ok (w_db w) → ev_Action ev = "provision" → ev_Provision ev = Some p → ev_ExternalID ev ≠ "" →
  t_users (w_db w) !! id = Some u → u_ExternalID u = Some (ev_ExternalID ev) →
  ∃ w', execute ev w = (w', Ok (Some u)) ∧ w_db w' = w_db w.
Proof.
  intros Hok Ha Hp Hext Hu Hue. unfold execute. rewrite Ha. cbn [String.eqb Ascii.eqb Bool.eqb].
  assert (provision ev w = (w_tick w, Ok u)) as Hpr.
  { unfold provision. rewrite Hp, (proj2 (String.eqb_neq _ _) Hext). unfold bind, attempt.
    by erewrite GetUserByExternalID_run. }
  rewrite (bind_Ok _ _ _ _ _ Hpr). by eexists.
Qed.

(** Cancelled users: a renew event never reactivates a user whose status is
    "disabled", which is what cancel and suspend events leave behind: the
    renewal succeeds and the user stays disabled. *)
Theorem renew_keeps_disabled ev id u w w' r :
  db_ok (w_db w) → ev_Action ev = "renew" → ev_ExternalID ev ≠ "" →
  t_users (w_db w) !! id = Some u → u_ExternalID u = Some (ev_ExternalID ev) →
  u_Status u = UserStatusDisabled → execute ev w = (w', Ok r) →
  ∃ u', r = Some u' ∧ t_users (w_db w') !! id = Some u' ∧ u_Status u' = UserStatusDisabled.
Proof.
  intros Hok Ha Hext Hu Hue Hst. unfold execute. rewrite Ha. cbn [String.eqb Ascii.eqb Bool.eqb].
  intros (w1 & u' & H & H2)%bind_inv. injection H2 as <- <-. revert H. unfold renew.
  destruct (ev_Renew ev) as [rp|]; [|done]. intros (w2 & v & H2 & H3)%bind_inv.
  unfold resolveUser in H2. rewrite (proj2 (String.eqb_neq _ _) Hext) in H2. cbn [negb] in H2.
  unfold map_err in H2. erewrite GetUserByExternalID_run in H2 by done. injection H2 as <- <-.
  assert (u_ID u = id) as Hid by apply (users_keyed _ (ok_users _ Hok) _ _ Hu).
  rewrite Hid in H3. apply Renew_row in H3 as (u0 & now1 & now2 & t & Hu0 & -> & _ & Hrow & _); [|done].
  cbn in Hu0, Hrow. rewrite pg_key_stored in Hu0, Hrow by eauto.
  eexists. split_and!; [done|done|]. rewrite Hu in Hu0. injection Hu0 as <-.
  unfold renewed. cbn. rewrite <- Hst.
  destruct (rp_PlanID rp ≫= _) as [[]|], (bool_decide _), (rp_ResetTraffic rp); cbn;
    by rewrite Hst.
Qed.
End Billing.
