(* ===== verification/Removal.v ===== *)
(** * Removing access: deletion and re-assignment, up to the node

    What deleting a user (src/internal/service/users.go, Delete) and putting
    back an inbound that is being removed (SetInbounds) leave in the database,
    and what the next reconcile pass of the node then does. *)

From stdpp Require Import base gmap strings list fin_maps sets.
From Stdlib Require Import ZArith Lia.
From S2P Require Import Prelude Domain Database World StoreBase StoreUsers StoreAssignments StoreTraffic StoreAdmin.
From S2P Require Import GoStd Xray Worker ServiceUsers Convergence Runs Lifecycle.
Import UserService.
Local Open Scope Z_scope.

Section Removal.
Context {P : Platform} `{!Quiet P}.

(** The tables after a user is deleted. *)
Record deleted (id : string) (db db' : DB) : Prop := {
  del_users : t_users db' = delete id (t_users db);
  del_rows : ∀ k, t_user_inbounds db' !! k = if decide (k.1 = id) then None else t_user_inbounds db !! k;
  del_snapshots : t_traffic_snapshots db' =
    filter (λ s, ts_UserID s ≠ id) (t_traffic_snapshots db);
  del_rest : t_nodes db' = t_nodes db ∧ t_inbounds db' = t_inbounds db ∧
    t_plans db' = t_plans db ∧ t_api_keys db' = t_api_keys db ∧
    t_webhook_events db' = t_webhook_events db
}.

(** The tombstones Delete writes before the cascade removes them. *)
Definition tombstoned (id : string) (db : DB) : DB :=
  set_user_inbounds
    ((λ ui, if String.eqb (ui_UserID ui) id then ui_set_SyncStatus SyncRemoving ui else ui)
       <$> t_user_inbounds db) db.

Lemma sql_delete_user_spec id now db db' u :
  db_ok db → t_users db !! id = Some u →
  sql_delete_user id now (tombstoned id db) = Ok (db', 1) → deleted id db db'.
Proof.
  intros Hok Hu. unfold sql_delete_user. cbn. rewrite Hu. intros [= <-].
  constructor; cbn; try done. intros k. case_decide as Hk.
  - apply map_lookup_filter_None. right. intros x _. naive_solver.
  - destruct (t_user_inbounds db !! k) as [ui|] eqn:Hui.
    + apply map_lookup_filter_Some. split; [|done]. rewrite lookup_fmap, Hui. cbn.
      pose proof (ok_ui_keyed _ Hok _ _ Hui) as Hkey. cbn in Hkey. subst k. cbn in Hk.
      by rewrite (proj2 (String.eqb_neq _ _) Hk).
    + apply map_lookup_filter_None. left. by rewrite lookup_fmap, Hui.
Qed.

Lemma Delete_run id u w :
  db_ok (w_db w) → t_users (w_db w) !! id = Some u →
  ∃ w', Delete id w = (w', Ok tt) ∧ deleted id (w_db w) (w_db w') ∧ w_net w' = w_net w.
Proof.
  intros Hok Hu. unfold Delete. unfold bind at 1.
  unfold AssignmentTargetsForUser, queryDesired, map_err at 1. rewrite exec_quiet.
  rewrite by_id_stored by (by exists u). cbn [select].
  set (targets := join_assignments _ _).
  replace (w_set_db (w_db w) (w_tick w)) with (w_tick w) by (by destruct w).
  unfold bind at 1. unfold MarkAssignmentsRemovingForUser, map_err at 1. rewrite exec_quiet.
  rewrite by_id_stored by (by exists u). cbn [sql_tombstone]. change (set_user_inbounds _ _) with (tombstoned id (w_db w)).
  set (w1 := w_set_db (tombstoned id (w_db w)) _).
  destruct (Reconcile_all (distinctNodes targets) w1) as (w2 & E2 & Hd2 & Hn2).
  rewrite (bind_Ok _ _ _ _ _ E2). unfold DeleteUser. rewrite requireRow_quiet, Hd2.
  rewrite by_id_stored by (by exists u).
  change (w_db w1) with (tombstoned id (w_db w)).
  destruct (sql_delete_user id (clock (w_k w2)) (tombstoned id (w_db w))) as [[db' n]|e] eqn:Hdel;
    unfold sql_delete_user in Hdel; cbn in Hdel; rewrite Hu in Hdel; [|done].
  assert (n = 1) as -> by congruence. eexists. split; [done|]. split; [|done].
  apply (sql_delete_user_spec id 0 _ _ u); [done..|]. unfold sql_delete_user. cbn. by rewrite Hu, Hdel.
Qed.

(** Deletion: deleting a stored user succeeds, removes the user with all
    assignments and usage snapshots, and touches nothing else. *)
Theorem delete_spec id u w :
  db_ok (w_db w) → t_users (w_db w) !! id = Some u →
  ∃ w', Delete id w = (w', Ok tt) ∧ deleted id (w_db w) (w_db w').
Proof. intros Hok Hu. destruct (Delete_run _ _ _ Hok Hu) as (w' & ? & ? & _). eauto. Qed.

Context `{L : !XrayLaws P}.

Lemma deleted_forgotten id u db db' node tag :
  db_ok db → t_users db !! id = Some u → deleted id db db' →
  ¬ wanted db' node tag (u_Email u) ∧ ¬ unwanted db' node tag (u_Email u).
Proof.
  intros Hok Hu [Husers _ _ _].
  assert (∀ ui i v, assigned db' node ui i v → u_Email v ≠ u_Email u) as Hno.
  { intros ui i v (_ & _ & Hv & _) Heq. rewrite Husers in Hv.
    apply lookup_delete_Some in Hv as [Hne Hv]. apply Hne. symmetry.
    eapply (users_email _ (ok_users _ Hok) _ _ _ _ (u_Email u) Hv Hu); cbn; congruence. }
  split; intros (ui & i & v & Has & _ & _ & Hem); by eapply Hno.
Qed.

(** C36 (deletion, on the node): once a user has been deleted, no reconcile pass
    of a node removes the account: it is on the node after the pass exactly if
    it was there when the user was deleted. *)
Theorem delete_leaves_account id u w w' a node c tag :
  db_ok (w_db w) → t_users (w_db w) !! id = Some u → Delete id w = (w', Ok tt) →
  db_ok (w_db w') → pass_ready a w' node c →
  on_node (reconcile a w').1 c tag (u_Email u) = on_node w c tag (u_Email u).
Proof.
  intros Hok Hu Hdel Hok' Hready.
  destruct (Delete_run _ _ _ Hok Hu) as (w1 & E & Hd & Hn). rewrite Hdel in E. injection E as <-.
  destruct (deleted_forgotten _ _ _ _ node tag Hok Hu Hd) as [Hw Hun].
  destruct (reconcile_pass _ _ _ _ Hok' Hready) as (w2 & E2 & _ & _ & Hsame).
  unfold reconcile, ignore. rewrite E2. cbn [fst]. rewrite Hsame by done.
  unfold on_node. by rewrite Hn.
Qed.

(** Re-assignment of a tombstone: putting an inbound back while its
    removal is still pending does not revive the assignment: the row stays
    tombstoned, and the node's next pass removes the account and the row. *)
Theorem reassigned_tombstone_lost id ids ib ui i u w w1 v a node c :
  db_ok (w_db w) → assigned (w_db w) node ui i u → ui_key ui = (id, ib) →
  ui_SyncStatus ui = SyncRemoving → ib ∈ ids →
  SetInbounds id (Some ids) w = (w1, Ok v) → db_ok (w_db w1) → pass_ready a w1 node c →
  on_node (reconcile a w1).1 c (ib_Tag i) (u_Email u) = None ∧
  t_user_inbounds (w_db (reconcile a w1).1) !! (id, ib) = None.
Proof.
  intros Hok (Hr & Hi & Hu & Hn) Hkey Hst Hin Hset Hok1 Hready.
  apply SetInbounds_rows in Hset as (_ & _ & rows & Hd & Hrows); [|done]. cbv zeta in Hrows.
  assert (ui_UserID ui = id ∧ ui_InboundID ui = ib) as [<- <-] by (unfold ui_key in Hkey; by simplify_eq).
  rewrite (pg_key_stored (t_users _)) in Hrows by eauto.
  assert (assigned (w_db w1) node ui i u) as Has.
  { rewrite Hd. split_and!; [|done..]. cbn. rewrite Hrows, Hkey. unfold reassigned. cbn.
    rewrite decide_True by done. rewrite decide_True.
    - unfold ui_key in Hr. by rewrite Hr.
    - apply list_elem_of_fmap. exists (ui_InboundID ui). split; [|done]. by rewrite pg_key_stored by eauto. }
  split.
  - destruct (reconcile_pass _ _ _ _ Hok1 Hready) as (w2 & E2 & _ & Hgone & _).
    unfold reconcile, ignore. rewrite E2. apply Hgone. exists ui, i, u.
    split_and!; [done| |done|done]. by intros [_ Hne].
  - destruct (reconcile_rows _ _ _ _ _ _ _ Hok1 Hready Has) as [H _]. rewrite <- Hkey. by apply H.
Qed.
End Removal.
