(* ===== verification/Races.v ===== *)
(** * What interleavings can undo
    (src/internal/worker/reconciler.go, nodeactor.go; src/internal/service/users.go;
    src/internal/store/assignments.go)

    The theorems of the other files on single operations assume that no other
    session writes meanwhile.  Three places where that matters: a reconcile
    pass marks an assignment without looking at it again, a user update writes
    back the row it read, and replacing an actor abandons its buffer (the last
    one is part of [update_node_spec] in Nodes). *)

From stdpp Require Import base gmap strings list fin_maps sets.
From Stdlib Require Import ZArith Lia.
From S2P Require Import Prelude Domain Database World StoreBase StoreUsers StoreAssignments StoreTraffic StoreAdmin.
From S2P Require Import GoStd Xray Worker ServiceUsers System Runs.
Local Open Scope Z_scope.

Section Races.
Context {P : Platform}.

(** ** Reconcile against removal *)

(** A statement that is not disturbed by a fault. *)
Lemma exec_clean {A} (q : Sql A) w :
  fault_at (w_k w) = NoFault →
  exec q w = match q (clock (w_k w)) (interfere (w_k w) (w_db w)) with
             | Ok (db', a) => (w_set_db db' (w_tick w), Ok a)
             | Err e => (w_tick (w_set_db (interfere (w_k w) (w_db w)) w), Err e)
             end.
Proof. intros Hf. unfold exec. rewrite Hf. by destruct (q _ _) as [[db' a]|e]. Qed.

(** C33 (lost removal): while a pass pushes an account it has read as wanted, an
    administrator may take the inbound away.  If that lands between the push
    and the bookkeeping, the bookkeeping overwrites the tombstone: the removal
    is gone, and every later pass takes the assignment as wanted. *)
Theorem tombstone_overwritten a name c d w w1 ui :
  AddUser c (d_InboundTag d) (accountFor d) w = (w1, Ok tt) →
  d_SyncStatus d ≠ SyncApplied →
  fault_at (S (w_k w1)) = NoFault →
  let db := interfere (S (w_k w1)) (w_db w1) in
  t_user_inbounds db !! (d_UserID d, d_InboundID d) = Some ui → ui_SyncStatus ui = SyncRemoving →
  ∃ ui', t_user_inbounds (w_db (add_one a name c d w).1) !! (d_UserID d, d_InboundID d) = Some ui' ∧
    ui_SyncStatus ui' = SyncApplied ∧
    ∀ i u, u_Status u = UserStatusActive →
      is_removal (ib_NodeID i) ui i u = true ∧
      is_removal (ib_NodeID i) ui' i u = false ∧ is_desired (ib_NodeID i) ui' i u = true.
Proof.
  intros Hadd Hst Hf db Hui Hrem. subst db. unfold add_one, bind, attempt. rewrite Hadd.
  apply String.eqb_neq in Hst. rewrite Hst. cbn [negb].
  unfold ignore, MarkAssignmentSynced, bind. rewrite String.eqb_refl. cbn [time_Now ret].
  unfold map_err. rewrite exec_clean by done. cbn [w_k w_tick w_db].
  eexists. split; [cbn; by rewrite lookup_alter_eq, Hui|]. split; [done|].
  intros i u Hu. unfold is_removal, is_desired. cbn [ui_SyncStatus]. by rewrite Hu, Hrem, String.eqb_refl.
Qed.

(** ** Update against suspension *)

(** A session whose statements do not fail, and that only the statement at
    position [k] finds the tables changed at. *)
Definition disturbed_at (k : nat) : Prop :=
  (∀ j, fault_at j = NoFault) ∧ ∀ j db, j ≠ k → interfere j db = db.

Lemma exec_at {A} k (q : Sql A) w :
  disturbed_at k →
  exec q w = match q (clock (w_k w)) (if decide (w_k w = k) then interfere k (w_db w) else w_db w) with
             | Ok (db', a) => (w_set_db db' (w_tick w), Ok a)
             | Err e => (w_tick (w_set_db (interfere (w_k w) (w_db w)) w), Err e)
             end.
Proof.
  intros [Hf Hi]. rewrite exec_clean by done. case_decide as Hk; [by rewrite Hk|]. by rewrite !Hi.
Qed.

(** The end of every user operation changes no row. *)
Lemma reload_rows k id uid w w' v :
  disturbed_at k → (k < w_k w)%nat →
  (ReconcileForUser uid ;;; GetUser id) w = (w', Ok v) → w_db w' = w_db w.
Proof.
  intros Hk Hlt.
  pose (I w1 := w_db w1 = w_db w ∧ (k < w_k w1)%nat).
  assert (∀ A (q : Sql A), reads q → preserves I (exec q)) as Hsel.
  { intros A q Hq w1 [Hd Hl]. rewrite (exec_at k) by done. rewrite decide_False by lia.
    destruct (q _ _) as [[db' a]|e] eqn:E; [apply Hq in E as ->; split; cbn; [done|lia]|].
    split; cbn; [|lia]. destruct Hk as [_ Hk]. rewrite Hk by lia. done. }
  assert (∀ A B (t : DB → gmap string A) i (f : string → DB → B),
    preserves I (exec (by_id t i (λ i, select (f i))))) as Hrow by (intros; apply Hsel; auto with reads).
  assert (∀ b, preserves I (set_actor b (a_set_reconcileCh true))) as Hset by (by intros b w1 [??]).
  assert (∀ l seen, preserves I (trigger_targets seen l)) as Htr.
  { induction l; intros seen; cbn; autounfold with ops; go_inv. }
  assert (preserves I (ReconcileForUser uid ;;; GetUser id)) as Hp.
  { unfold ReconcileForUser. autounfold with ops. go_inv. }
  intros E. specialize (Hp w). rewrite E in Hp. by destruct (Hp ltac:(by split)).
Qed.

(** C34 (lost suspension): an update of a user's note, limit or expiry that was
    read before another session changed the user's status writes the status it
    had read: a suspension in between is undone, although the request did not
    mention the status, while the usage counters keep what was added. *)
Theorem update_undoes_status id inp u0 r w w' v :
  disturbed_at (S (w_k w)) →
  t_users (w_db w) !! id = Some u0 → u_ID u0 = id → u_Status u0 = UserStatusActive →
  UserService.up_Status inp = None →
  t_users (interfere (S (w_k w)) (w_db w)) !! id = Some r →
  UserService.Update id inp w = (w', Ok v) →
  ∃ u', t_users (w_db w') !! id = Some u' ∧ u_Status u' = UserStatusActive ∧
    u_UsedUploadBytes u' = u_UsedUploadBytes r ∧ u_UsedDownloadBytes u' = u_UsedDownloadBytes r.
Proof.
  intros Hk Hu Hid Hact Hst Hr. unfold UserService.Update, GetUser at 1, query_row.
  unfold bind at 1, map_err at 1. unfold bind at 1. rewrite (exec_at (S (w_k w))) by done.
  rewrite decide_False by lia. rewrite by_id_stored by eauto. cbn [select].
  rewrite Hu. cbn [ret]. cbv zeta.
  set (u := UserService.apply_patch inp u0).
  assert (u_Status u = UserStatusActive ∧ u_ID u = id) as [Hs Hi].
  { unfold u, UserService.apply_patch. rewrite Hst.
    by destruct (UserService.up_PlanID inp), (UserService.up_DataLimitBytes inp),
      (UserService.up_ClearExpiry inp), (UserService.up_ExpiresAt inp), (UserService.up_Note inp). }
  rewrite Hs. rewrite (proj2 (String.eqb_neq UserStatusActive UserStatusExpired)) by done.
  unfold bind at 1. cbn [ret]. unfold bind at 1. unfold UpdateUser, requireRow, map_err, bind at 1.
  rewrite (exec_at (S (w_k w))) by done. cbn [w_k w_tick w_set_db w_db].
  rewrite decide_True by done. unfold with_params.
  destruct (user_params u _) as [u1|] eqn:Hu1; [|done]. apply user_params_Ok in Hu1 as [-> _].
  unfold sql_update_user. cbn [u_set_PlanID u_ID]. rewrite Hi, Hr. cbv zeta.
  destruct (user_violation _ _); [done|]. cbn [bool_decide ret]. intros E.
  apply (reload_rows (S (w_k w))) in E; [|done|cbn; lia]. rewrite E. cbn.
  rewrite lookup_insert_eq. eexists. split; [done|]. by rewrite Hs.
Qed.
End Races.
