(* ===== verification/Enforcement.v ===== *)
(** * From a decision to the nodes

    A change of a user's status only reaches the nodes through triggers: the
    one-slot channel of each node's actor (src/internal/worker/manager.go,
    ReconcileForUser; nodeactor.go, triggerReconcile).  No trigger is lost, so
    suspending a user, or metering traffic over the quota, removes the accounts
    from every node at the next turn of its actor. *)

From stdpp Require Import base gmap strings list fin_maps sets vector.
From Stdlib Require Import ZArith Lia.
From S2P Require Import Prelude Domain Database Metrics World StoreBase StoreUsers StoreAssignments StoreTraffic StoreAdmin.
From S2P Require Import GoStd Xray Worker ServiceUsers Metering Collection Convergence Runs Lifecycle.
Import UserService.
Local Open Scope Z_scope.

Section Enforcement.
Context {P : Platform}.

(** ** Triggers are not lost *)

(** The actor the manager runs for the node has a reconcile waiting. *)
Definition poked (node : string) (w : World) : Prop :=
  ∀ a x, w_actors w !! node = Some a → w_heap w !! a = Some x → a_reconcileCh x = true.

(** Two worlds whose actors differ in waiting reconciles only. *)
Definition same_actors (w w' : World) : Prop :=
  w_actors w' = w_actors w ∧
  ∀ a, a_set_reconcileCh true <$> w_heap w' !! a = a_set_reconcileCh true <$> w_heap w !! a.

#[local] Instance poked_free node : DbFree (poked node).
Proof. by intros w. Qed.
#[local] Instance same_actors_free w0 : DbFree (same_actors w0).
Proof. by intros w. Qed.

Lemma same_actors_refl w : same_actors w w.
Proof. done. Qed.

Lemma same_actors_lookup w w' a x :
  same_actors w w' → w_heap w !! a = Some x →
  ∃ x', w_heap w' !! a = Some x' ∧ a_set_reconcileCh true x' = a_set_reconcileCh true x.
Proof.
  intros [_ H] Hx. specialize (H a). rewrite Hx in H. cbn in H.
  apply fmap_Some in H as (x' & Hx' & Heq). by exists x'.
Qed.

Lemma trigger_lookup a b (w : World) :
  w_heap (triggerReconcile a w).1 !! b =
    (if decide (a = b) then a_set_reconcileCh true <$> w_heap w !! b else w_heap w !! b).
Proof. cbn. rewrite lookup_alter. case_decide; [|done]. by subst. Qed.

Lemma Reconcile_pokes node w : poked node (Worker.Reconcile node w).1.
Proof.
  unfold Worker.Reconcile, gets, bind. destruct (w_actors w !! node) as [a|] eqn:Ha.
  - intros b x Hb. change (w_actors (triggerReconcile a w).1) with (w_actors w) in Hb.
    assert (a = b) as <- by congruence. rewrite trigger_lookup, decide_True by done.
    by intros (y & _ & ->)%fmap_Some.
  - intros b x Hb. cbn in Hb. congruence.
Qed.

Lemma Reconcile_poked node n : preserves (poked node) (Worker.Reconcile n).
Proof.
  intros w Hw. unfold Worker.Reconcile, gets, bind. destruct (w_actors w !! n) as [a|]; [|done].
  intros b x Hb. rewrite trigger_lookup. case_decide as Hab; [|by apply Hw].
  by intros (y & _ & ->)%fmap_Some.
Qed.

Lemma Reconcile_actors w0 n : preserves (same_actors w0) (Worker.Reconcile n).
Proof.
  intros w [Ha Hh]. unfold Worker.Reconcile, gets, bind.
  destruct (w_actors w !! n) as [a|]; [|done]. split; [done|]. intros b.
  rewrite trigger_lookup. case_decide; [|done]. rewrite <- Hh. by destruct (w_heap w !! b) as [[]|].
Qed.
Hint Resolve Reconcile_poked Reconcile_actors : go_inv.

Lemma trigger_targets_poked node l : ∀ seen, preserves (poked node) (trigger_targets seen l).
Proof. induction l; intros seen; cbn; go_inv. Qed.
Lemma trigger_targets_actors w0 l : ∀ seen, preserves (same_actors w0) (trigger_targets seen l).
Proof. induction l; intros seen; cbn; go_inv. Qed.
Hint Resolve trigger_targets_poked trigger_targets_actors : go_inv.

Lemma ReconcileForUser_poked node u : preserves (poked node) (ReconcileForUser u).
Proof. unfold ReconcileForUser, AssignmentTargetsForUser, queryDesired. go_inv. Qed.
Lemma ReconcileForUser_actors w0 u : preserves (same_actors w0) (ReconcileForUser u).
Proof. unfold ReconcileForUser, AssignmentTargetsForUser, queryDesired. go_inv. Qed.

(** Every target's node is triggered, unless it was already. *)
Lemma trigger_targets_all d l : ∀ seen w,
  d ∈ l → d_NodeID d ∉ seen → poked (d_NodeID d) (trigger_targets seen l w).1.
Proof.
  induction l as [|e l IH]; intros seen w Hd Hs; [by apply not_elem_of_nil in Hd|].
  cbn [trigger_targets]. destruct (decide (d_NodeID e ∈ seen)) as [He|He].
  - apply IH; [|done]. apply elem_of_cons in Hd as [->|]; done.
  - destruct (Reconcile_never_fails (d_NodeID e) w) as (w' & [] & Hr).
    rewrite (bind_Ok _ _ _ _ _ Hr).
    destruct (decide (d_NodeID d = d_NodeID e)) as [Heq|Hne].
    + apply trigger_targets_poked. rewrite Heq.
      pose proof (Reconcile_pokes (d_NodeID e) w) as Hp. by rewrite Hr in Hp.
    + apply IH; [by apply elem_of_cons in Hd as [->|]|set_solver].
Qed.

Context `{!Quiet P}.

Lemma ReconcileForUser_pokes w node ui i u :
  db_ok (w_db w) → assigned (w_db w) node ui i u → poked node (ReconcileForUser (ui_UserID ui) w).1.
Proof.
  intros Hok Has. assert (ib_NodeID i = node) as Hn by apply Has.
  unfold ReconcileForUser, ignore, AssignmentTargetsForUser, queryDesired, map_err.
  unfold bind. rewrite exec_quiet, by_id_stored by (destruct Has as (_ & _ & ? & _); by exists u).
  cbn [select fst]. rewrite <- Hn. apply (trigger_targets_all (desired_row ui i u)); [|set_solver].
  apply join_elem; [done|]. exists ui, i, u. rewrite Hn. split_and!; [done| |done].
  apply String.eqb_refl.
Qed.

(** ** A turn of the loop *)

Context `{L : !XrayLaws P}.

Lemma turn_pass_ready b w node c :
  pass_ready b w node c → pass_ready b (set_actor b (a_set_reconcileCh false) w).1 node c.
Proof.
  intros [(x & Hx & Hn & Hc) Ha Hb]. constructor; [|done|done].
  exists (a_set_reconcileCh false x). cbn. by rewrite lookup_alter_eq, Hx.
Qed.

(** The turn that takes the waiting reconcile removes what is not kept. *)
Lemma turn_removes b w node c ui i u :
  db_ok (w_db w) → pass_ready b w node c → assigned (w_db w) node ui i u → ¬ keep ui u →
  ∃ w2, run_turn b ReconcileCh w = (w2, Ok true) ∧ on_node w2 c (ib_Tag i) (u_Email u) = None.
Proof.
  intros Hok Hr%turn_pass_ready Has Hk.
  destruct (reconcile_pass _ (set_actor b (a_set_reconcileCh false) w).1 _ _ Hok Hr)
    as (w2 & E2 & _ & Hgone & _).
  exists w2. split.
  - unfold run_turn. rewrite (bind_Ok _ _ w (set_actor b (a_set_reconcileCh false) w).1 tt eq_refl).
    unfold reconcile, ignore, bind, ret. by rewrite E2.
  - apply Hgone. exists ui, i, u. by split_and!.
Qed.

(** ** Suspending *)

(** Assignments of other rows than the changed user's are as before. *)
Lemma assigned_set_user db id u' node ui i u :
  t_users db !! id = Some u → assigned db node ui i u → ui_UserID ui = id →
  assigned (set_users (<[id := u']> (t_users db)) db) node ui i u'.
Proof. intros Hu (H1 & H2 & H3 & H4) <-. split_and!; [done..| |done]. apply lookup_insert_eq. Qed.

Lemma desired_set_inactive db id u' node d :
  db_ok db → db_ok (set_users (<[id := u']> (t_users db)) db) → u_Status u' ≠ UserStatusActive →
  d ∈ join_assignments (is_desired node) (set_users (<[id := u']> (t_users db)) db) →
  d ∈ join_assignments (is_desired node) db.
Proof.
  intros Hok Hok' Hs (ui & i & u & (H1 & H2 & H3 & H4) & Hp & ->)%join_elem; [|done].
  apply join_elem; [done|]. exists ui, i, u. split_and!; [|done|done]. split_and!; [done..| |done].
  cbn in H3. apply lookup_insert_Some in H3 as [[_ <-]|[_ H3]]; [|done].
  by apply is_desired_spec in Hp as [_ [Hact _]].
Qed.

(** C8 (suspension reaches the nodes): suspending a user leaves a reconcile
    waiting for the actor of every node the user has an assignment on, and the
    turn of that actor which takes it removes the account from the node. *)
Theorem suspend_removes_account id u w a node c ui i :
  db_ok (w_db w) → t_users (w_db w) !! id = Some u →
  assigned (w_db w) node ui i u → ui_UserID ui = id →
  w_actors w !! node = Some a → pass_ready a w node c →
  ∃ w1 u1 w2, Suspend id w = (w1, Ok u1) ∧
    from_option (λ x, ready x ReconcileCh) false (w_heap w1 !! a) = true ∧
    run_turn a ReconcileCh w1 = (w2, Ok true) ∧ on_node w2 c (ib_Tag i) (u_Email u) = None.
Proof.
  intros Hok Hu Has Hid Ha Hready.
  set (u1 := u_set_UpdatedAt (clock (w_k w)) (u_set_Status UserStatusDisabled u)).
  set (w0 := w_set_db (set_users (<[id := u1]> (t_users (w_db w))) (w_db w)) (w_tick w)).
  assert (Suspend id w = (ReconcileForUser id ;;; GetUser id) w0) as Hrun.
  { unfold Suspend, setStatusAndReconcile, SetUserStatus.
    rewrite (bind_Ok _ _ _ _ _ (set_user_run _ _ _ _ (row_at_stored _ _ _ Hu))).
    by rewrite pg_key_stored by (by exists u). }
  assert (db_ok (w_db w0)) as Hok0.
  { pose proof (sql_set_user_ok id (λ t v, u_set_UpdatedAt t (u_set_Status UserStatusDisabled v))
      ltac:(done) (clock (w_k w)) (w_db w)) as H.
    unfold sql_set_user in H. rewrite Hu in H. by eapply H. }
  pose proof (assigned_set_user _ id u1 _ _ _ _ Hu Has Hid : assigned (w_db w0) _ _ _ _) as Has0.
  pose proof (ReconcileForUser_pokes w0 node ui i u1 Hok0 Has0) as Hpoke. rewrite Hid in Hpoke.
  destruct (ReconcileForUser_run id w0) as (w1 & E1 & Hd1 & Hn1).
  pose proof (ReconcileForUser_actors w0 id w0 (same_actors_refl w0)) as Hsame.
  rewrite E1 in Hpoke, Hsame. cbn [fst] in *.
  rewrite Hrun, (bind_Ok _ _ _ _ _ E1), GetUser_run, Hd1. cbn [w_db w0 w_set_db set_users t_users].
  erewrite row_at_stored by apply lookup_insert_eq. destruct Hready as [(x & Hx & Hxn & Hxc) Hacc Hb].
  destruct (same_actors_lookup _ _ a x Hsame Hx) as (x1 & Hx1 & Heq).
  destruct (turn_removes a (w_tick w1) node c ui i u1) as (w2 & E2 & Hgone).
  - cbn. by rewrite Hd1.
  - constructor; [|done|].
    + exists x1. split; [done|]. destruct x1, x. cbn in *. by simplify_eq.
    + apply Forall_forall. intros d Hd. cbn in Hd. rewrite Hd1 in Hd.
      rewrite Forall_forall in Hb. apply Hb. by apply (desired_set_inactive _ id u1) in Hd.
  - cbn. by rewrite Hd1.
  - by intros [Hact _].
  - exists (w_tick w1), u1, w2. split_and!; [done| |done|done]. cbn. rewrite Hx1. cbn.
    apply (Hpoke a); [|done]. destruct Hsame as [-> _]. done.
Qed.

(** ** Metering over the quota *)

#[local] Instance quiet_clean : CleanFaults P.
Proof. intros k msg. by rewrite quiet_fault. Qed.
#[local] Instance quiet_rely : Rely P.
Proof. intros k db. by rewrite quiet_interfere. Qed.

(** A batch of deltas writes users and snapshots only. *)
Definition assignments_of (db : DB) : gmap (string * string) UserInbound * gmap string Inbound :=
  (t_user_inbounds db, t_inbounds db).

Lemma preserves_exec_tx_db {A B} (f : DB → B) b now (q : Sql A) :
  (∀ t db db' a, q t db = Ok (db', a) → f db' = f db) →
  preserves (λ w, f (w_db w) = b) (exec_tx now q).
Proof.
  intros Hq w Hw. rewrite exec_tx_quiet. destruct (q now (w_db w)) as [[db' a]|e] eqn:E; [|done].
  cbn. rewrite <- Hw. by eapply Hq.
Qed.

Lemma batch_assignments node ds at_ w w' ids :
  ApplyTrafficDeltas node ds at_ w = (w', Ok ids) →
  assignments_of (w_db w') = assignments_of (w_db w).
Proof.
  intros (w1 & Hds & Hs)%ApplyTrafficDeltas_Ok.
  assert (assignments_of (w_db w') = assignments_of (w_db w1)) as ->.
  { revert Hs. unfold sql_suspend_over_quota. case_match; [done|]. by intros [= <- _]. }
  assert (preserves (λ v, assignments_of (w_db v) = assignments_of (w_db w))
    (for_each ds (apply_delta (clock (w_k w)) node at_))) as Hp.
  { unfold apply_delta. go_inv; apply preserves_exec_tx_db; intros t db db' [];
      unfold sql_insert_snapshot, sql_add_usage; repeat case_match; by intros [= <-]. }
  specialize (Hp (tx_start w)). rewrite Hds in Hp. apply Hp. cbn. by rewrite quiet_interfere.
Qed.

(** Suspensions are announced one after the other, and none is forgotten. *)
Lemma suspended_one_run id w :
  ∃ w', suspended_one id w = (w', Ok tt) ∧ same_world w w' ∧
    (∀ node ui i u, db_ok (w_db w) → assigned (w_db w) node ui i u → ui_UserID ui = id →
       poked node w') ∧
    (∀ node, poked node w → poked node w').
Proof.
  set (w0 := (metric_add UsersSuspended [#] 1 w).1).
  unfold suspended_one. rewrite (bind_Ok _ _ w w0 tt eq_refl). destruct (ReconcileForUser_run id w0) as (w' & E & Hd & Hn).
  exists w'. split_and!; [done|by split| |].
  - intros node ui i u Hok Has <-. pose proof (ReconcileForUser_pokes w0 _ _ _ _ Hok Has) as H.
    by rewrite E in H.
  - intros node Hw. pose proof (ReconcileForUser_poked node id w0 Hw) as H. by rewrite E in H.
Qed.

Lemma suspended_all ids : ∀ w,
  ∃ w', for_each ids suspended_one w = (w', Ok tt) ∧ same_world w w' ∧
    (∀ node ui i u, db_ok (w_db w) → assigned (w_db w) node ui i u → ui_UserID ui ∈ ids →
       poked node w') ∧
    (∀ node, poked node w → poked node w').
Proof.
  induction ids as [|id ids IH]; intros w; cbn [for_each].
  { exists w. split_and!; [done|done| |done]. intros ???? _ _ []%not_elem_of_nil. }
  destruct (suspended_one_run id w) as (w1 & E1 & [Hd1 Hn1] & Hnew1 & Hold1).
  destruct (IH w1) as (w' & E & [Hd Hn] & Hnew & Hold). exists w'.
  rewrite (bind_Ok _ _ _ _ _ E1). split_and!; [done|split; congruence| |eauto].
  intros node ui i u Hok Has [Heq|Hin]%elem_of_cons; [eauto|].
  apply (Hnew node ui i u); by rewrite ?Hd1.
Qed.

(** A flush that turns an active user into a suspended one pokes each node the
    user is on. *)
Lemma flush_pokes a w node ui i u id u' :
  db_ok (w_db w) → assigned (w_db w) node ui i u → ui_UserID ui = id →
  u_Status u = UserStatusActive →
  t_users (w_db (flush a w).1) !! id = Some u' → u_Status u' ≠ UserStatusActive →
  poked node (flush a w).1 ∧ assigned (w_db (flush a w).1) node ui i u' ∧ u_Email u' = u_Email u.
Proof.
  intros Hok (Hr & Hi & Hu & Hn) Hid Hact. rewrite Hid in Hu. unfold flush, bind, actor.
  destruct (w_heap w !! a) as [x|]; [|cbn; congruence].
  case_bool_decide as Hne; [cbn; congruence|].
  destruct (UserIDsByEmail _ w) as [w1 r1] eqn:H1.
  apply UserIDsByEmail_run in H1 as (Hdb1 & _ & _).
  2: { intros Hes. by apply fmap_nil_inv, map_to_list_empty_iff in Hes. }
  destruct r1 as [idm|e]; [|cbn; rewrite Hdb1; congruence]. cbn [time_Now].
  set (ds := deltas_of _ _). set (w2 := w_tick w1).
  assert (w_db (tx_start w2) = w_db w) as Hst by (cbn; by rewrite quiet_interfere).
  destruct (ApplyTrafficDeltas _ ds _ w2) as [w3 [over|e]] eqn:H3.
  2: { apply WithTx_Err in H3. cbn in H3. rewrite quiet_interfere, Hdb1 in H3. cbn.
       rewrite H3. congruence. }
  destruct (record_all (n_Name (a_node x)) ds w3) as (w4 & -> & Hdb4 & _).
  cbn [set_actor modify]. set (w5 := w_set_heap _ w4).
  destruct (suspended_all over w5) as (w6 & -> & [Hd6 _] & Hnew & _). cbn.
  pose proof (batch_assignments _ _ _ _ _ _ H3) as [= Hui Hib].
  intros Hu' Hs'. rewrite Hd6 in Hu'. change (w_db w5) with (w_db w4) in Hu', Hd6. rewrite Hdb4 in Hu', Hd6.
  assert (assigned (w_db w3) node ui i u') as Has'.
  { unfold assigned. rewrite Hui, Hib, Hid. subst w2. cbn. by rewrite Hdb1. }
  assert (db_ok (w_db w3)) as Hok3.
  { pose proof (ApplyTrafficDeltas_inv (n_ID (a_node x)) ds (clock (w_k w1)) w2) as H.
    rewrite H3 in H. apply H. unfold w_ok. subst w2. cbn. by rewrite Hdb1. }
  assert (id ∈ over ∧ u_Email u' = u_Email u) as [Hin Hem].
  { destruct (ApplyTrafficDeltas_Ok _ _ _ _ _ _ H3) as (wd & Hds & Hs).
    pose proof (apply_deltas_users _ _ _ _ _ _ id Hds) as Hm. rewrite Hst, Hu in Hm.
    inversion Hm as [? u1 [t Hu1] Hx Hy|]. symmetry in Hy.
    rewrite (sql_suspend_users _ _ _ _ _ Hs), Hy in Hu'. cbn in Hu'.
    rewrite (sql_suspend_ids _ _ _ _ id (apply_deltas_keyed _ _ _ _ _ _ ltac:(by rewrite Hst) Hds) Hs).
    destruct (quota_crossed u1) eqn:Hc.
    - split; [by exists u1|]. injection Hu' as <-. by rewrite Hu1.
    - exfalso. injection Hu' as <-. apply Hs'. by rewrite Hu1. }
  split_and!; [|by rewrite Hd6|done].
  apply (Hnew node ui i u'); [..|by rewrite Hid]; change (w_db w5) with (w_db w4); by rewrite Hdb4.
Qed.

Lemma collect_flush a w :
  w_db (collect a w).1 = w_db w ∨ ∃ wf, w_db wf = w_db w ∧ (collect a w).1 = (flush a wf).1.
Proof.
  unfold collect, ignore. cbn [fst].
  assert (preserves (λ v, w_db v = w_db w) (ensureClient a)) as He.
  { unfold ensureClient. go_inv; [|by apply preserves_modify].
    intros v Hv. unfold actor. by destruct (w_heap v !! a). }
  specialize (He w eq_refl). destruct (collect_body a w) as [w' r] eqn:E. cbn [fst].
  revert E. unfold collect_body, bind.
  destruct (ensureClient a w) as [w1 [c|e]]; cbn [fst] in He; [|intros [= <- _]; by left].
  unfold attempt, QueryUserTraffic.
  destruct (rpc_QueryStats (w_net w1) c "user>>>" true) as [n [msg|stats]].
  - intros [= <- _]. by left.
  - intros E. right. exists (set_actor a (λ x, a_set_pendingDeltas
      (merge_traffic (a_pendingDeltas x) (user_traffic stats)) x) (w_set_net n w1)).1.
    cbn in E |- *. by rewrite E.
Qed.

(** C7 (the quota reaches every node): when a collection on one node turns an
    active user into a suspended one, a reconcile is waiting at the actor of
    every node the user has an assignment on, and the turn of that actor which
    takes it removes the account there. *)
Theorem quota_cut_reaches_nodes a w node ui i u id u' b c :
  db_ok (w_db w) → assigned (w_db w) node ui i u → ui_UserID ui = id →
  u_Status u = UserStatusActive →
  let w1 := (collect a w).1 in
  t_users (w_db w1) !! id = Some u' → u_Status u' = UserStatusSuspended →
  w_actors w1 !! node = Some b → pass_ready b w1 node c →
  from_option (λ x, ready x ReconcileCh) false (w_heap w1 !! b) = true ∧
  ∃ w2, run_turn b ReconcileCh w1 = (w2, Ok true) ∧ on_node w2 c (ib_Tag i) (u_Email u) = None.
Proof.
  intros Hok Has Hid Hact w1 Hu' Hs' Hb Hready.
  assert (u_Status u' ≠ UserStatusActive) as Hna by (by rewrite Hs').
  assert (db_ok (w_db w1)) as Hok1 by (by apply (collect_inv a)).
  assert (poked node w1 ∧ assigned (w_db w1) node ui i u' ∧ u_Email u' = u_Email u)
    as (Hpoke & Has1 & Hem).
  { subst w1. destruct (collect_flush a w) as [Heq|(wf & Hdb & Heq)]; rewrite Heq in *.
    - destruct Has as (_ & _ & Hu & _). congruence.
    - rewrite <- Hdb in Hok, Has. by eapply flush_pokes. }
  split.
  - destruct (pr_actor _ _ _ _ Hready) as (x & Hx & _). rewrite Hx. by apply (Hpoke b).
  - rewrite <- Hem. apply (turn_removes b w1 node c ui i u'); [done..|]. by intros [? _].
Qed.
End Enforcement.
