(* ===== verification/Access.v ===== *)
(** * Credentials and admission
    (src/internal/service/apikeys.go, users.go, nodes.go)

    API keys and subscription tokens admit exactly their holders, and what the
    inbound validation admits can always be pushed to a node. *)

From stdpp Require Import base gmap strings list fin_maps sets.
From Stdlib Require Import ZArith Lia.
From S2P Require Import Prelude Domain Database World StoreBase StoreUsers StoreAssignments StoreTraffic StoreAdmin.
From S2P Require Import GoStd Xray Worker ServiceUsers ServiceAdmin Runs Lifecycle.
Local Open Scope Z_scope.

(** ** Looking up by a predicate *)

(** The head of a filtered table is a row of it, and there is one if any row
    passes. *)
Lemma head_filter_Some {K} `{Countable K} {A} (p : A → bool) (m : gmap K A) a :
  head (filter (λ x, p x = true) (map_to_list m).*2) = Some a → ∃ k, m !! k = Some a ∧ p a = true.
Proof.
  destruct (filter _ _) as [|b l] eqn:Hf; [done|]. intros [= ->].
  assert (a ∈ a :: l) as Ha by by left. rewrite <- Hf in Ha.
  apply list_elem_of_filter in Ha as [Hp (kv & -> & Hkv)%list_elem_of_fmap].
  destruct kv as [k a]. apply elem_of_map_to_list in Hkv. eauto.
Qed.

Lemma head_filter_None {K} `{Countable K} {A} (p : A → bool) (m : gmap K A) k a :
  head (filter (λ x, p x = true) (map_to_list m).*2) = None → m !! k = Some a → p a = false.
Proof.
  destruct (filter _ _) as [|b l] eqn:Hf; [|done]. intros _ Hk.
  apply not_true_is_false. intros Hp.
  assert (a ∈ filter (λ x, p x = true) (map_to_list m).*2) as Ha.
  { apply list_elem_of_filter. split; [done|]. apply list_elem_of_fmap.
    exists (k, a). split; [done|]. by apply elem_of_map_to_list. }
  rewrite Hf in Ha. by apply not_elem_of_nil in Ha.
Qed.

Section Access.
Context {P : Platform} `{!Quiet P}.

(** ** API keys *)

(** Who may call the API: the bootstrap key, or an unrevoked stored key. *)
Definition admitted (plaintext bootstrap : string) (db : DB) : Prop :=
  plaintext ≠ "" ∧
  ((bootstrap ≠ "" ∧ plaintext = bootstrap) ∨
   ∃ id k, t_api_keys db !! id = Some k ∧ k_KeyHash k = HashKey plaintext ∧ k_RevokedAt k = None).

Lemma FindAPIKeyByHash_run hash w :
  ∃ w' r, FindAPIKeyByHash hash w = (w', r) ∧
    (is_ok r = true ↔ ∃ id k, t_api_keys (w_db w) !! id = Some k ∧ k_KeyHash k = hash ∧ k_RevokedAt k = None).
Proof.
  unfold FindAPIKeyByHash, map_err, bind. rewrite exec_quiet. unfold sql_touch_api_key. cbv zeta.
  destruct (head _) as [k|] eqn:Hh; eexists _, _; (split; [done|]); cbn; split; try done.
  - intros _. apply head_filter_Some in Hh as (id & Hid & Hl). exists id, k.
    unfold live_key in Hl. apply andb_true_iff in Hl as [Hl1 Hl2].
    apply String.eqb_eq in Hl1. apply bool_decide_eq_true in Hl2. auto.
  - intros (id & k & Hid & Hhash & Hrev). apply (head_filter_None _ _ _ _ Hh) in Hid.
    unfold live_key in Hid. by rewrite Hhash, String.eqb_refl, Hrev in Hid.
Qed.

Lemma Verify_run plaintext bootstrap w :
  ∃ w' b, APIKeyService.Verify plaintext bootstrap w = (w', Ok b) ∧
    (b = true ↔ admitted plaintext bootstrap (w_db w)).
Proof.
  unfold APIKeyService.Verify, admitted, subtleEqual.
  destruct (String.eqb_spec plaintext "") as [->|Hne].
  { eexists _, _. split; [done|]. split; [done|by intros []]. }
  destruct (String.eqb_spec bootstrap "") as [->|Hb]; cbn [negb andb].
  2: destruct (String.eqb_spec plaintext bootstrap) as [->|Hpb].
  2: { eexists _, _. split; [done|]. split; [by auto|done]. }
  all: destruct (FindAPIKeyByHash_run (HashKey plaintext) w) as (w' & r & E & Hr);
    unfold bind, attempt; rewrite E; eexists _, _; (split; [done|]); rewrite Hr; naive_solver.
Qed.

(** Authentication: a presented key is accepted exactly when it is not
    empty and is the configured bootstrap key or hashes to a stored key that
    has not been revoked. *)
Theorem verify_spec plaintext bootstrap w :
  ∃ w' b, APIKeyService.Verify plaintext bootstrap w = (w', Ok b) ∧
    (b = true ↔ admitted plaintext bootstrap (w_db w)).
Proof. apply Verify_run. Qed.

(** The plaintext returned for a new key is admitted in the state it leaves. *)
Lemma created_key_admitted name w w' ck bootstrap :
  APIKeyService.Create name w = (w', Ok ck) → admitted (APIKeyService.ck_Plaintext ck) bootstrap (w_db w').
Proof.
  unfold APIKeyService.Create. destruct (String.eqb _ _); [done|].
  intros (w1 & t & _ & (w2 & id & _ & (w3 & [] & H3 & H4)%bind_inv)%bind_inv)%bind_inv.
  injection H4 as <- <-. cbn [APIKeyService.ck_Plaintext]. split; [done|]. right.
  apply map_err_Ok in H3. rewrite exec_quiet in H3. revert H3. unfold sql_insert_api_key. cbn [k_ID k_KeyHash k_Name].
  case_bool_decide; [done|]. destruct (clash _ _ _ _); [done|]. intros [= <-]. cbn.
  exists id. eexists. by rewrite lookup_insert_eq.
Qed.

Lemma admitted_accepted plaintext bootstrap w :
  admitted plaintext bootstrap (w_db w) → (APIKeyService.Verify plaintext bootstrap w).2 = Ok true.
Proof. intros Ha. destruct (Verify_run plaintext bootstrap w) as (w' & b & -> & Hb). cbn. by rewrite (proj2 Hb). Qed.

(** Revocation: a revoked key is not accepted any more (the bootstrap key
    apart). *)
Theorem revoked_key_rejected id k plaintext bootstrap w w' :
  db_ok (w_db w) → t_api_keys (w_db w) !! id = Some k → k_KeyHash k = HashKey plaintext →
  bootstrap = "" ∨ plaintext ≠ bootstrap →
  APIKeyService.Revoke id w = (w', Ok tt) →
  (APIKeyService.Verify plaintext bootstrap w').2 = Ok false.
Proof.
  intros Hok Hk Hhash Hb. unfold APIKeyService.Revoke, RevokeAPIKey. rewrite requireRow_quiet.
  rewrite by_id_stored by eauto. unfold sql_revoke_api_key. rewrite Hk. destruct k as [i n h c l [r|]]; [done|].
  cbn [bool_decide]. intros [= <-].
  destruct (Verify_run plaintext bootstrap (w_set_db (set_api_keys
    (<[id := mkAPIKey i n h c l (Some (clock (w_k w)))]> (t_api_keys (w_db w))) (w_db w)) (w_tick w)))
    as (w2 & b & E & Hiff). rewrite E. cbn. f_equal. apply not_true_is_false. intros Htrue.
  apply Hiff in Htrue as [Hne [[? ?]|(j & k2 & Hj & Hh2 & Hr2)]]; [by destruct Hb|].
  cbn in Hj. apply lookup_insert_Some in Hj as [[<- <-]|[Hji Hj]]; [done|].
  apply Hji. eapply (ok_keys_hash _ Hok _ _ _ _ (HashKey plaintext) Hk Hj); cbn in *; congruence.
Qed.

(** ** Subscription tokens *)

Lemma GetUserBySubToken_run token w :
  GetUserBySubToken token w =
  (w_tick w, if text_in token then
               match find_user (λ u, String.eqb (u_SubToken u) token) (w_db w) with
               | Some u => Ok u | None => Err ErrNotFound end
             else Err invalid_text).
Proof.
  unfold GetUserBySubToken, query_row, map_err, bind. rewrite exec_quiet. unfold by_text. cbn [forallb].
  destruct w, (text_in token); cbn; [by destruct (find_user _ _)|done].
Qed.

Lemma token_owner db id u :
  db_ok db → t_users db !! id = Some u →
  find_user (λ v, String.eqb (u_SubToken v) (u_SubToken u)) db = Some u.
Proof.
  intros Hok Hu. unfold find_user. destruct (head _) as [v|] eqn:Hh.
  - apply head_filter_Some in Hh as (j & Hj & Heq%String.eqb_eq).
    assert (j = id) as -> by (eapply (users_sub_token _ (ok_users _ Hok) _ _ _ _ (u_SubToken u) Hj Hu);
      cbn; congruence). congruence.
  - apply (head_filter_None _ _ _ _ Hh) in Hu. by rewrite String.eqb_refl in Hu.
Qed.

(** Rotation: rotating a user's token stores a fresh one under which the
    same user is found; unless the random source repeats itself, the old link
    is dead. *)
Theorem rotate_token id u w w' u' :
  text_in (u_SubToken u) = true → text_in (u_SubToken u') = true →
  db_ok (w_db w) → t_users (w_db w) !! id = Some u →
  UserService.RotateSubToken id w = (w', Ok u') → db_ok (w_db w') →
  (GetUserBySubToken (u_SubToken u') w').2 = Ok u' ∧
  (∃ k, u_SubToken u' = b64_RawURL (rand_at k 24)) ∧
  (u_SubToken u' ≠ u_SubToken u → (GetUserBySubToken (u_SubToken u) w').2 = Err ErrNotFound).
Proof.
  intros Hti Hti' Hok Hu. unfold UserService.RotateSubToken.
  intros (w1 & v & H1 & (w2 & t & H2 & (w3 & [] & H3 & H4)%bind_inv)%bind_inv)%bind_inv Hok'.
  rewrite GetUser_run, (row_at_stored _ _ _ Hu) in H1. injection H1 as <- <-. injection H2 as <- Ht.
  assert (u_ID u = id) as Hid by apply (users_keyed _ (ok_users _ Hok) _ _ Hu).
  apply UpdateUser_Ok in H3 as (r & Hr & _ & Hw3). cbn [u_ID u_set_SubToken] in *. rewrite Hid in *.
  cbv zeta in Hw3. set (v1 := u_set_PlanID _ _) in *.
  assert (u_SubToken v1 = t) as Hv1 by done. clearbody v1.
  cbn in Hr, Hw3. rewrite Hu in Hr. injection Hr as <-. subst w3.
  rewrite GetUser_run in H4. cbn in H4. erewrite row_at_stored in H4 by apply lookup_insert_eq.
  injection H4 as <- <-.
  rewrite !GetUserBySubToken_run, Hti, Hti'. cbn [snd u_SubToken updated_row].
  split_and!.
  - pose proof (token_owner _ id (updated_row (clock (S (S (w_k w)))) v1 u) Hok') as Ho.
    cbn in Ho. rewrite lookup_insert_eq in Ho. cbn. by rewrite (Ho eq_refl).
  - exists (w_k (w_tick w)). by rewrite Hv1, <- Ht.
  - intros Hne. destruct (find_user _ _) as [v|] eqn:Hf; [exfalso|done].
    apply head_filter_Some in Hf as (j & Hj & Heq%String.eqb_eq). cbn in Hj.
    apply lookup_insert_Some in Hj as [[<- <-]|[Hji Hj]]; [done|].
    apply Hji. eapply (users_sub_token _ (ok_users _ Hok) _ _ _ _ (u_SubToken u) Hu Hj); cbn; congruence.
Qed.

(** ** What inbound validation admits *)

Definition opt_in (s : string) (valid : string → bool) : Prop := s = "" ∨ valid s = true.

(** The documented conditions, as one proposition. *)
Definition inbound_ok (inp : NodeService.InboundInput) : Prop :=
  NodeService.ii_Tag inp ≠ "" ∧ Protocol_Valid (NodeService.ii_Protocol inp) = true ∧
  NodeService.ii_PublicHost inp ≠ "" ∧ 1 ≤ NodeService.ii_PublicPort inp ≤ 65535 ∧
  opt_in (NodeService.ii_Network inp) Network_Valid ∧
  opt_in (NodeService.ii_Security inp) Security_Valid ∧
  (NodeService.ii_Protocol inp = ProtocolShadowsocks →
   ShadowsocksMethods !! NodeService.ii_Method inp = Some true) ∧
  opt_in (NodeService.ii_XHTTPMode inp) (λ m, one_of m ["auto"; "packet-up"; "stream-up"; "stream-one"]).

Lemma opt_in_spec s valid :
  opt_in s valid ↔ negb (String.eqb s "") && negb (valid s) = false.
Proof.
  unfold opt_in. destruct (String.eqb_spec s ""), (valid s); cbn; naive_solver.
Qed.

Lemma validate_spec' inp : NodeService.validate inp = None ↔ inbound_ok inp.
Proof.
  unfold NodeService.validate, inbound_ok. rewrite !opt_in_spec.
  destruct (String.eqb_spec (NodeService.ii_Tag inp) ""); [naive_solver|].
  destruct (Protocol_Valid _); cbn [negb]; [|naive_solver].
  destruct (String.eqb_spec (NodeService.ii_PublicHost inp) ""); [naive_solver|].
  destruct (bool_decide_reflect (NodeService.ii_PublicPort inp ≤ 0)); cbn [orb]; [split; [done|lia]|].
  destruct (bool_decide_reflect (65535 < NodeService.ii_PublicPort inp)); [split; [done|lia]|].
  destruct (negb (String.eqb (NodeService.ii_Network inp) "") && _); [naive_solver|].
  destruct (negb (String.eqb (NodeService.ii_Security inp) "") && _); [naive_solver|].
  destruct (String.eqb_spec (NodeService.ii_Protocol inp) ProtocolShadowsocks) as [Hss|Hss]; cbn [andb].
  2: { destruct (negb (String.eqb (NodeService.ii_XHTTPMode inp) "") && _); [naive_solver|].
       split; [|done]. intros _. split_and!; try done; lia. }
  destruct (String.eqb_spec (NodeService.ii_Method inp) "") as [Hm|Hm].
  { split; [done|]. intros (_&_&_&_&_&_&H&_). specialize (H Hss). by rewrite Hm in H. }
  destruct (ShadowsocksMethods !! NodeService.ii_Method inp) as [[]|]; cbn [default negb].
  2,3: split; [done|]; intros (_&_&_&_&_&_&H&_); by specialize (H Hss).
  destruct (negb (String.eqb (NodeService.ii_XHTTPMode inp) "") && _); [naive_solver|].
  split; [|done]. intros _. split_and!; try done; lia.
Qed.

(** Validation: an inbound is accepted exactly under those conditions. *)
Theorem validate_spec inp : NodeService.validate inp = None ↔ inbound_ok inp.
Proof. apply validate_spec'. Qed.

Lemma method_cipher m : ShadowsocksMethods !! m = Some true → is_ok (shadowsocksCipher m) = true.
Proof.
  unfold ShadowsocksMethods. intros H.
  repeat (apply lookup_insert_Some in H as [[<- _]|[_ H]]; [done|]).
  apply lookup_singleton_Some in H as [<- _]. done.
Qed.

(** Pushable: every user assigned to an inbound that passed validation
    yields an account the node's protocol can carry: building it for the gRPC
    call cannot fail. *)
Theorem validated_inbound_pushable inp id node ui u :
  NodeService.validate inp = None →
  is_ok (buildUser (accountFor (desired_row ui (NodeService.inboundFromInput inp id node) u))) = true.
Proof.
  intros Hv. assert (inbound_ok inp) as (_ & Hp & _ & _ & _ & _ & Hm & _) by by apply validate_spec'.
  unfold buildUser. cbn. unfold Protocol_Valid, one_of in Hp. cbn [existsb] in Hp.
  unfold ProtocolVLESS, ProtocolVMess, ProtocolTrojan in Hp.
  destruct (String.eqb _ "vless"); [done|]. destruct (String.eqb _ "vmess"); [done|].
  destruct (String.eqb _ "trojan"); [done|]. cbn in Hp. rewrite orb_false_r in Hp.
  unfold ProtocolShadowsocks in *. rewrite Hp. apply String.eqb_eq in Hp.
  specialize (method_cipher _ (Hm Hp)). by destruct (shadowsocksCipher _).
Qed.
End Access.
