(* ===== verification/Startup.v ===== *)
(** * Process start-up (src/cmd/xray-api/main.go, src/internal/store/store.go)

    Command line, configuration, the database connection with its migrations,
    the server and the workers, and the way every command ends.  What the
    operating system, the SQL driver and goose do is a parameter; what the
    process prints is a list of lines. *)

From stdpp Require Import base gmap strings list fin_maps sets relations.
From Stdlib Require Import ZArith Lia.
From S2P Require Import Prelude Domain Database World StoreBase StoreUsers StoreAssignments StoreTraffic StoreAdmin.
From S2P Require Import GoStd Encoding Config RateLimit Xray Worker ServiceUsers ServiceAdmin ServiceBilling.
From S2P Require Import Httpapi Router System Shutdown Access.
Local Open Scope Z_scope.

(** ** store.Open *)

(** The calls Open makes on database/sql and goose, in its order. *)
Record Driver {P : Platform} : Type := mkDriver {
  sql_Open : string → IO unit;
  PingContext : IO unit;
  goose_SetDialect : IO unit;
  db_Conn : IO unit;
  pg_advisory_lock : Z → IO unit;
  goose_Up : IO unit;
  pg_advisory_unlock : Z → IO unit
}.

Definition advisoryLockKey : Z := 0x78726179.

(** [fmt.Errorf("what: %w", err)]. *)
Definition wrapped {P : Platform} {A} (what : string) (m : IO A) : IO A :=
  map_err (λ e, WrapError (what +:+ ": " +:+ Error e) e) m.

(** The lock is released on every path that took it. *)
Definition migrate {P : Platform} (d : Driver) : IO unit :=
  goose_SetDialect d ;;;
  wrapped "acquire migration conn" (db_Conn d) ;;;
  wrapped "acquire migration lock" (pg_advisory_lock d advisoryLockKey) ;;;
  r <- attempt (wrapped "run migrations" (goose_Up d)) ;;
  ignore (pg_advisory_unlock d advisoryLockKey) ;;;
  lift_res r.

Definition Open {P : Platform} (d : Driver) (dsn : string) : IO unit :=
  wrapped "open database" (sql_Open d dsn) ;;;
  wrapped "ping database" (PingContext d) ;;;
  migrate d.

(** ** The command line *)

Inductive command : Type :=
| Serve (args : list string)
| GenKey (args : list string)
| Version
| Usage.

(** The switch of main over [os.Args[1:]]. *)
Definition parse_command (args : list string) : command :=
  match args with
  | [] => Serve []
  | a :: rest =>
      if String.eqb a "serve" then Serve rest
      else if String.eqb a "gen-key" then GenKey rest
      else if String.eqb a "version" then Version
      else if one_of a ["-h"; "--help"; "help"] then Usage
      else Serve args
  end.

Definition is_config_flag (a : string) : bool := one_of a ["-config"; "--config"].
Definition is_name_flag (a : string) : bool := one_of a ["-name"; "--name"].

Definition usage : list string :=
  [ "xray-api - control plane for Xray-core fleets";
    "";
    "Usage:";
    "  xray-api serve [-config path]     Run the API server and workers (default)";
    "  xray-api gen-key -name NAME [-config path]   Create an admin API key";
    "  xray-api version";
    "";
    "Configuration is read from -config (YAML) with XRAY_API_* env overrides." ].

Section Main.
Context (LookupEnv : string → option string).
Context (ReadFile : string → res string string).
Context (yaml_Unmarshal : string → Config.Config → res string Config.Config).
Context (ParseDuration : string → option Z).

Definition Getenv (key : string) : string := default "" (LookupEnv key).

Fixpoint configPath (args : list string) : string :=
  match args with
  | [] => Getenv "XRAY_API_CONFIG"
  | a :: rest =>
      match is_config_flag a, rest with
      | true, v :: _ => v
      | _, _ => configPath rest
      end
  end.

(** The argument loop of runGenKey: the name, and the path, set so far. *)
Fixpoint gen_key_flags (name cfgPath : string) (args : list string) : string * string :=
  match args with
  | [] => (name, cfgPath)
  | a :: rest =>
      if is_name_flag a then
        match rest with v :: rest' => gen_key_flags v cfgPath rest' | [] => (name, cfgPath) end
      else if is_config_flag a then
        match rest with v :: rest' => gen_key_flags name v rest' | [] => (name, cfgPath) end
      else gen_key_flags name cfgPath rest
  end.

Definition Load : string → res error Config.Config :=
  Config.Load LookupEnv ReadFile yaml_Unmarshal ParseDuration.

Inductive Level : Type := LevelDebug | LevelInfo | LevelWarn | LevelError.

(** The level, and whether the handler writes JSON. *)
Definition newLogger (cfg : Config.Config) : Level * bool :=
  let l := Config.Log_Level cfg in
  (if String.eqb l "debug" then LevelDebug
   else if String.eqb l "warn" then LevelWarn
   else if String.eqb l "error" then LevelError
   else LevelInfo,
   String.eqb (Config.Log_Format cfg) "json").

(** ** gen-key *)

Context {P : Platform} (d : Driver).

(** The exit code and the lines printed. *)
Definition runGenKey (args : list string) (w : World) : World * (Z * list string) :=
  let '(name, cfgPath) := gen_key_flags "admin" "" args in
  let cfgPath := if String.eqb cfgPath "" then Getenv "XRAY_API_CONFIG" else cfgPath in
  match Load cfgPath with
  | Err e => (w, (1, ["config: " +:+ Error e]))
  | Ok cfg =>
      match Open d (Config.Database_DSN cfg) w with
      | (w1, Err e) => (w1, (1, ["open store: " +:+ Error e]))
      | (w1, Ok _) =>
          match APIKeyService.Create name w1 with
          | (w2, Err e) => (w2, (1, ["create key: " +:+ Error e]))
          | (w2, Ok created) =>
              (w2, (0, [ "Created API key " +:+ quote (k_Name (APIKeyService.ck_Key created));
                         "  id:  " +:+ k_ID (APIKeyService.ck_Key created);
                         "  key: " +:+ APIKeyService.ck_Plaintext created;
                         "";
                         "Store this now — it will not be shown again." ]))
          end
      end
  end.

(** ** serve *)

Definition worker_config (cfg : Config.Config) : Worker.Config :=
  Worker.mkConfig (Config.Workers_HealthInterval cfg) (Config.Workers_StatsInterval cfg)
    (Config.Workers_ReconcileInterval cfg) (Config.Workers_SnapshotRetentionDays cfg).

Context (J : Httpapi.Codecs) (openAPISpec version commit : string).
Context (prometheus_text : gmap (string * list string) Z → string).
Context {Limiter : Type} (NewLimiter : Z → Limiter) (Allow : Limiter → Time → Limiter * bool).

(** How serving ended: a signal, with the outcome of the graceful shutdown, or
    an error of the listener. *)
Inductive ending : Type := Signal (shutdown : res error unit) | ListenError (e : error).

Definition exit_code (e : ending) : Z := match e with Signal (Ok _) => 0 | _ => 1 end.

(** The system of a started process. *)
Definition started (cfg : Config.Config) (w : World) : @Sys P Limiter :=
  mkSys w (newIPLimiter (Config.RateLimit_PublicPerMinute cfg)) ∅ ∅.

(** [runServe args w w' code]: the process, started in [w], ended in [w'];
    between Start and the end any steps of the system happen, and then the
    manager's Stop drains the goroutines.  (The HTTP server has been shut down
    by then, or given up on.) *)
Inductive runServe (args : list string) (w : World) : World → Z → Prop :=
| serve_config e : Load (configPath args) = Err e → runServe args w w 1
| serve_store cfg w1 e :
    Load (configPath args) = Ok cfg → Open d (Config.Database_DSN cfg) w = (w1, Err e) →
    runServe args w w1 1
| serve_workers cfg w1 w2 e :
    Load (configPath args) = Ok cfg → Open d (Config.Database_DSN cfg) w = (w1, Ok tt) →
    (NewManager ;;; Start) w1 = (w2, Err e) → runServe args w w2 1
| serve_until cfg w1 w2 s e t n stopped :
    Load (configPath args) = Ok cfg → Open d (Config.Database_DSN cfg) w = (w1, Ok tt) →
    (NewManager ;;; Start) w1 = (w2, Ok tt) →
    rtc (step J (Httpapi.NewServer openAPISpec version commit cfg) prometheus_text NewLimiter Allow (worker_config cfg))
      (started cfg w2) s →
    drains (worker_config cfg) t n
      (mkDraining s true (bool_decide (0 < Config.Workers_SnapshotRetentionDays cfg)) false) stopped →
    dr_returned stopped = true →
    runServe args w (s_world (dr_sys stopped)) (exit_code e).

(** [main args w w' code out]: the program called with [args] ends with the exit
    code, having printed the lines [out] (serve only logs). *)
Inductive main (args : list string) (w : World) : World → Z → list string → Prop :=
| main_serve rest w' code :
    parse_command args = Serve rest → runServe rest w w' code → main args w w' code []
| main_gen_key rest w' code out :
    parse_command args = GenKey rest → runGenKey rest w = (w', (code, out)) → main args w w' code out
| main_version :
    parse_command args = Version →
    main args w w 0 ["xray-api " +:+ version +:+ " (" +:+ commit +:+ ")"]
| main_usage : parse_command args = Usage → main args w w 0 usage.
End Main.

(** A gen-key that exits with 0 has printed a key that is admitted in the state
    it leaves. *)
Lemma runGenKey_admitted {P : Platform} `{!Quiet P} LookupEnv ReadFile yaml_Unmarshal ParseDuration
    (d : Driver) args w w' lines :
  runGenKey LookupEnv ReadFile yaml_Unmarshal ParseDuration d args w = (w', (0, lines)) →
  ∃ key, "  key: " +:+ key ∈ lines ∧ ∀ bootstrap, admitted key bootstrap (w_db w').
Proof.
  unfold runGenKey. destruct (gen_key_flags _ _ args) as [name cfgPath].
  destruct (Load _ _ _ _ _) as [cfg|e]; [|done].
  destruct (Open d _ w) as [w1 [[]|e]]; [|done].
  destruct (APIKeyService.Create name w1) as [w2 [created|e]] eqn:Hc; [|done].
  intros [= <- <-]. exists (APIKeyService.ck_Plaintext created). split; [set_solver|].
  intros bootstrap. by eapply created_key_admitted.
Qed.

(** ** The life of the process *)

(** What the driver and goose are relied on for: they leave a database that
    satisfies the schema, and know nothing of the process. *)
Class DriverLaws {P : Platform} (d : Driver) : Prop := driver_keeps :
  ∀ I : World → Prop, I = w_ok ∨ DbFree I →
    (∀ dsn, preserves I (sql_Open d dsn)) ∧ preserves I (PingContext d) ∧
    preserves I (goose_SetDialect d) ∧ preserves I (db_Conn d) ∧
    (∀ k, preserves I (pg_advisory_lock d k)) ∧ preserves I (goose_Up d) ∧
    (∀ k, preserves I (pg_advisory_unlock d k)).

Section ServeSafe.
Context {P : Platform} `{!Rely P} (d : Driver) `{!DriverLaws d}.

Lemma Open_preserves I dsn : I = w_ok ∨ DbFree I → preserves I (Open d dsn).
Proof.
  intros HI. destruct (driver_keeps I HI) as (?&?&?&?&?&?&?).
  unfold Open, migrate, wrapped. go_inv.
Qed.

(** No actor yet. *)
Definition fresh_process (w : World) : Prop := w_actors w = ∅ ∧ w_heap w = ∅.
#[local] Instance fresh_process_free : DbFree fresh_process.
Proof. by intros w. Qed.

Lemma fresh_ok w : w_ok w → fresh_process w → w_ok w ∧ actors_ok w.
Proof.
  intros Hw [Ha Hh]. split; [done|]. constructor; rewrite ?Ha, ?Hh; intros ??; by rewrite lookup_empty.
Qed.

(** However serving goes and ends, whichever requests, turns and sweeps happen
    in between. *)
Lemma serve_safe LookupEnv ReadFile yaml_Unmarshal ParseDuration J openAPISpec version commit
    prometheus_text {Limiter} (NewLimiter : Z → Limiter) Allow args w w' code :
  w_ok w → fresh_process w →
  runServe LookupEnv ReadFile yaml_Unmarshal ParseDuration d J openAPISpec version commit
    prometheus_text NewLimiter Allow args w w' code →
  w_ok w' ∧ actors_ok w' ∧
  (code = 0 → ∃ cfg, Load LookupEnv ReadFile yaml_Unmarshal ParseDuration
                       (configPath LookupEnv args) = Ok cfg ∧ Config.usable cfg).
Proof.
  intros Hw Hf Hrun.
  assert (∀ dsn w1 r, Open d dsn w = (w1, r) → w_ok w1 ∧ fresh_process w1) as Hopen.
  { intros dsn w1 r E. pose proof (Open_preserves w_ok dsn ltac:(by left) w Hw) as H1.
    pose proof (Open_preserves fresh_process dsn ltac:(right; apply _) w Hf) as H2.
    rewrite E in H1, H2. done. }
  assert (∀ w1 w2 r, w_ok w1 ∧ fresh_process w1 → (NewManager ;;; Start) w1 = (w2, r) →
    w_ok w2 ∧ actors_ok w2) as Hstart.
  { intros w1 w2 r [Hw1 Hf1] E. change (Start (w_set_actors ∅ w1) = (w2, r)) in E.
    assert (fresh_process (w_set_actors ∅ w1)) as Hf2 by (split; [done|apply Hf1]).
    destruct (fresh_ok (w_set_actors ∅ w1) Hw1 Hf2) as [_ Ha1].
    pose proof (Start_inv (w_set_actors ∅ w1) Hw1) as H1. pose proof (Start_frame actors_ok _ Ha1) as H2.
    rewrite E in H1, H2. done. }
  destruct Hrun as [e He|cfg w1 e Hc Ho|cfg w1 w2 e Hc Ho Hs|cfg w1 w2 s e t n stopped Hc Ho Hs Hsteps Hd Hret].
  - destruct (fresh_ok w Hw Hf). split_and!; done.
  - apply Hopen in Ho as [Hw1 Hf1]. destruct (fresh_ok w1 Hw1 Hf1). split_and!; done.
  - apply Hopen in Ho. destruct (Hstart _ _ _ Ho Hs). split_and!; done.
  - apply Hopen in Ho. pose proof (Hstart _ _ _ Ho Hs) as Hok.
    assert (sys_ok (dr_sys stopped)) as [Hw' Ha'].
    { assert (rtc (step J (Httpapi.NewServer openAPISpec version commit cfg) prometheus_text NewLimiter Allow
        (worker_config cfg)) (started cfg w2) (dr_sys stopped)) as Hall
        by (etrans; [exact Hsteps|by eapply drains_steps in Hd]).
      by eapply reachable_ok. }
    split_and!; [done..|]. intros _. exists cfg. split; [done|].
    by apply Config.load_spec in Hc as (c0 & _ & -> & Hu).
Qed.

Lemma runGenKey_keeps LookupEnv ReadFile yaml_Unmarshal ParseDuration args I `{!DbFree I} w :
  (I w → I (runGenKey LookupEnv ReadFile yaml_Unmarshal ParseDuration d args w).1) ∧
  (w_ok w → w_ok (runGenKey LookupEnv ReadFile yaml_Unmarshal ParseDuration d args w).1).
Proof.
  unfold runGenKey. destruct (gen_key_flags _ _ args) as [name cfgPath].
  destruct (Load _ _ _ _ _) as [cfg|e]; [|done].
  assert (preserves I (APIKeyService.Create name)) as Hc by (unfold APIKeyService.Create; go_inv).
  assert (preserves w_ok (APIKeyService.Create name)) as Hc' by (go_inv; eauto with go_inv db_inv).
  split; intros Hw.
  - pose proof (Open_preserves I (Config.Database_DSN cfg) ltac:(by right) w Hw) as Ho.
    destruct (Open d _ w) as [w1 [[]|e]]; [|done]. specialize (Hc w1 Ho).
    by destruct (APIKeyService.Create name w1) as [w2 [created|e]].
  - pose proof (Open_preserves w_ok (Config.Database_DSN cfg) ltac:(by left) w Hw) as Ho.
    destruct (Open d _ w) as [w1 [[]|e]]; [|done]. specialize (Hc' w1 Ho).
    by destruct (APIKeyService.Create name w1) as [w2 [created|e]].
Qed.

(** C14 (the whole program): however the program is called and ends, whichever
    requests, turns and sweeps happen while it serves, it leaves a database that
    satisfies every constraint and at most one live actor per node; and when it
    served and exits with 0, it ran with a configuration that passed validation. *)
Theorem main_safe LookupEnv ReadFile yaml_Unmarshal ParseDuration J openAPISpec version commit
    prometheus_text {Limiter} (NewLimiter : Z → Limiter) Allow args w w' code out :
  w_ok w → fresh_process w →
  main LookupEnv ReadFile yaml_Unmarshal ParseDuration d J openAPISpec version commit
    prometheus_text NewLimiter Allow args w w' code out →
  w_ok w' ∧ actors_ok w' ∧
  ∀ rest, parse_command args = Serve rest → code = 0 →
    ∃ cfg, Load LookupEnv ReadFile yaml_Unmarshal ParseDuration
             (configPath LookupEnv rest) = Ok cfg ∧ Config.usable cfg.
Proof.
  intros Hw Hf [rest w1 c Hp Hr|rest w1 c o Hp Hr|Hp|Hp].
  - destruct (serve_safe _ _ _ _ _ _ _ _ _ _ _ _ _ _ _ Hw Hf Hr) as (H1 & H2 & H3).
    split_and!; [done..|]. rewrite Hp. by intros ? [= <-].
  - destruct (runGenKey_keeps LookupEnv ReadFile yaml_Unmarshal ParseDuration rest fresh_process w) as [H1 H2].
    rewrite Hr in H1, H2. destruct (fresh_ok w1 (H2 Hw) (H1 Hf)).
    split_and!; [done..|]. by rewrite Hp.
  - destruct (fresh_ok w Hw Hf). split_and!; [done..|]. by rewrite Hp.
  - destruct (fresh_ok w Hw Hf). split_and!; [done..|]. by rewrite Hp.
Qed.
End ServeSafe.
