(* ===== verification/Links.v ===== *)
(** * What a client reads in a subscription

    Share links parse back into the parts they were built from, the bundle
    decodes to one line per inbound, and the credentials a client is given are
    those the reconciler provisions on the node. *)

From Stdlib Require Import Ascii.
From stdpp Require Import base strings list gmap fin_maps pretty.
From Stdlib Require Import ZArith Lia.
From S2P Require Import Prelude Domain Database World StoreAssignments GoStd Encoding Json Xray StatNames Worker.
From S2P Require Import ServiceUsers ServiceAdmin Sublink Access.
Local Open Scope Z_scope.

(** ** The client's parser *)

(** The bytes before and after the first occurrence of [c]. *)
Fixpoint cut_at (c : ascii) (l : list ascii) : option (list ascii * list ascii) :=
  match l with
  | [] => None
  | a :: l' => if Ascii.eqb a c then Some ([], l') else (λ '(k, v), (a :: k, v)) <$> cut_at c l'
  end.

(** Percent-decoding, outside of query strings. *)
Fixpoint pct_decode (l : list ascii) : option (list ascii) :=
  match l with
  | [] => Some []
  | c :: l1 =>
      if Ascii.eqb c "%"%char then
        match l1 with
        | h :: g :: l2 => x ← unhex h; y ← unhex g; cons (byte_of (x * 16 + y)) <$> pct_decode l2
        | _ => None
        end
      else cons c <$> pct_decode l1
  end.

Record link_parts : Type := mkLinkParts {
  lp_scheme : string;
  lp_user : string;
  lp_host : string;
  lp_params : Values;
  lp_remark : string
}.

(** scheme://user@host?query#fragment *)
Definition parse_link (s : string) : option link_parts :=
  '(scheme, r) ← cut_at ":"%char (bytes s);
  r ← prefix_of (bytes "//") r;
  '(user, r) ← cut_at "@"%char r;
  '(host, r) ← cut_at "?"%char r;
  '(query, frag) ← cut_at "#"%char r;
  user' ← pct_decode user; host' ← pct_decode host; frag' ← pct_decode frag;
  params ← ParseQuery (of_bytes query);
  Some (mkLinkParts (of_bytes scheme) (of_bytes user') (of_bytes host') params (of_bytes frag')).

Lemma cut_at_app c k v : c ∉ k → cut_at c (k ++ c :: v) = Some (k, v).
Proof.
  induction k as [|a k IH]; cbn; [by rewrite Ascii.eqb_refl|].
  intros [Hc Hk]%not_elem_of_cons. destruct (Ascii.eqb_spec a c) as [->|_]; [done|]. by rewrite IH.
Qed.

(** Modes other than the query's escape with percent signs only. *)
Definition pct_mode (mode : url_mode) : bool :=
  match mode with encodeQueryComponent => false | _ => true end.

Lemma pct_decode_byte mode c r : pct_mode mode = true →
  pct_decode (escape_byte mode c ++ r) = cons c <$> pct_decode r.
Proof.
  intros Hm.
  pose (p := λ c, match escape_byte mode c with
    | [d] => negb (Ascii.eqb d "%"%char) && Ascii.eqb d c
    | [d; h; g] => Ascii.eqb d "%"%char &&
        match unhex h, unhex g with Some x, Some y => Ascii.eqb (byte_of (x * 16 + y)) c | _, _ => false end
    | _ => false
    end).
  assert (p c = true) as Hp by (apply all_bytes; destruct mode; by vm_compute). revert Hp. unfold p.
  destruct (escape_byte _ c) as [|d [|h [|g [|]]]]; try done; cbn [app pct_decode].
  - intros [H1%negb_true_iff H2%Ascii.eqb_eq]%andb_true_iff. by rewrite H1, H2.
  - intros [H1 H2]%andb_true_iff. rewrite H1.
    destruct (unhex h), (unhex g); try done. apply Ascii.eqb_eq in H2. cbn. by rewrite H2.
Qed.

Lemma pct_decode_escape mode s : pct_mode mode = true →
  pct_decode (bytes (url_escape mode s)) = Some (bytes s).
Proof.
  intros Hm. rewrite bytes_escape. induction (bytes s) as [|c l IH]; [done|].
  change (pct_decode (escape_byte mode c ++ (l ≫= escape_byte mode)) = Some (c :: l)).
  rewrite pct_decode_byte by done. by rewrite IH.
Qed.

Lemma Join_free c sep l : c ∉ bytes sep → Forall (λ s, c ∉ bytes s) l → c ∉ bytes (Join l sep).
Proof.
  intros Hsep. induction l as [|x [|y l] IH]; intros Hl; [apply not_elem_of_nil|by inversion Hl|].
  apply Forall_cons in Hl as [Hx Hl]. change (Join (x :: y :: l) sep) with (x +:+ sep +:+ Join (y :: l) sep).
  rewrite !bytes_app, !elem_of_app. specialize (IH Hl). tauto.
Qed.

Lemma Encode_free c v :
  c ≠ "="%char → c ≠ "&"%char →
  forallb (λ n, negb (existsb (Ascii.eqb c) (escape_byte encodeQueryComponent (ascii_of_nat n))))
    (seq 0 256) = true →
  c ∉ bytes (Encode v).
Proof.
  intros H1 H2 Hf. apply Join_free.
  - by intros ->%list_elem_of_singleton.
  - apply Forall_fmap, Forall_true. intros kv. by apply encode_pair_free.
Qed.

Lemma bytes_URL scheme user host query frag :
  scheme ≠ "" → query ≠ "" → frag ≠ "" →
  bytes (URL_String (mkURL scheme (Some user) host query frag)) =
    bytes scheme ++ ":"%char :: bytes "//" ++ bytes (url_escape encodeUserPassword user) ++
    "@"%char :: bytes (url_escape encodeHost host) ++ "?"%char :: bytes query ++
    "#"%char :: bytes (url_escape encodeFragment frag).
Proof.
  intros Hs Hq Hf. unfold URL_String. cbn [url_Scheme url_User url_Host url_RawQuery url_Fragment].
  rewrite (bool_decide_eq_true_2 (is_Some (Some user))) by done. rewrite orb_true_r.
  rewrite !(proj2 (String.eqb_neq _ "")) by done.
  rewrite !bytes_app. by rewrite <- !(assoc_L (++)).
Qed.

Lemma Encode_nonempty params : params ≠ ∅ → Encode params ≠ "".
Proof.
  intros Hne E. pose proof (ParseQuery_Encode params) as H. rewrite E in H. by injection H as <-.
Qed.

(** A URL with a user, a query and a fragment parses back into its parts. *)
Lemma parse_URL scheme user host params frag :
  ":"%char ∉ bytes scheme → scheme ≠ "" → params ≠ ∅ → frag ≠ "" →
  parse_link (URL_String (mkURL scheme (Some user) host (Encode params) frag)) =
    Some (mkLinkParts scheme user host params frag).
Proof.
  intros Hs Hs0 Hp0 Hf0. unfold parse_link.
  rewrite bytes_URL by (done || by apply Encode_nonempty).
  rewrite cut_at_app by done. cbn [mbind option_bind].
  change (prefix_of (bytes "//") (bytes "//" ++ ?l)) with (Some l). cbn [mbind option_bind].
  rewrite cut_at_app by (apply escape_free; by vm_compute). cbn [mbind option_bind].
  rewrite cut_at_app by (apply escape_free; by vm_compute). cbn [mbind option_bind].
  rewrite cut_at_app by (by apply Encode_free; [discriminate|discriminate|vm_compute]).
  cbn [mbind option_bind].
  rewrite !pct_decode_escape by done. cbn [mbind option_bind].
  rewrite !of_bytes_bytes, ParseQuery_Encode. done.
Qed.

Lemma set_if_ne key k v q : key ≠ k → set_if key v q !! k = q !! k.
Proof. intros. unfold set_if. destruct (String.eqb v ""); [done|]. by rewrite lookup_insert_ne. Qed.

Lemma streamParams_type ib : streamParams ib !! "type" = Some (ib_Network ib).
Proof.
  unfold streamParams, security_params, network_params.
  repeat case_match; rewrite ?set_if_ne by done; rewrite lookup_insert_ne by done; apply lookup_insert_eq.
Qed.

Lemma streamParams_nonempty ib : streamParams ib ≠ ∅.
Proof. intros E. pose proof (streamParams_type ib) as H. by rewrite E, lookup_empty in H. Qed.

Lemma vless_params_nonempty ib : vless_params ib ≠ ∅.
Proof.
  intros E. assert (vless_params ib !! "encryption" = Some "none") as H; [|by rewrite E, lookup_empty in H].
  unfold vless_params. rewrite set_if_ne by done. apply lookup_insert_eq.
Qed.

Lemma remark_nonempty u ib : remark u ib ≠ "".
Proof. unfold remark. by destruct (u_Email u). Qed.

(** ** Shadowsocks and vmess *)

Lemma b64_free c62 c63 pad c l :
  forallb (λ n, negb (Ascii.eqb (b64_char c62 c63 (Z.of_nat n)) c)) (seq 0 64) = true →
  c ∉ pad → c ∉ b64_encode c62 c63 pad l.
Proof.
  intros Hall Hpad.
  assert (∀ z, 0 ≤ z < 64 → b64_char c62 c63 z ≠ c) as Hc.
  { intros z Hz E. rewrite forallb_forall in Hall. specialize (Hall (Z.to_nat z)).
    rewrite Z2Nat.id, E, Ascii.eqb_refl in Hall by lia. discriminate Hall. apply in_seq. lia. }
  assert (∀ z, 0 ≤ z < 64 → c ≠ b64_char c62 c63 z) as Hc' by (intros z Hz; specialize (Hc z Hz); congruence).
  induction l as [|a|a b|x y z l IH] using list_ind3; [apply not_elem_of_nil| | |];
    cbn -[b64_char Z.mul Z.div Z.modulo]; rewrite ?elem_of_cons, ?elem_of_app.
  - pose proof (digits_range _ 0 (byte_val_range a) ltac:(lia)) as (H1 & H2 & _).
    change (0 / 16) with 0 in H2. rewrite Z.add_0_r in H2. naive_solver.
  - pose proof (digits_range _ _ (byte_val_range a) (byte_val_range b)) as (H1 & H2 & _).
    pose proof (digits_range _ 0 (byte_val_range b) ltac:(lia)) as (_ & _ & H3 & _).
    change (0 / 64) with 0 in H3. rewrite Z.add_0_r in H3. naive_solver.
  - pose proof (digits_range _ _ (byte_val_range x) (byte_val_range y)) as (H1 & H2 & _).
    pose proof (digits_range _ _ (byte_val_range y) (byte_val_range z)) as (_ & _ & H3 & _).
    pose proof (digits_range _ 0 (byte_val_range z) ltac:(lia)) as (_ & _ & _ & H4). naive_solver.
Qed.

Record ss_parts : Type := mkSSParts {
  ss_method : string;
  ss_password : string;
  ss_host : string;
  ss_remark : string
}.

(** ss://userinfo@host#fragment, the user info in unpadded base64 *)
Definition parse_ss (s : string) : option ss_parts :=
  r ← prefix_of (bytes "ss://") (bytes s);
  '(info, r) ← cut_at "@"%char r;
  '(host, frag) ← cut_at "#"%char r;
  up ← b64_RawURL_decode (of_bytes info);
  '(method, password) ← cut_at ":"%char (bytes up);
  frag' ← pct_decode frag;
  Some (mkSSParts (of_bytes method) (of_bytes password) (of_bytes host) (of_bytes frag')).

Lemma prefix_of_app p l : prefix_of p (p ++ l) = Some l.
Proof. by apply prefix_of_spec. Qed.

Lemma parse_shadowsocks u ib :
  "#"%char ∉ bytes (hostPort ib) → ":"%char ∉ bytes (ib_Method ib) →
  parse_ss (shadowsocksLink u ib) =
    Some (mkSSParts (defaultMethod ib) (u_TrojanPassword u) (hostPort ib) (remark u ib)).
Proof.
  intros Hhost Hm. unfold parse_ss, shadowsocksLink. cbv zeta. rewrite !bytes_app.
  assert (":"%char ∉ bytes (defaultMethod ib)) as Hdm.
  { unfold defaultMethod. destruct (String.eqb _ _); [by apply (bool_decide_unpack _)|done]. }
  rewrite prefix_of_app. cbn [mbind option_bind].
  change (bytes "@" ++ ?l) with ("@"%char :: l). rewrite cut_at_app; cycle 1.
  { unfold b64_RawURL. rewrite bytes_of_bytes. apply b64_free; [by vm_compute|apply not_elem_of_nil]. }
  cbn [mbind option_bind]. change (bytes "#" ++ ?l) with ("#"%char :: l). rewrite cut_at_app by done.
  cbn [mbind option_bind]. rewrite (of_bytes_bytes (b64_RawURL _)), b64_RawURL_roundtrip. cbn [mbind option_bind].
  rewrite !bytes_app. change (bytes ":" ++ ?l) with (":"%char :: l). rewrite cut_at_app by done.
  cbn [mbind option_bind]. unfold PathEscape. rewrite pct_decode_escape by done. cbn [mbind option_bind].
  by rewrite !of_bytes_bytes.
Qed.

(** vmess://payload, a JSON object in base64 *)
Definition parse_vmess (s : string) : option (gmap string string) :=
  r ← prefix_of (bytes "vmess://") (bytes s);
  txt ← b64_Std_decode (of_bytes r);
  json_Unmarshal txt.

(** Columns of type TEXT hold well-formed UTF-8. *)
Definition text (s : string) : Prop := utf8 (bytes s) = true.

Lemma vmess_keys u ib : map_Forall (λ k _, text k) (vmess_fields u ib).
Proof.
  unfold vmess_fields. cbv zeta.
  repeat case_match; repeat (apply map_Forall_insert_2; [reflexivity|]); apply map_Forall_empty.
Qed.

Lemma parse_vmess_link u ib :
  map_Forall (λ _ v, text v) (vmess_fields u ib) → parse_vmess (vmessLink u ib) = Some (vmess_fields u ib).
Proof.
  intros Hv. unfold parse_vmess, vmessLink. rewrite bytes_app, prefix_of_app. cbn [mbind option_bind].
  rewrite of_bytes_bytes, b64_Std_roundtrip. cbn [mbind option_bind]. apply json_roundtrip.
  intros k v Hk. split; [exact (vmess_keys _ _ _ _ Hk)|exact (Hv _ _ Hk)].
Qed.

Lemma link_parses_back' u ib :
  (ib_Protocol ib = ProtocolVLESS → ∃ s, Link u ib = Ok s ∧
    parse_link s = Some (mkLinkParts "vless" (u_UUID u) (hostPort ib) (vless_params ib) (remark u ib))) ∧
  (ib_Protocol ib = ProtocolTrojan → ∃ s, Link u ib = Ok s ∧
    parse_link s =
      Some (mkLinkParts "trojan" (u_TrojanPassword u) (hostPort ib) (streamParams ib) (remark u ib))).
Proof.
  unfold Link. split; intros ->; eexists; (split; [reflexivity|]);
    apply parse_URL; try done; try apply remark_nonempty.
  - by apply (bool_decide_unpack _).
  - apply vless_params_nonempty.
  - by apply (bool_decide_unpack _).
  - apply streamParams_nonempty.
Qed.

(** C18 (share links): a client that splits a link at its delimiters and decodes
    the parts reads back exactly what it was made of: for vless and trojan the
    account, the public host and port, every transport and security parameter
    and the display name, whatever characters they contain; for shadowsocks the
    method, the password, the host and the name, unless the host contains the
    delimiter (it is the one part not escaped); for vmess every field of the
    payload, if they are well-formed text. *)
Theorem link_parses_back u ib :
  (ib_Protocol ib = ProtocolVLESS → ∃ s, Link u ib = Ok s ∧
    parse_link s = Some (mkLinkParts "vless" (u_UUID u) (hostPort ib) (vless_params ib) (remark u ib))) ∧
  (ib_Protocol ib = ProtocolTrojan → ∃ s, Link u ib = Ok s ∧
    parse_link s =
      Some (mkLinkParts "trojan" (u_TrojanPassword u) (hostPort ib) (streamParams ib) (remark u ib))) ∧
  (ib_Protocol ib = ProtocolShadowsocks → "#"%char ∉ bytes (hostPort ib) → ":"%char ∉ bytes (ib_Method ib) →
    ∃ s, Link u ib = Ok s ∧
      parse_ss s = Some (mkSSParts (defaultMethod ib) (u_TrojanPassword u) (hostPort ib) (remark u ib))) ∧
  (ib_Protocol ib = ProtocolVMess → map_Forall (λ _ v, text v) (vmess_fields u ib) →
    ∃ s, Link u ib = Ok s ∧ parse_vmess s = Some (vmess_fields u ib)).
Proof.
  destruct (link_parses_back' u ib) as [Hv Ht]. split_and!; [done..| |]; unfold Link; intros ->.
  - intros Hh Hm. eexists. split; [reflexivity|by apply parse_shadowsocks].
  - intros Hv'. eexists. split; [reflexivity|by apply parse_vmess_link].
Qed.

(** ** The bundle *)

#[local] Abbreviation nl := "010"%char.

(** Refute membership in a concatenation, part by part. *)
Ltac not_in :=
  let H := fresh in
  intros H;
  repeat lazymatch type of H with _ ∨ _ => destruct H as [H|H] end;
  first [contradiction | discriminate H | (revert H; by apply (bool_decide_unpack _))].

Lemma pretty_N_free x s : nl ∉ bytes s → nl ∉ bytes (pretty_N_go x s).
Proof.
  revert s. induction (N.lt_wf_0 x) as [x _ IH]. intros s Hs.
  destruct (decide (x = 0)%N) as [->|Hx]; [done|].
  rewrite pretty_N_go_step by lia. apply IH; [by apply N.div_lt; lia|].
  cbn. intros [E|H]%elem_of_cons; [|done]. revert E. unfold pretty_N_char.
  by repeat case_match.
Qed.

Lemma Itoa_free z : nl ∉ bytes (Itoa z).
Proof.
  assert (∀ n : N, nl ∉ bytes (pretty n)) as HN.
  { intros n. unfold pretty, pretty_N. case_decide; [by apply (bool_decide_unpack _)|].
    apply pretty_N_free, not_elem_of_nil. }
  unfold Itoa. destruct z as [|p|p]; [by apply (bool_decide_unpack _)|apply HN|].
  change (nl ∉ "-"%char :: bytes (pretty (N.pos p))).
  intros [E|H]%elem_of_cons; [discriminate E|by apply HN in H].
Qed.

Lemma hostPort_free ib : nl ∉ bytes (ib_PublicHost ib) → nl ∉ bytes (hostPort ib).
Proof.
  intros H. unfold hostPort, JoinHostPort. pose proof (Itoa_free (ib_PublicPort ib)) as Hp.
  destruct (Contains _ _); rewrite !bytes_app, !elem_of_app; not_in.
Qed.

(** Only shadowsocks links carry the host unescaped. *)
Definition plain_host (ib : Inbound) : Prop :=
  ib_Protocol ib = ProtocolShadowsocks → nl ∉ bytes (ib_PublicHost ib).

Lemma URL_free scheme user host params frag :
  nl ∉ bytes scheme → scheme ≠ "" → params ≠ ∅ → frag ≠ "" →
  nl ∉ bytes (URL_String (mkURL scheme (Some user) host (Encode params) frag)).
Proof.
  intros Hs Hs0 Hp Hf. rewrite bytes_URL by (done || by apply Encode_nonempty).
  assert (nl ∉ bytes (Encode params)) as Hq by (by apply Encode_free; [discriminate|discriminate|vm_compute]).
  assert (∀ m s, pct_mode m = true → nl ∉ bytes (url_escape m s)) as He
    by (intros [] s Hm; try done; apply escape_free; by vm_compute).
  pose proof (He encodeUserPassword user eq_refl). pose proof (He encodeHost host eq_refl).
  pose proof (He encodeFragment frag eq_refl).
  repeat rewrite ?elem_of_app, ?elem_of_cons.
  not_in.
Qed.

Lemma Link_free u ib s : Link u ib = Ok s → plain_host ib → nl ∉ bytes s.
Proof.
  unfold Link, plain_host.
  repeat case_match; intros [= <-] Hh.
  - apply URL_free; [by apply (bool_decide_unpack _)|done|apply vless_params_nonempty|apply remark_nonempty].
  - apply URL_free; [by apply (bool_decide_unpack _)|done|apply streamParams_nonempty|apply remark_nonempty].
  - unfold vmessLink, b64_Std. rewrite bytes_app, elem_of_app, bytes_of_bytes.
    intros [H'|H']; revert H'; [by apply (bool_decide_unpack _)|].
    apply b64_free; [by vm_compute|by apply (bool_decide_unpack _)].
  - unfold shadowsocksLink, b64_RawURL. rewrite !bytes_app, !elem_of_app, bytes_of_bytes.
    pose proof (hostPort_free ib (Hh ltac:(by apply String.eqb_eq))) as Hp.
    assert (nl ∉ bytes (PathEscape (remark u ib))) by (apply escape_free; by vm_compute).
    assert (∀ l, nl ∉ b64_encode "-"%char "_"%char [] l) as Hb
      by (intros l; apply b64_free; [by vm_compute|by apply not_elem_of_nil]).
    specialize (Hb (bytes (defaultMethod ib) ++ bytes ":" ++ bytes (u_TrojanPassword u))). not_in.
Qed.

Lemma links_free u ibs ls :
  links u ibs = Ok ls → Forall plain_host ibs → Forall (λ s, nl ∉ bytes s) ls.
Proof.
  revert ls. induction ibs as [|ib ibs IH]; intros ls; cbn; [by intros [= <-]|].
  destruct (Link u ib) as [s|] eqn:Hs; [|done].
  destruct (links u ibs) as [ls'|]; [|done]. intros [= <-] [Hh Hhs]%Forall_cons.
  constructor; [by eapply Link_free|by apply IH].
Qed.

Lemma links_spec u ibs ls : links u ibs = Ok ls ↔ Forall2 (λ ib s, Link u ib = Ok s) ibs ls.
Proof.
  revert ls. induction ibs as [|ib ibs IH]; intros ls; cbn.
  - split; [by intros [= <-]|]. by intros ->%Forall2_nil_inv_l.
  - destruct (Link u ib) as [s|] eqn:Hs.
    2: { split; [done|]. intros (s & ? & ? & _)%Forall2_cons_inv_l. congruence. }
    split.
    + destruct (links u ibs) as [ls'|]; [|done]. intros [= <-]. constructor; [done|by apply IH].
    + intros (s' & ls' & H' & Hall & ->)%Forall2_cons_inv_l.
      apply IH in Hall. rewrite Hall. cbn. congruence.
Qed.

(** The lines of a decoded bundle. *)
Definition bundle_lines (body : string) : option (list string) :=
  text ← b64_Std_decode body; Some (of_bytes <$> split_on nl (bytes text)).

Lemma bundle_lines_V2Ray u ibs body :
  V2Ray u ibs = Ok body → ibs ≠ [] → Forall plain_host ibs →
  ∃ ls, bundle_lines body = Some ls ∧ Forall2 (λ ib s, Link u ib = Ok s) ibs ls.
Proof.
  unfold V2Ray. destruct (links u ibs) as [ls|] eqn:Hls; [|done]. intros [= <-] Hne Hp.
  exists ls. pose proof (links_free _ _ _ Hls Hp) as Hfree. apply links_spec in Hls. split; [|done].
  unfold bundle_lines. rewrite b64_Std_roundtrip. cbn [mbind option_bind]. f_equal.
  rewrite (split_join nl) by (try done; by intros ->; apply Forall2_nil_inv_r in Hls).
  rewrite <- list_fmap_compose. rewrite <- (list_fmap_id ls) at 2. apply list_fmap_ext.
  intros i s _. apply of_bytes_bytes.
Qed.

(** Bundle: a client that decodes the base64 body and splits it at line
    breaks gets exactly one line per inbound, in order, each the share link of
    that inbound; no field of a user or inbound can add or break a line, except
    the public host of a shadowsocks inbound, which the link carries unescaped. *)
Theorem bundle_one_line_per_inbound u ibs body :
  V2Ray u ibs = Ok body → ibs ≠ [] → Forall plain_host ibs →
  ∃ ls, bundle_lines body = Some ls ∧ Forall2 (λ ib s, Link u ib = Ok s) ibs ls.
Proof. apply bundle_lines_V2Ray. Qed.

Lemma protocol_cases p : Protocol_Valid p = true →
  p = ProtocolVLESS ∨ p = ProtocolVMess ∨ p = ProtocolTrojan ∨ p = ProtocolShadowsocks.
Proof.
  unfold Protocol_Valid, one_of. cbn [existsb]. rewrite !orb_true_iff, !String.eqb_eq. naive_solver.
Qed.

(** A protocol of the domain's is one of the four that have links. *)
Lemma Link_ok u ib : Protocol_Valid (ib_Protocol ib) = true → is_ok (Link u ib) = true.
Proof. intros Hp. unfold Link. by destruct (protocol_cases _ Hp) as [E|[E|[E|E]]]; rewrite E. Qed.

Lemma V2Ray_ok u ibs :
  Forall (λ ib, Protocol_Valid (ib_Protocol ib) = true) ibs → is_ok (V2Ray u ibs) = true.
Proof.
  intros H. unfold V2Ray. cut (is_ok (links u ibs) = true); [by destruct (links _ _)|].
  induction H as [|ib ibs Hp _ IH]; [done|]. cbn -[Link]. apply (Link_ok u) in Hp.
  destruct (Link u ib); [|done]. by destruct (links _ _).
Qed.

(** Rendering never fails: the bundle of inbounds that each passed
    validation can always be rendered. *)
Theorem validated_inbounds_render u ins :
  Forall (λ x : NodeService.InboundInput * (string * string),
            NodeService.validate x.1 = None) ins →
  is_ok (V2Ray u ((λ x, NodeService.inboundFromInput x.1 x.2.1 x.2.2) <$> ins)) = true.
Proof.
  intros H. apply V2Ray_ok, Forall_fmap. eapply Forall_impl; [exact H|].
  intros [inp [id node]] Hv. by apply validate_spec' in Hv as (_ & Hp & _).
Qed.

(** ** Credentials *)

(** A share link carries the credentials of an account on the node. *)
Definition link_agrees (acc : ProtoAccount) (s : string) : Prop :=
  match acc with
  | vless_Account id flow =>
      ∃ parts, parse_link s = Some parts ∧ lp_scheme parts = "vless" ∧ lp_user parts = id ∧
        lp_params parts !! "flow" = (if String.eqb flow "" then None else Some flow)
  | vmess_Account id =>
      ∃ m, s = "vmess://" +:+ b64_Std (json_Marshal m) ∧ m !! "id" = Some id
  | trojan_Account pw =>
      ∃ parts, parse_link s = Some parts ∧ lp_scheme parts = "trojan" ∧ lp_user parts = pw
  | shadowsocks_Account pw c =>
      ∃ m r, s = "ss://" +:+ b64_RawURL (m +:+ ":" +:+ pw) +:+ "@" +:+ r ∧ shadowsocksCipher m = Ok c
  end.

(** So does a Clash proxy. *)
Definition proxy_agrees (acc : ProtoAccount) (p : clashProxy) : Prop :=
  match acc with
  | vless_Account id flow => cp_Type p = "vless" ∧ cp_UUID p = id ∧ cp_Flow p = flow
  | vmess_Account id => cp_Type p = "vmess" ∧ cp_UUID p = id
  | trojan_Account pw => cp_Type p = "trojan" ∧ cp_Password p = pw
  | shadowsocks_Account pw c =>
      cp_Type p = "ss" ∧ cp_Password p = pw ∧ shadowsocksCipher (cp_Cipher p) = Ok c
  end.

(** Transport settings leave the identity of a proxy alone. *)
Lemma clash_identity u ib :
  let p := clashProxyFor u ib in let b := clash_base u ib in
  cp_Type p = cp_Type b ∧ cp_UUID p = cp_UUID b ∧ cp_Password p = cp_Password b ∧
  cp_Flow p = cp_Flow b ∧ cp_Cipher p = cp_Cipher b.
Proof.
  unfold clashProxyFor, clash_set_network, clash_set_security. by repeat case_match.
Qed.

Lemma vless_params_flow ib :
  vless_params ib !! "flow" = if String.eqb (ib_Flow ib) "" then None else Some (ib_Flow ib).
Proof.
  assert (streamParams ib !! "flow" = None) as Hs.
  { unfold streamParams, security_params, network_params.
    repeat case_match; rewrite ?set_if_ne by done; by rewrite !lookup_insert_ne, lookup_empty by done. }
  unfold vless_params, set_if. destruct (String.eqb _ ""); [by rewrite lookup_insert_ne|].
  apply lookup_insert_eq.
Qed.

Lemma vmess_id u ib : vmess_fields u ib !! "id" = Some (u_UUID u).
Proof.
  unfold vmess_fields. repeat case_match; rewrite ?lookup_insert_ne by done; done.
Qed.

(** What buildUser makes of an assignment's row. *)
Definition account_of (u : User) (ib : Inbound) : res error ProtoAccount :=
  let p := ib_Protocol ib in
  if String.eqb p ProtocolVLESS then Ok (vless_Account (u_UUID u) (ib_Flow ib))
  else if String.eqb p ProtocolVMess then Ok (vmess_Account (u_UUID u))
  else if String.eqb p ProtocolTrojan then Ok (trojan_Account (u_TrojanPassword u))
  else if String.eqb p ProtocolShadowsocks then
    res_map (shadowsocks_Account (u_TrojanPassword u)) (shadowsocksCipher (ib_Method ib))
  else Err (ErrorString ("unsupported protocol " +:+ quote p)).

Lemma build_account u ib ui :
  buildUser (accountFor (desired_row ui ib u)) = res_map (mkProtoUser 0 (u_Email u)) (account_of u ib).
Proof.
  unfold buildUser, account_of, ProtocolVLESS, ProtocolVMess, ProtocolTrojan, ProtocolShadowsocks.
  cbn [accountFor desired_row acc_Protocol acc_Email acc_UUID acc_Flow acc_Password acc_Method
       d_Protocol d_Email d_UUID d_TrojanPass d_Flow d_Method].
  by repeat case_match.
Qed.

(** C17 (credentials): for every validated inbound, the share link and the
    Clash proxy a user is given carry the same credentials (and, for
    shadowsocks, the same cipher) as the account the reconciler pushes to the
    node for that user. *)
Theorem credentials_agree inp id node ui u :
  NodeService.validate inp = None →
  let ib := NodeService.inboundFromInput inp id node in
  ∃ pu s, buildUser (accountFor (desired_row ui ib u)) = Ok pu ∧ pu_Email pu = u_Email u ∧
    Link u ib = Ok s ∧ link_agrees (pu_Account pu) s ∧
    proxy_agrees (pu_Account pu) (clashProxyFor u ib).
Proof.
  intros (_ & Hp & _ & _ & _ & _ & Hm & _)%validate_spec' ib.
  destruct (clash_identity u ib) as (Ht & Hu & Hw & Hf & Hc).
  destruct (link_parses_back' u ib) as [Hvless Htrojan].
  assert (buildUser (accountFor (desired_row ui ib u)) =
    res_map (mkProtoUser 0 (u_Email u)) (account_of u ib)) as -> by apply build_account.
  assert (ib_Method ib ≠ "" → defaultMethod ib = ib_Method ib) as Hdef
    by (intros; unfold defaultMethod; by rewrite (proj2 (String.eqb_neq _ _))).
  change (NodeService.ii_Protocol inp) with (ib_Protocol ib) in *.
  change (NodeService.ii_Method inp) with (ib_Method ib) in *. clearbody ib.
  unfold clash_base, account_of in *.
  destruct (protocol_cases _ Hp) as [E|[E|[E|E]]]; rewrite E in *; cbn in Ht, Hu, Hw, Hf, Hc.
  - destruct (Hvless eq_refl) as (s & Hs & Hparse). eexists _, s. split; [reflexivity|].
    split_and!; try done. eexists. split; [exact Hparse|]. split_and!; try done. apply vless_params_flow.
  - eexists _, (vmessLink u ib). split; [reflexivity|]. split; [done|]. unfold Link. rewrite E.
    split_and!; try done. exists (vmess_fields u ib). split; [done|apply vmess_id].
  - destruct (Htrojan eq_refl) as (s & Hs & Hparse). eexists _, s. split; [reflexivity|].
    split_and!; try done. eexists. split; [exact Hparse|done].
  - specialize (Hm eq_refl). pose proof (method_cipher _ Hm) as Hcipher.
    destruct (shadowsocksCipher (ib_Method ib)) as [c|] eqn:Hci; [|done].
    rewrite Hdef in Hc by (intros H; by rewrite H in Hm).
    eexists _, (shadowsocksLink u ib). split; [reflexivity|]. split; [done|]. unfold Link. rewrite E.
    split; [done|]. split; [|split; [exact Ht|split; [exact Hw|by rewrite Hc]]].
    exists (ib_Method ib), (hostPort ib +:+ "#" +:+ PathEscape (remark u ib)).
    split; [|done]. unfold shadowsocksLink. rewrite Hdef; [done|]. intros H. by rewrite H in Hm.
Qed.
