(* ===== verification/Typing.v ===== *)
(** * What the stored rows are made of

    The schema stores enumerations as TEXT without CHECK constraints
    (src/internal/store/migrations): that a stored inbound has a protocol the
    reconciler can push, and an assignment a status it knows, is the program's
    own invariant.  It holds in every reachable state of the system, so a
    reconcile pass never fails on a row it cannot turn into an account. *)

From stdpp Require Import base gmap strings list fin_maps sets relations.
From Stdlib Require Import ZArith Lia.
From S2P Require Import Prelude Domain Database World StoreBase StoreUsers StoreAssignments StoreTraffic StoreAdmin.
From S2P Require Import GoStd RateLimit Xray Worker ServiceUsers ServiceAdmin ServiceBilling Httpapi Router.
From S2P Require Import System Tables Convergence Access Links.
Import Httpapi.
Local Open Scope Z_scope.

(** ** Typed rows *)

(** What validation guarantees of a stored inbound. *)
Record inbound_typed (ib : Inbound) : Prop := {
  it_tag : ib_Tag ib ≠ "";
  it_protocol : Protocol_Valid (ib_Protocol ib) = true;
  it_host : ib_PublicHost ib ≠ "";
  it_port : 1 ≤ ib_PublicPort ib ≤ 65535;
  it_network : Network_Valid (ib_Network ib) = true;
  it_security : Security_Valid (ib_Security ib) = true;
  it_method : ib_Protocol ib = ProtocolShadowsocks → ShadowsocksMethods !! ib_Method ib = Some true
}.

Definition sync_valid (s : SyncStatus) : bool :=
  one_of s [SyncPending; SyncApplied; SyncFailed; SyncRemoving].

Record db_typed (db : DB) : Prop := {
  dt_inbounds : map_Forall (λ _ ib, inbound_typed ib) (t_inbounds db);
  dt_assignments : map_Forall (λ _ ui, sync_valid (ui_SyncStatus ui) = true) (t_user_inbounds db)
}.

Lemma validated_typed inp id node :
  NodeService.validate inp = None → inbound_typed (NodeService.inboundFromInput inp id node).
Proof.
  intros (Ht & Hp & Hh & Hport & Hn & Hs & Hm & _)%validate_spec'.
  constructor; cbn; try done.
  - destruct (String.eqb_spec (NodeService.ii_Network inp) ""); [done|by destruct Hn].
  - destruct (String.eqb_spec (NodeService.ii_Security inp) ""); [done|by destruct Hs].
Qed.

Lemma inbound_at_typed ib id node c u : inbound_typed ib → inbound_typed (inbound_at ib id node c u).
Proof. intros []. by constructor. Qed.

(** A typed row can be pushed, for every user. *)
Lemma typed_buildable ui ib u :
  inbound_typed ib → is_ok (buildUser (accountFor (desired_row ui ib u))) = true.
Proof.
  intros []. rewrite build_account. unfold account_of.
  destruct (protocol_cases _ it_protocol0) as [E|[E|[E|E]]]; rewrite E; try done. cbn.
  specialize (method_cipher _ (it_method0 E)). by destruct (shadowsocksCipher _).
Qed.

(** ** Statements keep the rows typed *)

Lemma submap_Forall {K A} `{Countable K} (Q : K → A → Prop) (m1 m2 : gmap K A) :
  m1 ⊆ m2 → map_Forall Q m2 → map_Forall Q m1.
Proof. intros Hs HQ i x Hx. apply HQ. by eapply lookup_weaken. Qed.

(** Statements on other tables. *)
Lemma db_typed_same db db' :
  t_inbounds db' = t_inbounds db → t_user_inbounds db' = t_user_inbounds db →
  db_typed db → db_typed db'.
Proof. intros Hi Hu []. by constructor; rewrite ?Hi, ?Hu. Qed.

Lemma sql_insert_inbound_typed ib : inbound_typed ib → sql_keeps db_typed (sql_insert_inbound ib).
Proof.
  intros Hib now db db' a []. unfold sql_insert_inbound. cbv zeta.
  case_bool_decide; [done|]. case_match; [done|]. intros [= <- _]. constructor; [|done]. cbn.
  apply map_Forall_insert_2; [by apply inbound_at_typed|done].
Qed.
Lemma sql_update_inbound_typed ib : inbound_typed ib → sql_keeps db_typed (sql_update_inbound ib).
Proof.
  intros Hib now db db' a []. unfold sql_update_inbound. cbv zeta.
  case_match; [|intros [= <- _]; by constructor]. case_match; [done|]. intros [= <- _].
  constructor; [|done]. cbn. apply map_Forall_insert_2; [by apply inbound_at_typed|done].
Qed.

Lemma drop_inbounds_typed p db : db_typed db → db_typed (drop_inbounds p db).
Proof.
  intros []. constructor; cbn; (eapply submap_Forall; [apply map_filter_subseteq|done]).
Qed.
Lemma sql_delete_inbound_typed id : sql_keeps db_typed (sql_delete_inbound id).
Proof.
  intros now db db' a Hdb. unfold sql_delete_inbound.
  case_match; intros [= <- _]; [by apply drop_inbounds_typed|done].
Qed.
Lemma sql_delete_node_typed id : sql_keeps db_typed (sql_delete_node id).
Proof.
  intros now db db' a Hdb. unfold sql_delete_node. cbv zeta.
  case_match; intros [= <- _]; [|done].
  eapply db_typed_same; [..|by apply drop_inbounds_typed]; done.
Qed.
Lemma sql_delete_user_typed id : sql_keeps db_typed (sql_delete_user id).
Proof.
  intros now db db' a Hdb. unfold sql_delete_user. case_match; intros [= <- _]; [|done].
  destruct Hdb. constructor; [done|]. cbn. eapply submap_Forall; [apply map_filter_subseteq|done].
Qed.

Lemma sql_add_assignment_typed u i : sql_keeps db_typed (sql_add_assignment u i).
Proof.
  intros now db db' a []. unfold sql_add_assignment.
  repeat (case_match; try done); intros [= <- _]; constructor; try done. cbn.
  by apply map_Forall_insert_2.
Qed.
Lemma sql_tombstone_typed p : sql_keeps db_typed (sql_tombstone p).
Proof.
  intros now db db' a [] [= <- _]. constructor; [done|]. cbn.
  apply map_Forall_fmap. intros k ui Hk. unfold compose. case_match; [done|]. by eapply dt_assignments0.
Qed.
Lemma sql_mark_synced_typed u i s e t : sync_valid s = true → sql_keeps db_typed (sql_mark_synced u i s e t).
Proof.
  intros Hs now db db' a [] [= <- _]. constructor; [done|]. cbn. intros k ui.
  rewrite lookup_alter. case_decide; [|by apply dt_assignments0].
  by intros (r & _ & ->)%fmap_Some.
Qed.
Lemma sql_delete_assignment_typed u i : sql_keeps db_typed (sql_delete_assignment u i).
Proof.
  intros now db db' a [] [= <- _]. constructor; [done|]. cbn.
  eapply submap_Forall; [apply delete_subseteq|done].
Qed.

(** Statements that write neither table. *)
Lemma typed_elsewhere {A} (q : Sql A) :
  (∀ now db db' a, q now db = Ok (db', a) →
     t_inbounds db' = t_inbounds db ∧ t_user_inbounds db' = t_user_inbounds db) →
  sql_keeps db_typed q.
Proof. intros Hq now db db' a Hdb [Hi Hu]%Hq. by eapply db_typed_same. Qed.

Ltac typed_elsewhere :=
  apply typed_elsewhere; intros ? ? ? ?;
  unfold select, sql_insert_user, sql_update_user, sql_set_user, update_where, sql_list_users,
    sql_insert_snapshot, sql_add_usage, sql_suspend_over_quota, sql_prune, sql_insert_node, sql_update_node,
    sql_set_node_health, sql_insert_plan, sql_update_plan, sql_delete_plan, sql_insert_api_key,
    sql_touch_api_key, sql_revoke_api_key;
  cbv zeta; repeat case_match; intros; simplify_eq; done.

#[export] Hint Resolve sql_delete_inbound_typed sql_delete_node_typed sql_delete_user_typed
  sql_add_assignment_typed sql_tombstone_typed sql_delete_assignment_typed : tables.
#[export] Hint Extern 9 (sql_keeps db_typed _) => solve [typed_elsewhere] : tables.

(** The loops mark assignments with known statuses only. *)
#[export] Instance db_typed_background : Background db_typed.
Proof.
  constructor; intros; try typed_elsewhere; [|apply sql_delete_assignment_typed].
  apply sql_mark_synced_typed. naive_solver.
Qed.

(** ** Operations keep the rows typed *)

Section Typing.
Context {P : Platform}.

(** Other sessions are instances of the same program. *)
Class RelyTyped : Prop := rely_typed : ∀ k db, db_typed db → db_typed (interfere k db).

Context `{!RelyTyped}.

#[local] Instance db_typed_stable : Stable db_typed := rely_typed.

Lemma CreateInbound_typed node inp : preserves (on_tables db_typed) (NodeService.CreateInbound node inp).
Proof.
  unfold NodeService.CreateInbound, NodeService.check_inbound.
  destruct (NodeService.validate inp) eqn:Hv; [tables|]. autounfold with ops.
  assert (∀ id i, sql_keeps db_typed
    (sql_insert_inbound (ib_set_NodeID i (NodeService.inboundFromInput inp id node)))) as Hs
    by (intros; by apply sql_insert_inbound_typed, inbound_at_typed, validated_typed).
  go_inv.
Qed.
Lemma UpdateInbound_typed id inp : preserves (on_tables db_typed) (NodeService.UpdateInbound id inp).
Proof.
  unfold NodeService.UpdateInbound, NodeService.check_inbound.
  destruct (NodeService.validate inp) eqn:Hv; [tables|]. autounfold with ops.
  assert (∀ id node, sql_keeps db_typed (sql_update_inbound (NodeService.inboundFromInput inp id node))) as Hs
    by (intros; by apply sql_update_inbound_typed, validated_typed).
  go_inv.
Qed.
Hint Resolve CreateInbound_typed UpdateInbound_typed : go_inv.

(** ** Requests and the system *)

Context (J : Codecs) (sv : Server) (prometheus_text : gmap (string * list string) Z → string).
Context {Limiter : Type} (NewLimiter : Z → Limiter) (Allow : Limiter → Time → Limiter * bool).

Lemma handler_typed rt r : preserves (on_tables db_typed) (handler J sv prometheus_text rt r).
Proof.
  destruct rt; cbn [handler]; autounfold with handlers;
    first [ solve [go_inv] | tables ].
Qed.
Hint Resolve handler_typed : go_inv.
Lemma Router_typed l rt r : preserves (on_tables db_typed) (Router J sv prometheus_text NewLimiter Allow l rt r).
Proof. unfold Router, authMiddleware, rateLimitMiddleware, requestLogger. tables. Qed.

Lemma step_typed cfg s s' :
  step J sv prometheus_text NewLimiter Allow cfg s s' → on_tables db_typed (s_world s) → on_tables db_typed (s_world s').
Proof.
  intros Hstep Hw. destruct Hstep; cbn in *;
    try match goal with
        | H : run_turn ?a ?c ?w = (?w', _) |- _ =>
            pose proof (run_turn_keeps db_typed a c w Hw); rewrite H in *; done
        end;
    first [ by apply Router_typed | by apply (checkHealth_keeps db_typed)
          | by apply (expiry_sweep_keeps db_typed) | by apply (prune_keeps db_typed)
          | by apply (Start_keeps db_typed) | by apply (Stop_keeps db_typed) ].
Qed.

Lemma reachable_typed cfg s s' :
  rtc (step J sv prometheus_text NewLimiter Allow cfg) s s' →
  on_tables db_typed (s_world s) → on_tables db_typed (s_world s').
Proof. induction 1; eauto using step_typed. Qed.

(** C12 (typed rows): in every reachable state of the system, each stored
    inbound has a known protocol, network and security, a port and a host, and
    a cipher the node knows; each assignment has a known status; hence every
    assignment can be turned into an account, and no reconcile pass fails for
    want of one. *)
Theorem rows_typed cfg s s' :
  db_typed (w_db (s_world s)) → rtc (step J sv prometheus_text NewLimiter Allow cfg) s s' →
  db_typed (w_db (s_world s')) ∧
  ∀ p, Forall (λ d, is_ok (buildUser (accountFor d)) = true) (join_assignments p (w_db (s_world s'))).
Proof.
  intros Hs Hsteps.
  assert (db_typed (w_db (s_world s'))) as Ht by (by eapply reachable_typed).
  split; [done|]. intros p. apply Forall_forall. intros d Hd. unfold join_assignments in Hd.
  apply list_elem_of_bind in Hd as (ui & (i & u & Hi & _ & _ & ->)%join_row_elem & _).
  apply typed_buildable. by eapply (dt_inbounds _ Ht).
Qed.
End Typing.
