(* ===== verification/Gateway.v ===== *)
(** * The gateway: what a request can do
    (src/internal/httpapi/router.go, middleware.go, webhooks.go,
    subscription.go, users.go)

    Administrative routes are closed to callers without a key, webhook events
    without a signature have no effect, a subscriber reads one link or one Clash
    proxy per inbound, and a page holds exactly its window of the users. *)

From stdpp Require Import base gmap strings list fin_maps sets sorting.
From Stdlib Require Import ZArith Lia.
From S2P Require Import Prelude Domain Database World StoreBase StoreUsers StoreAssignments StoreTraffic StoreAdmin.
From S2P Require Import GoStd Encoding Config RateLimit Xray Worker ServiceUsers ServiceAdmin ServiceBilling.
From S2P Require Import Sublink Httpapi Router Convergence Runs Lifecycle Access Links Typing Reads.
Import Httpapi.
Local Open Scope Z_scope.

(** Two worlds that differ in metrics and in the platform's counter only. *)
Definition same_state {P : Platform} (w w' : World) : Prop :=
  w_db w' = w_db w ∧ w_net w' = w_net w ∧ w_actors w' = w_actors w ∧ w_heap w' = w_heap w.

Section Gateway.
Context {P : Platform} (J : Codecs) (sv : Server).
Context (prometheus_text : gmap (string * list string) Z → string).
Context {Limiter : Type} (NewLimiter : Z → Limiter) (Allow : Limiter → Time → Limiter * bool).

Abbreviation Router := (Router J sv prometheus_text NewLimiter Allow).

(** The part every route ends with. *)
Lemma requestLogger_run r rs (w : World) :
  ∃ w', requestLogger r rs w = (w', Ok tt) ∧ same_state w w'.
Proof. eexists. split; [reflexivity|]. done. Qed.

Lemma same_state_trans (w1 w2 w3 : World) : same_state w1 w2 → same_state w2 w3 → same_state w1 w3.
Proof. intros (?&?&?&?) (?&?&?&?). repeat split; congruence. Qed.

(** The limiter lets the request through, or answers 429 itself. *)
Lemma rateLimitMiddleware_run l next r (w : World) :
  ∃ w0 l', same_state w w0 ∧
    (rateLimitMiddleware NewLimiter Allow l next r w = (w0, Ok (l', too_many_requests)) ∨
     rateLimitMiddleware NewLimiter Allow l next r w = (rs <- next r ;; ret (l', rs)) w0).
Proof.
  destruct l as [l|]; [|exists w, None; auto; by split; [|right]].
  unfold rateLimitMiddleware. cbv zeta.
  set (ip := default _ _). set (k := w_k w).
  destruct (allow NewLimiter Allow l ip (clock k) (clock (S k)) (clock (S (S k)))) as [l' ok] eqn:E.
  exists (w_tick (w_tick (w_tick w))), (Some l'). split; [done|].
  unfold bind at 1 2 3 5 6 7. cbn [time_Now w_k w_tick]. fold k. rewrite E.
  destruct ok; [by right|by left].
Qed.

(** ** Webhooks *)

(** The body that was signed with the shared secret. *)
Definition signed (r : Request) (body : string) : Prop :=
  rq_Body r = Ok body ∧ Z.of_nat (String.length body) ≤ maxWebhookBody ∧
  sv_billingSecret sv ≠ "" ∧
  rq_Header r "X-Webhook-Signature" = hex_Encode (hmac_sha256 (sv_billingSecret sv) body) ∧
  rq_Header r "X-Webhook-Signature" ≠ "".

Lemma VerifySignature_spec secret body signature :
  BillingService.VerifySignature secret body signature = true ↔
  secret ≠ "" ∧ signature = hex_Encode (hmac_sha256 secret body) ∧ signature ≠ "".
Proof.
  unfold BillingService.VerifySignature.
  destruct (String.eqb_spec secret ""); [cbn; naive_solver|].
  destruct (String.eqb_spec signature ""); [cbn; naive_solver|]. cbn.
  rewrite String.eqb_eq. naive_solver.
Qed.

Definition refused (rs : Response) : Prop :=
  rs_Status rs = 400 ∨ rs_Status rs = 401 ∨ rs_Status rs = 404 ∨ rs_Status rs = 429.

(** Without a signature the handler refuses, and only counts the attempt. *)
Lemma handleBillingWebhook_unsigned r (w : World) :
  (∀ body, ¬ signed r body) →
  ∃ w' rs, handleBillingWebhook J sv r w = (w', Ok rs) ∧ refused rs ∧ same_state w w'.
Proof.
  intros Hno. unfold handleBillingWebhook, refused.
  destruct (String.eqb_spec (sv_billingSecret sv) "") as [He|He].
  { eexists _, _. split; [reflexivity|]. split; [by cbn; auto|done]. }
  destruct (rq_Body r) as [body|msg] eqn:Hb; [|eexists _, _; split; [reflexivity|]; split; [by cbn; auto|done]].
  case_bool_decide as Hlen; [eexists _, _; split; [reflexivity|]; split; [by cbn; auto|done]|].
  destruct (BillingService.VerifySignature _ _ _) eqn:Hv.
  - exfalso. apply VerifySignature_spec in Hv as (Hs & Hsig & Hne). apply (Hno body).
    unfold signed. split_and!; [done|lia|done..].
  - eexists _, _. split; [reflexivity|]. split; [by cbn; auto|done].
Qed.

(** A signed body is handed to the billing service, and the answer tells what
    came of it. *)
Lemma handleBillingWebhook_signed r body (w : World) :
  signed r body →
  ∃ w', (handleBillingWebhook J sv r w).1 = w' ∧
    same_state (BillingService.Process (dec_event J) body w).1 w' ∧
    (handleBillingWebhook J sv r w).2 =
      Ok match (BillingService.Process (dec_event J) body w).2 with
         | Err e => writeError e
         | Ok b => writeJSON 200 (JBilling (BillingService.br_Action b) (BillingService.br_Duplicate b)
                                    (render_user sv <$> BillingService.br_User b))
         end.
Proof.
  intros (Hb & Hlen & Hs & Hsig). eexists. split; [reflexivity|]. unfold handleBillingWebhook.
  rewrite (proj2 (String.eqb_neq _ _) Hs), Hb. rewrite bool_decide_false by lia.
  rewrite (proj2 (VerifySignature_spec _ _ _)) by done. cbn [negb].
  unfold bind, attempt. by destruct (BillingService.Process _ _ w) as [w1 [b|e]].
Qed.

(** C16 (signed events only): a request to the webhook route whose body was not
    signed with the configured secret is refused, whatever the limiter says,
    and changes neither the database nor the actors nor a node. *)
Theorem webhook_needs_signature l r (w : World) :
  (∀ body, ¬ signed r body) →
  ∃ w' l' rs, Router l RPostBillingWebhook r w = (w', Ok (l', rs)) ∧ refused rs ∧ same_state w w'.
Proof.
  intros Hno. unfold Router.Router. cbn [group_of handler].
  destruct (rateLimitMiddleware_run l (handleBillingWebhook J sv) r w)
    as (w0 & l' & Hs0 & [E|E]).
  - rewrite (bind_Ok _ _ _ _ _ E). destruct (requestLogger_run r too_many_requests w0) as (w2 & E2 & Hs2).
    exists w2, l', too_many_requests. rewrite (bind_Ok _ _ _ _ _ E2).
    split_and!; [done|unfold refused; cbn; auto|by eapply same_state_trans].
  - destruct (handleBillingWebhook_unsigned r w0 Hno) as (w1 & rs & E1 & Hr & Hs1).
    rewrite (bind_Ok _ _ _ _ _ E1) in E. rewrite (bind_Ok _ _ _ _ _ E).
    destruct (requestLogger_run r rs w1) as (w2 & E2 & Hs2). cbn [snd].
    exists w2, l', rs. rewrite (bind_Ok _ _ _ _ _ E2).
    split_and!; [done|done|eapply same_state_trans; [done|by eapply same_state_trans]].
Qed.

(** ** Administrative routes *)

Context `{!Quiet P}.

(** What admitting a key writes: when keys were last used. *)
Definition key_touched (w w' : World) : Prop :=
  w_db w' = set_api_keys (t_api_keys (w_db w')) (w_db w) ∧
  w_net w' = w_net w ∧ w_actors w' = w_actors w ∧ w_heap w' = w_heap w ∧ w_metrics w' = w_metrics w.

Lemma set_api_keys_self db : set_api_keys (t_api_keys db) db = db.
Proof. by destruct db. Qed.

Lemma FindAPIKeyByHash_frame h w w' r :
  FindAPIKeyByHash h w = (w', r) → key_touched w w'.
Proof.
  unfold FindAPIKeyByHash, map_err, bind. rewrite exec_quiet. unfold sql_touch_api_key. cbv zeta.
  destruct (head _); intros [= <- _]; done.
Qed.

Lemma map_fmap_id_on `{Countable K} {A} (f : A → A) (m : gmap K A) :
  (∀ i x, m !! i = Some x → f x = x) → f <$> m = m.
Proof.
  intros Hf. apply map_eq. intros i. rewrite lookup_fmap.
  destruct (m !! i) as [x|] eqn:Hx; [|done]. cbn. by rewrite (Hf _ _ Hx).
Qed.

(** A key that is not live matches no row, so nothing is written. *)
Lemma touch_nothing h now db :
  (∀ id k, t_api_keys db !! id = Some k → live_key h k = false) →
  sql_touch_api_key h now db = Ok (db, None).
Proof.
  intros Hno. unfold sql_touch_api_key. cbv zeta.
  assert (filter (λ k, live_key h k = true) (map_to_list (t_api_keys db)).*2 = []) as ->.
  { destruct (filter _ _) as [|k l] eqn:Hf; [done|]. exfalso.
    assert (k ∈ k :: l) as Hin by by left. rewrite <- Hf in Hin.
    apply list_elem_of_filter in Hin as [Hl ((i & k') & -> & Hk%elem_of_map_to_list)%list_elem_of_fmap].
    cbn in Hl, Hk. by rewrite (Hno _ _ Hk) in Hl. }
  rewrite map_fmap_id_on; [by rewrite set_api_keys_self|].
  intros i k Hk. by rewrite (Hno _ _ Hk).
Qed.

Lemma Verify_frame plaintext bootstrap w w' ok :
  APIKeyService.Verify plaintext bootstrap w = (w', Ok ok) →
  key_touched w w' ∧ (ok = false → w_db w' = w_db w).
Proof.
  unfold APIKeyService.Verify.
  assert (key_touched w w) as Hrefl by (by repeat split; rewrite ?set_api_keys_self).
  destruct (String.eqb plaintext ""); [by intros [= <- <-]|].
  destruct (_ && _); [by intros [= <- <-]|]. unfold bind, attempt.
  destruct (FindAPIKeyByHash _ w) as [w1 r] eqn:E. intros [= <- <-].
  split; [by eapply FindAPIKeyByHash_frame|]. intros Hr.
  destruct (FindAPIKeyByHash_run (HashKey plaintext) w) as (w2 & r2 & E2 & Hiff).
  rewrite E in E2. injection E2 as <- <-.
  revert E. unfold FindAPIKeyByHash, map_err, bind. rewrite exec_quiet.
  rewrite touch_nothing; [by intros [= <- _]|].
  intros id k Hk. apply not_true_is_false. unfold live_key.
  intros [Hh%String.eqb_eq Hl%bool_decide_eq_true]%andb_true_iff.
  rewrite (proj2 Hiff) in Hr; [done|]. eauto.
Qed.

(** C15 (the API is closed): on every administrative route, a caller without an
    admitted key gets 401 and changes neither the database nor the actors nor
    a node; with one, the answer is the handler's, run in the state the caller
    found (only the keys' last use is written). *)
Theorem auth_required l rt r (w : World) :
  group_of rt = Admin →
  let key := extractKey r in
  (¬ admitted key (sv_bootstrapKey sv) (w_db w) →
     ∃ w', Router l rt r w = (w', Ok (l, unauthorized)) ∧ same_state w w') ∧
  (admitted key (sv_bootstrapKey sv) (w_db w) →
     ∃ w0, key_touched w w0 ∧
       Router l rt r w =
         (rs <- handler J sv prometheus_text rt r ;; requestLogger r rs ;;; ret (l, rs)) w0).
Proof.
  intros Hg key. unfold Router.Router. rewrite Hg. unfold authMiddleware.
  destruct (Verify_run key (sv_bootstrapKey sv) w) as (w1 & ok & E & Hok).
  destruct (Verify_frame _ _ _ _ _ E) as [Ht Hdb].
  split; intros Hadm.
  - assert (ok = false) as -> by (apply not_true_is_false; tauto).
    destruct (requestLogger_run r unauthorized w1) as (w2 & E2 & Hs). exists w2.
    unfold bind at 1 2 3. fold key. rewrite E. cbn [ret snd]. rewrite (bind_Ok _ _ _ _ _ E2).
    split; [done|]. eapply same_state_trans; [|done]. destruct Ht as (_ & ? & ? & ? & _).
    by split; [apply Hdb|].
  - assert (ok = true) as -> by tauto. exists w1. split; [done|].
    unfold bind. fold key. rewrite E.
    by destruct (handler _ _ _ rt r w1) as [w2 [rs|e]].
Qed.

(** ** Subscriptions *)

(** The Clash configuration is asked for, by the query or else by the client's
    name. *)
Definition wants_clash (r : Request) : Prop :=
  rq_Query r "format" = "clash" ∨ (rq_Query r "format" = "" ∧ sniffFormat (UserAgent r) = "clash").

Lemma wants_clash_format r :
  String.eqb (let f := rq_Query r "format" in
              if String.eqb f "" then sniffFormat (UserAgent r) else f) "clash" = true ↔ wants_clash r.
Proof.
  unfold wants_clash. cbv zeta. destruct (String.eqb_spec (rq_Query r "format") "") as [->|Hne];
    rewrite String.eqb_eq; naive_solver.
Qed.

(** The base64 bundle of a user's links, as a client decodes it. *)
Definition bundle_for (u : User) (ibs : list Inbound) (body : string) : Prop :=
  match ibs with
  | [] => body = ""
  | _ => Forall plain_host ibs →
         ∃ ls, bundle_lines body = Some ls ∧ Forall2 (λ ib s, Link u ib = Ok s) ibs ls
  end.

Lemma inbounds_of_user_stored id db ib : ib ∈ inbounds_of_user id db → ∃ k, t_inbounds db !! k = Some ib.
Proof.
  unfold inbounds_of_user, by_created. rewrite merge_sort_Permutation.
  intros ([k ui] & Hib & _)%list_elem_of_bind. destruct (String.eqb _ _); [|by apply not_elem_of_nil in Hib].
  destruct (t_inbounds db !! ui_InboundID ui) as [i|] eqn:Hi; [|by apply not_elem_of_nil in Hib].
  apply list_elem_of_singleton in Hib as ->. eauto.
Qed.

Lemma bundle_of_typed u ibs :
  Forall (λ ib, Protocol_Valid (ib_Protocol ib) = true) ibs →
  ∃ body, V2Ray u ibs = Ok body ∧ bundle_for u ibs body.
Proof.
  intros Hv. pose proof (V2Ray_ok u ibs Hv) as Hr. destruct (V2Ray u ibs) as [body|] eqn:E; [|done].
  exists body. split; [done|]. destruct ibs as [|ib ibs]; [by injection E as <-|].
  intros Hp. by apply (bundle_lines_V2Ray u _ body).
Qed.

Lemma SubscriptionByToken_run token (w : World) :
  UserService.SubscriptionByToken token w =
  if negb (text_in token) then (w_tick w, Err invalid_text) else
  match find_user (λ u, String.eqb (u_SubToken u) token) (w_db w) with
  | Some u => (w_tick (w_tick w),
      Ok (UserService.mkSubscription u (inbounds_of_user (u_ID u) (w_db w))))
  | None => (w_tick w, Err ErrNotFound)
  end.
Proof.
  unfold UserService.SubscriptionByToken. unfold bind at 1. rewrite GetUserBySubToken_run.
  destruct (text_in token); [|done]. cbn [negb]. destruct (find_user _ _) as [u|]; [|done].
  unfold ListInboundsForUser, queryInbounds, map_err, bind. rewrite exec_quiet. cbn [select].
  by destruct w.
Qed.

(** The setters of handleSubscription never overwrite the usage header. *)
Lemma userinfo_header userinfo u :
  setSubHeaders sv userinfo u !! "Subscription-Userinfo" = Some userinfo.
Proof.
  unfold setSubHeaders. cbv zeta. rewrite !lookup_insert_ne by done.
  by case_bool_decide; rewrite ?lookup_insert_ne, ?lookup_insert_eq.
Qed.

(** C19 (subscriptions): over a database whose inbounds are typed, as in every
    reachable state, the link of a user, whatever the user's status, is
    answered with the usage header.  A client that asks for Clash gets the YAML
    of the configuration with one proxy per assigned inbound, in order (or the
    encoder's error).  Any other client gets 200 and a body that decodes to
    exactly one share link per assigned inbound, in order, provided no
    shadowsocks inbound has a line break in its host; a user without inbounds
    gets an empty body.  Any other token answers 404, or 500 when PostgreSQL
    cannot take it for a text; the database is only read. *)
Theorem subscription_served r (w : World) :
  db_ok (w_db w) → db_typed (w_db w) →
  let out := handleSubscription J sv r w in
  w_db out.1 = w_db w ∧
  (text_in (rq_URLParam r "token") = false → ∃ rs, out.2 = Ok rs ∧ rs_Status rs = 500) ∧
  (text_in (rq_URLParam r "token") = true →
   (∀ id u, t_users (w_db w) !! id = Some u → u_SubToken u ≠ rq_URLParam r "token") →
     out.2 = Ok (writeJSON 404 (ErrorBody "not_found" (Error ErrNotFound)))) ∧
  (text_in (rq_URLParam r "token") = true →
   ∀ id u, t_users (w_db w) !! id = Some u → u_SubToken u = rq_URLParam r "token" →
     let ibs := inbounds_of_user (u_ID u) (w_db w) in
     ∃ rs, out.2 = Ok rs ∧ rs_Header rs !! "Subscription-Userinfo" = Some (UserInfoHeader u) ∧
       (wants_clash r →
          cc_Proxies (clash_config u ibs) = clashProxyFor u <$> ibs ∧
          match yaml_Marshal J (clash_config u ibs) with
          | Ok body => rs_Status rs = 200 ∧ rs_Body rs = Text body ∧
              rs_Header rs !! "Content-Type" = Some "text/yaml; charset=utf-8"
          | Err e => rs_Status rs = rs_Status (writeError e) ∧ rs_Body rs = rs_Body (writeError e)
          end) ∧
       (¬ wants_clash r → ∃ body, rs_Status rs = 200 ∧ rs_Body rs = Text body ∧
          rs_Header rs !! "Content-Type" = Some "text/plain; charset=utf-8" ∧
          bundle_for u ibs body)).
Proof.
  intros Hok Hty out. subst out. unfold handleSubscription, respond, bind, attempt.
  rewrite SubscriptionByToken_run. split_and!.
  - destruct (negb _); [done|]. by destruct (find_user _ _).
  - intros ->. eexists. split; reflexivity.
  - intros -> Hno. cbn [negb]. destruct (find_user _ _) as [u|] eqn:Hf; [|done].
    apply head_filter_Some in Hf as (id & Hid & Heq%String.eqb_eq). by destruct (Hno _ _ Hid).
  - intros Hti j u Hu Htok. cbv zeta. rewrite Hti. cbn [negb]. rewrite <- Htok, (token_owner _ j) by done.
    set (ibs := inbounds_of_user _ _). cbn [ret snd]. pose proof (wants_clash_format r) as Hw.
    cbv zeta in Hw. destruct (String.eqb _ "clash").
    + unfold RenderClash, Clash. cbn [UserService.sub_User UserService.sub_Inbounds]. fold ibs.
      destruct (yaml_Marshal J _) as [body|e]; (eexists; split; [reflexivity|]); (split; [|split]);
        try (intros []; by apply Hw).
      * cbn [rs_Header]. rewrite lookup_insert_ne by done. apply userinfo_header.
      * intros _. split_and!; try done. cbn [rs_Header]. by rewrite lookup_insert_eq.
      * cbn [with_headers rs_Header]. apply lookup_union_Some_raw. right. split; [|apply userinfo_header].
        unfold writeError. by destruct (error_status e).
      * intros _. by split_and!.
    + destruct (bundle_of_typed u ibs) as (body & Hv & Hb).
      { apply Forall_forall. intros ib (k & Hk)%inbounds_of_user_stored.
        by apply (it_protocol ib), (dt_inbounds _ Hty _ _ Hk). }
      unfold RenderV2Ray. cbn [UserService.sub_User UserService.sub_Inbounds]. fold ibs. rewrite Hv.
      eexists. split; [reflexivity|]. split; [|split].
      * cbn [rs_Header]. rewrite lookup_insert_ne by done. apply userinfo_header.
      * intros Hc%Hw. done.
      * intros _. exists body. split_and!; try done. cbn [rs_Header]. by rewrite lookup_insert_eq.
Qed.

(** ** Pages *)

(** The filter of a listing request. *)
Definition list_filter (r : Request) (per_page offset : Z) : UserFilter :=
  mkUserFilter (rq_Query r "status") (rq_Query r "plan_id") (rq_Query r "q") per_page offset.

(** C39 (paging): a page number and size are always in range, and the database
    is only read.  A page of the user list holds the users that match, newest
    first, from its offset on and up to that many, next to the exact total.
    Refused, with 500, are exactly the requests whose plan_id is not a UUID,
    whose status or query PostgreSQL cannot take for a text, and those for a
    page so far out that its offset, wrapped to 64 bits, is negative. *)
Theorem list_users_page r (w : World) :
  let '(page, per_page, offset) := paging r in
  let f := list_filter r per_page offset in
  let out := handleListUsers sv r w in
  1 ≤ page ∧ 1 ≤ per_page ≤ 200 ∧ offset = int64 ((page - 1) * per_page) ∧ w_db out.1 = w_db w ∧
  if negb (forallb text_in (text_params f)) then ∃ rs, out.2 = Ok rs ∧ rs_Status rs = 500 else
  match uuid_ref (t_plans (w_db w)) (plan_param f) with
  | Ok plan =>
      if bool_decide (offset < 0) then ∃ rs, out.2 = Ok rs ∧ rs_Status rs = 500
      else
        let found := by_created (λ u, - u_CreatedAt u) (matching_users plan f (w_db w)) in
        let users := take (Z.to_nat per_page) (drop (Z.to_nat offset) found) in
        let total := Z.of_nat (length found) in
        out.2 = Ok (writeJSON 200 (JUsers (render_user sv <$> users) total page per_page)) ∧
        Z.of_nat (length users) = Z.max 0 (Z.min per_page (total - offset))
  | Err _ => uuid_in (rq_Query r "plan_id") = None ∧ ∃ rs, out.2 = Ok rs ∧ rs_Status rs = 500
  end.
Proof.
  destruct (paging r) as [[page per_page] offset] eqn:Hp.
  assert (1 ≤ page ∧ 1 ≤ per_page ≤ 200 ∧ offset = int64 ((page - 1) * per_page)) as (Hpage & Hper & Hoff).
  { revert Hp. unfold paging. cbv zeta.
    destruct (bool_decide ((Atoi _).1 < 1)) eqn:H1, (bool_decide _ || bool_decide _) eqn:H2;
      intros [= <- <- <-]; rewrite ?bool_decide_eq_false in H1;
      rewrite ?orb_false_iff, ?bool_decide_eq_false in H2; lia. }
  unfold handleListUsers. rewrite Hp. cbv zeta. unfold respond, bind, attempt, UserService.List.
  fold (list_filter r per_page offset). set (f := list_filter _ _ _). rewrite ListUsers_run.
  change (f_Offset f) with offset. change (f_Limit f) with per_page.
  rewrite (bool_decide_false (per_page ≤ 0)) by lia.
  do 3 (split; [lia|]). split.
  { destruct (negb _); [done|]. destruct (uuid_ref _ _); [by destruct (bool_decide (offset < 0))|done]. }
  destruct (negb _); [eexists; split; reflexivity|].
  destruct (uuid_ref _ _) as [plan|e] eqn:Hpl.
  - destruct (bool_decide (offset < 0)) eqn:Hneg; [eexists; split; reflexivity|].
    apply bool_decide_eq_false in Hneg. cbv zeta. split; [|rewrite length_take, length_drop; lia].
    assert (length (by_created (λ u, - u_CreatedAt u) (matching_users plan f (w_db w))) =
      length (matching_users plan f (w_db w))) as -> by apply Permutation_length, merge_sort_Permutation.
    done.
  - split; [|eexists; split; reflexivity].
    revert Hpl. unfold plan_param. cbn [f_PlanID f list_filter].
    destruct (String.eqb _ ""); [done|]. cbn. destruct (uuid_key _ _) eqn:Hk; [done|].
    intros _. by apply uuid_key_Err in Hk as (_ & ? & _).
Qed.
End Gateway.
