(* ===== verification/Authority.v ===== *)
(** * Who may change what

    Users, plans, nodes, inbounds, assignments and keys change on behalf of an
    administrator or of the billing provider.  Everything else the process does
    (serving subscribers, probing, collecting, reconciling, sweeping, refusing
    requests) moves the tables only as [moved] says: usage counters grow, an
    active user with a limit may be suspended and one with an expiry may
    expire, health and synchronisation columns follow the nodes, tombstones of
    assignments are dropped once the node has let go, usage records come and
    are pruned; who else is assigned to what, and every setting, stays.  In
    particular a disabled user stays off, and a key made by the gen-key command
    stays good, until somebody authorised acts. *)

From stdpp Require Import base gmap strings list fin_maps sets relations.
From Stdlib Require Import ZArith Lia.
From S2P Require Import Prelude Domain Database World StoreBase StoreUsers StoreAssignments StoreTraffic StoreAdmin.
From S2P Require Import GoStd Config RateLimit Xray Worker ServiceUsers ServiceAdmin ServiceBilling Httpapi Router.
From S2P Require Import System Tables Access Startup Gateway.
Import Httpapi.
Local Open Scope Z_scope.

(** ** Settings, as opposed to observations *)

(** A user without status, counters and modification time. *)
Definition user_core (u : User) : User := u_set_UpdatedAt 0 (u_set_Status "" (u_set_Used 0 0 u)).

(** A node without what the health check writes. *)
Definition node_core (n : Node) : Node :=
  mkNode (n_ID n) (n_Name n) (n_APIAddress n) (n_APIPort n) (n_APITLS n) (n_APITLSServerName n)
    (n_APITLSInsecure n) (n_APICACert n) (n_APIClientCert n) (n_APIClientKey n)
    (n_APIHasClientKey n) "" None "" (n_CreatedAt n) 0.

(** A key without the time of its last use. *)
Definition key_core (k : APIKey) : APIKey :=
  mkAPIKey (k_ID k) (k_Name k) (k_KeyHash k) (k_CreatedAt k) None (k_RevokedAt k).

(** The moves of a status that need nobody's authority. *)
Definition status_moved (u u' : User) : Prop :=
  u_Status u' = u_Status u ∨
  (u_Status u = UserStatusActive ∧
   ((u_Status u' = UserStatusSuspended ∧ is_Some (u_DataLimitBytes u)) ∨
    (u_Status u' = UserStatusExpired ∧ is_Some (u_ExpiresAt u)))).

Definition user_moved (u u' : User) : Prop := user_core u' = user_core u ∧ status_moved u u'.

(** An assignment may be marked, but neither tombstoned nor revived; a tombstone
    may go; none appears. *)
Definition row_moved (o o' : option UserInbound) : Prop :=
  match o, o' with
  | None, None => True
  | None, Some _ => False
  | Some ui, None => ui_SyncStatus ui = SyncRemoving
  | Some ui, Some ui' =>
      ui_key ui' = ui_key ui ∧ (ui_SyncStatus ui' = SyncRemoving ↔ ui_SyncStatus ui = SyncRemoving)
  end.

(** A usage record may be added, under a fresh number, or pruned; none is
    altered. *)
Definition snapshots_moved (db db' : DB) : Prop :=
  t_snapshot_seq db ≤ t_snapshot_seq db' ∧
  ∀ s, s ∈ t_traffic_snapshots db' → s ∈ t_traffic_snapshots db ∨ t_snapshot_seq db ≤ ts_ID s.

(** The assignment exists and is not on its way out. *)
Definition standing (db : DB) (k : string * string) : Prop :=
  ∃ ui, t_user_inbounds db !! k = Some ui ∧ ui_SyncStatus ui ≠ SyncRemoving.

Record moved (db db' : DB) : Prop := {
  mv_users : ∀ id, option_Forall2 user_moved (t_users db !! id) (t_users db' !! id);
  mv_rows : ∀ k, row_moved (t_user_inbounds db !! k) (t_user_inbounds db' !! k);
  mv_snapshots : snapshots_moved db db';
  mv_nodes : node_core <$> t_nodes db' = node_core <$> t_nodes db;
  mv_inbounds : t_inbounds db' = t_inbounds db;
  mv_plans : t_plans db' = t_plans db;
  mv_keys : key_core <$> t_api_keys db' = key_core <$> t_api_keys db;
  mv_events : t_webhook_events db' = t_webhook_events db
}.

Lemma user_moved_refl u : user_moved u u.
Proof. split; [done|by left]. Qed.
Lemma user_moved_trans u1 u2 u3 : user_moved u1 u2 → user_moved u2 u3 → user_moved u1 u3.
Proof.
  intros [C1 S1] [C2 S2]. split; [congruence|].
  assert (u_DataLimitBytes u2 = u_DataLimitBytes u1 ∧ u_ExpiresAt u2 = u_ExpiresAt u1) as [Hl He]
    by (injection C1; auto).
  unfold status_moved in *. rewrite Hl, He in S2.
  assert (UserStatusActive ≠ UserStatusSuspended ∧ UserStatusActive ≠ UserStatusExpired) by done.
  destruct S1 as [E1|(A1 & [[E1 ?]|[E1 ?]])], S2 as [E2|(A2 & [[E2 ?]|[E2 ?]])];
    rewrite ?E1 in *; first [by left|right; by auto|naive_solver congruence].
Qed.

Lemma row_moved_refl o : row_moved o o.
Proof. by destruct o. Qed.
Lemma row_moved_trans o1 o2 o3 : row_moved o1 o2 → row_moved o2 o3 → row_moved o1 o3.
Proof.
  destruct o1 as [a|], o2 as [b|], o3 as [c|]; cbn; try tauto.
  intros [K1 S1] [K2 S2]. split; [by rewrite K2|tauto].
Qed.
Lemma snapshots_moved_refl db : snapshots_moved db db.
Proof. split; [done|auto]. Qed.
Lemma snapshots_same db db' :
  t_snapshot_seq db' = t_snapshot_seq db → t_traffic_snapshots db' = t_traffic_snapshots db →
  snapshots_moved db db'.
Proof. intros Hq Ht. unfold snapshots_moved. rewrite Hq, Ht. split; [done|auto]. Qed.
Lemma snapshots_moved_trans db1 db2 db3 :
  snapshots_moved db1 db2 → snapshots_moved db2 db3 → snapshots_moved db1 db3.
Proof.
  intros [L1 H1] [L2 H2]. split; [lia|]. intros s [Hs|Hs]%H2; [by apply H1|right; lia].
Qed.

(** Who is assigned to what stays. *)
Lemma mv_standing db db' : moved db db' → ∀ k, standing db' k ↔ standing db k.
Proof.
  intros Hm k. unfold standing. pose proof (mv_rows _ _ Hm k) as Hk. unfold row_moved in Hk.
  destruct (t_user_inbounds db !! k) as [a|], (t_user_inbounds db' !! k) as [b|]; naive_solver.
Qed.

Lemma users_moved_refl (users : gmap string User) id : option_Forall2 user_moved (users !! id) (users !! id).
Proof. destruct (users !! id); constructor. apply user_moved_refl. Qed.

#[export] Instance moved_preorder : PreOrder moved.
Proof.
  split.
  - intros db. constructor; try done; intros; auto using users_moved_refl, row_moved_refl, snapshots_moved_refl.
  - intros db1 db2 db3 [] []. constructor; try congruence.
    + intros id. specialize (mv_users0 id). specialize (mv_users1 id).
      destruct mv_users0; inversion mv_users1; subst; constructor. by eapply user_moved_trans.
    + intros k. by eapply row_moved_trans.
    + by eapply snapshots_moved_trans.
Qed.

(** ** Statements of the background *)

(** Tables other than those that move. *)
Lemma moved_users db users :
  (∀ id, option_Forall2 user_moved (t_users db !! id) (users !! id)) → moved db (set_users users db).
Proof. intros Hu. constructor; try done; [intros; apply row_moved_refl|by apply snapshots_same]. Qed.

Lemma moved_users_fmap db f :
  (∀ id u, t_users db !! id = Some u → user_moved u (f u)) → moved db (set_users (f <$> t_users db) db).
Proof.
  intros Hf. apply moved_users. intros id. rewrite lookup_fmap.
  destruct (t_users db !! id) as [u|] eqn:Hu; constructor. by eapply Hf.
Qed.

Lemma moved_user_insert db id u u' :
  t_users db !! id = Some u → user_moved u u' → moved db (set_users (<[id := u']> (t_users db)) db).
Proof.
  intros Hu Hm. apply moved_users. intros j. destruct (decide (j = id)) as [->|Hne].
  - rewrite Hu, lookup_insert_eq. by constructor.
  - rewrite lookup_insert_ne by done. apply users_moved_refl.
Qed.

Lemma moved_same_tables db db' :
  t_users db' = t_users db → t_user_inbounds db' = t_user_inbounds db →
  node_core <$> t_nodes db' = node_core <$> t_nodes db → t_inbounds db' = t_inbounds db →
  t_plans db' = t_plans db → key_core <$> t_api_keys db' = key_core <$> t_api_keys db →
  t_webhook_events db' = t_webhook_events db → snapshots_moved db db' → moved db db'.
Proof.
  intros Hu Ha. constructor; try done.
  - rewrite Hu. apply users_moved_refl.
  - intros k. rewrite Ha. apply row_moved_refl.
Qed.

Lemma fmap_insert_core {A B} (f : A → B) (m : gmap string A) i x y :
  m !! i = Some x → f y = f x → f <$> <[i := y]> m = f <$> m.
Proof.
  intros Hx Hf. rewrite fmap_insert, Hf. apply insert_id. by rewrite lookup_fmap, Hx.
Qed.

Lemma sql_set_node_health_moved id s e t now db db' z :
  sql_set_node_health id s e t now db = Ok (db', z) → moved db db'.
Proof.
  unfold sql_set_node_health. destruct (t_nodes db !! id) as [n|] eqn:Hn; [|by intros [= <- _]].
  intros [= <- _]. apply moved_same_tables; try done; [|by apply snapshots_same].
  cbn. by eapply fmap_insert_core.
Qed.

Lemma sql_add_usage_moved id up down now db db' a :
  sql_add_usage id up down now db = Ok (db', a) → moved db db'.
Proof.
  unfold sql_add_usage. destruct (t_users db !! id) as [u|] eqn:Hu; [|by intros [= <- _]].
  cbv zeta. case_match; [|done]. intros [= <- _]. eapply moved_user_insert; [done|].
  split; [done|by left].
Qed.

Lemma quota_crossed_moved now u :
  user_moved u (if quota_crossed u then u_set_UpdatedAt now (u_set_Status UserStatusSuspended u) else u).
Proof.
  destruct (quota_crossed u) eqn:Hq; [|apply user_moved_refl]. split; [done|].
  unfold quota_crossed in Hq. apply andb_true_iff in Hq as [Ha%String.eqb_eq Hl].
  right. split; [done|]. left. split; [done|]. by destruct (u_DataLimitBytes u).
Qed.
Lemma due_moved now dbnow u :
  user_moved u (if due now u then u_set_UpdatedAt dbnow (u_set_Status UserStatusExpired u) else u).
Proof.
  destruct (due now u) eqn:Hd; [|apply user_moved_refl]. split; [done|].
  unfold due in Hd. apply andb_true_iff in Hd as [Ha%String.eqb_eq He].
  right. split; [done|]. right. split; [done|]. by destruct (u_ExpiresAt u).
Qed.

(** Assignments: marking a wanted one, dropping a tombstone. *)
Lemma moved_assignments db uis :
  (∀ k, row_moved (t_user_inbounds db !! k) (uis !! k)) → moved db (set_user_inbounds uis db).
Proof.
  intros Hk. constructor; try done; [intros; apply users_moved_refl|by apply snapshots_same].
Qed.

Lemma mark_moved u i s e t now db db' a :
  sql_mark_synced u i s e t now db = Ok (db', a) → s ≠ SyncRemoving → standing db (u, i) →
  moved db db'.
Proof.
  intros [= <- _] Hs (ui & Hui & Hn). apply moved_assignments. intros k. rewrite lookup_alter.
  case_decide as Hd; [subst k|apply row_moved_refl]. rewrite Hui. cbn. by split.
Qed.
Lemma unassign_moved u i now db db' a :
  sql_delete_assignment u i now db = Ok (db', a) → ¬ standing db (u, i) → moved db db'.
Proof.
  intros [= <- _] Hk. apply moved_assignments. intros k.
  destruct (decide (k = (u, i))) as [->|Hne]; [|rewrite lookup_delete_ne by done; apply row_moved_refl].
  rewrite lookup_delete_eq. unfold standing in Hk. destruct (t_user_inbounds db !! (u, i)) as [ui|]; [|done].
  cbn. destruct (decide (ui_SyncStatus ui = SyncRemoving)); [done|]. destruct Hk. by exists ui.
Qed.

(** ** Moves from a given state on *)

(** The tables satisfy the schema and have moved since [db0]. *)
Definition since (db0 db : DB) : Prop := db_ok db ∧ moved db0 db.

Lemma since_keeps {A} db0 (q : Sql A) :
  sql_ok q → (∀ now db db' a, q now db = Ok (db', a) → moved db db') → sql_keeps (since db0) q.
Proof.
  intros Hok Hq now db db' a [Hdb Hm] E. split; [by eapply Hok|]. etrans; [done|by eapply Hq].
Qed.

(** Whether a row of user_inbounds is wanted is the same in all of them. *)
Lemma since_row db0 db ui :
  since db0 db → has_row ui db →
  standing db0 (ui_UserID ui, ui_InboundID ui) ↔ ui_SyncStatus ui ≠ SyncRemoving.
Proof.
  intros [Hok Hm] [k Hk]. rewrite <- (mv_standing _ _ Hm).
  pose proof (ok_ui_keyed _ Hok _ _ Hk) as Hkey. unfold ui_key in Hkey. rewrite Hkey.
  unfold standing. rewrite Hk. naive_solver.
Qed.

#[export] Instance since_background db0 : Background (since db0).
Proof.
  constructor.
  - intros db ui s e t Hdb Hui Hn Hs now db1 db2 a [Hok Hm] E.
    pose proof (proj2 (since_row _ _ _ Hdb Hui) Hn) as Hk.
    split; [by eapply sql_mark_synced_ok|]. etrans; [done|].
    eapply mark_moved; [done|by destruct Hs as [-> | ->]|by apply (mv_standing _ _ Hm)].
  - intros db ui Hdb Hui Hr now db1 db2 a [Hok Hm] E.
    assert (¬ standing db0 (ui_UserID ui, ui_InboundID ui)) as Hk
      by (intros Hk%(since_row _ _ _ Hdb Hui); done).
    split; [by eapply sql_delete_assignment_ok|]. etrans; [done|].
    eapply unassign_moved; [done|]. by rewrite (mv_standing _ _ Hm).
  - intros. apply since_keeps; [apply sql_set_node_health_ok|]. intros *. apply sql_set_node_health_moved.
  - intros. apply since_keeps; [apply sql_insert_snapshot_ok|]. intros now db db' a.
    unfold sql_insert_snapshot. repeat case_match; try done. intros [= <- _].
    apply moved_same_tables; try done. split; [cbn; lia|].
    intros s0 [Hs|Hs%list_elem_of_singleton]%elem_of_app; [by left|right]. by subst s0.
  - intros. apply since_keeps; [apply sql_add_usage_ok|]. intros *. apply sql_add_usage_moved.
  - apply since_keeps; [apply sql_suspend_over_quota_ok|]. intros now db db' a.
    unfold sql_suspend_over_quota. case_match; intros [= <- _].
    apply moved_users_fmap. intros id u _. apply quota_crossed_moved.
  - intros now. apply since_keeps.
    + intros t db db' ids Hok [= <- _]. by apply db_ok_fmap_users; [apply benign_if|].
    + intros t db db' ids [= <- _]. apply moved_users_fmap. intros id u _. apply due_moved.
  - intros before. apply since_keeps.
    + intros now db db' n Hok. unfold sql_prune. case_match; [|done]. intros [= <- _].
      apply db_ok_set_snapshots; [done|]. by apply Forall_filter_keep, db_ok_snapshots.
    + intros now db db' n. unfold sql_prune. case_match; [|done]. intros [= <- _].
      apply moved_same_tables; try done. split; [done|]. intros s0 [_ Hs]%list_elem_of_filter. by left.
Qed.

(** Recording that a key was used. *)
Lemma touch_since db0 h : sql_keeps (since db0) (sql_touch_api_key h).
Proof.
  apply since_keeps; [apply sql_touch_api_key_ok|]. intros now db db' a [= <- _].
  apply moved_same_tables; try done; [|by apply snapshots_same]. cbn. rewrite <- map_fmap_compose. apply map_fmap_ext.
  intros i k _. cbn. by destruct (live_key h k).
Qed.
#[export] Hint Resolve touch_since : tables.

(** ** The system *)

Section Authority.
Context {P : Platform} `{!Alone P} (J : Codecs) (sv : Server).
Context (prometheus_text : gmap (string * list string) Z → string).
Context {Limiter : Type} (NewLimiter : Z → Limiter) (Allow : Limiter → Time → Limiter * bool).

Abbreviation Router := (Router J sv prometheus_text NewLimiter Allow).
Abbreviation step := (step J sv prometheus_text NewLimiter Allow).

(** A request the server has reason to act upon: a valid key on an
    administrative route, or a signed event. *)
Definition authorised (w : World) (rt : route) (r : Request) : Prop :=
  match group_of rt with
  | Admin => (APIKeyService.Verify (extractKey r) (sv_bootstrapKey sv) w).2 = Ok true
  | _ => rt = RPostBillingWebhook ∧ ∃ body, signed sv r body
  end.

(** The state after a request. *)
Definition serve (rt : route) (r : Request) (s : @Sys P Limiter) : Sys :=
  let out := Router (s_limiter s) rt r (s_world s) in
  mkSys out.1 (match out.2 with Ok (l', _) => l' | Err _ => s_limiter s end)
    (s_probed s) (s_exited s).

Definition authorised_step (s s' : @Sys P Limiter) : Prop :=
  ∃ rt r, authorised (s_world s) rt r ∧ s' = serve rt r s.

(** Serving subscribers only reads. *)
Lemma public_keeps db0 rt r :
  group_of rt ≠ Admin → rt ≠ RPostBillingWebhook →
  preserves (on_tables (since db0)) (handler J sv prometheus_text rt r).
Proof.
  intros Hg Hw. destruct rt; try done; cbn [handler]; autounfold with handlers; tables.
Qed.

Lemma unsigned_keeps db0 r :
  (∀ body, ¬ signed sv r body) →
  preserves (on_tables (since db0)) (handler J sv prometheus_text RPostBillingWebhook r).
Proof.
  intros Hno w Hw. destruct (handleBillingWebhook_unsigned J sv r w Hno) as (w' & rs & E & _ & Hs & _).
  cbn [handler]. rewrite E. unfold on_tables. cbn. by rewrite Hs.
Qed.

Lemma limited_keeps I l next r :
  (∀ w, on_tables I w → on_tables I (next r w).1) →
  preserves (on_tables I) (rateLimitMiddleware NewLimiter Allow l next r).
Proof.
  intros Hn. assert (preserves (on_tables I) (next r)) by done.
  unfold rateLimitMiddleware. go_inv.
Qed.

Lemma signed_dec r : (∃ body, signed sv r body) ∨ ∀ body, ¬ signed sv r body.
Proof.
  unfold signed. destruct (rq_Body r) as [body|e]; [|right; by intros ? (? & _)].
  destruct (decide (Z.of_nat (String.length body) ≤ maxWebhookBody)) as [H1|H1];
    [|right; intros b ([= <-] & ? & _); done].
  destruct (decide (sv_billingSecret sv = "")) as [H2|H2]; [right; by intros b (_ & _ & ? & _)|].
  destruct (decide (rq_Header r "X-Webhook-Signature" = "")) as [H3|H3];
    [right; by intros b (_ & _ & _ & _ & ?)|].
  destruct (decide (rq_Header r "X-Webhook-Signature" =
                    hex_Encode (hmac_sha256 (sv_billingSecret sv) body))) as [H4|H4];
    [left; by exists body|right; intros b ([= <-] & _ & _ & ? & _); done].
Qed.

(** What a request without authority leaves behind. *)
Lemma Router_unauthorised db0 l rt r w :
  on_tables (since db0) w → authorised w rt r ∨ on_tables (since db0) (Router l rt r w).1.
Proof.
  intros Hw. unfold authorised, Router.Router.
  assert (∀ rs, preserves (on_tables (since db0)) (requestLogger r rs)) as Hlog
    by (intros; unfold requestLogger; go_inv).
  destruct (group_of rt) eqn:Hg.
  - right. revert w Hw. apply preserves_bind; [|go_inv]. apply preserves_bind; [|go_inv].
    apply public_keeps; [by rewrite Hg|by intros ->].
  - destruct (decide (rt = RPostBillingWebhook)) as [->|Hne].
    + destruct (signed_dec r) as [Hs|Hno]; [left; by split|right].
      revert w Hw. apply preserves_bind; [|go_inv]. by apply limited_keeps, unsigned_keeps.
    + right. revert w Hw. apply preserves_bind; [|go_inv].
      apply limited_keeps, public_keeps; [by rewrite Hg|done].
  - unfold authMiddleware.
    assert (preserves (on_tables (since db0)) (APIKeyService.Verify (extractKey r) (sv_bootstrapKey sv)))
      as Hv by tables.
    specialize (Hv w Hw). destruct (APIKeyService.Verify _ _ w) as [w1 [[]|e]] eqn:E; [by left|right..].
    + unfold bind. rewrite E. by apply Hlog.
    + unfold bind. by rewrite E.
Qed.

Lemma step_moved cfg s s' db0 :
  step cfg s s' → on_tables (since db0) (s_world s) →
  authorised_step s s' ∨ on_tables (since db0) (s_world s').
Proof.
  intros Hstep Hw. destruct Hstep; cbn in *.
  - destruct (Router_unauthorised db0 l rt r w Hw) as [Ha|Ha]; [left|by right]. by exists rt, r.
  - right. by apply checkHealth_keeps; [apply _..|].
  - right. pose proof (run_turn_keeps (since db0) a s w Hw) as Hk.
    match goal with H : run_turn _ _ _ = _ |- _ => rewrite H in Hk end. done.
  - right. by apply expiry_sweep_keeps; [apply _..|].
  - right. by apply prune_keeps; [apply _..|].
  - right. by apply Start_keeps; [apply _..|].
  - right. by apply Stop_keeps; [apply _..|].
Qed.

Lemma steps_moved cfg s s' db0 :
  rtc (step cfg) s s' → on_tables (since db0) (s_world s) →
  on_tables (since db0) (s_world s') ∨
  ∃ s1 s2, on_tables (since db0) (s_world s1) ∧ authorised_step s1 s2 ∧ rtc (step cfg) s2 s'.
Proof.
  induction 1 as [s|s s2 s' Hstep Hsteps IH]; intros Hw; [by left|].
  destruct (step_moved _ _ _ _ Hstep Hw) as [Ha|Hw2]; [right; by exists s, s2|by apply IH].
Qed.


End Authority.

(** ** The keys of the command line *)

Section GenKey.
Context {P : Platform} `{!Quiet P} (J : Codecs) (sv : Server).
Context (prometheus_text : gmap (string * list string) Z → string).
Context {Limiter : Type} (NewLimiter : Z → Limiter) (Allow : Limiter → Time → Limiter * bool).

Abbreviation step := (step J sv prometheus_text NewLimiter Allow).

#[local] Instance quiet_respects : Rely P.
Proof. intros k db. by rewrite quiet_interfere. Qed.

(** A stored key is admitted as long as the tables only move. *)
Lemma moved_admitted key bootstrap db db' :
  moved db db' → admitted key bootstrap db → admitted key bootstrap db'.
Proof.
  intros Hm [Hne [Hb|(id & k & Hk & Hh & Hr)]]; (split; [done|]); [by left|right].
  pose proof (f_equal (lookup id) (mv_keys _ _ Hm)) as E. rewrite !lookup_fmap, Hk in E.
  destruct (t_api_keys db' !! id) as [k'|] eqn:Hk'; [|done]. injection E as E1 E2 E3 E4 E5.
  exists id, k'. split; [done|]. split; congruence.
Qed.

End GenKey.
