(* ===== verification/Refusals.v ===== *)
(** * Refused requests have no effect (src/internal/httpapi, src/internal/service)

    When an administrative request is answered with a client error (400, 401,
    404 or 409), none of the steps the service had taken by then has left a
    trace in the tables, although most operations are several statements
    outside a transaction: what can be refused is refused before the first
    write, and what follows the first write is not refused. *)

From stdpp Require Import base gmap strings list fin_maps sets.
From Stdlib Require Import ZArith Lia.
From S2P Require Import Prelude Domain Database World StoreBase StoreUsers StoreAssignments StoreTraffic StoreAdmin.
From S2P Require Import GoStd Config RateLimit Xray Worker ServiceUsers ServiceAdmin ServiceBilling Httpapi Router.
From S2P Require Import System Tables Runs Nodes Lifecycle Reads Access Enforcement Gateway Authority.
Import Httpapi.
Local Open Scope Z_scope.

(** The errors writeError turns into 4xx. *)
Definition client_error (e : error) : bool := negb (Z.eqb (error_status e).1 500).

Section Refusals.
Context {P : Platform} `{!Quiet P}.

(** In [w], a client error of [m] leaves the tables as they were. *)
Definition harmless {A} (m : IO A) (w : World) : Prop :=
  db_ok (w_db w) → ∀ w' e, m w = (w', Err e) → client_error e = true → w_db w' = w_db w.

(** In [w], [m] fails with no client error. *)
Definition unrefused {A} (m : IO A) (w : World) : Prop :=
  ∀ w' e, m w = (w', Err e) → client_error e = false.

Lemma harmless_ret {A} (a : A) w : harmless (ret a) w.
Proof. intros _ w' e E. injection E as _ E. discriminate E. Qed.
Lemma harmless_throw {A} e w : harmless (throw (A := A) e) w.
Proof. by intros _ w' e' [= <- _]. Qed.
Lemma unrefused_ok {A} (m : IO A) w : is_ok (m w).2 = true → unrefused m w.
Proof. intros H w' e E. by rewrite E in H. Qed.
Lemma unrefused_harmless {A} (m : IO A) w : unrefused m w → harmless m w.
Proof. intros H _ w' e E Hc. by rewrite (H _ _ E) in Hc. Qed.

Lemma unrefused_harmless' {A} (m : IO A) w : (db_ok (w_db w) → unrefused m w) → harmless m w.
Proof. intros H Hok. by apply unrefused_harmless; [apply H|]. Qed.

(** [m] does not write. *)
Definition read_only {A} (m : IO A) : Prop := ∀ w, w_db (m w).1 = w_db w.

Lemma harmless_read {A} (m : IO A) w : read_only m → harmless m w.
Proof. intros Hm _ w' e E _. specialize (Hm w). by rewrite E in Hm. Qed.

(** First read, then the rest. *)
Lemma read_then {A B} (m : IO A) (k : A → IO B) w :
  read_only m →
  (∀ w' a, m w = (w', Ok a) → w_db w' = w_db w → harmless (k a) w') → harmless (bind m k) w.
Proof.
  intros Hm Hk Hok w' e. specialize (Hm w). unfold bind. destruct (m w) as [w1 [a|e1]] eqn:E; cbn in Hm.
  - intros E2 Hc. rewrite <- Hm. refine (Hk _ _ eq_refl Hm _ _ _ E2 Hc). by rewrite Hm.
  - by intros [= <- <-].
Qed.

(** First write, then what is not refused. *)
Lemma write_then {A B} (m : IO A) (k : A → IO B) w :
  harmless m w → (∀ w' a, db_ok (w_db w) → m w = (w', Ok a) → unrefused (k a) w') →
  harmless (bind m k) w.
Proof.
  intros Hm Hk Hok w' e. unfold bind. destruct (m w) as [w1 [a|e1]] eqn:E.
  - intros E2 Hc. by rewrite (Hk _ _ Hok eq_refl _ _ E2) in Hc.
  - intros [= <- <-]. by apply Hm.
Qed.

Lemma unrefused_bind {A B} (m : IO A) (k : A → IO B) w :
  unrefused m w → (∀ w' a, m w = (w', Ok a) → unrefused (k a) w') → unrefused (bind m k) w.
Proof.
  intros Hm Hk w' e. unfold bind. destruct (m w) as [w1 [a|e1]] eqn:E; [by apply (Hk _ _ eq_refl)|].
  intros [= _ <-]. by eapply Hm.
Qed.

(** ** Statements *)

Lemma harmless_exec {A} (q : Sql A) f w : harmless (map_err f (exec q)) w.
Proof.
  intros _ w' e. unfold map_err. rewrite exec_quiet.
  destruct (q _ _) as [[db a]|x]; [done|]. by intros [= <- _].
Qed.

Lemma harmless_requireRow (q : Sql Z) w :
  (∀ now db db', q now db = Ok (db', 0) → db' = db) → harmless (requireRow (exec q)) w.
Proof.
  intros Hq _ w' e. rewrite requireRow_quiet. destruct (q _ _) as [[db n]|x] eqn:E; [|by intros [= <- _]].
  case_bool_decide as Hn; [|done]. subst n. intros [= <- _] _. by apply Hq in E.
Qed.

(** Updates and deletions that find no row change nothing. *)
Ltac no_row :=
  intros now db db'; unfold by_id, with_params, sql_update_user, sql_set_user, sql_delete_user,
    sql_update_node, sql_delete_node, sql_update_inbound, sql_delete_inbound, sql_update_plan,
    sql_delete_plan, sql_revoke_api_key; cbv zeta;
  repeat case_match; intros E; try discriminate E; by injection E as <-.

Lemma UpdateUser_harmless u w : harmless (UpdateUser u) w.
Proof. apply harmless_requireRow. no_row. Qed.
Lemma SetUserStatus_harmless id s w : harmless (SetUserStatus id s) w.
Proof. apply harmless_requireRow. no_row. Qed.
Lemma ResetTraffic_harmless id w : harmless (StoreUsers.ResetTraffic id) w.
Proof. apply harmless_requireRow. no_row. Qed.
Lemma UpdateNode_harmless n w : harmless (UpdateNode n) w.
Proof. apply harmless_requireRow. no_row. Qed.
Lemma DeleteNode_harmless id w : harmless (DeleteNode id) w.
Proof. apply harmless_requireRow. no_row. Qed.
Lemma UpdateInbound_harmless ib w : harmless (StoreAdmin.UpdateInbound ib) w.
Proof. apply harmless_requireRow. no_row. Qed.
Lemma DeleteInbound_harmless id w : harmless (StoreAdmin.DeleteInbound id) w.
Proof. apply harmless_requireRow. no_row. Qed.
Lemma UpdatePlan_harmless p w : harmless (UpdatePlan p) w.
Proof. apply harmless_requireRow. no_row. Qed.
Lemma DeletePlan_harmless id w : harmless (DeletePlan id) w.
Proof. apply harmless_requireRow. no_row. Qed.
Lemma RevokeAPIKey_harmless id w : harmless (RevokeAPIKey id) w.
Proof. apply harmless_requireRow. no_row. Qed.

(** ** Reads *)

Lemma reads_read_only {A} (q : Sql A) f : reads q → read_only (map_err f (exec q)).
Proof.
  intros Hq w. unfold map_err. pose proof (exec_reads q w Hq) as H.
  by destruct (exec q w) as [w' [a|e]].
Qed.
Lemma query_row_read_only {A} (q : Sql (option A)) : reads q → read_only (query_row q).
Proof.
  intros Hq w. unfold query_row, map_err, bind. pose proof (exec_reads q w Hq) as H.
  by destruct (exec q w) as [w' [[a|]|e]].
Qed.
Lemma GetUser_reads id : read_only (GetUser id).
Proof. apply query_row_read_only. auto with reads. Qed.
Lemma GetPlan_reads id : read_only (GetPlan id).
Proof. apply query_row_read_only. auto with reads. Qed.
Lemma GetNode_reads id : read_only (GetNode id).
Proof. apply query_row_read_only. auto with reads. Qed.
Lemma GetInbound_reads id : read_only (StoreAdmin.GetInbound id).
Proof. apply query_row_read_only. auto with reads. Qed.
Lemma ListInboundsByIDs_reads ids : read_only (ListInboundsByIDs ids).
Proof. destruct ids; [done|]. apply reads_read_only. auto with reads. Qed.
Lemma targets_reads id : read_only (AssignmentTargetsForUser id).
Proof. apply reads_read_only. auto with reads. Qed.
Lemma attempt_reads {A} (m : IO A) : read_only m → read_only (attempt m).
Proof. intros Hm w. unfold attempt. specialize (Hm w). by destruct (m w). Qed.
Lemma ListUsers_reads f : read_only (ListUsers f).
Proof. intros w. rewrite ListUsers_run. destruct (negb _); [done|]. by destruct (uuid_ref _ _). Qed.
Lemma bind_reads {A B} (m : IO A) (k : A → IO B) :
  read_only m → (∀ a, read_only (k a)) → read_only (bind m k).
Proof.
  intros Hm Hk w. specialize (Hm w). unfold bind. destruct (m w) as [w1 [a|e]]; [|done].
  rewrite <- Hm. apply Hk.
Qed.
End Refusals.

Create HintDb refusals.
#[export] Hint Resolve harmless_ret harmless_throw harmless_read harmless_exec UpdateUser_harmless
  SetUserStatus_harmless ResetTraffic_harmless UpdateNode_harmless DeleteNode_harmless
  UpdateInbound_harmless DeleteInbound_harmless UpdatePlan_harmless DeletePlan_harmless
  RevokeAPIKey_harmless reads_read_only GetUser_reads GetPlan_reads GetNode_reads GetInbound_reads
  ListInboundsByIDs_reads targets_reads attempt_reads ListUsers_reads : refusals.

Section Users.
Context {P : Platform} `{!Quiet P}.
Import UserService.

#[local] Instance quiet_rely_schema : Rely P.
Proof. intros k db. by rewrite quiet_interfere. Qed.

(** The common ending is not refused when the user is there. *)
Lemma reload_unrefused id uid w u :
  row_at (t_users (w_db w)) id = Ok u → unrefused (ReconcileForUser uid ;;; GetUser id) w.
Proof.
  intros Hu. apply unrefused_ok. destruct (reload_run id uid w) as (w' & -> & _). cbn. by rewrite Hu.
Qed.

(** Nor is it after the row was written. *)
Lemma updated_row_at u w w' id u0 :
  row_at (t_users (w_db w)) id = Ok u0 → u_ID u = pg_key (t_users (w_db w)) id →
  UpdateUser u w = (w', Ok tt) → ∃ v, row_at (t_users (w_db w')) id = Ok v.
Proof.
  intros [Hk Hu0]%row_at_Ok Hid (r & Hr & _ & ->)%UpdateUser_Ok. cbn. rewrite Hid in *.
  eexists. by apply row_at_update; [|exists r].
Qed.

Lemma set_row_at id f w w' u :
  row_at (t_users (w_db w)) id = Ok u →
  requireRow (exec (by_id t_users id (λ i, sql_set_user i f))) w = (w', Ok tt) →
  row_at (t_users (w_db w')) id = Ok (f (clock (w_k w)) u).
Proof.
  intros Hu. rewrite (set_user_run _ _ _ _ Hu). intros [= <-]. apply row_at_Ok in Hu as [Hk Hu]. cbn.
  by apply row_at_update; [|exists u].
Qed.

Lemma GetUser_Ok id w w' u :
  GetUser id w = (w', Ok u) → row_at (t_users (w_db w)) id = Ok u ∧ w_db w' = w_db w.
Proof. rewrite GetUser_run. by intros [= <- ->]. Qed.

(** A row is filed under its key. *)
Lemma row_at_id db id u : db_ok db → row_at (t_users db) id = Ok u → u_ID u = pg_key (t_users db) id.
Proof. intros Hok [_ Hu]%row_at_Ok. apply (users_keyed _ (ok_users _ Hok) _ _ Hu). Qed.

Lemma unexpired_reads e : read_only (unexpired e).
Proof. by destruct e. Qed.
Lemma randToken_reads n : read_only (randToken n).
Proof. done. Qed.

Lemma setStatus_harmless id s w : harmless (setStatusAndReconcile id s) w.
Proof.
  apply write_then; [apply SetUserStatus_harmless|]. intros w' [] _ E.
  destruct (row_at (t_users (w_db w)) id) as [u|e] eqn:Hu.
  - eapply reload_unrefused. by eapply set_row_at.
  - unfold SetUserStatus in E. by rewrite (set_user_missing _ _ _ _ Hu) in E.
Qed.

Lemma Create_harmless inp w : harmless (Create inp) w.
Proof. intros Hok w' e E _. pose proof (Create_run inp w Hok) as H. by rewrite E in H. Qed.

Lemma Resume_harmless id w : harmless (Resume id) w.
Proof.
  apply read_then; [apply GetUser_reads|]. intros w1 u _ _.
  destruct (OverQuota u); [apply harmless_throw|].
  apply read_then; [apply unexpired_reads|]. intros w2 [] _ _; [apply setStatus_harmless|apply harmless_throw].
Qed.

Lemma apply_patch_ID inp u : u_ID (apply_patch inp u) = u_ID u.
Proof.
  unfold apply_patch. by destruct (up_PlanID inp), (up_DataLimitBytes inp), (up_ClearExpiry inp),
    (up_ExpiresAt inp), (up_Note inp), (up_Status inp).
Qed.

Lemma Update_harmless id inp w : harmless (Update id inp) w.
Proof.
  apply read_then; [apply GetUser_reads|]. intros w1 u0 [Hu0 _]%GetUser_Ok Hd1.
  rewrite <- Hd1 in Hu0. apply read_then.
  { intros v. destruct (String.eqb _ _); [|done]. by destruct (u_ExpiresAt _). }
  intros w2 re _ Hd2. rewrite <- Hd2 in Hu0. apply write_then; [apply UpdateUser_harmless|].
  intros w3 [] Hok E. eapply updated_row_at in E as [v Hv]; [by eapply reload_unrefused|done|].
  rewrite <- (row_at_id _ _ _ Hok Hu0). destruct re; apply apply_patch_ID.
Qed.

Lemma Rotate_harmless id w : harmless (RotateSubToken id) w.
Proof.
  apply read_then; [apply GetUser_reads|]. intros w1 u0 [Hu0 _]%GetUser_Ok Hd1. rewrite <- Hd1 in Hu0.
  apply read_then; [apply randToken_reads|]. intros w2 t _ Hd2. rewrite <- Hd2 in Hu0.
  apply write_then; [apply UpdateUser_harmless|]. intros w3 [] Hok E.
  eapply updated_row_at in E as [v Hv]; [|done|exact (row_at_id _ _ _ Hok Hu0)].
  apply unrefused_ok. by rewrite GetUser_run, Hv.
Qed.

Lemma ResetTraffic_service_harmless id w : harmless (ResetTraffic id) w.
Proof.
  apply read_then; [apply GetUser_reads|]. intros w1 u0 [Hu0 _]%GetUser_Ok Hd1. rewrite <- Hd1 in Hu0.
  apply write_then; [apply ResetTraffic_harmless|]. intros w2 [] _ E.
  pose proof (set_row_at _ _ _ _ _ Hu0 E) as Hu2. apply unrefused_bind.
  { apply unrefused_ok. destruct (String.eqb _ _); [|done]. by destruct (u_ExpiresAt u0). }
  intros w3 re E3.
  assert (w_db w3 = w_db w2) as Hd3.
  { revert E3. destruct (String.eqb _ _); [|by intros [= <- _]].
    unfold unexpired. destruct (u_ExpiresAt u0); by intros [= <- _]. }
  rewrite <- Hd3 in Hu2. clear E E3. destruct re.
  - unfold SetUserStatus. intros w' e. unfold bind at 1. rewrite (set_user_run _ _ _ _ Hu2).
    eapply reload_unrefused. apply row_at_Ok in Hu2 as [Hk Hu2]. cbn. by apply row_at_update; [|eexists].
  - intros w' e. unfold bind at 1. cbn [ret]. by eapply reload_unrefused.
Qed.

(** *** Renewal *)

Lemma clash_own {A K} `{EqDecision K} (col : A → option K) (i : string) (v : option K) (m : gmap string A) r :
  unique_on col m → m !! i = Some r → v = col r → clash col i v m = false.
Proof.
  intros Hu Hr ->. destruct (col r) as [x|] eqn:Hx; [|done]. apply not_true_is_false.
  intros (j & a & Hj & Hne & Ha)%clash_true. apply Hne. by eapply Hu.
Qed.

Lemma UpdateUser_unrefused u r w :
  db_ok (w_db w) → t_users (w_db w) !! u_ID u = Some r →
  u_SubToken u = u_SubToken r → u_ExternalID u = u_ExternalID r →
  (∀ pid, u_PlanID u = Some pid → is_ok (row_at (t_plans (w_db w)) pid) = true) →
  unrefused (UpdateUser u) w.
Proof.
  intros Hok Hr Htok Hext Hplan w' e. unfold UpdateUser. rewrite requireRow_quiet. unfold with_params, user_params.
  destruct (uuid_ref (t_plans (w_db w)) (u_PlanID u)) as [plan|x] eqn:Hp.
  2: { revert Hp. destruct (u_PlanID u) as [pid|]; [|done]. cbn. specialize (Hplan pid eq_refl).
       unfold row_at in Hplan. by destruct (uuid_key _ pid). }
  destruct (from_option _ _ _); [|by intros [= _ <-]].
  unfold sql_update_user. cbn [u_set_PlanID u_ID]. rewrite Hr. cbv zeta.
  assert (u_ID r = u_ID u) as Hid by apply (users_keyed _ (ok_users _ Hok) _ _ Hr).
  replace (user_violation _ (w_db w)) with (@None error); [done|]. symmetry.
  assert (∀ x, plan = Some x → is_Some (t_plans (w_db w) !! x)) as Hst.
  { intros x ->. apply uuid_ref_Ok in Hp. destruct (u_PlanID u) as [pid|]; [|done].
    injection Hp as ->. specialize (Hplan pid eq_refl). rewrite row_at_cases in Hplan.
    by destruct (t_plans (w_db w) !! _). }
  destruct (ok_users _ Hok). unfold user_violation. cbn [u_ID u_Email u_UUID u_TrojanPassword u_SubToken u_ExternalID u_PlanID].
  rewrite Hid. do 5 (rewrite (clash_own _ _ _ _ r) by (done || (cbn; congruence))).
  cbn. destruct plan as [x|]; [|done]. by rewrite bool_decide_eq_true_2 by auto.
Qed.

(** The columns an UpdateUser may be refused for. *)
Definition kept (u v : User) : Prop :=
  u_ID v = u_ID u ∧ u_SubToken v = u_SubToken u ∧ u_ExternalID v = u_ExternalID u.
Definition planned (db : DB) (u : User) : Prop :=
  ∀ pid, u_PlanID u = Some pid → is_ok (row_at (t_plans db) pid) = true.

Lemma renew_plan_kept inp u w w' v :
  renew_plan inp u w = (w', Ok v) → planned (w_db w) u → kept u v ∧ planned (w_db w) v.
Proof.
  unfold renew_plan. destruct (rn_PlanID inp) as [pid|]; [|by intros [= <- <-]].
  intros (w1 & p & H1 & H2)%bind_inv. rewrite GetPlan_run in H1. injection H1 as <- Hp.
  injection H2 as <- <-. intros _. split; [done|]. intros q [= <-]. by rewrite Hp.
Qed.

Lemma renew_plan_reads inp u : read_only (renew_plan inp u).
Proof. unfold renew_plan. destruct (rn_PlanID inp); [|done]. by apply bind_reads; [apply GetPlan_reads|]. Qed.
Lemma renew_expiry_reads inp u : read_only (renew_expiry inp u).
Proof. unfold renew_expiry. by case_bool_decide. Qed.
Lemma renew_status_reads u : read_only (renew_status u).
Proof.
  unfold renew_status. destruct (_ && _); [|done]. apply bind_reads; [apply unexpired_reads|]. done.
Qed.

Lemma Renew_harmless id inp w : harmless (Renew id inp) w.
Proof.
  unfold Renew. destruct (_ && _); [apply harmless_throw|].
  intros Hok. revert Hok. apply read_then; [apply GetUser_reads|]. intros w1 u0 [Hu0 _]%GetUser_Ok Hd1.
  rewrite <- Hd1 in Hu0. clear Hd1 w.
  intros Hok. assert (planned (w_db w1) u0) as Hp0.
  { intros pid Hpid. pose proof (row_at_Ok _ _ _ Hu0) as [_ Hr].
    destruct (ok_users_plan _ Hok _ _ _ Hr Hpid) as [p Hp]. by rewrite (row_at_stored _ _ _ Hp). }
  revert Hok. apply read_then; [apply renew_plan_reads|]. intros w2 u1 [Hk1 Hp1]%renew_plan_kept Hd2; [|done].
  rewrite <- Hd2 in Hu0, Hp1. clear Hd2 Hp0 w1.
  apply read_then; [apply renew_expiry_reads|]. intros w3 u2 E3 Hd3.
  assert (kept u0 u2 ∧ planned (w_db w3) u2) as [Hk2 Hp2].
  { rewrite Hd3. revert E3. unfold renew_expiry. case_bool_decide; by intros [= <- <-]. }
  rewrite <- Hd3 in Hu0. clear E3 Hd3 Hk1 Hp1 w2 u1.
  apply unrefused_harmless' . intros Hok. pose proof (row_at_id _ _ _ Hok Hu0) as Hid.
  destruct (renew_reset_run inp id u2 w3 u0 Hu0) as (w4 & t & E4 & Hpl & Hus).
  apply row_at_Ok in Hu0 as [Hkey Hu0]. rewrite <- Hid in Hus.
  assert (db_ok (w_db w4)) as Hok4.
  { assert (preserves w_ok (if rn_ResetTraffic inp then StoreUsers.ResetTraffic id ;;; ret (u_set_Used 0 0 u2)
      else ret u2)) as Hinv
      by (clear E4 Hus; destruct (rn_ResetTraffic inp); go_inv; apply StoreUsers.ResetTraffic_inv).
    specialize (Hinv w3 Hok). by rewrite E4 in Hinv. }
  intros w' e. rewrite (bind_Ok _ _ _ _ _ E4). revert w' e. set (u3 := if rn_ResetTraffic inp then _ else u2).
  assert (kept u0 u3 ∧ planned (w_db w4) u3) as [Hk3 Hp3].
  { unfold planned. rewrite Hpl. unfold u3. by destruct (rn_ResetTraffic inp). }
  fold (unrefused (u4 <- renew_status u3 ;; UpdateUser u4 ;;; ReconcileForUser (u_ID u4) ;;; GetUser id) w4).
  apply unrefused_bind.
  { apply unrefused_ok. unfold renew_status. destruct (_ && _); [|done]. by destruct (u_ExpiresAt u3). }
  intros w5 u4 E5. pose proof (renew_status_reads u3 w4) as Hd5. rewrite E5 in Hd5. cbn in Hd5.
  assert (kept u0 u4 ∧ u_PlanID u4 = u_PlanID u3) as [Hk4 Hpid].
  { revert E5. unfold renew_status. destruct (_ && _); [|by intros [= _ <-]].
    destruct (u_ExpiresAt u3) as [x|]; cbn; [destruct (After _ _)|]; by intros [= _ <-]. }
  set (v := if rn_ResetTraffic inp then u_set_UpdatedAt t (u_set_Used 0 0 u0) else u0) in *.
  assert (u_ID v = u_ID u0 ∧ u_SubToken v = u_SubToken u0 ∧ u_ExternalID v = u_ExternalID u0) as (Hv1 & Hv2 & Hv3)
    by (unfold v; by destruct (rn_ResetTraffic inp)).
  destruct Hk4 as (Hk41 & Hk42 & Hk43). apply unrefused_bind.
  { apply (UpdateUser_unrefused u4 v); rewrite ?Hd5;
      [done|by rewrite Hus, Hk41, lookup_insert_eq|congruence|congruence|].
    intros pid. rewrite Hpid. apply Hp3. }
  intros w6 [] E6. eapply updated_row_at in E6 as [x Hx]; [by eapply reload_unrefused| |].
  - rewrite Hd5, Hus. apply row_at_update; [by rewrite Hkey, Hid|rewrite Hid; by eexists].
  - rewrite Hd5, Hus, Hk41. unfold pg_key. rewrite uuid_key_insert by (rewrite Hid; by eexists).
    by rewrite Hkey, Hid.
Qed.

Lemma Usage_harmless id from to g w : harmless (Usage id from to g) w.
Proof.
  apply harmless_read, bind_reads; [apply GetUser_reads|]. intros _. unfold UserUsage.
  apply bind_reads; [apply reads_read_only; auto with reads|]. intros rows. by case_match.
Qed.
(** *** Removal and re-assignment *)

Lemma for_each_reads {A} (l : list A) (f : A → IO unit) :
  (∀ a, read_only (f a)) → read_only (for_each l f).
Proof. intros Hf. induction l; [done|]. cbn. by apply bind_reads. Qed.
Lemma Reconcile_reads id : read_only (Worker.Reconcile id).
Proof. intros w. by destruct (Reconcile_same w id w) as [H _]. Qed.

(** Tombstoning the assignments of a user who does not exist. *)
Lemma tombstone_nobody db i :
  db_ok db → t_users db !! i = None →
  set_user_inbounds ((λ ui, if String.eqb (ui_UserID ui) i then ui_set_SyncStatus SyncRemoving ui else ui)
    <$> t_user_inbounds db) db = db.
Proof.
  intros Hok Hno. rewrite map_fmap_id_on; [by destruct db|]. intros k ui Hui.
  destruct (String.eqb_spec (ui_UserID ui) i) as [<-|]; [|done].
  destruct (ok_ui_user _ Hok _ _ _ Hui eq_refl) as [u Hu]. congruence.
Qed.

Lemma Delete_harmless id w : harmless (Delete id) w.
Proof.
  apply read_then; [apply targets_reads|]. intros w1 targets _ _ Hok w' e.
  unfold bind at 1. unfold MarkAssignmentsRemovingForUser, map_err. rewrite exec_quiet. unfold by_id.
  destruct (uuid_key _ id) as [i|x] eqn:Hk; [|by intros [= <- _]]. cbn [sql_tombstone].
  destruct (t_users (w_db w1) !! i) as [u|] eqn:Hu.
  - set (w2 := w_set_db _ _). unfold bind at 1.
    destruct (Reconcile_all (distinctNodes targets) w2) as (w3 & -> & Hd3 & _).
    unfold DeleteUser. rewrite requireRow_quiet, Hd3. unfold by_id.
    change (t_users (w_db w2)) with (t_users (w_db w1)). rewrite Hk. unfold sql_delete_user.
    change (t_users (w_db w2)) with (t_users (w_db w1)). by rewrite Hu.
  - rewrite tombstone_nobody by done. set (w2 := w_set_db _ _). intros E Hc.
    change (w_db w1) with (w_db w2). revert E Hc. apply read_then; [|intros; apply harmless_requireRow|done].
    + apply for_each_reads, Reconcile_reads.
    + intros now db db'. unfold by_id, sql_delete_user. repeat case_match; intros E; try discriminate E;
        by injection E as <-.
Qed.

Lemma SetAssignments_users tx id ids w w' :
  SetAssignmentsForUserTx tx id ids w = (w', Ok tt) → t_users (w_db w') = t_users (w_db w).
Proof.
  intros E. assert (preserves (λ v, t_users (w_db v) = t_users (w_db w)) (SetAssignmentsForUserTx tx id ids)) as Hp.
  { unfold SetAssignmentsForUserTx. go_inv; apply preserves_exec_tx_db; intros t db db' [];
      unfold by_id, by_ids, sql_tombstone, sql_add_assignment; repeat case_match; try done; by intros [= <-]. }
  specialize (Hp w eq_refl). by rewrite E in Hp.
Qed.

Lemma SetInbounds_harmless id ids w : harmless (SetInbounds id ids) w.
Proof.
  apply read_then; [apply GetUser_reads|]. intros w1 u0 [Hu0 _]%GetUser_Ok Hd1. rewrite <- Hd1 in Hu0.
  apply read_then; [apply ListInboundsByIDs_reads|]. intros w2 ibs _ Hd2. rewrite <- Hd2 in Hu0.
  case_bool_decide; cbn [negb]; [|apply harmless_throw].
  apply read_then; [apply attempt_reads, targets_reads|]. intros w3 r _ Hd3. rewrite <- Hd3 in Hu0.
  apply write_then; [intros _ w' e E _; by eapply WithTx_quiet_Err|]. intros w4 [] _ (w5 & E & ->)%WithTx_Ok.
  apply SetAssignments_users in E. cbn in E. rewrite quiet_interfere in E. apply unrefused_ok.
  unfold reconcileNodes. set (nodes := dedup_from _ _).
  destruct (Reconcile_all nodes (w_tick w5)) as (w6 & E6 & Hd6 & _). rewrite (bind_Ok _ _ _ _ _ E6).
  rewrite GetUser_run, Hd6. cbn. by rewrite E, Hu0.
Qed.
End Users.

Section Admin.
Context {P : Platform} `{!Quiet P}.

(** ** Nodes and inbounds *)

Lemma StopNode_reads id : read_only (StopNode id).
Proof. intros w. by destruct (StopNode_db id w) as (w' & -> & H). Qed.
Lemma StartNode_total n w : ∃ w' a, StartNode n w = (w', Ok a) ∧ w_db w' = w_db w.
Proof.
  unfold StartNode. destruct (StopNode_db (n_ID n) w) as (w1 & E1 & Hd1).
  rewrite (bind_Ok _ _ _ _ _ E1). unfold gets, modify, bind, ret. by eexists _, _.
Qed.
Lemma probe_total n w : ∃ w' p, NodeService.probe n w = (w', Ok p) ∧ w_db w' = w_db w.
Proof.
  unfold NodeService.probe. destruct (DefaultDial n) as [c|e]; [|by eexists _, _].
  unfold attempt, Ping, bind. destruct (rpc_GetSysStats _ c) as [nt [msg|z]]; by eexists _, _.
Qed.
Lemma check_inbound_reads inp : read_only (NodeService.check_inbound inp).
Proof. unfold NodeService.check_inbound. by case_match. Qed.
Lemma lift_res_reads {A} (r : res error A) : read_only (lift_res r).
Proof. done. Qed.

Lemma GetNode_there id w n : t_nodes (w_db w) !! id = Some n → unrefused (GetNode id) w.
Proof. intros Hn. apply unrefused_ok. by rewrite GetNode_run, (row_at_stored _ _ _ Hn). Qed.

Lemma insert_node_there n w w' :
  CreateNode n w = (w', Ok tt) → is_Some (t_nodes (w_db w') !! n_ID n).
Proof.
  intros H%map_err_Ok. rewrite exec_quiet in H. revert H. unfold sql_insert_node. cbv zeta.
  case_bool_decide; [done|]. destruct (node_violation _ _); [done|]. intros [= <-]. cbn.
  rewrite lookup_insert_eq. by eexists.
Qed.

Lemma SetNodeHealth_there id id' s e t w :
  is_Some (t_nodes (w_db w) !! id) → is_Some (t_nodes (w_db (SetNodeHealth id' s e t w).1) !! id).
Proof.
  intros Hid. unfold SetNodeHealth. rewrite requireRow_quiet. unfold sql_set_node_health.
  destruct (t_nodes (w_db w) !! id'); [|done]. cbn. by apply is_Some_insert_weaken.
Qed.

Lemma Node_Create_harmless inp w : harmless (NodeService.Create inp) w.
Proof.
  unfold NodeService.Create. repeat (case_match; [apply harmless_throw|]).
  apply read_then; [done|]. intros w1 id _ _. apply read_then; [apply lift_res_reads|]. intros w2 n _ _.
  apply write_then; [apply harmless_exec|]. intros w3 [] _ Hn%insert_node_there.
  destruct (probe_total n w3) as (w4 & p & E4 & Hd4). intros w' e. rewrite (bind_Ok _ _ _ _ _ E4). revert w' e.
  rewrite <- Hd4 in Hn. apply unrefused_bind; [apply unrefused_ok; by case_match|]. intros w5 seen E5.
  assert (w_db w5 = w_db w4) as Hd5 by (revert E5; case_match; by intros [= <- _]). rewrite <- Hd5 in Hn.
  set (m := NodeService.n_set_health p.1 p.2 seen n). intros w' e. unfold bind at 1, ignore. cbn [snd].
  set (w6 := (SetNodeHealth _ _ _ _ w5).1).
  assert (is_Some (t_nodes (w_db w6) !! n_ID n)) as [row Hrow] by by apply SetNodeHealth_there.
  destruct (StartNode_total m w6) as (w7 & a & E7 & Hd7). rewrite (bind_Ok _ _ _ _ _ E7).
  eapply GetNode_there. by rewrite Hd7.
Qed.

Lemma Node_Update_harmless id inp w : harmless (NodeService.Update id inp) w.
Proof.
  apply read_then; [apply GetNode_reads|]. intros w1 n0 E1 Hd1.
  apply read_then; [apply lift_res_reads|]. intros w2 n E2 Hd2. apply write_then; [apply UpdateNode_harmless|].
  intros w3 [] Hok E3. rewrite GetNode_run in E1. injection E1 as _ Hrow.
  destruct (row_at (t_nodes (w_db w)) id) as [r|] eqn:Hr; [|done]. injection Hrow as <-.
  apply row_at_Ok in Hr as [Hk Hr].
  assert (n_ID n = pg_key (t_nodes (w_db w)) id) as Hid.
  { unfold lift_res in E2. injection E2 as _ Hm. revert Hm. unfold NodeService.applyTLSMaterial. cbv zeta.
    destruct (ValidateTLSMaterial _ _ _); [done|]. intros [= <-]. cbn.
    rewrite Hd2, Hd1 in Hok. apply (ok_nodes_keyed _ Hok _ _ Hr). }
  apply UpdateNode_Ok in E3 as (row & Hrow & _ & _); [|done]. rewrite Hd2, Hd1, Hid in Hrow.
  destruct (StartNode_total n w3) as (w4 & a & E4 & Hd4). intros w' e. rewrite (bind_Ok _ _ _ _ _ E4).
  apply unrefused_ok. rewrite GetNode_run, Hd4, Hrow. by rewrite (row_at_update _ _ _ _ Hk) by eauto.
Qed.

Lemma Node_Delete_harmless id w : harmless (NodeService.Delete id) w.
Proof. apply read_then; [apply StopNode_reads|]. intros. apply DeleteNode_harmless. Qed.

Lemma Node_Reconcile_harmless id w : harmless (NodeService.Reconcile id) w.
Proof. apply harmless_read, bind_reads; [apply GetNode_reads|]. intros _. apply Reconcile_reads. Qed.

Lemma GetInbound_run id w : StoreAdmin.GetInbound id w = (w_tick w, row_at (t_inbounds (w_db w)) id).
Proof. unfold StoreAdmin.GetInbound. by rewrite query_row_at_quiet. Qed.

Lemma CreateInbound_harmless node inp w : harmless (NodeService.CreateInbound node inp) w.
Proof.
  apply read_then; [apply GetNode_reads|]. intros w1 n _ _.
  apply read_then; [apply check_inbound_reads|]. intros w2 [] _ _. apply read_then; [done|]. intros w3 id _ _.
  apply write_then; [apply harmless_exec|]. intros w4 [] _ E%map_err_Ok. rewrite exec_quiet in E.
  revert E. unfold by_id, sql_insert_inbound. destruct (uuid_key _ _) as [i|]; [|done]. cbv zeta.
  case_bool_decide; [done|]. destruct (inbound_violation _ _); [done|]. intros [= <-].
  apply unrefused_ok. rewrite GetInbound_run. cbn. by erewrite row_at_stored by apply lookup_insert_eq.
Qed.

Lemma UpdateInbound_service_harmless id inp w : harmless (NodeService.UpdateInbound id inp) w.
Proof.
  apply read_then; [apply GetInbound_reads|]. intros w1 r E1 Hd1. rewrite GetInbound_run in E1.
  injection E1 as _ [Hk Hr]%row_at_Ok. rewrite <- Hd1 in Hk, Hr.
  apply read_then; [apply check_inbound_reads|]. intros w2 [] _ Hd2. rewrite <- Hd2 in Hk, Hr.
  apply write_then; [apply UpdateInbound_harmless|]. intros w3 [] Hok E.
  assert (ib_ID r = pg_key (t_inbounds (w_db w2)) id) as Hid by apply (ok_inbounds_keyed _ Hok _ _ Hr).
  revert E. unfold StoreAdmin.UpdateInbound. rewrite requireRow_quiet. unfold sql_update_inbound.
  cbn [ib_ID NodeService.inboundFromInput]. rewrite Hid, Hr. cbv zeta.
  destruct (inbound_violation _ _); [done|]. intros [= <-]. set (w3 := w_set_db _ _).
  destruct (Reconcile_never_fails (ib_NodeID r) w3) as (w4 & [] & E4). intros w' e.
  rewrite (bind_Ok _ _ _ _ _ E4). apply unrefused_ok.
  pose proof (Reconcile_reads (ib_NodeID r) w3) as Hd4. rewrite E4 in Hd4. cbn [fst] in Hd4.
  rewrite GetInbound_run, Hd4. cbn. by rewrite (row_at_update _ _ _ _ Hk) by eauto.
Qed.

(** ** Plans and keys *)

Lemma Plan_Create_harmless inp w : harmless (PlanService.Create inp) w.
Proof.
  unfold PlanService.Create. repeat (case_match; [apply harmless_throw|]).
  apply read_then; [done|]. intros w1 id _ _. apply write_then; [apply harmless_exec|].
  intros w2 [] _ E%map_err_Ok. rewrite exec_quiet in E. revert E. unfold sql_insert_plan. cbv zeta.
  case_bool_decide; [done|]. destruct (plan_violation _ _); [done|]. intros [= <-].
  apply unrefused_ok. rewrite GetPlan_run. cbn. by erewrite row_at_stored by apply lookup_insert_eq.
Qed.

Lemma Plan_Update_harmless id inp w : harmless (PlanService.Update id inp) w.
Proof.
  apply read_then; [apply GetPlan_reads|]. intros w1 p E1 Hd1. rewrite GetPlan_run in E1.
  injection E1 as _ [Hk Hp]%row_at_Ok. rewrite <- Hd1 in Hk, Hp.
  apply write_then; [apply UpdatePlan_harmless|]. intros w2 [] Hok E.
  assert (p_ID p = pg_key (t_plans (w_db w1)) id) as Hid by apply (ok_plans_keyed _ Hok _ _ Hp).
  revert E. unfold UpdatePlan. rewrite requireRow_quiet. unfold sql_update_plan. cbn [p_ID].
  rewrite Hid, Hp. cbv zeta. destruct (plan_violation _ _); [done|]. intros [= <-].
  apply unrefused_ok. rewrite GetPlan_run. cbn. by rewrite (row_at_update _ _ _ _ Hk) by eauto.
Qed.

Lemma Key_Create_harmless name w : harmless (APIKeyService.Create name) w.
Proof.
  unfold APIKeyService.Create. case_match; [apply harmless_throw|]. apply read_then; [done|]. intros w1 t _ _.
  apply read_then; [done|]. intros w2 id _ _. apply write_then; [apply harmless_exec|].
  intros w3 [] _ _. by apply unrefused_ok.
Qed.
End Admin.

#[export] Hint Resolve Create_harmless Update_harmless Delete_harmless SetInbounds_harmless setStatus_harmless
  Resume_harmless Renew_harmless ResetTraffic_service_harmless Rotate_harmless Usage_harmless
  Node_Create_harmless Node_Update_harmless Node_Delete_harmless Node_Reconcile_harmless
  CreateInbound_harmless UpdateInbound_service_harmless Plan_Create_harmless Plan_Update_harmless
  Key_Create_harmless : refusals.
#[export] Hint Extern 1 (reads _) => solve [auto with reads] : refusals.

(** ** Requests *)

Section Requests.
Context {P : Platform} `{!Quiet P} (J : Codecs) (sv : Server).
Context (prometheus_text : gmap (string * list string) Z → string).
Context {Limiter : Type} (NewLimiter : Z → Limiter) (Allow : Limiter → Time → Limiter * bool).

Definition refusals : list Z := [400; 401; 404; 409].

(** A refusal of [h] leaves the tables as they were. *)
Definition polite (h : IO Response) : Prop :=
  ∀ w w' rs, db_ok (w_db w) → h w = (w', Ok rs) → rs_Status rs ∈ refusals → w_db w' = w_db w.

Lemma polite_ret rs : polite (ret rs).
Proof. by intros w w' rs' _ [= <- _]. Qed.

Lemma polite_respond {A} (m : IO A) ok :
  (∀ w, harmless m w) → (∀ a, rs_Status (ok a) ∉ refusals) → polite (respond m ok).
Proof.
  intros Hm Hk w w' rs Hok. unfold respond, attempt, bind. destruct (m w) as [w1 [a|e]] eqn:E.
  - intros [= <- <-] Hs. by destruct (Hk a).
  - intros [= <- <-] Hs. apply (Hm w Hok _ _ E). unfold client_error.
    assert (rs_Status (writeError e) = (error_status e).1) as Heq
      by (unfold writeError; by destruct (error_status e)). rewrite Heq in Hs.
    destruct (Z.eqb_spec (error_status e).1 500) as [H5|]; [|done]. rewrite H5 in Hs.
    exfalso. revert Hs. by apply (bool_decide_unpack (500 ∉ refusals)).
Qed.

Lemma polite_body {A} (dec : string → res string A) r k :
  (∀ a, polite (k a)) → polite (with_body dec r k).
Proof.
  intros Hk. unfold with_body. destruct (rq_Body r) as [raw|msg]; [|apply polite_ret].
  destruct (dec raw); [apply Hk|apply polite_ret].
Qed.

Lemma handler_polite rt r : group_of rt = Admin → polite (handler J sv prometheus_text rt r).
Proof.
  intros Hg.
  assert (∀ z v, bool_decide (z ∉ refusals) = true → rs_Status (writeJSON z v) ∉ refusals) as Hst
    by (intros z v Hz; exact (proj1 (bool_decide_eq_true _) Hz)).
  assert (rs_Status noContent ∉ refusals) as Hno by (by apply (bool_decide_unpack _)).
  destruct rt; try discriminate Hg; cbn [handler];
    try (apply polite_body; intros q);
    try (apply polite_respond; [intros w; solve [eauto with refusals]|intros; by apply Hst]).
  all: try (apply polite_respond; [intros w; solve [eauto with refusals]|intros; exact Hno]).
  - apply polite_ret.
  - unfold handleListUsers. destruct (paging r) as [[page per] off]. apply polite_respond.
    + intros w. apply harmless_read, ListUsers_reads.
    + intros [users total]. by apply Hst.
  - unfold handleUserUsage. intros w w' rs Hok. unfold bind at 1. cbn [time_Now].
    set (w1 := w_tick w). change (w_db w) with (w_db w1) in Hok |- *. revert Hok. revert w1 w' rs.
    destruct (usage_bound _ _ _); [|apply polite_ret]. destruct (usage_bound _ _ _); [|apply polite_ret].
    cbv zeta. intros w1. revert w1. apply polite_respond; [intros; apply Usage_harmless|]. intros b. by apply Hst.
Qed.

(** C10 (refused requests): while nothing outside writes or disturbs the
    database, when an administrative request is answered with 400, 401, 404 or
    409, the tables are as they were, but for the time of the last use of the
    key presented: no step of the refused operation is left done. *)
Theorem refused_without_effect l rt r w w' l' rs :
  db_ok (w_db w) → group_of rt = Admin →
  Router J sv prometheus_text NewLimiter Allow l rt r w = (w', Ok (l', rs)) → rs_Status rs ∈ refusals →
  w_db w' = set_api_keys (t_api_keys (w_db w')) (w_db w) ∧
  key_core <$> t_api_keys (w_db w') = key_core <$> t_api_keys (w_db w).
Proof.
  intros Hok Hg. unfold Router.Router. rewrite Hg. unfold authMiddleware.
  destruct (Verify_run (extractKey r) (sv_bootstrapKey sv) w) as (w1 & ok & E & _).
  destruct (Verify_frame _ _ _ _ _ E) as [(Ht & _) _].
  assert (on_tables (since (w_db w)) w1) as [Hok1 Hm].
  { assert (preserves (on_tables (since (w_db w))) (APIKeyService.Verify (extractKey r) (sv_bootstrapKey sv))) as Hv
      by tables.
    specialize (Hv w). rewrite E in Hv. by apply Hv. }
  assert (∀ w2, w_db w2 = w_db w1 →
    w_db w2 = set_api_keys (t_api_keys (w_db w2)) (w_db w) ∧
    key_core <$> t_api_keys (w_db w2) = key_core <$> t_api_keys (w_db w)) as Hdone.
  { intros w2 ->. split; [done|by apply (mv_keys _ _ Hm)]. }
  unfold bind at 1 2 3. rewrite E. destruct ok.
  - pose proof (handler_polite rt r Hg w1) as Hp.
    destruct (handler _ _ _ rt r w1) as [w2 [rs2|e]]; [|done]. intros [= <- <- <-] Hs.
    apply Hdone. cbn. by apply (Hp _ _ Hok1 eq_refl).
  - intros [= <- <- <-] _. by apply Hdone.
Qed.
End Requests.
