(* ===== verification/Demo.v ===== *)
(** * A concrete platform

    An instance of every parameter, on which the definitions run: a clock that
    advances one second per reading, numbered identifiers, a network that is a
    table of accounts with one list of counters, and no faults.  It satisfies
    every assumption the theorems make of a platform, so none of them is
    vacuous; the scenario below provisions a node, an inbound, a plan and a
    user through the services. *)

From stdpp Require Import base gmap strings list fin_maps pretty.
From Stdlib Require Import ZArith Lia.
From S2P Require Import Prelude Domain Database World StoreBase StoreUsers StoreAssignments StoreTraffic StoreAdmin.
From S2P Require Import GoStd Encoding Config RateLimit Xray Worker ServiceUsers ServiceAdmin ServiceBilling.
From S2P Require Import Sublink Httpapi Router System.
Import Httpapi.
Local Open Scope Z_scope.

(** Accounts by endpoint, inbound tag and email, and the pending counters. *)
Record demo_net : Type := mkDemoNet {
  dn_accounts : gmap (string * string * string) ProtoUser;
  dn_stats : list Stat;
  dn_up : bool
}.

Definition demo_alter (n : demo_net) (c : Conn) (tag : string) (op : Operation)
    : demo_net * option string :=
  let put m := mkDemoNet m (dn_stats n) (dn_up n) in
  match op with
  | AddUserOperation u =>
      let k := (conn_target c, tag, pu_Email u) in
      if bool_decide (is_Some (dn_accounts n !! k)) then (n, Some "User already exists.")
      else (put (<[k := u]> (dn_accounts n)), None)
  | RemoveUserOperation e =>
      let k := (conn_target c, tag, e) in
      if bool_decide (is_Some (dn_accounts n !! k)) then (put (delete k (dn_accounts n)), None)
      else (n, Some "User not found.")
  end.

(** Identifiers are the numbered ones, in either case. *)
Definition demo_uuid (s : string) : option string :=
  let s := ToLower s in if HasPrefix s "id" then Some s else None.

(** Texts hold no zero byte. *)
Definition demo_types : PgTypes :=
  {| uuid_in := demo_uuid;
     text_in s := forallb (λ c, negb (Ascii.eqb c Ascii.zero)) (String.list_ascii_of_string s) |}.

#[export] Instance demo : Platform := {|
  pg_types := demo_types;
  clock k := Z.of_nat k * 1000000;
  uuid_at k := "id" +:+ pretty k;
  rand_at k n := "r" +:+ pretty k;
  interfere _ db := db;
  fault_at _ := NoFault;
  net := demo_net;
  rpc_AlterInbound := demo_alter;
  rpc_GetSysStats n c := (n, if dn_up n then inr 100 else inl "connection refused");
  rpc_QueryStats n c pattern reset :=
    (if reset then mkDemoNet (dn_accounts n) [] (dn_up n) else n, inr (dn_stats n));
  grpc_NewClient _ := None;
  AppendCertsFromPEM _ := true;
  X509KeyPair _ _ := None;
  pg_day t := pretty (t / day);
  sha256_Sum256 m := m;
  hmac_sha256 key m := key +:+ m
|}.

#[export] Instance demo_quiet : Quiet demo.
Proof. by split. Qed.
#[export] Instance demo_rely : Rely demo.
Proof. by intros k db. Qed.
#[export] Instance demo_clean : CleanFaults demo.
Proof. by intros k msg. Qed.

Definition demo_account_at (n : demo_net) (t g e : string) : option ProtoUser :=
  dn_accounts n !! (t, g, e).

#[export, refine] Instance demo_laws : XrayLaws demo :=
  {| account_at := demo_account_at |}.
Proof.
  - intros n c tag u n'. cbn. case_bool_decide; [done|]. intros [= <-] t g e. cbn.
    case_decide as Hk; [by rewrite Hk, lookup_insert_eq|by rewrite lookup_insert_ne].
  - intros n c tag u n' msg. cbn. case_bool_decide; [|done]. by intros [= <- <-].
  - intros n c tag em n'. cbn. case_bool_decide; [|done]. intros [= <-] t g e. cbn.
    case_decide as Hk; [by rewrite Hk, lookup_delete_eq|by rewrite lookup_delete_ne].
  - intros n c tag em n' msg. cbn. case_bool_decide as Hs; [done|]. intros [= <- <-].
    split; [done|]. intros _. by apply eq_None_not_Some.
Defined.

#[export] Instance demo_refuses : RefusesDuplicates (P := demo).
Proof.
  intros n c tag u Hs. cbn in *. unfold demo_account_at in Hs. rewrite bool_decide_true by done. by eexists.
Qed.

Lemma demo_accepts c : accepts c.
Proof.
  intros n tag [u|e]; cbn; case_bool_decide; cbn [snd]; try done; by vm_compute.
Qed.

(** The same platform with another session that does [f] to the tables just
    before statement [k]. *)
Definition racing (k : nat) (f : DB → DB) : Platform := {|
  pg_types := demo_types;
  clock := @clock demo;
  uuid_at := @uuid_at demo;
  rand_at := @rand_at demo;
  interfere j db := if Nat.eqb j k then f db else db;
  fault_at := @fault_at demo;
  net := demo_net;
  rpc_AlterInbound := demo_alter;
  rpc_GetSysStats := @rpc_GetSysStats demo;
  rpc_QueryStats := @rpc_QueryStats demo;
  grpc_NewClient := @grpc_NewClient demo;
  AppendCertsFromPEM := @AppendCertsFromPEM demo;
  X509KeyPair := @X509KeyPair demo;
  pg_day := @pg_day demo;
  sha256_Sum256 := @sha256_Sum256 demo;
  hmac_sha256 := @hmac_sha256 demo
|}.

(** ** A token bucket *)

(** [tb_level] is in tokens times 60 s, so a bucket of [n] gains [n] units each
    microsecond. *)
Record bucket : Type := mkBucket { tb_burst : Z; tb_level : Z; tb_last : Time }.

Definition token : Z := 60000000.
Definition new_bucket (n : Z) : bucket := mkBucket n (n * token) 0.
Definition filled (b : bucket) (t : Time) : Z :=
  (tb_level b + tb_burst b * (t - tb_last b) `max` 0) `min` (tb_burst b * token).
Definition take (b : bucket) (t : Time) : bucket * bool :=
  if bool_decide (token ≤ filled b t)
  then (mkBucket (tb_burst b) (filled b t - token) t, true) else (b, false).

Lemma filled_full b t :
  0 ≤ tb_burst b → tb_burst b * token ≤ tb_level b + tb_burst b * (t - tb_last b) `max` 0 →
  filled b t = tb_burst b * token.
Proof. unfold filled. lia. Qed.
Lemma filled_new n t : 0 < n → filled (new_bucket n) t = n * token.
Proof.
  intros Hn. apply (filled_full (new_bucket n)); cbn; [lia|].
  assert (0 ≤ n * (t - 0) `max` 0) by (apply Z.mul_nonneg_nonneg; lia). lia.
Qed.

Lemma take_new n t : 0 < n → take (new_bucket n) t = (mkBucket n (n * token - token) t, true).
Proof.
  intros Hn. unfold take. rewrite filled_new by done.
  rewrite bool_decide_true by (unfold token; nia). done.
Qed.

Lemma used_bucket n b t :
  0 < n → used new_bucket take n b t → tb_burst b = n ∧ 0 ≤ tb_level b ∧ tb_last b ≤ t.
Proof.
  intros Hn. induction 1 as [t|b t t' Hu IH Ht].
  - rewrite take_new by done. unfold token. cbn. split; [done|nia].
  - unfold take. case_bool_decide; cbn; lia.
Qed.

#[export] Instance take_laws : RateLaws new_bucket take.
Proof.
  intros n b t t' Hn Hu Ht. apply used_bucket in Hu as (Hb & Hl & Hlast); [|done].
  rewrite take_new by done. unfold take, refill in *.
  rewrite filled_full; rewrite Hb; [|lia|].
  - rewrite bool_decide_true by (unfold token; nia). done.
  - rewrite Z.max_l by lia. unfold token. nia.
Qed.

(** ** A scenario *)

Definition world0 : World :=
  mkWorld empty_db 0 (mkDemoNet ∅ [] true) ∅ ∅ ∅.

Definition node_input : NodeService.NodeInput :=
  NodeService.mkNodeInput "edge-1" "10.0.0.1" 8080 false "" false None None None.
Definition inbound_input (tag : string) : NodeService.InboundInput :=
  NodeService.mkInboundInput tag "vless" 443 "vpn.example.com" 443 "ws" "tls" "/ws" "" ""
    "vpn.example.com" "" "" "" "" "" "" "main".
Definition user_input (ids : list string) : UserService.CreateInput :=
  UserService.mkCreateInput "alice@example.com" None ids (Some 100) None "" (Some "sub_1").

(** Provision one node with two inbounds, a plan, and a user on both. *)
Definition provision_all : IO (Node * Inbound * Inbound * Plan * User) :=
  n <- NodeService.Create node_input ;;
  i1 <- NodeService.CreateInbound (n_ID n) (inbound_input "in-1") ;;
  i2 <- NodeService.CreateInbound (n_ID n) (inbound_input "in-2") ;;
  p <- PlanService.Create (PlanService.mkPlanInput "basic" (Some 1000) (Some 30)) ;;
  u <- UserService.Create (user_input [ib_ID i1; ib_ID i2]) ;;
  ret (n, i1, i2, p, u).

(** The resulting state, part by part, evaluated. *)
Definition scene_db : DB := Eval vm_compute in w_db (provision_all world0).1.
Definition scene_k : nat := Eval vm_compute in w_k (provision_all world0).1.
Definition scene_net : demo_net := Eval vm_compute in w_net (provision_all world0).1.
Definition scene_actors : gmap string nat := Eval vm_compute in w_actors (provision_all world0).1.
Definition scene_heap : gmap nat nodeActor := Eval vm_compute in w_heap (provision_all world0).1.
Definition scene_metrics : gmap (string * list string) Z :=
  Eval vm_compute in w_metrics (provision_all world0).1.
Definition scene : World :=
  mkWorld scene_db scene_k (scene_net : @net demo) scene_actors scene_heap scene_metrics.

(** Decide a closed equation by evaluating a decision procedure for it, and a
    run by evaluating its result. *)
Lemma run_pair {A B} (x : A * B) a b : x.1 = a → x.2 = b → x = (a, b).
Proof. destruct x. cbn. congruence. Qed.

Ltac by_eval :=
  lazymatch goal with
  | |- _ = (_, Ok _) => apply run_pair; [exact eq_refl|by_eval]
  | |- _ = (_, Err _) => apply run_pair; [exact eq_refl|by_eval]
  | |- ?P => let d := constr:(_ : Decision P) in
      refine (@bool_decide_unpack P d _); vm_cast_no_check I
  end.

#[export] Instance UsageBucket_eq_dec : EqDecision UsageBucket.
Proof. solve_decision. Defined.

Lemma scene_ok : db_ok (w_db scene).
Proof.
  pose proof demo_rely as Hrely.
  assert (preserves w_ok provision_all) as Hp by (unfold provision_all; go_inv).
  pose proof (Hp world0 empty_db_ok) as H. unfold w_ok in H.
  replace (w_db scene) with (w_db (provision_all world0).1) by by_eval. exact H.
Qed.

(** What another session's statement does to the tables. *)
Definition effect {A} (q : Sql A) (db : DB) : DB :=
  match q 0 db with Ok (db', _) => db' | Err _ => db end.

(** The scene on the platform with that session. *)
Definition raced (k : nat) (f : DB → DB) : @World (racing k f) :=
  @mkWorld (racing k f) scene_db scene_k scene_net scene_actors scene_heap scene_metrics.

(** The identifiers the scenario produces. *)
Definition node_id : string := "id0".
Definition inbound_id : string := "id6".
Definition other_inbound_id : string := "id10".
Definition plan_id : string := "id13".
Definition user_id : string := "id17".

(** The connection to the node, and the scene after the actor has dialled it. *)
Definition node_conn : Conn := mkConn "10.0.0.1:8080" None.
Definition connected_heap : gmap nat nodeActor := Eval vm_compute in w_heap (ensureClient 0 scene).1.
Definition connected : World := w_set_heap connected_heap scene.

(** The rows of the scene, by name. *)
Definition the_user : User := Eval vm_compute in
  default (mkUser "" "" "" "" None "" None 0 0 None "" "" None 0 0) (t_users (w_db scene) !! user_id).
Definition the_inbound : Inbound := Eval vm_compute in
  default (mkInbound "" "" "" "" 0 "" 0 "" "" "" "" "" "" "" "" "" "" "" "" "" 0 0)
    (t_inbounds (w_db scene) !! inbound_id).
Definition the_assignment : UserInbound := mkUserInbound user_id inbound_id SyncPending None "".

(** ** A server *)

Definition node_body : nodeRequest :=
  mkNodeRequest "edge-1" "10.0.0.1" 8080 false "" false None None None.

Definition inbound_body : inboundRequest :=
  mkInboundRequest "in-1" "shadowsocks" 8388 "vpn.example.com" 8388 "" "" "" "" "" "" "" "" "" ""
    "aes-256-gcm" "" "".

Definition codecs : Codecs := {|
  dec_createUser _ := Err "unexpected end of JSON input";
  dec_updateUser _ := Err "unexpected end of JSON input";
  dec_setInbounds _ := Err "unexpected end of JSON input";
  dec_renewUser _ := Ok (mkRenewUserRequest 30 true (Some "id13"));
  dec_plan _ := Err "unexpected end of JSON input";
  dec_node s := if String.eqb s "node" then Ok node_body else Err "unexpected end of JSON input";
  dec_inbound s := if String.eqb s "inbound" then Ok inbound_body else Err "unexpected end of JSON input";
  dec_apiKey _ := Ok (mkCreateAPIKeyRequest "ci");
  dec_event _ := inr (BillingService.mkBillingEvent "evt_1" "suspend" "sub_1" "" None None);
  parse_RFC3339 _ := None;
  yaml_Marshal _ := Ok "proxies: []"
|}.

Definition server : Server := mkServer "root" "s3cret" true "https://vpn.example.com" 12 "VPN" "" "dev" "none".

(** A request presenting [key], with [param] for every URL parameter. *)
Definition request (key param body : string) : Request :=
  mkRequest (λ _, param) (λ _, "")
    (λ h, if String.eqb h "X-API-Key" then key else "") "/api/v1" "10.1.1.1:5000" (Ok body).

Definition no_metrics (m : gmap (string * list string) Z) : string := "".
Definition demo_router := Router codecs server no_metrics new_bucket take.
Definition demo_step := step codecs server no_metrics new_bucket take.

(** The scene with a different row for the user. *)
Definition with_user (u : User) (w : World) : World :=
  w_set_db (set_users (<[user_id := u]> (t_users (w_db w))) (w_db w)) w.

Lemma with_user_ok u w :
  db_ok (w_db w) → t_users (w_db w) !! user_id = Some the_user →
  u_ID u = u_ID the_user → u_Email u = u_Email the_user → u_UUID u = u_UUID the_user →
  u_TrojanPassword u = u_TrojanPassword the_user → u_SubToken u = u_SubToken the_user →
  u_ExternalID u = u_ExternalID the_user → u_PlanID u = None →
  db_ok (w_db (with_user u w)).
Proof.
  intros Hok Hu ?????? Hp. unfold with_user. cbn. apply db_ok_set_users; [done| | |].
  - eapply users_ok_insert_same; eauto. apply Hok.
  - apply references_insert; [apply Hok|]. by rewrite Hp.
  - intros i Hi. by apply is_Some_insert_weaken.
Qed.
