(* ===== verification/Witnesses.v ===== *)
(** * The theorems at work on the concrete platform

    Each lemma applies one theorem to the scenario of [Demo], with its
    hypotheses discharged by evaluation. *)

From stdpp Require Import base gmap strings list fin_maps sets relations.
From Stdlib Require Import ZArith Lia.
From S2P Require Import Prelude Domain Database World StoreBase StoreUsers StoreAssignments StoreTraffic StoreAdmin.
From S2P Require Import GoStd Encoding RateLimit Xray StatNames Worker ServiceUsers ServiceAdmin ServiceBilling.
From S2P Require Import Sublink Httpapi Router System Shutdown Tables Metering.
From S2P Require Import Collection Convergence Fleet Health Reads Runs Nodes Lifecycle Billing Removal Races Enforcement Access Startup Links Gateway Authority Refusals Typing Demo.
Import Httpapi.
Local Open Scope Z_scope.


(** ** Metering *)

Definition small_batch : list TrafficDelta := [mkTrafficDelta user_id 30 20].
Definition big_batch : list TrafficDelta := [mkTrafficDelta user_id 30 20; mkTrafficDelta user_id 40 10].
Definition bad_batch : list TrafficDelta := [mkTrafficDelta user_id 30 20; mkTrafficDelta "ghost" 1 1].

Definition after_small : World :=
  (ApplyTrafficDeltas node_id small_batch 99 scene).1.
Definition after_big : World :=
  (ApplyTrafficDeltas node_id big_batch 99 scene).1.
Definition after_bad : World :=
  (ApplyTrafficDeltas node_id bad_batch 99 scene).1.
Definition charged_user : User := Eval vm_compute in
  default the_user (t_users (w_db after_small) !! user_id).

Lemma quota_enforced_witness :
  t_users (w_db after_small) !! user_id = Some charged_user ∧
  u_UsedUploadBytes charged_user = 30 ∧ OverQuota charged_user = false.
Proof.
  split; [by_eval|]. split; [reflexivity|].
  apply (quota_enforced node_id small_batch 99 scene after_small [] user_id charged_user);
    [by_eval|by_eval|reflexivity].
Defined.

Lemma batch_exact_witness :
  ∃ u', t_users (w_db after_big) !! user_id = Some u' ∧
    u_UsedUploadBytes u' = 70 ∧ u_UsedDownloadBytes u' = 30 ∧ u_Status u' = UserStatusSuspended.
Proof.
  destruct (batch_exact node_id big_batch 99 scene after_big [user_id] user_id the_user)
    as (u' & Hu & Hup & Hdown & Hst & _).
  - exact scene_ok.
  - by_eval.
  - by_eval.
  - exists u'. rewrite Hu, Hup, Hdown, Hst. repeat split.
Defined.

Lemma batch_atomic_witness : w_db after_bad = w_db (tx_start scene).
Proof.
  apply (batch_atomic node_id bad_batch 99 scene after_bad
    (mapErr (foreign_key_violation "traffic_snapshots_user_id_fkey"))).
  by_eval.
Defined.

(** The node reports 70 bytes up and 5 down for the user. *)
Definition reported : list Stat :=
  [ mkStat "user>>>alice@example.com>>>traffic>>>uplink" 70;
    mkStat "user>>>alice@example.com>>>traffic>>>downlink" 5 ].
Definition the_actor : nodeActor := Eval vm_compute in
  default (newNodeActor (mkNode "" "" "" 0 false "" false "" "" "" false "" None "" 0 0))
    (w_heap connected !! 0%nat).
Definition metered_scene : World :=
  w_set_net (mkDemoNet ∅ reported true : @net demo) connected.

Lemma collect_conserves_witness :
  ∃ u' x', t_users (w_db (collect 0 metered_scene).1) !! user_id = Some u' ∧
    w_heap (collect 0 metered_scene).1 !! 0%nat = Some x' ∧ meter t_Uplink u' x' = 70.
Proof.
  destruct (collect_conserves t_Uplink "uplink" 0 metered_scene
    the_actor node_conn (mkDemoNet ∅ [] true : @net demo) reported user_id the_user)
    as (u' & x' & Hu & Hx & _ & _ & Hm).
  - constructor.
  - exact scene_ok.
  - by_eval.
  - replace (a_pendingDeltas the_actor) with (∅ : gmap string UserTraffic) by by_eval.
    apply map_Forall_empty.
  - reflexivity.
  - reflexivity.
  - by_eval.
  - exists u', x'. rewrite Hu, Hx, Hm. split; [reflexivity|]. split; [reflexivity|]. by_eval.
Defined.

(** ** Convergence *)

Lemma connected_ready : pass_ready 0 connected node_id node_conn.
Proof.
  constructor.
  - exists the_actor. split; [by_eval|]. split; reflexivity.
  - apply demo_accepts.
  - apply (forallb_Forall (λ d, is_ok (buildUser (accountFor d)))). by_eval.
Qed.

Lemma connected_ok : db_ok (w_db connected).
Proof. exact scene_ok. Qed.

Lemma the_assigned w :
  t_user_inbounds (w_db w) = t_user_inbounds (w_db scene) →
  t_inbounds (w_db w) = t_inbounds (w_db scene) → t_users (w_db w) = t_users (w_db scene) →
  assigned (w_db w) node_id the_assignment the_inbound the_user.
Proof. intros H1 H2 H3. unfold assigned. rewrite H1, H2, H3. vm_compute. repeat split. Qed.

Lemma keep_the_assignment : keep the_assignment the_user.
Proof. split; [reflexivity|discriminate]. Qed.

Lemma reconcile_converges_witness :
  ∃ w' acc, reconcile_body 0 connected = (w', Ok tt) ∧
    buildUser (accountFor (desired_row the_assignment the_inbound the_user)) = Ok acc ∧
    on_node w' node_conn "in-1" "alice@example.com" = Some acc.
Proof.
  destruct (reconcile_converges 0 connected node_id node_conn connected_ok connected_ready)
    as (w' & Hrun & Hwanted & _).
  destruct (Hwanted the_assignment the_inbound the_user) as [_ Hnew].
  - apply the_assigned; reflexivity.
  - exact keep_the_assignment.
  - destruct Hnew as (acc & Hb & Hon); [by_eval|].
    exists w', acc. split; [exact Hrun|]. split; [exact Hb|exact Hon].
Defined.

(** The node still holds an account of that email with another id. *)
Definition old_account : ProtoUser := mkProtoUser 0 "alice@example.com" (vless_Account "old-uuid" "").
Definition stale : World := w_set_net
  (mkDemoNet {[("10.0.0.1:8080", "in-1", "alice@example.com") := old_account]} [] true : @net demo) connected.

Lemma stale_account_kept_witness :
  on_node (reconcile 0 stale).1 node_conn "in-1" "alice@example.com" = Some old_account.
Proof.
  apply (stale_account_kept 0 stale node_id node_conn the_assignment the_inbound the_user old_account).
  - exact connected_ok.
  - destruct connected_ready as [H1 H2 H3]. constructor; [exact H1|exact H2|exact H3].
  - apply the_assigned; reflexivity.
  - exact keep_the_assignment.
  - by_eval.
Defined.

Lemma reconcile_bookkeeping_witness :
  ∃ ui', t_user_inbounds (w_db (reconcile 0 connected).1) !! (user_id, inbound_id) = Some ui' ∧
    ui_SyncStatus ui' = SyncApplied.
Proof.
  apply (reconcile_bookkeeping 0 connected node_id node_conn the_assignment the_inbound the_user
    connected_ok connected_ready).
  - apply the_assigned; reflexivity.
  - split; [reflexivity|discriminate].
Defined.

(** *** A second node, and a round over both *)

Definition second_input : NodeService.NodeInput :=
  NodeService.mkNodeInput "edge-2" "10.0.0.2" 8080 false "" false None None None.
Definition second : World :=
  ((NodeService.Create second_input ;;; ensureClient 1) connected).1.
Definition second_id : string := Eval vm_compute in
  from_option (λ x, n_ID (a_node x)) "" (w_heap second !! 1%nat).
Definition second_conn : Conn := mkConn "10.0.0.2:8080" None.
Definition fleet : list visit := [mkVisit 0 node_id node_conn; mkVisit 1 second_id second_conn].

Lemma second_ok : db_ok (w_db second).
Proof.
  pose proof demo_rely. assert (preserves w_ok (NodeService.Create second_input ;;; ensureClient 1)) as Hp
    by (go_inv; eauto using ensureClient_inv with go_inv). exact (Hp connected connected_ok).
Qed.

(** The two actors, as far as a pass looks at them. *)
Definition actor_view (w : World) (a : nat) : option (string * option Conn) :=
  (λ x, (n_ID (a_node x), a_client x)) <$> w_heap w !! a.
Definition buildable (w : World) (node : string) : bool :=
  forallb (λ d, is_ok (buildUser (accountFor d))) (join_assignments (is_desired node) (w_db w)).

Lemma visit_ready w v :
  actor_view w (vi_actor v) = Some (vi_node v, Some (vi_conn v)) → buildable w (vi_node v) = true →
  ready_to w v.
Proof.
  intros Hv Hb. constructor; [|apply demo_accepts|by apply forallb_Forall].
  unfold actor_view in Hv. destruct (w_heap w !! vi_actor v) as [x|]; [|done].
  injection Hv as Hn Hc. by exists x.
Qed.

Lemma fleet_ready_at w :
  actor_view w 0 = Some (node_id, Some node_conn) → buildable w node_id = true →
  actor_view w 1 = Some (second_id, Some second_conn) → buildable w second_id = true →
  Forall (ready_to w) fleet.
Proof. intros ????. apply Forall_cons. split; [by apply visit_ready|]. apply Forall_singleton. by apply visit_ready. Qed.

Lemma fleet_ready : Forall (ready_to second) fleet.
Proof. apply fleet_ready_at; by_eval. Qed.

Lemma fleet_distinct : NoDup (vi_node <$> fleet) ∧ NoDup (target <$> fleet).
Proof. split; apply (bool_decide_unpack _); vm_cast_no_check I. Qed.

Lemma fleet_converges_witness :
  ∃ w', round fleet second = (w', Ok tt) ∧ converged w' node_id node_conn ∧
    converged w' second_id second_conn ∧ is_Some (on_node w' node_conn "in-1" "alice@example.com").
Proof.
  destruct (fleet_converges fleet second) as (w' & E & _ & Hall & _).
  - exact second_ok.
  - exact fleet_ready.
  - apply fleet_distinct.
  - apply fleet_distinct.
  - apply Forall_cons in Hall as [[(Hw & _) H1] Hall]. apply Forall_cons in Hall as [[_ H2] _].
    exists w'. split; [exact E|]. split; [exact H1|]. split; [exact H2|]. apply Hw.
    exists the_assignment, the_inbound, the_user.
    split; [apply the_assigned; by_eval|]. split; [exact keep_the_assignment|]. split; reflexivity.
Defined.

Definition rested : World := (round fleet second).1.

Lemma fleet_at_rest_witness : ∃ w', round fleet rested = (w', Ok tt) ∧ w_db w' = w_db rested.
Proof.
  destruct (round_converges fleet second second_ok fleet_ready) as (w0 & E0 & Hok & Hall & _); [apply fleet_distinct..|].
  destruct (fleet_at_rest fleet rested) as (w' & E & _ & Hd & _).
  - unfold rested. rewrite E0. exact Hok.
  - apply fleet_ready_at; by_eval.
  - unfold rested. rewrite E0. eapply Forall_impl; [exact Hall|]. by intros v [_ Hv].
  - exists w'. split; [exact E|exact Hd].
Defined.

(** ** The system *)

Definition booted : @Sys demo bucket := mkSys world0 None ∅ ∅.
Definition cfg : Worker.Config := mkConfig 30 30 300 90.
Definition create_node : Request := request "root" "" "node".
Definition after_request (rt : route) (r : Request) (s : @Sys demo bucket) : Sys :=
  let out := demo_router (s_limiter s) rt r (s_world s) in
  mkSys out.1 (match out.2 with Ok (l', _) => l' | Err _ => s_limiter s end)
    (s_probed s) (s_exited s).
Definition one_node : @Sys demo bucket := after_request RPostNodes create_node booted.

Lemma booted_boot : boot booted.
Proof. split; [exact empty_db_ok|]. split; reflexivity. Qed.

Lemma request_reachable rt r s : rtc (demo_step cfg) s (after_request rt r s).
Proof. destruct s as [w l pr ex]. apply rtc_once. exact (step_request _ _ _ _ _ cfg rt r w l pr ex). Qed.

Lemma one_node_reachable : rtc (demo_step cfg) booted one_node.
Proof. apply request_reachable. Qed.

Lemma one_node_ok : sys_ok one_node.
Proof. by eapply reachable_ok; [exact demo_rely|exact one_node_reachable|apply boot_ok, booted_boot]. Qed.


(** The heap after the node's settings were updated: the first actor was
    stopped, the second one runs. *)
Definition update_node : Request := request "root" node_id "node".
Definition restarted : @Sys demo bucket := after_request RPatchNode update_node one_node.
Definition second_actor : nodeActor := Eval vm_compute in
  default the_actor (w_heap (s_world restarted) !! 1%nat).

Lemma single_actor_per_node_witness :
  w_actors (s_world restarted) !! node_id = Some 1%nat ∧
  a_stopped (default the_actor (w_heap (s_world restarted) !! 0%nat)) = true.
Proof.
  split; [|by_eval].
  apply (single_actor_per_node codecs server no_metrics new_bucket take cfg booted restarted 1 1
           second_actor second_actor booted_boot);
    [|by_eval|by_eval|reflexivity..].
  etransitivity; [exact one_node_reachable|]. apply request_reachable.
Defined.

#[local] Instance demo_rely_typed : RelyTyped (P := demo).
Proof. intros k db H. exact H. Qed.

Lemma scene_typed : db_typed (w_db scene).
Proof.
  pose proof (@CreateInbound_typed demo _) as Hib.
  assert (preserves (on_tables db_typed) provision_all) as Hp.
  { unfold provision_all. apply preserves_bind; [tables|intros n].
    apply preserves_bind; [apply Hib|intros i1]. apply preserves_bind; [apply Hib|intros i2]. tables. }
  assert (db_typed empty_db) as He by (constructor; apply map_Forall_empty).
  pose proof (Hp world0 He) as H. unfold on_tables in H.
  replace (w_db scene) with (w_db (provision_all world0).1) by by_eval. exact H.
Qed.

(** A node, and a shadowsocks inbound on it, created over HTTP. *)
Definition one_inbound : @Sys demo bucket :=
  after_request RPostNodeInbounds (request "root" node_id "inbound") one_node.
Definition created_inbound_id : string := "id6".

Lemma rows_typed_witness :
  ∃ ib, t_inbounds (w_db (s_world one_inbound)) !! created_inbound_id = Some ib ∧ inbound_typed ib.
Proof.
  destruct (rows_typed codecs server no_metrics new_bucket take cfg booted one_inbound) as [H _].
  - constructor; apply map_Forall_empty.
  - etransitivity; [exact one_node_reachable|]. apply request_reachable.
  - assert (is_Some (t_inbounds (w_db (s_world one_inbound)) !! created_inbound_id)) as [ib Hib]
      by by_eval.
    exists ib. split; [exact Hib|]. exact (dt_inbounds _ H _ _ Hib).
Defined.

(** ** Nodes *)

Lemma nodes_typed_reachable_witness :
  ∃ n, t_nodes (w_db (s_world one_node)) !! node_id = Some n ∧ node_typed n ∧
    DefaultDial n = Ok (channel_of n).
Proof.
  assert (is_Some (t_nodes (w_db (s_world one_node)) !! node_id)) as [n Hn] by by_eval.
  exists n. split; [exact Hn|].
  destruct (nodes_typed_reachable codecs server no_metrics new_bucket take cfg booted one_node) with (id := node_id) (n := n)
    as [H Hd].
  - apply map_Forall_empty.
  - exact one_node_reachable.
  - exact Hn.
  - split; [exact H|exact Hd].
Defined.

(** The node of [one_node] in capitals: the same identifier, another key of the
    manager's map. *)
Definition node_id_upper : string := "ID0".

Lemma delete_node_spec_witness :
  (t_nodes (w_db (NodeService.Delete node_id (s_world one_node)).1) = ∅ ∧
   w_actors (NodeService.Delete node_id (s_world one_node)).1 !! node_id = None) ∧
  (t_nodes (w_db (NodeService.Delete node_id_upper (s_world one_node)).1) = ∅ ∧
   is_Some (w_actors (NodeService.Delete node_id_upper (s_world one_node)).1 !! node_id)) ∧
  (NodeService.Delete "nonsense" (s_world one_node)).2 = Err malformed_uuid.
Proof.
  assert (is_Some (t_nodes (w_db (s_world one_node)) !! node_id)) as [n Hn] by by_eval.
  assert (delete node_id (t_nodes (w_db (s_world one_node))) = ∅) as He by by_eval.
  split; [|split].
  - destruct (NodeService.Delete node_id (s_world one_node)) as [w' r] eqn:E.
    destruct (delete_node_spec node_id (s_world one_node) w' r (proj2 one_node_ok) E) as (H1 & _ & _ & H2).
    split; [|exact H1]. rewrite pg_key_stored, Hn in H2 by (exists n; exact Hn).
    destruct H2 as [_ Hg]. cbn [fst]. rewrite (gone_nodes _ _ _ Hg). exact He.
  - destruct (NodeService.Delete node_id_upper (s_world one_node)) as [w' r] eqn:E.
    destruct (delete_node_spec node_id_upper (s_world one_node) w' r (proj2 one_node_ok) E)
      as (_ & _ & H1 & H2).
    assert (pg_key (t_nodes (w_db (s_world one_node))) node_id_upper = node_id) as Hk by by_eval.
    rewrite Hk, Hn in H2. destruct H2 as [_ Hg]. split.
    + cbn [fst]. rewrite (gone_nodes _ _ _ Hg). exact He.
    + cbn [fst]. rewrite H1 by discriminate. by_eval.
  - destruct (NodeService.Delete "nonsense" (s_world one_node)) as [w' r] eqn:E.
    destruct (delete_node_spec "nonsense" (s_world one_node) w' r (proj2 one_node_ok) E) as (_ & _ & _ & H).
    assert (t_nodes (w_db (s_world one_node)) !! pg_key (t_nodes (w_db (s_world one_node))) "nonsense" = None)
      as Hno by by_eval.
    rewrite Hno in H. exact (proj1 H).
Defined.

Definition moved_input : NodeService.NodeInput :=
  NodeService.mkNodeInput "" "10.0.0.2" 0 false "" false None None None.
Lemma update_node_spec_witness :
  ∃ a x, w_actors (NodeService.Update node_id moved_input (s_world one_node)).1 !! node_id = Some a ∧
    w_heap (NodeService.Update node_id moved_input (s_world one_node)).1 !! a = Some (newNodeActor x) ∧
    n_APIAddress x = "10.0.0.2" ∧ n_Name x = "edge-1".
Proof.
  assert (is_ok (NodeService.Update node_id moved_input (s_world one_node)).2 = true) as Hok by by_eval.
  destruct (NodeService.Update node_id moved_input (s_world one_node)) as [w' [v|e]] eqn:E; [|discriminate Hok].
  destruct (update_node_spec node_id moved_input (s_world one_node) w' v (proj1 one_node_ok)
    (proj2 one_node_ok) E) as (n0 & m & row & a & H1 & H2 & _ & _ & _ & H6 & H7 & _ & _).
  exists a, m.
  assert (n_Name <$> t_nodes (w_db (s_world one_node)) !! node_id = Some "edge-1") as Hname by by_eval.
  assert (pg_key (t_nodes (w_db (s_world one_node))) node_id = node_id) as Hkey by by_eval.
  rewrite Hkey in H1, H6. rewrite H1 in Hname. injection Hname as Hname.
  unfold NodeService.applyTLSMaterial in H2. destruct (ValidateTLSMaterial _ _ _); [discriminate H2|].
  injection H2 as <-. split; [exact H6|]. split; [exact H7|]. split; [reflexivity|]. cbn. exact Hname.
Defined.

(** ** Health *)

Definition down (w : World) : World := w_set_net (mkDemoNet ∅ [] false : @net demo) w.

(** The scene right after start-up, and after a first successful probe, with
    the node gone. *)
Definition never_seen : World := down scene.
Definition probed_heap : gmap nat nodeActor := Eval vm_compute in w_heap (checkHealth 0 scene).1.
Definition lost : World := down (w_set_heap probed_heap scene).
Definition the_node : Node := Eval vm_compute in
  default (mkNode "" "" "" 0 false "" false "" "" "" false "" None "" 0 0)
    (t_nodes (w_db scene) !! node_id).
Definition probed_actor : nodeActor := Eval vm_compute in
  default the_actor (probed_heap !! 0%nat).
Definition fresh_actor : nodeActor := Eval vm_compute in
  default the_actor (scene_heap !! 0%nat).

Lemma lost_health : health_at 0 node_id (mkHealth 0 true 100 NodeStatusOnline) NodeStatusOnline lost.
Proof.
  split; [exists probed_actor|exists the_node]; (split; [by_eval|]); repeat split.
Qed.
Lemma never_seen_health :
  health_at 0 node_id (mkHealth 0 false 0 NodeStatusOnline) NodeStatusOnline never_seen.
Proof.
  split; [exists fresh_actor|exists the_node]; (split; [by_eval|]); repeat split.
Qed.
Lemma lost_fails : all_fail 0 3 lost.
Proof. intros [|[|[|k]]] Hk; [by_eval..|lia]. Qed.
Lemma never_seen_fails : all_fail 0 4 never_seen.
Proof. intros [|[|[|[|k]]]] Hk; [by_eval..|lia]. Qed.

Lemma checkHealth_refines_witness :
  ∃ w1, health_at 0 node_id (mkHealth 1 true 100 NodeStatusOnline) NodeStatusOnline w1 ∧
        checkHealth 0 lost = (w1, Ok tt).
Proof.
  pose proof (checkHealth_refines 0 node_id _ _ lost lost_health) as H.
  assert (answer (probe_of 0 lost).2 = None) as Ha by by_eval. rewrite Ha in H. exact H.
Defined.

Lemma offline_on_third_failure_witness :
  health_at 0 node_id (mkHealth 3 false 100 NodeStatusOffline) NodeStatusOffline (checks 0 3 lost).
Proof.
  apply (offline_on_third_failure 0 node_id 100 NodeStatusOnline NodeStatusOnline lost 3 lost_health
    lost_fails); lia.
Defined.

Lemma never_online_keeps_status_witness :
  ∃ f', health_at 0 node_id (mkHealth f' false 0 NodeStatusOnline) NodeStatusOnline
          (checks 0 4 never_seen).
Proof.
  apply (never_online_keeps_status 0 node_id 0 0 NodeStatusOnline never_seen 4 never_seen_health
    never_seen_fails).
Defined.

(** ** Lifecycle *)

Lemma user_key : pg_key (t_users (w_db scene)) user_id = user_id.
Proof. by_eval. Qed.

Definition month : UserService.RenewInput := UserService.mkRenewInput 30 true (Some plan_id).
Definition renewed_world : World := (UserService.Renew user_id month scene).1.
Definition renewed_user : User := Eval vm_compute in
  default the_user (t_users (w_db renewed_world) !! user_id).

Lemma renew_spec_witness :
  t_users (w_db renewed_world) !! user_id = Some renewed_user ∧
  u_DataLimitBytes renewed_user = Some 1000.
Proof.
  destruct (renew_spec user_id month scene renewed_world renewed_user scene_ok)
    as (u & now1 & now2 & t & _ & _ & _ & Hrow & _); [by_eval|].
  rewrite user_key in Hrow. split; [exact Hrow|reflexivity].
Defined.

Lemma resume_spec_witness :
  ∃ u', (UserService.Resume user_id scene).2 = Ok u' ∧ u_Status u' = UserStatusActive.
Proof.
  destruct (resume_spec user_id scene) as (now & _ & H). rewrite user_key in H.
  assert (t_users (w_db scene) !! user_id = Some the_user) as Hu by by_eval. rewrite Hu in H.
  assert (in_service now the_user = true) as Hs by reflexivity. rewrite Hs in H.
  destruct H as (t & H & _). eexists. split; [exact H|reflexivity].
Defined.

(** The scene's user with an expiry date in the past. *)
Definition overdue : World := with_user (u_set_ExpiresAt (Some 1) the_user) scene.

Lemma expiry_sweep_spec_witness :
  u_Status <$> t_users (w_db (expiry_sweep overdue).1) !! user_id = Some UserStatusExpired.
Proof.
  pose proof (expiry_sweep_spec overdue user_id) as H. cbv zeta in H.
  assert (t_users (w_db overdue) !! user_id = Some (u_set_ExpiresAt (Some 1) the_user)) as Hu
    by by_eval.
  rewrite Hu in H.
  assert (due (clock (w_k overdue)) (u_set_ExpiresAt (Some 1) the_user) = true) as Hd by by_eval.
  rewrite Hd in H. destruct H as [t H]. rewrite H. reflexivity.
Defined.

Definition second_user : UserService.CreateInput :=
  UserService.mkCreateInput "bob@example.com" (Some plan_id) [inbound_id; inbound_id] None None "" None.
Definition bob : User := Eval vm_compute in
  match (UserService.Create second_user scene).2 with Ok u => u | Err _ => the_user end.

Lemma create_spec_witness :
  created second_user (w_db scene) (w_db (UserService.Create second_user scene).1) bob.
Proof.
  pose proof (create_spec second_user scene scene_ok) as H.
  assert (UserService.Create second_user scene =
    ((UserService.Create second_user scene).1, Ok bob)) as Hrun by by_eval.
  rewrite Hrun in H. exact H.
Defined.

Definition reassigned_world : World :=
  (UserService.SetInbounds user_id (Some [inbound_id]) scene).1.


(** ** Billing *)

Definition suspend_unknown : BillingService.BillingEvent :=
  BillingService.mkBillingEvent "evt_1" "suspend" "nobody" "" None None.

Lemma event_at_most_once_witness :
  (BillingService.process_event suspend_unknown scene).2 =
    Err (WrapError ("user with external_id " +:+ quote "nobody" +:+ ": not found") ErrNotFound) ∧
  ∃ w', BillingService.process_event suspend_unknown
          (BillingService.process_event suspend_unknown scene).1 =
        (w', Ok (BillingService.mkBillingResult true "suspend" None)) ∧
        w_db w' = w_db (BillingService.process_event suspend_unknown scene).1.
Proof.
  split; [by_eval|]. apply (event_at_most_once suspend_unknown scene).
  split; [discriminate|reflexivity].
Defined.

Definition provision_again : BillingService.BillingEvent :=
  BillingService.mkBillingEvent "evt_2" "provision" "sub_1" ""
    (Some (BillingService.mkProvisionPayload "carol@example.com" None [inbound_id] None None "")) None.

Lemma provision_idempotent_witness :
  ∃ w', BillingService.execute provision_again scene = (w', Ok (Some the_user)) ∧
        w_db w' = w_db scene.
Proof.
  eapply (provision_idempotent provision_again _ user_id the_user scene scene_ok);
    [reflexivity|reflexivity|discriminate|by_eval|reflexivity].
Defined.

(** The user after a cancel event. *)
Definition cancelled : World := with_user (u_set_Status UserStatusDisabled the_user) scene.
Definition renew_event : BillingService.BillingEvent :=
  BillingService.mkBillingEvent "evt_3" "renew" "sub_1" "" None
    (Some (BillingService.mkRenewPayload 30 true None)).
Definition renewed_cancelled : User := Eval vm_compute in
  match (BillingService.execute renew_event cancelled).2 with Ok (Some u) => u | _ => the_user end.

Lemma cancelled_ok : db_ok (w_db cancelled).
Proof. apply with_user_ok; [exact scene_ok|by_eval|reflexivity..]. Qed.

Lemma renew_keeps_disabled_witness :
  ∃ u', t_users (w_db (BillingService.execute renew_event cancelled).1) !! user_id = Some u' ∧
    u_Status u' = UserStatusDisabled.
Proof.
  destruct (renew_keeps_disabled renew_event user_id (u_set_Status UserStatusDisabled the_user)
    cancelled (BillingService.execute renew_event cancelled).1 (Some renewed_cancelled) cancelled_ok)
    as (u' & _ & Hu & Hs);
    [reflexivity|discriminate|by_eval|reflexivity|reflexivity|by_eval|].
  exists u'. split; [exact Hu|exact Hs].
Defined.

(** ** Removal *)

Lemma delete_spec_witness :
  ∃ w', UserService.Delete user_id scene = (w', Ok tt) ∧ t_users (w_db w') !! user_id = None.
Proof.
  destruct (delete_spec user_id the_user scene scene_ok) as (w' & Hrun & Hdel); [by_eval|].
  exists w'. split; [exact Hrun|]. rewrite (del_users _ _ _ Hdel). apply lookup_delete_eq.
Defined.

(** The account is on the node, the user is deleted, a pass runs. *)
Definition served : World := (reconcile 0 connected).1.
Definition user_deleted : World := (UserService.Delete user_id served).1.

Lemma served_ok : db_ok (w_db served).
Proof. apply (reconcile_inv 0). exact connected_ok. Qed.
Lemma user_deleted_ok : db_ok (w_db user_deleted).
Proof. apply (UserService_Delete_inv user_id). exact served_ok. Qed.
Definition actor_after_delete : nodeActor := Eval vm_compute in
  default the_actor (w_heap user_deleted !! 0%nat).
Lemma user_deleted_ready : pass_ready 0 user_deleted node_id node_conn.
Proof.
  constructor.
  - exists actor_after_delete. split; [by_eval|]. split; reflexivity.
  - apply demo_accepts.
  - replace (join_assignments (is_desired node_id) (w_db user_deleted))
      with (@nil DesiredAssignment) by by_eval. constructor.
Qed.

Definition served_user : User := Eval vm_compute in
  default the_user (t_users (w_db served) !! user_id).

Lemma delete_leaves_account_witness :
  is_Some (on_node (reconcile 0 user_deleted).1 node_conn "in-1" "alice@example.com").
Proof.
  rewrite (delete_leaves_account user_id served_user served user_deleted 0 node_id node_conn "in-1"
    served_ok); [|by_eval|by_eval|exact user_deleted_ok|exact user_deleted_ready].
  exists (mkProtoUser 0 "alice@example.com" (vless_Account "id18" "")). by_eval.
Defined.

(** The inbound is dropped, then put back before the node has been reached. *)
Definition dropped : World :=
  (UserService.SetInbounds user_id (Some [other_inbound_id]) connected).1.
Definition put_back : World :=
  (UserService.SetInbounds user_id (Some [inbound_id; other_inbound_id]) dropped).1.
Definition tombstone : UserInbound := ui_set_SyncStatus SyncRemoving the_assignment.

Lemma dropped_ok : db_ok (w_db dropped).
Proof. apply (SetInbounds_inv user_id (Some [other_inbound_id])). exact connected_ok. Qed.
Lemma put_back_ok : db_ok (w_db put_back).
Proof. apply (SetInbounds_inv user_id (Some [inbound_id; other_inbound_id])). exact dropped_ok. Qed.
Definition actor_put_back : nodeActor := Eval vm_compute in
  default the_actor (w_heap put_back !! 0%nat).
Lemma put_back_ready : pass_ready 0 put_back node_id node_conn.
Proof.
  constructor.
  - exists actor_put_back. split; [by_eval|]. split; reflexivity.
  - apply demo_accepts.
  - apply (forallb_Forall (λ d, is_ok (buildUser (accountFor d)))). by_eval.
Qed.

Lemma reassigned_tombstone_lost_witness :
  t_user_inbounds (w_db (reconcile 0 put_back).1) !! (user_id, inbound_id) = None.
Proof.
  apply (reassigned_tombstone_lost user_id [inbound_id; other_inbound_id] inbound_id tombstone
    the_inbound the_user dropped put_back the_user 0 node_id node_conn dropped_ok);
    [|reflexivity|reflexivity|left|by_eval|exact put_back_ok|exact put_back_ready].
  split; [by_eval|]. split; [by_eval|]. split; [by_eval|reflexivity].
Defined.

(** ** Access *)

Definition key_world : World := (APIKeyService.Create "ci" scene).1.
Definition ci_key : APIKeyService.CreatedKey := Eval vm_compute in
  match (APIKeyService.Create "ci" scene).2 with
  | Ok k => k | Err _ => APIKeyService.mkCreatedKey (mkAPIKey "" "" "" 0 None None) ""
  end.
Definition ci_row : APIKey := Eval vm_compute in
  default (APIKeyService.ck_Key ci_key) (t_api_keys (w_db key_world) !! k_ID (APIKeyService.ck_Key ci_key)).

Lemma verify_spec_witness :
  (APIKeyService.Verify "root" "root" scene).2 = Ok true ∧
  ∃ b, (APIKeyService.Verify "wrong" "root" scene).2 = Ok b ∧
       (b = true ↔ admitted "wrong" "root" (w_db scene)).
Proof.
  split; [by_eval|].
  destruct (verify_spec "wrong" "root" scene) as (w' & b & H & Hb). exists b. by rewrite H.
Defined.

(** The command line of the README, on an environment without variables. *)
Definition silent_driver : Driver :=
  @mkDriver demo (λ _, ret tt) (ret tt) (ret tt) (ret tt) (λ _, ret tt) (ret tt) (λ _, ret tt).
Definition gen_key := runGenKey (λ _, None) (λ _, Err "no such file") (λ _ c, Ok c) (λ _, None)
  silent_driver ["-name"; "ci"].
Definition gen_key_lines : list string := Eval vm_compute in (gen_key scene).2.2.

#[local] Instance silent_driver_laws : DriverLaws silent_driver.
Proof. intros I _. repeat split; intros; apply preserves_ret. Qed.


Lemma key_world_ok : db_ok (w_db key_world).
Proof. apply (APIKeyService_Create_inv "ci"). exact scene_ok. Qed.

Lemma revoked_key_rejected_witness :
  (APIKeyService.Verify (APIKeyService.ck_Plaintext ci_key) "root"
     (APIKeyService.Revoke (k_ID ci_row) key_world).1).2 = Ok false.
Proof.
  apply (revoked_key_rejected (k_ID ci_row) ci_row _ _ key_world _ key_world_ok);
    [by_eval|by_eval|right; discriminate|by_eval].
Defined.

Definition rotated : World := (UserService.RotateSubToken user_id scene).1.
Definition rotated_user : User := Eval vm_compute in
  default the_user (t_users (w_db rotated) !! user_id).
Lemma rotated_ok : db_ok (w_db rotated).
Proof. apply (RotateSubToken_inv user_id). exact scene_ok. Qed.

Lemma rotate_token_witness :
  (GetUserBySubToken (u_SubToken the_user) rotated).2 = Err ErrNotFound.
Proof.
  apply (rotate_token user_id the_user scene rotated rotated_user);
    [by_eval|by_eval|exact scene_ok|by_eval|by_eval|exact rotated_ok|discriminate].
Defined.

Definition ss_inbound : NodeService.InboundInput :=
  NodeService.mkInboundInput "ss" "shadowsocks" 8388 "vpn.example.com" 8388 "" "" "" "" ""
    "" "" "" "" "" "aes-256-gcm" "" "".

Lemma validated_inbound_pushable_witness :
  is_ok (buildUser (accountFor (desired_row the_assignment
    (NodeService.inboundFromInput ss_inbound "id6" "id0") the_user))) = true.
Proof. apply validated_inbound_pushable. reflexivity. Defined.

(** ** Enforcement *)

Definition the_assigned_scene : assigned (w_db connected) node_id the_assignment the_inbound the_user :=
  the_assigned connected eq_refl eq_refl eq_refl.

Lemma suspend_removes_account_witness :
  ∃ w1 u1 w2, UserService.Suspend user_id connected = (w1, Ok u1) ∧
    run_turn 0 ReconcileCh w1 = (w2, Ok true) ∧
    on_node w2 node_conn "in-1" "alice@example.com" = None.
Proof.
  destruct (suspend_removes_account user_id the_user connected 0 node_id node_conn the_assignment
    the_inbound connected_ok) as (w1 & u1 & w2 & H1 & _ & H2 & H3);
    [by_eval|exact the_assigned_scene|reflexivity|by_eval|exact connected_ready|].
  exists w1, u1, w2. split; [exact H1|]. split; [exact H2|exact H3].
Defined.

(** The user has 100 bytes; the node reports 145. *)
Definition twice_reported : list Stat :=
  [ mkStat "user>>>alice@example.com>>>traffic>>>uplink" 140;
    mkStat "user>>>alice@example.com>>>traffic>>>downlink" 5 ].
Definition over_scene : World :=
  w_set_net (mkDemoNet ∅ twice_reported true : @net demo) connected.
Definition cut_world : World := (collect 0 over_scene).1.
Definition cut_user : User := Eval vm_compute in
  default the_user (t_users (w_db cut_world) !! user_id).
Definition cut_actor : nodeActor := Eval vm_compute in
  default the_actor (w_heap cut_world !! 0%nat).

Lemma cut_ready : pass_ready 0 cut_world node_id node_conn.
Proof.
  constructor.
  - exists cut_actor. split; [by_eval|]. split; reflexivity.
  - apply demo_accepts.
  - replace (join_assignments (is_desired node_id) (w_db cut_world))
      with (@nil DesiredAssignment) by by_eval. constructor.
Qed.

Lemma quota_cut_reaches_nodes_witness :
  ∃ w2, run_turn 0 ReconcileCh cut_world = (w2, Ok true) ∧
    on_node w2 node_conn "in-1" "alice@example.com" = None.
Proof.
  apply (quota_cut_reaches_nodes 0 over_scene node_id the_assignment the_inbound the_user user_id
    cut_user 0 node_conn).
  - exact connected_ok.
  - apply the_assigned; reflexivity.
  - reflexivity.
  - reflexivity.
  - by_eval.
  - reflexivity.
  - by_eval.
  - exact cut_ready.
Defined.

(** ** Links *)

(** The inbound of the repository's own tests (sublink/links_test.go). *)
Definition test_user : User :=
  mkUser "id" "alice@example.com" "11111111-1111-1111-1111-111111111111" "s3cret" None "active" None
    0 0 None "tok" "" None 0 0.
Definition test_inbound (protocol network security : string) : Inbound :=
  mkInbound "ib" "n" "tag" protocol 443 "edge.example.com" 443 network security "/ws"
    "edge.example.com" "" "edge.example.com" "chrome" "" "" "" "aes-256-gcm" "" "US" 0 0.

Example vless_ws_tls :
  vlessLink test_user (test_inbound "vless" "ws" "tls") =
  "vless://11111111-1111-1111-1111-111111111111@edge.example.com:443?encryption=none&fp=chrome&host=edge.example.com&path=%2Fws&security=tls&sni=edge.example.com&type=ws#alice@example.com@US".
Proof. by_eval. Qed.

Definition test_bundle : string := Eval vm_compute in
  match V2Ray test_user [test_inbound "vless" "ws" "tls"; test_inbound "trojan" "tcp" "tls"] with
  | Ok s => s | Err _ => ""
  end.

Lemma bundle_one_line_per_inbound_witness :
  ∃ ls, bundle_lines test_bundle = Some ls ∧ length ls = 2%nat.
Proof.
  destruct (bundle_one_line_per_inbound test_user
    [test_inbound "vless" "ws" "tls"; test_inbound "trojan" "tcp" "tls"] test_bundle)
    as (ls & Hls & Hall); [by_eval|discriminate|repeat constructor; discriminate|].
  exists ls. split; [exact Hls|]. apply Forall2_length in Hall. symmetry. exact Hall.
Defined.

Lemma credentials_agree_witness :
  ∃ pu s, buildUser (accountFor (desired_row the_assignment
      (NodeService.inboundFromInput ss_inbound "id6" "id0") the_user)) = Ok pu ∧
    Link the_user (NodeService.inboundFromInput ss_inbound "id6" "id0") = Ok s ∧
    link_agrees (pu_Account pu) s.
Proof.
  destruct (credentials_agree ss_inbound "id6" "id0" the_assignment the_user eq_refl)
    as (pu & s & H1 & _ & H2 & H3 & _).
  exists pu, s. split; [exact H1|]. split; [exact H2|exact H3].
Defined.

(** ** The limiter *)

Definition limiter2 : @ipLimiter bucket := mkIpLimiter ∅ 2.
Definition four_calls : list call :=
  [ mkCall "10.0.0.1" 1000 1000 1001; mkCall "10.0.0.1" 2000 2000 2001;
    mkCall "10.0.0.1" 3000 3000 3001; mkCall "10.0.0.2" 4000 4000 4001 ].

Lemma prune_unobservable_witness :
  run_limiter new_bucket take limiter2 four_calls = [true; true; false; true].
Proof.
  rewrite (prune_unobservable new_bucket take 2 limiter2 four_calls 0);
    [by_eval|reflexivity|by_eval].
Defined.

(** ** The gateway *)

Lemma not_admitted : ¬ admitted "wrong" "root" (w_db scene).
Proof.
  intros [_ [[_ Heq]|(j & k & Hk & _)]]; [discriminate Heq|].
  assert (t_api_keys (w_db scene) = ∅) as He by reflexivity. rewrite He in Hk. discriminate Hk.
Qed.

Lemma auth_required_witness :
  ∃ w', demo_router None RDeleteUser (request "wrong" user_id "") scene =
          (w', Ok (None, unauthorized)) ∧ w_db w' = w_db scene.
Proof.
  destruct (auth_required codecs server no_metrics new_bucket take None RDeleteUser
    (request "wrong" user_id "") scene eq_refl) as [H _].
  destruct (H not_admitted) as (w' & Hrun & Hdb & _). exists w'. split; [exact Hrun|exact Hdb].
Defined.

Lemma webhook_needs_signature_witness :
  ∃ w' l' rs, demo_router None RPostBillingWebhook (request "" "" "suspend") scene = (w', Ok (l', rs)) ∧
    refused rs ∧ w_db w' = w_db scene.
Proof.
  destruct (webhook_needs_signature codecs server no_metrics new_bucket take None
    (request "" "" "suspend") scene) as (w' & l' & rs & H1 & H2 & H3 & _).
  - intros body (_ & _ & _ & _ & Hne). apply Hne. reflexivity.
  - exists w', l', rs. split; [exact H1|]. split; [exact H2|exact H3].
Defined.

Definition sub_request : Request := request "" (u_SubToken the_user) "".
Definition nobody_request : Request := request "" "no-such-token" "".

Lemma subscription_served_witness :
  (∃ rs body ls, (handleSubscription codecs server sub_request scene).2 = Ok rs ∧
    rs_Status rs = 200 ∧ rs_Body rs = Text body ∧ bundle_lines body = Some ls ∧ length ls = 2%nat) ∧
  (handleSubscription codecs server nobody_request scene).2 =
    Ok (writeJSON 404 (ErrorBody "not_found" (Error ErrNotFound))).
Proof.
  split.
  - destruct (subscription_served codecs server sub_request scene scene_ok scene_typed) as (_ & _ & _ & H).
    destruct (H eq_refl user_id the_user) as (rs & H1 & _ & _ & H2); [by_eval|reflexivity|].
    destruct H2 as (body & H2 & H3 & _ & H4); [intros [E|[_ E]]; discriminate E|].
    set (ibs := inbounds_of_user (u_ID the_user) (w_db scene)) in H4.
    assert (length ibs = 2%nat) as Hlen by by_eval.
    assert (Forall plain_host ibs) as Hp.
    { assert (forallb (λ ib, negb (String.eqb (ib_Protocol ib) ProtocolShadowsocks)) ibs = true) as Hp
        by by_eval.
      apply forallb_Forall in Hp. eapply Forall_impl; [exact Hp|]. intros ib Hb E.
      cbn in Hb. rewrite E in Hb. discriminate Hb. }
    unfold bundle_for in H4. destruct ibs as [|ib ibs]; [discriminate Hlen|].
    destruct (H4 Hp) as (ls & H5 & H6).
    exists rs, body, ls. split; [exact H1|]. split; [exact H2|]. split; [exact H3|].
    split; [exact H5|]. apply Forall2_length in H6. rewrite <- H6. exact Hlen.
  - apply (subscription_served codecs server nobody_request scene scene_ok scene_typed); [reflexivity|].
    intros id u Hu. assert (forallb (λ v, negb (String.eqb (u_SubToken v) "no-such-token"))
      (map_to_list (t_users (w_db scene))).*2 = true) as Hall by by_eval.
    apply forallb_Forall in Hall. rewrite Forall_forall in Hall.
    assert (u ∈ (map_to_list (t_users (w_db scene))).*2) as Hin.
    { apply list_elem_of_fmap. exists (id, u). split; [reflexivity|]. apply elem_of_map_to_list. exact Hu. }
    apply Hall in Hin. cbn in Hin. intros E. cbn in E. rewrite E in Hin. discriminate Hin.
Defined.

Definition paged (plan_id : string) : Request :=
  mkRequest (λ _, "") (λ q, if String.eqb q "plan_id" then plan_id else "") (λ _, "")
    "/api/v1/users" "10.1.1.1:5000" (Ok "").

Lemma list_users_page_witness :
  (handleListUsers server (request "" "" "") scene).2 =
    Ok (writeJSON 200 (JUsers [render_user server the_user] 1 1 50)) ∧
  ∃ rs, (handleListUsers server (paged "nonsense") scene).2 = Ok rs ∧ rs_Status rs = 500.
Proof.
  split.
  - pose proof (list_users_page server (request "" "" "") scene) as H.
    assert (paging (request "" "" "") = (1, 50, 0)) as Hp by by_eval. rewrite Hp in H.
    destruct H as (_ & _ & _ & _ & H). cbv zeta in H.
    assert (uuid_ref (t_plans (w_db scene)) (plan_param (list_filter (request "" "" "") 50 0)) = Ok None)
      as Hpl by by_eval.
    rewrite Hpl in H. destruct H as [H _]. rewrite H. vm_compute. reflexivity.
  - pose proof (list_users_page server (paged "nonsense") scene) as H.
    assert (paging (paged "nonsense") = (1, 50, 0)) as Hp by by_eval. rewrite Hp in H.
    destruct H as (_ & _ & _ & _ & H). cbv zeta in H.
    assert (uuid_ref (t_plans (w_db scene)) (plan_param (list_filter (paged "nonsense") 50 0)) =
      Err malformed_uuid) as Hpl by by_eval.
    rewrite Hpl in H. destruct H as [_ H]. exact H.
Defined.

(** ** Refusals *)

Lemma overdue_ok : db_ok (w_db overdue).
Proof. apply with_user_ok; [exact scene_ok|by_eval|reflexivity..]. Qed.

Definition resume_refused := demo_router None RPostResume (request "root" user_id "") overdue.
Definition refusal : Response := Eval vm_compute in
  match resume_refused.2 with Ok (_, rs) => rs | Err _ => noContent end.

Lemma refused_without_effect_witness :
  rs_Status refusal = 400 ∧ t_users (w_db resume_refused.1) = t_users (w_db overdue).
Proof.
  destruct (refused_without_effect codecs server no_metrics new_bucket take None RPostResume
    (request "root" user_id "") overdue resume_refused.1 None refusal overdue_ok) as [H _].
  - reflexivity.
  - apply run_pair; [reflexivity|vm_compute; reflexivity].
  - exact (bool_decide_unpack (rs_Status refusal ∈ refusals) I).
  - split; [reflexivity|]. rewrite H. reflexivity.
Defined.

(** ** Races *)

(** While the account of Alice is pushed, an administrator takes all her
    inbounds away. *)
Definition taken_away : DB → DB := effect (sql_tombstone (λ ui, String.eqb (ui_UserID ui) user_id)).
Definition her_row : DesiredAssignment := desired_row the_assignment the_inbound the_user.

Lemma tombstone_overwritten_witness :
  ∃ ui', t_user_inbounds (w_db (add_one 0 "edge-1" node_conn her_row (raced (S scene_k) taken_away)).1)
           !! (user_id, inbound_id) = Some ui' ∧ ui_SyncStatus ui' = SyncApplied.
Proof.
  destruct (tombstone_overwritten 0 "edge-1" node_conn her_row (raced (S scene_k) taken_away)
    (AddUser node_conn "in-1" (accountFor her_row) (raced (S scene_k) taken_away)).1
    (mkUserInbound user_id inbound_id SyncRemoving None "")) as (ui' & H1 & H2 & _).
  - apply run_pair; [reflexivity|by_eval].
  - discriminate.
  - reflexivity.
  - by_eval.
  - reflexivity.
  - exists ui'. split; [exact H1|exact H2].
Defined.

(** While a note on Alice is saved, the administrator suspends her. *)
Definition suspended_meanwhile : DB → DB :=
  effect (sql_set_user user_id (λ _ u, u_set_Status UserStatusDisabled u)).
Definition note_patch : UserService.UpdateInput :=
  UserService.mkUpdateInput None None None false (Some "paid by transfer") None.

Lemma update_undoes_status_witness :
  ∃ u', t_users (w_db (UserService.Update user_id note_patch (raced (S scene_k) suspended_meanwhile)).1)
          !! user_id = Some u' ∧ u_Status u' = UserStatusActive.
Proof.
  assert (is_Some (t_users (suspended_meanwhile scene_db) !! user_id)) as [r Hr] by by_eval.
  assert (is_ok (UserService.Update user_id note_patch (raced (S scene_k) suspended_meanwhile)).2 = true)
    as Hok by by_eval.
  destruct (UserService.Update user_id note_patch (raced (S scene_k) suspended_meanwhile)) as [w' [v|e]]
    eqn:E; [|discriminate Hok].
  destruct (update_undoes_status user_id note_patch the_user r (raced (S scene_k) suspended_meanwhile) w' v)
    as (u' & H1 & H2 & _).
  - split; [reflexivity|]. intros j db Hj. cbn [interfere racing].
    apply Nat.eqb_neq in Hj. cbn [w_k raced] in Hj. rewrite Hj. reflexivity.
  - by_eval.
  - reflexivity.
  - reflexivity.
  - reflexivity.
  - cbn [interfere racing w_k raced]. rewrite Nat.eqb_refl. exact Hr.
  - exact E.
  - exists u'. split; [exact H1|exact H2].
Defined.

(** ** Authority *)

(** A request without a key changes no more than [moved] allows. *)
Definition intruder : Request := request "" node_id "".

(** A suspended user, resumed over HTTP with the bootstrap key. *)
Definition disabled_user : User := Eval vm_compute in u_set_Status UserStatusDisabled the_user.
Definition disabled_sys : @Sys demo bucket := mkSys (with_user disabled_user scene) None ∅ ∅.
Definition resumed_sys : @Sys demo bucket :=
  after_request RPostResume (request "root" user_id "") disabled_sys.


(** ** A whole run *)


(** The process starts on an empty database with the default configuration,
    serves one request and is asked to stop. *)
Definition default_server : Server := NewServer "" "dev" "none" Config.Config.Default.
Definition after_start : @Sys demo bucket := started Config.Config.Default (Start world0).1.
Definition served_one : @Sys demo bucket :=
  let out := Router codecs default_server no_metrics new_bucket take (s_limiter after_start)
               RGetHealthz (request "" "" "") (s_world after_start) in
  mkSys out.1 (match out.2 with Ok (l', _) => l' | Err _ => s_limiter after_start end)
    (s_probed after_start) (s_exited after_start).

(** The drain after it: both sweepers leave, then Stop returns. *)
Definition drained (s : @Sys demo bucket) : @Draining demo bucket :=
  mkDraining (mkSys (Stop (s_world s)).1 (s_limiter s) (s_probed s) (s_exited s)) false false true.

Lemma served_one_drains : drains (worker_config Config.Config.Default) 0 3
  (mkDraining served_one true true false) (drained served_one).
Proof.
  eapply drains_exit; [apply exit_expiry|]. eapply drains_exit; [apply exit_pruner|].
  eapply drains_exit; [apply exit_return|apply drains_done].
  intros a Ha. exfalso. destruct Ha as [x Hx].
  assert (w_heap (s_world served_one) = ∅) as He by by_eval.
  unfold served_one in He. cbn [s_world] in He. rewrite He in Hx. discriminate Hx.
Qed.

Lemma main_safe_witness :
  w_ok (Stop (s_world served_one)).1 ∧ actors_ok (Stop (s_world served_one)).1.
Proof.
  destruct (main_safe silent_driver (λ _, None) (λ _, Err "no such file") (λ _ c, Ok c) (λ _, None)
    codecs "" "dev" "none" no_metrics new_bucket take ["serve"] world0 (Stop (s_world served_one)).1 0 [])
    as (H1 & H2 & _).
  - exact empty_db_ok.
  - split; reflexivity.
  - apply (main_serve _ _ _ _ silent_driver codecs "" "dev" "none" no_metrics new_bucket take _ _ []); [reflexivity|].
    apply (serve_until _ _ _ _ silent_driver codecs "" "dev" "none" no_metrics new_bucket take [] world0
      Config.Config.Default world0 (Start world0).1 served_one (Signal (Ok tt)) 0 3 (drained served_one)).
    + reflexivity.
    + reflexivity.
    + apply run_pair; [reflexivity|by_eval].
    + apply rtc_once. unfold served_one. apply (step_request codecs default_server no_metrics
        new_bucket take (worker_config Config.Config.Default) RGetHealthz (request "" "" "")
        (Start world0).1 (newIPLimiter 60) ∅ ∅).
    + exact served_one_drains.
    + reflexivity.
  - split; [exact H1|exact H2].
Defined.

(** *** Shutting down with one actor that has not probed yet *)

Definition stopping (s : @Sys demo bucket) : Draining := mkDraining s true true false.
Definition probed_node : @Sys demo bucket :=
  mkSys (checkHealth 0 (s_world one_node)).1 (s_limiter one_node) ({[0%nat]} ∪ s_probed one_node) (s_exited one_node).
Definition left_node : @Sys demo bucket :=
  mkSys (run_turn 0 CtxDone (s_world probed_node)).1 (s_limiter one_node) (s_probed probed_node)
    ({[0%nat]} ∪ s_exited one_node).

Lemma Sys_eta (s : @Sys demo bucket) : s = mkSys (s_world s) (s_limiter s) (s_probed s) (s_exited s).
Proof. by destruct s. Qed.

Lemma one_node_drains : drains cfg 0 5 (stopping one_node) (drained left_node).
Proof.
  unfold stopping. rewrite (Sys_eta one_node).
  assert (is_Some (w_heap (s_world one_node) !! 0%nat)) as H0 by by_eval.
  assert (is_Some (w_heap (s_world probed_node) !! 0%nat)) as [x Hx] by by_eval.
  eapply drains_exit; [apply (exit_probe 0); [exact H0|apply not_elem_of_empty..]|].
  eapply drains_exit; [apply (exit_turn 0 x CtxDone _ (s_world left_node));
    [exact Hx|apply elem_of_union_l, elem_of_singleton_2, eq_refl|apply not_elem_of_empty|reflexivity..]|].
  eapply drains_exit; [apply exit_expiry|]. eapply drains_exit; [apply exit_pruner|].
  eapply drains_exit; [apply exit_return|apply drains_done].
  intros a Ha%elem_of_dom. assert (dom (w_heap (s_world left_node)) = {[0%nat]}) as Hd by by_eval.
  rewrite Hd in Ha. apply elem_of_union_l. exact Ha.
Qed.

Lemma shutdown_terminates_witness :
  work (stopping one_node) = 5%nat ∧
  ∀ x, w_heap (s_world (dr_sys (drained left_node))) !! 0%nat = Some x → a_client x = None.
Proof.
  destruct (shutdown_terminates codecs server no_metrics new_bucket take cfg booted one_node true true 0 5
    (drained left_node)) as (H1 & _ & H3).
  - reflexivity.
  - exact one_node_reachable.
  - exact one_node_drains.
  - destruct H3 as [H3 Hx]; [reflexivity|]. split; [symmetry; exact H3|].
    intros x E. exact (proj2 (Hx _ _ E)).
Defined.

(** ** Reading *)

Definition found_users : list User := Eval vm_compute in
  match (ListUsers (mkUserFilter "active" "" "ALICE" 10 0) scene).2 with Ok (l, _) => l | Err _ => [] end.

Lemma search_spec_witness :
  ∃ found, found_users = firstn 10%nat found ∧ NoDup found ∧ (length found = 1)%nat ∧
    ∀ u, u ∈ found → occurs_in "ALICE" (u_Email u) ∨ occurs_in "ALICE" (u_Note u).
Proof.
  destruct (search_spec "active" "" "ALICE" 10 0 scene
    (ListUsers (mkUserFilter "active" "" "ALICE" 10 0) scene).1 found_users 1)
    as (found & Hnd & _ & Hall & _ & Hl & Ht).
  - exact scene_ok.
  - reflexivity.
  - discriminate.
  - by_eval.
  - exists found. split; [exact Hl|]. split; [exact Hnd|]. split; [lia|].
    intros u Hu. apply Hall in Hu. apply Hu.
Defined.

Definition buckets : list UsageBucket := Eval vm_compute in
  match (UserUsage user_id 0 1000000000000 "node" after_big).2 with Ok l => l | Err _ => [] end.

Lemma usage_exact_witness :
  buckets = [mkUsageBucket node_id 70 30] ∧ NoDup (b_Key <$> buckets).
Proof.
  destruct (usage_exact user_id 0 1000000000000 "node" after_big
    (UserUsage user_id 0 1000000000000 "node" after_big).1 buckets) as (id & _ & _ & _ & H & _).
  - by_eval.
  - split; [reflexivity|exact H].
Defined.
